(* ===== verification/_CoqProject ===== *)
-Q . S2P
Prelude.v
Json.v
CNum.v
Platform.v
PbUtil.v
Messages.v
Protocomm.v
Security0.v
Psa.v
Security1.v
Schemes.v
Sec1Client.v
NetEnv.v
WifiConfig.v
WifiRace.v
ScanPage.v
WifiScan.v
WifiCtrl.v
FakeWifi.v
FakeStack.v
ThreadConfig.v
ThreadScan.v
ThreadCtrl.v
Frame.v
Manager.v
VersionDoc.v
ManagerFrame.v
ManagerInv.v
ManagerFacts.v
InFlight.v
Registration.v
Handlers.v
WifiHistory.v
ThreadHistory.v
Transport.v
Softap.v
Console.v
Ble.v
System.v
SecureChannel.v
Program.v
SavedConnect.v
Samples.v
RefPlatform.v
RefSystem.v
Simulated.v
Witnesses.v
ChannelWitnesses.v
InFlightWitnesses.v
Suites.v
