(* ===== verification/Prelude.v ===== *)
(** * Network provisioning for Zephyr: a verification library

    The repository is a C library that gives a device its network credentials:
    a phone connects over BLE, HTTP or a serial console, opens a session under a
    security scheme, and sends Wi-Fi or Thread credentials, which the device tries
    and reports on. This development translates the library's C code (src/ of the
    repository) into Rocq functions and proves what makes it correct.

    ** Parts of the program, and where they are

    - Protocomm.v (src/protocomm.c, src/protocomm.h): the endpoint table, the
      session, and [protocomm_req_handle], which dispatches a request to the version
      string, the security handshake, or a handler between decryption and
      encryption. A handler, a scheme and a session context are first-order values;
      the class [Callbacks] says what they point to.
    - Security0.v, Security1.v (src/security0.c, src/security1.c): the two
      schemes. Psa.v is the PSA Crypto interface they call. Schemes.v shows that
      both meet the interface Protocomm.v is proved against. Sec1Client.v
      (tests/common/prov_client.c) is the peer of the handshake.
    - WifiConfig.v, WifiScan.v, WifiCtrl.v (src/wifi_*_handler.c) and
      ThreadConfig.v, ThreadScan.v, ThreadCtrl.v (src/thread_*_handler.c): the
      handlers of prov-config, prov-scan and prov-ctrl for the two network types.
      ScanPage.v has the paging loop they share. NetEnv.v is what they call of
      Zephyr's Wi-Fi management and of OpenThread, and the history of those calls.
    - Manager.v (src/network_prov_mgr.c): the public interface. It wires the
      endpoints, starts and stops the transport, emits the application's events and
      renders the version document. [sys] is the state of the whole program: the
      manager, the handlers, the live protocomm objects by address, the platform.
      Json.v and VersionDoc.v are the specification of the version document.
      ManagerFrame.v (what reaches the manager), ManagerInv.v (the invariant over the
      step relation [sys_step]) and ManagerFacts.v (what follows) are its proofs.
    - Softap.v, Console.v, Ble.v (src/protocomm_softap.c, protocomm_console.c,
      protocomm_ble.c): the transports, proved against the interface of
      Transport.v, which System.v shows the manager's program to implement.
      CNum.v has the C library functions they use (strtoul, %u, strstr).
    - Program.v: the manager with its three transports. Their static variables are
      the [sy_tr] of [sys]; the scheme objects' start and stop are the functions of the
      three files (an instance of [SchemeOps], with the contract [SchemeLaws] the
      manager is proved against); their callbacks are [handle_event]. [prog_step] is a
      step of the manager's world or a callback, in any order.
    - SecureChannel.v: the client of Sec1Client.v against the whole program, its
      messages going through the transport's requests to the scheme and the handlers.
    - InFlight.v: one request cut into the parts between which it holds pointers into the
      protocomm object (look-up and decryption, handler, encryption: the same definitions
      [handle_data] of Protocomm.v chains), each interleaved
      with any steps of the rest of the program. Registration.v: the loads of
      [custom_trampoline] against the stores of [endpoint_register] and
      [endpoint_unregister].
      WifiRace.v: a retry of the Wi-Fi handler against the stores of its teardown.
    - Handlers.v, WifiHistory.v, ThreadHistory.v: what the manager and the handlers owe
      each other as a contract ([ServiceProtocol], [HandlerProtocol]) on a condition
      between services and one during a service; whatever meets it holds in every state
      of the whole program. The invariants of the Wi-Fi and of the Thread handler do.
    - SavedConnect.v, Samples.v (samples/*/src/main.c): the applications. The
      reconnection with stored credentials is a function of the platform; main() of each
      sample is a function of [sys], up to where it returns or waits for success.
    - FakeWifi.v (src/sim/wifi/fake_wifi.c): the simulated Wi-Fi driver - its test
      control, its two work items and its wifi_mgmt operations. FakeStack.v runs the
      Wi-Fi configuration and scan handlers on it ([FakeBacked] says how the platform
      hands requests to the driver), and Simulated.v is a concrete such platform.
    - Frame.v: what every operation leaves alone, for a preorder of the caller's
      choice; the manager's proofs are instances.
    - PbUtil.v (src/pb_util.c), Messages.v (proto/), Platform.v: the encoding
      helper, the messages, the kernel's heap, work items and semaphores.
    - RefPlatform.v and RefSystem.v: one concrete machine that satisfies every
      interface; Witnesses.v, ChannelWitnesses.v and InFlightWitnesses.v: every property
      applied to it. Suites.v: the test suites of the repository (tests/), translated
      call for call and evaluated on it.

    ** How the code is translated

    A static structure is a record, an assignment to a field is [r <| f := v |>],
    a function takes and returns the structures it uses and the environment, in
    the order of the code, error returns included. A heap block is an address with
    its contents; the heap records which addresses are allocated. [None] as the
    result of an operation is a fault: a NULL or dangling pointer was followed.
    Code outside the repository - the kernel, nanopb, PSA, net_mgmt, the
    credentials store, OpenThread, the HTTP server, the Bluetooth host - is a class of
    operations; its [*Laws] class states the documented behaviour the proofs use.
    The results of those calls are arbitrary unless a law says otherwise. An
    operation of one component is one step; where the code has concurrent
    contexts, the theorems are about every interleaving of the steps. Finer than that are
    a request in InFlight.v, and, by instructions, the race between attach, timer and
    apply in ThreadConfig.v, the handler slot in Registration.v and the Wi-Fi retry in
    WifiRace.v.

    ** What the theorems show

    - Dispatch and sessions: what an instance gets from the registry operations; a
      request faults exactly where it reaches a data endpoint added with a NULL handler;
      the heap is balanced after every request, but for one block where a handler answers
      with a buffer of length zero; a data request is the chain decrypt, handle, encrypt.
    - Requests in flight: interrupted by anything but the teardown of its service a
      request completes without a fault; a teardown between its parts makes it follow a
      deleted object. A handler registered while requests are served is called with its
      own context if it is the first; replacing or removing one gives no such guarantee.
      A Wi-Fi retry that runs into its teardown leaves nothing behind but may still issue
      its request.
    - Security 1: no payload crosses a session before its peer has proved possession
      of the key; keys are released.
    - Secure channel, through the running program: the handshake completes with the
      same proof of possession (of at most 63 characters, memory and cryptography being
      available), is refused with one that mixes to another keystream, and not with one
      that mixes to the same bytes; every data request is
      served as if it had been made in clear, on every path, and leaves both ends in
      step; what an unauthenticated session lets through.
    - Credentials: the traffic of the Wi-Fi handler with network, store and
      application conforms to an abstract monitor, for the handler alone and in every run
      of the whole program; attempts terminate, reports are truthful; the Thread outcome
      is claimed exactly once, and no Thread attempt of a running program hangs.
    - Scans: storage bounds, blocking starts, lossless paging.
    - Manager: the lifecycle as an invariant over all interleavings, the outcome of a
      start on every branch, the version document as what the application's last accepted set_app_info makes it,
      auto-stop.
    - Transports: from any state every callback completes, but for those that follow the
      pointer a failed BLE or SoftAP start left behind; an HTTP request in several callbacks is
      atomic; a console command and a GATT write are one request; advertising sizes.
    - Samples: reconnecting is bounded in requests and time, its result is the first
      success among the attempts, a reboot asks for exactly what provisioning succeeded
      with; no main() faults, changes the stored credentials or leaves a service behind
      when it returns.
    - Simulated driver: an apply settles, within its budget of attempts, as the
      driver's verdict on exactly the submitted credentials, or as a failure without any
      request where the platform refuses them on the spot (a short passphrase); a scan delivers the
      programmed access points, whole and in order.
    - Departures from the documented intent, as theorems about the code as it is:
      leaked buffers and keys, stale successes, dangling pointers after a failed
      start and under a request in flight, an attempt that survives a rejected apply.

    ** Bounds and fuel

    The table sizes are the code's (8 endpoints of names below 16 bytes, 4 results
    per page, 4096-byte HTTP buffers, 256/448-byte version buffers); the Kconfig
    values are parameters ([build_config]), of which only the range of
    CONFIG_NETWORK_PROV_MAX_CUSTOM_ENDPOINTS (at most 3) is assumed. Fuel occurs in
    specifications only: [Json.parse] (the size of the document is enough),
    [ScanPage.fetch_all] (one more than the number of entries), [Ble.read_all] (one
    more than the length of the response), and the ten digits of a 32-bit [%u].
    The loop of [SavedConnect.connect_saved] counts down the code's five attempts.
    32-bit wrap-around is written out where the code has it ([u8], [u32]).

    ** Not modelled

    The shell and GATT registration tables, how the HTTP server matches a path with
    the resource table of Softap.v, log output, the Kconfig and build files, the
    plumbing of the tests (sockets, HTTP framing, the dummy shell, real time), and of the
    simulated driver the packet stub and the registration with the network stack. An
    operation of a handler runs to its end: a race inside one, other than those named
    above, is not represented. The proofs treat the binary format as
    nanopb's documented round trip, and time only as the order of expiries. The
    spinlock of src/thread_scan_handler.c appears as the atomicity of the steps it
    protects. *)
From Stdlib Require Export ZArith Lia Ascii String.
From stdpp Require Export base tactics option list gmap sets strings relations.


Declare Scope prov_scope.
Delimit Scope prov_scope with prov.
#[global] Open Scope prov_scope.
#[global] Open Scope Z_scope.

Create HintDb prov discriminated.

(** ** Record update

    [r <| f := v |>] is the record [r] with field [f] replaced: the C code
    assigns one field of a static structure at a time and the model keeps that
    shape. A record provides [FieldEta], the setters are derived from it. *)
Class FieldEta (R : Type) := field_eta : R → R.
Class FieldSet {R T : Type} (proj : R → T) := field_set : (T → T) → R → R.
Arguments field_set {R T} proj {_} _ _ : assert.
#[global] Hint Mode FieldEta ! : typeclass_instances.

Ltac derive_field_set :=
  lazymatch goal with
  | |- @FieldSet ?R ?T ?proj =>
      let eta := eval hnf in (@field_eta R _) in
      lazymatch eval pattern proj in eta with
      | ?ctx _ => exact (fun (f : T → T) => ctx (fun r : R => f (proj r)))
      end
  end.
#[global] Hint Extern 1 (FieldSet _) => derive_field_set : typeclass_instances.

Notation "r <| f := v |>" := (field_set f (fun _ => v) r)
  (at level 1, left associativity, f constr, v at level 200, format "r  <| f  :=  v |>") : prov_scope.

(** ** Return codes

    Functions of the program return 0 or a negated errno value (Zephyr's
    <errno.h>). *)
Abbreviation EPERM := 1%Z (only parsing).
Abbreviation ENOENT := 2%Z (only parsing).
Abbreviation EIO := 5%Z (only parsing).
Abbreviation ENOEXEC := 8%Z (only parsing).
Abbreviation ENOMEM := 12%Z (only parsing).
Abbreviation EACCES := 13%Z (only parsing).
Abbreviation EBUSY := 16%Z (only parsing).
Abbreviation ENODEV := 19%Z (only parsing).
Abbreviation EINVAL := 22%Z (only parsing).
Abbreviation ENOSPC := 28%Z (only parsing).
Abbreviation EPROTO := 71%Z (only parsing).
Abbreviation ENOSYS := 88%Z (only parsing).
Abbreviation ENAMETOOLONG := 91%Z (only parsing).
Abbreviation ETIMEDOUT := 116%Z (only parsing).
Abbreviation EALREADY := 120%Z (only parsing).
Abbreviation ENOTSUP := 134%Z (only parsing).
Abbreviation EILSEQ := 138%Z (only parsing).

(** ** Bytes and machine integers *)
Abbreviation bytes := (list Z) (only parsing).

Definition u8 (z : Z) : Z := z mod 2 ^ 8.
Definition u32 (z : Z) : Z := z mod 2 ^ 32.
Definition UINT32_MAX : Z := 2 ^ 32 - 1.

Definition blen {A} (l : list A) : Z := Z.of_nat (length l).

(** Byte-wise exclusive or of two equally long buffers. *)
Definition xor_bytes (a b : bytes) : bytes := zip_with Z.lxor a b.

(** ** C strings

    A [char *] is the string up to its terminating NUL; a nullable one is an
    [option string]. *)
Definition strlen (s : string) : Z := Z.of_nat (String.length s).

(** [strncpy(dst, s, n)] into a destination whose byte [n] is NUL. *)
Definition strncpy (n : nat) (s : string) : string := String.substring 0 n s.

(** The test [p == NULL || p[0] == NUL]. *)
Definition null_or_empty (p : option string) : bool :=
  match p with None => true | Some s => String.eqb s EmptyString end.

(** The bytes of a string, as [memcpy] sees them. *)
Fixpoint str_bytes (s : string) : bytes :=
  match s with
  | EmptyString => []
  | String c s' => Z.of_nat (nat_of_ascii c) :: str_bytes s'
  end.

(** ** Generic lemmas *)
Lemma length_append (s t : string) :
  String.length (s ++ t)%string = (String.length s + String.length t)%nat.
Proof. induction s as [|c s IH]; [done | exact (f_equal S IH)]. Qed.

Lemma append_nil_r (s : string) : (s ++ EmptyString)%string = s.
Proof. induction s as [|c s IH]; [done | exact (f_equal (String c) IH)]. Qed.

Lemma append_assoc' (s t u : string) : ((s ++ t) ++ u)%string = (s ++ (t ++ u))%string.
Proof. induction s as [|c s IH]; [done | exact (f_equal (String c) IH)]. Qed.

Lemma strncpy_fits n s : (String.length s ≤ n)%nat → strncpy n s = s.
Proof.
  unfold strncpy. revert n. induction s as [|c s IH]; intros [|n] Hn; cbn in *; try done; try lia.
  rewrite IH; [done | lia].
Qed.

Lemma length_strncpy n s : String.length (strncpy n s) = Nat.min n (String.length s).
Proof.
  unfold strncpy. revert n. induction s as [|c s IH]; intros [|n]; cbn; try done.
  by rewrite IH.
Qed.

Lemma length_str_bytes s : length (str_bytes s) = String.length s.
Proof. induction s as [|c s IH]; cbn; [done | by rewrite IH]. Qed.

Lemma str_bytes_inj s t : str_bytes s = str_bytes t → s = t.
Proof.
  revert t. induction s as [|c s IH]; intros [|d t] H; cbn in *; try done.
  injection H as Hc Hs. rewrite (IH _ Hs). f_equal.
  rewrite <- (ascii_nat_embedding c), <- (ascii_nat_embedding d). f_equal. lia.
Qed.

Lemma strlen_nonneg s : 0 ≤ strlen s.
Proof. unfold strlen. lia. Qed.

Lemma length_xor_bytes a b : length (xor_bytes a b) = Nat.min (length a) (length b).
Proof. apply length_zip_with. Qed.

Lemma xor_bytes_comm a b : xor_bytes a b = xor_bytes b a.
Proof.
  unfold xor_bytes. revert b. induction a as [|x a IH]; intros [|y b]; cbn; try done.
  by rewrite Z.lxor_comm, IH.
Qed.

(** Xor-ing twice with the same keystream is the identity. *)
Lemma xor_bytes_invol a k : (length a ≤ length k)%nat → xor_bytes (xor_bytes a k) k = a.
Proof.
  unfold xor_bytes. revert k. induction a as [|x a IH]; intros [|y k] H; cbn in *; try done; try lia.
  rewrite Z.lxor_assoc, Z.lxor_nilpotent, Z.lxor_0_r, IH; [done | lia].
Qed.

Lemma xor_bytes_inj_l a b k :
  length a = length k → length b = length k → xor_bytes a k = xor_bytes b k → a = b.
Proof.
  intros Ha Hb H. rewrite <- (xor_bytes_invol a k), <- (xor_bytes_invol b k) by lia. by rewrite H.
Qed.

Lemma xor_bytes_inj_r k a b :
  length a = length k → length b = length k → xor_bytes k a = xor_bytes k b → a = b.
Proof. rewrite !(xor_bytes_comm k). apply xor_bytes_inj_l. Qed.

Lemma take_take_app {A} n (l k : list A) : take n (take n l ++ k) = take n (l ++ k).
Proof.
  rewrite !take_app, take_take, Nat.min_id, length_take.
  by replace (n - n `min` length l)%nat with (n - length l)%nat by lia.
Qed.

Lemma blen_0 (b : bytes) : blen b = 0 → b = [].
Proof. by destruct b. Qed.

Lemma xor_bytes_twice_inv a k l :
  length k = length a → length l = length a → xor_bytes (xor_bytes a k) l = a → k = l.
Proof.
  intros Hk Hl H. apply (xor_bytes_inj_r a); [done..|]. rewrite <- H at 2. symmetry.
  apply xor_bytes_invol. rewrite length_xor_bytes. lia.
Qed.

Lemma u8_bounds z : 0 ≤ u8 z < 256.
Proof. unfold u8. apply Z.mod_pos_bound. lia. Qed.

Lemma u32_bounds z : 0 ≤ u32 z < 2 ^ 32.
Proof. unfold u32. apply Z.mod_pos_bound. lia. Qed.

Lemma u32_small z : 0 ≤ z < 2 ^ 32 → u32 z = z.
Proof. unfold u32. apply Z.mod_small. Qed.

#[export] Hint Resolve strlen_nonneg u8_bounds u32_bounds : prov.
#[export] Hint Rewrite @length_zip_with length_xor_bytes length_append length_str_bytes : prov.

(** ** Automation *)

(** Destruct the scrutinee of a match or conditional of the goal. *)
Ltac dmatch :=
  match goal with
  | |- context [match ?x with _ => _ end] => let E := fresh "E" in destruct x eqn:E
  end.

(** The same in a hypothesis. *)
Ltac dmatch_in H :=
  match type of H with
  | context [match ?x with _ => _ end] => let E := fresh "E" in destruct x eqn:E
  end.

(** Reflect boolean hypotheses into propositions. *)
Ltac breflect :=
  repeat match goal with
  | H : (_ =? _)%Z = true |- _ => apply Z.eqb_eq in H
  | H : (_ =? _)%Z = false |- _ => apply Z.eqb_neq in H
  | H : (_ <? _)%Z = true |- _ => apply Z.ltb_lt in H
  | H : (_ <? _)%Z = false |- _ => apply Z.ltb_ge in H
  | H : (_ <=? _)%Z = true |- _ => apply Z.leb_le in H
  | H : (_ <=? _)%Z = false |- _ => apply Z.leb_gt in H
  | H : (_ && _) = true |- _ => apply andb_true_iff in H; destruct H
  | H : (_ || _) = false |- _ => apply orb_false_iff in H; destruct H
  | H : negb _ = true |- _ => apply negb_true_iff in H
  | H : negb _ = false |- _ => apply negb_false_iff in H
  | H : String.eqb _ _ = true |- _ => apply String.eqb_eq in H
  | H : String.eqb _ _ = false |- _ => apply String.eqb_neq in H
  | H : bool_decide _ = true |- _ => apply bool_decide_eq_true in H
  | H : bool_decide _ = false |- _ => apply bool_decide_eq_false in H
  end.

(** Decide the test [ret == 0] on a literal return code. *)
Ltac rc_simpl :=
  repeat match goal with
  | |- context [Z.eqb (Z.opp (Zpos ?p)) 0] => change (Z.eqb (Z.opp (Zpos p)) 0) with false
  | H : context [Z.eqb (Z.opp (Zpos ?p)) 0] |- _ =>
      change (Z.eqb (Z.opp (Zpos p)) 0) with false in H
  end; cbn in *.

(** Case analysis over all branches of the goal, then the easy closers. *)
Ltac branches := repeat (dmatch; breflect; simplify_eq/=); try done; try lia.
