(* ===== verification/Json.v ===== *)
(** * Json: the fragment of JSON the proto-ver answer is written in

    The specification side of the version string: a document type, its printing
    and a parser for objects, arrays, integers and string literals without
    escapes, which reads back everything that is printed. *)
From S2P Require Import Prelude.

#[local] Arguments String.append !_ _ /.

Inductive json :=
| JStr (s : string)
| JNum (n : nat)
| JArr (l : list json)
| JObj (l : list (string * json)).

(** The quotation mark. *)
Definition DQ : ascii := ascii_of_nat 34.
Definition BACKSLASH : ascii := ascii_of_nat 92.
Definition dq : string := String DQ EmptyString.

(** [json_token_ok] of src/network_prov_mgr.c: a byte a literal may hold. *)
Definition json_char_ok (c : ascii) : bool :=
  let n := nat_of_ascii c in
  negb ((n <? 32)%nat || Ascii.eqb c DQ || Ascii.eqb c BACKSLASH).
Fixpoint json_token_ok (s : string) : bool :=
  match s with
  | EmptyString => true
  | String c s => if json_char_ok c then json_token_ok s else false
  end.

Definition quote (s : string) : string := dq +:+ s +:+ dq.

(** Members and elements, comma separated. *)
Fixpoint sep_by_comma (l : list string) : string :=
  match l with
  | [] => EmptyString
  | [x] => x
  | x :: l => x +:+ "," +:+ sep_by_comma l
  end.

Definition digit (n : nat) : string := String (ascii_of_nat (48 + n)) EmptyString.

Fixpoint print (j : json) : string :=
  match j with
  | JStr s => quote s
  | JNum n => digit n
  | JArr l => "[" +:+ sep_by_comma (map print l) +:+ "]"
  | JObj l => "{" +:+ sep_by_comma (map (fun kv => quote kv.1 +:+ ":" +:+ print kv.2) l) +:+ "}"
  end.

(** A literal up to its closing quote. *)
Fixpoint scan_literal (s : string) : option (string * string) :=
  match s with
  | EmptyString => None
  | String c s =>
      if Ascii.eqb c DQ then Some (EmptyString, s)
      else if json_char_ok c then
        match scan_literal s with Some (t, r) => Some (String c t, r) | None => None end
      else None
  end.

(** One character. *)
Definition eat (c : ascii) (s : string) : option string :=
  match s with String d r => if Ascii.eqb c d then Some r else None | _ => None end.

(** The parser; a list is read after its opening bracket. *)
Fixpoint parse (fuel : nat) (s : string) : option (json * string) :=
  match fuel with
  | O => None
  | S f =>
      match s with
      | String c r =>
          if Ascii.eqb c DQ then '(t, r) ← scan_literal r; Some (JStr t, r)
          else if Ascii.eqb c "[" then
            match eat "]" r with
            | Some r => Some (JArr [], r)
            | None => '(l, r) ← parse_elems f r; Some (JArr l, r)
            end
          else if Ascii.eqb c "{" then
            match eat "}" r with
            | Some r => Some (JObj [], r)
            | None => '(l, r) ← parse_members f r; Some (JObj l, r)
            end
          else if (48 <=? nat_of_ascii c)%nat && (nat_of_ascii c <=? 57)%nat
            then Some (JNum (nat_of_ascii c - 48), r)
          else None
      | EmptyString => None
      end
  end
with parse_elems (fuel : nat) (s : string) : option (list json * string) :=
  match fuel with
  | O => None
  | S f =>
      '(j, r) ← parse f s;
      match eat "," r with
      | Some r => '(l, r) ← parse_elems f r; Some (j :: l, r)
      | None => r ← eat "]" r; Some ([j], r)
      end
  end
with parse_members (fuel : nat) (s : string) : option (list (string * json) * string) :=
  match fuel with
  | O => None
  | S f =>
      r ← eat DQ s;
      '(k, r) ← scan_literal r;
      r ← eat ":" r;
      '(j, r) ← parse f r;
      match eat "," r with
      | Some r => '(l, r) ← parse_members f r; Some ((k, j) :: l, r)
      | None => r ← eat "}" r; Some ([(k, j)], r)
      end
  end.

(** Documents whose literals need no escapes and whose numbers are digits. *)
Fixpoint json_ok (j : json) : bool :=
  match j with
  | JStr s => json_token_ok s
  | JNum n => (n <=? 9)%nat
  | JArr l => forallb json_ok l
  | JObj l => forallb (fun kv => json_token_ok kv.1 && json_ok kv.2) l
  end.

(** Fuel that suffices: the nesting and the lengths of the lists. *)
Fixpoint json_size (j : json) : nat :=
  match j with
  | JStr _ | JNum _ => 1
  | JArr l => S (sum_list_with (fun x => S (json_size x)) l)
  | JObj l => S (sum_list_with (fun kv => S (json_size kv.2)) l)
  end.

Lemma scan_literal_token s r :
  json_token_ok s = true → scan_literal (s +:+ String DQ r) = Some (s, r).
Proof.
  induction s as [|c s IH]; intros Hok; cbn [scan_literal json_token_ok String.append] in *;
    [by rewrite Ascii.eqb_refl|].
  destruct (json_char_ok c) eqn:Hc; [|done].
  assert (Hq : Ascii.eqb c DQ = false).
  { destruct (Ascii.eqb c DQ) eqn:He; [|done]. apply Ascii.eqb_eq in He. subst c. vm_compute in Hc. done. }
  by rewrite Hq, IH.
Qed.

(** A better induction principle: every element of a list is covered. *)
Section json_ind.
Context (P : json → Prop).
Context (HS : ∀ s, P (JStr s)) (HN : ∀ n, P (JNum n)).
Context (HA : ∀ l, Forall P l → P (JArr l)) (HO : ∀ l, Forall (fun kv => P kv.2) l → P (JObj l)).
Fixpoint json_ind' (j : json) : P j :=
  match j with
  | JStr s => HS s
  | JNum n => HN n
  | JArr l => HA l ((fix go (l : list json) : Forall P l := match l with
                                 | [] => Forall_nil_2 P
                                 | x :: l => Forall_cons_2 P x l (json_ind' x) (go l) end) l)
  | JObj l => HO l ((fix go (l : list (string * json)) : Forall (fun kv => P kv.2) l := match l with
                                 | [] => Forall_nil_2 _
                                 | kv :: l => Forall_cons_2 _ kv l (json_ind' kv.2) (go l) end) l)
  end.
End json_ind.

(** What a document starts with is no closing bracket. *)
Lemma print_head j : json_ok j = true →
  ∃ c s, print j = String c s ∧ Ascii.eqb "]" c = false ∧ Ascii.eqb "}" c = false.
Proof.
  destruct j as [t|n|l|l]; cbn [print]; intros Hok.
  - exists DQ, (t +:+ dq). split; [|split]; reflexivity.
  - cbn in Hok. apply Nat.leb_le in Hok. do 2 eexists. split; [reflexivity|].
    do 10 (destruct n as [|n]; [split; reflexivity|]). lia.
  - do 2 eexists. split; [reflexivity|]. split; reflexivity.
  - do 2 eexists. split; [reflexivity|]. split; reflexivity.
Qed.

(** The round trip, for a document and whatever follows it. *)
Definition reads_back (j : json) : Prop :=
  ∀ fuel r, json_ok j = true → (json_size j ≤ fuel)%nat → parse fuel (print j +:+ r) = Some (j, r).

Lemma parse_elems_print l fuel r :
  Forall reads_back l → forallb json_ok l = true → l ≠ [] →
  (sum_list_with (fun x => S (json_size x)) l ≤ fuel)%nat →
  parse_elems fuel (sep_by_comma (map print l) +:+ String "]" r) = Some (l, r).
Proof.
  revert fuel. induction l as [|j l IH]; intros fuel Hl Hok Hne Hf; [done|].
  apply Forall_cons in Hl as [Hj Hl]. cbn in Hok, Hf. apply andb_true_iff in Hok as [Hokj Hok].
  destruct fuel as [|fuel]; [lia|]. cbn [parse_elems]. destruct l as [|j2 l].
  - cbn [map sep_by_comma]. rewrite Hj by (try done; lia). reflexivity.
  - change (sep_by_comma (map print (j :: j2 :: l)))
      with (print j +:+ "," +:+ sep_by_comma (map print (j2 :: l))).
    rewrite !append_assoc', Hj by (try done; lia). cbn -[parse_elems].
    rewrite IH; [done|done|done|done|]. cbn in Hf |- *. lia.
Qed.

Lemma parse_members_print l fuel r :
  Forall (fun kv => reads_back kv.2) l →
  forallb (fun kv => json_token_ok kv.1 && json_ok kv.2) l = true → l ≠ [] →
  (sum_list_with (fun kv => S (json_size kv.2)) l ≤ fuel)%nat →
  parse_members fuel
    (sep_by_comma (map (fun kv => quote kv.1 +:+ ":" +:+ print kv.2) l) +:+ String "}" r) = Some (l, r).
Proof.
  revert fuel. induction l as [|[k j] l IH]; intros fuel Hl Hok Hne Hf; [done|].
  apply Forall_cons in Hl as [Hj Hl]. cbn in Hok, Hf, Hj. apply andb_true_iff in Hok as [Hokj Hok].
  apply andb_true_iff in Hokj as [Hk Hokj].
  destruct fuel as [|fuel]; [lia|]. cbn [parse_members].
  assert (Hmember : ∀ s, eat DQ ((quote k +:+ ":" +:+ print j) +:+ s) =
      Some (k +:+ String DQ (":" +:+ (print j +:+ s)))).
  { intros s. unfold quote, dq. rewrite !append_assoc'. cbn. by rewrite Ascii.eqb_refl. }
  assert (Hscan : ∀ s, scan_literal (k +:+ String DQ s) = Some (k, s))
    by (intros; by apply scan_literal_token).
  destruct l as [|kv2 l].
  - cbn [map sep_by_comma fst snd]. rewrite Hmember. cbn [mbind option_bind]. rewrite Hscan.
    cbn -[parse]. rewrite Hj by (try done; lia). reflexivity.
  - change (sep_by_comma (map ?f ((k, j) :: kv2 :: l)))
      with (f (k, j) +:+ "," +:+ sep_by_comma (map f (kv2 :: l))).
    cbv beta. cbn [fst snd]. rewrite (append_assoc' (quote k +:+ ":" +:+ print j)), Hmember.
    cbn [mbind option_bind]. rewrite Hscan. cbn -[parse parse_members sep_by_comma map].
    rewrite Hj by (try done; lia). cbn -[parse parse_members sep_by_comma map].
    rewrite IH; [done|done|done|done|]. cbn in Hf |- *. lia.
Qed.

Lemma parse_arr fuel s : parse (S fuel) ("[" +:+ s) =
  match eat "]" s with
  | Some r => Some (JArr [], r)
  | None => '(l, r) ← parse_elems fuel s; Some (JArr l, r)
  end.
Proof. reflexivity. Qed.
Lemma parse_obj fuel s : parse (S fuel) ("{" +:+ s) =
  match eat "}" s with
  | Some r => Some (JObj [], r)
  | None => '(l, r) ← parse_members fuel s; Some (JObj l, r)
  end.
Proof. reflexivity. Qed.

(** Everything printed is read back, with exactly the rest left over. *)
Lemma parse_print j : reads_back j.
Proof.
  induction j as [t|n|l IH|l IH] using json_ind'; intros fuel r Hok Hf;
    (destruct fuel as [|fuel]; [cbn in Hf; lia|]).
  - cbn [print parse]. unfold quote, dq. rewrite !append_assoc'. cbn. rewrite Ascii.eqb_refl.
    cbn. by rewrite scan_literal_token.
  - cbn in Hok. apply Nat.leb_le in Hok. do 10 (destruct n as [|n]; [reflexivity|]). lia.
  - destruct l as [|j l]; [reflexivity|]. cbn in Hok. apply andb_true_iff in Hok as Hoks.
    destruct Hoks as [Hj _]. destruct (print_head j Hj) as (c & s & Hp & Hc & _).
    assert (Hhead : ∃ s', sep_by_comma (map print (j :: l)) = String c s').
    { cbn [map sep_by_comma]. rewrite Hp. destruct (map print l); eexists; reflexivity. }
    destruct Hhead as [s' Hs']. pose proof (parse_elems_print (j :: l) fuel r) as Hpe.
    cbn [print]. rewrite !append_assoc'. cbn [String.append parse]. cbn -[parse_elems sep_by_comma map].
    rewrite Hs' in *. cbn -[parse_elems sep_by_comma map] in *. rewrite Hc.
    rewrite Hpe; [done|done|done|done|]. cbn in Hf |- *. lia.
  - destruct l as [|[k j] l]; [reflexivity|].
    assert (Hhead : ∃ s', sep_by_comma (map (fun kv => quote kv.1 +:+ ":" +:+ print kv.2) ((k, j) :: l))
      = String DQ s').
    { cbn [map sep_by_comma]. destruct (map _ l); eexists; reflexivity. }
    destruct Hhead as [s' Hs']. pose proof (parse_members_print ((k, j) :: l) fuel r) as Hpe.
    cbn [print]. rewrite !append_assoc', parse_obj. change ("}" +:+ r) with (String "}" r).
    rewrite Hpe; [|done|done|done|cbn in Hf |- *; lia].
    rewrite Hs'. reflexivity.
Qed.
