(* ===== verification/CNum.v ===== *)
(** * CNum: the C library functions on numbers and strings the transports use

    [strtoul] in base 10, the [%u] conversion, [strstr], and the case-insensitive
    comparison of src/protocomm_softap.c. [ULONG_MAX] depends on the target: it is
    an argument. *)
From S2P Require Import Prelude.

#[local] Arguments String.append !_ _ /.

Definition is_digit (c : ascii) : bool :=
  (48 <=? nat_of_ascii c)%nat && (nat_of_ascii c <=? 57)%nat.
Definition digit_val (c : ascii) : Z := Z.of_nat (nat_of_ascii c) - 48.

(** [isspace] in the C locale. *)
Definition is_space (c : ascii) : bool :=
  let n := nat_of_ascii c in (n =? 32)%nat || ((9 <=? n)%nat && (n <=? 13)%nat).

Fixpoint skip_space (s : string) : string :=
  match s with
  | String c r => if is_space c then skip_space r else s
  | EmptyString => EmptyString
  end.

(** The value of the leading digits, on top of [acc], and what follows them. *)
Fixpoint read_digits (acc : Z) (s : string) : Z * string :=
  match s with
  | String c r => if is_digit c then read_digits (acc * 10 + digit_val c) r else (acc, s)
  | EmptyString => (acc, s)
  end.

Definition read_sign (s : string) : bool * string :=
  match s with
  | String c r =>
      if Ascii.eqb c "-" then (true, r) else if Ascii.eqb c "+" then (false, r) else (false, s)
  | EmptyString => (false, s)
  end.

Definition starts_with_digit (s : string) : bool :=
  match s with String c _ => is_digit c | EmptyString => false end.

(** [strtoul(s, &end, 10)]: the value, [end], and whether errno becomes ERANGE. *)
Definition strtoul (ULONG_MAX : Z) (s : string) : Z * string * bool :=
  let '(neg, digits) := read_sign (skip_space s) in
  if starts_with_digit digits then
    let '(v, rest) := read_digits 0 digits in
    if ULONG_MAX <? v then (ULONG_MAX, rest, true)
    else (if neg : bool then (- v) mod (ULONG_MAX + 1) else v, rest, false)
  else (0, s, false).

(** [%u] of a value of at most ten digits. *)
Definition digit_char (d : Z) : ascii := ascii_of_nat (Z.to_nat (48 + d)).
Fixpoint dec_digits (fuel : nat) (n : Z) (acc : string) : string :=
  match fuel with
  | O => acc
  | S f =>
      let acc' := String (digit_char (n mod 10)) acc in
      if n <? 10 then acc' else dec_digits f (n / 10) acc'
  end.
Definition print_u32 (n : Z) : string := dec_digits 10 n EmptyString.

(** [strstr]: the part of the string from the first occurrence on. *)
Fixpoint strstr (haystack needle : string) : option string :=
  if String.prefix needle haystack then Some haystack
  else match haystack with String _ r => strstr r needle | EmptyString => None end.

Fixpoint string_drop (n : nat) (s : string) : string :=
  match n, s with S n, String _ r => string_drop n r | _, _ => s end.

(** The loop body of [str_ieq]: an upper-case letter is lowered. *)
Definition lower (c : ascii) : ascii :=
  let n := nat_of_ascii c in
  if (65 <=? n)%nat && (n <=? 90)%nat then ascii_of_nat (n + 32) else c.
Fixpoint str_ieq (a b : string) : bool :=
  match a, b with
  | String ca a, String cb b => if Ascii.eqb (lower ca) (lower cb) then str_ieq a b else false
  | EmptyString, EmptyString => true
  | _, _ => false
  end.

(** ** Lemmas *)
Lemma digit_char_ok d : 0 <= d < 10 → is_digit (digit_char d) = true ∧ digit_val (digit_char d) = d.
Proof.
  intros Hd. assert (Hn : ∃ k, d = Z.of_nat k ∧ (k < 10)%nat) by (exists (Z.to_nat d); lia).
  destruct Hn as (k & -> & Hk). do 10 (destruct k as [|k]; [split; reflexivity|]). lia.
Qed.

(** Reading back the printed digits. *)
Lemma read_dec_digits fuel n acc a :
  0 <= n < 10 ^ Z.of_nat (S fuel) →
  ∃ k, 0 <= k ∧ read_digits a (dec_digits (S fuel) n acc) = read_digits (a * 10 ^ k + n) acc.
Proof.
  revert n acc. induction fuel as [|fuel IH]; intros n acc Hn; cbn [dec_digits].
  - assert (Hlt : n < 10) by lia. pose proof (digit_char_ok (n mod 10) ltac:(apply Z.mod_pos_bound; lia)) as [Hd Hv].
    apply Z.ltb_lt in Hlt as Hb. rewrite Hb. cbn [read_digits]. rewrite Hd, Hv. exists 1. split; [lia|].
    rewrite Z.mod_small by lia. f_equal; lia.
  - pose proof (digit_char_ok (n mod 10) ltac:(apply Z.mod_pos_bound; lia)) as [Hd Hv].
    destruct (n <? 10) eqn:Hb; breflect.
    + cbn [read_digits]. rewrite Hd, Hv. exists 1. split; [lia|]. rewrite Z.mod_small by lia. f_equal; lia.
    + assert (Hdiv : 0 <= n / 10 < 10 ^ Z.of_nat (S fuel)).
      { split; [apply Z.div_pos; lia|]. apply Z.div_lt_upper_bound; [lia|].
        replace (10 * 10 ^ Z.of_nat (S fuel)) with (10 ^ Z.of_nat (S (S fuel))); [lia|].
        rewrite <- Z.pow_succ_r by lia. f_equal. lia. }
      destruct (IH (n / 10) (String (digit_char (n mod 10)) acc) Hdiv) as (k & Hk & Hr).
      cbn [dec_digits] in Hr. rewrite Hr. cbn [read_digits]. rewrite Hd, Hv.
      exists (k + 1). split; [lia|]. f_equal. rewrite Z.pow_add_r by lia.
      pose proof (Z.div_mod n 10). lia.
Qed.

Lemma dec_digits_head fuel n acc : 0 <= n →
  starts_with_digit (dec_digits (S fuel) n acc) = true.
Proof.
  revert n acc. induction fuel as [|fuel IH]; intros n acc Hn; cbn [dec_digits].
  - destruct (n <? 10); cbn [starts_with_digit]; apply digit_char_ok, Z.mod_pos_bound; lia.
  - destruct (n <? 10) eqn:Hb; breflect; [cbn [starts_with_digit]; apply digit_char_ok, Z.mod_pos_bound; lia|].
    apply IH. apply Z.div_pos; lia.
Qed.

Lemma dec_digits_length fuel n acc :
  (String.length (dec_digits fuel n acc) ≤ fuel + String.length acc)%nat.
Proof.
  revert n acc. induction fuel as [|fuel IH]; intros n acc; cbn [dec_digits]; [lia|].
  destruct (n <? 10); cbn; [lia|]. specialize (IH (n / 10) (String (digit_char (n mod 10)) acc)). cbn in IH. lia.
Qed.

Lemma dec_digits_app fuel n acc : dec_digits fuel n acc = dec_digits fuel n EmptyString +:+ acc.
Proof.
  revert n acc. induction fuel as [|fuel IH]; intros n acc; [done|]. cbn [dec_digits].
  destruct (n <? 10); [done|]. rewrite (IH _ (String _ acc)), (IH _ (String _ EmptyString)).
  by rewrite append_assoc'.
Qed.

Lemma starts_with_digit_plain s : starts_with_digit s = true → skip_space s = s ∧ read_sign s = (false, s).
Proof.
  destruct s as [|c s]; [done|]. cbn [starts_with_digit skip_space read_sign]. unfold is_digit, is_space.
  intros Hd. apply andb_true_iff in Hd as [Hb H2%Nat.leb_le]. pose proof Hb as H1%Nat.leb_le.
  assert (H3 : (nat_of_ascii c =? 32)%nat || (9 <=? nat_of_ascii c)%nat && (nat_of_ascii c <=? 13)%nat = false).
  { apply orb_false_iff. split; [apply Nat.eqb_neq; lia|]. apply andb_false_iff. right. apply Nat.leb_gt. lia. }
  rewrite H3. split; [done|].
  assert (H4 : Ascii.eqb c "-" = false) by (apply Ascii.eqb_neq; intros ->; by vm_compute in Hb).
  assert (H5 : Ascii.eqb c "+" = false) by (apply Ascii.eqb_neq; intros ->; by vm_compute in Hb).
  by rewrite H4, H5.
Qed.

(** [strtoul] reads back [%u], up to whatever is no digit. *)
Lemma strtoul_print_u32 ULONG_MAX n rest :
  0 <= n <= UINT32_MAX → UINT32_MAX <= ULONG_MAX → starts_with_digit rest = false →
  strtoul ULONG_MAX (print_u32 n +:+ rest) = (n, rest, false).
Proof.
  intros Hn Hmax Hrest. unfold UINT32_MAX in *. unfold print_u32. rewrite <- dec_digits_app. unfold strtoul.
  destruct (starts_with_digit_plain (dec_digits 10 n rest)) as [-> ->]; [apply dec_digits_head; lia|].
  rewrite dec_digits_head by lia.
  destruct (read_dec_digits 9 n rest 0) as (k & _ & ->); [change (10 ^ Z.of_nat 10) with 10000000000; lia|].
  assert (Hread : read_digits (0 * 10 ^ k + n) rest = (n, rest)).
  { rewrite Z.mul_0_l, Z.add_0_l. destruct rest as [|c r]; [done|]. cbn in Hrest |- *. by rewrite Hrest. }
  rewrite Hread. assert (Hle : ULONG_MAX <? n = false) by (apply Z.ltb_ge; lia). by rewrite Hle.
Qed.

Lemma prefix_append p s : String.prefix p (p +:+ s) = true.
Proof. induction p as [|c p IH]; [by destruct s|]. cbn. by destruct (ascii_dec c c). Qed.

Lemma string_drop_append p s : string_drop (String.length p) (p +:+ s) = s.
Proof. induction p as [|c p IH]; [by destruct s|]. exact IH. Qed.

(** The first occurrence, when the text before it has none that reaches into it. *)
Lemma strstr_skip pre needle s :
  (∀ a b, pre = a +:+ b → b ≠ EmptyString → String.prefix needle (b +:+ needle +:+ s) = false) →
  strstr (pre +:+ needle +:+ s) needle = Some (needle +:+ s).
Proof.
  induction pre as [|c pre IH]; intros Hno.
  - change (EmptyString +:+ needle +:+ s) with (needle +:+ s). pose proof (prefix_append needle s) as Hp.
    destruct (needle +:+ s) eqn:He; cbn [strstr]; by rewrite Hp.
  - change (String c pre +:+ needle +:+ s) with (String c (pre +:+ needle +:+ s)). cbn [strstr].
    change (String c (pre +:+ needle +:+ s)) with (String c pre +:+ needle +:+ s).
    rewrite (Hno EmptyString (String c pre)) by done. apply IH. intros a b -> Hb.
    by apply (Hno (String c a) b).
Qed.

Lemma str_ieq_refl s : str_ieq s s = true.
Proof. induction s as [|c s IH]; [done|]. cbn. by rewrite Ascii.eqb_refl. Qed.

(** It is equality up to the case of letters. *)
Fixpoint lower_str (s : string) : string :=
  match s with EmptyString => EmptyString | String c r => String (lower c) (lower_str r) end.
Lemma str_ieq_spec a b : str_ieq a b = true ↔ lower_str a = lower_str b.
Proof.
  revert b. induction a as [|ca a IH]; intros [|cb b]; cbn; try done.
  destruct (Ascii.eqb (lower ca) (lower cb)) eqn:He.
  - apply Ascii.eqb_eq in He. rewrite He, IH. split; [by intros ->|]. by intros [=].
  - apply Ascii.eqb_neq in He. split; [done|]. intros [=]. done.
Qed.
