(* ===== verification/Platform.v ===== *)
(** * Platform: what the program relies on from Zephyr and nanopb

    The kernel heap, delayable work, semaphores and the nanopb codec are not
    part of the repository. They are parameters, given as operation classes;
    the [*Laws] classes state their documented behaviour and are the only facts
    the development uses about them. RefPlatform.v has concrete instances. *)
From S2P Require Import Prelude.

(** ** Kernel heap ([k_malloc] / [k_calloc] / [k_free]) *)
Abbreviation loc := positive (only parsing).

Class KHeap (E : Type) := {
  k_malloc : Z → E → option loc * E;
  k_free : option loc → E → E;
  allocated : E → gset loc;
}.

Class KHeapLaws (E : Type) `{KHeap E} : Prop := {
  k_malloc_some n e l e' :
    k_malloc n e = (Some l, e') → l ∉ allocated e ∧ allocated e' = ({[l]} ∪ allocated e);
  k_malloc_none n e e' : k_malloc n e = (None, e') → allocated e' = allocated e;
  k_free_null e : allocated (k_free None e) = allocated e;
  k_free_some l e : allocated (k_free (Some l) e) = allocated e ∖ {[l]};
}.

(** A heap that is never exhausted. *)
Class HeapAvailable (E : Type) `{KHeap E} : Prop :=
  malloc_avail (n : Z) (e : E) : is_Some (k_malloc n e).1.

(** An output buffer handed back through [outbuf] / [outlen]: the pointer, and
    the [outlen] bytes it points to. *)
Record obuf := mk_obuf { ob_ptr : option loc; ob_data : bytes }.
Definition no_buf : obuf := mk_obuf None [].

(** The blocks owned by an output buffer. *)
Definition buf_locs (b : obuf) : gset loc :=
  match ob_ptr b with Some l => {[l]} | None => ∅ end.

(** ** Kernel objects: delayable work and semaphores *)
Class Kernel := {
  k_work_delayable : Type;
  k_work_init : k_work_delayable;
  (** [k_work_schedule(w, K_MSEC(ms))] *)
  k_work_schedule : Z → k_work_delayable → k_work_delayable;
  k_work_reschedule : Z → k_work_delayable → k_work_delayable;
  k_work_cancel : k_work_delayable → k_work_delayable;
  (** the timer expires and the handler starts *)
  k_work_fire : k_work_delayable → k_work_delayable;
  (** the delay (ms) the work is scheduled with, if it is scheduled *)
  k_work_pending : k_work_delayable → option Z;

  k_sem : Type;
  k_sem_init : Z → Z → k_sem;
  k_sem_give : k_sem → k_sem;
  k_sem_reset : k_sem → k_sem;
  (** [k_sem_take] that does not have to wait; [None] when it would *)
  k_sem_try_take : k_sem → option k_sem;
  k_sem_count : k_sem → Z;
  k_sem_limit : k_sem → Z;
}.

Class KernelLaws `{Kernel} : Prop := {
  k_work_pending_init : k_work_pending k_work_init = None;
  k_work_pending_schedule ms w :
    k_work_pending (k_work_schedule ms w) =
      match k_work_pending w with Some d => Some d | None => Some ms end;
  k_work_pending_reschedule ms w : k_work_pending (k_work_reschedule ms w) = Some ms;
  k_work_pending_cancel w : k_work_pending (k_work_cancel w) = None;
  k_work_pending_fire w : k_work_pending (k_work_fire w) = None;

  k_sem_count_init c n : k_sem_count (k_sem_init c n) = c;
  k_sem_limit_init c n : k_sem_limit (k_sem_init c n) = n;
  k_sem_count_give s : k_sem_count (k_sem_give s) = Z.min (k_sem_count s + 1) (k_sem_limit s);
  k_sem_limit_give s : k_sem_limit (k_sem_give s) = k_sem_limit s;
  k_sem_count_reset s : k_sem_count (k_sem_reset s) = 0;
  k_sem_limit_reset s : k_sem_limit (k_sem_reset s) = k_sem_limit s;
  k_sem_take_none s : k_sem_try_take s = None ↔ k_sem_count s <= 0;
  k_sem_take_some s s' :
    k_sem_try_take s = Some s' →
    k_sem_count s' = k_sem_count s - 1 ∧ k_sem_limit s' = k_sem_limit s;
}.

(** ** nanopb ([pb_decode], [pb_get_encoded_size], [pb_encode])

    One instance per top-level message of proto/. [pb_encode cap m] writes into
    a buffer of [cap] bytes. *)
Class PbMsg (M : Type) := {
  pb_decode : bytes → option M;
  pb_get_encoded_size : M → option Z;
  pb_encode : Z → M → option bytes;
}.

Class PbMsgLaws (M : Type) `{PbMsg M} : Prop := {
  pb_encode_fits n m bs : pb_encode n m = Some bs → blen bs <= n;
  pb_encode_room n m cap :
    pb_get_encoded_size m = Some n → n <= cap → ∃ bs, pb_encode cap m = Some bs ∧ blen bs = n;
  pb_decode_encode n m bs : pb_encode n m = Some bs → pb_decode bs = Some m;
}.

(** ** Derived facts about the heap *)

(** From [e] to [e'] exactly the blocks [s] were newly allocated. *)
Definition heap_extends {E} `{KHeap E} (e : E) (s : gset loc) (e' : E) : Prop :=
  allocated e' = s ∪ allocated e ∧ s ## allocated e.

Section heap_facts.
Context {E : Type} `{KHeapLaws E}.

Lemma free_malloc n e l e' :
  k_malloc n e = (Some l, e') → allocated (k_free (Some l) e') = allocated e.
Proof.
  intros Hm. destruct (k_malloc_some _ _ _ _ Hm) as [Hfresh Halloc].
  rewrite k_free_some, Halloc. set_solver.
Qed.
Lemma k_free_allocated (p : option loc) (e : E) :
  allocated (k_free p e) = allocated e ∖ match p with Some l => {[l]} | None => ∅ end.
Proof. destruct p; [apply k_free_some|]. rewrite k_free_null. set_solver. Qed.

Lemma heap_extends_refl (e : E) : heap_extends e ∅ e.
Proof. split; set_solver. Qed.
End heap_facts.

Lemma pb_encode_sized {M} `{PbMsgLaws M} (m : M) n :
  pb_get_encoded_size m = Some n → ∃ bs, pb_encode n m = Some bs ∧ blen bs = n.
Proof. intros Hn. eapply pb_encode_room; [done|lia]. Qed.
