(* ===== verification/PbUtil.v ===== *)
(** * PbUtil: [network_prov_pb_encode] (src/pb_util.c)

    The shared helper every handler ends with: encode a message into a freshly
    allocated buffer. *)
From S2P Require Import Prelude Platform.

Section pb_util.
Context {E : Type} `{KHeap E} {M : Type} `{PbMsg M}.

(** [network_prov_pb_encode(fields, src, &outbuf, &outlen)]: the return code and
    what the two output parameters hold afterwards. On the error paths they are
    not written; the callers pass [NULL] / 0 in. *)
Definition network_prov_pb_encode (src : M) (e : E) : Z * obuf * E :=
  match pb_get_encoded_size src with
  | None => (- EINVAL, no_buf, e)
  | Some size =>
      match k_malloc (if size =? 0 then 1 else size) e with
      | (None, e1) => (- ENOMEM, no_buf, e1)
      | (Some buf, e1) =>
          match pb_encode size src with
          | None => (- EINVAL, no_buf, k_free (Some buf) e1)
          | Some written => (0, mk_obuf (Some buf) written, e1)
          end
      end
  end.

End pb_util.

Section pb_util_facts.
Context {E : Type} `{KHeapLaws E} {M : Type} `{PbMsgLaws M}.

(** The heap is balanced: exactly the returned buffer is new. *)
Lemma pb_encode_heap (src : M) (e e' : E) rc out :
  network_prov_pb_encode src e = (rc, out, e') →
  allocated e' = buf_locs out ∪ allocated e ∧ buf_locs out ## allocated e.
Proof.
  unfold network_prov_pb_encode. intros Hrun.
  destruct (pb_get_encoded_size src) as [size|] eqn:Hsize; simplify_eq/=; [|set_solver].
  destruct (k_malloc _ e) as [[l|] e1] eqn:Hm.
  - destruct (k_malloc_some _ _ _ _ Hm) as [Hfresh Hall].
    destruct (pb_encode size src) eqn:Henc; simplify_eq/=; [set_solver|].
    rewrite (free_malloc _ _ _ _ Hm). set_solver.
  - simplify_eq/=. rewrite (k_malloc_none _ _ _ Hm). set_solver.
Qed.

(** A successful call hands out a buffer of the advertised size that decodes to
    the message. *)
Lemma pb_encode_ok (src : M) (e e' : E) out :
  network_prov_pb_encode src e = (0, out, e') →
  is_Some (ob_ptr out) ∧ pb_decode (ob_data out) = Some src ∧
  pb_get_encoded_size src = Some (blen (ob_data out)).
Proof.
  unfold network_prov_pb_encode. intros Hrun.
  destruct (pb_get_encoded_size src) as [size|] eqn:Hsize; simplify_eq/=.
  destruct (k_malloc _ e) as [[l|] e1] eqn:Hm; simplify_eq/=.
  destruct (pb_encode_sized _ _ Hsize) as (bs & Henc & Hlen). rewrite Henc in Hrun.
  simplify_eq/=. eauto using pb_decode_encode.
Qed.

(** The return code is one of three, and an error hands out nothing. *)
Lemma pb_encode_codes (src : M) (e e' : E) rc out :
  network_prov_pb_encode src e = (rc, out, e') →
  rc = 0 ∨ (rc = - EINVAL ∨ rc = - ENOMEM) ∧ out = no_buf.
Proof. unfold network_prov_pb_encode. intros Hrun. repeat dmatch_in Hrun; simplify_eq/=; auto. Qed.

(** An encodable message fails only for lack of memory. *)
Lemma pb_encode_total (src : M) (e e' : E) rc out n :
  pb_get_encoded_size src = Some n →
  network_prov_pb_encode src e = (rc, out, e') →
  rc = 0 ∨ rc = - ENOMEM ∧ out = no_buf.
Proof.
  intros Hsize. unfold network_prov_pb_encode. rewrite Hsize. intros Hrun.
  destruct (pb_encode_sized _ _ Hsize) as (bs & Henc & _). rewrite Henc in Hrun.
  repeat dmatch_in Hrun; simplify_eq/=; auto.
Qed.
End pb_util_facts.
