(* ===== verification/Messages.v ===== *)
(** * Messages: the wire messages of proto/ as the handlers see them

    One record per top-level message. Enumerations are open in proto3 (an
    unknown value is kept), so they are integers with named constants; a oneof is
    an inductive type whose constructors are the tags. Unused submessages of the
    other network type are present because a peer may send them. *)
From S2P Require Import Prelude.

(** ** constants.proto *)
Definition Status_Success : Z := 0.
Definition Status_InvalidArgument : Z := 4.
Definition Status_InternalError : Z := 5.

(** ** session.proto, sec0.proto, sec1.proto *)
Definition SecSchemeVersion_SecScheme0 : Z := 0.
Definition SecSchemeVersion_SecScheme1 : Z := 1.
Definition Sec0MsgType_S0_Session_Response : Z := 1.
Definition Sec1MsgType_Session_Command0 : Z := 0.
Definition Sec1MsgType_Session_Response0 : Z := 1.
Definition Sec1MsgType_Session_Command1 : Z := 2.
Definition Sec1MsgType_Session_Response1 : Z := 3.

Inductive sec0_payload := sec0_none | sec0_sc | sec0_sr (status : Z).
Record Sec0Payload := mk_sec0 { s0_msg : Z; s0_payload : sec0_payload }.

Inductive sec1_payload :=
| sec1_none
| sec1_sc0 (client_pubkey : bytes)
| sec1_sr0 (status : Z) (device_pubkey device_random : bytes)
| sec1_sc1 (client_verify_data : bytes)
| sec1_sr1 (status : Z) (device_verify_data : bytes).
Record Sec1Payload := mk_sec1 { s1_msg : Z; s1_payload : sec1_payload }.

Inductive session_proto := proto_none | proto_sec0 (p : Sec0Payload) | proto_sec1 (p : Sec1Payload).
Record SessionData := mk_session { sec_ver : Z; sd_proto : session_proto }.

(** ** network_constants.proto *)
Definition WifiStationState_Connected : Z := 0.
Definition WifiStationState_Connecting : Z := 1.
Definition WifiStationState_Disconnected : Z := 2.
Definition WifiStationState_ConnectionFailed : Z := 3.
Definition WifiConnectFailedReason_AuthError : Z := 0.
Definition WifiConnectFailedReason_WifiNetworkNotFound : Z := 1.
Definition WifiAuthMode_Open : Z := 0.
Definition WifiAuthMode_WEP : Z := 1.
Definition WifiAuthMode_WPA_PSK : Z := 2.
Definition WifiAuthMode_WPA2_PSK : Z := 3.
Definition WifiAuthMode_WPA3_PSK : Z := 6.
Definition ThreadNetworkState_Attached : Z := 0.
Definition ThreadNetworkState_Attaching : Z := 1.
Definition ThreadNetworkState_Dettached : Z := 2.
Definition ThreadNetworkState_AttachingFailed : Z := 3.
Definition ThreadAttachFailedReason_DatasetInvalid : Z := 0.
Definition ThreadAttachFailedReason_ThreadNetworkNotFound : Z := 1.

Record WifiConnectedState := mk_connected {
  wcs_ip4_addr : bytes; wcs_auth_mode : Z; wcs_ssid : bytes; wcs_bssid : bytes; wcs_channel : Z }.
Record ThreadAttachState := mk_attached {
  tas_pan_id : Z; tas_ext_pan_id : bytes; tas_channel : Z; tas_name : bytes }.

(** ** network_config.proto *)
Definition TypeCmdGetWifiStatus : Z := 0.
Definition TypeRespGetWifiStatus : Z := 1.
Definition TypeCmdSetWifiConfig : Z := 2.
Definition TypeRespSetWifiConfig : Z := 3.
Definition TypeCmdApplyWifiConfig : Z := 4.
Definition TypeRespApplyWifiConfig : Z := 5.
Definition TypeCmdGetThreadStatus : Z := 6.
Definition TypeRespGetThreadStatus : Z := 7.
Definition TypeCmdSetThreadConfig : Z := 8.
Definition TypeRespSetThreadConfig : Z := 9.
Definition TypeCmdApplyThreadConfig : Z := 10.
Definition TypeRespApplyThreadConfig : Z := 11.

Record CmdSetWifiConfig := mk_set_wifi {
  sw_ssid : bytes; sw_passphrase : bytes; sw_bssid : bytes; sw_channel : Z }.

Inductive wifi_status_state :=
| wstate_none
| wstate_fail_reason (reason : Z)
| wstate_connected (st : WifiConnectedState)
| wstate_attempt_failed (attempts_remaining : Z).

Inductive thread_status_state :=
| tstate_none | tstate_fail_reason (reason : Z) | tstate_attached (st : ThreadAttachState).

Inductive config_payload :=
| cfg_none
| cfg_cmd_get_wifi_status
| cfg_resp_get_wifi_status (status sta_state : Z) (state : wifi_status_state)
| cfg_cmd_set_wifi_config (cmd : CmdSetWifiConfig)
| cfg_resp_set_wifi_config (status : Z)
| cfg_cmd_apply_wifi_config
| cfg_resp_apply_wifi_config (status : Z)
| cfg_cmd_get_thread_status
| cfg_resp_get_thread_status (status thread_state : Z) (state : thread_status_state)
| cfg_cmd_set_thread_config (dataset : bytes)
| cfg_resp_set_thread_config (status : Z)
| cfg_cmd_apply_thread_config
| cfg_resp_apply_thread_config (status : Z).
Record NetworkConfigPayload := mk_config { cfg_msg : Z; cfg_payload : config_payload }.

(** ** network_scan.proto *)
Definition TypeCmdScanWifiStart : Z := 0.
Definition TypeRespScanWifiStart : Z := 1.
Definition TypeCmdScanWifiStatus : Z := 2.
Definition TypeRespScanWifiStatus : Z := 3.
Definition TypeCmdScanWifiResult : Z := 4.
Definition TypeRespScanWifiResult : Z := 5.
Definition TypeCmdScanThreadStart : Z := 6.
Definition TypeRespScanThreadStart : Z := 7.
Definition TypeCmdScanThreadStatus : Z := 8.
Definition TypeRespScanThreadStatus : Z := 9.
Definition TypeCmdScanThreadResult : Z := 10.
Definition TypeRespScanThreadResult : Z := 11.

Record WiFiScanResult := mk_wifi_result {
  wr_ssid : bytes; wr_channel : Z; wr_rssi : Z; wr_bssid : bytes; wr_auth : Z }.
Record ThreadScanResult := mk_thread_result {
  tr_pan_id : Z; tr_channel : Z; tr_rssi : Z; tr_lqi : Z;
  tr_ext_addr : bytes; tr_network_name : string; tr_ext_pan_id : bytes }.

Inductive scan_payload :=
| scan_none
| scan_cmd_wifi_start (blocking passive : bool) (group_channels period_ms : Z)
| scan_resp_wifi_start
| scan_cmd_wifi_status
| scan_resp_wifi_status (finished : bool) (result_count : Z)
| scan_cmd_wifi_result (start_index count : Z)
| scan_resp_wifi_result (entries : list WiFiScanResult)
| scan_cmd_thread_start (blocking : bool) (channel_mask : Z)
| scan_resp_thread_start
| scan_cmd_thread_status
| scan_resp_thread_status (finished : bool) (result_count : Z)
| scan_cmd_thread_result (start_index count : Z)
| scan_resp_thread_result (entries : list ThreadScanResult).
Record NetworkScanPayload := mk_scan { scan_msg : Z; scan_status : Z; scan_pl : scan_payload }.

(** [max_count] of the result lists (network_scan.options). *)
Definition SCAN_PAGE : nat := 4.

(** ** network_ctrl.proto *)
Definition TypeCtrlReserved : Z := 0.
Definition TypeCmdCtrlWifiReset : Z := 1.
Definition TypeRespCtrlWifiReset : Z := 2.
Definition TypeCmdCtrlWifiReprov : Z := 3.
Definition TypeRespCtrlWifiReprov : Z := 4.
Definition TypeCmdCtrlThreadReset : Z := 5.
Definition TypeRespCtrlThreadReset : Z := 6.
Definition TypeCmdCtrlThreadReprov : Z := 7.
Definition TypeRespCtrlThreadReprov : Z := 8.

Inductive ctrl_payload :=
| ctrl_none
| ctrl_cmd_wifi_reset | ctrl_resp_wifi_reset
| ctrl_cmd_wifi_reprov | ctrl_resp_wifi_reprov
| ctrl_cmd_thread_reset | ctrl_resp_thread_reset
| ctrl_cmd_thread_reprov | ctrl_resp_thread_reprov.
Record NetworkCtrlPayload := mk_ctrl { ctrl_msg : Z; ctrl_status : Z; ctrl_pl : ctrl_payload }.

(** ** Reading a oneof without looking at its tag

    The handlers read [req.payload.cmd_...] after checking only the message type.
    When the peer sent another member, the C code sees that member's memory
    through the wrong type. What it sees depends on the generated structure
    layout, so the view is a parameter. *)
Class UnionViews := {
  view_sc0 : sec1_payload → bytes;
  view_sc1 : sec1_payload → bytes;
  view_set_wifi : config_payload → CmdSetWifiConfig;
  view_set_thread : config_payload → bytes;
  view_wifi_result : scan_payload → Z * Z;
  view_thread_result : scan_payload → Z * Z;
}.

(** Reading the member that was sent gives it back, and a union nothing was
    stored in is zero. *)
Class UnionViewsLaws `{UnionViews} : Prop := {
  view_sc0_same b : view_sc0 (sec1_sc0 b) = b;
  view_sc0_none : view_sc0 sec1_none = [];
  view_sc1_same b : view_sc1 (sec1_sc1 b) = b;
  view_sc1_none : view_sc1 sec1_none = [];
  view_set_wifi_same c : view_set_wifi (cfg_cmd_set_wifi_config c) = c;
  view_set_wifi_none : view_set_wifi cfg_none = mk_set_wifi [] [] [] 0;
  view_set_thread_same d : view_set_thread (cfg_cmd_set_thread_config d) = d;
  view_set_thread_none : view_set_thread cfg_none = [];
  view_wifi_result_same s c : view_wifi_result (scan_cmd_wifi_result s c) = (s, c);
  view_wifi_result_none : view_wifi_result scan_none = (0, 0);
  view_thread_result_same s c : view_thread_result (scan_cmd_thread_result s c) = (s, c);
  view_thread_result_none : view_thread_result scan_none = (0, 0);
}.
