(* ===== verification/Protocomm.v ===== *)
(** * Protocomm: endpoint registry, session and request dispatch (src/protocomm.c)

    Function pointers are first-order values: [Hnd] for request handlers, [Sec]
    for [struct protocomm_security] objects, and the class [Callbacks] resolves
    them. A security context [void *sec_ctx] is a value of type [Ctx]. [E] is
    the rest of the machine: the heap and every other static state the callees
    touch. [None] as the result of a whole operation stands for a fault (a NULL
    function or data pointer followed). *)
From S2P Require Import Prelude Platform.

Definition PROTOCOMM_MAX_ENDPOINTS : nat := 8.
Definition PROTOCOMM_EP_NAME_MAX : nat := 16.

(** Arithmetic over the string lengths and the two table bounds. *)
Ltac pc_lia :=
  unfold strlen, blen, PROTOCOMM_MAX_ENDPOINTS, PROTOCOMM_EP_NAME_MAX in *; first [lia | cbn in *; lia].

Inductive ep_type := EP_DATA | EP_SECURITY | EP_VERSION.
#[export] Instance ep_type_eq_dec : EqDecision ep_type.
Proof. solve_decision. Defined.

(** [struct protocomm_security]. [init] returns the value [*sec_ctx] holds
    afterwards (the caller passes a NULL one in); [encrypt] / [decrypt] and
    [handshake] update the context in place. *)
Record protocomm_security (Ctx E : Type) := mk_security {
  sec_version : Z;
  sec_init : option (option string → E → Z * option Ctx * E);
  sec_cleanup : option (Ctx → E → E);
  sec_handshake :
    option (option Ctx → bytes → E → Z * obuf * option Ctx * E);
  sec_encrypt : option Ctx → bytes → E → Z * bytes * option Ctx * E;
  sec_decrypt : option Ctx → bytes → E → Z * bytes * option Ctx * E;
}.
Arguments mk_security {_ _} _ _ _ _ _ _.
Arguments sec_version {_ _} _.
Arguments sec_init {_ _} _.
Arguments sec_cleanup {_ _} _.
Arguments sec_handshake {_ _} _.
Arguments sec_encrypt {_ _} _ _ _ _.
Arguments sec_decrypt {_ _} _ _ _ _.

(** What a function pointer of the instance points to. *)
Class Callbacks (E Hnd Priv Sec Ctx : Type) := {
  call_handler : Hnd → option Priv → bytes → E → Z * obuf * E;
  security_of : Sec → protocomm_security Ctx E;
}.

Record protocomm_ep (Hnd Priv : Type) := mk_ep {
  ep_name : string;
  ep_ty : ep_type;
  ep_handler : option Hnd;
  ep_priv : option Priv;
}.
Arguments mk_ep {_ _} _ _ _ _.
Arguments ep_name {_ _} _.
Arguments ep_ty {_ _} _.
Arguments ep_handler {_ _} _.
Arguments ep_priv {_ _} _.

(** [endpoints] holds the first [n_endpoints] slots of the array. *)
Record protocomm (Hnd Priv Sec Ctx : Type) := mk_protocomm {
  endpoints : list (protocomm_ep Hnd Priv);
  pc_sec : option Sec;
  pc_pop : option string;
  pc_sec_ctx : option Ctx;
  pc_version : option string;
}.
Arguments mk_protocomm {_ _ _ _} _ _ _ _ _.
Arguments endpoints {_ _ _ _} _.
Arguments pc_sec {_ _ _ _} _.
Arguments pc_pop {_ _ _ _} _.
Arguments pc_sec_ctx {_ _ _ _} _.
Arguments pc_version {_ _ _ _} _.

#[export] Instance protocomm_eta {Hnd Priv Sec Ctx} : FieldEta (protocomm Hnd Priv Sec Ctx) :=
  fun r => mk_protocomm (endpoints r) (pc_sec r) (pc_pop r) (pc_sec_ctx r) (pc_version r).

Section protocomm_ops.
Context {E Hnd Priv Sec Ctx : Type} `{HH : KHeap E} `{CB : Callbacks E Hnd Priv Sec Ctx}.

Local Abbreviation pcomm := (protocomm Hnd Priv Sec Ctx).
Local Abbreviation endpoint := (protocomm_ep Hnd Priv).

(** [sizeof(struct protocomm)] is a property of the target ABI; any positive
    size does. *)
Context (sizeof_protocomm : Z).

(** The zero-filled block [k_calloc] returns. *)
Definition protocomm_zero : pcomm := mk_protocomm [] None None None None.

Definition protocomm_new (e : E) : option (loc * pcomm) * E :=
  match k_malloc sizeof_protocomm e with
  | (Some l, e') => (Some (l, protocomm_zero), e')
  | (None, e') => (None, e')
  end.

Definition find_ep (pc : pcomm) (name : string) : option endpoint :=
  snd <$> list_find (fun ep : endpoint => ep_name ep = name) (endpoints pc).

Definition add_ep (pc : option pcomm) (name : option string) (type : ep_type)
    (handler : option Hnd) (priv : option Priv) : Z * option pcomm :=
  match pc, name with
  | Some p, Some n =>
      if (Z.of_nat PROTOCOMM_EP_NAME_MAX <=? strlen n) then (- ENAMETOOLONG, pc)
      else if bool_decide (is_Some (find_ep p n)) then (- EALREADY, pc)
      else if bool_decide (PROTOCOMM_MAX_ENDPOINTS ≤ length (endpoints p))%nat then (- ENOMEM, pc)
      else
        let ep := mk_ep (strncpy (PROTOCOMM_EP_NAME_MAX - 1) n) type handler priv in
        (0, Some (p <| endpoints := endpoints p ++ [ep] |>))
  | _, _ => (- EINVAL, pc)
  end.

Definition protocomm_add_endpoint (pc : option pcomm) (name : option string)
    (handler : option Hnd) (priv : option Priv) : Z * option pcomm :=
  add_ep pc name EP_DATA handler priv.

Definition protocomm_set_security (pc : option pcomm) (name : option string)
    (sec : option Sec) (pop : option string) : Z * option pcomm :=
  match sec with
  | None => (- EINVAL, pc)
  | Some s =>
      match add_ep pc name EP_SECURITY None None with
      | (ret, pc') =>
          if negb (ret =? 0) then (ret, pc')
          else (0, (fun p : pcomm => p <| pc_sec := Some s |> <| pc_pop := pop |>) <$> pc')
      end
  end.

Definition protocomm_set_version (pc : option pcomm) (name : option string)
    (version : option string) : Z * option pcomm :=
  match version with
  | None => (- EINVAL, pc)
  | Some v =>
      match add_ep pc name EP_VERSION None None with
      | (ret, pc') =>
          if negb (ret =? 0) then (ret, pc')
          else (0, (fun p : pcomm => p <| pc_version := Some v |>) <$> pc')
      end
  end.

Definition protocomm_close_session (pc : option pcomm) (e : E) : option pcomm * E :=
  match pc with
  | Some p =>
      match pc_sec p, pc_sec_ctx p with
      | Some sec, Some ctx =>
          let e' := match sec_cleanup (security_of sec) with Some f => f ctx e | None => e end in
          (Some (p <| pc_sec_ctx := None |>), e')
      | _, _ => (pc, e)
      end
  | None => (pc, e)
  end.

Definition protocomm_open_session (pc : option pcomm) (e : E) : option pcomm * E :=
  match pc with
  | Some p =>
      match pc_sec p with
      | Some sec =>
          match protocomm_close_session pc e with
          | (Some p1, e1) =>
              match sec_init (security_of sec) with
              | Some init =>
                  let '(ret, ctx, e2) := init (pc_pop p1) e1 in
                  (Some (p1 <| pc_sec_ctx := if negb (ret =? 0) then None else ctx |>), e2)
              | None => (Some p1, e1)
              end
          | (None, e1) => (None, e1)
          end
      | None => (pc, e)
      end
  | None => (pc, e)
  end.

Definition protocomm_delete (pc : option (loc * pcomm)) (e : E) : E :=
  match pc with
  | None => e
  | Some (l, p) =>
      let '(_, e1) := protocomm_close_session (Some p) e in
      k_free (Some l) e1
  end.

Definition handle_version (pc : pcomm) (e : E) : option (Z * obuf * E) :=
  v ← pc_version pc;
  let len := strlen v in
  match k_malloc len e with
  | (None, e1) => Some (- ENOMEM, no_buf, e1)
  | (Some out, e1) => Some (0, mk_obuf (Some out) (str_bytes v), e1)
  end.

(** The plaintext request: the block it is in, its bytes. *)
Definition decrypt_request (sec : protocomm_security Ctx E) (ctx : option Ctx) (inbuf : bytes)
    (e : E) : Z * obuf * option Ctx * E :=
  if 0 <? blen inbuf then
    match k_malloc (blen inbuf) e with
    | (None, e1) => (- ENOMEM, no_buf, ctx, e1)
    | (Some plain, e1) =>
        let '(ret, data, ctx', e2) := sec_decrypt sec ctx inbuf e1 in
        if negb (ret =? 0) then (ret, no_buf, ctx', k_free (Some plain) e2)
        else (0, mk_obuf (Some plain) data, ctx', e2)
    end
  else (0, no_buf, ctx, e).

(** The call through the endpoint's pointer; the plaintext is released after it, and what
    a failing handler left in its output is, too. *)
Definition run_endpoint (ep : endpoint) (plain : obuf) (e : E) : option (Z * obuf * E) :=
  handler ← ep_handler ep;
  let '(ret, raw, e1) := call_handler handler (ep_priv ep) (ob_data plain) e in
  let e2 := k_free (ob_ptr plain) e1 in
  Some (if negb (ret =? 0) then (ret, no_buf, k_free (ob_ptr raw) e2) else (0, raw, e2)).

(** The encryption of the handler's response into the block allocated for it. *)
Definition encrypt_into (sec : protocomm_security Ctx E) (ctx : option Ctx) (raw : obuf) (enc : loc)
    (e : E) : Z * obuf * option Ctx * E :=
  let '(ret, data, ctx', e1) := sec_encrypt sec ctx (ob_data raw) e in
  let e2 := k_free (ob_ptr raw) e1 in
  if negb (ret =? 0) then (ret, no_buf, ctx', k_free (Some enc) e2)
  else (0, mk_obuf (Some enc) data, ctx', e2).

(** The encrypted response, from the handler's raw one. *)
Definition encrypt_response (sec : protocomm_security Ctx E) (ctx : option Ctx) (raw : obuf)
    (e : E) : Z * obuf * option Ctx * E :=
  if blen (ob_data raw) =? 0 then (0, no_buf, ctx, e)
  else
    match k_malloc (blen (ob_data raw)) e with
    | (None, e1) => (- ENOMEM, no_buf, ctx, k_free (ob_ptr raw) e1)
    | (Some enc, e1) => encrypt_into sec ctx raw enc e1
    end.

Definition handle_data (pc : pcomm) (ep : endpoint) (inbuf : bytes) (e : E)
    : option (Z * obuf * pcomm * E) :=
  sec ← pc_sec pc;
  let ops := security_of sec in
  let '(ret, plain, ctx1, e1) := decrypt_request ops (pc_sec_ctx pc) inbuf e in
  let pc1 := pc <| pc_sec_ctx := ctx1 |> in
  if negb (ret =? 0) then Some (ret, no_buf, pc1, e1)
  else
    '(ret2, raw, e2) ← run_endpoint ep plain e1;
    if negb (ret2 =? 0) then Some (ret2, no_buf, pc1, e2)
    else
      let '(ret3, enc, ctx2, e3) := encrypt_response ops ctx1 raw e2 in
      Some (ret3, enc, pc1 <| pc_sec_ctx := ctx2 |>, e3).

(** [outs] says that neither [outbuf] nor [outlen] is NULL. *)
Definition protocomm_req_handle (pc : option pcomm) (name : option string) (inbuf : bytes)
    (outs : bool) (e : E) : option (Z * obuf * option pcomm * E) :=
  match pc, name, outs with
  | Some p, Some n, true =>
      match find_ep p n with
      | None => Some (- ENOENT, no_buf, pc, e)
      | Some ep =>
          match ep_ty ep with
          | EP_VERSION =>
              '(ret, out, e1) ← handle_version p e;
              Some (ret, out, pc, e1)
          | EP_SECURITY =>
              match pc_sec p with
              | None => Some (- ENOSYS, no_buf, pc, e)
              | Some sec =>
                  match sec_handshake (security_of sec) with
                  | None => Some (- ENOSYS, no_buf, pc, e)
                  | Some handshake =>
                      let '(ret, out, ctx', e1) := handshake (pc_sec_ctx p) inbuf e in
                      Some (ret, out, Some (p <| pc_sec_ctx := ctx' |>), e1)
                  end
              end
          | EP_DATA =>
              match pc_sec p, pc_sec_ctx p with
              | Some _, Some _ =>
                  '(ret, out, p1, e1) ← handle_data p ep inbuf e;
                  Some (ret, out, Some p1, e1)
              | _, _ => Some (- EACCES, no_buf, pc, e)
              end
          end
      end
  | _, _, _ => Some (- EINVAL, no_buf, pc, e)
  end.

Definition protocomm_endpoint_count (pc : option pcomm) : nat :=
  match pc with Some p => length (endpoints p) | None => 0%nat end.

Definition protocomm_endpoint_name (pc : option pcomm) (idx : nat) : option string :=
  match pc with
  | None => None
  | Some p =>
      if bool_decide (length (endpoints p) ≤ idx)%nat then None
      else ep_name <$> endpoints p !! idx
  end.

End protocomm_ops.

(** ** Well-formed instances *)
Section protocomm_wf.
Context {E Hnd Priv Sec Ctx : Type} `{HH : KHeap E} `{CB : Callbacks E Hnd Priv Sec Ctx}.

Local Abbreviation pcomm := (protocomm Hnd Priv Sec Ctx).
Local Abbreviation endpoint := (protocomm_ep Hnd Priv).

(** What the registry itself keeps of an endpoint: a name that fits, and that what an
    endpoint of the library answers from is there. *)
Definition ep_kept (p : pcomm) (ep : endpoint) : Prop :=
  strlen (ep_name ep) < Z.of_nat PROTOCOMM_EP_NAME_MAX ∧
  match ep_ty ep with
  | EP_DATA => True
  | EP_SECURITY => is_Some (pc_sec p)
  | EP_VERSION => is_Some (pc_version p)
  end.

(** Nothing checks the handler of a data endpoint. *)
Definition ep_handled (ep : endpoint) : Prop := ep_ty ep = EP_DATA → is_Some (ep_handler ep).

Record pc_kept (p : pcomm) : Prop := mk_pc_kept {
  wf_names : NoDup (ep_name <$> endpoints p);
  wf_count : (length (endpoints p) ≤ PROTOCOMM_MAX_ENDPOINTS)%nat;
  wf_eps : Forall (ep_kept p) (endpoints p);
}.

(** With the handlers there too, dispatch follows no NULL pointer. *)
Record pc_wf (p : pcomm) : Prop := mk_pc_wf {
  wf_kept : pc_kept p;
  wf_handled : Forall ep_handled (endpoints p);
}.

(** The calls a client of the module makes on an existing instance. *)
Inductive pc_step : pcomm * E → pcomm * E → Prop :=
| step_add p e name h priv rc p' :
    protocomm_add_endpoint (Some p) name h priv = (rc, Some p') →
    pc_step (p, e) (p', e)
| step_security p e name sec pop rc p' :
    protocomm_set_security (Some p) name sec pop = (rc, Some p') → pc_step (p, e) (p', e)
| step_version p e name v rc p' :
    protocomm_set_version (Some p) name v = (rc, Some p') → pc_step (p, e) (p', e)
| step_open p e p' e' :
    protocomm_open_session (Some p) e = (Some p', e') → pc_step (p, e) (p', e')
| step_close p e p' e' :
    protocomm_close_session (Some p) e = (Some p', e') → pc_step (p, e) (p', e')
| step_req p e name inbuf outs rc out p' e' :
    protocomm_req_handle (Some p) name inbuf outs e = Some (rc, out, Some p', e') →
    pc_step (p, e) (p', e').

Lemma find_ep_some (p : pcomm) n ep :
  find_ep p n = Some ep → ep ∈ endpoints p ∧ ep_name ep = n.
Proof.
  unfold find_ep. intros Hf. apply fmap_Some in Hf as ([i x] & Hf & ->).
  apply list_find_Some in Hf as (Hl & Hn & _). split; [by eapply list_elem_of_lookup_2|done].
Qed.

Lemma find_ep_none (p : pcomm) n : find_ep p n = None ↔ n ∉ ep_name <$> endpoints p.
Proof.
  unfold find_ep. rewrite fmap_None, list_find_None, Forall_forall.
  split.
  - intros Hall Hin. apply list_elem_of_fmap in Hin as (ep & -> & Hin). by eapply Hall.
  - intros Hni ep Hin Hn. apply Hni, list_elem_of_fmap. eauto.
Qed.

(** With unique names, looking up the name of an endpoint finds that endpoint. *)
Lemma find_ep_unique (p : pcomm) i ep :
  NoDup (ep_name <$> endpoints p) → endpoints p !! i = Some ep →
  find_ep p (ep_name ep) = Some ep.
Proof.
  intros Hdup Hi. unfold find_ep. apply fmap_Some. exists (i, ep). split; [|done].
  apply list_find_Some. split; [done|]. split; [done|].
  intros j y Hj Hlt Heq.
  assert (i = j); [|lia].
  eapply NoDup_lookup; [exact Hdup| |]; rewrite list_lookup_fmap; [by rewrite Hi|].
  rewrite Hj. cbn. by rewrite Heq.
Qed.

(** A new last endpoint is invisible under every other name. *)
Lemma find_ep_snoc_ne (p : pcomm) ep m :
  m ≠ ep_name ep → find_ep (p <| endpoints := endpoints p ++ [ep] |>) m = find_ep p m.
Proof.
  intros Hm. unfold find_ep. cbn.
  destruct (list_find _ (endpoints p)) as [[i x]|] eqn:Hf.
  - by rewrite (list_find_app_l _ _ _ _ _ Hf).
  - rewrite (proj2 (list_find_app_None _ _ _)); [done|]. split; [done|].
    cbn. by rewrite decide_False by done.
Qed.

(** Every outcome of [add_ep] on an instance. *)
Lemma add_ep_cases (p : pcomm) name ty h priv rc pc' :
  add_ep (Some p) name ty h priv = (rc, pc') →
  (rc = 0 ∧ ∃ n, name = Some n ∧ strlen n < Z.of_nat PROTOCOMM_EP_NAME_MAX ∧
     find_ep p n = None ∧ (length (endpoints p) < PROTOCOMM_MAX_ENDPOINTS)%nat ∧
     pc' = Some (p <| endpoints := endpoints p ++ [mk_ep n ty h priv] |>)) ∨
  (rc < 0 ∧ pc' = Some p).
Proof.
  unfold add_ep. destruct name as [n|]; intros Hadd; [|by simplify_eq/=; right].
  repeat dmatch_in Hadd; breflect; simplify_eq/=; [right; split; [lia|done]..|].
  left. split; [done|]. exists n. rewrite strncpy_fits by pc_lia.
  repeat split; [done| |lia].
  by apply eq_None_not_Some.
Qed.

Lemma pc_wf_zero : pc_wf protocomm_zero.
Proof. split; [split|]; cbn; [constructor | lia | constructor | constructor]. Qed.

(** Changing only the session context keeps an instance well formed. *)
Lemma pc_kept_ctx (p : pcomm) ctx : pc_kept p → pc_kept (p <| pc_sec_ctx := ctx |>).
Proof. intros [Hn Hc He]. split; cbn; [done..|]. eapply Forall_impl; [exact He|]. done. Qed.
Lemma pc_wf_ctx (p : pcomm) ctx : pc_wf p → pc_wf (p <| pc_sec_ctx := ctx |>).
Proof. intros [Hk Hh]. split; [by apply pc_kept_ctx|done]. Qed.

Lemma ep_kept_mono (p p' : pcomm) ep :
  (is_Some (pc_sec p) → is_Some (pc_sec p')) →
  (is_Some (pc_version p) → is_Some (pc_version p')) →
  ep_kept p ep → ep_kept p' ep.
Proof. unfold ep_kept. destruct (ep_ty ep); intuition. Qed.

(** Appending an endpoint [add_ep] accepted. *)
Lemma pc_kept_snoc (p p' : pcomm) n ty h priv :
  pc_kept p → find_ep p n = None → (length (endpoints p) < PROTOCOMM_MAX_ENDPOINTS)%nat →
  endpoints p' = endpoints p ++ [mk_ep n ty h priv] →
  (is_Some (pc_sec p) → is_Some (pc_sec p')) →
  (is_Some (pc_version p) → is_Some (pc_version p')) →
  ep_kept p' (mk_ep n ty h priv) → pc_kept p'.
Proof.
  intros [Hn Hc He] Hnone Hlt Heps Hsec Hver Hep. split; rewrite Heps.
  - rewrite fmap_app. apply NoDup_app. split; [done|]. split; [|apply NoDup_singleton].
    intros x Hx Hx'. apply find_ep_none in Hnone. cbn in Hx'. set_solver.
  - rewrite length_app. pc_lia.
  - apply Forall_app. split; [|by constructor].
    eapply Forall_impl; [exact He|]. intros ep. by apply ep_kept_mono.
Qed.

Lemma add_endpoint_kept (p p' : pcomm) name h priv rc :
  pc_kept p → protocomm_add_endpoint (Some p) name h priv = (rc, Some p') → pc_kept p'.
Proof.
  intros Hwf Hadd. apply add_ep_cases in Hadd as [(-> & n & -> & Hlen & Hnone & Hlt & Heq)|[_ Heq]];
    simplify_eq/=; [|done].
  eapply pc_kept_snoc; [done|done|done|reflexivity|done|done|]. split; cbn; [pc_lia|done].
Qed.

Lemma set_security_kept (p p' : pcomm) name sec pop rc :
  pc_kept p → protocomm_set_security (Some p) name sec pop = (rc, Some p') → pc_kept p'.
Proof.
  intros Hwf. unfold protocomm_set_security. destruct sec as [s|]; [|by intros; simplify_eq].
  destruct (add_ep _ _ _ _ _) as [ret pc'] eqn:Hadd.
  apply add_ep_cases in Hadd as [(-> & n & -> & Hlen & Hnone & Hlt & ->)|[Hneg ->]]; intros Heq.
  - cbn in Heq. simplify_eq.
    eapply pc_kept_snoc; [done|done|done|reflexivity|by cbn; eauto|done|]. split; cbn; [pc_lia|eauto].
  - destruct (ret =? 0) eqn:?; breflect; [lia|]. by simplify_eq/=.
Qed.

Lemma set_version_kept (p p' : pcomm) name v rc :
  pc_kept p → protocomm_set_version (Some p) name v = (rc, Some p') → pc_kept p'.
Proof.
  intros Hwf. unfold protocomm_set_version. destruct v as [s|]; [|by intros; simplify_eq].
  destruct (add_ep _ _ _ _ _) as [ret pc'] eqn:Hadd.
  apply add_ep_cases in Hadd as [(-> & n & -> & Hlen & Hnone & Hlt & ->)|[Hneg ->]]; intros Heq.
  - cbn in Heq. simplify_eq.
    eapply pc_kept_snoc; [done|done|done|reflexivity|done|by cbn; eauto|]. split; cbn; [pc_lia|eauto].
  - destruct (ret =? 0) eqn:?; breflect; [lia|]. by simplify_eq/=.
Qed.

(** Opening and closing a session touch nothing but the context. *)
Lemma close_session_some (p : pcomm) e :
  ∃ ctx e', protocomm_close_session (Some p) e = (Some (p <| pc_sec_ctx := ctx |>), e').
Proof.
  unfold protocomm_close_session. destruct p as [? [] ? [] ?]; cbn; eauto.
Qed.

Lemma open_session_some (p : pcomm) e :
  ∃ ctx e', protocomm_open_session (Some p) e = (Some (p <| pc_sec_ctx := ctx |>), e').
Proof.
  unfold protocomm_open_session. destruct (pc_sec p) as [s|] eqn:Hs.
  - destruct (close_session_some p e) as (c & e1 & ->).
    destruct (sec_init _) as [init|]; [|by eauto].
    destruct (init _ _) as [[ret c2] e2]. destruct p; cbn. eauto.
  - destruct p; cbn; eauto.
Qed.

(** Dispatch changes only the context, and never follows a NULL pointer. *)
Lemma handle_data_frame (p p' : pcomm) ep inbuf e rc out e' :
  handle_data p ep inbuf e = Some (rc, out, p', e') → ∃ ctx, p' = p <| pc_sec_ctx := ctx |>.
Proof.
  unfold handle_data. intros Hrun. destruct (pc_sec p) as [s|]; [|done]. cbn in Hrun.
  repeat dmatch_in Hrun; simplify_option_eq; repeat dmatch_in Hrun; simplify_eq/=; destruct p; cbn; eauto.
Qed.

Lemma req_handle_frame (p : pcomm) pc' name inbuf outs e rc out e' :
  protocomm_req_handle (Some p) name inbuf outs e = Some (rc, out, pc', e') →
  ∃ ctx, pc' = Some (p <| pc_sec_ctx := ctx |>).
Proof.
  unfold protocomm_req_handle. intros Hrun.
  assert (Hid : ∃ ctx, Some p = Some (p <| pc_sec_ctx := ctx |>))
    by (exists (pc_sec_ctx p); by destruct p).
  destruct name as [n|]; [|by simplify_eq]. destruct outs; [|by simplify_eq].
  destruct (find_ep p n) as [ep|]; [|by simplify_eq]. destruct (ep_ty ep).
  - destruct (pc_sec p), (pc_sec_ctx p); simplify_eq; try done.
    destruct (handle_data _ _ _ _) as [[[[? ?] ?] ?]|] eqn:Hd; simplify_eq/=.
    apply handle_data_frame in Hd as [ctx ->]. eauto.
  - destruct (pc_sec p) as [s|]; simplify_eq/=; try done.
    destruct (sec_handshake _) as [hs|]; simplify_eq/=; try done.
    destruct (hs _ _ _) as [[[? ?] ?] ?]. simplify_eq. eauto.
  - destruct (handle_version p e) as [[[? ?] ?]|] eqn:Hv; by simplify_eq/=.
Qed.

Lemma pc_step_kept s s' : pc_step s s' → pc_kept s.1 → pc_kept s'.1.
Proof.
  destruct 1 as [? ? ? ? ? ? ? Hs|? ? ? ? ? ? ? Hs|? ? ? ? ? ? Hs|? ? ? ? Hs|? ? ? ? Hs|? ? ? ? ? ? ? ? ? Hs];
    cbn; intros Hwf; eauto using add_endpoint_kept, set_security_kept, set_version_kept.
  - destruct (open_session_some p e) as (c & e2 & Heq). rewrite Heq in Hs. simplify_eq. by apply pc_kept_ctx.
  - destruct (close_session_some p e) as (c & e2 & Heq). rewrite Heq in Hs. simplify_eq. by apply pc_kept_ctx.
  - apply req_handle_frame in Hs as [c ?]. simplify_eq. by apply pc_kept_ctx.
Qed.

Lemma find_ep_kept (p : pcomm) n ep : pc_kept p → find_ep p n = Some ep → ep_kept p ep.
Proof.
  intros [_ _ He] Hf. apply find_ep_some in Hf as [Hin _].
  rewrite Forall_forall in He. by apply He.
Qed.
Lemma find_ep_handled (p : pcomm) n ep : Forall ep_handled (endpoints p) → find_ep p n = Some ep → ep_handled ep.
Proof.
  intros He Hf. apply find_ep_some in Hf as [Hin _]. rewrite Forall_forall in He. by apply He.
Qed.

(** The one request a kept instance cannot answer: in a session, on a data endpoint
    without a handler, with bytes that decrypt. *)
Definition calls_null (p : pcomm) (name : option string) (inbuf : bytes) (outs : bool) (e : E) : Prop :=
  outs = true ∧ ∃ n ep sec ctx, name = Some n ∧ find_ep p n = Some ep ∧ ep_ty ep = EP_DATA ∧ ep_handler ep = None ∧
    pc_sec p = Some sec ∧ pc_sec_ctx p = Some ctx ∧
    (decrypt_request (security_of sec) (Some ctx) inbuf e).1.1.1 = 0.

Lemma handle_data_fault (p : pcomm) ep sec inbuf e : pc_sec p = Some sec →
  handle_data p ep inbuf e = None ↔
  ep_handler ep = None ∧ (decrypt_request (security_of sec) (pc_sec_ctx p) inbuf e).1.1.1 = 0.
Proof.
  intros Hs. unfold handle_data. rewrite Hs. cbn [mbind option_bind].
  destruct (decrypt_request _ _ _ _) as [[[ret plain] ctx1] e1]. cbn [fst].
  destruct (ret =? 0) eqn:Hr; breflect; cbn [negb]; [|split; [done|by intros [_ ?]]].
  unfold run_endpoint. destruct (ep_handler ep) as [h|]; cbn [mbind option_bind]; [|done].
  split; [|by intros [? _]]. destruct (call_handler _ _ _ _) as [[ret2 raw] e2].
  destruct (negb (ret2 =? 0)) eqn:Hr2; cbn; [by rewrite Hr2|].
  by destruct (encrypt_response _ _ _ _) as [[[ret3 enc] ctx2] e4].
Qed.

Lemma req_handle_fault (p : pcomm) name inbuf outs e :
  pc_kept p → protocomm_req_handle (Some p) name inbuf outs e = None ↔ calls_null p name inbuf outs e.
Proof.
  intros Hwf. unfold protocomm_req_handle. destruct name as [n|]; [|split; [done|by intros (_ & ? & ? & ? & ? & ? & _)]].
  destruct outs; [|split; [done|by intros [? _]]].
  destruct (find_ep p n) as [ep|] eqn:Hf; [|split; [done|intros (_ & ? & ? & ? & ? & ? & Hf' & _); by simplify_eq]].
  assert (Hother : ep_ty ep ≠ EP_DATA → ¬ calls_null p (Some n) inbuf true e).
  { intros Ht (_ & n' & ep' & ? & ? & ? & Hf' & Ht' & _). by simplify_eq. }
  pose proof (find_ep_kept _ _ _ Hwf Hf) as [_ Hep]. destruct (ep_ty ep) eqn:Ht.
  - clear Hother. assert (Hses : ∀ o, o = None ∧ pc_sec p = None ∨ o = pc_sec_ctx p ∧ o = None →
      ¬ calls_null p (Some n) inbuf true e) by (intros o Ho (_ & ? & ? & ? & ? & _ & _ & _ & _ & ? & ? & _); naive_solver).
    destruct (pc_sec p) as [s|] eqn:Hs; [|split; [done|by intros ?%(Hses None); auto]].
    destruct (pc_sec_ctx p) as [c|] eqn:Hc; [|split; [done|by intros ?%(Hses None); auto]].
    pose proof (handle_data_fault p ep s inbuf e Hs) as Hd. rewrite Hc in Hd. unfold calls_null.
    destruct (handle_data p ep inbuf e) as [[[[? ?] ?] ?]|]; cbn [mbind option_bind]; split; [done| | |done].
    + intros (_ & n' & ep' & s' & c' & Hn' & Hf' & _ & Hh' & Hs' & Hc' & Hd'). simplify_eq.
      discriminate (proj2 Hd (conj Hh' Hd')).
    + intros _. destruct (proj1 Hd eq_refl) as [? ?]. split; [done|]. by exists n, ep, s, c.
  - split; [|by intros ?%Hother]. destruct (pc_sec p); [|done]. destruct (sec_handshake _); [|done]. by repeat dmatch.
  - split; [|by intros ?%Hother]. destruct Hep as [v Hv]. unfold handle_version. rewrite Hv. cbn [mbind option_bind].
    by destruct (k_malloc _ _) as [[|] ?].
Qed.

Lemma req_handle_no_fault (p : pcomm) name inbuf outs e :
  pc_wf p → is_Some (protocomm_req_handle (Some p) name inbuf outs e).
Proof.
  intros [Hk Hh]. apply not_eq_None_Some. rewrite (req_handle_fault _ _ _ _ _ Hk).
  intros (_ & n & ep & ? & ? & _ & Hf & Ht & Hn & _).
  destruct (find_ep_handled _ _ _ Hh Hf Ht) as [h Hh']. congruence.
Qed.
End protocomm_wf.

(** ** Registry *)
Section protocomm_registry.
Context {E Hnd Priv Sec Ctx : Type} `{HH : KHeap E} `{CB : Callbacks E Hnd Priv Sec Ctx}.

Local Abbreviation pcomm := (protocomm Hnd Priv Sec Ctx).

(** C15: Every instance built from a fresh one by registering endpoints (whatever the
    handler, NULL included), setting security and version, opening and closing sessions
    and handling arbitrary requests keeps the registry invariant: unique names shorter
    than 16 bytes, at most 8 endpoints, the security and the version there when their
    endpoints are. On it [protocomm_req_handle] follows a NULL pointer for exactly one
    kind of request: in an open session, for a data endpoint that was registered with a
    NULL handler, with bytes that decrypt. So an instance whose data endpoints were all
    given a handler answers every request, for any name and any bytes. *)
Theorem reachable_never_faults (p : pcomm) (e0 e : E) :
  rtc pc_step (protocomm_zero, e0) (p, e) →
  pc_kept p ∧
  (∀ name inbuf outs, protocomm_req_handle (Some p) name inbuf outs e = None ↔ calls_null p name inbuf outs e) ∧
  (Forall ep_handled (endpoints p) → ∀ name inbuf outs, is_Some (protocomm_req_handle (Some p) name inbuf outs e)).
Proof.
  intros Hreach.
  assert (Hk : pc_kept p).
  { change p with (p, e).1. revert Hreach. generalize (p, e). intros s.
    apply (rtc_ind_r (fun s => pc_kept s.1)); [apply pc_wf_zero|]. eauto using pc_step_kept. }
  split; [done|]. split; [intros; by apply req_handle_fault|]. intros Hh name inbuf outs. by apply req_handle_no_fault.
Qed.

(** C25: [protocomm_add_endpoint] succeeds exactly when the name is shorter than
    16 bytes, not registered yet and a slot is free; then the name resolves to
    the new endpoint, every other name resolves as before, and the endpoint is
    enumerated last. Any other call leaves the instance unchanged and says why:
    -ENAMETOOLONG, -EALREADY or -ENOMEM, in this order of precedence. *)
Theorem add_endpoint_spec (p : pcomm) n (h : option Hnd) priv :
  pc_kept p →
  let new := mk_ep n EP_DATA h priv in
  let fits := strlen n < Z.of_nat PROTOCOMM_EP_NAME_MAX in
  let known := n ∈ ep_name <$> endpoints p in
  let room := (protocomm_endpoint_count (Some p) < PROTOCOMM_MAX_ENDPOINTS)%nat in
  match protocomm_add_endpoint (Some p) (Some n) h priv with
  | (rc, Some p') =>
      if rc =? 0 then
        fits ∧ ¬ known ∧ room ∧ find_ep p' n = Some new ∧
        (∀ m, m ≠ n → find_ep p' m = find_ep p m) ∧
        protocomm_endpoint_name (Some p') (protocomm_endpoint_count (Some p)) = Some n ∧
        protocomm_endpoint_count (Some p') = S (protocomm_endpoint_count (Some p))
      else
        p' = p ∧
        (rc = - ENAMETOOLONG ∧ ¬ fits ∨ rc = - EALREADY ∧ fits ∧ known ∨
         rc = - ENOMEM ∧ fits ∧ ¬ known ∧ ¬ room)
  | (_, None) => False
  end.
Proof.
  intros Hwf new fits known room. subst new fits known room.
  unfold protocomm_add_endpoint, add_ep.
  destruct (_ <=? _) eqn:Hlen; breflect; [cbn; split; [done|left; pc_lia]|].
  case_bool_decide as Hk.
  { cbn. split; [done|]. right; left. split; [done|]. split; [done|].
    destruct (decide (n ∈ ep_name <$> endpoints p)) as [|Hni]; [done|].
    apply find_ep_none in Hni. rewrite Hni in Hk. by destruct Hk. }
  apply eq_None_not_Some in Hk. pose proof (proj1 (find_ep_none p n) Hk) as Hni.
  case_bool_decide as Hfull; [cbn; split; [done|]; right; right; split_and!; [done|pc_lia|done|pc_lia]|].
  rewrite strncpy_fits by pc_lia. set (ep := mk_ep n EP_DATA h priv).
  set (p' := p <| endpoints := endpoints p ++ [ep] |>).
  assert (Hwf' : pc_kept p').
  { eapply (pc_kept_snoc p p'); [done|done|pc_lia|reflexivity|done|done|].
    split; cbn; [pc_lia|done]. }
  assert (Hlast : endpoints p' !! length (endpoints p) = Some ep)
    by (cbn; by rewrite lookup_app_r, Nat.sub_diag).
  cbn [Z.eqb]. split; [pc_lia|]. split; [done|]. split; [pc_lia|].
  split; [exact (find_ep_unique p' _ ep (wf_names _ Hwf') Hlast)|]. split.
  - intros m Hm. by apply find_ep_snoc_ne.
  - split; [|cbn; rewrite length_app; cbn; lia].
    unfold protocomm_endpoint_name. rewrite bool_decide_false.
    + unfold protocomm_endpoint_count. by rewrite Hlast.
    + cbn. rewrite length_app. cbn. lia.
Qed.

(** The enumeration the transports build their service from is exact:
    indices below the count give the endpoint names in registration order, each
    name resolves back to the endpoint of that index, and any other index gives
    NULL. *)
Theorem endpoint_enumeration (p : pcomm) i :
  pc_kept p →
  match protocomm_endpoint_name (Some p) i with
  | Some n =>
      (i < protocomm_endpoint_count (Some p))%nat ∧
      ∃ ep, endpoints p !! i = Some ep ∧ ep_name ep = n ∧ find_ep p n = Some ep
  | None => (protocomm_endpoint_count (Some p) ≤ i)%nat
  end.
Proof.
  intros Hwf. unfold protocomm_endpoint_name. case_bool_decide as Hi; [done|].
  destruct (lookup_lt_is_Some_2 (endpoints p) i) as [ep Hep]; [lia|]. rewrite Hep. cbn.
  split; [lia|]. exists ep. split; [done|]. split; [done|].
  eapply find_ep_unique; [apply Hwf|done].
Qed.
End protocomm_registry.

(** ** Request dispatch and sessions *)
Section protocomm_dispatch.
Context {E Hnd Priv Sec Ctx : Type} `{HH : KHeap E} `{CB : Callbacks E Hnd Priv Sec Ctx}.

Local Abbreviation pcomm := (protocomm Hnd Priv Sec Ctx).

(** A request on a data endpoint is answered -EACCES, with no handler, cipher
    or allocation run and nothing changed, whenever no security session is open. *)
Theorem data_needs_session (p : pcomm) n ep inbuf e :
  find_ep p n = Some ep → ep_ty ep = EP_DATA → pc_sec_ctx p = None →
  protocomm_req_handle (Some p) (Some n) inbuf true e = Some (- EACCES, no_buf, Some p, e).
Proof.
  intros Hf Ht Hc. unfold protocomm_req_handle. rewrite Hf, Ht, Hc. by destruct (pc_sec p).
Qed.

Lemma decrypt_request_ok ops (ctx : option Ctx) inbuf e plain ctx' e' :
  decrypt_request ops ctx inbuf e = (0, plain, ctx', e') →
  (inbuf = [] ∧ plain = no_buf ∧ ctx' = ctx ∧ e' = e) ∨
  ∃ l e1, k_malloc (blen inbuf) e = (Some l, e1) ∧ ob_ptr plain = Some l ∧
    sec_decrypt ops ctx inbuf e1 = (0, ob_data plain, ctx', e').
Proof.
  unfold decrypt_request. intros Hrun. destruct (0 <? blen inbuf) eqn:Hlen; breflect.
  - right. destruct (k_malloc _ e) as [[l|] e1]; simplify_eq/=.
    destruct (sec_decrypt _ _ _ _) as [[[ret d] c] e2] eqn:Hd.
    destruct (ret =? 0) eqn:Hret; breflect; simplify_eq/=; try done. eauto 10.
  - left. simplify_eq. split; [|done]. apply length_zero_iff_nil. pc_lia.
Qed.

Lemma run_endpoint_cases (ep : protocomm_ep Hnd Priv) plain e rc raw e' :
  run_endpoint ep plain e = Some (rc, raw, e') →
  ∃ h raw0 e1, ep_handler ep = Some h ∧ call_handler h (ep_priv ep) (ob_data plain) e = (rc, raw0, e1) ∧
    (rc = 0 ∧ raw = raw0 ∧ e' = k_free (ob_ptr plain) e1 ∨
     rc ≠ 0 ∧ raw = no_buf ∧ e' = k_free (ob_ptr raw0) (k_free (ob_ptr plain) e1)).
Proof.
  unfold run_endpoint. intros Hrun. destruct (ep_handler ep) as [h|]; cbn [mbind option_bind] in Hrun; [|done].
  destruct (call_handler _ _ _ _) as [[ret raw0] e1] eqn:Hcall. exists h, raw0, e1.
  destruct (ret =? 0) eqn:Hr; breflect; cbn in Hrun; simplify_eq; eauto 8.
Qed.

Lemma encrypt_response_ok ops (ctx : option Ctx) raw e out ctx' e' :
  encrypt_response ops ctx raw e = (0, out, ctx', e') →
  (ob_data raw = [] ∧ out = no_buf ∧ ctx' = ctx ∧ e' = e) ∨
  ∃ l e1 e2, k_malloc (blen (ob_data raw)) e = (Some l, e1) ∧ ob_ptr out = Some l ∧
    sec_encrypt ops ctx (ob_data raw) e1 = (0, ob_data out, ctx', e2) ∧
    e' = k_free (ob_ptr raw) e2.
Proof.
  unfold encrypt_response. intros Hrun. destruct (blen (ob_data raw) =? 0) eqn:Hlen; breflect.
  - left. simplify_eq. split; [|done]. apply length_zero_iff_nil. pc_lia.
  - right. destruct (k_malloc _ e) as [[l|] e1]; simplify_eq/=.
    unfold encrypt_into in Hrun. destruct (sec_encrypt _ _ _ _) as [[[ret d] c] e2] eqn:Hd.
    destruct (ret =? 0) eqn:Hret; breflect; simplify_eq/=; try done. eauto 10.
Qed.

(** The stages of a successful data request. *)
Lemma data_request_ok (p p' : pcomm) n ep sec inbuf e out e' :
  find_ep p n = Some ep → ep_ty ep = EP_DATA → pc_sec p = Some sec →
  protocomm_req_handle (Some p) (Some n) inbuf true e = Some (0, out, Some p', e') →
  ∃ h plain ctx1 e1 raw e2,
    ep_handler ep = Some h ∧
    (inbuf = [] ∧ plain = no_buf ∧ ctx1 = pc_sec_ctx p ∧ e1 = e ∨
     ∃ l e0, k_malloc (blen inbuf) e = (Some l, e0) ∧ ob_ptr plain = Some l ∧
       sec_decrypt (security_of sec) (pc_sec_ctx p) inbuf e0 = (0, ob_data plain, ctx1, e1)) ∧
    call_handler h (ep_priv ep) (ob_data plain) e1 = (0, raw, e2) ∧
    (ob_data raw = [] ∧ out = no_buf ∧ pc_sec_ctx p' = ctx1 ∧ e' = k_free (ob_ptr plain) e2 ∨
     ∃ l e3 e4,
       k_malloc (blen (ob_data raw)) (k_free (ob_ptr plain) e2) = (Some l, e3) ∧
       ob_ptr out = Some l ∧
       sec_encrypt (security_of sec) ctx1 (ob_data raw) e3 = (0, ob_data out, pc_sec_ctx p', e4) ∧
       e' = k_free (ob_ptr raw) e4).
Proof.
  intros Hf Ht Hs. unfold protocomm_req_handle. rewrite Hf, Ht, Hs.
  destruct (pc_sec_ctx p) as [c|] eqn:Hc; [|done]. unfold handle_data. rewrite Hs, Hc. cbn.
  destruct (decrypt_request _ _ _ _) as [[[ret plain] ctx1] e1] eqn:Hdec.
  destruct (ret =? 0) eqn:Hret; breflect; cbn; [subst ret|by intros; simplify_eq].
  destruct (run_endpoint _ _ _) as [[[ret2 raw] e3]|] eqn:Hcall; cbn; [|done].
  apply run_endpoint_cases in Hcall as (h & raw0 & e2 & Hh & Hcall & [(-> & -> & ->)|(Hne & _)]);
    [|destruct (ret2 =? 0) eqn:?; breflect; [done|by intros; simplify_eq/=]].
  cbn. destruct (encrypt_response _ _ _ _) as [[[ret3 enc] ctx2] e4] eqn:Henc. cbn.
  intros ?; simplify_eq.
  exists h, plain, ctx1, e1, raw0, e2. split; [done|]. split; [|split; [done|]].
  - apply decrypt_request_ok in Hdec as [?|(l & e0 & ? & ? & ?)]; eauto 10.
  - apply encrypt_response_ok in Henc as [?|(l & e3 & e5 & ? & ? & ? & ?)]; eauto 10.
Qed.

(** When a data request succeeds, the response is exactly the encryption, in
    the context the decryption left, of the handler's response to the decrypted
    request (an empty request is passed on undecrypted, an empty response is not
    encrypted); the handler ran once, the plaintext was released before the
    response was encrypted, and the session context advanced through both steps
    in this order. *)
Theorem data_request_chain (p p' : pcomm) n ep sec inbuf e out e' :
  find_ep p n = Some ep → ep_ty ep = EP_DATA → pc_sec p = Some sec →
  protocomm_req_handle (Some p) (Some n) inbuf true e = Some (0, out, Some p', e') →
  ∃ h plain ctx1 e1 raw e2,
    ep_handler ep = Some h ∧
    (inbuf = [] ∧ plain = no_buf ∧ ctx1 = pc_sec_ctx p ∧ e1 = e ∨
     ∃ l e0, k_malloc (blen inbuf) e = (Some l, e0) ∧ ob_ptr plain = Some l ∧
       sec_decrypt (security_of sec) (pc_sec_ctx p) inbuf e0 = (0, ob_data plain, ctx1, e1)) ∧
    call_handler h (ep_priv ep) (ob_data plain) e1 = (0, raw, e2) ∧
    (ob_data raw = [] ∧ out = no_buf ∧ pc_sec_ctx p' = ctx1 ∧ e' = k_free (ob_ptr plain) e2 ∨
     ∃ l e3 e4,
       k_malloc (blen (ob_data raw)) (k_free (ob_ptr plain) e2) = (Some l, e3) ∧
       ob_ptr out = Some l ∧
       sec_encrypt (security_of sec) ctx1 (ob_data raw) e3 = (0, ob_data out, pc_sec_ctx p', e4) ∧
       e' = k_free (ob_ptr raw) e4).
Proof. exact (data_request_ok p p' n ep sec inbuf e out e'). Qed.
End protocomm_dispatch.

(** ** Heap discipline

    [ctx_locs] are the blocks a security context owns. [CallbacksHeap] is what
    the callees promise: a handler or handshake allocates exactly its output
    buffer, ciphers leave the heap alone, [init] allocates exactly the context
    and [cleanup] releases it. *)
Class CtxLocs (Ctx : Type) := ctx_locs : Ctx → gset loc.

Definition opt_ctx_locs {Ctx} `{CtxLocs Ctx} (c : option Ctx) : gset loc :=
  match c with Some c => ctx_locs c | None => ∅ end.

Class CallbacksHeap (E Hnd Priv Sec Ctx : Type)
    `{KHeap E, Callbacks E Hnd Priv Sec Ctx, CtxLocs Ctx} : Prop := {
  handler_heap (h : Hnd) (pr : option Priv) b (e : E) rc raw e' :
    call_handler h pr b e = (rc, raw, e') → heap_extends e (buf_locs raw) e';
  decrypt_heap (s : Sec) ctx b (e : E) rc d ctx' e' :
    sec_decrypt (security_of s) ctx b e = (rc, d, ctx', e') →
    allocated e' = allocated e ∧ opt_ctx_locs ctx' = opt_ctx_locs ctx;
  encrypt_heap (s : Sec) ctx b (e : E) rc d ctx' e' :
    sec_encrypt (security_of s) ctx b e = (rc, d, ctx', e') →
    allocated e' = allocated e ∧ opt_ctx_locs ctx' = opt_ctx_locs ctx;
  handshake_heap (s : Sec) hs ctx b (e : E) rc out ctx' e' :
    sec_handshake (security_of s) = Some hs → hs ctx b e = (rc, out, ctx', e') →
    heap_extends e (buf_locs out) e' ∧ opt_ctx_locs ctx' = opt_ctx_locs ctx;
  init_heap (s : Sec) init pop (e : E) rc ctx e' :
    sec_init (security_of s) = Some init → init pop e = (rc, ctx, e') →
    heap_extends e (if rc =? 0 then opt_ctx_locs ctx else ∅) e';
  cleanup_heap (s : Sec) f ctx (e : E) :
    sec_cleanup (security_of s) = Some f → allocated (f ctx e) = allocated e ∖ ctx_locs ctx;
  cleanup_none (s : Sec) ctx : sec_cleanup (security_of s) = None → ctx_locs ctx = ∅;
}.

Section protocomm_heap.
Context {E Hnd Priv Sec Ctx : Type}.
Context `{HH : KHeap E} `{!KHeapLaws E}.
Context `{CB : Callbacks E Hnd Priv Sec Ctx} `{!CtxLocs Ctx}.
Context `{!CallbacksHeap E Hnd Priv Sec Ctx}.

Local Abbreviation pcomm := (protocomm Hnd Priv Sec Ctx).

Lemma decrypt_request_heap (sec : Sec) ctx inbuf (e : E) rc plain ctx' e' :
  decrypt_request (security_of sec) ctx inbuf e = (rc, plain, ctx', e') →
  heap_extends e (buf_locs plain) e' ∧ opt_ctx_locs ctx' = opt_ctx_locs ctx ∧
  (rc ≠ 0 → plain = no_buf).
Proof.
  unfold decrypt_request. intros Hrun. destruct (0 <? blen inbuf); simplify_eq/=; [|by split; [apply heap_extends_refl|]].
  destruct (k_malloc _ e) as [[l|] e1] eqn:Hm; simplify_eq/=.
  - apply k_malloc_some in Hm as [Hfr Hall].
    destruct (sec_decrypt _ _ _ _) as [[[ret d] c] e2] eqn:Hd. apply decrypt_heap in Hd as [Hd Hc].
    destruct (ret =? 0) eqn:Hr; breflect; simplify_eq/=; (split; [|split; [done|done]]);
      unfold heap_extends; rewrite ?k_free_allocated; cbn; set_solver.
  - apply k_malloc_none in Hm. split; [|done]. unfold heap_extends. cbn. set_solver.
Qed.

(** The response step consumes the raw buffer and produces the encrypted one;
    an empty raw response is the exception, its buffer stays allocated. *)
Lemma encrypt_response_heap (sec : Sec) ctx raw (e : E) rc out ctx' e' (base : gset loc) :
  allocated e = buf_locs raw ∪ base → buf_locs raw ## base →
  encrypt_response (security_of sec) ctx raw e = (rc, out, ctx', e') →
  opt_ctx_locs ctx' = opt_ctx_locs ctx ∧
  if bool_decide (ob_data raw = []) then rc = 0 ∧ out = no_buf ∧ allocated e' = allocated e
  else allocated e' = buf_locs out ∪ base ∧ buf_locs out ## base.
Proof.
  unfold encrypt_response. intros Hall Hdisj Hrun.
  destruct (blen (ob_data raw) =? 0) eqn:Hlen; breflect.
  { simplify_eq. rewrite bool_decide_true; [done|]. apply length_zero_iff_nil. pc_lia. }
  rewrite bool_decide_false by (intros Hnil; rewrite Hnil in Hlen; by destruct Hlen).
  destruct (k_malloc _ e) as [[l|] e1] eqn:Hm; simplify_eq/=.
  - apply k_malloc_some in Hm as [Hfr Hall1].
    unfold encrypt_into in Hrun.
    destruct (sec_encrypt _ _ _ _) as [[[ret d] c] e2] eqn:Hd. apply encrypt_heap in Hd as [Hd Hc].
    assert (Hfree : allocated (k_free (ob_ptr raw) e2) = {[l]} ∪ base ∧ l ∉ base).
    { rewrite k_free_allocated. fold (buf_locs raw). rewrite Hd, Hall1, Hall.
      rewrite Hall in Hfr. generalize dependent (buf_locs raw). clear. set_solver. }
    destruct Hfree as [Hfree Hlb]. clear Hd Hall1 Hall Hfr Hdisj.
    destruct (ret =? 0) eqn:Hr; breflect; simplify_eq/=; (split; [done|]).
    + rewrite Hfree. set_solver.
    + rewrite k_free_allocated, Hfree. set_solver.
  - apply k_malloc_none in Hm. split; [done|]. rewrite k_free_allocated. fold (buf_locs raw).
    rewrite Hm, Hall. generalize dependent (buf_locs raw). clear. set_solver.
Qed.

Lemma handle_data_heap (p p' : pcomm) ep inbuf (e : E) rc out e' :
  handle_data p ep inbuf e = Some (rc, out, p', e') →
  opt_ctx_locs (pc_sec_ctx p') = opt_ctx_locs (pc_sec_ctx p) ∧
  (heap_extends e (buf_locs out) e' ∨
   rc = 0 ∧ out = no_buf ∧ ∃ sec h plain ctx1 e1 lost e2,
     pc_sec p = Some sec ∧ decrypt_request (security_of sec) (pc_sec_ctx p) inbuf e = (0, plain, ctx1, e1) ∧
     ep_handler ep = Some h ∧ call_handler h (ep_priv ep) (ob_data plain) e1 = (0, mk_obuf (Some lost) [], e2) ∧
     heap_extends e {[lost]} e').
Proof.
  unfold handle_data. intros Hrun. destruct (pc_sec p) as [s|]; [|done]. cbn in Hrun.
  destruct (decrypt_request _ _ _ _) as [[[ret plain] ctx1] e1] eqn:Hdec.
  pose proof (decrypt_request_heap _ _ _ _ _ _ _ _ Hdec) as ([Hd1 Hd2] & Hc1 & Hnp).
  destruct (ret =? 0) eqn:Hr; breflect; cbn in Hrun;
    [|simplify_eq/=; rewrite (Hnp Hr) in Hd1; cbn in Hd1; split; [done|]; left; split; set_solver].
  destruct (run_endpoint _ _ _) as [[[ret2 raw1] e3]|] eqn:Hcall; cbn in Hrun; [|done].
  apply run_endpoint_cases in Hcall as (h & raw & e2 & Hh & Hcall & Hcase).
  pose proof (handler_heap _ _ _ _ _ _ _ Hcall) as [Hh1 Hh2].
  assert (Hplain : allocated (k_free (ob_ptr plain) e2) = buf_locs raw ∪ allocated e ∧
                   buf_locs raw ## allocated e).
  { rewrite k_free_allocated. fold (buf_locs plain). rewrite Hh1, Hd1.
    rewrite Hd1 in Hh2. generalize dependent (buf_locs raw). generalize dependent (buf_locs plain).
    clear. set_solver. }
  destruct Hplain as [Hp1 Hp2]. clear Hh1 Hh2 Hd1 Hd2 Hnp.
  destruct Hcase as [(-> & -> & ->)|(Hne & -> & ->)].
  - cbn in Hrun. destruct (encrypt_response _ _ _ _) as [[[ret3 enc] ctx2] e4] eqn:Henc.
    apply (encrypt_response_heap _ _ _ _ _ _ _ _ _ Hp1 Hp2) in Henc as [Hc2 Henc].
    simplify_eq/=. split; [by rewrite Hc2|]. case_bool_decide as Hnil; [|by left].
    destruct Henc as (-> & -> & Hall). destruct raw as [[lost|] d]; cbn in Hnil; subst d.
    + right. split; [done|]. split; [done|]. exists s, h, plain, ctx1, e1, lost, e2.
      repeat (split; [done|]). split; [by rewrite Hall|done].
    + left. split; [by rewrite Hall|done].
  - destruct (ret2 =? 0) eqn:?; breflect; [done|]. cbn in Hrun. simplify_eq/=. split; [done|]. left.
    unfold heap_extends. rewrite k_free_allocated, Hp1.
    fold (buf_locs raw). cbn. generalize dependent (buf_locs raw). clear. set_solver.
Qed.

(** C17: Heap accounting of [protocomm_req_handle], for every endpoint kind and
    every outcome: the session context keeps its blocks, and exactly the response buffer
    handed to the caller is newly allocated - plaintext, raw and partially built buffers
    are all freed - with one exception. When the handler reports success with a non-NULL
    buffer of length 0, the caller is answered success with nothing, and exactly that
    buffer is left allocated with no pointer to it. *)
Theorem request_heap_balance (p p' : pcomm) name inbuf outs (e : E) rc out e' :
  protocomm_req_handle (Some p) name inbuf outs e = Some (rc, out, Some p', e') →
  opt_ctx_locs (pc_sec_ctx p') = opt_ctx_locs (pc_sec_ctx p) ∧
  (heap_extends e (buf_locs out) e' ∨
   rc = 0 ∧ out = no_buf ∧ ∃ n ep sec h plain ctx1 e1 lost e2,
     name = Some n ∧ find_ep p n = Some ep ∧ ep_ty ep = EP_DATA ∧ pc_sec p = Some sec ∧
     decrypt_request (security_of sec) (pc_sec_ctx p) inbuf e = (0, plain, ctx1, e1) ∧
     ep_handler ep = Some h ∧ call_handler h (ep_priv ep) (ob_data plain) e1 = (0, mk_obuf (Some lost) [], e2) ∧
     heap_extends e {[lost]} e').
Proof.
  unfold protocomm_req_handle. intros Hrun.
  assert (Hid : opt_ctx_locs (pc_sec_ctx p) = opt_ctx_locs (pc_sec_ctx p) ∧ heap_extends e (buf_locs no_buf) e)
    by (split; [done|apply heap_extends_refl]).
  destruct name as [n|]; [|simplify_eq; naive_solver].
  destruct outs; [|simplify_eq; naive_solver].
  destruct (find_ep p n) as [ep|] eqn:Hf; [|simplify_eq; naive_solver].
  destruct (ep_ty ep) eqn:Ht.
  - destruct (pc_sec p) as [s|] eqn:Hs; [|simplify_eq; naive_solver].
    destruct (pc_sec_ctx p) as [c|] eqn:Hc; [|simplify_eq; rewrite Hc; naive_solver].
    destruct (handle_data _ _ _ _) as [[[[? ?] ?] ?]|] eqn:Hd; simplify_eq/=.
    apply handle_data_heap in Hd as [Hctx Hext]. rewrite Hctx, Hc. split; [done|].
    destruct Hext as [?|(-> & -> & sec & h & pl & c1 & e1 & lost & e2 & Hs' & Hdec & Hh & Hcall & Hext)]; [by left|right].
    rewrite Hc in Hdec. split; [done|]. split; [done|]. exists n, ep, sec, h, pl, c1, e1, lost, e2.
    by rewrite <- Hs, Hs'.
  - destruct (pc_sec p) as [s|]; [|simplify_eq; naive_solver].
    destruct (sec_handshake (security_of s)) as [hs|] eqn:Hs; [|simplify_eq; naive_solver].
    destruct (hs _ _ _) as [[[ret o] c] e1] eqn:Hrunhs.
    eapply handshake_heap in Hrunhs as [Hext Hctx]; [|exact Hs]. simplify_eq/=. auto.
  - unfold handle_version in Hrun. destruct (pc_version p) as [v|]; [|done]. cbn in Hrun.
    destruct (k_malloc _ e) as [[l|] e1] eqn:Hm; simplify_eq/=; (split; [done|left]).
    + apply k_malloc_some in Hm as [? ?]. split; set_solver.
    + apply k_malloc_none in Hm. split; set_solver.
Qed.

(** The exception is real: when a handler reports success with a non-NULL
    buffer and length 0 (which [network_prov_pb_encode] produces for a message
    of encoded size 0), [protocomm_req_handle] answers success with an empty
    response and the handler's buffer stays allocated, unreachable from the
    caller. *)
Theorem empty_response_leaks (p p' : pcomm) n ep h inbuf (e : E) out e' :
  find_ep p n = Some ep → ep_ty ep = EP_DATA → ep_handler ep = Some h →
  (∀ b (e1 : E), ∃ l e2, call_handler h (ep_priv ep) b e1 = (0, mk_obuf (Some l) [], e2)) →
  protocomm_req_handle (Some p) (Some n) inbuf true e = Some (0, out, Some p', e') →
  out = no_buf ∧ ∃ l, l ∉ allocated e ∧ l ∈ allocated e'.
Proof.
  intros Hf Ht Hh Hret. unfold protocomm_req_handle. rewrite Hf, Ht. intros Hrun.
  destruct (pc_sec p) as [s|] eqn:Hs; [|by simplify_eq].
  destruct (pc_sec_ctx p) as [c|] eqn:Hc; [|by simplify_eq].
  destruct (handle_data _ _ _ _) as [[[[? ?] ?] ?]|] eqn:Hd; simplify_eq/=.
  unfold handle_data, run_endpoint in Hd. rewrite Hs, Hc, Hh in Hd. cbn in Hd.
  destruct (decrypt_request _ _ _ _) as [[[ret plain] ctx1] e1] eqn:Hdec.
  apply decrypt_request_heap in Hdec as ([Hd1 Hd2] & _ & Hnp).
  destruct (ret =? 0) eqn:Hr; breflect; cbn in Hd; [|by simplify_eq].
  destruct (Hret (ob_data plain) e1) as (l & e2 & Hcall). rewrite Hcall in Hd. cbn in Hd. simplify_eq/=.
  apply handler_heap in Hcall as [Hh1 Hh2]. cbn in Hh1, Hh2. split; [done|]. exists l.
  rewrite k_free_allocated. fold (buf_locs plain). rewrite Hh1. rewrite Hd1 in Hh2 |- *.
  clear -Hh2 Hd2. set_solver.
Qed.

(** Sessions replace each other cleanly: opening releases every block of the
    previous context before the new one is built, and afterwards exactly the new
    context's blocks are added; closing releases the context and is idempotent;
    deleting an instance releases the context and the instance itself. *)
Theorem session_heap (p : pcomm) (e : E) :
  (∀ p' e', protocomm_open_session (Some p) e = (Some p', e') → pc_sec p ≠ None →
     allocated e' = opt_ctx_locs (pc_sec_ctx p') ∪ (allocated e ∖ opt_ctx_locs (pc_sec_ctx p))) ∧
  (∀ p' e', protocomm_close_session (Some p) e = (Some p', e') → pc_sec p ≠ None →
     pc_sec_ctx p' = None ∧ allocated e' = allocated e ∖ opt_ctx_locs (pc_sec_ctx p) ∧
     protocomm_close_session (Some p') e' = (Some p', e')) ∧
  (∀ l, pc_sec p ≠ None → allocated (protocomm_delete (Some (l, p)) e) =
          allocated e ∖ opt_ctx_locs (pc_sec_ctx p) ∖ {[l]}).
Proof.
  assert (Hclose : ∀ p' e', protocomm_close_session (Some p) e = (Some p', e') → pc_sec p ≠ None →
    p' = p <| pc_sec_ctx := None |> ∧ allocated e' = allocated e ∖ opt_ctx_locs (pc_sec_ctx p) ∧
    protocomm_close_session (Some p') e' = (Some p', e')).
  { intros p' e'. unfold protocomm_close_session. destruct p as [eps [s|] pop [c|] v]; [..|done|done]; cbn.
    - intros Heq _. simplify_eq/=. split_and!; [done| |done].
      destruct (sec_cleanup (security_of s)) as [f|] eqn:Hf; [by apply (cleanup_heap s)|].
      rewrite (cleanup_none s _ Hf). set_solver.
    - intros Heq _. simplify_eq/=. split_and!; [done|set_solver|done]. }
  split_and!.
  - intros p' e'. unfold protocomm_open_session. destruct (pc_sec p) as [s|] eqn:Hs; [|done].
    destruct (protocomm_close_session (Some p) e) as [[p1|] e1] eqn:Hc; [|done].
    destruct (Hclose _ _ eq_refl) as (-> & Hall & _); [done|].
    destruct (sec_init (security_of s)) as [init|] eqn:Hi.
    + destruct (init _ _) as [[ret c2] e2] eqn:Hrun. intros Heq _. simplify_eq/=.
      eapply init_heap in Hrun as [Hr1 _]; [|exact Hi]. rewrite Hr1, Hall. by destruct (ret =? 0).
    + intros Heq _. simplify_eq/=. rewrite Hall. set_solver.
  - intros p' e' Hc Hn. by destruct (Hclose p' e' Hc Hn) as (-> & ? & ?).
  - intros l Hn. unfold protocomm_delete. destruct (protocomm_close_session (Some p) e) as [p1 e1] eqn:Hc.
    destruct (close_session_some p e) as (c & e2 & Hc2). rewrite Hc in Hc2. simplify_eq.
    destruct (Hclose _ _ eq_refl Hn) as (_ & Hall & _). by rewrite k_free_some, Hall.
Qed.
End protocomm_heap.
