(* ===== verification/Security0.v ===== *)
(** * Security0: the plaintext scheme (src/security0.c) *)
From S2P Require Import Prelude Platform PbUtil Protocomm Messages.

(** [&sentinel]: sec0 has no state, the context only has to be non-NULL. *)
Inductive sec0_ctx := sentinel.

Section security0.
Context {E : Type} `{KHeap E} `{PbMsg SessionData}.

Definition sec0_init (pop : option string) (e : E) : Z * option sec0_ctx * E :=
  (0, Some sentinel, e).

Definition sec0_cleanup (ctx : sec0_ctx) (e : E) : E := e.

Definition sec0_response : SessionData :=
  mk_session SecSchemeVersion_SecScheme0
    (proto_sec0 (mk_sec0 Sec0MsgType_S0_Session_Response (sec0_sr Status_Success))).

Definition sec0_handshake (ctx : option sec0_ctx) (inbuf : bytes) (e : E)
    : Z * obuf * option sec0_ctx * E :=
  match pb_decode inbuf with
  | None => (- EINVAL, no_buf, ctx, e)
  | Some req =>
      if negb (sec_ver req =? SecSchemeVersion_SecScheme0) then (- EINVAL, no_buf, ctx, e)
      else
        let '(ret, out, e1) := network_prov_pb_encode sec0_response e in
        (ret, out, ctx, e1)
  end.

Definition sec0_passthrough (ctx : option sec0_ctx) (inbuf : bytes) (e : E)
    : Z * bytes * option sec0_ctx * E := (0, inbuf, ctx, e).

Definition network_prov_security0 : protocomm_security sec0_ctx E :=
  mk_security 0 (Some sec0_init) (Some sec0_cleanup) (Some sec0_handshake)
    sec0_passthrough sec0_passthrough.

End security0.

(** sec0's context owns no memory. *)
#[export] Instance sec0_ctx_locs : CtxLocs sec0_ctx := fun _ => ∅.

Section security0_facts.
Context {E : Type} `{KHeapLaws E} `{PbMsgLaws SessionData}.

(** The sec0 handshake is stateless and answers a well-formed sec0 message
    with the one success response (the only other outcome being lack of memory),
    whatever the message carries and whatever happened before; anything else is
    -EINVAL with nothing allocated. *)
Theorem sec0_handshake_spec ctx inbuf (e : E) rc out ctx' e' :
  sec0_handshake ctx inbuf e = (rc, out, ctx', e') →
  ctx' = ctx ∧
  match pb_decode inbuf with
  | Some req =>
      if sec_ver req =? SecSchemeVersion_SecScheme0 then
        (rc = 0 ∧ is_Some (ob_ptr out) ∧ pb_decode (ob_data out) = Some sec0_response) ∨
        (rc ≠ 0 ∧ out = no_buf)
      else rc = - EINVAL ∧ out = no_buf ∧ e' = e
  | None => rc = - EINVAL ∧ out = no_buf ∧ e' = e
  end.
Proof.
  unfold sec0_handshake. intros Hrun.
  destruct (pb_decode inbuf) as [req|]; [|by simplify_eq].
  destruct (sec_ver req =? _); cbn in Hrun; [|by simplify_eq].
  destruct (network_prov_pb_encode _ _) as [[ret o] e1] eqn:Henc. simplify_eq. split; [done|].
  pose proof (pb_encode_codes _ _ _ _ _ Henc) as [->|[Hc ->]].
  - left. by apply pb_encode_ok in Henc as (? & ? & _).
  - right. split; [lia|done].
Qed.

(** Under security scheme 0 a successful data request hands the handler
    exactly the request bytes and hands the peer exactly the handler's response
    bytes. *)
Theorem sec0_transparent {Hnd Priv : Type} (handlers : Hnd → option Priv → bytes → E → Z * obuf * E)
    (p p' : protocomm Hnd Priv unit sec0_ctx) n ep inbuf (e : E) out e' :
  let CB : Callbacks E Hnd Priv unit sec0_ctx :=
    {| call_handler := handlers; security_of _ := network_prov_security0 |} in
  find_ep p n = Some ep → ep_ty ep = EP_DATA → pc_sec p = Some tt →
  protocomm_req_handle (Some p) (Some n) inbuf true e = Some (0, out, Some p', e') →
  ∃ h raw e1 e2, ep_handler ep = Some h ∧ handlers h (ep_priv ep) inbuf e1 = (0, raw, e2) ∧
    ob_data out = ob_data raw ∧ pc_sec_ctx p' = pc_sec_ctx p.
Proof.
  intros CB Hf Ht Hs Hrun.
  destruct (data_request_ok _ _ _ _ _ _ _ _ _ Hf Ht Hs Hrun)
    as (h & plain & ctx1 & e1 & raw & e2 & Hh & Hdec & Hcall & Henc). cbn in *.
  assert (Hplain : ob_data plain = inbuf ∧ ctx1 = pc_sec_ctx p).
  { destruct Hdec as [(-> & -> & -> & _)|(l & e0 & _ & _ & Hd)]; [done|].
    unfold sec0_passthrough in Hd. by simplify_eq. }
  destruct Hplain as [Hplain ->]. exists h, raw, e1, e2. rewrite Hplain in Hcall.
  destruct Henc as [(Hnil & -> & ? & _)|(l & e3 & e4 & _ & _ & Hd & _)]; [by rewrite Hnil|].
  unfold sec0_passthrough in Hd. by simplify_eq.
Qed.
End security0_facts.
