(* ===== verification/Psa.v ===== *)
(** * Psa: the PSA Crypto interface the security-1 scheme relies on

    The primitives ([Crypto]) and the stateful API ([PSA]) are parameters; the
    law classes state the documented behaviour the scheme needs. [psa_keys] is
    the content of the key store: which identifiers are live, with what. *)
From S2P Require Import Prelude Platform.

Class Crypto := {
  (** X25519: the public key of a private key, and the shared secret *)
  x25519_pub : bytes → bytes;
  x25519 : bytes → bytes → bytes;
  sha256 : bytes → bytes;
  (** [aes_ctr key iv pos len]: bytes [pos .. pos+len) of the AES-256-CTR
      keystream *)
  aes_ctr : bytes → bytes → nat → nat → bytes;
}.

Class CryptoLaws `{Crypto} : Prop := {
  x25519_agree a b : x25519 a (x25519_pub b) = x25519 b (x25519_pub a);
  x25519_len a p : length (x25519 a p) = 32%nat;
  x25519_pub_len a : length (x25519_pub a) = 32%nat;
  sha256_len m : length (sha256 m) = 32%nat;
  aes_ctr_len k iv pos n : length (aes_ctr k iv pos n) = n;
}.

Inductive psa_key := X25519_key (private : bytes) | AES_key (key : bytes).

(** The state of a [psa_cipher_operation_t]. *)
Inductive cipher_state :=
| cipher_idle
| cipher_keyed (key : bytes)
| cipher_active (key iv : bytes) (pos : nat)
| cipher_error.

Definition PSA_KEY_ID_NULL : Z := 0.
Definition PSA_SUCCESS : Z := 0.

Class PSA (E : Type) := {
  psa_cipher_operation_t : Type;
  psa_crypto_init : E → Z * E;
  (** status, key identifier *)
  psa_generate_key : E → Z * Z * E;
  (** status, output (its length is [*olen]) *)
  psa_export_public_key : Z → E → Z * bytes;
  psa_destroy_key : Z → E → E;
  psa_raw_key_agreement : Z → bytes → E → Z * bytes;
  psa_hash_compute : bytes → E → Z * bytes;
  psa_import_key : bytes → E → Z * Z * E;
  psa_generate_random : Z → E → Z * bytes * E;
  psa_cipher_operation_init : psa_cipher_operation_t;
  psa_cipher_encrypt_setup : psa_cipher_operation_t → Z → E → Z * psa_cipher_operation_t;
  psa_cipher_set_iv : psa_cipher_operation_t → bytes → Z * psa_cipher_operation_t;
  psa_cipher_update : psa_cipher_operation_t → bytes → Z * bytes * psa_cipher_operation_t;
  psa_cipher_abort : psa_cipher_operation_t → psa_cipher_operation_t;
  psa_keys : E → gmap Z psa_key;
  cipher_st : psa_cipher_operation_t → cipher_state;
}.

Class PsaLaws (E : Type) `{Crypto, PSA E} : Prop := {
  psa_init_keys (e : E) : psa_keys (psa_crypto_init e).2 = psa_keys e;
  psa_generate_ok (e : E) id e' :
    psa_generate_key e = (PSA_SUCCESS, id, e') →
    id ≠ PSA_KEY_ID_NULL ∧ psa_keys e !! id = None ∧
    ∃ sk, psa_keys e' = <[id := X25519_key sk]> (psa_keys e);
  psa_generate_fail (e : E) st id e' :
    psa_generate_key e = (st, id, e') → st ≠ PSA_SUCCESS →
    id = PSA_KEY_ID_NULL ∧ psa_keys e' = psa_keys e;
  psa_export_ok (e : E) id out sk :
    psa_export_public_key id e = (PSA_SUCCESS, out) →
    psa_keys e !! id = Some (X25519_key sk) → out = x25519_pub sk;
  psa_destroy_keys (e : E) id : psa_keys (psa_destroy_key id e) = delete id (psa_keys e);
  psa_agree_ok (e : E) id pub out sk :
    psa_raw_key_agreement id pub e = (PSA_SUCCESS, out) →
    psa_keys e !! id = Some (X25519_key sk) → out = x25519 sk pub;
  psa_hash_ok (e : E) msg out :
    psa_hash_compute msg e = (PSA_SUCCESS, out) → out = sha256 msg;
  psa_import_ok (e : E) key id e' :
    psa_import_key key e = (PSA_SUCCESS, id, e') →
    id ≠ PSA_KEY_ID_NULL ∧ psa_keys e !! id = None ∧
    psa_keys e' = <[id := AES_key key]> (psa_keys e);
  psa_import_fail (e : E) key st id e' :
    psa_import_key key e = (st, id, e') → st ≠ PSA_SUCCESS →
    id = PSA_KEY_ID_NULL ∧ psa_keys e' = psa_keys e;
  (** the output buffer has [n] bytes, meaningful or not *)
  psa_random_ok (e : E) n st out e' :
    psa_generate_random n e = (st, out, e') → 0 <= n →
    psa_keys e' = psa_keys e ∧ blen out = n;
  cipher_init_st : cipher_st psa_cipher_operation_init = cipher_idle;
  cipher_setup_ok (e : E) op id op' key :
    psa_cipher_encrypt_setup op id e = (PSA_SUCCESS, op') →
    psa_keys e !! id = Some (AES_key key) → cipher_st op' = cipher_keyed key;
  cipher_setup_fail (e : E) op id st op' :
    psa_cipher_encrypt_setup op id e = (st, op') → st ≠ PSA_SUCCESS → cipher_st op' = cipher_error;
  cipher_iv_ok op iv op' key :
    psa_cipher_set_iv op iv = (PSA_SUCCESS, op') →
    cipher_st op = cipher_keyed key → cipher_st op' = cipher_active key iv 0;
  cipher_iv_fail op iv st op' :
    psa_cipher_set_iv op iv = (st, op') → st ≠ PSA_SUCCESS → cipher_st op' = cipher_error;
  (** CTR is a stream mode: as many bytes out as in *)
  cipher_update_ok op data out op' :
    psa_cipher_update op data = (PSA_SUCCESS, out, op') →
    ∃ key iv pos, cipher_st op = cipher_active key iv pos ∧
      out = xor_bytes data (aes_ctr key iv pos (length data)) ∧
      cipher_st op' = cipher_active key iv (pos + length data);
  cipher_update_fail op data st out op' :
    psa_cipher_update op data = (st, out, op') → st ≠ PSA_SUCCESS → cipher_st op' = cipher_error;
}.

(** The key store and the kernel heap are separate. *)
Class PsaHeapLaws (E : Type) `{KHeap E, PSA E} : Prop := {
  malloc_keys (e : E) n : psa_keys (k_malloc n e).2 = psa_keys e;
  free_keys (e : E) l : psa_keys (k_free l e) = psa_keys e;
  crypto_init_heap (e : E) : allocated (psa_crypto_init e).2 = allocated e;
  generate_key_heap (e : E) : allocated (psa_generate_key e).2 = allocated e;
  destroy_key_heap (e : E) id : allocated (psa_destroy_key id e) = allocated e;
  import_key_heap (e : E) key : allocated (psa_import_key key e).2 = allocated e;
  generate_random_heap (e : E) n : allocated (psa_generate_random n e).2 = allocated e;
}.

(** A backend on which nothing fails for lack of resources: what completeness of
    the handshake needs on top of the laws. *)
Class PsaAvailable (E : Type) `{Crypto, PSA E} : Prop := {
  init_avail (e : E) : (psa_crypto_init e).1 = PSA_SUCCESS;
  generate_avail (e : E) : (psa_generate_key e).1.1 = PSA_SUCCESS;
  export_avail (e : E) id sk :
    psa_keys e !! id = Some (X25519_key sk) → (psa_export_public_key id e).1 = PSA_SUCCESS;
  (** Key agreement may refuse a malformed or low-order point, never an honest
      public key. *)
  agree_avail (e : E) id sk sk' :
    psa_keys e !! id = Some (X25519_key sk) →
    (psa_raw_key_agreement id (x25519_pub sk') e).1 = PSA_SUCCESS;
  hash_avail (e : E) m : (psa_hash_compute m e).1 = PSA_SUCCESS;
  import_avail (e : E) k : (psa_import_key k e).1.1 = PSA_SUCCESS;
  random_avail (e : E) n : (psa_generate_random n e).1.1 = PSA_SUCCESS;
  setup_avail (e : E) op id k :
    cipher_st op = cipher_idle → psa_keys e !! id = Some (AES_key k) →
    (psa_cipher_encrypt_setup op id e).1 = PSA_SUCCESS;
  iv_avail op iv k : cipher_st op = cipher_keyed k → (psa_cipher_set_iv op iv).1 = PSA_SUCCESS;
  update_avail op data k iv pos :
    cipher_st op = cipher_active k iv pos → (psa_cipher_update op data).1.1 = PSA_SUCCESS;
}.
