(* ===== verification/Security1.v ===== *)
(** * Security1: X25519 + proof of possession + AES-256-CTR (src/security1.c)

    The device side of the handshake: the session record, the operations on it
    and the scheme object protocomm drives. *)
From S2P Require Import Prelude Platform PbUtil Protocomm Messages Psa.

Definition PUBKEY_LEN : nat := 32.
Definition RANDOM_LEN : nat := 16.
Definition SESSION_KEY_LEN : nat := 32.
Definition POP_MAX : nat := 64.

Inductive sec1_state := SEC1_INIT | SEC1_CMD0_DONE | SEC1_DONE.
#[export] Instance sec1_state_eq_dec : EqDecision sec1_state.
Proof. solve_decision. Defined.

(** [struct sec1_ctx], with the address it was allocated at. [s1c_pop] is the
    first [pop_len] bytes of [pop]. *)
Record sec1_ctx (Op : Type) := mk_ctx {
  s1c_self : loc;
  s1c_state : sec1_state;
  s1c_pop : bytes;
  s1c_device_key : Z;
  s1c_device_pubkey : bytes;
  s1c_client_pubkey : bytes;
  s1c_device_random : bytes;
  s1c_session_key : Z;
  s1c_cipher : Op;
}.
Arguments mk_ctx {_} _ _ _ _ _ _ _ _ _.
Arguments s1c_self {_} _.
Arguments s1c_state {_} _.
Arguments s1c_pop {_} _.
Arguments s1c_device_key {_} _.
Arguments s1c_device_pubkey {_} _.
Arguments s1c_client_pubkey {_} _.
Arguments s1c_device_random {_} _.
Arguments s1c_session_key {_} _.
Arguments s1c_cipher {_} _.

#[export] Instance sec1_ctx_eta {Op} : FieldEta (sec1_ctx Op) := fun r =>
  mk_ctx (s1c_self r) (s1c_state r) (s1c_pop r) (s1c_device_key r) (s1c_device_pubkey r)
    (s1c_client_pubkey r) (s1c_device_random r) (s1c_session_key r) (s1c_cipher r).

Section security1.
Context {E : Type} `{KHeap E} `{PSA E} `{PbMsg SessionData} `{UnionViews}.

Local Abbreviation ctx_t := (sec1_ctx psa_cipher_operation_t).

Context (sizeof_sec1_ctx : Z).

(** A zero-filled buffer of [n] bytes. *)
Definition zeros (n : nat) : bytes := replicate n 0.

(** [MIN(strlen(pop), POP_MAX - 1)] bytes of a non-empty PoP. *)
Definition pop_bytes (pop : option string) : bytes :=
  if null_or_empty pop then [] else take (POP_MAX - 1) (str_bytes (default EmptyString pop)).

Definition sec1_init (pop : option string) (e : E) : Z * option ctx_t * E :=
  let '(status, e1) := psa_crypto_init e in
  if negb (status =? PSA_SUCCESS) then (- EIO, None, e1)
  else
    match k_malloc sizeof_sec1_ctx e1 with
    | (None, e2) => (- ENOMEM, None, e2)
    | (Some self, e2) =>
        let '(status, device_key, e3) := psa_generate_key e2 in
        if negb (status =? PSA_SUCCESS) then (- EIO, None, k_free (Some self) e3)
        else
          let '(status, pubkey) := psa_export_public_key device_key e3 in
          if negb (status =? PSA_SUCCESS) || negb (blen pubkey =? Z.of_nat PUBKEY_LEN)
          then (- EIO, None, k_free (Some self) (psa_destroy_key device_key e3))
          else
            (0, Some (mk_ctx self SEC1_INIT (pop_bytes pop) device_key pubkey
                        (zeros PUBKEY_LEN) (zeros RANDOM_LEN) PSA_KEY_ID_NULL
                        psa_cipher_operation_init), e3)
    end.

(** The abort is on a context that is wiped and freed next. *)
Definition sec1_cleanup (ctx : ctx_t) (e : E) : E :=
  let e1 := if negb (s1c_session_key ctx =? PSA_KEY_ID_NULL)
            then psa_destroy_key (s1c_session_key ctx) e else e in
  let e2 := if negb (s1c_device_key ctx =? PSA_KEY_ID_NULL)
            then psa_destroy_key (s1c_device_key ctx) e1 else e1 in
  k_free (Some (s1c_self ctx)) e2.

(** The shared secret with the PoP hash mixed in, [None] for -EIO. *)
Definition session_secret (ctx : ctx_t) (e : E) : option bytes :=
  let '(status, shared) := psa_raw_key_agreement (s1c_device_key ctx) (s1c_client_pubkey ctx) e in
  if negb (status =? PSA_SUCCESS) || negb (blen shared =? Z.of_nat SESSION_KEY_LEN) then None
  else if 0 <? blen (s1c_pop ctx) then
    let '(status, hash) := psa_hash_compute (s1c_pop ctx) e in
    if negb (status =? PSA_SUCCESS) || negb (blen hash =? Z.of_nat SESSION_KEY_LEN) then None
    else Some (xor_bytes shared hash)
  else Some shared.

Definition derive_session_key (ctx : ctx_t) (e : E) : Z * ctx_t * E :=
  match session_secret ctx e with
  | None => (- EIO, ctx, e)
  | Some shared =>
      let '(status, key, e1) := psa_import_key shared e in
      let ctx1 := ctx <| s1c_session_key := key |> in
      if negb (status =? PSA_SUCCESS) then (- EIO, ctx1, e1)
      else
        let '(status, op) := psa_cipher_encrypt_setup psa_cipher_operation_init key e1 in
        let ctx2 := ctx1 <| s1c_cipher := op |> in
        if negb (status =? PSA_SUCCESS) then (- EIO, ctx2, e1)
        else
          let '(status, op') := psa_cipher_set_iv op (s1c_device_random ctx2) in
          let ctx3 := ctx2 <| s1c_cipher := op' |> in
          if negb (status =? PSA_SUCCESS) then (- EIO, ctx3, e1) else (0, ctx3, e1)
  end.

(** Return code, output ([*outlen] is its length), context. *)
Definition ctr_xform (ctx : ctx_t) (inbuf : bytes) : Z * bytes * ctx_t :=
  let '(status, out, op) := psa_cipher_update (s1c_cipher ctx) inbuf in
  let ctx1 := ctx <| s1c_cipher := op |> in
  if negb (status =? PSA_SUCCESS) then (- EIO, [], ctx1) else (0, out, ctx1).

Definition resp0 (ctx : ctx_t) : SessionData :=
  mk_session SecSchemeVersion_SecScheme1
    (proto_sec1 (mk_sec1 Sec1MsgType_Session_Response0
      (sec1_sr0 Status_Success (take PUBKEY_LEN (s1c_device_pubkey ctx))
         (take RANDOM_LEN (s1c_device_random ctx))))).

Definition build_resp0 (ctx : ctx_t) (e : E) : Z * obuf * E :=
  network_prov_pb_encode (resp0 ctx) e.

Definition resp1 (device_verify : bytes) : SessionData :=
  mk_session SecSchemeVersion_SecScheme1
    (proto_sec1 (mk_sec1 Sec1MsgType_Session_Response1
      (sec1_sr1 Status_Success (take PUBKEY_LEN device_verify)))).

Definition build_resp1 (device_verify : bytes) (e : E) : Z * obuf * E :=
  network_prov_pb_encode (resp1 device_verify) e.

Definition handle_cmd0 (ctx : ctx_t) (p : Sec1Payload) (e : E) : Z * obuf * ctx_t * E :=
  let client_pubkey := view_sc0 (s1_payload p) in
  if negb (blen client_pubkey =? Z.of_nat PUBKEY_LEN) then (- EINVAL, no_buf, ctx, e)
  else
    let ctx1 := ctx <| s1c_client_pubkey := client_pubkey |> in
    let '(status, random, e1) := psa_generate_random (Z.of_nat RANDOM_LEN) e in
    let ctx2 := ctx1 <| s1c_device_random := random |> in
    if negb (status =? PSA_SUCCESS) then (- EIO, no_buf, ctx2, e1)
    else
      let '(ret, ctx3, e2) := derive_session_key ctx2 e1 in
      if negb (ret =? 0) then (ret, no_buf, ctx3, e2)
      else
        let ctx4 := ctx3 <| s1c_state := SEC1_CMD0_DONE |> in
        let '(ret, out, e3) := build_resp0 ctx4 e2 in
        (ret, out, ctx4, e3).

Definition handle_cmd1 (ctx : ctx_t) (p : Sec1Payload) (e : E) : Z * obuf * ctx_t * E :=
  let verify := view_sc1 (s1_payload p) in
  if negb (bool_decide (s1c_state ctx = SEC1_CMD0_DONE)) then (- EACCES, no_buf, ctx, e)
  else if negb (blen verify =? Z.of_nat PUBKEY_LEN) then (- EINVAL, no_buf, ctx, e)
  else
    let '(ret, check, ctx1) := ctr_xform ctx verify in
    if negb (ret =? 0) then (ret, no_buf, ctx1, e)
    else if negb (blen check =? Z.of_nat PUBKEY_LEN) ||
            negb (bool_decide (check = s1c_device_pubkey ctx1))
    then (- EACCES, no_buf, ctx1, e)
    else
      let '(ret, device_verify, ctx2) := ctr_xform ctx1 (s1c_client_pubkey ctx1) in
      if negb (ret =? 0) then (ret, no_buf, ctx2, e)
      else
        let ctx3 := ctx2 <| s1c_state := SEC1_DONE |> in
        let '(ret, out, e1) := build_resp1 device_verify e in
        (ret, out, ctx3, e1).

Definition sec1_handshake (vctx : option ctx_t) (inbuf : bytes) (e : E)
    : Z * obuf * option ctx_t * E :=
  match vctx with
  | None => (- EINVAL, no_buf, vctx, e)
  | Some ctx =>
      match pb_decode inbuf with
      | None => (- EINVAL, no_buf, vctx, e)
      | Some req =>
          match sec_ver req =? SecSchemeVersion_SecScheme1, sd_proto req with
          | true, proto_sec1 p =>
              if s1_msg p =? Sec1MsgType_Session_Command0 then
                let '(ret, out, ctx', e') := handle_cmd0 ctx p e in (ret, out, Some ctx', e')
              else if s1_msg p =? Sec1MsgType_Session_Command1 then
                let '(ret, out, ctx', e') := handle_cmd1 ctx p e in (ret, out, Some ctx', e')
              else (- EINVAL, no_buf, vctx, e)
          | _, _ => (- EINVAL, no_buf, vctx, e)
          end
      end
  end.

Definition sec1_encrypt (vctx : option ctx_t) (inbuf : bytes) (e : E)
    : Z * bytes * option ctx_t * E :=
  match vctx with
  | None => (- EACCES, [], vctx, e)
  | Some ctx =>
      if negb (bool_decide (s1c_state ctx = SEC1_DONE)) then (- EACCES, [], vctx, e)
      else let '(ret, out, ctx') := ctr_xform ctx inbuf in (ret, out, Some ctx', e)
  end.

Definition network_prov_security1 : protocomm_security ctx_t E :=
  mk_security 1 (Some sec1_init) (Some sec1_cleanup) (Some sec1_handshake)
    sec1_encrypt sec1_encrypt.

End security1.

(** The AES key both sides derive from the shared secret and the PoP. *)
Definition mix_pop `{Crypto} (shared pop : bytes) : bytes :=
  if 0 <? blen pop then xor_bytes shared (sha256 pop) else shared.

Section security1_facts.
Context {E : Type} `{HH : KHeap E} `{!KHeapLaws E}.
Context `{CR : Crypto} `{!CryptoLaws} `{PS : PSA E} `{!PsaLaws E} `{!PsaHeapLaws E}.
Context `{PB : PbMsg SessionData} `{!PbMsgLaws SessionData} `{UV : UnionViews} `{!UnionViewsLaws}.

Local Abbreviation ctx_t := (sec1_ctx psa_cipher_operation_t).

(** [op] transforms data with the keystream of [key]/[iv] from [pos] on. *)
Definition keystream_at (ctx : ctx_t) (key iv : bytes) (pos : nat) : Prop :=
  cipher_st (s1c_cipher ctx) = cipher_active key iv pos.

(** The fields a handshake message leaves alone. *)
Definition same_identity (ctx ctx' : ctx_t) : Prop :=
  s1c_self ctx' = s1c_self ctx ∧ s1c_pop ctx' = s1c_pop ctx ∧
  s1c_device_key ctx' = s1c_device_key ctx ∧ s1c_device_pubkey ctx' = s1c_device_pubkey ctx.

Lemma pb_encode_keys {M} `{PbMsg M} (m : M) (e : E) :
  psa_keys (network_prov_pb_encode m e).2 = psa_keys e.
Proof.
  unfold network_prov_pb_encode. destruct (pb_get_encoded_size m) as [n|]; [|done].
  pose proof (malloc_keys e (if n =? 0 then 1 else n)) as Hk.
  destruct (k_malloc _ e) as [[l|] e1]; [|done]. destruct (pb_encode n m); cbn in *; [done|].
  by rewrite free_keys.
Qed.

Lemma ctr_xform_cases (ctx : ctx_t) inbuf rc out ctx' :
  ctr_xform ctx inbuf = (rc, out, ctx') →
  ∃ op, ctx' = ctx <| s1c_cipher := op |> ∧
  ((rc = 0 ∧ ∃ key iv pos, keystream_at ctx key iv pos ∧
      out = xor_bytes inbuf (aes_ctr key iv pos (length inbuf)) ∧
      keystream_at ctx' key iv (pos + length inbuf)) ∨
   (rc = - EIO ∧ cipher_st op = cipher_error)).
Proof.
  unfold ctr_xform. destruct (psa_cipher_update _ _) as [[st o] op] eqn:Hu.
  destruct (st =? PSA_SUCCESS) eqn:Hst; breflect; cbn; intros ?; simplify_eq; eexists; (split; [done|]).
  - left. split; [done|].
    destruct (cipher_update_ok _ _ _ _ Hu) as (key & iv & pos & ? & ? & ?). eauto 10.
  - right. split; [done|]. by eapply cipher_update_fail.
Qed.

Lemma session_secret_ok (ctx : ctx_t) (e : E) s sk :
  psa_keys e !! s1c_device_key ctx = Some (X25519_key sk) →
  session_secret ctx e = Some s → s = mix_pop (x25519 sk (s1c_client_pubkey ctx)) (s1c_pop ctx).
Proof.
  unfold session_secret, mix_pop. intros Hk.
  destruct (psa_raw_key_agreement _ _ e) as [st shared] eqn:Ha.
  destruct (st =? PSA_SUCCESS) eqn:Hst; breflect; cbn; [subst st|done].
  apply (psa_agree_ok _ _ _ _ sk) in Ha as ->; [|done].
  destruct (blen _ =? _); cbn; [|done]. destruct (0 <? blen _); [|congruence].
  destruct (psa_hash_compute _ e) as [st hash] eqn:Hh.
  destruct (st =? PSA_SUCCESS) eqn:Hst; breflect; cbn; [subst st|done].
  apply psa_hash_ok in Hh as ->. destruct (blen _ =? _); cbn; [congruence|done].
Qed.

(** What [derive_session_key] does to the context, on every path: only the key
    identifier and the cipher change; success arms the keystream of the mixed
    key at position 0, failure leaves the old cipher or an unusable one. *)
Lemma derive_cases (ctx : ctx_t) (e : E) rc ctx' e' sk :
  psa_keys e !! s1c_device_key ctx = Some (X25519_key sk) →
  derive_session_key ctx e = (rc, ctx', e') →
  ∃ id op, ctx' = ctx <| s1c_session_key := id |> <| s1c_cipher := op |> ∧
  psa_keys e' !! s1c_device_key ctx = Some (X25519_key sk) ∧
  ((rc = 0 ∧ let key := mix_pop (x25519 sk (s1c_client_pubkey ctx)) (s1c_pop ctx) in
      keystream_at ctx' key (s1c_device_random ctx) 0 ∧
      psa_keys e !! id = None ∧ id ≠ PSA_KEY_ID_NULL ∧ psa_keys e' = <[id := AES_key key]> (psa_keys e)) ∨
   (rc = - EIO ∧ (op = s1c_cipher ctx ∨ cipher_st op = cipher_error))).
Proof.
  intros Hsk. unfold derive_session_key.
  destruct (session_secret ctx e) as [shared|] eqn:Hss.
  2:{ intros ?; simplify_eq. exists (s1c_session_key ctx'), (s1c_cipher ctx').
      split; [by destruct ctx'|]. auto. }
  apply (session_secret_ok _ _ _ _ Hsk) in Hss as ->.
  destruct (psa_import_key _ e) as [[st id] e1] eqn:Himp.
  destruct (st =? PSA_SUCCESS) eqn:Hst; breflect; cbn; [subst st|].
  2:{ apply psa_import_fail in Himp as [-> Hkeys]; [|done]. intros ?; simplify_eq.
      exists PSA_KEY_ID_NULL, (s1c_cipher ctx). split; [by destruct ctx|]. rewrite Hkeys. auto. }
  apply psa_import_ok in Himp as (Hid & Hfresh & Hkeys).
  assert (Hdev : psa_keys e1 !! s1c_device_key ctx = Some (X25519_key sk)).
  { rewrite Hkeys, lookup_insert_ne; [done|]. intros ->. congruence. }
  destruct (psa_cipher_encrypt_setup _ _ e1) as [st op] eqn:Hset.
  destruct (st =? PSA_SUCCESS) eqn:Hst; breflect; cbn; [subst st|].
  2:{ apply cipher_setup_fail in Hset; [|done]. intros ?; simplify_eq. eauto 10. }
  eapply cipher_setup_ok in Hset; [|rewrite Hkeys; apply lookup_insert_eq].
  destruct (psa_cipher_set_iv _ _) as [st op'] eqn:Hiv.
  destruct (st =? PSA_SUCCESS) eqn:Hst; breflect; cbn; [subst st|].
  2:{ apply cipher_iv_fail in Hiv; [|done]. intros ?; simplify_eq. exists id, op'. eauto 10. }
  eapply cipher_iv_ok in Hiv; [|done]. intros ?; simplify_eq. exists id, op'.
  split; [done|]. split; [done|]. left. split; [done|]. split; [exact Hiv|]. auto.
Qed.

(** ** Everything a session can go through

    A run of one session: handshake messages with arbitrary bytes, data in
    either direction, and steps of the rest of the machine that keep the
    session's own key pair. The history collects the handshake messages. *)
Inductive sec1_step : ctx_t * E * list (list Z) → ctx_t * E * list (list Z) → Prop :=
| step_handshake ctx e tr inbuf rc out ctx' e' :
    sec1_handshake (Some ctx) inbuf e = (rc, out, Some ctx', e') →
    sec1_step (ctx, e, tr) (ctx', e', tr ++ [inbuf])
| step_data ctx e tr inbuf rc out ctx' e' :
    sec1_encrypt (Some ctx) inbuf e = (rc, out, Some ctx', e') →
    sec1_step (ctx, e, tr) (ctx', e', tr)
| step_env ctx e tr e' :
    psa_keys e' !! s1c_device_key ctx = psa_keys e !! s1c_device_key ctx →
    sec1_step (ctx, e, tr) (ctx, e', tr).

(** The peer proved knowledge of the keystream of [key]/[iv]: a Command1 among
    the messages carried the device public key encrypted with it. *)
Definition authenticated (ctx : ctx_t) (tr : list (list Z)) (key iv : bytes) (pos : nat) : Prop :=
  ∃ m req p p0, m ∈ tr ∧ pb_decode m = Some req ∧ sd_proto req = proto_sec1 p ∧
    s1_msg p = Sec1MsgType_Session_Command1 ∧
    xor_bytes (view_sc1 (s1_payload p)) (aes_ctr key iv p0 PUBKEY_LEN) = s1c_device_pubkey ctx ∧
    (p0 + 2 * PUBKEY_LEN ≤ pos)%nat.

Record sec1_inv (s : ctx_t * E * list (list Z)) : Prop := mk_inv {
  inv_key : ∃ sk, psa_keys s.1.2 !! s1c_device_key s.1.1 = Some (X25519_key sk) ∧
    s1c_device_pubkey s.1.1 = x25519_pub sk ∧
    ∀ key iv pos, keystream_at s.1.1 key iv pos →
      ∃ cpub, length cpub = PUBKEY_LEN ∧ key = mix_pop (x25519 sk cpub) (s1c_pop s.1.1);
  inv_client : length (s1c_client_pubkey s.1.1) = PUBKEY_LEN;
  inv_done : ∀ key iv pos, s1c_state s.1.1 = SEC1_DONE → keystream_at s.1.1 key iv pos →
    authenticated s.1.1 s.2 key iv pos;
}.

Lemma authenticated_mono (ctx ctx' : ctx_t) tr tr' key iv pos pos' :
  s1c_device_pubkey ctx' = s1c_device_pubkey ctx → (pos ≤ pos')%nat →
  authenticated ctx tr key iv pos → authenticated ctx' (tr ++ tr') key iv pos'.
Proof.
  intros Hpub Hpos (m & req & p & p0 & Hin & Hdec & Hp & Hmsg & Hx & Hp0).
  exists m, req, p, p0. rewrite Hpub. split_and!; try done; [set_solver|lia].
Qed.

Lemma sec1_init_inv sz pop (e : E) ctx e' :
  sec1_init sz pop e = (0, Some ctx, e') → sec1_inv (ctx, e', []) ∧ s1c_pop ctx = pop_bytes pop.
Proof.
  unfold sec1_init. destruct (psa_crypto_init e) as [st e1].
  destruct (st =? PSA_SUCCESS); cbn; [|done].
  destruct (k_malloc sz e1) as [[self|] e2]; [|done].
  destruct (psa_generate_key e2) as [[st2 dk] e3] eqn:Hg.
  destruct (st2 =? PSA_SUCCESS) eqn:Hst; breflect; cbn; [subst st2|done].
  apply psa_generate_ok in Hg as (Hnz & Hfresh & sk & Hkeys).
  assert (Hsk : psa_keys e3 !! dk = Some (X25519_key sk)) by (rewrite Hkeys; apply lookup_insert_eq).
  destruct (psa_export_public_key dk e3) as [st3 pub] eqn:Hx.
  destruct (st3 =? PSA_SUCCESS) eqn:Hst; breflect; cbn; [subst st3|done].
  apply (psa_export_ok _ _ _ _ Hx) in Hsk as Hpub.
  destruct (blen pub =? _); cbn; [|done]. intros ?; simplify_eq. split; [|done].
  split; cbn.
  - exists sk. split_and!; [done..|]. intros key iv pos Hk. unfold keystream_at in Hk. cbn in Hk.
    by rewrite cipher_init_st in Hk.
  - done.
  - done.
Qed.

(** Handling Command0. *)
Lemma handle_cmd0_inv (ctx ctx' : ctx_t) p (e e' : E) tr m rc out :
  sec1_inv (ctx, e, tr) → handle_cmd0 ctx p e = (rc, out, ctx', e') →
  sec1_inv (ctx', e', tr ++ [m]) ∧ same_identity ctx ctx'.
Proof.
  intros [(sk & Hsk & Hpub & Hder) Hcl Hdone]. unfold handle_cmd0. cbn in *.
  assert (Hmono : ∀ key iv pos, s1c_state ctx = SEC1_DONE → keystream_at ctx key iv pos →
    ∀ ctx2 : ctx_t, s1c_device_pubkey ctx2 = s1c_device_pubkey ctx →
    authenticated ctx2 (tr ++ [m]) key iv pos)
    by (intros; eapply authenticated_mono; [done|reflexivity|eauto]).
  destruct (blen (view_sc0 _) =? _) eqn:Hlen; breflect; cbn.
  2:{ intros ?; simplify_eq. split; [|done]. split; cbn; eauto. }
  assert (Hc32 : length (view_sc0 (s1_payload p)) = PUBKEY_LEN) by (unfold blen in Hlen; lia).
  destruct (psa_generate_random _ e) as [[st rnd] e1] eqn:Hr.
  apply psa_random_ok in Hr as [Hkeys1 Hrlen]; [|lia].
  assert (Hsk1 : psa_keys e1 !! s1c_device_key ctx = Some (X25519_key sk)) by (by rewrite Hkeys1).
  destruct (st =? PSA_SUCCESS); cbn.
  2:{ intros ?; simplify_eq. split; [|done]. split; cbn; eauto. }
  destruct (derive_session_key _ e1) as [[ret ctx3] e2] eqn:Hd.
  eapply derive_cases in Hd as (id & op & -> & Hsk2 & Hcases); [|exact Hsk1]. cbn in *.
  destruct Hcases as [(-> & Hks & _)|(-> & Hop)]; rc_simpl.
  - destruct (build_resp0 _ e2) as [[r o] e3] eqn:Hb. intros ?; simplify_eq.
    assert (Hk3 : psa_keys e' = psa_keys e2).
    { change e' with (rc, out, e').2. rewrite <- Hb. apply pb_encode_keys. }
    split; [|done]. split; cbn; [|done|done].
    exists sk. rewrite Hk3. split_and!; [done..|]. intros key iv pos Hk. unfold keystream_at in *.
    cbn in *. rewrite Hks in Hk. simplify_eq. eauto.
  - intros ?; simplify_eq. split; [|done]. unfold keystream_at in *. split; cbn.
    + exists sk. split_and!; [done..|]. intros key iv pos Hk. unfold keystream_at in Hk. cbn in Hk.
      destruct Hop as [->|Herr]; [by eauto|congruence].
    + done.
    + intros key iv pos Hst Hk. unfold keystream_at in Hk. cbn in Hk.
      destruct Hop as [->|Herr]; [by eauto|congruence].
Qed.

(** Handling Command1. *)
Lemma handle_cmd1_inv (ctx ctx' : ctx_t) p (e e' : E) tr m req rc out :
  sec1_inv (ctx, e, tr) → pb_decode m = Some req → sd_proto req = proto_sec1 p →
  s1_msg p = Sec1MsgType_Session_Command1 →
  handle_cmd1 ctx p e = (rc, out, ctx', e') →
  sec1_inv (ctx', e', tr ++ [m]) ∧ same_identity ctx ctx'.
Proof.
  intros [(sk & Hsk & Hpub & Hder) Hcl Hdone] Hdec Hp Hmsg. unfold handle_cmd1. cbn in *.
  case_bool_decide as Hst; cbn.
  2:{ intros ?; simplify_eq. split; [|done]. split; cbn; eauto.
      intros. eapply authenticated_mono; [done|reflexivity|eauto]. }
  destruct (blen (view_sc1 _) =? _) eqn:Hlen; breflect; cbn.
  2:{ intros ?; simplify_eq. split; [|done]. split; cbn; eauto. by rewrite Hst. }
  assert (Hv32 : length (view_sc1 (s1_payload p)) = PUBKEY_LEN) by (unfold blen in Hlen; lia).
  destruct (ctr_xform ctx _) as [[r1 check] ctx1] eqn:Hx1.
  apply ctr_xform_cases in Hx1 as (op1 & -> & [(-> & key & iv & pos & Hk & Hck & Hk1)|(-> & Herr)]);
    rc_simpl.
  2:{ intros ?; simplify_eq. split; [|done]. unfold keystream_at in *. split; cbn; [|done|unfold keystream_at; cbn; congruence].
      exists sk. split_and!; [done..|]. unfold keystream_at. cbn. congruence. }
  unfold keystream_at in *. cbn in *.
  destruct (Hder _ _ _ Hk) as (cpub & Hcp & Hkey).
  assert (Hnot : sec1_inv (ctx <| s1c_cipher := op1 |>, e, tr ++ [m])).
  { split; cbn; [|done|by rewrite Hst]. exists sk. split_and!; [done..|].
    intros k2 iv2 pos2 Hk2. unfold keystream_at in Hk2. cbn in Hk2. rewrite Hk1 in Hk2.
    simplify_eq. eauto. }
  destruct (negb _ || negb _) eqn:Hchk.
  { intros ?; simplify_eq. split; [exact Hnot|done]. }
  breflect. destruct (ctr_xform _ _) as [[r2 dv] ctx2] eqn:Hx2.
  apply ctr_xform_cases in Hx2 as (op2 & -> & [(-> & key2 & iv2 & pos2 & Hk2 & _ & Hk3)|(-> & Herr)]);
    unfold keystream_at in *; rc_simpl.
  2:{ intros ?; simplify_eq. split; [|done]. split; cbn; [|done|by rewrite Hst].
      exists sk. split_and!; [done..|]. unfold keystream_at. cbn. congruence. }
  rewrite Hk1 in Hk2. simplify_eq.
  destruct (build_resp1 dv e) as [[r o] e3] eqn:Hb. intros ?; simplify_eq.
  assert (Hk4 : psa_keys e' = psa_keys e).
  { change e' with (rc, out, e').2. rewrite <- Hb. apply pb_encode_keys. }
  split; [|done]. split; cbn; [|done|].
  - exists sk. rewrite Hk4. split_and!; [done..|]. unfold keystream_at. cbn. intros k3 iv3 pos3 Hk5.
    rewrite Hk3 in Hk5. simplify_eq. eauto.
  - intros k3 iv3 pos3 _ Hk5. unfold keystream_at in Hk5. cbn in Hk5. rewrite Hk3 in Hk5. simplify_eq.
    exists m, req, p, pos. rewrite Hv32 in *. split_and!; try done; [set_solver|lia].
Qed.

Lemma handshake_inv (ctx ctx' : ctx_t) inbuf (e e' : E) tr rc out :
  sec1_inv (ctx, e, tr) → sec1_handshake (Some ctx) inbuf e = (rc, out, Some ctx', e') →
  sec1_inv (ctx', e', tr ++ [inbuf]) ∧ same_identity ctx ctx'.
Proof.
  intros Hinv. unfold sec1_handshake.
  assert (Hsame : sec1_inv (ctx, e, tr ++ [inbuf])).
  { destruct Hinv as [H1 H2 H3]. split; cbn in *; [done..|]. intros.
    eapply authenticated_mono; [done|reflexivity|eauto]. }
  destruct (pb_decode inbuf) as [req|] eqn:Hdec; [|by intros; simplify_eq].
  destruct (sec_ver req =? _); [|by intros; simplify_eq].
  destruct (sd_proto req) as [| |p] eqn:Hp; [by intros; simplify_eq..|].
  destruct (s1_msg p =? Sec1MsgType_Session_Command0).
  { destruct (handle_cmd0 ctx p e) as [[[r o] c] e1] eqn:Hc. intros ?; simplify_eq.
    by eapply handle_cmd0_inv. }
  destruct (s1_msg p =? Sec1MsgType_Session_Command1) eqn:Hm; breflect; [|by intros; simplify_eq].
  destruct (handle_cmd1 ctx p e) as [[[r o] c] e1] eqn:Hc. intros ?; simplify_eq.
  by eapply handle_cmd1_inv.
Qed.

Lemma encrypt_cases (ctx : ctx_t) inbuf (e : E) rc out ctx' e' :
  sec1_encrypt (Some ctx) inbuf e = (rc, out, ctx', e') →
  e' = e ∧
  ((rc = 0 ∧ s1c_state ctx = SEC1_DONE ∧ ∃ key iv pos op, keystream_at ctx key iv pos ∧
      out = xor_bytes inbuf (aes_ctr key iv pos (length inbuf)) ∧
      ctx' = Some (ctx <| s1c_cipher := op |>) ∧
      cipher_st op = cipher_active key iv (pos + length inbuf)) ∨
   (rc = - EACCES ∧ s1c_state ctx ≠ SEC1_DONE ∧ ctx' = Some ctx) ∨
   (rc = - EIO ∧ s1c_state ctx = SEC1_DONE ∧ ∃ op, ctx' = Some (ctx <| s1c_cipher := op |>) ∧
      cipher_st op = cipher_error)).
Proof.
  unfold sec1_encrypt. case_bool_decide as Hst; cbn; [|intros; simplify_eq; auto 10].
  destruct (ctr_xform ctx inbuf) as [[r o] c] eqn:Hx.
  apply ctr_xform_cases in Hx as (op & -> & [(-> & key & iv & pos & Hk & Hck & Hk1)|(-> & Herr)]);
    intros ?; simplify_eq; (split; [done|]).
  - left. split_and!; [done..|]. exists key, iv, pos, op. auto.
  - right; right. eauto 10.
Qed.

Lemma sec1_step_inv s s' : sec1_step s s' → sec1_inv s → sec1_inv s' ∧ same_identity s.1.1 s'.1.1.
Proof.
  destruct 1 as [ctx e tr inbuf rc out ctx' e' Hs|ctx e tr inbuf rc out ctx' e' Hs|ctx e tr e' Hk].
  - intros Hinv. by eapply handshake_inv.
  - intros [(sk & Hsk & Hpub & Hder) Hcl Hdone]. cbn in *.
    apply encrypt_cases in Hs as [-> [(-> & Hst & key & iv & pos & op & Hk & _ & Heq & Hop)|[(-> & _ & Heq)|(-> & _ & op & Heq & Hop)]]];
      simplify_eq; (split; [|done]).
    + split; cbn; [|done|].
      * exists sk. split_and!; [done..|]. unfold keystream_at. cbn. rewrite Hop. intros; simplify_eq. eauto.
      * unfold keystream_at. cbn. rewrite Hop. intros k2 iv2 pos2 _ ?; simplify_eq.
        rewrite <- (app_nil_r tr). eapply authenticated_mono; [done| |by eauto]. lia.
    + split; cbn; eauto.
    + split; cbn; [|done|]; unfold keystream_at; cbn; rewrite Hop; [|done].
      exists sk. by split_and!.
  - intros [(sk & Hsk & Hpub & Hder) Hcl Hdone]. cbn in *. split; [|done]. split; cbn; [|done..].
    exists sk. by rewrite Hk.
Qed.

Lemma sec1_run_inv s s' : rtc sec1_step s s' → sec1_inv s → sec1_inv s' ∧ same_identity s.1.1 s'.1.1.
Proof.
  induction 1 as [|s1 s2 s3 Hs _ IH]; intros Hinv; [done|].
  destruct (sec1_step_inv _ _ Hs Hinv) as [Hinv2 (H1 & H2 & H3 & H4)].
  destruct (IH Hinv2) as [Hinv3 (H5 & H6 & H7 & H8)].
  split; [done|]. unfold same_identity. by rewrite H5, H6, H7, H8.
Qed.

(** C2: No payload crosses a security-1 session before its peer has proved
    possession of the key. In every run of a session (any handshake bytes in any
    order, repeated or failing commands included, interleaved with data), when
    [sec1_encrypt] transforms a payload, the keystream it uses belongs to a key
    derived from the device's own X25519 key, a client public key and the
    configured PoP, and an earlier Command1 carried the device public key
    encrypted under exactly that keystream. *)
Theorem sec1_data_authenticated sz pop (e0 e1 e : E) ctx0 ctx tr inbuf out ctx' e' :
  sec1_init sz pop e0 = (0, Some ctx0, e1) →
  rtc sec1_step (ctx0, e1, []) (ctx, e, tr) →
  sec1_encrypt (Some ctx) inbuf e = (0, out, ctx', e') →
  ∃ sk cpub key iv pos,
    s1c_device_pubkey ctx = x25519_pub sk ∧ length cpub = PUBKEY_LEN ∧
    key = mix_pop (x25519 sk cpub) (pop_bytes pop) ∧
    authenticated ctx tr key iv pos ∧
    out = xor_bytes inbuf (aes_ctr key iv pos (length inbuf)).
Proof.
  intros Hinit Hrun Henc. apply sec1_init_inv in Hinit as [Hinv0 Hpop].
  destruct (sec1_run_inv _ _ Hrun Hinv0) as [[(sk & Hsk & Hpub & Hder) Hcl Hdone] (_ & Hp & _)].
  cbn in *.
  apply encrypt_cases in Henc as [-> [(_ & Hst & key & iv & pos & op & Hk & -> & _)|[(? & _)|(? & _)]]];
    [|done..].
  destruct (Hder _ _ _ Hk) as (cpub & Hc & Hkey). exists sk, cpub, key, iv, pos.
  rewrite <- Hpop, <- Hp. auto 10.
Qed.

(** The proof of possession binds the key: under one shared secret two
    non-empty PoPs give the same session key exactly when their SHA-256 hashes
    collide, so a peer with a wrong PoP derives another key. *)
Theorem pop_binds_key shared p1 p2 :
  length shared = SESSION_KEY_LEN → p1 ≠ [] → p2 ≠ [] →
  mix_pop shared p1 = mix_pop shared p2 ↔ sha256 p1 = sha256 p2.
Proof.
  intros Hlen H1 H2. unfold mix_pop.
  assert (Hpos : ∀ p : bytes, p ≠ [] → (0 <? blen p) = true).
  { intros [|z p] Hp; [done|]. apply Z.ltb_lt. unfold blen. cbn. lia. }
  rewrite !Hpos by done. split; [|by intros ->].
  apply xor_bytes_inj_r; by rewrite sha256_len.
Qed.

(** A device PoP longer than 63 characters is truncated when the session is
    set up, while the peer hashes all of it: they agree on the key exactly when
    the hashes of the 63-byte prefix and of the whole PoP collide. *)
Theorem long_pop_truncated shared pop :
  length shared = SESSION_KEY_LEN → 63 < strlen pop →
  pop_bytes (Some pop) = take 63 (str_bytes pop) ∧
  (mix_pop shared (pop_bytes (Some pop)) = mix_pop shared (str_bytes pop) ↔
   sha256 (take 63 (str_bytes pop)) = sha256 (str_bytes pop)).
Proof.
  intros Hlen Hlong. unfold strlen in Hlong.
  assert (Hp : pop_bytes (Some pop) = take 63 (str_bytes pop)).
  { unfold pop_bytes. cbn. destruct (String.eqb pop "") eqn:He; [|done]. breflect. subst. cbn in Hlong. lia. }
  split; [done|]. rewrite Hp. pose proof (length_str_bytes pop) as Hl.
  apply pop_binds_key; [done| |]; intros Hnil; apply (f_equal length) in Hnil;
    rewrite ?length_take in Hnil; change (length []) with 0%nat in Hnil; lia.
Qed.
End security1_facts.

(** ** Key store and heap accounting *)
#[export] Instance sec1_ctx_locs {Op} : CtxLocs (sec1_ctx Op) := fun ctx => {[ s1c_self ctx ]}.

Section security1_resources.
Context {E : Type} `{HH : KHeap E} `{!KHeapLaws E}.
Context `{CR : Crypto} `{!CryptoLaws} `{PS : PSA E} `{!PsaLaws E} `{!PsaHeapLaws E}.
Context `{PB : PbMsg SessionData} `{!PbMsgLaws SessionData} `{UV : UnionViews}.

Local Abbreviation ctx_t := (sec1_ctx psa_cipher_operation_t).

Lemma cleanup_keys (ctx : ctx_t) (e : E) :
  psa_keys (sec1_cleanup ctx e) =
    (if s1c_device_key ctx =? PSA_KEY_ID_NULL then id else delete (s1c_device_key ctx))
    ((if s1c_session_key ctx =? PSA_KEY_ID_NULL then id else delete (s1c_session_key ctx))
       (psa_keys e)).
Proof.
  unfold sec1_cleanup. rewrite free_keys.
  destruct (s1c_session_key ctx =? _), (s1c_device_key ctx =? _); cbn; by rewrite ?psa_destroy_keys.
Qed.

Lemma init_resources sz pop (e : E) rc ctx e' :
  sec1_init sz pop e = (rc, ctx, e') →
  heap_extends e (if rc =? 0 then opt_ctx_locs ctx else ∅) e' ∧
  match ctx with
  | Some c => rc = 0 ∧ s1c_session_key c = PSA_KEY_ID_NULL ∧ s1c_device_key c ≠ PSA_KEY_ID_NULL ∧
      psa_keys e !! s1c_device_key c = None ∧
      ∃ k, psa_keys e' = <[s1c_device_key c := k]> (psa_keys e)
  | None => rc ≠ 0 ∧ psa_keys e' = psa_keys e
  end.
Proof.
  unfold sec1_init. pose proof (psa_init_keys e) as Hk0. pose proof (crypto_init_heap e) as Hh0.
  destruct (psa_crypto_init e) as [st e1]. cbn in Hk0, Hh0. unfold heap_extends.
  destruct (st =? PSA_SUCCESS); cbn.
  2:{ intros ?; simplify_eq. rc_simpl. rewrite Hh0. split; [set_solver|by rewrite Hk0]. }
  pose proof (malloc_keys e1 sz) as Hk1. destruct (k_malloc sz e1) as [[self|] e2] eqn:Hm; cbn in Hk1.
  2:{ intros ?; simplify_eq. rc_simpl. rewrite (k_malloc_none _ _ _ Hm), Hh0.
      split; [set_solver|by rewrite Hk1, Hk0]. }
  pose proof (k_malloc_some _ _ _ _ Hm) as [Hfr Hall].
  pose proof (generate_key_heap e2) as Hh2.
  destruct (psa_generate_key e2) as [[st2 dk] e3] eqn:Hg. cbn in Hh2.
  assert (Hfree : ∀ e4, allocated e4 = allocated e3 → allocated (k_free (Some self) e4) = allocated e).
  { intros e4 He4. rewrite k_free_some, He4, Hh2, Hall, Hh0. rewrite Hh0 in Hfr. set_solver. }
  destruct (st2 =? PSA_SUCCESS) eqn:Hst; breflect; cbn; [subst st2|].
  2:{ intros ?; simplify_eq. rc_simpl. rewrite Hfree by done. rewrite free_keys.
      apply psa_generate_fail in Hg as [_ ->]; [|done]. rewrite Hk1, Hk0. split; [set_solver|done]. }
  apply psa_generate_ok in Hg as (Hnz & Hfresh & sk & Hkeys).
  destruct (psa_export_public_key dk e3) as [st3 pub] eqn:Hx.
  destruct (negb _ || negb _) eqn:Hc.
  - intros ?; simplify_eq. rc_simpl. rewrite Hfree by apply destroy_key_heap.
    rewrite free_keys, psa_destroy_keys, Hkeys, delete_insert_id by done. rewrite Hk1, Hk0.
    split; [set_solver|done].
  - intros ?; simplify_eq. cbn. rewrite Hh2, Hall, Hh0. rewrite Hh0 in Hfr.
    split; [set_solver|]. rewrite Hkeys, Hk1, Hk0. rewrite Hk1, Hk0 in Hfresh. eauto 10.
Qed.

Lemma derive_heap (ctx : ctx_t) (e : E) rc ctx' e' :
  derive_session_key ctx e = (rc, ctx', e') →
  allocated e' = allocated e ∧ s1c_self ctx' = s1c_self ctx.
Proof.
  unfold derive_session_key. destruct (session_secret ctx e) as [sh|]; [|by intros; simplify_eq].
  pose proof (import_key_heap e sh) as Hi. destruct (psa_import_key sh e) as [[st id] e1]. cbn in Hi.
  destruct (st =? _); cbn; [|by intros; simplify_eq].
  destruct (psa_cipher_encrypt_setup _ _ _) as [st2 op]. destruct (st2 =? _); cbn; [|by intros; simplify_eq].
  destruct (psa_cipher_set_iv _ _) as [st3 op2]. destruct (st3 =? _); cbn; by intros; simplify_eq.
Qed.

Lemma sec1_handshake_heap (vctx : option ctx_t) inbuf (e : E) rc out vctx' e' :
  sec1_handshake vctx inbuf e = (rc, out, vctx', e') →
  heap_extends e (buf_locs out) e' ∧ opt_ctx_locs vctx' = opt_ctx_locs vctx.
Proof.
  unfold sec1_handshake. intros Hrun.
  destruct vctx as [ctx|]; [|by simplify_eq; split; [apply heap_extends_refl|]].
  destruct (pb_decode inbuf) as [req|]; [|by simplify_eq; split; [apply heap_extends_refl|]].
  destruct (sec_ver req =? _); [|by simplify_eq; split; [apply heap_extends_refl|]].
  destruct (sd_proto req) as [| |p]; [by simplify_eq; split; [apply heap_extends_refl|]..|].
  destruct (s1_msg p =? Sec1MsgType_Session_Command0).
  - destruct (handle_cmd0 ctx p e) as [[[r o] c] e1] eqn:Hc. simplify_eq. unfold handle_cmd0 in Hc.
    destruct (blen _ =? _); cbn in Hc; [|by simplify_eq; split; [apply heap_extends_refl|]].
    pose proof (generate_random_heap e (Z.of_nat RANDOM_LEN)) as Hr.
    destruct (psa_generate_random _ e) as [[st rnd] e1]. cbn in Hr.
    destruct (st =? _); cbn in Hc; [|by simplify_eq/=; unfold heap_extends; rewrite Hr; split; [set_solver|]].
    destruct (derive_session_key _ e1) as [[ret ctx3] e2] eqn:Hd. apply derive_heap in Hd as [Hd Hs].
    cbn in Hs. unfold opt_ctx_locs, ctx_locs, sec1_ctx_locs.
    destruct (ret =? 0); cbn in Hc; [|by simplify_eq/=; unfold heap_extends; rewrite Hd, Hr, Hs; split; [set_solver|]].
    destruct (build_resp0 _ e2) as [[r2 o2] e3] eqn:Hb. simplify_eq/=.
    apply pb_encode_heap in Hb as [Hb1 Hb2]. unfold heap_extends. rewrite Hs, Hb1, Hd, Hr.
    rewrite Hd, Hr in Hb2. by split.
  - destruct (s1_msg p =? _); [|by simplify_eq; split; [apply heap_extends_refl|]].
    destruct (handle_cmd1 ctx p e) as [[[r o] c] e1] eqn:Hc. simplify_eq. unfold handle_cmd1 in Hc.
    destruct (negb (bool_decide _)); [by simplify_eq; split; [apply heap_extends_refl|]|].
    destruct (negb _); [by simplify_eq; split; [apply heap_extends_refl|]|].
    destruct (ctr_xform ctx _) as [[r1 o1] c1] eqn:Hx. apply ctr_xform_cases in Hx as (op & -> & _).
    destruct (negb _); [by simplify_eq; split; [apply heap_extends_refl|]|].
    destruct (negb _ || _); [by simplify_eq; split; [apply heap_extends_refl|]|].
    destruct (ctr_xform _ _) as [[r2 o2] c2] eqn:Hx. apply ctr_xform_cases in Hx as (op2 & -> & _).
    destruct (negb _); [by simplify_eq; split; [apply heap_extends_refl|]|].
    destruct (build_resp1 _ e) as [[r3 o3] e3] eqn:Hb. simplify_eq/=.
    by apply pb_encode_heap in Hb as [Hb1 Hb2].
Qed.

Lemma cleanup_allocated (ctx : ctx_t) (e : E) :
  allocated (sec1_cleanup ctx e) = allocated e ∖ {[s1c_self ctx]}.
Proof.
  unfold sec1_cleanup. rewrite k_free_some.
  destruct (s1c_session_key ctx =? _), (s1c_device_key ctx =? _); cbn; by rewrite ?destroy_key_heap.
Qed.

(** A successful Command0 installs a fresh session key. *)
Lemma cmd0_installs_key (ctx ctx' : ctx_t) p (e e' : E) out sk :
  psa_keys e !! s1c_device_key ctx = Some (X25519_key sk) →
  handle_cmd0 ctx p e = (0, out, ctx', e') →
  s1c_device_key ctx' = s1c_device_key ctx ∧ s1c_session_key ctx' ≠ PSA_KEY_ID_NULL ∧
  psa_keys e !! s1c_session_key ctx' = None ∧
  ∃ k, psa_keys e' = <[s1c_session_key ctx' := k]> (psa_keys e).
Proof.
  intros Hsk. unfold handle_cmd0.
  destruct (blen _ =? _); cbn; [|done]. destruct (psa_generate_random _ e) as [[st rnd] e1] eqn:Hr.
  apply psa_random_ok in Hr as [Hk1 _]; [|lia]. destruct (st =? _); cbn; [|done].
  destruct (derive_session_key _ e1) as [[ret ctx3] e2] eqn:Hd.
  eapply derive_cases in Hd as (id & op & -> & _ & Hcases); [|cbn; by rewrite Hk1].
  destruct Hcases as [(-> & _ & Hfr & Hnz & Hk2)|(-> & _)]; rc_simpl; [|done].
  destruct (build_resp0 _ e2) as [[r o] e3] eqn:Hb. intros ?; simplify_eq/=.
  assert (Hk3 : psa_keys e' = psa_keys e2).
  { change e' with (0, out, e').2. rewrite <- Hb. apply pb_encode_keys. }
  rewrite Hk3, Hk2, Hk1. rewrite Hk1 in Hfr. eauto 10.
Qed.

Lemma cmd1_keeps_keys (ctx ctx' : ctx_t) p (e e' : E) rc out :
  handle_cmd1 ctx p e = (rc, out, ctx', e') →
  psa_keys e' = psa_keys e ∧ s1c_device_key ctx' = s1c_device_key ctx ∧
  s1c_session_key ctx' = s1c_session_key ctx.
Proof.
  unfold handle_cmd1. destruct (negb (bool_decide _)); [by intros; simplify_eq|].
  destruct (negb _); [by intros; simplify_eq|].
  destruct (ctr_xform ctx _) as [[r1 o1] c1] eqn:Hx. apply ctr_xform_cases in Hx as (op & -> & _).
  destruct (negb _); [by intros; simplify_eq|]. destruct (negb _ || _); [by intros; simplify_eq|].
  destruct (ctr_xform _ _) as [[r2 o2] c2] eqn:Hx. apply ctr_xform_cases in Hx as (op2 & -> & _).
  destruct (negb _); [by intros; simplify_eq|].
  destruct (build_resp1 _ e) as [[r3 o3] e3] eqn:Hb. intros ?; simplify_eq. split; [|done].
  change e' with (rc, out, e').2. rewrite <- Hb. apply pb_encode_keys.
Qed.

(** C35: A session with one key exchange leaves no key behind: setting up a
    session, a successful Command0, any Command1 (accepted or not) and cleanup
    restore the key store; so does cleanup right after set-up. *)
Theorem session_releases_keys sz pop (e0 e1 e2 e3 : E) ctx0 ctx1 ctx2 p0 p1 out0 out1 rc1 :
  sec1_init sz pop e0 = (0, Some ctx0, e1) →
  handle_cmd0 ctx0 p0 e1 = (0, out0, ctx1, e2) →
  handle_cmd1 ctx1 p1 e2 = (rc1, out1, ctx2, e3) →
  psa_keys (sec1_cleanup ctx0 e1) = psa_keys e0 ∧
  psa_keys (sec1_cleanup ctx2 e3) = psa_keys e0.
Proof.
  intros Hinit H0 H1. pose proof (sec1_init_inv _ _ _ _ _ Hinit) as [[(sk & Hsk & _) _ _] _].
  apply init_resources in Hinit as (_ & _ & Hs0 & Hd0 & Hfr & k & Hk1). cbn in Hsk.
  assert (Hz : (s1c_device_key ctx0 =? PSA_KEY_ID_NULL) = false) by by apply Z.eqb_neq.
  split.
  { rewrite cleanup_keys, Hs0, Hz, Hk1. cbn. by apply delete_insert_id. }
  apply (cmd0_installs_key _ _ _ _ _ _ _ Hsk) in H0 as (Hdk & Hnz & Hfr2 & k2 & Hk2).
  apply cmd1_keeps_keys in H1 as (Hk3 & Hdk2 & Hsk2).
  rewrite cleanup_keys, Hdk2, Hsk2, Hk3, Hdk, Hz, Hk2. apply Z.eqb_neq in Hnz as ->. cbn.
  rewrite delete_insert_id by done. rewrite Hk1. by apply delete_insert_id.
Qed.

(** A repeated key exchange does leave one behind: when Command0 succeeds in
    a session that already holds a session key, the previous AES key stays in the
    key store after the session is cleaned up, and no field of the session names
    it any more. *)
Theorem rekey_leaks_session_key (ctx ctx' : ctx_t) p (e e' : E) out sk k :
  psa_keys e !! s1c_device_key ctx = Some (X25519_key sk) →
  psa_keys e !! s1c_session_key ctx = Some (AES_key k) →
  handle_cmd0 ctx p e = (0, out, ctx', e') →
  psa_keys (sec1_cleanup ctx' e') !! s1c_session_key ctx = Some (AES_key k) ∧
  s1c_session_key ctx' ≠ s1c_session_key ctx ∧ s1c_device_key ctx' ≠ s1c_session_key ctx.
Proof.
  intros Hsk Hk H0.
  apply (cmd0_installs_key _ _ _ _ _ _ _ Hsk) in H0 as (Hdk & Hnz & Hfr & k2 & Hk2).
  assert (Hne1 : s1c_session_key ctx' ≠ s1c_session_key ctx) by (intros Heq; congruence).
  assert (Hne2 : s1c_device_key ctx ≠ s1c_session_key ctx) by (intros Heq; congruence).
  split; [|by rewrite Hdk]. rewrite cleanup_keys, Hdk, Hk2.
  destruct (_ =? _), (_ =? _); cbn; rewrite ?lookup_delete_ne, ?lookup_insert_ne by done; done.
Qed.
End security1_resources.
