(* ===== verification/Schemes.v ===== *)
(** * Schemes: the two security schemes behind the protocomm interface

    Each scheme, together with request handlers that give back only what they
    allocated, meets the interface protocomm's heap theorems are proved against. *)
From S2P Require Import Prelude Platform PbUtil Protocomm Messages Security0 Psa Security1.

Section schemes.
Context {E : Type} `{HH : KHeap E} `{!KHeapLaws E}.
Context `{PB : PbMsg SessionData} `{!PbMsgLaws SessionData}.
Context {Hnd Priv : Type} (handlers : Hnd → option Priv → bytes → E → Z * obuf * E).

(** A handler's only lasting allocation is its response. *)
Class HandlersHeap : Prop :=
  handlers_heap h pr b (e : E) rc raw e' :
    handlers h pr b e = (rc, raw, e') → heap_extends e (buf_locs raw) e'.

Definition sec0_callbacks : Callbacks E Hnd Priv unit sec0_ctx :=
  {| call_handler := handlers; security_of _ := network_prov_security0 |}.

Lemma sec0_callbacks_heap `{!HandlersHeap} :
  @CallbacksHeap E Hnd Priv unit sec0_ctx HH sec0_callbacks _.
Proof.
  split; cbn; [exact handlers_heap|..].
  - intros _ ctx b e rc d ctx' e' Hr. unfold sec0_passthrough in Hr. by simplify_eq.
  - intros _ ctx b e rc d ctx' e' Hr. unfold sec0_passthrough in Hr. by simplify_eq.
  - intros _ hs ctx b e rc out ctx' e' Hs Hr. simplify_eq. unfold sec0_handshake in Hr.
    destruct (pb_decode b) as [req|]; [|simplify_eq; split; [apply heap_extends_refl|done]].
    destruct (negb _); [simplify_eq; split; [apply heap_extends_refl|done]|].
    destruct (network_prov_pb_encode _ _) as [[r o] e1] eqn:He. simplify_eq.
    split; [|done]. by apply pb_encode_heap in He.
  - intros _ init pop e rc ctx e' Hs Hr. simplify_eq. unfold sec0_init in Hr. simplify_eq.
    apply heap_extends_refl.
  - intros _ f ctx e Hs. simplify_eq. unfold sec0_cleanup, ctx_locs, sec0_ctx_locs. set_solver.
  - done.
Qed.

Context `{CR : Crypto} `{!CryptoLaws} `{PS : PSA E} `{!PsaLaws E} `{!PsaHeapLaws E}.
Context `{UV : UnionViews} (sizeof_sec1_ctx : Z).

Definition sec1_callbacks : Callbacks E Hnd Priv unit (sec1_ctx psa_cipher_operation_t) :=
  {| call_handler := handlers; security_of _ := network_prov_security1 sizeof_sec1_ctx |}.

Lemma sec1_callbacks_heap `{!HandlersHeap} :
  @CallbacksHeap E Hnd Priv unit (sec1_ctx psa_cipher_operation_t) HH sec1_callbacks _.
Proof.
  assert (Henc : ∀ (ctx : option (sec1_ctx psa_cipher_operation_t)) b (e : E) rc d ctx' e',
    sec1_encrypt ctx b e = (rc, d, ctx', e') →
    allocated e' = allocated e ∧ opt_ctx_locs ctx' = opt_ctx_locs ctx).
  { intros [ctx|] b e rc d ctx' e' Hr; unfold sec1_encrypt in Hr; [|by simplify_eq].
    destruct (negb _); [by simplify_eq|]. destruct (ctr_xform ctx b) as [[r o] c] eqn:Hx.
    simplify_eq. split; [done|]. unfold ctr_xform in Hx.
    destruct (psa_cipher_update _ _) as [[st out] op]. destruct (negb _); by simplify_eq. }
  split; cbn; [exact handlers_heap|by intros _; apply Henc|by intros _; apply Henc|..].
  - intros _ hs ctx b e rc out ctx' e' Hs Hr. simplify_eq. by eapply sec1_handshake_heap.
  - intros _ init pop e rc ctx e' Hs Hr. simplify_eq. by apply init_resources in Hr as [? _].
  - intros _ f ctx e Hs. simplify_eq. apply cleanup_allocated.
  - done.
Qed.
End schemes.
