(* ===== verification/Sec1Client.v ===== *)
(** * Sec1Client: the client side of the security-1 handshake
    (tests/common/prov_client.c)

    The reference client the repository's integration tests run against the
    device. [E] is the client's machine; [D] is everything behind the transport
    callback, the device included. *)
From S2P Require Import Prelude Platform PbUtil Protocomm Messages Psa Security1.

Definition PROV_CLIENT_PUBKEY_LEN : nat := 32.
Definition PROV_CLIENT_RANDOM_LEN : nat := 16.
Definition PROV_CLIENT_KEY_LEN : nat := 32.

Record prov_client (Op : Type) := mk_client {
  pc_key : Z;
  pc_pubkey : bytes;
  pc_device_pubkey : bytes;
  pc_session_key : Z;
  pc_cipher : Op;
}.
Arguments mk_client {_} _ _ _ _ _.
Arguments pc_key {_} _.
Arguments pc_pubkey {_} _.
Arguments pc_device_pubkey {_} _.
Arguments pc_session_key {_} _.
Arguments pc_cipher {_} _.
#[export] Instance prov_client_eta {Op} : FieldEta (prov_client Op) := fun r =>
  mk_client (pc_key r) (pc_pubkey r) (pc_device_pubkey r) (pc_session_key r) (pc_cipher r).

(** What the client reads from a response without checking its tags. *)
Class ClientViews := {
  view_sec1 : session_proto → Sec1Payload;
  view_sr0 : sec1_payload → Z * bytes * bytes;
  view_sr1 : sec1_payload → Z * bytes;
}.
Class ClientViewsLaws `{ClientViews} : Prop := {
  view_sec1_same p : view_sec1 (proto_sec1 p) = p;
  view_sr0_same s a b : view_sr0 (sec1_sr0 s a b) = (s, a, b);
  view_sr1_same s a : view_sr1 (sec1_sr1 s a) = (s, a);
}.

Section client.
Context {E : Type} `{PSA E} `{PbMsg SessionData} `{ClientViews}.
Context {D : Type} (xport : bytes → D → Z * obuf * D) (k_free_resp : option loc → D → D).

Local Abbreviation client_t := (prov_client psa_cipher_operation_t).

(** The cleared structure; its cipher is [psa_cipher_operation_init()], which is
    all zero as well. *)
Definition prov_client_init : client_t :=
  mk_client PSA_KEY_ID_NULL (zeros PROV_CLIENT_PUBKEY_LEN) (zeros PROV_CLIENT_PUBKEY_LEN)
    PSA_KEY_ID_NULL psa_cipher_operation_init.

Definition prov_client_keygen (c : client_t) (e : E) : Z * client_t * E :=
  let '(st, e1) := psa_crypto_init e in
  if negb (st =? PSA_SUCCESS) then (- EIO, c, e1)
  else
    let '(st, key, e2) := psa_generate_key e1 in
    let c1 := c <| pc_key := key |> in
    if negb (st =? PSA_SUCCESS) then (- EIO, c1, e2)
    else
      let '(st, pub) := psa_export_public_key key e2 in
      let c2 := c1 <| pc_pubkey := pub |> in
      if negb (st =? PSA_SUCCESS) || negb (blen pub =? Z.of_nat PROV_CLIENT_PUBKEY_LEN)
      then (- EIO, c2 <| pc_key := PSA_KEY_ID_NULL |>, psa_destroy_key key e2)
      else (0, c2, e2).

(** The shared secret with the whole PoP mixed in; [None] is -EIO. *)
Definition client_secret (c : client_t) (pop : option string) (e : E) : option bytes :=
  let '(st, shared) := psa_raw_key_agreement (pc_key c) (pc_device_pubkey c) e in
  if negb (st =? PSA_SUCCESS) || negb (blen shared =? Z.of_nat PROV_CLIENT_KEY_LEN) then None
  else if null_or_empty pop then Some shared
  else
    let '(st, hash) := psa_hash_compute (str_bytes (default EmptyString pop)) e in
    if negb (st =? PSA_SUCCESS) then None else Some (xor_bytes shared hash).

Definition prov_client_derive (c : client_t) (pop : option string) (device_random : bytes) (e : E)
    : Z * client_t * E :=
  match client_secret c pop e with
  | None => (- EIO, c, e)
  | Some shared =>
      let '(st, key, e1) := psa_import_key shared e in
      let c1 := c <| pc_session_key := key |> in
      if negb (st =? PSA_SUCCESS) then (- EIO, c1, e1)
      else
        let err op := (- EIO, c1 <| pc_cipher := psa_cipher_abort op |>
                              <| pc_session_key := PSA_KEY_ID_NULL |>, psa_destroy_key key e1) in
        let '(st, op) := psa_cipher_encrypt_setup psa_cipher_operation_init key e1 in
        if negb (st =? PSA_SUCCESS) then err op
        else
          let '(st, op') := psa_cipher_set_iv op device_random in
          if negb (st =? PSA_SUCCESS) then err op'
          else (0, c1 <| pc_cipher := op' |>, e1)
  end.

Definition prov_client_xform (c : client_t) (inbuf : bytes) : Z * bytes * client_t :=
  let '(st, out, op) := psa_cipher_update (pc_cipher c) inbuf in
  let c1 := c <| pc_cipher := op |> in
  if negb (st =? PSA_SUCCESS) || negb (blen out =? blen inbuf) then (- EIO, out, c1)
  else (0, out, c1).

Definition prov_client_destroy (c : client_t) (e : E) : E :=
  let e1 := if negb (pc_session_key c =? PSA_KEY_ID_NULL)
            then psa_destroy_key (pc_session_key c) e else e in
  if negb (pc_key c =? PSA_KEY_ID_NULL) then psa_destroy_key (pc_key c) e1 else e1.

Definition session_exchange (cmd : SessionData) (d : D) : Z * option SessionData * D :=
  match pb_encode 128 cmd with
  | None => (- EINVAL, None, d)
  | Some buf =>
      let '(ret, resp, d1) := xport buf d in
      if negb (ret =? 0) then (ret, None, d1)
      else
        let d2 := k_free_resp (ob_ptr resp) d1 in
        match pb_decode (ob_data resp) with
        | Some r => (0, Some r, d2)
        | None => (- EILSEQ, None, d2)
        end
  end.

Definition cmd0 (pubkey : bytes) : SessionData :=
  mk_session SecSchemeVersion_SecScheme1
    (proto_sec1 (mk_sec1 Sec1MsgType_Session_Command0
       (sec1_sc0 (take PROV_CLIENT_PUBKEY_LEN pubkey)))).

Definition cmd1 (verify : bytes) : SessionData :=
  mk_session SecSchemeVersion_SecScheme1
    (proto_sec1 (mk_sec1 Sec1MsgType_Session_Command1
       (sec1_sc1 (take PROV_CLIENT_PUBKEY_LEN verify)))).

(** The second half of the handshake, once the keystream is armed. *)
Definition client_verify (c : client_t) (e : E) (d : D) : Z * client_t * E * D :=
  let '(ret, verify, c1) := prov_client_xform c (pc_device_pubkey c) in
  if negb (ret =? 0) then (ret, c1, e, d)
  else
    let '(ret, resp, d1) := session_exchange (cmd1 verify) d in
    match ret =? 0, resp with
    | true, Some r =>
        let p := view_sec1 (sd_proto r) in
        let '(status, data) := view_sr1 (s1_payload p) in
        if negb (s1_msg p =? Sec1MsgType_Session_Response1) || negb (status =? Status_Success) ||
           negb (blen data =? Z.of_nat PROV_CLIENT_PUBKEY_LEN)
        then (- EPROTO, c1, e, d1)
        else
          let '(ret, check, c2) := prov_client_xform c1 data in
          if negb (ret =? 0) then (ret, c2, e, d1)
          else if negb (bool_decide (check = pc_pubkey c2)) then (- EACCES, c2, e, d1)
          else (0, c2, e, d1)
    | _, _ => (ret, c1, e, d1)
    end.

Definition prov_client_handshake (c : client_t) (pop : option string) (e : E) (d : D)
    : Z * client_t * E * D :=
  let '(ret, c1, e1) := prov_client_keygen c e in
  if negb (ret =? 0) then (ret, c1, e1, d)
  else
    let '(ret, resp, d1) := session_exchange (cmd0 (pc_pubkey c1)) d in
    match ret =? 0, resp with
    | true, Some r =>
        let p := view_sec1 (sd_proto r) in
        let '(status, pubkey, random) := view_sr0 (s1_payload p) in
        if negb (s1_msg p =? Sec1MsgType_Session_Response0) || negb (status =? Status_Success) ||
           negb (blen pubkey =? Z.of_nat PROV_CLIENT_PUBKEY_LEN) ||
           negb (blen random =? Z.of_nat PROV_CLIENT_RANDOM_LEN)
        then (- EPROTO, c1, e1, d1)
        else
          let c2 := c1 <| pc_device_pubkey := pubkey |> in
          let '(ret, c3, e2) := prov_client_derive c2 pop random e1 in
          if negb (ret =? 0) then (ret, c3, e2, d1) else client_verify c3 e2 d1
    | _, _ => (ret, c1, e1, d1)
    end.

End client.

(** The bytes the client hashes. *)
Definition client_pop (pop : option string) : bytes :=
  if null_or_empty pop then [] else str_bytes (default EmptyString pop).

(** A proof of possession of at most 63 characters is mixed as it is by both ends. *)
Lemma client_pop_short pop : strlen (default EmptyString pop) < Z.of_nat POP_MAX → client_pop pop = pop_bytes pop.
Proof.
  intros Hl. unfold client_pop, pop_bytes. destruct (null_or_empty pop); [done|]. rewrite take_ge; [done|].
  rewrite length_str_bytes. unfold strlen, POP_MAX in *. lia.
Qed.

(** Session messages within the [.options] bounds encode in less than the
    client's 128-byte buffer: a fact about the generated descriptors. *)
Definition session_bounded (m : SessionData) : Prop :=
  match sd_proto m with
  | proto_sec1 p =>
      match s1_payload p with
      | sec1_sc0 b | sec1_sc1 b | sec1_sr1 _ b => blen b <= 32
      | sec1_sr0 _ k r => blen k <= 32 ∧ blen r <= 16
      | sec1_none => True
      end
  | _ => True
  end.

Class SessionFits `{PbMsg SessionData} : Prop :=
  session_fits (m : SessionData) :
    session_bounded m → ∃ n, pb_get_encoded_size m = Some n ∧ n <= 128.

Section handshake.
Context {E F : Type} `{CR : Crypto} `{!CryptoLaws}.
Context `{PE : PSA E} `{!PsaLaws E} `{!PsaAvailable E}.
Context `{PF : PSA F} `{HF : KHeap F} `{!KHeapLaws F} `{!PsaLaws F} `{!PsaHeapLaws F} `{!PsaAvailable F}
  `{!HeapAvailable F}.
Context `{PB : PbMsg SessionData} `{!PbMsgLaws SessionData} `{!SessionFits}.
Context `{UV : UnionViews} `{!UnionViewsLaws} `{CV : ClientViews} `{!ClientViewsLaws}.

Local Abbreviation client_t := (prov_client (@psa_cipher_operation_t E PE)).
Local Abbreviation ctx_t := (sec1_ctx (@psa_cipher_operation_t F PF)).

(** The transport of the integration test: the encoded request goes straight to
    the device's handshake. *)
Definition device_xport (bs : bytes) (d : option ctx_t * F) : Z * obuf * (option ctx_t * F) :=
  let '(rc, out, ctx, f) := sec1_handshake d.1 bs d.2 in (rc, out, (ctx, f)).

Definition device_free (l : option loc) (d : option ctx_t * F) : option ctx_t * F :=
  (d.1, k_free l d.2).

Lemma encode_available (m : SessionData) (f : F) :
  session_bounded m → ∃ out f',
    network_prov_pb_encode m f = (0, out, f') ∧ pb_decode (ob_data out) = Some m.
Proof.
  intros Hb. destruct (session_fits m Hb) as (n & Hn & _).
  destruct (network_prov_pb_encode m f) as [[rc out] f'] eqn:He.
  exists out, f'. assert (rc = 0) as ->.
  { destruct (pb_encode_total _ _ _ _ _ _ Hn He) as [->|[-> _]]; [done|exfalso].
    unfold network_prov_pb_encode in He. rewrite Hn in He.
    pose proof (malloc_avail (if n =? 0 then 1 else n) f) as [l Hl].
    destruct (k_malloc _ f) as [[l'|] f1]; [|done]. destruct (pb_encode n m); simplify_eq. }
  split; [done|]. by apply pb_encode_ok in He as (_ & ? & _).
Qed.

Lemma secret_available (ctx : ctx_t) (f : F) sk csk :
  psa_keys f !! s1c_device_key ctx = Some (X25519_key sk) →
  s1c_client_pubkey ctx = x25519_pub csk →
  session_secret ctx f = Some (mix_pop (x25519 sk (s1c_client_pubkey ctx)) (s1c_pop ctx)).
Proof.
  intros Hk Hc. unfold session_secret, mix_pop. rewrite Hc.
  pose proof (agree_avail f _ sk csk Hk) as Ha.
  destruct (psa_raw_key_agreement _ _ f) as [st sh] eqn:Hag. cbn in Ha. subst st.
  apply (psa_agree_ok _ _ _ _ sk) in Hag as ->; [|done].
  assert (Hl : (blen (x25519 sk (x25519_pub csk)) =? Z.of_nat SESSION_KEY_LEN) = true)
    by (apply Z.eqb_eq; unfold blen; by rewrite x25519_len).
  rewrite Hl. cbn. destruct (0 <? blen (s1c_pop ctx)); [|done].
  pose proof (hash_avail f (s1c_pop ctx)) as Hh.
  destruct (psa_hash_compute _ f) as [st hash] eqn:Hhc. cbn in Hh. subst st.
  apply psa_hash_ok in Hhc as ->.
  assert (Hl2 : (blen (sha256 (s1c_pop ctx)) =? Z.of_nat SESSION_KEY_LEN) = true)
    by (apply Z.eqb_eq; unfold blen; by rewrite sha256_len).
  by rewrite Hl2.
Qed.

Lemma derive_available (ctx : ctx_t) (f : F) sk csk :
  psa_keys f !! s1c_device_key ctx = Some (X25519_key sk) →
  s1c_client_pubkey ctx = x25519_pub csk →
  ∃ ctx' f', derive_session_key ctx f = (0, ctx', f').
Proof.
  intros Hk Hc. unfold derive_session_key. rewrite (secret_available _ _ _ _ Hk Hc).
  pose proof (import_avail f (mix_pop (x25519 sk (s1c_client_pubkey ctx)) (s1c_pop ctx))) as Hi.
  destruct (psa_import_key _ f) as [[st id] f1] eqn:Him. cbn in Hi. subst st. cbn.
  apply psa_import_ok in Him as (_ & _ & Hkeys).
  assert (Hid : psa_keys f1 !! id = Some (AES_key (mix_pop (x25519 sk (s1c_client_pubkey ctx)) (s1c_pop ctx))))
    by (rewrite Hkeys; apply lookup_insert_eq).
  pose proof (setup_avail f1 psa_cipher_operation_init id _ cipher_init_st Hid) as Hs.
  destruct (psa_cipher_encrypt_setup _ _ _) as [st op] eqn:Hset. cbn in Hs. subst st. cbn.
  eapply cipher_setup_ok in Hset; [|done].
  pose proof (iv_avail op (s1c_device_random ctx) _ Hset) as Hiv.
  destruct (psa_cipher_set_iv _ _) as [st op']. cbn in Hiv. subst st. cbn. eauto.
Qed.

(** Device side of the first exchange. *)
Lemma device_cmd0 (ctx : ctx_t) (f : F) sk csk bs :
  psa_keys f !! s1c_device_key ctx = Some (X25519_key sk) →
  s1c_device_pubkey ctx = x25519_pub sk →
  pb_decode bs = Some (cmd0 (x25519_pub csk)) →
  ∃ out ctx' f' iv,
    sec1_handshake (Some ctx) bs f = (0, out, Some ctx', f') ∧
    same_identity ctx ctx' ∧ s1c_state ctx' = SEC1_CMD0_DONE ∧
    s1c_client_pubkey ctx' = x25519_pub csk ∧ length iv = RANDOM_LEN ∧
    keystream_at ctx' (mix_pop (x25519 sk (x25519_pub csk)) (s1c_pop ctx)) iv 0 ∧
    pb_decode (ob_data out) =
      Some (mk_session SecSchemeVersion_SecScheme1 (proto_sec1
        (mk_sec1 Sec1MsgType_Session_Response0 (sec1_sr0 Status_Success (x25519_pub sk) iv)))).
Proof.
  intros Hk Hpub Hdec. unfold sec1_handshake. rewrite Hdec. cbn.
  unfold handle_cmd0. cbn. rewrite view_sc0_same.
  rewrite take_ge by (rewrite x25519_pub_len; done).
  assert (Hl : (blen (x25519_pub csk) =? Z.of_nat PUBKEY_LEN) = true)
    by (apply Z.eqb_eq; unfold blen; by rewrite x25519_pub_len).
  rewrite Hl. cbn. pose proof (random_avail f (Z.of_nat RANDOM_LEN)) as Hr.
  destruct (psa_generate_random _ f) as [[st iv] f1] eqn:Hrnd. cbn in Hr. subst st. cbn.
  apply psa_random_ok in Hrnd as [Hk1 Hlen]; [|lia].
  set (ctx2 := ctx <| s1c_client_pubkey := x25519_pub csk |> <| s1c_device_random := iv |>).
  assert (Hk2 : psa_keys f1 !! s1c_device_key ctx2 = Some (X25519_key sk)) by (cbn; by rewrite Hk1).
  destruct (derive_available ctx2 f1 sk csk Hk2 eq_refl) as (ctx3 & f2 & Hd). rewrite Hd. cbn.
  eapply derive_cases in Hd as (id & op & -> & _ & [(_ & Hks & _)|(? & _)]); [|done|exact Hk2].
  assert (Hiv : length iv = RANDOM_LEN) by (unfold blen in Hlen; lia).
  unfold build_resp0. destruct (encode_available (resp0
    (ctx2 <| s1c_session_key := id |> <| s1c_cipher := op |> <| s1c_state := SEC1_CMD0_DONE |>)) f2)
    as (out & f3 & He & Hdo).
  { unfold session_bounded, resp0, blen. cbn -[take]. rewrite !length_take.
    unfold PUBKEY_LEN, RANDOM_LEN. split; lia. }
  rewrite He. do 4 eexists. split; [reflexivity|]. split; [done|]. split; [done|]. split; [done|].
  split; [exact Hiv|]. split; [exact Hks|]. rewrite Hdo. unfold resp0. cbn -[take].
  rewrite Hpub, !take_ge; [done|by rewrite Hiv|by rewrite x25519_pub_len].
Qed.

(** Device side of the second exchange: accepted exactly when the verify data is
    the device public key under the device's keystream. *)
Lemma device_cmd1 (ctx : ctx_t) (f : F) sk key iv v bs :
  s1c_state ctx = SEC1_CMD0_DONE → s1c_device_pubkey ctx = x25519_pub sk →
  length (s1c_client_pubkey ctx) = PUBKEY_LEN → length v = PUBKEY_LEN →
  keystream_at ctx key iv 0 → pb_decode bs = Some (cmd1 v) →
  ∃ rc out ctx' f', sec1_handshake (Some ctx) bs f = (rc, out, Some ctx', f') ∧
    if bool_decide (xor_bytes v (aes_ctr key iv 0 32) = x25519_pub sk) then
      rc = 0 ∧ s1c_state ctx' = SEC1_DONE ∧ keystream_at ctx' key iv 64 ∧ same_identity ctx ctx' ∧
      pb_decode (ob_data out) = Some (mk_session SecSchemeVersion_SecScheme1 (proto_sec1
        (mk_sec1 Sec1MsgType_Session_Response1 (sec1_sr1 Status_Success
           (xor_bytes (s1c_client_pubkey ctx) (aes_ctr key iv 32 32))))))
    else rc = - EACCES ∧ s1c_state ctx' = SEC1_CMD0_DONE.
Proof.
  intros Hst Hpub Hcl Hv Hk Hdec. unfold sec1_handshake. rewrite Hdec. cbn.
  unfold handle_cmd1. cbn. rewrite view_sc1_same, take_ge by (rewrite Hv; done).
  rewrite Hst. cbn.
  assert (Hl : (blen v =? Z.of_nat PUBKEY_LEN) = true) by (apply Z.eqb_eq; unfold blen; by rewrite Hv).
  rewrite Hl. cbn. unfold ctr_xform. pose proof (update_avail _ v _ _ _ Hk) as Hu.
  destruct (psa_cipher_update _ v) as [[st check] op1] eqn:Hup. cbn in Hu. subst st. cbn.
  destruct (cipher_update_ok _ _ _ _ Hup) as (k & i & p & Hk' & -> & Hop1).
  unfold keystream_at in Hk. rewrite Hk in Hk'. simplify_eq. rewrite Hv in *. cbn in Hop1.
  change PUBKEY_LEN with 32%nat in *.
  assert (Hlc : (blen (xor_bytes v (aes_ctr k i 0 32)) =? Z.of_nat 32) = true).
  { apply Z.eqb_eq. unfold blen. rewrite length_xor_bytes, aes_ctr_len, Hv. done. }
  rewrite Hlc, Hpub. cbn [negb orb].
  destruct (bool_decide (xor_bytes v (aes_ctr k i 0 32) = x25519_pub sk)) eqn:Hok; cbn [negb];
    [|do 4 eexists; split; [reflexivity|]; done].
  pose proof (update_avail op1 (s1c_client_pubkey ctx) _ _ _ Hop1) as Hu2.
  destruct (psa_cipher_update op1 _) as [[st dv] op2] eqn:Hup2. cbn in Hu2. subst st. cbn.
  destruct (cipher_update_ok _ _ _ _ Hup2) as (k2 & i2 & p2 & Hk2 & -> & Hop2).
  rewrite Hop1 in Hk2. simplify_eq. rewrite Hcl in *. cbn in Hop2.
  unfold build_resp1.
  assert (Hl32 : length (xor_bytes (s1c_client_pubkey ctx) (aes_ctr k2 i2 32 32)) = 32%nat)
    by (rewrite length_xor_bytes, aes_ctr_len, Hcl; done).
  destruct (encode_available (resp1 (xor_bytes (s1c_client_pubkey ctx) (aes_ctr k2 i2 32 32))) f)
    as (out & f3 & He & Hdo).
  { unfold session_bounded, resp1, blen. cbn -[take]. rewrite length_take, Hl32. done. }
  rewrite He. do 4 eexists. split; [reflexivity|]. split; [done|]. split; [done|].
  split; [exact Hop2|]. split; [done|]. rewrite Hdo. unfold resp1. by rewrite take_ge by (by rewrite Hl32).
Qed.

(** A session can be opened. *)
Lemma init_available sz pop (f : F) : ∃ ctx f', sec1_init sz pop f = (0, Some ctx, f').
Proof.
  unfold sec1_init. pose proof (init_avail f) as Hi. destruct (psa_crypto_init f) as [st f1]. cbn in Hi. subst st. cbn.
  destruct (malloc_avail sz f1) as [l Hl]. destruct (k_malloc sz f1) as [[l'|] f2]; [|done].
  pose proof (generate_avail f2) as Hg. destruct (psa_generate_key f2) as [[st key] f3] eqn:Hge. cbn in Hg. subst st. cbn.
  apply psa_generate_ok in Hge as (_ & _ & sk & Hkeys).
  assert (Hk : psa_keys f3 !! key = Some (X25519_key sk)) by (rewrite Hkeys; apply lookup_insert_eq).
  pose proof (export_avail f3 _ _ Hk) as Hx. destruct (psa_export_public_key key f3) as [st pub] eqn:Hex. cbn in Hx. subst st.
  apply (psa_export_ok _ _ _ _ Hex) in Hk as ->.
  assert (Hlen : (blen (x25519_pub sk) =? Z.of_nat PUBKEY_LEN) = true)
    by (apply Z.eqb_eq; unfold blen; by rewrite x25519_pub_len).
  rewrite Hlen. cbn. eauto.
Qed.

Lemma keygen_available (e : E) :
  ∃ c e1 csk, prov_client_keygen prov_client_init e = (0, c, e1) ∧
    psa_keys e1 !! pc_key c = Some (X25519_key csk) ∧ pc_pubkey c = x25519_pub csk.
Proof.
  unfold prov_client_keygen. pose proof (init_avail e) as Hi.
  destruct (psa_crypto_init e) as [st e1]. cbn in Hi. subst st. cbn.
  pose proof (generate_avail e1) as Hg.
  destruct (psa_generate_key e1) as [[st key] e2] eqn:Hge. cbn in Hg. subst st. cbn.
  apply psa_generate_ok in Hge as (_ & _ & csk & Hkeys).
  assert (Hk : psa_keys e2 !! key = Some (X25519_key csk)) by (rewrite Hkeys; apply lookup_insert_eq).
  pose proof (export_avail e2 _ _ Hk) as Hx.
  destruct (psa_export_public_key key e2) as [st pub] eqn:Hex. cbn in Hx. subst st.
  apply (psa_export_ok _ _ _ _ Hex) in Hk as ->. cbn.
  assert (Hl : (blen (x25519_pub csk) =? Z.of_nat PROV_CLIENT_PUBKEY_LEN) = true)
    by (apply Z.eqb_eq; unfold blen; by rewrite x25519_pub_len).
  rewrite Hl. cbn. do 3 eexists. split; [reflexivity|]. split; [|done].
  rewrite Hkeys. apply lookup_insert_eq.
Qed.

Lemma client_derive_available (c : client_t) pop iv (e : E) csk sk :
  psa_keys e !! pc_key c = Some (X25519_key csk) → pc_device_pubkey c = x25519_pub sk →
  ∃ c' e', prov_client_derive c pop iv e = (0, c', e') ∧
    pc_pubkey c' = pc_pubkey c ∧ pc_device_pubkey c' = pc_device_pubkey c ∧
    cipher_st (pc_cipher c') =
      cipher_active (mix_pop (x25519 csk (x25519_pub sk)) (client_pop pop)) iv 0.
Proof.
  intros Hk Hpub.
  assert (Hsec : client_secret c pop e = Some (mix_pop (x25519 csk (x25519_pub sk)) (client_pop pop))).
  { unfold client_secret, client_pop, mix_pop. rewrite Hpub.
    pose proof (agree_avail e _ csk sk Hk) as Ha.
    destruct (psa_raw_key_agreement _ _ e) as [st sh] eqn:Hag. cbn in Ha. subst st.
    apply (psa_agree_ok _ _ _ _ csk) in Hag as ->; [|done].
    assert (Hl : (blen (x25519 csk (x25519_pub sk)) =? Z.of_nat PROV_CLIENT_KEY_LEN) = true)
      by (apply Z.eqb_eq; unfold blen; by rewrite x25519_len).
    rewrite Hl. cbn. destruct (null_or_empty pop) eqn:Hn; [done|].
    destruct pop as [pop|]; [|done]. cbn in *.
    assert (Hpos : (0 <? blen (str_bytes pop)) = true).
    { apply Z.ltb_lt. unfold blen. rewrite length_str_bytes.
      destruct pop; [done|cbn; lia]. }
    rewrite Hpos. pose proof (hash_avail e (str_bytes pop)) as Hh.
    destruct (psa_hash_compute _ e) as [st hash] eqn:Hhc. cbn in Hh. subst st.
    by apply psa_hash_ok in Hhc as ->. }
  unfold prov_client_derive. rewrite Hsec.
  set (key := mix_pop (x25519 csk (x25519_pub sk)) (client_pop pop)).
  pose proof (import_avail e key) as Hi.
  destruct (psa_import_key key e) as [[st id] e1] eqn:Him. cbn in Hi. subst st. cbn.
  apply psa_import_ok in Him as (_ & _ & Hkeys).
  assert (Hid : psa_keys e1 !! id = Some (AES_key key)) by (rewrite Hkeys; apply lookup_insert_eq).
  pose proof (setup_avail e1 psa_cipher_operation_init id _ cipher_init_st Hid) as Hs.
  destruct (psa_cipher_encrypt_setup _ _ _) as [st op] eqn:Hset. cbn in Hs. subst st. cbn.
  eapply cipher_setup_ok in Hset; [|done].
  pose proof (iv_avail op iv _ Hset) as Hiv.
  destruct (psa_cipher_set_iv _ _) as [st op'] eqn:Hivr. cbn in Hiv. subst st. cbn.
  eapply cipher_iv_ok in Hivr; [|done].
  do 2 eexists. split; [reflexivity|]. done.
Qed.

Lemma client_xform_available (c : client_t) data key iv pos :
  cipher_st (pc_cipher c) = cipher_active key iv pos →
  ∃ c', prov_client_xform c data = (0, xor_bytes data (aes_ctr key iv pos (length data)), c') ∧
    pc_pubkey c' = pc_pubkey c ∧ cipher_st (pc_cipher c') = cipher_active key iv (pos + length data).
Proof.
  intros Hk. unfold prov_client_xform. pose proof (update_avail _ data _ _ _ Hk) as Hu.
  destruct (psa_cipher_update _ data) as [[st out] op] eqn:Hup. cbn in Hu. subst st. cbn.
  destruct (cipher_update_ok _ _ _ _ Hup) as (k & i & p & Hk' & -> & Hop).
  rewrite Hk in Hk'. simplify_eq.
  assert (Hl : (blen (xor_bytes data (aes_ctr k i p (length data))) =? blen data) = true).
  { apply Z.eqb_eq. unfold blen. rewrite length_xor_bytes, aes_ctr_len. lia. }
  rewrite Hl. cbn. eexists. split; [reflexivity|]. done.
Qed.

(** What the transport does with a request: the device's answer, decoded. *)
Lemma exchange_device (m : SessionData) :
  session_bounded m → ∃ bs, pb_decode bs = Some m ∧
    ∀ (ctx ctx' : ctx_t) (f f' : F) rc out,
      sec1_handshake (Some ctx) bs f = (rc, out, Some ctx', f') →
      ∃ f'', session_exchange device_xport device_free m (Some ctx, f) =
        (if rc =? 0 then
           match pb_decode (ob_data out) with
           | Some r => (0, Some r, (Some ctx', f''))
           | None => (- EILSEQ, None, (Some ctx', f''))
           end
         else (rc, None, (Some ctx', f''))).
Proof.
  intros Hb. destruct (session_fits m Hb) as (n & Hn & Hle).
  destruct (pb_encode_room _ _ 128 Hn Hle) as (bs & Hbs & _). exists bs.
  split; [by apply pb_decode_encode in Hbs|]. intros ctx ctx' f f' rc out Hrun.
  unfold session_exchange. rewrite Hbs. unfold device_xport. cbn -[sec1_handshake]. rewrite Hrun.
  destruct (rc =? 0) eqn:Hrc; cbn; eexists; [|done].
  by destruct (pb_decode (ob_data out)).
Qed.

Lemma session_bounded_sc0 k : session_bounded (cmd0 k).
Proof.
  unfold session_bounded, cmd0, blen. cbn -[take]. rewrite length_take.
  unfold PROV_CLIENT_PUBKEY_LEN. lia.
Qed.
Lemma session_bounded_sc1 k : session_bounded (cmd1 k).
Proof.
  unfold session_bounded, cmd1, blen. cbn -[take]. rewrite length_take.
  unfold PROV_CLIENT_PUBKEY_LEN. lia.
Qed.

(** Up to the verify step: both ends hold the same shared secret, each mixed with
    its own PoP, and the same nonce. *)
Lemma handshake_armed sz dpop pop (e : E) (f0 f : F) (ctx : ctx_t) :
  sec1_init sz dpop f0 = (0, Some ctx, f) →
  ∃ s iv c e' ctx1 f1 sk,
    prov_client_handshake device_xport device_free prov_client_init pop e (Some ctx, f) =
      client_verify device_xport device_free c e' (Some ctx1, f1) ∧
    length s = SESSION_KEY_LEN ∧ s1c_device_pubkey ctx1 = x25519_pub sk ∧
    pc_device_pubkey c = x25519_pub sk ∧ length (pc_pubkey c) = PUBKEY_LEN ∧
    s1c_client_pubkey ctx1 = pc_pubkey c ∧ s1c_state ctx1 = SEC1_CMD0_DONE ∧
    cipher_st (pc_cipher c) = cipher_active (mix_pop s (client_pop pop)) iv 0 ∧
    keystream_at ctx1 (mix_pop s (pop_bytes dpop)) iv 0.
Proof.
  intros Hinit. apply sec1_init_inv in Hinit as [[(sk & Hsk & Hpub & _) _ _] Hpop]. cbn in Hsk, Hpub.
  destruct (keygen_available e) as (c & e1 & csk & Hkg & Hck & Hcpub).
  unfold prov_client_handshake. rewrite Hkg. cbn -[session_exchange view_sec1 cmd0].
  destruct (exchange_device (cmd0 (pc_pubkey c)) (session_bounded_sc0 _)) as (bs & Hbs & Hx).
  rewrite Hcpub in Hbs, Hx. rewrite Hcpub.
  destruct (device_cmd0 ctx f sk csk bs Hsk Hpub Hbs)
    as (out & ctx1 & f1 & iv & Hd & (_ & Hpop1 & _ & Hdpk) & Hst & Hcl & Hiv & Hks & Hdec).
  destruct (Hx _ _ _ _ _ _ Hd) as (f2 & ->). rewrite Hdec. cbn -[view_sec1].
  rewrite view_sec1_same. cbn. rewrite view_sr0_same. cbn.
  assert (Hl1 : (blen (x25519_pub sk) =? Z.of_nat PROV_CLIENT_PUBKEY_LEN) = true)
    by (apply Z.eqb_eq; unfold blen; by rewrite x25519_pub_len).
  assert (Hl2 : (blen iv =? Z.of_nat PROV_CLIENT_RANDOM_LEN) = true)
    by (apply Z.eqb_eq; unfold blen; by rewrite Hiv).
  rewrite Hl1, Hl2. cbn -[client_verify prov_client_derive].
  destruct (client_derive_available (c <| pc_device_pubkey := x25519_pub sk |>) pop iv e1 csk sk)
    as (c3 & e3 & Hder & Hp3 & Hdp3 & Hc3); [done|done|].
  rewrite Hder. cbn -[client_verify].
  exists (x25519 sk (x25519_pub csk)), iv, c3, e3, ctx1, f2, sk. split; [done|].
  rewrite Hp3, Hdp3, Hcl, Hdpk, <- Hpop. cbn. rewrite Hcpub, x25519_agree, x25519_len, x25519_pub_len.
  rewrite x25519_agree in Hc3. rewrite x25519_agree in Hks.
  split_and!; try done. by rewrite <- x25519_agree.
Qed.

(** The verify step: the device accepts exactly when both keystreams start alike. *)
Lemma verify_cases (c : client_t) (e : E) (ctx : ctx_t) (f : F) sk kc kd iv :
  s1c_device_pubkey ctx = x25519_pub sk → pc_device_pubkey c = x25519_pub sk →
  length (pc_pubkey c) = PUBKEY_LEN → s1c_client_pubkey ctx = pc_pubkey c →
  s1c_state ctx = SEC1_CMD0_DONE → cipher_st (pc_cipher c) = cipher_active kc iv 0 →
  keystream_at ctx kd iv 0 →
  ∃ rc c' ctx' f', client_verify device_xport device_free c e (Some ctx, f) = (rc, c', e, (Some ctx', f')) ∧
    (aes_ctr kc iv 0 32 ≠ aes_ctr kd iv 0 32 → rc = - EACCES ∧ s1c_state ctx' = SEC1_CMD0_DONE) ∧
    (kc = kd → rc = 0 ∧ s1c_state ctx' = SEC1_DONE ∧
      cipher_st (pc_cipher c') = cipher_active kc iv 64 ∧ keystream_at ctx' kc iv 64).
Proof.
  intros Hpub Hcp Hlen Hcl Hst Hkc Hkd. unfold client_verify. rewrite Hcp.
  destruct (client_xform_available c (x25519_pub sk) _ _ _ Hkc) as (c1 & Hx1 & Hpk1 & Hk1).
  rewrite Hx1. cbn -[session_exchange view_sec1 cmd1]. rewrite x25519_pub_len in *. cbn in Hk1.
  set (v := xor_bytes (x25519_pub sk) (aes_ctr kc iv 0 32)).
  assert (Hv : length v = PUBKEY_LEN)
    by (unfold v; rewrite length_xor_bytes, aes_ctr_len, x25519_pub_len; done).
  destruct (exchange_device (cmd1 v) (session_bounded_sc1 _)) as (bs & Hbs & Hx).
  destruct (device_cmd1 ctx f sk kd iv v bs) as (rc & out & ctx' & f' & Hd & Hcase);
    try done; [by rewrite Hcl|].
  destruct (Hx _ _ _ _ _ _ Hd) as (f2 & ->). unfold v in Hcase. case_bool_decide as Hok.
  - assert (Hks : aes_ctr kc iv 0 32 = aes_ctr kd iv 0 32)
      by (apply (xor_bytes_twice_inv (x25519_pub sk)); rewrite ?x25519_pub_len, ?aes_ctr_len; done).
    destruct Hcase as (-> & Hdone & Hkd' & _ & Hdec). rewrite Hdec. cbn -[view_sec1].
    rewrite view_sec1_same. cbn. rewrite view_sr1_same. cbn -[blen].
    set (dv := xor_bytes (s1c_client_pubkey ctx) (aes_ctr kd iv 32 32)).
    assert (Hdl : length dv = 32%nat)
      by (unfold dv; rewrite length_xor_bytes, aes_ctr_len, Hcl, Hlen; done).
    unfold blen. rewrite Hdl. cbn.
    destruct (client_xform_available c1 dv _ _ _ Hk1) as (c2 & Hx2 & Hpk2 & Hk2).
    rewrite Hx2. cbn. rewrite Hpk2, Hpk1. rewrite Hdl in *. cbn in Hk2.
    assert (Hsame : kc = kd → xor_bytes dv (aes_ctr kc iv 32 32) = pc_pubkey c).
    { intros ->. unfold dv. rewrite Hcl. apply xor_bytes_invol. rewrite aes_ctr_len. by rewrite Hlen. }
    case_bool_decide as Hchk; cbn; do 4 eexists; (split; [reflexivity|]); (split; [done|]).
    + intros ->. done.
    + intros Heq. by destruct Hchk, (Hsame Heq).
  - assert (Hcase' : rc = - EACCES ∧ s1c_state ctx' = SEC1_CMD0_DONE) by exact Hcase.
    destruct Hcase' as [-> Hst']. cbn. do 4 eexists. split; [reflexivity|]. split; [done|].
    intros ->. destruct Hok. apply xor_bytes_invol. rewrite x25519_pub_len, aes_ctr_len. lia.
Qed.

(** The handshake completes. From any initialised session, a client that
    runs the whole exchange with the device's proof of possession (at most 63
    characters) gets success; the device ends in DONE and both ends hold an
    active AES-CTR cipher with the same key and nonce at the same offset. *)
Theorem handshake_completes sz pop (e : E) (f0 f : F) (ctx : ctx_t) :
  client_pop pop = pop_bytes pop →
  sec1_init sz pop f0 = (0, Some ctx, f) →
  ∃ c' e' ctx' f' key iv,
    prov_client_handshake device_xport device_free prov_client_init pop e (Some ctx, f) =
      (0, c', e', (Some ctx', f')) ∧
    s1c_state ctx' = SEC1_DONE ∧
    cipher_st (pc_cipher c') = cipher_active key iv 64 ∧ keystream_at ctx' key iv 64.
Proof.
  intros Hsame Hinit.
  destruct (handshake_armed _ _ pop e _ _ _ Hinit)
    as (s & iv & c & e' & ctx1 & f1 & sk & -> & _ & A1 & A2 & A3 & A4 & A5 & A6 & A7).
  destruct (verify_cases c e' ctx1 f1 sk _ _ iv A1 A2 A3 A4 A5 A6 A7)
    as (rc & c' & ctx' & f' & -> & _ & Hok).
  destruct Hok as (-> & ? & ? & ?); [by rewrite Hsame|]. eauto 12.
Qed.

(** A client with another proof of possession is turned away: some shared
    secret and nonce are agreed on, and whenever the keystreams the two mixed
    keys produce differ in their first 32 bytes the client sees -EACCES and the
    device session stays short of DONE, so that no application data flows. One whose
    proof is mixed as the device's is gets in. *)
Theorem handshake_wrong_pop sz dpop pop (e : E) (f0 f : F) (ctx : ctx_t) :
  sec1_init sz dpop f0 = (0, Some ctx, f) →
  ∃ s iv (rc : Z) c' e' ctx' f',
    length s = SESSION_KEY_LEN ∧
    prov_client_handshake device_xport device_free prov_client_init pop e (Some ctx, f) =
      (rc, c', e', (Some ctx', f')) ∧
    (aes_ctr (mix_pop s (client_pop pop)) iv 0 32 ≠ aes_ctr (mix_pop s (pop_bytes dpop)) iv 0 32 →
     rc = - EACCES ∧ s1c_state ctx' = SEC1_CMD0_DONE ∧
     ∀ data, sec1_encrypt (Some ctx') data f' = (- EACCES, [], Some ctx', f')) ∧
    (client_pop pop = pop_bytes dpop →
     rc = 0 ∧ s1c_state ctx' = SEC1_DONE ∧
     cipher_st (pc_cipher c') = cipher_active (mix_pop s (pop_bytes dpop)) iv 64 ∧
     keystream_at ctx' (mix_pop s (pop_bytes dpop)) iv 64).
Proof.
  intros Hinit.
  destruct (handshake_armed _ _ pop e _ _ _ Hinit)
    as (s & iv & c & e' & ctx1 & f1 & sk & Hrun & Hs & A1 & A2 & A3 & A4 & A5 & A6 & A7).
  destruct (verify_cases c e' ctx1 f1 sk _ _ iv A1 A2 A3 A4 A5 A6 A7)
    as (rc & c' & ctx' & f' & Hv & Hbad & Hgood).
  exists s, iv, rc, c', e', ctx', f'. rewrite Hrun. do 2 (split; [done|]). split.
  - intros Hne. destruct (Hbad Hne) as [-> Hst]. do 2 (split; [done|]).
    intros data. unfold sec1_encrypt. by rewrite Hst.
  - intros Hsame. rewrite Hsame in Hgood. by apply Hgood.
Qed.

(** A conversation after the handshake: [(true, m)] is a message the client
    sends, [(false, m)] one the device sends; what the other end recovers. *)
Fixpoint converse (c : client_t) (ctx : ctx_t) (f : F) (msgs : list (bool * list Z))
    : list (option (list Z)) * client_t * ctx_t * F :=
  match msgs with
  | [] => ([], c, ctx, f)
  | (up, m) :: msgs =>
      if up then
        let '(rc1, wire, c1) := prov_client_xform c m in
        match sec1_encrypt (Some ctx) wire f with
        | (rc2, got, Some ctx1, f1) =>
            let '(r, c2, ctx2, f2) := converse c1 ctx1 f1 msgs in
            ((if (rc1 =? 0) && (rc2 =? 0) then Some got else None) :: r, c2, ctx2, f2)
        | (_, _, None, f1) => ([], c1, ctx, f1)
        end
      else
        match sec1_encrypt (Some ctx) m f with
        | (rc1, wire, Some ctx1, f1) =>
            let '(rc2, got, c1) := prov_client_xform c wire in
            let '(r, c2, ctx2, f2) := converse c1 ctx1 f1 msgs in
            ((if (rc1 =? 0) && (rc2 =? 0) then Some got else None) :: r, c2, ctx2, f2)
        | (_, _, None, f1) => ([], c, ctx, f1)
        end
  end.

Lemma sec1_encrypt_available (ctx : ctx_t) data (f : F) key iv pos :
  s1c_state ctx = SEC1_DONE → keystream_at ctx key iv pos →
  ∃ ctx', sec1_encrypt (Some ctx) data f =
      (0, xor_bytes data (aes_ctr key iv pos (length data)), Some ctx', f) ∧
    s1c_state ctx' = SEC1_DONE ∧ keystream_at ctx' key iv (pos + length data).
Proof.
  intros Hst Hk. unfold sec1_encrypt. rewrite Hst. cbn. unfold ctr_xform.
  pose proof (update_avail _ data _ _ _ Hk) as Hu.
  destruct (psa_cipher_update _ data) as [[st out] op] eqn:Hup. cbn in Hu. subst st. cbn.
  destruct (cipher_update_ok _ _ _ _ Hup) as (k & i & p & Hk' & -> & Hop).
  unfold keystream_at in Hk. rewrite Hk in Hk'. simplify_eq.
  assert (Hl : (blen (xor_bytes data (aes_ctr k i p (length data))) =? blen data) = true).
  { apply Z.eqb_eq. unfold blen. rewrite length_xor_bytes, aes_ctr_len. lia. }
  rewrite ?Hl. cbn. eexists. split; [reflexivity|]. done.
Qed.

(** After the handshake both ends stay in lockstep: every message of every
    conversation, in both directions and of any length, is recovered intact by
    the other end, and the two ciphers end at the same keystream offset. *)
Theorem lockstep_roundtrip (c : client_t) (ctx : ctx_t) (f : F) msgs key iv pos :
  s1c_state ctx = SEC1_DONE → keystream_at ctx key iv pos →
  cipher_st (pc_cipher c) = cipher_active key iv pos →
  ∃ c' ctx' pos', converse c ctx f msgs = (map (fun m => Some m.2) msgs, c', ctx', f) ∧
    s1c_state ctx' = SEC1_DONE ∧ keystream_at ctx' key iv pos' ∧
    cipher_st (pc_cipher c') = cipher_active key iv pos' ∧
    pos' = (pos + sum_list_with (fun m => length m.2) msgs)%nat.
Proof.
  revert c ctx pos. induction msgs as [|[up m] msgs IH]; intros c ctx pos Hst Hks Hkc.
  { exists c, ctx, pos. cbn. split_and!; [done..|lia]. }
  cbn -[prov_client_xform sec1_encrypt].
  set (w := xor_bytes m (aes_ctr key iv pos (length m))).
  assert (Hw : length w = length m) by (unfold w; rewrite length_xor_bytes, aes_ctr_len; lia).
  assert (Hback : xor_bytes w (aes_ctr key iv pos (length m)) = m)
    by (apply xor_bytes_invol; rewrite aes_ctr_len; lia).
  destruct up.
  - destruct (client_xform_available c m _ _ _ Hkc) as (c1 & -> & _ & Hkc1). fold w.
    destruct (sec1_encrypt_available ctx w f _ _ _ Hst Hks) as (ctx1 & -> & Hst1 & Hks1).
    rewrite Hw in *. destruct (IH c1 ctx1 _ Hst1 Hks1 Hkc1) as (c' & ctx' & pos' & -> & ? & ? & ? & ->).
    do 3 eexists. cbn. fold w. rewrite Hback. split_and!; [done..|lia].
  - destruct (sec1_encrypt_available ctx m f _ _ _ Hst Hks) as (ctx1 & -> & Hst1 & Hks1). fold w.
    destruct (client_xform_available c w _ _ _ Hkc) as (c1 & -> & _ & Hkc1).
    rewrite Hw in *. destruct (IH c1 ctx1 _ Hst1 Hks1 Hkc1) as (c' & ctx' & pos' & -> & ? & ? & ? & ->).
    do 3 eexists. cbn. fold w. rewrite Hback. split_and!; [done..|lia].
Qed.
End handshake.
