(* ===== verification/NetEnv.v ===== *)
(** * NetEnv: the network subsystems the handlers drive

    Zephyr's Wi-Fi management, its credentials store, OpenThread and the
    transports are not part of the repository: their calls are operations of a
    class over the machine state, and [net_log] is the history of the calls that
    act on the outside world. The [*Laws] classes say only that a call is
    recorded and that nothing else is; results are arbitrary. The application
    events are the exception: [network_prov_emit_event] is the manager's, and the
    class is the interface the handlers are proved against. *)
From S2P Require Import Prelude Platform PbUtil.

(** [enum network_prov_cred_fail_reason] and [enum network_prov_cb_event]
    (include/network_provisioning/network_prov_mgr.h), CRED_FAIL with its data. *)
Inductive network_prov_cred_fail_reason :=
| NETWORK_PROV_WIFI_AUTH_ERROR
| NETWORK_PROV_WIFI_NETWORK_NOT_FOUND.
#[export] Instance cred_fail_reason_eq_dec : EqDecision network_prov_cred_fail_reason.
Proof. solve_decision. Defined.

Inductive network_prov_cb_event :=
| NETWORK_PROV_INIT
| NETWORK_PROV_START
| NETWORK_PROV_CRED_RECV
| NETWORK_PROV_CRED_FAIL (reason : network_prov_cred_fail_reason)
| NETWORK_PROV_CRED_SUCCESS
| NETWORK_PROV_END
| NETWORK_PROV_DEINIT.
#[export] Instance cb_event_eq_dec : EqDecision network_prov_cb_event.
Proof. solve_decision. Defined.

(** ** Zephyr Wi-Fi data *)
Definition WIFI_MAC_ADDR_LEN : nat := 6.
Definition WIFI_CHANNEL_ANY : Z := 255.
Definition WIFI_STATUS_CONN_AP_NOT_FOUND : Z := 4.

Inductive wifi_security_type :=
| WIFI_SECURITY_TYPE_NONE | WIFI_SECURITY_TYPE_PSK | WIFI_SECURITY_TYPE_PSK_SHA256
| WIFI_SECURITY_TYPE_SAE | WIFI_SECURITY_TYPE_WEP | WIFI_SECURITY_TYPE_WPA_PSK
| WIFI_SECURITY_TYPE_OTHER (n : Z).
#[export] Instance wifi_security_type_eq_dec : EqDecision wifi_security_type.
Proof. solve_decision. Defined.

(** [struct wifi_connect_req_params], the fields that are not constants here. *)
Record wifi_connect_req_params := mk_connect_params {
  cp_ssid : bytes; cp_psk : option bytes; cp_security : wifi_security_type;
  cp_channel : Z; cp_bssid : option bytes }.
#[export] Instance connect_params_eq_dec : EqDecision wifi_connect_req_params.
Proof. solve_decision. Defined.

(** The arguments of [wifi_credentials_set_personal]. *)
Record wifi_cred := mk_cred {
  cr_ssid : bytes; cr_security : wifi_security_type; cr_bssid : option bytes;
  cr_pass : bytes; cr_channel : Z }.
#[export] Instance wifi_cred_eq_dec : EqDecision wifi_cred.
Proof. solve_decision. Defined.

Record wifi_iface_status := mk_iface_status {
  ifs_ssid : bytes; ifs_ssid_len : Z; ifs_bssid : bytes; ifs_channel : Z }.

(** ** Calls with an effect *)
Inductive net_action :=
| A_emit (ev : network_prov_cb_event)
| A_wifi_connect (iface : Z) (p : wifi_connect_req_params) (rc : Z)
| A_wifi_scan (iface rc : Z)
| A_cred_set (c : wifi_cred) (rc : Z)
| A_cred_delete (ssid : bytes)
| A_cred_delete_all (rc : Z)
| A_cb_add
| A_cb_del
| A_ot_cb_register (rc : Z)
| A_ot_cb_unregister
| A_ot_dataset_set (tlvs : bytes) (err : Z)
| A_ot_ip6_enable
| A_ot_thread_enable (on : bool) (err : Z)
| A_ot_erase (err : Z)
| A_ot_discover (channels : Z) (err : Z).

Class NetLog (E : Type) := net_log : E → list net_action.

(** The application event channel ([network_prov_emit_event]). *)
Class EmitEvent (E : Type) := network_prov_emit_event : network_prov_cb_event → E → E.
Class EmitEventLaws (E : Type) `{NetLog E, EmitEvent E} : Prop :=
  emit_event_log ev (e : E) : net_log (network_prov_emit_event ev e) = net_log e ++ [A_emit ev].

(** ** Wi-Fi management and credentials *)
Class WifiNet (E : Type) := {
  net_if_get_wifi_sta : E → option Z;
  net_if_get_first_wifi : E → option Z;
  (** [net_mgmt(NET_REQUEST_WIFI_CONNECT, ...)] *)
  wifi_connect : Z → wifi_connect_req_params → E → Z * E;
  (** [net_mgmt(NET_REQUEST_WIFI_SCAN, ...)] *)
  wifi_scan : Z → E → Z * E;
  (** [net_mgmt(NET_REQUEST_WIFI_IFACE_STATUS, ...)], [None] when it fails *)
  wifi_iface_status_get : Z → E → option wifi_iface_status;
  (** the preferred global IPv4 address, as text *)
  net_if_ipv4_text : Z → E → option bytes;
  wifi_credentials_delete_by_ssid : bytes → E → E;
  wifi_credentials_set_personal : wifi_cred → E → Z * E;
  wifi_credentials_delete_all : E → Z * E;
  wifi_credentials_is_empty : E → bool;
  net_mgmt_add_event_callback : E → E;
  net_mgmt_del_event_callback : E → E;
}.

Class WifiNetLaws (E : Type) `{NetLog E, WifiNet E} : Prop := {
  wifi_connect_log i p (e : E) rc e' :
    wifi_connect i p e = (rc, e') → net_log e' = net_log e ++ [A_wifi_connect i p rc];
  wifi_scan_log i (e : E) rc e' :
    wifi_scan i e = (rc, e') → net_log e' = net_log e ++ [A_wifi_scan i rc];
  cred_delete_log s (e : E) :
    net_log (wifi_credentials_delete_by_ssid s e) = net_log e ++ [A_cred_delete s];
  cred_set_log c (e : E) rc e' :
    wifi_credentials_set_personal c e = (rc, e') → net_log e' = net_log e ++ [A_cred_set c rc];
  cred_delete_all_log (e : E) rc e' :
    wifi_credentials_delete_all e = (rc, e') → net_log e' = net_log e ++ [A_cred_delete_all rc];
  cb_add_log (e : E) : net_log (net_mgmt_add_event_callback e) = net_log e ++ [A_cb_add];
  cb_del_log (e : E) : net_log (net_mgmt_del_event_callback e) = net_log e ++ [A_cb_del];
}.

(** The heap is not part of the history. *)
Class NetHeapLaws (E : Type) `{NetLog E, KHeap E} : Prop := {
  malloc_log n (e : E) : net_log (k_malloc n e).2 = net_log e;
  free_log p (e : E) : net_log (k_free p e) = net_log e;
}.

(** ** OpenThread *)
Definition OT_ERROR_NONE : Z := 0.
Definition OT_OPERATIONAL_DATASET_MAX_LENGTH : nat := 254.
Definition OT_EXT_ADDRESS_SIZE : nat := 8.
Definition OT_EXT_PAN_ID_SIZE : nat := 8.
Definition OT_NETWORK_NAME_MAX_SIZE : nat := 16.

Inductive otDeviceRole :=
| OT_DEVICE_ROLE_DISABLED | OT_DEVICE_ROLE_DETACHED | OT_DEVICE_ROLE_CHILD
| OT_DEVICE_ROLE_ROUTER | OT_DEVICE_ROLE_LEADER.
#[export] Instance otDeviceRole_eq_dec : EqDecision otDeviceRole.
Proof. solve_decision. Defined.

Class OpenThread (E : Type) := {
  openthread_cb_register : E → Z * E;
  openthread_cb_unregister : E → E;
  otDatasetSetActiveTlvs : bytes → E → Z * E;
  otIp6SetEnabled : E → E;
  otThreadSetEnabled : bool → E → Z * E;
  otInstanceErasePersistentInfo : E → Z * E;
  otDatasetIsCommissioned : E → bool;
  otThreadGetDeviceRole : E → otDeviceRole;
  otLinkGetPanId : E → Z;
  otLinkGetChannel : E → Z;
  otThreadGetExtendedPanId : E → bytes;
  otThreadGetNetworkName : E → string;
  otLinkGetSupportedChannelMask : E → Z;
  otThreadDiscover : Z → E → Z * E;
}.

Class OpenThreadLaws (E : Type) `{NetLog E, OpenThread E} : Prop := {
  ot_register_log (e : E) rc e' :
    openthread_cb_register e = (rc, e') → net_log e' = net_log e ++ [A_ot_cb_register rc];
  ot_unregister_log (e : E) :
    net_log (openthread_cb_unregister e) = net_log e ++ [A_ot_cb_unregister];
  ot_dataset_log d (e : E) err e' :
    otDatasetSetActiveTlvs d e = (err, e') → net_log e' = net_log e ++ [A_ot_dataset_set d err];
  ot_ip6_log (e : E) : net_log (otIp6SetEnabled e) = net_log e ++ [A_ot_ip6_enable];
  ot_enable_log b (e : E) err e' :
    otThreadSetEnabled b e = (err, e') → net_log e' = net_log e ++ [A_ot_thread_enable b err];
  ot_erase_log (e : E) err e' :
    otInstanceErasePersistentInfo e = (err, e') → net_log e' = net_log e ++ [A_ot_erase err];
  ot_discover_log m (e : E) err e' :
    otThreadDiscover m e = (err, e') → net_log e' = net_log e ++ [A_ot_discover m err];
}.

(** An encoded response leaves the history alone. *)
Lemma pb_encode_log {E M} `{NetLog E, KHeap E, !NetHeapLaws E, PbMsg M} (m : M) (e : E) :
  net_log (network_prov_pb_encode m e).2 = net_log e.
Proof.
  unfold network_prov_pb_encode. destruct (pb_get_encoded_size m) as [n|]; [|done].
  pose proof (malloc_log (if n =? 0 then 1 else n) e) as Hm.
  destruct (k_malloc _ e) as [[l|] e1]; cbn in *; [|done].
  destruct (pb_encode n m); cbn; by rewrite ?free_log.
Qed.
