(* ===== verification/WifiConfig.v ===== *)
(** * WifiConfig: the prov-config endpoint for Wi-Fi (src/wifi_config_handler.c)

    Credentials staged by SetWifiConfig, the connect attempt in flight with its
    retries, and the status report. The buffers [ssid]/[pass] and their snapshot
    are zero-filled before each write, so a buffer is given by its first
    [*_len] bytes. *)
From S2P Require Import Prelude Platform PbUtil Messages NetEnv.

Definition SSID_MAX : Z := 32.
Definition PASS_MAX : Z := 63.

(** [static struct { ... } wc]. *)
Record wifi_cfg (Work : Type) := mk_wc {
  wc_ssid : bytes;
  wc_pass : bytes;
  wc_bssid : bytes;
  wc_has_bssid : bool;
  wc_channel : Z;
  wc_inflight_ssid : bytes;
  wc_inflight_pass : bytes;
  wc_inflight_bssid : bytes;
  wc_inflight_has_bssid : bool;
  wc_inflight_channel : Z;
  wc_attempts_max : Z;
  wc_attempts_completed : Z;
  wc_attempt_failed : bool;
  wc_last_conn_status : Z;
  wc_retry_work : Work;
  wc_sta_state : Z;
  wc_fail_reason : Z;
  wc_cb_registered : bool;
}.
Arguments mk_wc {_}.
Arguments wc_ssid {_} _.
Arguments wc_pass {_} _.
Arguments wc_bssid {_} _.
Arguments wc_has_bssid {_} _.
Arguments wc_channel {_} _.
Arguments wc_inflight_ssid {_} _.
Arguments wc_inflight_pass {_} _.
Arguments wc_inflight_bssid {_} _.
Arguments wc_inflight_has_bssid {_} _.
Arguments wc_inflight_channel {_} _.
Arguments wc_attempts_max {_} _.
Arguments wc_attempts_completed {_} _.
Arguments wc_attempt_failed {_} _.
Arguments wc_last_conn_status {_} _.
Arguments wc_retry_work {_} _.
Arguments wc_sta_state {_} _.
Arguments wc_fail_reason {_} _.
Arguments wc_cb_registered {_} _.

#[export] Instance wifi_cfg_eta {W} : FieldEta (wifi_cfg W) := fun r =>
  mk_wc (wc_ssid r) (wc_pass r) (wc_bssid r) (wc_has_bssid r) (wc_channel r)
    (wc_inflight_ssid r) (wc_inflight_pass r) (wc_inflight_bssid r) (wc_inflight_has_bssid r)
    (wc_inflight_channel r) (wc_attempts_max r) (wc_attempts_completed r) (wc_attempt_failed r)
    (wc_last_conn_status r) (wc_retry_work r) (wc_sta_state r) (wc_fail_reason r)
    (wc_cb_registered r).

Section wifi_config.
Context {E : Type} `{KHeap E} `{NetLog E} `{EmitEvent E} `{WifiNet E} `{K : Kernel}.
Context `{PbMsg NetworkConfigPayload} `{UnionViews}.

Local Abbreviation wc_t := (wifi_cfg k_work_delayable).

(** The static storage before the first [init]. *)
Definition wc_zero : wc_t :=
  mk_wc [] [] (replicate WIFI_MAC_ADDR_LEN 0) false 0 [] [] (replicate WIFI_MAC_ADDR_LEN 0) false 0
    0 0 false 0 k_work_init WifiStationState_Connected WifiConnectFailedReason_AuthError false.

Definition security_from_pass (wc : wc_t) : wifi_security_type :=
  if 0 <? blen (wc_pass wc) then WIFI_SECURITY_TYPE_PSK else WIFI_SECURITY_TYPE_NONE.

Definition clear_inflight (wc : wc_t) : wc_t :=
  wc <| wc_inflight_ssid := [] |> <| wc_inflight_pass := [] |>
     <| wc_inflight_has_bssid := false |> <| wc_inflight_channel := 0 |>.

(** [net_if_get_wifi_sta()], else [net_if_get_first_wifi()]. *)
Definition wifi_iface (e : E) : option Z :=
  match net_if_get_wifi_sta e with Some i => Some i | None => net_if_get_first_wifi e end.

Definition inflight_params (wc : wc_t) : wifi_connect_req_params :=
  let secured := 0 <? blen (wc_inflight_pass wc) in
  mk_connect_params (wc_inflight_ssid wc)
    (if secured then Some (wc_inflight_pass wc) else None)
    (if secured then WIFI_SECURITY_TYPE_PSK else WIFI_SECURITY_TYPE_NONE)
    (if 0 <? wc_inflight_channel wc then wc_inflight_channel wc else WIFI_CHANNEL_ANY)
    (if wc_inflight_has_bssid wc then Some (wc_inflight_bssid wc) else None).

Definition connect_from_inflight (wc : wc_t) (e : E) : Z * E :=
  match wifi_iface e with
  | None => (- ENODEV, e)
  | Some iface => wifi_connect iface (inflight_params wc) e
  end.

Definition final_failure (wc : wc_t) (e : E) : wc_t * E :=
  let wc1 := wc <| wc_sta_state := WifiStationState_ConnectionFailed |>
                <| wc_attempt_failed := false |> in
  let '(wire, reason) :=
    if wc_last_conn_status wc1 =? WIFI_STATUS_CONN_AP_NOT_FOUND
    then (WifiConnectFailedReason_WifiNetworkNotFound, NETWORK_PROV_WIFI_NETWORK_NOT_FOUND)
    else (WifiConnectFailedReason_AuthError, NETWORK_PROV_WIFI_AUTH_ERROR) in
  let wc2 := wc1 <| wc_fail_reason := wire |> in
  let e1 := wifi_credentials_delete_by_ssid (wc_inflight_ssid wc2) e in
  (clear_inflight wc2, network_prov_emit_event (NETWORK_PROV_CRED_FAIL reason) e1).

(** The work handler; the queue has already taken the item off. *)
Definition retry_work_handler (wc : wc_t) (e : E) : wc_t * E :=
  if blen (wc_inflight_ssid wc) =? 0 then (wc, e)
  else
    let '(rc, e1) := connect_from_inflight wc e in
    if negb (rc =? 0) then final_failure wc e1 else (wc, e1).

(** [cb->info] is the result's [status] and [conn_status]. *)
Definition on_connect_result (status conn_status : Z) (wc : wc_t) (e : E) : wc_t * E :=
  if blen (wc_inflight_ssid wc) =? 0 then (wc, e)
  else if status =? 0 then
    (clear_inflight (wc <| wc_sta_state := WifiStationState_Connected |>
                        <| wc_attempt_failed := false |>),
     network_prov_emit_event NETWORK_PROV_CRED_SUCCESS e)
  else
    let wc1 := wc <| wc_last_conn_status := conn_status |> in
    if 0 <? wc_attempts_max wc1 then
      let wc2 := wc1 <| wc_attempts_completed := u32 (wc_attempts_completed wc1 + 1) |> in
      if wc_attempts_completed wc2 <? wc_attempts_max wc2 then
        (wc2 <| wc_attempt_failed := true |> <| wc_sta_state := WifiStationState_Connecting |>
             <| wc_retry_work := k_work_schedule 1000 (wc_retry_work wc2) |>, e)
      else final_failure wc2 e
    else final_failure wc1 e.

Definition network_prov_wifi_config_init (conn_attempts : Z) (wc : wc_t) (e : E) : Z * wc_t * E :=
  let wc1 := wc <| wc_sta_state := WifiStationState_Disconnected |>
                <| wc_attempts_max := conn_attempts |> <| wc_attempts_completed := 0 |>
                <| wc_attempt_failed := false |> <| wc_retry_work := k_work_init |> in
  if negb (wc_cb_registered wc1)
  then (0, wc1 <| wc_cb_registered := true |>, net_mgmt_add_event_callback e)
  else (0, wc1, e).

Definition network_prov_wifi_config_deinit (wc : wc_t) (e : E) : wc_t * E :=
  let wc1 := clear_inflight wc in
  let wc2 := wc1 <| wc_retry_work := k_work_cancel (wc_retry_work wc1) |> in
  if wc_cb_registered wc2
  then (wc2 <| wc_cb_registered := false |>, net_mgmt_del_event_callback e)
  else (wc2, e).

Definition network_prov_wifi_config_reset (wc : wc_t) : wc_t :=
  let wc1 := clear_inflight wc in
  wc1 <| wc_retry_work := k_work_cancel (wc_retry_work wc1) |>
      <| wc_ssid := [] |> <| wc_pass := [] |> <| wc_has_bssid := false |> <| wc_channel := 0 |>
      <| wc_attempts_completed := 0 |> <| wc_attempt_failed := false |>
      <| wc_sta_state := WifiStationState_Disconnected |>
      <| wc_fail_reason := WifiConnectFailedReason_AuthError |>.

Definition network_prov_wifi_config_remaining_attempts (wc : wc_t) : Z :=
  if wc_attempts_max wc <=? wc_attempts_completed wc then 0
  else u32 (wc_attempts_max wc - wc_attempts_completed wc).

Definition do_set_config (cmd : CmdSetWifiConfig) (wc : wc_t) : Z * wc_t :=
  if (blen (sw_ssid cmd) =? 0) || (SSID_MAX <? blen (sw_ssid cmd)) then (Status_InvalidArgument, wc)
  else if PASS_MAX <? blen (sw_passphrase cmd) then (Status_InvalidArgument, wc)
  else
    let has := blen (sw_bssid cmd) =? Z.of_nat WIFI_MAC_ADDR_LEN in
    (Status_Success,
     wc <| wc_ssid := sw_ssid cmd |> <| wc_pass := sw_passphrase cmd |> <| wc_has_bssid := has |>
        <| wc_bssid := if has then sw_bssid cmd else wc_bssid wc |>
        <| wc_channel := u8 (sw_channel cmd) |>).

(** The credentials handed to the store. *)
Definition staged_cred (wc : wc_t) : wifi_cred :=
  mk_cred (wc_ssid wc) (security_from_pass wc)
    (if wc_has_bssid wc then Some (wc_bssid wc) else None) (wc_pass wc) (wc_channel wc).

(** The snapshot the attempt and its retries use. *)
Definition snapshot (wc : wc_t) : wc_t :=
  wc <| wc_sta_state := WifiStationState_Connecting |>
     <| wc_retry_work := k_work_cancel (wc_retry_work wc) |>
     <| wc_inflight_ssid := wc_ssid wc |> <| wc_inflight_pass := wc_pass wc |>
     <| wc_inflight_has_bssid := wc_has_bssid wc |>
     <| wc_inflight_bssid := if wc_has_bssid wc then wc_bssid wc else wc_inflight_bssid wc |>
     <| wc_inflight_channel := wc_channel wc |>
     <| wc_attempts_completed := 0 |> <| wc_attempt_failed := false |>.

Definition do_apply_config (wc : wc_t) (e : E) : Z * wc_t * E :=
  match wifi_iface e with
  | None => (Status_InternalError, wc, e)
  | Some _ =>
      let e1 := wifi_credentials_delete_by_ssid (wc_ssid wc) e in
      let '(ret, e2) := wifi_credentials_set_personal (staged_cred wc) e1 in
      if negb (ret =? 0) then (Status_InternalError, wc, e2)
      else
        let e3 := network_prov_emit_event NETWORK_PROV_CRED_RECV e2 in
        let wc1 := snapshot wc in
        let '(ret, e4) := connect_from_inflight wc1 e3 in
        if negb (ret =? 0) then
          let wc2 := clear_inflight
            (wc1 <| wc_sta_state := WifiStationState_ConnectionFailed |>
                 <| wc_fail_reason := WifiConnectFailedReason_AuthError |>) in
          let e5 := wifi_credentials_delete_by_ssid (wc_ssid wc2) e4 in
          (Status_Success, wc2,
           network_prov_emit_event (NETWORK_PROV_CRED_FAIL NETWORK_PROV_WIFI_AUTH_ERROR) e5)
        else (Status_Success, wc1, e4)
  end.

(** [None] is a NULL pointer; the length arguments go with it. *)
Definition network_prov_wifi_config_set_and_apply
    (ssid : option (list Z)) (ssid_len : Z) (psk : option (list Z)) (psk_len : Z) (wc : wc_t) (e : E)
    : Z * wc_t * E :=
  match ssid with
  | None => (- EINVAL, wc, e)
  | Some s =>
      if (ssid_len =? 0) || (SSID_MAX <? ssid_len) || (PASS_MAX <? psk_len)
         || ((0 <? psk_len) && match psk with None => true | _ => false end)
      then (- EINVAL, wc, e)
      else
        let wc1 := wc <| wc_ssid := take (Z.to_nat ssid_len) s |>
          <| wc_pass := if 0 <? psk_len then take (Z.to_nat psk_len) (default [] psk) else [] |>
          <| wc_has_bssid := false |> <| wc_channel := 0 |> in
        let '(st, wc2, e') := do_apply_config wc1 e in
        (if st =? Status_Success then 0 else - EIO, wc2, e')
  end.

(** [sizeof(out->ssid.bytes)], [max_size] of [WifiConnectedState.ssid]. *)
Definition CONNECTED_SSID_SIZE : Z := 33.

Definition fill_connected_state (wc : wc_t) (e : E) : WifiConnectedState :=
  let iface := net_if_get_wifi_sta e in
  let ip := match iface with
            | Some i => default [] (net_if_ipv4_text i e)
            | None => []
            end in
  match iface ≫= fun i => wifi_iface_status_get i e with
  | Some st =>
      mk_connected ip WifiAuthMode_WPA2_PSK
        (take (Z.to_nat (Z.min (ifs_ssid_len st) CONNECTED_SSID_SIZE)) (ifs_ssid st))
        (take WIFI_MAC_ADDR_LEN (ifs_bssid st)) (ifs_channel st)
  | None => mk_connected ip 0 (wc_ssid wc) [] 0
  end.

Definition get_status_resp (wc : wc_t) (e : E) : NetworkConfigPayload :=
  let st := wc_sta_state wc in
  mk_config TypeRespGetWifiStatus (cfg_resp_get_wifi_status Status_Success st
    (if st =? WifiStationState_Connected then wstate_connected (fill_connected_state wc e)
     else if st =? WifiStationState_ConnectionFailed then wstate_fail_reason (wc_fail_reason wc)
     else if (st =? WifiStationState_Connecting) && wc_attempt_failed wc
          then wstate_attempt_failed (network_prov_wifi_config_remaining_attempts wc)
     else wstate_none)).

Definition encode_get_status (wc : wc_t) (e : E) : Z * obuf * E :=
  network_prov_pb_encode (get_status_resp wc e) e.

Definition simple_resp (type status : Z) : NetworkConfigPayload :=
  mk_config type (if type =? TypeRespSetWifiConfig then cfg_resp_set_wifi_config status
                  else cfg_resp_apply_wifi_config status).

Definition encode_simple (type status : Z) (e : E) : Z * obuf * E :=
  network_prov_pb_encode (simple_resp type status) e.

Definition network_prov_wifi_config_handler (inbuf : bytes) (wc : wc_t) (e : E)
    : Z * obuf * wc_t * E :=
  match pb_decode inbuf with
  | None => (- EINVAL, no_buf, wc, e)
  | Some req =>
      if cfg_msg req =? TypeCmdSetWifiConfig then
        let '(s, wc1) := do_set_config (view_set_wifi (cfg_payload req)) wc in
        let '(rc, out, e1) := encode_simple TypeRespSetWifiConfig s e in (rc, out, wc1, e1)
      else if cfg_msg req =? TypeCmdApplyWifiConfig then
        let '(s, wc1, e1) := do_apply_config wc e in
        let '(rc, out, e2) := encode_simple TypeRespApplyWifiConfig s e1 in (rc, out, wc1, e2)
      else if cfg_msg req =? TypeCmdGetWifiStatus then
        let '(rc, out, e1) := encode_get_status wc e in (rc, out, wc, e1)
      else (- ENOTSUP, no_buf, wc, e)
  end.

End wifi_config.

(** ** The history monitor

    Runs over [net_log] and checks that the traffic with the outside makes sense:
    a CRED_RECV opens an attempt for the credentials stored last; connect requests
    belong to an open attempt, carry exactly its credentials and number at most
    [max 1 n]; a terminal event closes it, with the credentials gone from the store
    after a failure and still there after a success - unless a write to the store
    failed meanwhile, or the application erased the store ([mo_lost]): a re-apply
    deletes the old entry first. *)
Record wifi_monitor := mk_mon {
  mo_store : gmap (list Z) wifi_cred;
  mo_last : option wifi_cred;
  mo_live : option (wifi_cred * Z);
  mo_outcome : option bool;
  mo_lost : bool;
  mo_ok : bool;
}.
#[export] Instance wifi_monitor_eta : FieldEta wifi_monitor := fun r =>
  mk_mon (mo_store r) (mo_last r) (mo_live r) (mo_outcome r) (mo_lost r) (mo_ok r).

Definition mon_init : wifi_monitor := mk_mon ∅ None None None false true.

(** The connect parameters stored credentials stand for. *)
Definition params_of_cred (c : wifi_cred) : wifi_connect_req_params :=
  let secured := 0 <? blen (cr_pass c) in
  mk_connect_params (cr_ssid c) (if secured then Some (cr_pass c) else None)
    (cr_security c) (if 0 <? cr_channel c then cr_channel c else WIFI_CHANNEL_ANY) (cr_bssid c).

Definition mon_close (m : wifi_monitor) (success : bool) : wifi_monitor :=
  match mo_live m with
  | None => m <| mo_ok := false |>
  | Some (c, _) =>
      let kept := mo_store m !! cr_ssid c in
      m <| mo_live := None |> <| mo_outcome := Some success |>
        <| mo_ok := mo_ok m && (if success then bool_decide (kept = Some c) || mo_lost m else bool_decide (kept = None)) |>
  end.

Definition mon_step (n : Z) (m : wifi_monitor) (a : net_action) : wifi_monitor :=
  match a with
  | A_cred_set c rc =>
      if rc =? 0 then m <| mo_store := <[cr_ssid c := c]> (mo_store m) |> <| mo_last := Some c |>
      else m <| mo_lost := true |>
  | A_cred_delete s => m <| mo_store := delete s (mo_store m) |>
  | A_cred_delete_all rc =>
      m <| mo_store := if rc =? 0 then ∅ else mo_store m |> <| mo_lost := true |>
  | A_emit NETWORK_PROV_CRED_RECV =>
      m <| mo_live := (fun c => (c, 0)) <$> mo_last m |> <| mo_outcome := None |>
        <| mo_lost := false |> <| mo_ok := mo_ok m && bool_decide (is_Some (mo_last m)) |>
  | A_wifi_connect _ p _ =>
      match mo_live m with
      | None => m <| mo_ok := false |>
      | Some (c, k) =>
          m <| mo_live := Some (c, k + 1) |>
            <| mo_ok := mo_ok m && bool_decide (p = params_of_cred c) && (k <? Z.max 1 n) |>
      end
  | A_emit (NETWORK_PROV_CRED_FAIL _) => mon_close m false
  | A_emit NETWORK_PROV_CRED_SUCCESS => mon_close m true
  | _ => m
  end.

Definition monitor (n : Z) (log : list net_action) : wifi_monitor := foldl (mon_step n) mon_init log.

Lemma monitor_snoc n log a : monitor n (log ++ [a]) = mon_step n (monitor n log) a.
Proof. unfold monitor. by rewrite foldl_app. Qed.

Section wifi_facts.
Context {E : Type} `{HH : KHeap E} `{NL : NetLog E} `{!NetHeapLaws E}.
Context `{EE : EmitEvent E} `{!EmitEventLaws E} `{WN : WifiNet E} `{!WifiNetLaws E}.
Context `{K : Kernel} `{!KernelLaws} `{PB : PbMsg NetworkConfigPayload} `{UV : UnionViews}.

Local Abbreviation wc_t := (wifi_cfg k_work_delayable).

(** One entry into the component, from a request, the API, the network stack or
    the work queue. The manager uses it between [init] and [deinit] only. *)
Inductive wifi_step (n : Z) : wc_t * E → wc_t * E → Prop :=
| ws_init wc e wc' e' : wc_cb_registered wc = false →
    network_prov_wifi_config_init n wc e = (0, wc', e') → wifi_step n (wc, e) (wc', e')
| ws_deinit wc e wc' e' :
    network_prov_wifi_config_deinit wc e = (wc', e') → wifi_step n (wc, e) (wc', e')
| ws_request inbuf wc e rc out wc' e' : wc_cb_registered wc = true →
    network_prov_wifi_config_handler inbuf wc e = (rc, out, wc', e') →
    wifi_step n (wc, e) (wc', e')
| ws_apply ssid sl psk pl wc e rc wc' e' : wc_cb_registered wc = true → 0 <= sl → 0 <= pl →
    network_prov_wifi_config_set_and_apply ssid sl psk pl wc e = (rc, wc', e') →
    wifi_step n (wc, e) (wc', e')
| ws_result st conn wc e wc' e' : wc_cb_registered wc = true →
    on_connect_result st conn wc e = (wc', e') → wifi_step n (wc, e) (wc', e')
| ws_retry wc e wc' e' : is_Some (k_work_pending (wc_retry_work wc)) →
    retry_work_handler (wc <| wc_retry_work := k_work_fire (wc_retry_work wc) |>) e = (wc', e') →
    wifi_step n (wc, e) (wc', e')
| ws_reset wc e : wc_cb_registered wc = true →
    wifi_step n (wc, e) (network_prov_wifi_config_reset wc, e)
| ws_env wc e e' : net_log e' = net_log e → wifi_step n (wc, e) (wc, e').

(** The attempt in flight, as the monitor sees it: the same credentials, still
    stored, and no more requests made than the counters say. *)
Definition attempt_matches (m : wifi_monitor) (wc : wc_t) : Prop :=
  ∃ c k, mo_live m = Some (c, k) ∧ params_of_cred c = inflight_params wc ∧
    (mo_lost m = false → mo_store m !! cr_ssid c = Some c) ∧ 0 <= k ∧
    k <= (match k_work_pending (wc_retry_work wc) with
          | Some _ => wc_attempts_completed wc
          | None => wc_attempts_completed wc + 1
          end).

Record wifi_inv (n : Z) (s : wc_t * E) : Prop := {
  wi_ok : mo_ok (monitor n (net_log s.2)) = true;
  wi_live : wc_inflight_ssid s.1 ≠ [] →
    attempt_matches (monitor n (net_log s.2)) s.1 ∧
    wc_sta_state s.1 = WifiStationState_Connecting ∧
    (0 < n → wc_attempts_completed s.1 < n);
  wi_off : wc_cb_registered s.1 = false → wc_inflight_ssid s.1 = [];
  wi_max : wc_cb_registered s.1 = true → wc_attempts_max s.1 = n;
  wi_count : 0 <= wc_attempts_completed s.1 <= n;
  wi_pending : is_Some (k_work_pending (wc_retry_work s.1)) → 0 < n;
  wi_failed : wc_cb_registered s.1 = true → wc_attempt_failed s.1 = true →
    wc_inflight_ssid s.1 ≠ [] ∧ 0 < wc_attempts_completed s.1;
  wi_report : wc_cb_registered s.1 = true →
    (wc_sta_state s.1 = WifiStationState_Connected →
       mo_live (monitor n (net_log s.2)) = None ∧ mo_outcome (monitor n (net_log s.2)) = Some true) ∧
    (wc_sta_state s.1 = WifiStationState_ConnectionFailed →
       mo_live (monitor n (net_log s.2)) = None ∧ mo_outcome (monitor n (net_log s.2)) = Some false);
  wi_bounds : blen (wc_ssid s.1) <= SSID_MAX ∧ blen (wc_pass s.1) <= PASS_MAX ∧
    length (wc_bssid s.1) = WIFI_MAC_ADDR_LEN ∧
    blen (wc_inflight_ssid s.1) <= SSID_MAX ∧ blen (wc_inflight_pass s.1) <= PASS_MAX ∧
    length (wc_inflight_bssid s.1) = WIFI_MAC_ADDR_LEN;
}.

(** What closing an attempt needs: it is open for the snapshot's network. *)
Definition attempt_open (m : wifi_monitor) (ssid : bytes) : Prop :=
  ∃ c k, mo_live m = Some (c, k) ∧ cr_ssid c = ssid ∧
    (mo_lost m = false → mo_store m !! ssid = Some c).

Lemma attempt_matches_open m wc : attempt_matches m wc → attempt_open m (wc_inflight_ssid wc).
Proof.
  intros (c & k & Hl & Hp & Hs & _). exists c, k. apply (f_equal cp_ssid) in Hp. cbn in Hp.
  rewrite <- Hp. done.
Qed.

(** Everything of the invariant but the attempt itself. *)
Record wifi_frame (n : Z) (wc : wc_t) : Prop := {
  wf_cb : wc_cb_registered wc = true;
  wf_max : wc_attempts_max wc = n;
  wf_count : 0 <= wc_attempts_completed wc <= n;
  wf_pending : is_Some (k_work_pending (wc_retry_work wc)) → 0 < n;
  wf_bounds : blen (wc_ssid wc) <= SSID_MAX ∧ blen (wc_pass wc) <= PASS_MAX ∧
    length (wc_bssid wc) = WIFI_MAC_ADDR_LEN ∧
    blen (wc_inflight_ssid wc) <= SSID_MAX ∧ blen (wc_inflight_pass wc) <= PASS_MAX ∧
    length (wc_inflight_bssid wc) = WIFI_MAC_ADDR_LEN;
}.

Lemma wifi_inv_frame n wc (e : E) :
  wifi_inv n (wc, e) → wc_cb_registered wc = true → wifi_frame n wc.
Proof. intros [] Hcb. split; cbn in *; auto. Qed.

Lemma final_failure_inv n wc (e : E) wc' e' :
  wifi_frame n wc → mo_ok (monitor n (net_log e)) = true →
  attempt_open (monitor n (net_log e)) (wc_inflight_ssid wc) →
  final_failure wc e = (wc', e') →
  wifi_inv n (wc', e') ∧ wc_inflight_ssid wc' = [] ∧
  wc_sta_state wc' = WifiStationState_ConnectionFailed.
Proof.
  intros [Hcb Hmax Hcnt Hp Hb] Hok (c & k & Hl & Hs & Hst) Hrun. unfold final_failure in Hrun.
  destruct (wc_last_conn_status _ =? _); simplify_eq; (split; [|done]); split; cbn; try done;
    try (by intros; lia);
    rewrite ?emit_event_log, ?cred_delete_log, ?monitor_snoc; cbn;
    unfold mon_close; cbn; rewrite ?Hl; cbn.
  all: try (rewrite Hok, Hs, lookup_delete_eq; done).
  all: try done.
  all: try (destruct Hb as (?&?&?&?&?&?); split_and!; try done).
  all: intros; split; intros; done.
Qed.

Lemma on_connect_result_inv n st conn wc (e : E) wc' e' :
  n <= UINT32_MAX → wifi_inv n (wc, e) → wc_cb_registered wc = true →
  on_connect_result st conn wc e = (wc', e') → wifi_inv n (wc', e').
Proof.
  intros Hn Hinv Hcb Hrun. pose proof (wifi_inv_frame _ _ _ Hinv Hcb) as Hf.
  unfold on_connect_result in Hrun.
  destruct (blen (wc_inflight_ssid wc) =? 0) eqn:Hlen; breflect; [by simplify_eq|].
  assert (Hne : wc_inflight_ssid wc ≠ []) by (intros Hnil; rewrite Hnil in Hlen; done).
  destruct (wi_live _ _ Hinv Hne) as (Hm & Hsta & Hlt). cbn in *.
  pose proof (attempt_matches_open _ _ Hm) as Ho.
  pose proof (wi_ok _ _ Hinv) as Hok. cbn in Hok.
  destruct Hf as [_ Hmax Hcnt Hp Hb].
  destruct (st =? 0); [|destruct (0 <? wc_attempts_max wc) eqn:Hpos; breflect].
  - destruct Ho as (c & k & Hl & Hs & Hst). simplify_eq. split; cbn; try done;
      rewrite ?emit_event_log, ?monitor_snoc; cbn; unfold mon_close; rewrite ?Hl; cbn.
    + rewrite Hok, Hs. destruct (mo_lost _); [by rewrite orb_true_r|].
      by rewrite Hst, bool_decide_true.
    + done.
    + destruct Hb as (?&?&?&?&?&?); split_and!; done.
  - rewrite Hmax in *. assert (Hu : u32 (wc_attempts_completed wc + 1) = wc_attempts_completed wc + 1).
    { unfold u32. rewrite Z.mod_small; [done|]. unfold UINT32_MAX in *. lia. }
    cbn in Hrun. rewrite Hu in Hrun.
    destruct (wc_attempts_completed wc + 1 <? n) eqn:Hlt2; breflect.
    + simplify_eq. split; cbn; try done; try (by intros; lia); try (intros; congruence).
      * intros _. split; [|by split]. destruct Hm as (c & k & Hl & Hpar & Hst & Hk0 & Hk).
        exists c, k. cbn. split_and!; [done..|]. rewrite k_work_pending_schedule.
        by destruct (k_work_pending (wc_retry_work wc)); lia.
      * intros; split; [done|lia].
    + apply (final_failure_inv n) in Hrun; [by destruct Hrun| |done|done].
      split; cbn; try done. lia.
  - apply (final_failure_inv n) in Hrun; [by destruct Hrun| |done|done].
    split; cbn; done.
Qed.

Lemma connect_log wc (e : E) rc e' :
  connect_from_inflight wc e = (rc, e') →
  (net_log e' = net_log e ∧ rc ≠ 0) ∨
  ∃ i, net_log e' = net_log e ++ [A_wifi_connect i (inflight_params wc) rc].
Proof.
  unfold connect_from_inflight. destruct (wifi_iface e); intros Hc; [|by simplify_eq; left].
  right. eexists. by apply wifi_connect_log.
Qed.

(** The monitor accepts a connect from the snapshot while the budget lasts. *)
Lemma mon_connect n m i wc rc c k :
  mo_live m = Some (c, k) → params_of_cred c = inflight_params wc → k < Z.max 1 n →
  mon_step n m (A_wifi_connect i (inflight_params wc) rc) = m <| mo_live := Some (c, k + 1) |>.
Proof.
  intros Hl Hp Hk. apply Z.ltb_lt in Hk. cbn. rewrite Hl, Hp, Hk, bool_decide_true by done.
  by destruct m as [? ? ? ? ? []].
Qed.

Lemma retry_inv n wc (e : E) wc' e' :
  wifi_inv n (wc, e) → is_Some (k_work_pending (wc_retry_work wc)) →
  retry_work_handler (wc <| wc_retry_work := k_work_fire (wc_retry_work wc) |>) e = (wc', e') →
  wifi_inv n (wc', e').
Proof.
  intros Hinv Hpend Hrun. set (w1 := wc <| wc_retry_work := _ |>) in Hrun.
  assert (Hw1 : k_work_pending (wc_retry_work w1) = None) by apply k_work_pending_fire.
  pose proof (wi_pending _ _ Hinv Hpend) as Hn.
  unfold retry_work_handler in Hrun. destruct (blen _ =? 0) eqn:Hlen; breflect.
  - simplify_eq. assert (Hnil : wc_inflight_ssid wc = []) by (by apply blen_0).
    destruct Hinv as [A1 A2 A3 A4 A5 A6 A7 A8 A9]. split; cbn in *; try done.
  - assert (Hne : wc_inflight_ssid wc ≠ []) by (intros Hnil; cbn in Hlen; by rewrite Hnil in Hlen).
    destruct (wi_live _ _ Hinv Hne) as ((c & k & Hl & Hp & Hst & Hk0 & Hk) & Hsta & Hlt). cbn in *.
    destruct Hpend as [d Hd]. rewrite Hd in Hk.
    assert (Hcb : wc_cb_registered wc = true).
    { destruct (wc_cb_registered wc) eqn:Hcb; [done|]. exfalso. apply Hne. exact (wi_off _ _ Hinv Hcb). }
    pose proof (wifi_inv_frame _ _ _ Hinv Hcb) as [_ Hmax Hcnt Hpp Hb].
    pose proof (wi_ok _ _ Hinv) as Hok. cbn in Hok.
    destruct (connect_from_inflight w1 e) as [rc e1] eqn:Hc.
    assert (Hm1 : mo_ok (monitor n (net_log e1)) = true ∧
      mo_store (monitor n (net_log e1)) = mo_store (monitor n (net_log e)) ∧
      mo_lost (monitor n (net_log e1)) = mo_lost (monitor n (net_log e)) ∧
      ∃ k', mo_live (monitor n (net_log e1)) = Some (c, k') ∧ 0 <= k' <= wc_attempts_completed wc + 1).
    { apply connect_log in Hc as [[-> _]|[i ->]].
      - split_and!; try done. exists k. split; [done|lia].
      - rewrite monitor_snoc, (mon_connect _ _ _ _ _ c k); [|done|exact Hp|lia]. cbn.
        split_and!; try done. exists (k + 1). split; [done|lia]. }
    destruct Hm1 as (Hok1 & Hst1 & Hlo1 & k' & Hl1 & Hk').
    assert (Hs : cr_ssid c = wc_inflight_ssid wc) by apply (f_equal cp_ssid Hp).
    destruct (rc =? 0); cbn in Hrun.
    + simplify_eq. split; cbn; try done; try (intros; congruence).
      * intros _. split; [|by split]. exists c, k'. cbn. rewrite Hl1, Hst1, Hlo1, k_work_pending_fire.
        split_and!; try done; lia.
      * apply Hinv.
      * intros _. split; intros Hs'; rewrite Hsta in Hs'; discriminate Hs'.
    + apply (final_failure_inv n) in Hrun; [by destruct Hrun| |done|].
      * split; cbn; try done.
      * exists c, k'. rewrite Hl1, Hst1, Hlo1. cbn. rewrite <- Hs. done.
Qed.

Lemma set_config_inv n cmd wc (e : E) st wc' :
  wifi_inv n (wc, e) → do_set_config cmd wc = (st, wc') → wifi_inv n (wc', e).
Proof.
  intros Hinv. unfold do_set_config.
  destruct ((blen (sw_ssid cmd) =? 0) || (SSID_MAX <? blen (sw_ssid cmd))) eqn:H1; [by intros ?; simplify_eq|].
  destruct (PASS_MAX <? blen (sw_passphrase cmd)) eqn:H2; [by intros ?; simplify_eq|].
  breflect. intros ?; simplify_eq. destruct Hinv as [A1 A2 A3 A4 A5 A6 A7 A8 A9].
  split; cbn in *; try done. destruct A9 as (?&?&?&?&?&?). split_and!; try done.
  destruct (blen (sw_bssid cmd) =? _) eqn:Hb; breflect; [unfold blen in Hb; lia|done].
Qed.

Lemma reset_inv n wc (e : E) :
  0 <= n → wifi_inv n (wc, e) → wifi_inv n (network_prov_wifi_config_reset wc, e).
Proof.
  intros Hn [A1 A2 A3 A4 A5 A6 A7 A8 A9]. split; cbn in *; try done; try lia.
  - rewrite k_work_pending_cancel. by intros [].
  - destruct A9 as (?&?&?&?&?&?). split_and!; done.
Qed.

Lemma deinit_inv n wc (e : E) wc' e' :
  wifi_inv n (wc, e) → network_prov_wifi_config_deinit wc e = (wc', e') → wifi_inv n (wc', e').
Proof.
  intros [A1 A2 A3 A4 A5 A6 A7 A8 A9]. unfold network_prov_wifi_config_deinit. cbn in *.
  destruct (wc_cb_registered wc) eqn:Hcb; intros ?; simplify_eq; split; cbn; try done;
    rewrite ?cb_del_log, ?monitor_snoc, ?k_work_pending_cancel; cbn; try done; try (by intros []);
    try (destruct A9 as (?&?&?&?&?&?); split_and!; done); intros; congruence.
Qed.

Lemma init_inv n wc (e : E) rc wc' e' :
  0 <= n → wifi_inv n (wc, e) → wc_cb_registered wc = false →
  network_prov_wifi_config_init n wc e = (rc, wc', e') → wifi_inv n (wc', e').
Proof.
  intros Hn [A1 A2 A3 A4 A5 A6 A7 A8 A9] Hcb. unfold network_prov_wifi_config_init. cbn in *.
  rewrite Hcb. cbn. intros ?; simplify_eq. split; cbn;
    rewrite ?cb_add_log, ?monitor_snoc, ?k_work_pending_init; cbn; try done; try lia;
    rewrite ?A3 by done; try done.
Qed.

(** The history of a successful store, with the CRED_RECV that follows it. *)
Lemma mon_store n m s c :
  mo_ok m = true → cr_ssid c = s →
  mon_step n (mon_step n (mon_step n m (A_cred_delete s)) (A_cred_set c 0))
    (A_emit NETWORK_PROV_CRED_RECV) =
  mk_mon (<[s := c]> (delete s (mo_store m))) (Some c) (Some (c, 0)) None false true.
Proof. intros Hok <-. cbn. rewrite Hok. done. Qed.

Lemma snapshot_params wc :
  params_of_cred (staged_cred wc) = inflight_params (snapshot wc).
Proof. unfold params_of_cred, inflight_params. cbn. by destruct (wc_has_bssid wc). Qed.

(** The frame of the snapshot: a fresh budget and no retry queued. *)
Lemma snapshot_frame n wc :
  0 <= n → wifi_frame n wc → wifi_frame n (snapshot wc) ∧
  k_work_pending (wc_retry_work (snapshot wc)) = None.
Proof.
  intros Hn [Hcb Hmax Hcnt Hp Hb]. split; [|apply k_work_pending_cancel].
  split; cbn; try done. { rewrite k_work_pending_cancel. by intros []. }
  destruct Hb as (?&?&?&?&?&?). split_and!; try done. by destruct (wc_has_bssid wc).
Qed.

(** A live snapshot restores the invariant. *)
Lemma live_inv n wc (e : E) c k :
  wifi_frame n wc → mo_ok (monitor n (net_log e)) = true →
  mo_live (monitor n (net_log e)) = Some (c, k) → params_of_cred c = inflight_params wc →
  (mo_lost (monitor n (net_log e)) = false → mo_store (monitor n (net_log e)) !! cr_ssid c = Some c) →
  wc_sta_state wc = WifiStationState_Connecting → wc_attempt_failed wc = false →
  k_work_pending (wc_retry_work wc) = None →
  wc_attempts_completed wc = 0 → 0 <= k <= 1 → wifi_inv n (wc, e).
Proof.
  intros [Hcb Hmax Hcnt Hp Hb] Hok Hl Hpar Hst Hsta Haf Hpend Hcmp Hk.
  split; cbn; try done; try (intros; congruence).
  - intros _. split; [|split; [done|lia]]. exists c, k. rewrite Hpend. split_and!; try done; lia.
  - intros _. rewrite Hsta. done.
Qed.

Lemma recv_monitor n wc (e e1 : E) ret :
  mo_ok (monitor n (net_log e)) = true → ret = 0 →
  wifi_credentials_set_personal (staged_cred wc)
    (wifi_credentials_delete_by_ssid (wc_ssid wc) e) = (ret, e1) →
  monitor n (net_log (network_prov_emit_event NETWORK_PROV_CRED_RECV e1)) =
    mk_mon (<[wc_ssid wc := staged_cred wc]> (delete (wc_ssid wc) (mo_store (monitor n (net_log e)))))
      (Some (staged_cred wc)) (Some (staged_cred wc, 0)) None false true.
Proof.
  intros Hok -> Hset. apply cred_set_log in Hset. rewrite cred_delete_log in Hset.
  rewrite emit_event_log, Hset, !monitor_snoc. apply mon_store; done.
Qed.

Lemma apply_connect_monitor n wc (e e1 : E) rc st :
  monitor n (net_log e) = mk_mon st (Some (staged_cred wc)) (Some (staged_cred wc, 0)) None false true →
  connect_from_inflight (snapshot wc) e = (rc, e1) →
  ∃ k, 0 <= k <= 1 ∧ monitor n (net_log e1) =
    mk_mon st (Some (staged_cred wc)) (Some (staged_cred wc, k)) None false true.
Proof.
  intros Hm Hc. apply connect_log in Hc as [[-> Hrc]|[j Hlog]].
  - exists 0. split; [lia|done].
  - exists 1. split; [lia|]. rewrite Hlog, monitor_snoc, Hm.
    rewrite (mon_connect _ _ _ _ _ (staged_cred wc) 0); [done|done|apply snapshot_params|lia].
Qed.

(** A connect the network stack refuses at once closes the attempt. *)
Lemma refused_inv n wc (e : E) st c k :
  wifi_frame n wc → cr_ssid c = wc_ssid wc →
  monitor n (net_log e) = mk_mon st (Some c) (Some (c, k)) None false true →
  wifi_inv n
    (clear_inflight (wc <| wc_sta_state := WifiStationState_ConnectionFailed |>
                        <| wc_fail_reason := WifiConnectFailedReason_AuthError |>
                        <| wc_attempt_failed := false |>),
     network_prov_emit_event (NETWORK_PROV_CRED_FAIL NETWORK_PROV_WIFI_AUTH_ERROR)
       (wifi_credentials_delete_by_ssid (wc_ssid wc) e)).
Proof.
  intros [Hcb Hmax Hcnt Hp Hb] Hc Hm.
  assert (Hmon : monitor n (net_log (network_prov_emit_event
      (NETWORK_PROV_CRED_FAIL NETWORK_PROV_WIFI_AUTH_ERROR)
      (wifi_credentials_delete_by_ssid (wc_ssid wc) e))) =
    mk_mon (delete (wc_ssid wc) st) (Some c) None (Some false) false true).
  { rewrite emit_event_log, cred_delete_log, !monitor_snoc, Hm. cbn. unfold mon_close. cbn.
    by rewrite Hc, lookup_delete_eq. }
  split; cbn [fst snd]; rewrite ?Hmon; try done.
  destruct Hb as (?&?&?&?&?&?). cbn. split_and!; done.
Qed.

Lemma apply_inv n wc (e : E) st wc' e' :
  0 <= n → wifi_inv n (wc, e) → wc_cb_registered wc = true →
  do_apply_config wc e = (st, wc', e') → wifi_inv n (wc', e').
Proof.
  intros Hn Hinv Hcb. pose proof (wifi_inv_frame _ _ _ Hinv Hcb) as Hf.
  pose proof (wi_ok _ _ Hinv) as Hok. cbn in Hok.
  unfold do_apply_config. destruct (wifi_iface e) as [i|]; [|by intros ?; simplify_eq].
  destruct (wifi_credentials_set_personal _ _) as [ret e2] eqn:Hset.
  destruct (ret =? 0) eqn:Hret; cbn [negb].
  2:{ intros ?; simplify_eq. apply cred_set_log in Hset. rewrite cred_delete_log in Hset.
      destruct Hinv as [A1 A2 A3 A4 A5 A6 A7 A8 A9]. split; cbn in *; try done;
        rewrite Hset, !monitor_snoc; cbn; rewrite Hret; cbn; try done.
      intros Hne. destruct (A2 Hne) as ((c & k & Hl & Hp & _ & Hk) & Hsta). split; [|done].
      exists c, k. cbn. done. }
  apply Z.eqb_eq in Hret. pose proof (recv_monitor n wc e e2 ret Hok Hret Hset) as Hm3.
  destruct (snapshot_frame n wc Hn Hf) as [Hf1 Hpend].
  destruct (connect_from_inflight _ _) as [rc e4] eqn:Hc.
  destruct (apply_connect_monitor _ _ _ _ _ _ Hm3 Hc) as (k & Hk & Hm4).
  destruct (rc =? 0); cbn [negb]; intros Heq; injection Heq as _ <- <-.
  - eapply (live_inv n _ _ (staged_cred wc) k); try rewrite Hm4; try done.
    + apply snapshot_params.
    + intros _. apply lookup_insert_eq.
  - exact (refused_inv n (snapshot wc) e4 _ (staged_cred wc) k Hf1 eq_refl Hm4).
Qed.

Lemma handler_state inbuf wc (e : E) rc out wc' e' :
  network_prov_wifi_config_handler inbuf wc e = (rc, out, wc', e') →
  ∃ e1, net_log e' = net_log e1 ∧
    ((wc' = wc ∧ e1 = e) ∨ (∃ cmd st, do_set_config cmd wc = (st, wc') ∧ e1 = e) ∨
     ∃ st, do_apply_config wc e = (st, wc', e1)).
Proof.
  unfold network_prov_wifi_config_handler.
  destruct (pb_decode inbuf) as [req|]; [|intros ?; simplify_eq; eauto 6].
  destruct (cfg_msg req =? TypeCmdSetWifiConfig); [|destruct (cfg_msg req =? TypeCmdApplyWifiConfig);
    [|destruct (cfg_msg req =? TypeCmdGetWifiStatus); [|intros ?; simplify_eq; eauto 6]]].
  - destruct (do_set_config _ wc) as [s w1] eqn:Hs. unfold encode_simple.
    pose proof (pb_encode_log (simple_resp TypeRespSetWifiConfig s) e) as Hlog.
    destruct (network_prov_pb_encode _ _) as [[r o] e2]. intros ?; simplify_eq. eauto 10.
  - destruct (do_apply_config wc e) as [[s w1] e1] eqn:Hs. unfold encode_simple.
    pose proof (pb_encode_log (simple_resp TypeRespApplyWifiConfig s) e1) as Hlog.
    destruct (network_prov_pb_encode _ _) as [[r o] e2]. intros ?; simplify_eq. eauto 10.
  - unfold encode_get_status. pose proof (pb_encode_log (get_status_resp wc e) e) as Hlog.
    destruct (network_prov_pb_encode _ _) as [[r o] e2]. intros ?; simplify_eq. eauto 10.
Qed.

Lemma wifi_inv_monitor n wc (e e' : E) :
  monitor n (net_log e') = monitor n (net_log e) → wifi_inv n (wc, e) → wifi_inv n (wc, e').
Proof. intros Hl []. split; cbn in *; rewrite ?Hl; auto. Qed.
Lemma wifi_inv_log n wc (e e' : E) :
  net_log e' = net_log e → wifi_inv n (wc, e) → wifi_inv n (wc, e').
Proof. intros Hl. apply wifi_inv_monitor. by rewrite Hl. Qed.

Lemma set_and_apply_inv n ssid sl psk pl wc (e : E) rc wc' e' :
  0 <= n → 0 <= sl → 0 <= pl → wifi_inv n (wc, e) → wc_cb_registered wc = true →
  network_prov_wifi_config_set_and_apply ssid sl psk pl wc e = (rc, wc', e') →
  wifi_inv n (wc', e').
Proof.
  intros Hn Hsl Hpl Hinv Hcb Hrun. unfold network_prov_wifi_config_set_and_apply in Hrun.
  destruct ssid as [s|]; [|by simplify_eq].
  destruct ((sl =? 0) || (SSID_MAX <? sl)) eqn:H1; [by simplify_eq/=|].
  destruct (PASS_MAX <? pl) eqn:H2; [by simplify_eq/=|].
  cbn in Hrun. destruct ((0 <? pl) && _); [by simplify_eq|]. breflect.
  match type of Hrun with context [do_apply_config ?w e] => set (w1 := w) in Hrun end.
  destruct (do_apply_config w1 e) as [[st w2] e2] eqn:Ha. simplify_eq.
  refine (apply_inv n w1 e _ _ _ Hn _ Hcb Ha).
  destruct Hinv as [A1 A2 A3 A4 A5 A6 A7 A8 A9]. split; cbn in *; try done.
  destruct A9 as (?&?&?&?&?&?). split_and!; try done.
  - unfold blen. rewrite length_take. unfold SSID_MAX in *. lia.
  - unfold blen in *. destruct (0 <? pl); [rewrite length_take|cbn]; unfold PASS_MAX in *; lia.
Qed.

Lemma wifi_step_inv n s s' :
  0 <= n <= UINT32_MAX → wifi_step n s s' → wifi_inv n s → wifi_inv n s'.
Proof.
  intros Hn Hstep Hinv. destruct Hstep as
    [wc e wc' e' Hoff Hr|wc e wc' e' Hr|inbuf wc e rc out wc' e' Hcb Hr|
     ssid sl psk pl wc e rc wc' e' Hcb Hsl Hpl Hr|st conn wc e wc' e' Hcb Hr|wc e wc' e' Hp Hr|
     wc e Hcb|wc e e' Hl].
  - eapply init_inv; [lia|done..].
  - by eapply deinit_inv.
  - apply handler_state in Hr as (e1 & Hl & Hcase). apply (wifi_inv_log _ _ _ _ Hl).
    destruct Hcase as [[-> ->]|[(cmd & st & Hr & ->)|[st Hr]]]; [done| |].
    + by eapply set_config_inv.
    + eapply apply_inv; [lia|done..].
  - eapply set_and_apply_inv; [lia| | | | |exact Hr]; done.
  - eapply on_connect_result_inv; [lia|done..].
  - by eapply retry_inv.
  - by apply reset_inv; [lia|].
  - by eapply wifi_inv_log.
Qed.

(** The application erases the store. *)
Lemma erase_inv n wc (e e' : E) rc :
  net_log e' = net_log e ++ [A_cred_delete_all rc] → wifi_inv n (wc, e) → wifi_inv n (wc, e').
Proof.
  intros Hl [A1 A2 A3 A4 A5 A6 A7 A8 A9]. split; cbn in *; try done; rewrite Hl, !monitor_snoc; cbn; try done.
  intros Hne. destruct (A2 Hne) as ((c & k & Hl' & Hp & _ & Hk) & Hsta). split; [|done]. by exists c, k.
Qed.

(** Only [init] and [deinit] change the registration of the callback. *)
Lemma final_failure_registered wc (e : E) : wc_cb_registered (final_failure wc e).1 = wc_cb_registered wc.
Proof. unfold final_failure. by destruct (_ =? _). Qed.
Lemma apply_registered wc (e : E) : wc_cb_registered (do_apply_config wc e).1.2 = wc_cb_registered wc.
Proof.
  unfold do_apply_config. destruct (wifi_iface e); [|done].
  destruct (wifi_credentials_set_personal _ _) as [ret e2]. destruct (negb (ret =? 0)); [done|].
  destruct (connect_from_inflight _ _) as [ret' e4]. by destruct (negb (ret' =? 0)).
Qed.
Lemma result_registered st conn wc (e : E) :
  wc_cb_registered (on_connect_result st conn wc e).1 = wc_cb_registered wc.
Proof.
  unfold on_connect_result. destruct (blen _ =? 0); [done|]. destruct (st =? 0); [done|].
  destruct (0 <? _); [|by rewrite final_failure_registered]. cbv zeta.
  destruct (_ <? _); [done|by rewrite final_failure_registered].
Qed.
Lemma retry_registered wc (e : E) : wc_cb_registered (retry_work_handler wc e).1 = wc_cb_registered wc.
Proof.
  unfold retry_work_handler. destruct (blen _ =? 0); [done|]. destruct (connect_from_inflight wc e) as [rc e1].
  destruct (negb (rc =? 0)); [apply final_failure_registered|done].
Qed.
Lemma set_apply_registered ssid sl psk pl wc (e : E) :
  wc_cb_registered (network_prov_wifi_config_set_and_apply ssid sl psk pl wc e).1.2 = wc_cb_registered wc.
Proof.
  unfold network_prov_wifi_config_set_and_apply. destruct ssid as [s|]; [|done]. destruct (_ || _); [done|].
  cbv zeta. match goal with |- context [do_apply_config ?w e] => pose proof (apply_registered w e) as Ha end.
  by destruct (do_apply_config _ e) as [[st wc2] e'].
Qed.
Lemma handler_registered inbuf wc (e : E) :
  wc_cb_registered (network_prov_wifi_config_handler inbuf wc e).1.2 = wc_cb_registered wc.
Proof.
  destruct (network_prov_wifi_config_handler inbuf wc e) as [[[rc out] wc'] e'] eqn:Hr.
  apply handler_state in Hr as (e1 & _ & [[-> _]|[(cmd & st & Hs & _)|[st Ha]]]); [done| |].
  - unfold do_set_config in Hs. by repeat case_match; simplify_eq.
  - pose proof (apply_registered wc e) as Hreg. by rewrite Ha in Hreg.
Qed.

Lemma wifi_zero_inv n (e : E) : 0 <= n → net_log e = [] → wifi_inv n (wc_zero, e).
Proof.
  intros Hn Hl. split; cbn; rewrite ?Hl, ?k_work_pending_init; try done.
Qed.

Lemma wifi_reachable_inv n (e0 : E) s :
  0 <= n <= UINT32_MAX → net_log e0 = [] → rtc (wifi_step n) (wc_zero, e0) s → wifi_inv n s.
Proof.
  intros Hn Hl Hr. assert (H0 : wifi_inv n (wc_zero, e0)) by (apply wifi_zero_inv; [lia|done]).
  revert H0. induction Hr as [|x y z Hs Hr IH]; [done|]. intros Hx. by eapply IH, wifi_step_inv.
Qed.

(** Whatever requests, results, retries, resets and restarts arrive in
    whatever order, the traffic with the outside conforms to the monitor: at most
    one terminal event per CRED_RECV and none without one; every connect request,
    first try or retry, carries exactly the credentials stored before the
    CRED_RECV; at most [max 1 n] requests per CRED_RECV; after CRED_FAIL the store
    has no entry for that SSID, after CRED_SUCCESS it still has the credentials
    unless writing to the store failed meanwhile. *)
Theorem wifi_history_conforms n (e0 e : E) wc :
  0 <= n <= UINT32_MAX → net_log e0 = [] → rtc (wifi_step n) (wc_zero, e0) (wc, e) →
  mo_ok (monitor n (net_log e)) = true.
Proof. intros Hn Hl Hr. exact (wi_ok _ _ (wifi_reachable_inv _ _ _ Hn Hl Hr)). Qed.

(** What a status report must agree with: the attempt the monitor saw closed last. *)
Definition report_agrees (n : Z) (m : wifi_monitor) (completed s : Z) (state : wifi_status_state) : Prop :=
  match state with
  | wstate_connected _ => s = WifiStationState_Connected ∧ mo_live m = None ∧ mo_outcome m = Some true
  | wstate_fail_reason _ => s = WifiStationState_ConnectionFailed ∧ mo_live m = None ∧ mo_outcome m = Some false
  | wstate_attempt_failed r => s = WifiStationState_Connecting ∧ 1 <= r <= n - 1 ∧ r = n - completed
  | wstate_none => s ≠ WifiStationState_Connected ∧ s ≠ WifiStationState_ConnectionFailed
  end.

Lemma status_agrees n (e : E) wc s state :
  n <= UINT32_MAX → wifi_inv n (wc, e) → wc_cb_registered wc = true →
  cfg_payload (get_status_resp wc e) = cfg_resp_get_wifi_status Status_Success s state →
  report_agrees n (monitor n (net_log e)) (wc_attempts_completed wc) s state.
Proof.
  intros Hn Hinv Hcb.
  destruct (wi_report _ _ Hinv Hcb) as [Hc Hf]. cbn in *. intros Heq. simplify_eq.
  destruct (wc_sta_state wc =? WifiStationState_Connected) eqn:H1; breflect; [by destruct (Hc H1)|].
  destruct (wc_sta_state wc =? WifiStationState_ConnectionFailed) eqn:H2; breflect; [by destruct (Hf H2)|].
  destruct (wc_sta_state wc =? WifiStationState_Connecting) eqn:H3; [|done].
  destruct (wc_attempt_failed wc) eqn:H4; [|done]. breflect. split; [done|].
  destruct (wi_failed _ _ Hinv Hcb H4) as [Hne Hpos].
  destruct (wi_live _ _ Hinv Hne) as (_ & _ & Hlt). pose proof (wi_count _ _ Hinv) as Hcnt.
  pose proof (wi_max _ _ Hinv Hcb) as Hmax. cbn in *.
  unfold network_prov_wifi_config_remaining_attempts, UINT32_MAX in *. rewrite Hmax.
  destruct (n <=? wc_attempts_completed wc) eqn:Hle; breflect; [lia|].
  unfold u32. rewrite Z.mod_small by lia. lia.
Qed.

(** The status report is truthful: it says Connected, or ConnectionFailed,
    only when the last attempt announced by CRED_RECV has been closed with
    CRED_SUCCESS, or CRED_FAIL; and the attempts remaining it reports while
    retrying are between 1 and n - 1, with no wrap-around. *)
Theorem wifi_status_truthful n (e0 e : E) wc s state :
  0 <= n <= UINT32_MAX → net_log e0 = [] → rtc (wifi_step n) (wc_zero, e0) (wc, e) →
  wc_cb_registered wc = true →
  cfg_payload (get_status_resp wc e) = cfg_resp_get_wifi_status Status_Success s state →
  report_agrees n (monitor n (net_log e)) (wc_attempts_completed wc) s state.
Proof.
  intros Hn Hl Hr. apply status_agrees; [lia|]. by eapply wifi_reachable_inv.
Qed.

(** The network stack answering: each connect result, and the retry it queues. *)
Definition round (st conn : Z) (wc : wc_t) (e : E) : wc_t * E :=
  let '(wc1, e1) := on_connect_result st conn wc e in
  match k_work_pending (wc_retry_work wc1) with
  | Some _ => retry_work_handler (wc1 <| wc_retry_work := k_work_fire (wc_retry_work wc1) |>) e1
  | None => (wc1, e1)
  end.

Fixpoint drive (results : list (Z * Z)) (wc : wc_t) (e : E) : wc_t * E :=
  match results with
  | [] => (wc, e)
  | (st, conn) :: rs => let '(wc1, e1) := round st conn wc e in drive rs wc1 e1
  end.

Lemma final_failure_closes wc (e : E) wc' e' :
  final_failure wc e = (wc', e') →
  wc_inflight_ssid wc' = [] ∧ wc_sta_state wc' = WifiStationState_ConnectionFailed.
Proof. unfold final_failure. destruct (_ =? _); intros ?; by simplify_eq. Qed.

Lemma retry_closed wc (e : E) :
  wc_inflight_ssid wc = [] → retry_work_handler wc e = (wc, e).
Proof. intros Hn. unfold retry_work_handler. by rewrite Hn. Qed.

Lemma result_closed st conn wc (e : E) :
  wc_inflight_ssid wc = [] → on_connect_result st conn wc e = (wc, e).
Proof. intros Hn. unfold on_connect_result. by rewrite Hn. Qed.

Lemma round_closed st conn wc (e : E) :
  wc_inflight_ssid wc = [] → ∃ wc', round st conn wc e = (wc', e) ∧
    wc_inflight_ssid wc' = [] ∧ wc_sta_state wc' = wc_sta_state wc.
Proof.
  intros Hn. unfold round. rewrite result_closed by done.
  case_match; [rewrite retry_closed by done|]; eauto.
Qed.

Lemma drive_closed rs wc (e : E) :
  wc_inflight_ssid wc = [] → ∃ wc', drive rs wc e = (wc', e) ∧
    wc_inflight_ssid wc' = [] ∧ wc_sta_state wc' = wc_sta_state wc.
Proof.
  revert wc. induction rs as [|[st conn] rs IH]; intros wc Hn; cbn -[round]; [eauto|].
  destruct (round_closed st conn wc e Hn) as (w1 & -> & Hn1 & <-). by apply IH.
Qed.

(** One round closes the attempt or uses up one of the attempts left. *)
Lemma round_progress n st conn wc (e : E) wc' e' :
  0 <= n <= UINT32_MAX → wc_attempts_max wc = n → 0 <= wc_attempts_completed wc →
  (0 < n → wc_attempts_completed wc < n) → wc_inflight_ssid wc ≠ [] → round st conn wc e = (wc', e') →
  (wc_inflight_ssid wc' = [] ∧
     (wc_sta_state wc' = WifiStationState_Connected ∧ st = 0 ∨
      wc_sta_state wc' = WifiStationState_ConnectionFailed ∧ st ≠ 0)) ∨
  (st ≠ 0 ∧ wc_inflight_ssid wc' = wc_inflight_ssid wc ∧ wc_attempts_max wc' = n ∧
   wc_attempts_completed wc' = wc_attempts_completed wc + 1 ∧ wc_attempts_completed wc + 1 < n).
Proof.
  intros Hn Hmax Hc Hltn Hne. unfold round, on_connect_result.
  destruct (blen (wc_inflight_ssid wc) =? 0) eqn:Hl; breflect; [by apply blen_0 in Hl|].
  destruct (st =? 0) eqn:Hst; breflect.
  { cbn. case_match; [rewrite retry_closed by done|]; intros ?; simplify_eq; eauto 6. }
  assert (Hfin : ∀ w, (let '(wc1, e1) := final_failure w e in
      match k_work_pending (wc_retry_work wc1) with
      | Some _ => retry_work_handler (wc1 <| wc_retry_work := k_work_fire (wc_retry_work wc1) |>) e1
      | None => (wc1, e1) end) = (wc', e') →
    wc_inflight_ssid wc' = [] ∧ wc_sta_state wc' = WifiStationState_ConnectionFailed).
  { intros w. destruct (final_failure w e) as [w1 e1] eqn:Hf. apply final_failure_closes in Hf as [H1 H2].
    case_match; [rewrite retry_closed by done|]; intros ?; by simplify_eq. }
  cbn -[final_failure retry_work_handler].
  destruct (0 <? wc_attempts_max wc) eqn:Hpos; breflect.
  2:{ intros [??]%Hfin. auto 6. }
  rewrite Hmax in *.
  rewrite (u32_small (wc_attempts_completed wc + 1)) by (unfold UINT32_MAX in *; lia).
  destruct (wc_attempts_completed wc + 1 <? n) eqn:Hlt; breflect.
  2:{ intros [??]%Hfin. auto 6. }
  cbn -[retry_work_handler]. case_match; [|intros ?; simplify_eq; right; by split_and!].
  unfold retry_work_handler. cbn -[connect_from_inflight].
  destruct (blen (wc_inflight_ssid wc) =? 0) eqn:Hl0; breflect; [done|].
  destruct (connect_from_inflight _ e) as [rc e1]. destruct (rc =? 0); cbn.
  - intros ?; simplify_eq. right. by split_and!.
  - intros Hf. apply final_failure_closes in Hf. left. by destruct Hf; auto.
Qed.

(** C12: An attempt always ends. Once an apply has put a snapshot in flight, as
    many connect results as attempts are left close it, in Connected only if one
    of them was a success and otherwise in ConnectionFailed, whatever the
    individual results and however the retries' own connect requests fare. *)
Theorem attempts_terminate n (e0 e : E) wc results :
  0 <= n <= UINT32_MAX → net_log e0 = [] → rtc (wifi_step n) (wc_zero, e0) (wc, e) →
  wc_inflight_ssid wc ≠ [] →
  Z.max 1 (n - wc_attempts_completed wc) <= blen results →
  ∃ wc' e', drive results wc e = (wc', e') ∧ wc_inflight_ssid wc' = [] ∧
    (wc_sta_state wc' = WifiStationState_Connected ∧ 0 ∈ map fst results ∨
     wc_sta_state wc' = WifiStationState_ConnectionFailed).
Proof.
  intros Hn Hl Hr Hne. pose proof (wifi_reachable_inv _ _ _ Hn Hl Hr) as Hinv.
  destruct (wi_live _ _ Hinv Hne) as (_ & _ & Hlt). pose proof (wi_count _ _ Hinv) as [Hc0 _].
  assert (Hcb : wc_cb_registered wc = true).
  { destruct (wc_cb_registered wc) eqn:Hcb; [done|]. destruct Hne. exact (wi_off _ _ Hinv Hcb). }
  pose proof (wi_max _ _ Hinv Hcb) as Hmax. cbn in *. clear Hinv Hcb Hr e0 Hl.
  revert wc e Hne Hlt Hc0 Hmax.
  induction results as [|[st conn] rs IH]; intros wc e Hne Hlt Hc0 Hmax Hlen; [unfold blen in Hlen; cbn [length] in Hlen; lia|].
  cbn -[round]. destruct (round st conn wc e) as [w1 e1] eqn:Hround.
  destruct (round_progress _ _ _ _ _ _ _ Hn Hmax Hc0 Hlt Hne Hround)
    as [[Hcl Hst]|(Hst & Hin & Hm1 & Hcm & Hcn)].
  - destruct (drive_closed rs w1 e1 Hcl) as (w2 & -> & Hcl2 & Hsta). exists w2, e1.
    split; [done|]. split; [done|]. rewrite Hsta. destruct Hst as [[-> ->]|[-> _]]; [left|by right].
    split; [done|]. left.
  - destruct (IH w1 e1) as (w2 & e2 & Hd & Hcl & Hst2); [by rewrite Hin|lia|lia|done| |].
    { unfold blen in *. cbn [length] in Hlen. lia. }
    exists w2, e2. split; [done|]. split; [done|].
    destruct Hst2 as [[? ?]|?]; [left|by right]. split; [done|]. by right.
Qed.


(** The last failure the budget allows goes to [final_failure]. *)
Lemma result_final st conn wc (e : E) :
  wc_inflight_ssid wc ≠ [] → st ≠ 0 → wc_attempts_max wc <= 1 → wc_attempts_completed wc = 0 →
  ∃ w, on_connect_result st conn wc e = final_failure w e ∧ wc_inflight_ssid w = wc_inflight_ssid wc.
Proof.
  intros Hne Hst Hmax Hcmp. unfold on_connect_result.
  destruct (blen (wc_inflight_ssid wc) =? 0) eqn:Hl; breflect; [by apply blen_0 in Hl|].
  destruct (st =? 0) eqn:Hz; breflect; [done|].
  cbn -[final_failure]. destruct (0 <? wc_attempts_max wc); [|by eexists].
  destruct (u32 (wc_attempts_completed wc + 1) <? wc_attempts_max wc) eqn:Hlt; [|by eexists].
  breflect. rewrite u32_small in Hlt by (unfold UINT32_MAX; lia). lia.
Qed.

Lemma final_failure_store n wc (e : E) wc' e' :
  final_failure wc e = (wc', e') →
  mo_store (monitor n (net_log e')) = delete (wc_inflight_ssid wc) (mo_store (monitor n (net_log e))).
Proof.
  unfold final_failure. destruct (_ =? _); intros ?; simplify_eq;
    rewrite emit_event_log, cred_delete_log, !monitor_snoc; cbn; unfold mon_close; cbn;
    by destruct (mo_live _) as [[]|].
Qed.

(** An accepted apply: what the store holds, and the state it leaves. *)
Lemma apply_accepted n wc (e : E) wc' e' :
  do_apply_config wc e = (Status_Success, wc', e') → wc_inflight_ssid wc' ≠ [] →
  wc' = snapshot wc ∧ mo_store (monitor n (net_log e')) =
    <[wc_ssid wc := staged_cred wc]> (delete (wc_ssid wc) (mo_store (monitor n (net_log e)))).
Proof.
  intros Hap Hl. unfold do_apply_config in Hap. destruct (wifi_iface e); [|done].
  destruct (wifi_credentials_set_personal _ _) as [ret e1] eqn:Hset.
  apply cred_set_log in Hset. rewrite cred_delete_log in Hset.
  destruct (ret =? 0) eqn:Hret; cbn [negb] in Hap; [|done].
  destruct (connect_from_inflight _ _) as [rc e4] eqn:Hcon.
  destruct (rc =? 0); cbn [negb] in Hap; injection Hap as <- <-; [|done]. split; [done|].
  assert (Hlog : mo_store (monitor n (net_log e4)) =
    mo_store (monitor n (net_log (network_prov_emit_event NETWORK_PROV_CRED_RECV e1)))).
  { apply connect_log in Hcon as [[-> _]|[i ->]]; [done|]. rewrite monitor_snoc. cbn.
    by destruct (mo_live _) as [[]|]. }
  rewrite Hlog, emit_event_log, Hset, !monitor_snoc. cbn. by rewrite Hret.
Qed.

(** An apply that replaces an attempt in flight leaves the replaced
    credentials in the store for good: if the network then refuses the new ones,
    only the new SSID is deleted, so credentials that never worked survive and
    nothing will delete them. *)
Theorem superseded_credentials_survive n (e1 e2 e3 : E) w1 w2 w3 c st conn :
  wc_attempts_max w1 <= 1 → wc_inflight_ssid w1 ≠ wc_ssid w1 →
  mo_store (monitor n (net_log e1)) !! wc_inflight_ssid w1 = Some c →
  do_apply_config w1 e1 = (Status_Success, w2, e2) → wc_inflight_ssid w2 ≠ [] →
  st ≠ 0 → on_connect_result st conn w2 e2 = (w3, e3) →
  wc_inflight_ssid w3 = [] ∧ wc_sta_state w3 = WifiStationState_ConnectionFailed ∧
  mo_store (monitor n (net_log e3)) !! wc_inflight_ssid w1 = Some c.
Proof.
  intros Hmax Hne Hc Hap Hl2 Hst Hres. destruct (apply_accepted n _ _ _ _ Hap Hl2) as [-> Hs].
  destruct (result_final st conn _ e2 Hl2 Hst) as (w & Hf & Hw); [exact Hmax|done|].
  rewrite Hf in Hres. destruct (final_failure_closes _ _ _ _ Hres) as [Hcl Hsta].
  apply (final_failure_store n) in Hres. do 2 (split; [done|]). rewrite Hres, Hw, Hs.
  by rewrite lookup_delete_ne, lookup_insert_ne, lookup_delete_ne by done.
Qed.

(** Storing the credentials is not atomic: a re-apply whose write to the store
    fails is answered with InternalError after the old entry was deleted, while
    the attempt in flight goes on; when the network then accepts it, CRED_SUCCESS
    is reported although the store no longer holds the credentials. *)
Theorem failed_store_loses_credentials n (e1 e2 e3 : E) w1 w2 w3 conn :
  wc_inflight_ssid w1 ≠ [] → wc_inflight_ssid w1 = wc_ssid w1 →
  do_apply_config w1 e1 = (Status_InternalError, w2, e2) → wifi_iface e1 ≠ None →
  on_connect_result 0 conn w2 e2 = (w3, e3) →
  wc_sta_state w3 = WifiStationState_Connected ∧
  (∃ l, net_log e3 = l ++ [A_emit NETWORK_PROV_CRED_SUCCESS]) ∧
  mo_store (monitor n (net_log e3)) !! wc_inflight_ssid w1 = None.
Proof.
  intros Hne Heq Hap Hif Hres. unfold do_apply_config in Hap.
  destruct (wifi_iface e1) as [i|]; [|done].
  destruct (wifi_credentials_set_personal _ _) as [ret e1'] eqn:Hset.
  apply cred_set_log in Hset. rewrite cred_delete_log in Hset.
  destruct (ret =? 0) eqn:Hret; cbn [negb] in Hap.
  { destruct (connect_from_inflight _ _) as [rc e4]. by destruct (rc =? 0). }
  simplify_eq. unfold on_connect_result in Hres.
  destruct (blen (wc_inflight_ssid w2) =? 0) eqn:Hl; breflect; [by apply blen_0 in Hl|].
  cbn in Hres. injection Hres as <- <-. split; [done|]. rewrite emit_event_log.
  split; [by eexists|]. rewrite Hset, !monitor_snoc. cbn. apply Z.eqb_neq in Hret. rewrite Hret. cbn.
  rewrite Heq. unfold mon_close. cbn. destruct (mo_live _) as [[]|]; cbn; apply lookup_delete_eq.
Qed.
End wifi_facts.
