(* ===== verification/WifiRace.v ===== *)
(** * WifiRace: a Wi-Fi retry that is running while the handler is torn down

    [retry_work_handler] runs on the system work queue, [network_prov_wifi_config_deinit]
    in the thread that stops the service, and k_work_cancel_delayable does not wait for
    a handler that has started. The teardown is the list of its stores; the retry is
    its test, its request and its failure path. *)
From S2P Require Import Prelude Platform PbUtil Messages NetEnv WifiConfig.

Section wifi_race.
Context {E : Type} `{HH : KHeap E} `{NL : NetLog E}.
Context `{EE : EmitEvent E} `{!EmitEventLaws E} `{WN : WifiNet E} `{!WifiNetLaws E}.
Context `{K : Kernel} `{!KernelLaws}.

Local Abbreviation wc_t := (wifi_cfg k_work_delayable).

(** ** The teardown, store by store *)
Definition clear_stores : list (wc_t → wc_t) :=
  [ fun wc => wc <| wc_inflight_ssid := replicate (length (wc_inflight_ssid wc)) 0 |>;
    fun wc => wc <| wc_inflight_ssid := [] |>;
    fun wc => wc <| wc_inflight_pass := replicate (length (wc_inflight_pass wc)) 0 |>;
    fun wc => wc <| wc_inflight_pass := [] |>;
    fun wc => wc <| wc_inflight_has_bssid := false |>;
    fun wc => wc <| wc_inflight_channel := 0 |> ].

Definition deinit_instrs : list (wc_t → E → wc_t * E) :=
  map (fun st wc e => (st wc, e)) clear_stores ++
  [ fun wc e => (wc <| wc_retry_work := k_work_cancel (wc_retry_work wc) |>, e);
    fun wc e => if wc_cb_registered wc then (wc <| wc_cb_registered := false |>, net_mgmt_del_event_callback e)
                else (wc, e) ].

(** ** The retry *)
Inductive retry_pc := RW_guard | RW_connect | RW_fail | RW_done.

Definition retry_instr (pc : retry_pc) (wc : wc_t) (e : E) : retry_pc * wc_t * E :=
  match pc with
  | RW_guard => (if blen (wc_inflight_ssid wc) =? 0 then RW_done else RW_connect, wc, e)
  | RW_connect =>
      let '(rc, e1) := connect_from_inflight wc e in (if negb (rc =? 0) then RW_fail else RW_done, wc, e1)
  | RW_fail => let '(wc1, e1) := final_failure wc e in (RW_done, wc1, e1)
  | RW_done => (RW_done, wc, e)
  end.

(** One after the other they are the functions of WifiConfig.v. *)
Lemma deinit_alone wc (e : E) :
  foldl (fun s i => i s.1 s.2) (wc, e) deinit_instrs = network_prov_wifi_config_deinit wc e.
Proof. reflexivity. Qed.

Lemma retry_alone wc (e : E) :
  (let '(p1, w1, e1) := retry_instr RW_guard wc e in
   let '(p2, w2, e2) := retry_instr p1 w1 e1 in retry_instr p2 w2 e2) =
  (RW_done, (retry_work_handler wc e).1, (retry_work_handler wc e).2).
Proof.
  unfold retry_work_handler. cbn [retry_instr]. destruct (blen _ =? 0); [done|]. cbn [retry_instr].
  destruct (connect_from_inflight wc e) as [rc e1]. destruct (rc =? 0); cbn [negb retry_instr fst snd]; [done|].
  by destruct (final_failure wc e1) as [w2 e2].
Qed.

(** ** Interleaved *)
Record wrace := mk_wrace { wr_todo : list (wc_t → E → wc_t * E); wr_pc : retry_pc; wr_cfg : wc_t; wr_env : E }.

Inductive wrace_step : wrace → wrace → Prop :=
| wr_deinit i todo pc wc e wc' e' :
    i wc e = (wc', e') → wrace_step (mk_wrace (i :: todo) pc wc e) (mk_wrace todo pc wc' e')
| wr_retry todo pc wc e pc' wc' e' :
    retry_instr pc wc e = (pc', wc', e') → wrace_step (mk_wrace todo pc wc e) (mk_wrace todo pc' wc' e').

(** The attempt after the first [k] stores. *)
Definition cleared (k : nat) (wc : wc_t) : wc_t := foldl (fun w st => st w) wc (take k clear_stores).

(** What the retry did: everything but the handler's deregistration. *)
Definition not_dereg (a : net_action) : bool := match a with A_cb_del => false | _ => true end.
Definition retry_acts (l : list net_action) : list net_action := List.filter not_dereg l.

(** The attempt as the request and the failure path read it. *)
Definition attempt_of (wc : wc_t) :=
  (wc_inflight_ssid wc, wc_inflight_pass wc, wc_inflight_bssid wc, wc_inflight_has_bssid wc, wc_inflight_channel wc).

Lemma attempt_params (w1 w2 : wc_t) : attempt_of w1 = attempt_of w2 → inflight_params w1 = inflight_params w2.
Proof. unfold attempt_of, inflight_params. intros [= -> -> -> -> ->]. done. Qed.

Lemma store_attempt st (w1 w2 : wc_t) : st ∈ clear_stores → attempt_of w1 = attempt_of w2 →
  attempt_of (st w1) = attempt_of (st w2).
Proof.
  intros Hin. unfold clear_stores in Hin. rewrite !elem_of_cons in Hin. unfold attempt_of. intros [= H1 H2 H3 H4 H5].
  destruct Hin as [->|[->|[->|[->|[->|[->|Hin%not_elem_of_nil]]]]]]; cbn; rewrite ?H1, ?H2, ?H3, ?H4, ?H5; done.
Qed.

(** All clear: no store changes anything any more. *)
Lemma store_idle st (wc w : wc_t) : st ∈ clear_stores → attempt_of w = attempt_of (cleared 6 wc) →
  attempt_of (st w) = attempt_of w.
Proof.
  intros Hin Ha. change (attempt_of (cleared 6 wc)) with ([] : list Z, [] : list Z, wc_inflight_bssid wc, false, 0) in Ha.
  unfold clear_stores in Hin. rewrite !elem_of_cons in Hin. unfold attempt_of in *. injection Ha as H1 H2 H3 H4 H5.
  destruct Hin as [->|[->|[->|[->|[->|[->|Hin%not_elem_of_nil]]]]]]; cbn; rewrite ?H1, ?H2, ?H3, ?H4, ?H5; done.
Qed.

Lemma cleared_S k st (wc : wc_t) : clear_stores !! k = Some st → cleared (S k) wc = st (cleared k wc).
Proof. intros Hk. unfold cleared. by rewrite (take_S_r _ _ _ Hk), foldl_app. Qed.
Lemma cleared_all k (wc : wc_t) : (6 ≤ k)%nat → cleared k wc = cleared 6 wc.
Proof. intros Hk. unfold cleared. by rewrite !take_ge by (cbn; lia). Qed.

(** The failure path's own actions. *)
Definition failed_acts (s : bytes) (acts : list net_action) : Prop :=
  ∃ reason, acts = [A_cred_delete s; A_emit (NETWORK_PROV_CRED_FAIL reason)].

(** A request that was made, with its result, on the attempt as it was then. *)
Definition request_of (wc : wc_t) (acts : list net_action) (ok : bool) : Prop :=
  (acts = [] ∧ ok = false) ∨
  ∃ k i rc, (k ≤ 6)%nat ∧ acts = [A_wifi_connect i (inflight_params (cleared k wc)) rc] ∧ ok = (rc =? 0).

Definition acts_ok (wc : wc_t) (pc : retry_pc) (acts : list net_action) : Prop :=
  match pc with
  | RW_guard | RW_connect => acts = []
  | RW_fail => request_of wc acts false
  | RW_done =>
      acts = [] ∨ request_of wc acts true ∨
      ∃ k a1 a2, (k ≤ 6)%nat ∧ acts = a1 ++ a2 ∧ request_of wc a1 false ∧ failed_acts (wc_inflight_ssid (cleared k wc)) a2
  end.

(** After [k] instructions of the teardown; the failure path clears everything too. *)
Record wrace_inv (wc : wc_t) (e : E) (r : wrace) : Prop := {
  wi_at : ∃ k, wr_todo r = drop k deinit_instrs ∧ (k ≤ 8)%nat ∧
    (attempt_of (wr_cfg r) = attempt_of (cleared k wc) ∨ attempt_of (wr_cfg r) = attempt_of (cleared 6 wc)) ∧
    ((7 ≤ k)%nat → k_work_pending (wc_retry_work (wr_cfg r)) = None) ∧
    ((8 ≤ k)%nat → wc_cb_registered (wr_cfg r) = false);
  wi_acts : ∃ l, net_log (wr_env r) = net_log e ++ l ∧ acts_ok wc (wr_pc r) (retry_acts l);
}.

(** The next instruction of the teardown: a store, the cancel or the deregistration. *)
Lemma deinit_next k i todo : drop k deinit_instrs = i :: todo →
  todo = drop (S k) deinit_instrs ∧
  ((∃ st, clear_stores !! k = Some st ∧ ∀ wc e, i wc e = (st wc, e)) ∨
   (k = 6%nat ∧ ∀ wc e, i wc e = (wc <| wc_retry_work := k_work_cancel (wc_retry_work wc) |>, e)) ∨
   (k = 7%nat ∧ ∀ wc e, i wc e =
      if wc_cb_registered wc then (wc <| wc_cb_registered := false |>, net_mgmt_del_event_callback e) else (wc, e))).
Proof.
  do 8 (destruct k as [|k]; [cbn; intros [= <- <-]; (split; [done|]); eauto 6|]).
  rewrite drop_ge by (cbn; lia). done.
Qed.

Lemma acts_app (l1 l2 : list net_action) : retry_acts (l1 ++ l2) = retry_acts l1 ++ retry_acts l2.
Proof. apply List.filter_app. Qed.

Lemma at_store k (wc w : wc_t) st : clear_stores !! k = Some st →
  attempt_of w = attempt_of (cleared k wc) ∨ attempt_of w = attempt_of (cleared 6 wc) →
  attempt_of (st w) = attempt_of (cleared (S k) wc) ∨ attempt_of (st w) = attempt_of (cleared 6 wc).
Proof.
  intros Hk Ha. assert (Hin : st ∈ clear_stores) by (by eapply list_elem_of_lookup_2).
  destruct Ha as [Ha|Ha]; [left|right].
  - rewrite (cleared_S _ _ _ Hk). by apply store_attempt.
  - by rewrite (store_idle st wc w).
Qed.

Lemma deinit_step_inv wc (e : E) i todo pc w e1 w' e1' : i w e1 = (w', e1') →
  wrace_inv wc e (mk_wrace (i :: todo) pc w e1) → wrace_inv wc e (mk_wrace todo pc w' e1').
Proof.
  intros Hi [(k & Htodo & Hk & Ha & Hw & Hc) (l & Hl & Hacts)]. cbn [wr_todo wr_pc wr_cfg wr_env] in *.
  destruct (deinit_next k i todo (eq_sym Htodo)) as (-> & Hcase). split; cbn [wr_todo wr_pc wr_cfg wr_env].
  - exists (S k). split; [done|]. destruct Hcase as [(st & Hst & He)|[[-> He]|[-> He]]]; rewrite He in Hi.
    + injection Hi as <- <-. pose proof (lookup_lt_Some _ _ _ Hst) as Hlt. cbn in Hlt.
      split; [lia|]. split; [by apply at_store|]. split; intros; lia.
    + injection Hi as <- <-. split; [lia|]. split; [by destruct Ha; [left|right]|].
      split; [|lia]. intros _. apply k_work_pending_cancel.
    + split; [lia|]. specialize (Hw ltac:(lia)). destruct (wc_cb_registered w) eqn:Hcb; injection Hi as <- <-; auto.
  - destruct Hcase as [(st & Hst & He)|[[-> He]|[-> He]]]; rewrite He in Hi.
    1,2: injection Hi as <- <-; eauto.
    destruct (wc_cb_registered w); injection Hi as <- <-; [|eauto].
    exists (l ++ [A_cb_del]). split; [by rewrite cb_del_log, Hl, app_assoc|].
    by rewrite acts_app, app_nil_r.
Qed.

(** The attempt the retry finds is one the teardown has got to. *)
Lemma at_some k (wc w : wc_t) :
  attempt_of w = attempt_of (cleared k wc) ∨ attempt_of w = attempt_of (cleared 6 wc) →
  ∃ j, (j ≤ 6)%nat ∧ attempt_of w = attempt_of (cleared j wc).
Proof.
  intros [Ha|Ha]; [|by exists 6%nat]. destruct (decide (k ≤ 6)%nat); [by exists k|].
  exists 6%nat. by rewrite <- (cleared_all k) by lia.
Qed.

Lemma final_failure_does (w : wc_t) (e : E) : let r := final_failure w e in
  attempt_of r.1 = ([], [], wc_inflight_bssid w, false, 0) ∧ wc_retry_work r.1 = wc_retry_work w ∧
  wc_cb_registered r.1 = wc_cb_registered w ∧
  ∃ reason, net_log r.2 = net_log e ++ [A_cred_delete (wc_inflight_ssid w); A_emit (NETWORK_PROV_CRED_FAIL reason)].
Proof.
  unfold final_failure. destruct (_ =? _); cbn [fst snd]; (do 3 (split; [done|]));
    eexists; rewrite emit_event_log, cred_delete_log, <- app_assoc; done.
Qed.

Lemma cleared_bssid k (wc : wc_t) : wc_inflight_bssid (cleared k wc) = wc_inflight_bssid wc.
Proof. do 6 (destruct k as [|k]; [done|]). by rewrite cleared_all by lia. Qed.

Lemma retry_step_inv wc (e : E) todo pc w e1 pc' w' e1' : retry_instr pc w e1 = (pc', w', e1') →
  wrace_inv wc e (mk_wrace todo pc w e1) → wrace_inv wc e (mk_wrace todo pc' w' e1').
Proof.
  intros Hi [(k & Htodo & Hk & Ha & Hw & Hc) (l & Hl & Hacts)]. cbn [wr_todo wr_pc wr_cfg wr_env] in *.
  destruct (at_some _ _ _ Ha) as (j & Hj & Haj). destruct pc; cbn [retry_instr acts_ok] in *.
  - injection Hi as <- <- <-. split; [exists k; auto|]. exists l. split; [done|]. rewrite Hacts.
    by destruct (_ =? 0); [left|].
  - pose proof (connect_log w e1) as Hlog. destruct (connect_from_inflight w e1) as [rc e2]. injection Hi as <- <- <-.
    split; [exists k; auto|]. cbn [wr_env wr_pc]. destruct (Hlog rc e2 eq_refl) as [[He Hrc]|[i He]].
    + exists l. split; [congruence|]. rewrite Hacts. apply Z.eqb_neq in Hrc. rewrite Hrc. by left.
    + exists (l ++ [A_wifi_connect i (inflight_params w) rc]). split; [by rewrite He, Hl, app_assoc|].
      rewrite acts_app, Hacts, (attempt_params w (cleared j wc)) by done.
      destruct (rc =? 0) eqn:Hrc; cbn [negb acts_ok]; [right; left|]; right; exists j, i, rc; auto.
  - pose proof (final_failure_does w e1) as (Hf1 & Hf2 & Hf3 & reason & Hf4).
    destruct (final_failure w e1) as [w2 e2]. injection Hi as <- <- <-. cbn [fst snd] in *. split; cbn [wr_todo wr_pc wr_cfg wr_env].
    + exists k. split; [done|]. split; [done|]. rewrite Hf2, Hf3. split; [right|auto]. rewrite Hf1.
      unfold attempt_of in Haj. injection Haj as _ _ -> _ _. by rewrite cleared_bssid.
    + eexists. split; [by rewrite Hf4, Hl, <- app_assoc|]. rewrite acts_app. right. right.
      exists j. eexists _, _. split; [done|]. split; [done|]. split; [done|]. exists reason.
      unfold attempt_of in Haj. by injection Haj as -> _ _ _ _.
  - injection Hi as <- <- <-. split; [exists k; auto|]. by exists l.
Qed.

Lemma wrace_run_inv wc (e : E) r : rtc wrace_step (mk_wrace deinit_instrs RW_guard wc e) r → wrace_inv wc e r.
Proof.
  intros Hr. assert (Hi : wrace_inv wc e (mk_wrace deinit_instrs RW_guard wc e)).
  { split; [exists 0%nat; split; [done|]; split; [lia|]; split; [by left|split; lia]|].
    exists []. by rewrite app_nil_r. }
  remember (mk_wrace deinit_instrs RW_guard wc e) as x eqn:Hx. clear Hx.
  induction Hr as [|x y z [] _ IH]; [done|apply IH; by eapply deinit_step_inv|apply IH; by eapply retry_step_inv].
Qed.

Lemma deinit_first todo pc wc (e : E) :
  rtc wrace_step (mk_wrace todo pc wc e)
    (mk_wrace [] pc (foldl (fun s i => i s.1 s.2) (wc, e) todo).1 (foldl (fun s i => i s.1 s.2) (wc, e) todo).2).
Proof.
  revert wc e. induction todo as [|i todo IH]; intros wc e; cbn [foldl]; [done|].
  cbn [fst snd]. destruct (i wc e) as [wc1 e1] eqn:Hi. eapply rtc_l; [by apply wr_deinit|apply IH].
Qed.

(** C27: A teardown while a retry runs. However their instructions interleave, when the
    teardown is through no attempt is left, no retry is pending, the callback is gone,
    and the retry has done nothing beyond one request and, if it failed, one deletion
    and one CRED_FAIL; the request is the attempt with at most some of its fields
    already wiped. But a retry past its test is not stopped: it can issue its request
    after the whole teardown, and that request has an empty SSID and no passphrase. *)
Theorem retry_teardown_race wc e :
  (∀ pc w e1, rtc wrace_step (mk_wrace deinit_instrs RW_guard wc e) (mk_wrace [] pc w e1) →
     wc_inflight_ssid w = [] ∧ k_work_pending (wc_retry_work w) = None ∧ wc_cb_registered w = false ∧
     ∃ l, net_log e1 = net_log e ++ l ∧ acts_ok wc pc (retry_acts l)) ∧
  (∀ i, let '(w, e1) := network_prov_wifi_config_deinit wc e in
     wc_inflight_ssid wc ≠ [] → wifi_iface e1 = Some i →
     rtc wrace_step (mk_wrace deinit_instrs RW_guard wc e) (mk_wrace [] RW_connect w e1) ∧
     ∃ pc rc e2, wrace_step (mk_wrace [] RW_connect w e1) (mk_wrace [] pc w e2) ∧
       net_log e2 = net_log e1 ++ [A_wifi_connect i (mk_connect_params [] None WIFI_SECURITY_TYPE_NONE WIFI_CHANNEL_ANY None) rc]).
Proof.
  split.
  - intros pc w e1 Hr. destruct (wrace_run_inv _ _ _ Hr) as [(k & Htodo & Hk & Ha & Hw & Hc) Hacts].
    cbn [wr_todo wr_pc wr_cfg wr_env] in *. apply (f_equal length) in Htodo. rewrite length_drop in Htodo. cbn in Htodo.
    split; [|by split; [apply Hw; lia|split; [apply Hc; lia|]]].
    assert (Ha6 : attempt_of w = attempt_of (cleared 6 wc)) by (destruct Ha as [Ha|Ha]; rewrite Ha; [by rewrite (cleared_all k) by lia|done]).
    by injection Ha6.
  - intros i. pose proof (deinit_first deinit_instrs RW_connect wc e) as Hrun. rewrite deinit_alone in Hrun.
    assert (Hclr : inflight_params (network_prov_wifi_config_deinit wc e).1 =
      mk_connect_params [] None WIFI_SECURITY_TYPE_NONE WIFI_CHANNEL_ANY None).
    { unfold network_prov_wifi_config_deinit. by destruct (wc_cb_registered _). }
    destruct (network_prov_wifi_config_deinit wc e) as [w e1]. cbn [fst snd] in *. intros Hne Hif. split.
    + eapply rtc_l; [|exact Hrun]. apply wr_retry. cbn [retry_instr].
      destruct (blen _ =? 0) eqn:Hz; [|done]. breflect. destruct Hne. apply length_zero_iff_nil. unfold blen in Hz. lia.
    + destruct (wifi_connect i (inflight_params w) e1) as [rc e2] eqn:Hcon.
      assert (Hcf : connect_from_inflight w e1 = (rc, e2)) by (unfold connect_from_inflight; by rewrite Hif).
      exists (if negb (rc =? 0) then RW_fail else RW_done), rc, e2. split.
      * apply wr_retry. cbn [retry_instr]. by rewrite Hcf.
      * apply wifi_connect_log in Hcon. by rewrite Hcon, Hclr.
Qed.
End wifi_race.

(** ** A result that is late *)
Section late_result.
Context {E : Type} `{HH : KHeap E} `{NL : NetLog E} `{!NetHeapLaws E}.
Context `{EE : EmitEvent E} `{!EmitEventLaws E} `{WN : WifiNet E} `{!WifiNetLaws E}.
Context `{K : Kernel} `{!KernelLaws} `{PB : PbMsg NetworkConfigPayload} `{UV : UnionViews}.

(** A connect result names no attempt. The failure of an attempt that an apply has
    replaced is taken for the new one's: with a budget of one attempt it deletes the new
    credentials and reports their failure, and the success that follows is ignored. *)
Theorem late_failure_ends_new_attempt st conn w (e : E) w1 e1 w2 e2 :
  do_apply_config w e = (Status_Success, w1, e1) → wc_inflight_ssid w1 ≠ [] → wc_attempts_max w <= 1 →
  st ≠ 0 → on_connect_result st conn w1 e1 = (w2, e2) →
  (∃ reason, net_log e2 = net_log e1 ++ [A_cred_delete (wc_ssid w); A_emit (NETWORK_PROV_CRED_FAIL reason)]) ∧
  wc_sta_state w2 = WifiStationState_ConnectionFailed ∧
  ∀ conn', on_connect_result 0 conn' w2 e2 = (w2, e2).
Proof.
  intros Hap Hne Hmax Hst Hres. destruct (apply_accepted 1 _ _ _ _ Hap Hne) as [-> _].
  destruct (result_final st conn _ e1 Hne Hst) as (x & Hf & Hx); [exact Hmax|done|]. rewrite Hf in Hres.
  destruct (final_failure_does x e1) as (_ & _ & _ & Hlog). destruct (final_failure_closes _ _ _ _ Hres) as [Hcl Hsta].
  rewrite Hres, Hx in Hlog. split; [exact Hlog|]. split; [done|].
  intros conn'. unfold on_connect_result. by rewrite Hcl.
Qed.
End late_result.
