(* ===== verification/ScanPage.v ===== *)
(** * ScanPage: the pagination loop shared by both prov-scan endpoints

    [for (i = start; i < count && n < ARRAY_SIZE(out->entries) && n < want; i++)],
    the same in src/wifi_scan_handler.c and src/thread_scan_handler.c, and the
    client's walk over the pages. *)
From S2P Require Import Prelude Messages.

Section page.
Context {A B : Type} (copy : A → B).

(** [room] is [ARRAY_SIZE(out->entries) - n]; the result is what the loop
    appends from here on. *)
Fixpoint page_loop (entries : list A) (want : Z) (room : nat) (i n : Z) : list B :=
  match room with
  | O => []
  | S room' =>
      match entries !! Z.to_nat i with
      | Some x =>
          if (i <? blen entries) && (n <? want)
          then copy x :: page_loop entries want room' (i + 1) (n + 1)
          else []
      | None => []
      end
  end.

Definition scan_page (entries : list A) (start want : Z) : list B :=
  page_loop entries want SCAN_PAGE start 0.

(** A client fetching [want] at a time until a page comes back empty. *)
Fixpoint fetch_all (fuel : nat) (entries : list A) (start want : Z) : list B :=
  match fuel with
  | O => []
  | S fuel' =>
      match scan_page entries start want with
      | [] => []
      | page => page ++ fetch_all fuel' entries (start + blen page) want
      end
  end.

Lemma page_loop_spec entries want room i n :
  0 <= i →
  page_loop entries want room i n =
    copy <$> take (Nat.min room (Z.to_nat (want - n))) (drop (Z.to_nat i) entries).
Proof.
  revert i n. induction room as [|room IH]; intros i n Hi; [done|].
  cbn [page_loop]. destruct (entries !! Z.to_nat i) as [x|] eqn:Hx.
  - rewrite (drop_S _ _ _ Hx).
    assert (Hlt : i <? blen entries = true).
    { apply Z.ltb_lt. apply lookup_lt_Some in Hx. unfold blen. lia. }
    rewrite Hlt. cbn [andb]. destruct (n <? want) eqn:Hn; breflect.
    + rewrite IH by lia. replace (Z.to_nat (i + 1)) with (S (Z.to_nat i)) by lia.
      replace (Z.to_nat (want - n)) with (S (Z.to_nat (want - (n + 1)))) by lia. done.
    + by replace (Z.to_nat (want - n)) with O by lia.
  - apply lookup_ge_None in Hx. by rewrite drop_ge, take_nil by done.
Qed.

Lemma scan_page_spec entries start want :
  0 <= start →
  scan_page entries start want =
    copy <$> take (Nat.min SCAN_PAGE (Z.to_nat want)) (drop (Z.to_nat start) entries).
Proof. intros. unfold scan_page. rewrite page_loop_spec by done. by rewrite Z.sub_0_r. Qed.

Lemma fetch_all_spec fuel entries start want :
  0 <= start → 1 <= want → (length entries - Z.to_nat start < fuel)%nat →
  fetch_all fuel entries start want = copy <$> drop (Z.to_nat start) entries.
Proof.
  intros Hs Hw. revert start Hs. induction fuel as [|fuel IH]; intros start Hs Hf; [lia|].
  cbn [fetch_all]. rewrite scan_page_spec by done.
  set (k := Nat.min SCAN_PAGE (Z.to_nat want)).
  assert (Hk : (1 <= k)%nat) by (unfold k, SCAN_PAGE; lia).
  destruct (copy <$> take k (drop (Z.to_nat start) entries)) as [|y page] eqn:Hp.
  - apply fmap_nil_inv in Hp. destruct (drop (Z.to_nat start) entries); [done|].
    destruct k; [lia|done].
  - assert (Hl : length (y :: page) = Nat.min k (length entries - Z.to_nat start)).
    { rewrite <- Hp, length_fmap, length_take, length_drop. done. }
    rewrite <- Hp, IH; rewrite Hp; unfold blen; rewrite ?Hl; [|lia..|].
    + rewrite <- Hp, <- fmap_app. f_equal.
      replace (Z.to_nat (start + Z.of_nat (Nat.min k (length entries - Z.to_nat start))))
        with (Z.to_nat start + Nat.min k (length entries - Z.to_nat start))%nat by lia.
      rewrite <- drop_drop.
      destruct (decide (k <= length entries - Z.to_nat start)%nat).
      * rewrite Nat.min_l by done. by rewrite take_drop.
      * rewrite Nat.min_r by lia. rewrite take_ge by (rewrite length_drop; lia).
        rewrite (drop_ge (drop _ _)) by (rewrite length_drop; lia). by rewrite app_nil_r.
    + cbn [length] in Hl. lia.
Qed.
End page.
