(* ===== verification/WifiScan.v ===== *)
(** * WifiScan: the prov-scan endpoint for Wi-Fi (src/wifi_scan_handler.c)

    [sc.entries] is given by its first [sc.count] elements. A blocking request
    waits on a semaphore while net_mgmt events go on arriving: the events of the
    wait are an argument of the handler. *)
From S2P Require Import Prelude Platform PbUtil Messages NetEnv ScanPage.

Definition WIFI_SSID_MAX_LEN : nat := 32.

(** [struct wifi_scan_result], what an event carries. *)
Record wifi_scan_result := mk_wifi_scan_result {
  wsr_ssid : bytes; wsr_ssid_length : Z; wsr_mac : bytes; wsr_channel : Z; wsr_rssi : Z;
  wsr_security : wifi_security_type }.

#[export] Instance wifi_scan_result_eq_dec : EqDecision wifi_scan_result.
Proof. solve_decision. Defined.

Record scan_entry := mk_scan_entry {
  se_ssid : bytes; se_bssid : bytes; se_channel : Z; se_rssi : Z; se_auth : Z }.

(** [static struct { ... } sc] and [scan_done_sem]. *)
Record wifi_scan_st (Sem : Type) := mk_sc {
  sc_entries : list scan_entry;
  sc_finished : bool;
  sc_cb_registered : bool;
  sc_done_sem : Sem;
}.
Arguments mk_sc {_}.
Arguments sc_entries {_} _.
Arguments sc_finished {_} _.
Arguments sc_cb_registered {_} _.
Arguments sc_done_sem {_} _.
#[export] Instance wifi_scan_eta {S} : FieldEta (wifi_scan_st S) := fun r =>
  mk_sc (sc_entries r) (sc_finished r) (sc_cb_registered r) (sc_done_sem r).

Inductive wifi_scan_event :=
| NET_EVENT_WIFI_SCAN_RESULT (r : wifi_scan_result)
| NET_EVENT_WIFI_SCAN_DONE
| NET_EVENT_OTHER.

#[export] Instance wifi_scan_event_eq_dec : EqDecision wifi_scan_event.
Proof. solve_decision. Defined.

Definition auth_from_zephyr (sec : wifi_security_type) : Z :=
  match sec with
  | WIFI_SECURITY_TYPE_NONE => WifiAuthMode_Open
  | WIFI_SECURITY_TYPE_WEP => WifiAuthMode_WEP
  | WIFI_SECURITY_TYPE_PSK => WifiAuthMode_WPA2_PSK
  | WIFI_SECURITY_TYPE_PSK_SHA256 => WifiAuthMode_WPA2_PSK
  | WIFI_SECURITY_TYPE_SAE => WifiAuthMode_WPA3_PSK
  | WIFI_SECURITY_TYPE_WPA_PSK => WifiAuthMode_WPA_PSK
  | WIFI_SECURITY_TYPE_OTHER _ => WifiAuthMode_WPA2_PSK
  end.

Definition entry_of_result (r : wifi_scan_result) : scan_entry :=
  mk_scan_entry (take (Z.to_nat (Z.min (wsr_ssid_length r) (Z.of_nat WIFI_SSID_MAX_LEN))) (wsr_ssid r))
    (take WIFI_MAC_ADDR_LEN (wsr_mac r)) (wsr_channel r) (wsr_rssi r)
    (auth_from_zephyr (wsr_security r)).

Definition result_of_entry (e : scan_entry) : WiFiScanResult :=
  mk_wifi_result (se_ssid e) (se_channel e) (se_rssi e) (se_bssid e) (se_auth e).

Section wifi_scan.
Context {E : Type} `{KHeap E} `{NetLog E} `{WifiNet E} `{K : Kernel}.
Context `{PbMsg NetworkScanPayload} `{UnionViews}.
Context (SCAN_MAX_ENTRIES : nat).

Local Abbreviation sc_t := (wifi_scan_st k_sem).

Definition sc_zero : sc_t := mk_sc [] false false (k_sem_init 0 1).

Definition on_scan_result (r : wifi_scan_result) (sc : sc_t) : sc_t :=
  if (SCAN_MAX_ENTRIES <=? length (sc_entries sc))%nat then sc
  else sc <| sc_entries := sc_entries sc ++ [entry_of_result r] |>.

Definition mgmt_event (ev : wifi_scan_event) (sc : sc_t) : sc_t :=
  match ev with
  | NET_EVENT_WIFI_SCAN_RESULT r => on_scan_result r sc
  | NET_EVENT_WIFI_SCAN_DONE =>
      sc <| sc_finished := true |> <| sc_done_sem := k_sem_give (sc_done_sem sc) |>
  | NET_EVENT_OTHER => sc
  end.

Definition network_prov_wifi_scan_init (sc : sc_t) (e : E) : Z * sc_t * E :=
  if negb (sc_cb_registered sc)
  then (0, sc <| sc_cb_registered := true |>, net_mgmt_add_event_callback e)
  else (0, sc, e).

Definition network_prov_wifi_scan_deinit (sc : sc_t) (e : E) : sc_t * E :=
  if sc_cb_registered sc
  then (sc <| sc_cb_registered := false |>, net_mgmt_del_event_callback e)
  else (sc, e).

Definition do_scan_start (sc : sc_t) (e : E) : Z * sc_t * E :=
  match (match net_if_get_wifi_sta e with Some i => Some i | None => net_if_get_first_wifi e end) with
  | None => (Status_InternalError, sc, e)
  | Some iface =>
      let sc1 := sc <| sc_entries := [] |> <| sc_finished := false |> in
      let '(rc, e1) := wifi_scan iface e in
      if negb (rc =? 0) then (Status_InternalError, sc1 <| sc_finished := true |>, e1)
      else (Status_Success, sc1, e1)
  end.

(** [k_sem_take(&scan_done_sem, SCAN_BLOCKING_TIMEOUT)] while [arrivals] are
    delivered, in order, before the timeout; the wait ends with the first give.
    The events rest over are delivered to whoever comes next. *)
Fixpoint wait_scan_done (arrivals : list wifi_scan_event) (sc : sc_t)
    : bool * list wifi_scan_event * sc_t :=
  match k_sem_try_take (sc_done_sem sc) with
  | Some s => (true, arrivals, sc <| sc_done_sem := s |>)
  | None =>
      match arrivals with
      | [] => (false, [], sc)
      | ev :: evs => wait_scan_done evs (mgmt_event ev sc)
      end
  end.

Definition is_blocking (pl : scan_payload) : bool :=
  match pl with scan_cmd_wifi_start blocking _ _ _ => blocking | _ => false end.

(** The CmdScanWifiStart branch, up to the response. *)
Definition scan_start (pl : scan_payload) (arrivals : list wifi_scan_event) (sc : sc_t) (e : E)
    : Z * list wifi_scan_event * sc_t * E :=
  let sc1 := sc <| sc_done_sem := k_sem_reset (sc_done_sem sc) |> in
  let '(s, sc2, e1) := do_scan_start sc1 e in
  if (s =? Status_Success) && is_blocking pl then
    match wait_scan_done arrivals sc2 with
    | (true, rest, sc3) => (s, rest, sc3, e1)
    | (false, rest, sc3) => (Status_InternalError, rest, sc3, e1)
    end
  else (s, arrivals, sc2, e1).

Definition encode_resp (msg : Z) (pl : scan_payload) (e : E) : Z * obuf * E :=
  network_prov_pb_encode (mk_scan msg Status_Success pl) e.

Definition network_prov_wifi_scan_handler (inbuf : bytes) (arrivals : list wifi_scan_event)
    (sc : sc_t) (e : E) : Z * obuf * list wifi_scan_event * sc_t * E :=
  match pb_decode inbuf with
  | None => (- EINVAL, no_buf, arrivals, sc, e)
  | Some req =>
      if scan_msg req =? TypeCmdScanWifiStart then
        let '(s, rest, sc1, e1) := scan_start (scan_pl req) arrivals sc e in
        let '(rc, out, e2) :=
          network_prov_pb_encode (mk_scan TypeRespScanWifiStart s scan_resp_wifi_start) e1 in
        (rc, out, rest, sc1, e2)
      else if scan_msg req =? TypeCmdScanWifiStatus then
        let '(rc, out, e1) := encode_resp TypeRespScanWifiStatus
          (scan_resp_wifi_status (sc_finished sc) (blen (sc_entries sc))) e in
        (rc, out, arrivals, sc, e1)
      else if scan_msg req =? TypeCmdScanWifiResult then
        let '(start, want) := view_wifi_result (scan_pl req) in
        let '(rc, out, e1) := encode_resp TypeRespScanWifiResult
          (scan_resp_wifi_result (scan_page result_of_entry (sc_entries sc) start want)) e in
        (rc, out, arrivals, sc, e1)
      else (- ENOTSUP, no_buf, arrivals, sc, e)
  end.

End wifi_scan.

(** The access points a run of events reports before the scan is done. *)
Fixpoint reported_results (evs : list wifi_scan_event) : list wifi_scan_result :=
  match evs with
  | [] => []
  | NET_EVENT_WIFI_SCAN_RESULT r :: evs => r :: reported_results evs
  | NET_EVENT_WIFI_SCAN_DONE :: _ => []
  | NET_EVENT_OTHER :: evs => reported_results evs
  end.

Section wifi_scan_facts.
Context {E : Type} `{HH : KHeap E} `{NL : NetLog E} `{WN : WifiNet E}.
Context `{K : Kernel} `{!KernelLaws}.
Context `{PB : PbMsg NetworkScanPayload} `{UV : UnionViews}.
Context (max : nat).

Local Abbreviation sc_t := (wifi_scan_st k_sem).

Lemma on_scan_result_entries r (sc : sc_t) :
  (length (sc_entries sc) ≤ max)%nat →
  sc_entries (on_scan_result max r sc) = take max (sc_entries sc ++ [entry_of_result r]).
Proof.
  intros Hl. unfold on_scan_result. destruct (max <=? length (sc_entries sc))%nat eqn:Hle.
  - apply Nat.leb_le in Hle. by rewrite take_app_le, take_ge by lia.
  - apply Nat.leb_gt in Hle. cbn. rewrite take_ge; [done|]. rewrite length_app. cbn. lia.
Qed.

(** What a wait collects, by induction on the arrivals. *)
Lemma wait_collects arrivals (sc : sc_t) :
  (length (sc_entries sc) ≤ max)%nat → k_sem_count (sc_done_sem sc) = 0 →
  k_sem_limit (sc_done_sem sc) = 1 →
  ∃ rest sc',
    wait_scan_done max arrivals sc = (bool_decide (NET_EVENT_WIFI_SCAN_DONE ∈ arrivals), rest, sc') ∧
    sc_entries sc' = take max (sc_entries sc ++ (entry_of_result <$> reported_results arrivals)) ∧
    sc_finished sc' = bool_decide (NET_EVENT_WIFI_SCAN_DONE ∈ arrivals) || sc_finished sc ∧
    k_sem_limit (sc_done_sem sc') = 1 ∧ k_sem_count (sc_done_sem sc') = 0.
Proof.
  assert (Hfull : ∀ l : list scan_entry, (length l ≤ max)%nat → take max (l ++ []) = l)
    by (intros; rewrite app_nil_r; by apply take_ge).
  revert sc. induction arrivals as [|ev evs IH]; intros sc Hl Hc Hlim; cbn [wait_scan_done];
    assert (Hn : k_sem_try_take (sc_done_sem sc) = None) by (apply k_sem_take_none; lia); rewrite Hn.
  - do 2 eexists. split; [reflexivity|]. cbn. rewrite Hfull by done. done.
  - destruct ev as [r| |]; cbn [mgmt_event].
    + destruct (IH (on_scan_result max r sc)) as (rest & sc' & -> & He & Hf & Hs).
      { rewrite on_scan_result_entries by done. rewrite length_take. lia. }
      { unfold on_scan_result. by destruct (_ <=? _)%nat. }
      { unfold on_scan_result. by destruct (_ <=? _)%nat. }
      exists rest, sc'.
      assert (Hd : bool_decide (NET_EVENT_WIFI_SCAN_DONE ∈ NET_EVENT_WIFI_SCAN_RESULT r :: evs) =
        bool_decide (NET_EVENT_WIFI_SCAN_DONE ∈ evs)) by (apply bool_decide_ext; set_solver).
      rewrite Hd, He, on_scan_result_entries by done. cbn [reported_results].
      split; [done|]. split; [|split; [|done]].
      * rewrite take_take_app, <- app_assoc. done.
      * rewrite Hf. unfold on_scan_result. by destruct (_ <=? _)%nat.
    + assert (Hg : k_sem_count (k_sem_give (sc_done_sem sc)) = 1) by (rewrite k_sem_count_give; lia).
      assert (Ht : is_Some (k_sem_try_take (k_sem_give (sc_done_sem sc)))).
      { apply not_eq_None_Some. intros Ht. apply k_sem_take_none in Ht. lia. }
      destruct Ht as [s Ht]. exists evs, (sc <| sc_finished := true |> <| sc_done_sem := s |>).
      rewrite bool_decide_true by set_solver. apply k_sem_take_some in Ht as Hs.
      rewrite k_sem_limit_give in Hs. destruct Hs as [Hs1 Hs2].
      split; [destruct evs; cbn; by rewrite Ht|]. cbn. rewrite Hfull by done.
      split_and!; [done|done|lia|lia].
    + destruct (IH sc Hl Hc Hlim) as (rest & sc' & -> & He & Hf & Hs).
      exists rest, sc'.
      assert (Hd : bool_decide (NET_EVENT_WIFI_SCAN_DONE ∈ NET_EVENT_OTHER :: evs) =
        bool_decide (NET_EVENT_WIFI_SCAN_DONE ∈ evs)) by (apply bool_decide_ext; set_solver).
      by rewrite Hd.
Qed.

(** Entry points of the component. *)
Inductive wifi_scan_step : sc_t * E → sc_t * E → Prop :=
| wss_init sc e rc sc' e' :
    network_prov_wifi_scan_init sc e = (rc, sc', e') → wifi_scan_step (sc, e) (sc', e')
| wss_deinit sc e sc' e' :
    network_prov_wifi_scan_deinit sc e = (sc', e') → wifi_scan_step (sc, e) (sc', e')
| wss_request inbuf arrivals sc e rc out rest sc' e' :
    network_prov_wifi_scan_handler max inbuf arrivals sc e = (rc, out, rest, sc', e') →
    wifi_scan_step (sc, e) (sc', e')
| wss_event ev sc e : wifi_scan_step (sc, e) (mgmt_event max ev sc, e)
| wss_env sc e e' : wifi_scan_step (sc, e) (sc, e').

Definition entry_ok (x : scan_entry) : Prop :=
  (length (se_ssid x) ≤ 32)%nat ∧ (length (se_bssid x) ≤ 6)%nat ∧
  se_auth x ∈ [WifiAuthMode_Open; WifiAuthMode_WEP; WifiAuthMode_WPA_PSK; WifiAuthMode_WPA2_PSK;
               WifiAuthMode_WPA3_PSK].

Record scan_inv (sc : sc_t) : Prop := {
  si_count : (length (sc_entries sc) ≤ max)%nat;
  si_entries : Forall entry_ok (sc_entries sc);
  si_limit : k_sem_limit (sc_done_sem sc) = 1;
}.

Lemma entry_of_result_ok r : entry_ok (entry_of_result r).
Proof.
  split; [|split]; cbn -[take].
  - rewrite length_take. unfold WIFI_SSID_MAX_LEN. lia.
  - rewrite length_take. unfold WIFI_MAC_ADDR_LEN. lia.
  - destruct (wsr_security r); cbn; set_solver.
Qed.

Lemma mgmt_event_inv ev (sc : sc_t) : scan_inv sc → scan_inv (mgmt_event max ev sc).
Proof.
  intros [H1 H2 H3]. destruct ev as [r| |]; cbn; [|split; cbn; by rewrite ?k_sem_limit_give|done].
  unfold on_scan_result. destruct (max <=? _)%nat eqn:Hle; [done|]. apply Nat.leb_gt in Hle.
  split; cbn; [rewrite length_app; cbn; lia| |done]. apply Forall_app. split; [done|].
  constructor; [apply entry_of_result_ok|done].
Qed.

Lemma wait_inv arrivals (sc : sc_t) ok rest sc' :
  scan_inv sc → wait_scan_done max arrivals sc = (ok, rest, sc') → scan_inv sc'.
Proof.
  revert sc. induction arrivals as [|ev evs IH]; intros sc Hi; cbn [wait_scan_done];
    destruct (k_sem_try_take _) as [s|] eqn:Ht.
  1,3: intros ?; simplify_eq; apply k_sem_take_some in Ht as [_ Ht]; destruct Hi; split; cbn; congruence.
  - intros ?; by simplify_eq.
  - intros Hw. eapply IH; [by apply mgmt_event_inv|done].
Qed.

Lemma do_scan_start_cases (sc : sc_t) (e : E) s sc' e' :
  do_scan_start sc e = (s, sc', e') →
  sc_done_sem sc' = sc_done_sem sc ∧
  (s = Status_Success ∧ sc_entries sc' = [] ∧ sc_finished sc' = false ∨
   s = Status_InternalError ∧ (sc' = sc ∨ sc_entries sc' = [] ∧ sc_finished sc' = true)).
Proof.
  unfold do_scan_start. destruct (match net_if_get_wifi_sta e with Some _ => _ | None => _ end);
    [|intros ?; simplify_eq; auto].
  destruct (wifi_scan _ e) as [rc e1]. destruct (rc =? 0); cbn; intros ?; simplify_eq; cbn; auto 6.
Qed.

Lemma scan_start_inv pl arrivals (sc : sc_t) (e : E) s rest sc' e' :
  scan_inv sc → scan_start max pl arrivals sc e = (s, rest, sc', e') → scan_inv sc'.
Proof.
  intros [H1 H2 H3]. unfold scan_start.
  destruct (do_scan_start _ e) as [[s1 sc1] e1] eqn:Hd. apply do_scan_start_cases in Hd as [Hsem Hc].
  cbn in Hsem. assert (Hi : scan_inv sc1).
  { assert (Hlim : k_sem_limit (sc_done_sem sc1) = 1) by (by rewrite Hsem, k_sem_limit_reset).
    destruct Hc as [(_ & He & _)|(_ & [->|[He _]])]; split; rewrite ?He; cbn; try done; lia. }
  destruct ((s1 =? Status_Success) && is_blocking pl).
  - destruct (wait_scan_done max arrivals sc1) as [[[] r] sc2] eqn:Hw; intros ?; simplify_eq;
      by eapply wait_inv.
  - intros ?. by simplify_eq.
Qed.

Lemma scan_step_inv s s' : wifi_scan_step s s' → scan_inv s.1 → scan_inv s'.1.
Proof.
  intros Hs Hi. destruct Hs as [sc e rc sc' e' Hr|sc e sc' e' Hr|inbuf arrivals sc e rc out rest sc' e' Hr|
    ev sc e|sc e e']; cbn in *; [..|by apply mgmt_event_inv|done].
  - unfold network_prov_wifi_scan_init in Hr. destruct (sc_cb_registered sc); cbn in Hr; simplify_eq;
      destruct Hi; split; done.
  - unfold network_prov_wifi_scan_deinit in Hr. destruct (sc_cb_registered sc); simplify_eq;
      destruct Hi; split; done.
  - unfold network_prov_wifi_scan_handler in Hr. destruct (pb_decode inbuf) as [req|]; [|by simplify_eq].
    destruct (_ =? TypeCmdScanWifiStart).
    { destruct (scan_start _ _ _ _ _) as [[[s r] sc1] e1] eqn:Hst.
      destruct (network_prov_pb_encode _ _) as [[??]?]. simplify_eq. by eapply scan_start_inv. }
    unfold encode_resp in Hr. destruct (_ =? TypeCmdScanWifiStatus);
      [|destruct (_ =? TypeCmdScanWifiResult)]; [..|by simplify_eq].
    + destruct (network_prov_pb_encode _ _) as [[??]?]. by simplify_eq.
    + destruct (view_wifi_result _) as [st w].
      destruct (network_prov_pb_encode _ _) as [[??]?]. by simplify_eq.
Qed.

(** C37: Scan storage is bounded in every reachable state: never more than
    CONFIG_NETWORK_PROV_SCAN_MAX_ENTRIES entries however many results arrive, in
    any interleaving of requests and events, and every entry has an SSID of at
    most 32 bytes, whatever [ssid_length] the event claims, and an authentication
    mode the protocol can express. *)
Theorem scan_storage_bounded (e0 : E) sc (e : E) :
  rtc wifi_scan_step (sc_zero, e0) (sc, e) → scan_inv sc.
Proof.
  intros Hr. change (scan_inv (sc, e).1). assert (H0 : scan_inv (sc_zero, e0).1).
  { split; cbn; [lia|done|apply k_sem_limit_init]. }
  revert H0. induction Hr as [|x y z Hs Hr IH]; [done|]. intros Hx. by eapply IH, scan_step_inv.
Qed.

(** C18: A blocking ScanStart answers Success exactly when the scan completed in
    time, and then the one status query the apps make already sees it finished
    with the first entries the scan reported before it was done; without a
    completion in time the answer is InternalError, the entries so far are kept
    and the scan still counts as running. Give and reset of the semaphore leave
    no stale completion behind. *)
Theorem blocking_scan_semantics pl arrivals (sc : sc_t) (e : E) s rest sc' e' :
  k_sem_limit (sc_done_sem sc) = 1 → is_blocking pl = true →
  (do_scan_start (sc <| sc_done_sem := k_sem_reset (sc_done_sem sc) |>) e).1.1 = Status_Success →
  scan_start max pl arrivals sc e = (s, rest, sc', e') →
  sc_entries sc' = take max (entry_of_result <$> reported_results arrivals) ∧
  k_sem_count (sc_done_sem sc') = 0 ∧
  (s = Status_Success ∧ NET_EVENT_WIFI_SCAN_DONE ∈ arrivals ∧ sc_finished sc' = true ∨
   s = Status_InternalError ∧ NET_EVENT_WIFI_SCAN_DONE ∉ arrivals ∧ sc_finished sc' = false).
Proof.
  intros Hlim Hb Hok. unfold scan_start.
  destruct (do_scan_start _ e) as [[s1 sc1] e1] eqn:Hd. cbn in Hok. subst s1. rewrite Hb. cbn.
  apply do_scan_start_cases in Hd as [Hsem [(_ & He & Hf)|(Hx & _)]]; [|done]. cbn in Hsem.
  destruct (wait_collects arrivals sc1) as (r & sc2 & -> & He2 & Hf2 & _ & Hc2).
  { rewrite He. cbn. lia. } { by rewrite Hsem, k_sem_count_reset. }
  { by rewrite Hsem, k_sem_limit_reset. }
  rewrite He, Hf, orb_false_r in *. cbn in He2.
  case_bool_decide; intros ?; simplify_eq; split_and!; auto.
Qed.

(** C26: Paging is lossless: a client that asks for any page size of at least one,
    continuing where the last page ended until a page is empty, receives every
    scanned network exactly once and in order; no page exceeds the four entries
    of the response array. *)
Theorem wifi_paging_complete (sc : sc_t) want :
  1 <= want →
  fetch_all result_of_entry (S (length (sc_entries sc))) (sc_entries sc) 0 want =
    result_of_entry <$> sc_entries sc ∧
  ∀ start, 0 <= start → (length (scan_page result_of_entry (sc_entries sc) start want) ≤ 4)%nat.
Proof.
  intros Hw. split.
  - rewrite fetch_all_spec; [done|lia|done|cbn; lia].
  - intros start Hs. rewrite scan_page_spec by done.
    rewrite length_fmap, length_take. unfold SCAN_PAGE. lia.
Qed.
End wifi_scan_facts.
