(* ===== verification/WifiCtrl.v ===== *)
(** * WifiCtrl: the prov-ctrl endpoint for Wi-Fi (src/wifi_ctrl_handler.c) *)
From S2P Require Import Prelude Platform PbUtil Messages NetEnv WifiConfig.

Section wifi_ctrl.
Context {E : Type} `{KHeap E} `{K : Kernel} `{PbMsg NetworkCtrlPayload}.

Local Abbreviation wc_t := (wifi_cfg k_work_delayable).

Definition network_prov_wifi_ctrl_handler (inbuf : bytes) (wc : wc_t) (e : E) : Z * obuf * wc_t * E :=
  match pb_decode inbuf with
  | None => (- EINVAL, no_buf, wc, e)
  | Some req =>
      if ctrl_msg req =? TypeCmdCtrlWifiReset then
        let '(rc, out, e1) := network_prov_pb_encode
          (mk_ctrl TypeRespCtrlWifiReset Status_Success ctrl_resp_wifi_reset) e in
        (rc, out, network_prov_wifi_config_reset wc, e1)
      else if ctrl_msg req =? TypeCmdCtrlWifiReprov then
        let '(rc, out, e1) := network_prov_pb_encode
          (mk_ctrl TypeRespCtrlWifiReprov Status_Success ctrl_resp_wifi_reprov) e in
        (rc, out, network_prov_wifi_config_reset wc, e1)
      else (- ENOTSUP, no_buf, wc, e)
  end.
End wifi_ctrl.

Section wifi_ctrl_facts.
Context {E : Type} `{HH : KHeap E} `{NL : NetLog E} `{!NetHeapLaws E}.
Context `{EE : EmitEvent E} `{WN : WifiNet E} `{K : Kernel} `{!KernelLaws}.
Context `{PC : PbMsg NetworkCtrlPayload} `{!PbMsgLaws NetworkCtrlPayload}.
Context `{PB : PbMsg NetworkConfigPayload} `{UV : UnionViews}.

Local Abbreviation wc_t := (wifi_cfg k_work_delayable).

Lemma reset_fields (wc : wc_t) :
  wc_sta_state (network_prov_wifi_config_reset wc) = WifiStationState_Disconnected ∧
  wc_ssid (network_prov_wifi_config_reset wc) = [] ∧
  wc_pass (network_prov_wifi_config_reset wc) = [] ∧
  wc_attempts_max (network_prov_wifi_config_reset wc) = wc_attempts_max wc ∧
  wc_attempts_completed (network_prov_wifi_config_reset wc) = 0 ∧
  wc_retry_work (network_prov_wifi_config_reset wc) = k_work_cancel (wc_retry_work wc) ∧
  wc_inflight_ssid (network_prov_wifi_config_reset wc) = [].
Proof. repeat split. Qed.

(** A reset or re-provision command withdraws the attempt in flight: a
    successful reply is the matching response with status Success; the state goes
    back to Disconnected with the full budget and nothing staged; no request to
    the network or the store is made and no event is emitted; and connect results
    still on their way, or a retry already queued, change nothing and emit
    nothing. Any other message leaves everything as it was. *)
Theorem wifi_ctrl_reset_quiesces inbuf (wc wc' : wc_t) (e e' : E) rc out :
  network_prov_wifi_ctrl_handler inbuf wc e = (rc, out, wc', e') →
  net_log e' = net_log e ∧
  match pb_decode inbuf with
  | Some req =>
      if (ctrl_msg req =? TypeCmdCtrlWifiReset) || (ctrl_msg req =? TypeCmdCtrlWifiReprov) then
        (rc = 0 → ∃ resp, pb_decode (ob_data out) = Some resp ∧ ctrl_status resp = Status_Success ∧
           ctrl_msg resp = ctrl_msg req + 1) ∧
        wc_sta_state wc' = WifiStationState_Disconnected ∧ wc_ssid wc' = [] ∧ wc_pass wc' = [] ∧
        network_prov_wifi_config_remaining_attempts wc' =
          (if wc_attempts_max wc <=? 0 then 0 else u32 (wc_attempts_max wc)) ∧
        k_work_pending (wc_retry_work wc') = None ∧
        (∀ st conn e2, on_connect_result st conn wc' e2 = (wc', e2)) ∧
        (∀ e2, retry_work_handler wc' e2 = (wc', e2))
      else rc = - ENOTSUP ∧ wc' = wc
  | None => rc = - EINVAL ∧ wc' = wc
  end.
Proof.
  unfold network_prov_wifi_ctrl_handler. destruct (pb_decode inbuf) as [req|]; [|by intros ?; simplify_eq].
  assert (Hreset : ∀ resp, ctrl_status resp = Status_Success → ctrl_msg resp = ctrl_msg req + 1 →
    (let '(rc0, out0, e1) := network_prov_pb_encode resp e in
     (rc0, out0, network_prov_wifi_config_reset wc, e1)) = (rc, out, wc', e') →
    net_log e' = net_log e ∧ wc' = network_prov_wifi_config_reset wc ∧
    (rc = 0 → pb_decode (ob_data out) = Some resp)).
  { intros resp _ _. pose proof (pb_encode_log resp e) as Hl.
    destruct (network_prov_pb_encode resp e) as [[r o] e1] eqn:He. intros ?; simplify_eq.
    split; [done|]. split; [done|]. intros ->. by apply pb_encode_ok in He as (_ & ? & _). }
  destruct (ctrl_msg req =? TypeCmdCtrlWifiReset) eqn:H1;
    [|destruct (ctrl_msg req =? TypeCmdCtrlWifiReprov) eqn:H2]; cbn [orb]; breflect.
  3: by intros ?; simplify_eq.
  all: intros Hr; apply Hreset in Hr as (Hl & -> & Hok); [|done|by rewrite ?H1, ?H2].
  all: split; [done|]; split; [intros Hrc; eexists; split; [by apply Hok|]; rewrite ?H1, ?H2; done|].
  all: destruct (reset_fields wc) as (? & ? & ? & Hmax & Hcmp & Hw & Hin).
  all: do 3 (split; [done|]); unfold network_prov_wifi_config_remaining_attempts.
  all: rewrite Hmax, Hcmp, Z.sub_0_r, Hw, k_work_pending_cancel; split; [done|]; split; [done|].
  all: split; intros; [by apply result_closed|by apply retry_closed].
Qed.
End wifi_ctrl_facts.
