(* ===== verification/FakeWifi.v ===== *)
(** * FakeWifi: the simulated Wi-Fi driver (src/sim/wifi/fake_wifi.c)

    The driver the whole stack runs on without hardware: a programmed list of
    access points and a programmed or credential-derived connect outcome, delivered
    from work items. Buffers are given by the bytes their length counts, the access
    points by the first [ap_count] slots. What Zephyr's scan callback does with an
    entry is a parameter, and so is plain [k_work]. *)
From S2P Require Import Prelude Platform NetEnv.
From S2P Require WifiScan.
Import WifiScan (wifi_scan_result, mk_wifi_scan_result, WIFI_SSID_MAX_LEN).

(** ** Plain work items ([k_work_submit] and the queue that takes them off) *)
Class KWork := {
  k_work : Type;
  k_work_idle : k_work;
  k_work_submit : k_work → k_work;
  k_work_dequeue : k_work → k_work;
  k_work_queued : k_work → bool;
}.
Class KWorkLaws `{KWork} : Prop := {
  k_work_queued_idle : k_work_queued k_work_idle = false;
  k_work_queued_submit w : k_work_queued (k_work_submit w) = true;
  k_work_queued_dequeue w : k_work_queued (k_work_dequeue w) = false;
}.

(** ** Data *)
Definition WIFI_PSK_MAX_LEN : nat := 64.
Definition WIFI_STATUS_CONN_SUCCESS : Z := 0.
Definition WIFI_STATUS_CONN_WRONG_PASSWORD : Z := 2.

(** [struct fake_wifi_ap]: [ap_ssid] is the array, [ap_ssid_len] what it claims. *)
Record fake_wifi_ap := mk_ap {
  ap_ssid : bytes; ap_ssid_len : Z; ap_bssid : bytes; ap_channel : Z; ap_rssi : Z;
  ap_security : wifi_security_type }.
#[export] Instance fake_wifi_ap_eq_dec : EqDecision fake_wifi_ap.
Proof. solve_decision. Defined.

(** [struct fake_wifi_data]; [Cb] is the type of scan callbacks. *)
Record fake_wifi_data (Cb W : Type) := mk_fw {
  fw_iface : option Z;
  fw_aps : list fake_wifi_ap;
  fw_next_conn : Z;
  fw_next_sync_err : Z;
  fw_creds_mode : bool;
  fw_exp_ssid : bytes;
  fw_exp_pass : bytes;
  fw_conn_ssid : bytes;
  fw_conn_channel : Z;
  fw_connected : bool;
  fw_scan_cb : option Cb;
  fw_scan_work : W;
  fw_connect_work : W;
}.
Arguments mk_fw {_ _}.
Arguments fw_iface {_ _} _.
Arguments fw_aps {_ _} _.
Arguments fw_next_conn {_ _} _.
Arguments fw_next_sync_err {_ _} _.
Arguments fw_creds_mode {_ _} _.
Arguments fw_exp_ssid {_ _} _.
Arguments fw_exp_pass {_ _} _.
Arguments fw_conn_ssid {_ _} _.
Arguments fw_conn_channel {_ _} _.
Arguments fw_connected {_ _} _.
Arguments fw_scan_cb {_ _} _.
Arguments fw_scan_work {_ _} _.
Arguments fw_connect_work {_ _} _.
#[export] Instance fake_wifi_data_eta {C W} : FieldEta (fake_wifi_data C W) := fun r =>
  mk_fw (fw_iface r) (fw_aps r) (fw_next_conn r) (fw_next_sync_err r) (fw_creds_mode r)
    (fw_exp_ssid r) (fw_exp_pass r) (fw_conn_ssid r) (fw_conn_channel r) (fw_connected r)
    (fw_scan_cb r) (fw_scan_work r) (fw_connect_work r).

(** [struct wifi_iface_status], what the driver writes of it. *)
Inductive wifi_iface_state := WIFI_STATE_DISCONNECTED | WIFI_STATE_COMPLETED | WIFI_STATE_OTHER.
Inductive wifi_link_constants := link_unset | link_fake (** 2.4 GHz, INFRA, WIFI_4, PSK, MFP optional *).
Record driver_status := mk_dstatus {
  ds_state : wifi_iface_state; ds_report : wifi_iface_status; ds_link : wifi_link_constants }.
#[export] Instance driver_status_eta : FieldEta driver_status := fun r =>
  mk_dstatus (ds_state r) (ds_report r) (ds_link r).

Section fake_wifi.
Context {Cb : Type} `{KQ : KWork}.
Context (MAX_AP : nat).

Local Abbreviation fw_t := (fake_wifi_data Cb k_work).

(** The static initialiser. *)
Definition fw_zero : fw_t :=
  mk_fw None [] WIFI_STATUS_CONN_SUCCESS 0 false [] [] [] 0 false None k_work_idle k_work_idle.

(** ** Test control *)
Definition fake_wifi_set_scan_aps (aps : list fake_wifi_ap) (count : nat) (d : fw_t) : fw_t :=
  let count := if (MAX_AP <? count)%nat then MAX_AP else count in
  d <| fw_aps := take count aps |>.

Definition fake_wifi_set_next_connect_result (status : Z) (d : fw_t) : fw_t :=
  d <| fw_next_conn := status |>.

Definition fake_wifi_set_next_connect_sync_error (errnum : Z) (d : fw_t) : fw_t :=
  d <| fw_next_sync_err := errnum |>.

(** A C string is given by its bytes up to the NUL, NULL by [None]. *)
Definition fake_wifi_set_expected_credentials (ssid pass : option (list Z)) (d : fw_t) : fw_t :=
  match ssid with
  | None | Some [] => d <| fw_creds_mode := false |>
  | Some s =>
      d <| fw_creds_mode := true |>
        <| fw_exp_ssid := take (Nat.min (length s) WIFI_SSID_MAX_LEN) s |>
        <| fw_exp_pass := match pass with
                          | Some p => take (Nat.min (length p) WIFI_PSK_MAX_LEN) p
                          | None => [] end |>
  end.

Definition fake_wifi_reset (d : fw_t) : fw_t :=
  d <| fw_aps := [] |> <| fw_next_conn := WIFI_STATUS_CONN_SUCCESS |> <| fw_next_sync_err := 0 |>
    <| fw_creds_mode := false |> <| fw_exp_ssid := [] |> <| fw_exp_pass := [] |>
    <| fw_connected := false |> <| fw_conn_ssid := [] |>.

(** [memcmp(a, b, n) == 0], the arrays having [n] bytes. *)
Definition mem_eq (n : nat) (a b : bytes) : bool := bool_decide (take n a = take n b).

Fixpoint ssid_in_list (aps : list fake_wifi_ap) (ssid : bytes) (ssid_len : Z) : bool :=
  match aps with
  | [] => false
  | ap :: aps =>
      if (ap_ssid_len ap =? ssid_len) && mem_eq (Z.to_nat ssid_len) (ap_ssid ap) ssid then true
      else ssid_in_list aps ssid ssid_len
  end.
Definition ssid_in_scan_list (d : fw_t) (ssid : bytes) (ssid_len : Z) : bool :=
  ssid_in_list (fw_aps d) ssid ssid_len.

Definition psk_length (p : wifi_connect_req_params) : Z := blen (default [] (cp_psk p)).

Definition creds_outcome (d : fw_t) (p : wifi_connect_req_params) : Z :=
  if negb (ssid_in_scan_list d (cp_ssid p) (blen (cp_ssid p))) then WIFI_STATUS_CONN_AP_NOT_FOUND
  else if negb (blen (cp_ssid p) =? blen (fw_exp_ssid d))
       || negb (mem_eq (length (fw_exp_ssid d)) (cp_ssid p) (fw_exp_ssid d))
       || negb (psk_length p =? blen (fw_exp_pass d))
       || ((0 <? blen (fw_exp_pass d))
           && negb (mem_eq (length (fw_exp_pass d)) (default [] (cp_psk p)) (fw_exp_pass d)))
  then WIFI_STATUS_CONN_WRONG_PASSWORD
  else WIFI_STATUS_CONN_SUCCESS.

(** ** Work items

    The queue has already taken the item off. A scan result is a call of the
    registered callback: the interface, the status and the entry, NULL at the end. *)
Definition scan_call : Type := Cb * option Z * Z * option wifi_scan_result.

Definition scan_entry_of (ap : fake_wifi_ap) : wifi_scan_result :=
  let n := Z.min (ap_ssid_len ap) (Z.of_nat WIFI_SSID_MAX_LEN) in
  mk_wifi_scan_result (take (Z.to_nat n) (ap_ssid ap)) n (take WIFI_MAC_ADDR_LEN (ap_bssid ap))
    (ap_channel ap) (ap_rssi ap) (ap_security ap).

(** [None] is a call through a NULL callback. *)
Definition scan_work_fn (d : fw_t) : option (list scan_call) :=
  cb ← fw_scan_cb d;
  Some (map (fun ap => (cb, fw_iface d, 0, Some (scan_entry_of ap))) (fw_aps d)
        ++ [(cb, fw_iface d, 0, None)]).

(** The status raised with [wifi_mgmt_raise_connect_result_event]. *)
Definition connect_work_fn (d : fw_t) : Z * fw_t :=
  (fw_next_conn d, d <| fw_connected := fw_next_conn d =? WIFI_STATUS_CONN_SUCCESS |>).

(** ** wifi_mgmt operations *)
Definition fake_scan (cb : Cb) (d : fw_t) : Z * fw_t :=
  let d1 := d <| fw_scan_cb := Some cb |> in
  (0, d1 <| fw_scan_work := k_work_submit (fw_scan_work d1) |>).

Definition fake_connect (p : wifi_connect_req_params) (d : fw_t) : Z * fw_t :=
  if negb (fw_next_sync_err d =? 0) then
    let err := fw_next_sync_err d in
    (- err, d <| fw_next_sync_err := 0 |>)
  else
    let d1 := if fw_creds_mode d then d <| fw_next_conn := creds_outcome d p |> else d in
    let d2 := d1 <| fw_conn_ssid := take (Nat.min (length (cp_ssid p)) WIFI_SSID_MAX_LEN) (cp_ssid p) |>
                 <| fw_conn_channel := if cp_channel p =? WIFI_CHANNEL_ANY then 1 else cp_channel p |> in
    (0, d2 <| fw_connect_work := k_work_submit (fw_connect_work d2) |>).

(** The disconnect result raised, and the state. *)
Definition fake_disconnect (d : fw_t) : Z * Z * fw_t := (0, 0, d <| fw_connected := false |>).

Definition fake_ap_enable (_ : wifi_connect_req_params) (d : fw_t) : Z * fw_t := (0, d).
Definition fake_ap_disable (d : fw_t) : Z * fw_t := (0, d).

Definition fake_iface_status (d : fw_t) (status : driver_status) : Z * driver_status :=
  if negb (fw_connected d) then (0, status <| ds_state := WIFI_STATE_DISCONNECTED |>)
  else
    (0, mk_dstatus WIFI_STATE_COMPLETED
          (mk_iface_status
             (fw_conn_ssid d ++ drop (length (fw_conn_ssid d)) (ifs_ssid (ds_report status)))
             (blen (fw_conn_ssid d)) (replicate WIFI_MAC_ADDR_LEN 171) (fw_conn_channel d))
          link_fake).

(** The interface is the driver's; it becomes a Wi-Fi interface. *)
Definition fake_iface_init (iface : Z) (d : fw_t) : fw_t := d <| fw_iface := Some iface |>.

Definition fake_wifi_init (d : fw_t) : Z * fw_t :=
  (0, d <| fw_scan_work := k_work_idle |> <| fw_connect_work := k_work_idle |>).

(** ** Entry points, in any order *)
Inductive fake_step : fw_t → fw_t → Prop :=
| fs_set_aps aps n d : fake_step d (fake_wifi_set_scan_aps aps n d)
| fs_set_next st d : fake_step d (fake_wifi_set_next_connect_result st d)
| fs_set_err n d : fake_step d (fake_wifi_set_next_connect_sync_error n d)
| fs_set_creds s p d : fake_step d (fake_wifi_set_expected_credentials s p d)
| fs_reset d : fake_step d (fake_wifi_reset d)
| fs_iface i d : fake_step d (fake_iface_init i d)
| fs_scan cb d : fake_step d (fake_scan cb d).2
| fs_connect p d : fake_step d (fake_connect p d).2
| fs_disconnect d : fake_step d (fake_disconnect d).2
| fs_scan_work d : k_work_queued (fw_scan_work d) = true →
    fake_step d (d <| fw_scan_work := k_work_dequeue (fw_scan_work d) |>)
| fs_connect_work d : k_work_queued (fw_connect_work d) = true →
    fake_step d (connect_work_fn (d <| fw_connect_work := k_work_dequeue (fw_connect_work d) |>)).2.
End fake_wifi.

(** The status structure the handler passes in. *)
Definition status_zero : driver_status :=
  mk_dstatus WIFI_STATE_DISCONNECTED (mk_iface_status (replicate 33 0) 0 (replicate WIFI_MAC_ADDR_LEN 0) 0)
    link_unset.

Section fake_wifi_facts.
Context {Cb : Type} `{KQ : KWork} `{!KWorkLaws}.
Context (MAX_AP : nat).

Local Abbreviation fw_t := (fake_wifi_data Cb k_work).

(** Everything within its array, and no scan queued without a callback. *)
Record fake_inv (d : fw_t) : Prop := {
  fi_aps : (length (fw_aps d) ≤ MAX_AP)%nat;
  fi_exp_ssid : (length (fw_exp_ssid d) ≤ WIFI_SSID_MAX_LEN)%nat;
  fi_exp_pass : (length (fw_exp_pass d) ≤ WIFI_PSK_MAX_LEN)%nat;
  fi_conn_ssid : (length (fw_conn_ssid d) ≤ WIFI_SSID_MAX_LEN)%nat;
  fi_scan_cb : k_work_queued (fw_scan_work d) = true → is_Some (fw_scan_cb d);
}.

Lemma fw_zero_inv : fake_inv fw_zero.
Proof. split; cbn; try lia. rewrite k_work_queued_idle. done. Qed.

Lemma length_take_min {A} n (l : list A) : (length (take (Nat.min (length l) n) l) ≤ n)%nat.
Proof. rewrite length_take. lia. Qed.

Lemma fake_step_inv (d d' : fw_t) : fake_step MAX_AP d d' → fake_inv d → fake_inv d'.
Proof.
  pose proof @length_take_min as Ht.
  intros Hs [H1 H2 H3 H4 H5]. destruct Hs as [aps n d|st d|n d|s p d|d|i d|cb d|p d|d|d Hq|d Hq].
  - split; cbn -[take Nat.ltb]; try done. rewrite length_take. destruct (MAX_AP <? n)%nat eqn:Hle; [lia|].
    apply Nat.ltb_ge in Hle. lia.
  - by split.
  - by split.
  - destruct s as [[|c s]|]; [by split| |by split]. split; cbn -[take Nat.min]; try done; [apply (Ht _ _ (c :: s))|].
    destruct p; [apply Ht|cbn; lia].
  - split; cbn; try done; lia.
  - by split.
  - split; cbn; try done; eauto.
  - unfold fake_connect. destruct (fw_next_sync_err d =? 0); cbn -[take Nat.min]; [|by split].
    destruct (fw_creds_mode d); split; cbn -[take Nat.min]; try done; apply Ht.
  - by split.
  - split; cbn; try done. rewrite k_work_queued_dequeue. done.
  - by split.
Qed.

Lemma fake_reachable_inv (d : fw_t) : rtc (fake_step MAX_AP) fw_zero d → fake_inv d.
Proof.
  intros Hr. pose proof fw_zero_inv as H0. revert H0.
  induction Hr as [|x y z Hs Hr IH]; [done|]. intros Hx. by eapply IH, fake_step_inv.
Qed.

(** However the driver is programmed and called, a queued scan delivers: it
    never goes through a NULL callback, makes one call per programmed access point
    in the order they were programmed, none with an SSID longer than 32 bytes
    whatever its length field claims, and then exactly one final call. *)
Theorem fake_scan_delivers (d : fw_t) :
  rtc (fake_step MAX_AP) fw_zero d → k_work_queued (fw_scan_work d) = true →
  ∃ cb calls,
    scan_work_fn d = Some (calls ++ [(cb, fw_iface d, 0, None)]) ∧ fw_scan_cb d = Some cb ∧
    calls = (fun ap => (cb, fw_iface d, 0, Some (scan_entry_of ap))) <$> fw_aps d ∧
    (length calls ≤ MAX_AP)%nat ∧
    ∀ c i st r, (c, i, st, Some r) ∈ calls →
      WifiScan.wsr_ssid_length r <= 32 ∧ (length (WifiScan.wsr_ssid r) ≤ 32)%nat.
Proof.
  intros Hr Hq. pose proof (fake_reachable_inv _ Hr) as [H1 _ _ _ Hcb].
  destruct (Hcb Hq) as [cb Hc]. eexists cb, _. unfold scan_work_fn. rewrite Hc. cbn [mbind option_bind].
  split; [reflexivity|]. split; [done|]. split; [done|].
  split; [by rewrite length_map|].
  intros c i st r (ap & Heq & _)%list_elem_of_fmap. injection Heq as -> -> -> ->.
  cbn -[take Z.min]. rewrite length_take. unfold WIFI_SSID_MAX_LEN. lia.
Qed.

(** The name an access point broadcasts. *)
Definition ap_name (ap : fake_wifi_ap) : bytes := take (Z.to_nat (ap_ssid_len ap)) (ap_ssid ap).
Definition ap_wf (ap : fake_wifi_ap) : Prop := 0 <= ap_ssid_len ap <= blen (ap_ssid ap).

Lemma ssid_in_list_spec aps ssid :
  Forall ap_wf aps → (ssid_in_list aps ssid (blen ssid) = true ↔ ssid ∈ ap_name <$> aps).
Proof.
  induction aps as [|ap aps IH]; intros Hw; cbn [ssid_in_list fmap list_fmap]; [by split; [|intros ?%elem_of_nil]|].
  apply Forall_cons in Hw as [Hap Hw]. specialize (IH Hw).
  assert (Hm : (ap_ssid_len ap =? blen ssid) && mem_eq (Z.to_nat (blen ssid)) (ap_ssid ap) ssid = true
    ↔ ssid = ap_name ap).
  { unfold mem_eq, ap_name, ap_wf, blen in *. rewrite andb_true_iff, Z.eqb_eq, bool_decide_eq_true, Nat2Z.id.
    rewrite (take_ge ssid) by lia. split.
    - intros [Hl Ht]. by rewrite Hl, Nat2Z.id.
    - intros Heq. assert (Hl : length ssid = Z.to_nat (ap_ssid_len ap)) by (rewrite Heq, length_take; lia).
      split; [lia|]. by rewrite Hl. }
  rewrite elem_of_cons, <- Hm, <- IH. destruct (_ && _); intuition congruence.
Qed.

Lemma mem_eq_full (a b : bytes) : length a = length b → mem_eq (length b) a b = true ↔ a = b.
Proof. intros Hl. unfold mem_eq. rewrite bool_decide_eq_true, !take_ge by lia. done. Qed.

(** The wrong-password test is equality of both credentials. *)
Lemma creds_outcome_eq (d : fw_t) p :
  creds_outcome d p =
    if ssid_in_scan_list d (cp_ssid p) (blen (cp_ssid p))
    then if bool_decide (cp_ssid p = fw_exp_ssid d ∧ default [] (cp_psk p) = fw_exp_pass d)
         then WIFI_STATUS_CONN_SUCCESS else WIFI_STATUS_CONN_WRONG_PASSWORD
    else WIFI_STATUS_CONN_AP_NOT_FOUND.
Proof.
  unfold creds_outcome. destruct (ssid_in_scan_list _ _ _); [|done]. cbn [negb].
  set (b := _ || _ || _ || _). assert (Hb : b = negb (bool_decide
    (cp_ssid p = fw_exp_ssid d ∧ default [] (cp_psk p) = fw_exp_pass d))).
  { subst b. unfold psk_length, blen.
    destruct (Z.of_nat (length (cp_ssid p)) =? _) eqn:H1; breflect; cbn [negb orb].
    2:{ rewrite bool_decide_false; [done|]. intros [Heq _]. by rewrite Heq in H1. }
    pose proof (mem_eq_full (cp_ssid p) (fw_exp_ssid d)) as Hm1.
    destruct (mem_eq _ (cp_ssid p) _); cbn [negb orb].
    2:{ rewrite bool_decide_false; [done|]. intros [Heq _]. apply Hm1 in Heq; [done|lia]. }
    destruct (Z.of_nat (length (default [] (cp_psk p))) =? _) eqn:H2; breflect; cbn [negb orb].
    2:{ rewrite bool_decide_false; [done|]. intros [_ Heq]. by rewrite Heq in H2. }
    pose proof (mem_eq_full (default [] (cp_psk p)) (fw_exp_pass d)) as Hm2.
    assert (H1' : cp_ssid p = fw_exp_ssid d) by (apply Hm1; [lia|done]).
    destruct (mem_eq _ (default [] _) _); cbn [negb orb].
    - rewrite andb_false_r, bool_decide_true; [done|]. split; [done|]. apply Hm2; [lia|done].
    - rewrite andb_true_r. destruct (0 <? _) eqn:H0; breflect.
      + rewrite bool_decide_false; [done|]. intros [_ Heq]. apply Hm2 in Heq; [done|lia].
      + rewrite bool_decide_true; [done|]. split; [done|].
        rewrite (nil_length_inv (fw_exp_pass d)) in H2 |- * by lia. apply nil_length_inv. cbn in H2. lia. }
  rewrite Hb. by destruct (bool_decide _).
Qed.

(** In credential-matching mode the outcome of a connect is a function of what
    the access points broadcast and of the one real network: not found exactly when
    no programmed access point has the requested name, success exactly when the name
    is there and both name and passphrase are the expected ones, and otherwise a
    wrong password - the byte-wise comparisons with their early exits included. *)
Theorem fake_credentials_decide (d : fw_t) p :
  Forall ap_wf (fw_aps d) →
  (creds_outcome d p = WIFI_STATUS_CONN_AP_NOT_FOUND ↔ cp_ssid p ∉ ap_name <$> fw_aps d) ∧
  (creds_outcome d p = WIFI_STATUS_CONN_SUCCESS ↔
     cp_ssid p ∈ ap_name <$> fw_aps d ∧ cp_ssid p = fw_exp_ssid d ∧
     default [] (cp_psk p) = fw_exp_pass d) ∧
  creds_outcome d p ∈ [WIFI_STATUS_CONN_SUCCESS; WIFI_STATUS_CONN_WRONG_PASSWORD;
                       WIFI_STATUS_CONN_AP_NOT_FOUND].
Proof.
  intros Hw. rewrite creds_outcome_eq. unfold ssid_in_scan_list.
  pose proof (ssid_in_list_spec (fw_aps d) (cp_ssid p) Hw) as Hin.
  destruct (ssid_in_list _ _ _); [case_bool_decide|].
  all: unfold WIFI_STATUS_CONN_AP_NOT_FOUND, WIFI_STATUS_CONN_SUCCESS, WIFI_STATUS_CONN_WRONG_PASSWORD.
  all: split_and!; try set_solver; intuition (try discriminate; try congruence).
Qed.

(** ** What a connect will come to *)
Definition verdict (d : fw_t) (p : wifi_connect_req_params) : Z :=
  if fw_creds_mode d then creds_outcome d p else fw_next_conn d.

(** An accepted request, seen from the driver's client. *)
Lemma fake_connect_accepted (d : fw_t) p :
  fw_next_sync_err d = 0 →
  ∃ d', fake_connect p d = (0, d') ∧ k_work_queued (fw_connect_work d') = true ∧
    fw_next_conn d' = verdict d p ∧ verdict d' p = verdict d p ∧ fw_next_sync_err d' = 0 ∧
    fw_conn_ssid d' = take (Nat.min (length (cp_ssid p)) WIFI_SSID_MAX_LEN) (cp_ssid p) ∧
    fw_conn_channel d' = (if cp_channel p =? WIFI_CHANNEL_ANY then 1 else cp_channel p) ∧
    fw_iface d' = fw_iface d ∧ fw_connected d' = fw_connected d.
Proof.
  intros He. unfold fake_connect, verdict. rewrite He. cbn [negb Z.eqb].
  destruct (fw_creds_mode d) eqn:Hm; eexists; (split; [reflexivity|]);
    cbn -[take Nat.min creds_outcome]; rewrite ?Hm; split_and!; try done; apply k_work_queued_submit.
Qed.

(** The status after the work ran: what was asked for, if it succeeded. *)
Lemma fake_status_connected (d : fw_t) st :
  fw_connected d = true → (length (fw_conn_ssid d) ≤ length (ifs_ssid (ds_report st)))%nat →
  (fake_iface_status d st).1 = 0 ∧ ds_state (fake_iface_status d st).2 = WIFI_STATE_COMPLETED ∧
  let r := ds_report (fake_iface_status d st).2 in
  take (Z.to_nat (ifs_ssid_len r)) (ifs_ssid r) = fw_conn_ssid d ∧
  ifs_ssid_len r = blen (fw_conn_ssid d) ∧ ifs_bssid r = replicate 6 171 ∧
  ifs_channel r = fw_conn_channel d.
Proof.
  intros Hc Hl. unfold fake_iface_status. rewrite Hc. cbn [negb]. cbn [fst snd ds_state ds_report].
  cbn [ifs_ssid ifs_ssid_len ifs_bssid ifs_channel]. split_and!; try done.
  unfold blen. by rewrite Nat2Z.id, take_app_length.
Qed.

(** While a new connect is in flight the driver already reports its target
    as the network it is connected to, whatever the connect will come to: the status
    is that of the last request, not of the last successful connect. *)
Theorem fake_status_before_outcome (d : fw_t) p d' st :
  fw_connected d = true → fw_next_sync_err d = 0 → (length (cp_ssid p) ≤ 32)%nat →
  (32 ≤ length (ifs_ssid (ds_report st)))%nat →
  fake_connect p d = (0, d') →
  ds_state (fake_iface_status d' st).2 = WIFI_STATE_COMPLETED ∧
  let r := ds_report (fake_iface_status d' st).2 in
  take (Z.to_nat (ifs_ssid_len r)) (ifs_ssid r) = cp_ssid p ∧
  (verdict d p ≠ WIFI_STATUS_CONN_SUCCESS →
     ds_state (fake_iface_status (connect_work_fn d').2 st).2 = WIFI_STATE_DISCONNECTED).
Proof.
  intros Hc He Hl Hst Hcon. destruct (fake_connect_accepted d p He) as
    (d1 & Hd1 & _ & Hnext & _ & _ & Hs & _ & _ & Hc'). rewrite Hd1 in Hcon. simplify_eq.
  assert (Hs' : fw_conn_ssid d' = cp_ssid p) by (rewrite Hs; apply take_ge; unfold WIFI_SSID_MAX_LEN; lia).
  destruct (fake_status_connected d' st) as (_ & H1 & H2 & _); [congruence|rewrite Hs'; lia|].
  split; [done|]. cbn zeta in H2 |- *. rewrite Hs' in H2. split; [done|].
  intros Hv. unfold fake_iface_status, connect_work_fn. cbn. rewrite Hnext.
  apply Z.eqb_neq in Hv. by rewrite Hv.
Qed.

(** Credential matching overwrites the programmed result: after leaving the
    mode, the outcome last derived from credentials is what later connects get. *)
Theorem fake_matching_overwrites_result (d : fw_t) r ssid pass p p' :
  fw_next_sync_err d = 0 → ssid ≠ [] →
  let d1 := fake_wifi_set_expected_credentials (Some ssid) pass (fake_wifi_set_next_connect_result r d) in
  let d2 := fake_wifi_set_expected_credentials None None (fake_connect p d1).2 in
  verdict d2 p' = creds_outcome d1 p.
Proof.
  intros He Hs. cbn zeta. destruct ssid as [|c ssid]; [done|].
  unfold fake_connect. cbn -[take Nat.min creds_outcome fake_wifi_set_expected_credentials].
  change (fw_next_sync_err (fake_wifi_set_expected_credentials _ _ _)) with (fw_next_sync_err d).
  change (fw_creds_mode (fake_wifi_set_expected_credentials _ _ _)) with true.
  rewrite He. reflexivity.
Qed.
End fake_wifi_facts.
