(* ===== verification/FakeStack.v ===== *)
(** * FakeStack: the Wi-Fi handlers on the simulated driver

    WifiConfig.v and WifiScan.v against FakeWifi.v, the configuration the tests of
    the repository run: net_mgmt hands requests to the driver, the driver's work
    items raise the events the handlers wait for. What lies between - Zephyr's
    net_mgmt - is the class [FakeBacked] with its laws. *)
From S2P Require Import Prelude Platform PbUtil Messages NetEnv FakeWifi.
From S2P Require Import WifiConfig WifiScan.

(** The driver's static storage inside the machine. *)
Class FakeBacked (Cb E : Type) `{KWork} := {
  fake_data : E → fake_wifi_data Cb k_work;
  set_fake : fake_wifi_data Cb k_work → E → E;
  (** the checks net_mgmt makes of a connect request *)
  mgmt_passes : wifi_connect_req_params → bool;
  (** the callback Zephyr passes to the driver's scan operation *)
  wifi_mgmt_scan_cb : Cb;
  (** what that callback puts on the event queue *)
  scan_cb_event : option wifi_scan_result → wifi_scan_event;
}.

Class FakeBackedLaws (Cb E : Type) `{NetLog E, EmitEvent E, WifiNet E, FakeBacked Cb E} : Prop := {
  fb_get_set d (e : E) : fake_data (set_fake d e) = d;
  fb_set_log d (e : E) : net_log (set_fake d e) = net_log e;
  (** the fake interface is the station *)
  fb_iface (e : E) : net_if_get_wifi_sta e = fw_iface (fake_data e);
  (** requests that pass reach the driver's operation and return its result; a connect
      request that does not is refused before the driver, one with a passphrase under 8
      characters always *)
  fb_connect i p (e e' : E) rc :
    wifi_connect i p e = (rc, e') → mgmt_passes p = true → fake_connect p (fake_data e) = (rc, fake_data e');
  fb_refuse i p (e e' : E) rc :
    wifi_connect i p e = (rc, e') → mgmt_passes p = false → rc = - EINVAL ∧ fake_data e' = fake_data e;
  fb_short_psk p psk : cp_psk p = Some psk → blen psk < 8 → mgmt_passes p = false;
  fb_scan i (e e' : E) rc :
    wifi_scan i e = (rc, e') → fake_scan wifi_mgmt_scan_cb (fake_data e) = (rc, fake_data e');
  fb_status i (e : E) :
    wifi_iface_status_get i e = Some (ds_report (fake_iface_status (fake_data e) status_zero).2);
  (** nobody else touches the driver *)
  fb_emit ev (e : E) : fake_data (network_prov_emit_event ev e) = fake_data e;
  fb_cred_delete s (e : E) : fake_data (wifi_credentials_delete_by_ssid s e) = fake_data e;
  fb_cred_set c (e e' : E) rc :
    wifi_credentials_set_personal c e = (rc, e') → fake_data e' = fake_data e;
  (** the scan callback: an entry is a result, NULL is the end *)
  fb_scan_result r : scan_cb_event (Some r) = NET_EVENT_WIFI_SCAN_RESULT r;
  fb_scan_done : scan_cb_event None = NET_EVENT_WIFI_SCAN_DONE;
}.

Section fake_stack.
Context {Cb E : Type} `{NL : NetLog E} `{EE : EmitEvent E} `{!EmitEventLaws E}.
Context `{WN : WifiNet E} `{!WifiNetLaws E} `{KQ : KWork} `{!KWorkLaws}.
Context `{FB : !FakeBacked Cb E} `{!FakeBackedLaws Cb E}.
Context `{HH : KHeap E} `{K : Kernel} `{!KernelLaws} `{PB : PbMsg NetworkConfigPayload} `{UV : UnionViews}.

Local Abbreviation wc_t := (wifi_cfg k_work_delayable).

(** The queue runs the driver's connect work, the event it raises reaches the
    handler (status and connection status share a union), and the retry the handler
    may have scheduled expires. *)
Definition fake_round (wc : wc_t) (e : E) : wc_t * E :=
  let d := fake_data e in
  let '(status, d1) :=
    connect_work_fn (d <| fw_connect_work := k_work_dequeue (fw_connect_work d) |>) in
  round status status wc (set_fake d1 e).

(** Until the driver has nothing to do; [None] when the fuel runs out first. *)
Fixpoint settle (fuel : nat) (wc : wc_t) (e : E) : option (wc_t * E) :=
  if k_work_queued (fw_connect_work (fake_data e)) then
    match fuel with
    | O => None
    | S fuel => let '(wc1, e1) := fake_round wc e in settle fuel wc1 e1
    end
  else Some (wc, e).

(** An attempt the driver is working on: [k] results have come back. *)
Record attempting (n v k : Z) (p : wifi_connect_req_params) (wc : wc_t) (e : E) : Prop := {
  at_params : inflight_params wc = p;
  at_passes : mgmt_passes p = true;
  at_ssid : wc_inflight_ssid wc ≠ [];
  at_max : wc_attempts_max wc = n;
  at_done : wc_attempts_completed wc = k;
  at_quiet : k_work_pending (wc_retry_work wc) = None;
  at_queued : k_work_queued (fw_connect_work (fake_data e)) = true;
  at_next : fw_next_conn (fake_data e) = v;
  at_verdict : verdict (fake_data e) p = v;
  at_err : fw_next_sync_err (fake_data e) = 0;
  at_iface : is_Some (fw_iface (fake_data e));
}.

(** A connect from the snapshot, accepted by the driver. *)
Lemma fake_connect_from_inflight wc (e : E) i :
  fw_iface (fake_data e) = Some i → mgmt_passes (inflight_params wc) = true → fw_next_sync_err (fake_data e) = 0 →
  ∃ e', connect_from_inflight wc e = (0, e') ∧
    fake_connect (inflight_params wc) (fake_data e) = (0, fake_data e') ∧
    net_log e' = net_log e ++ [A_wifi_connect i (inflight_params wc) 0].
Proof.
  intros Hi Hm He. unfold connect_from_inflight, wifi_iface. rewrite fb_iface, Hi.
  destruct (wifi_connect i (inflight_params wc) e) as [rc e'] eqn:Hc.
  pose proof (fb_connect _ _ _ _ _ Hc Hm) as Hf. pose proof (wifi_connect_log _ _ _ _ _ Hc) as Hl.
  destruct (fake_connect_accepted (fake_data e) (inflight_params wc) He) as (d' & Hd & _).
  rewrite Hd in Hf. injection Hf as <- ->. exists e'. by rewrite Hd.
Qed.

(** The driver after the item was taken off and run. *)
Lemma fake_work_data (d : fake_wifi_data Cb k_work) status d1 :
  connect_work_fn (d <| fw_connect_work := k_work_dequeue (fw_connect_work d) |>) = (status, d1) →
  status = fw_next_conn d ∧ fw_connected d1 = (fw_next_conn d =? WIFI_STATUS_CONN_SUCCESS) ∧
  fw_conn_ssid d1 = fw_conn_ssid d ∧ fw_conn_channel d1 = fw_conn_channel d ∧
  fw_iface d1 = fw_iface d ∧ fw_next_sync_err d1 = fw_next_sync_err d ∧
  k_work_queued (fw_connect_work d1) = false ∧
  ∀ p, verdict d1 p = verdict d p.
Proof.
  intros Hw. injection Hw as <- <-. cbn. rewrite k_work_queued_dequeue. done.
Qed.

(** The reason of the final event and of the status report. *)
Definition reason_of (v : Z) : network_prov_cred_fail_reason :=
  if v =? WIFI_STATUS_CONN_AP_NOT_FOUND then NETWORK_PROV_WIFI_NETWORK_NOT_FOUND
  else NETWORK_PROV_WIFI_AUTH_ERROR.
Definition wire_reason_of (v : Z) : Z :=
  if v =? WIFI_STATUS_CONN_AP_NOT_FOUND then WifiConnectFailedReason_WifiNetworkNotFound
  else WifiConnectFailedReason_AuthError.

Lemma final_failure_spec wc (e : E) :
  ∃ wc' e', final_failure wc e = (wc', e') ∧ wc_inflight_ssid wc' = [] ∧
    wc_sta_state wc' = WifiStationState_ConnectionFailed ∧
    wc_fail_reason wc' = wire_reason_of (wc_last_conn_status wc) ∧
    wc_retry_work wc' = wc_retry_work wc ∧ fake_data e' = fake_data e ∧
    net_log e' = net_log e ++ [A_cred_delete (wc_inflight_ssid wc);
                               A_emit (NETWORK_PROV_CRED_FAIL (reason_of (wc_last_conn_status wc)))].
Proof.
  unfold final_failure, reason_of, wire_reason_of. cbn.
  destruct (wc_last_conn_status wc =? _); do 2 eexists; (split; [reflexivity|]); cbn;
    rewrite fb_emit, fb_cred_delete, emit_event_log, cred_delete_log, <- app_assoc; done.
Qed.

(** The end of a round that gives up. *)
Definition after_result (r : wc_t * E) : wc_t * E :=
  let '(wc1, e1) := r in
  match k_work_pending (wc_retry_work wc1) with
  | Some _ => retry_work_handler (wc1 <| wc_retry_work := k_work_fire (wc_retry_work wc1) |>) e1
  | None => (wc1, e1)
  end.

Record gave_up (v : Z) (ssid : bytes) (log : list net_action) (wc' : wc_t) (e' : E) : Prop := {
  gu_closed : wc_inflight_ssid wc' = [];
  gu_state : wc_sta_state wc' = WifiStationState_ConnectionFailed;
  gu_reason : wc_fail_reason wc' = wire_reason_of v;
  gu_idle : k_work_queued (fw_connect_work (fake_data e')) = false;
  gu_quiet : k_work_pending (wc_retry_work wc') = None;
  gu_down : fw_connected (fake_data e') = false;
  gu_log : net_log e' = log ++
    [A_cred_delete ssid; A_emit (NETWORK_PROV_CRED_FAIL (reason_of v))];
}.

Lemma final_failure_gives_up wc (e : E) :
  k_work_pending (wc_retry_work wc) = None → k_work_queued (fw_connect_work (fake_data e)) = false →
  fw_connected (fake_data e) = false →
  ∃ wc' e', after_result (final_failure wc e) = (wc', e') ∧
    gave_up (wc_last_conn_status wc) (wc_inflight_ssid wc) (net_log e) wc' e'.
Proof.
  intros Hq Hk Hc. destruct (final_failure_spec wc e) as (w & e' & -> & H1 & H2 & H3 & H4 & H5 & H6).
  cbn. rewrite H4, Hq. exists w, e'. split; [done|]. split; congruence.
Qed.

(** The retry: one more request with the same parameters. *)
Lemma retry_requests n v k p wc (e : E) i :
  inflight_params wc = p → mgmt_passes p = true → wc_inflight_ssid wc ≠ [] → wc_attempts_max wc = n →
  wc_attempts_completed wc = k → fw_iface (fake_data e) = Some i →
  fw_next_sync_err (fake_data e) = 0 → verdict (fake_data e) p = v →
  fw_connected (fake_data e) = false → is_Some (k_work_pending (wc_retry_work wc)) →
  ∃ wc' e', after_result (wc, e) = (wc', e') ∧ attempting n v k p wc' e' ∧
    wc_inflight_ssid wc' = wc_inflight_ssid wc ∧ fw_connected (fake_data e') = false ∧
    fw_iface (fake_data e') = Some i ∧ net_log e' = net_log e ++ [A_wifi_connect i p 0].
Proof.
  intros Hp Hm Hne Hmax Hdone Hi Herr Hv Hc [ms Hms]. cbn. rewrite Hms.
  set (w := wc <| wc_retry_work := _ |>). unfold retry_work_handler.
  change (wc_inflight_ssid w) with (wc_inflight_ssid wc).
  destruct (blen (wc_inflight_ssid wc) =? 0) eqn:Hl; breflect; [by apply blen_0 in Hl|].
  destruct (fake_connect_from_inflight w e i Hi ltac:(by rewrite <- Hp in Hm) Herr) as (e' & -> & Hf & Hlog). cbn [negb Z.eqb].
  change (inflight_params w) with (inflight_params wc) in *. rewrite Hp in *.
  destruct (fake_connect_accepted (fake_data e) p Herr) as (d' & Hd & Hq & Hn & Hv' & He' & _ & _ & Hi' & Hc').
  rewrite Hd in Hf. injection Hf as Hf. rewrite Hf in *.
  exists w, e'. split; [done|]. split; [|split_and!; first [done|congruence]].
  split; first [done|congruence|apply k_work_pending_fire|rewrite Hi', Hi; eauto].
Qed.

(** A refused round: the last one closes the attempt, an earlier one makes one more
    request. *)
Lemma refused_round n v k p wc (e : E) i :
  0 <= k → n <= UINT32_MAX → (0 < n → k < n) → v ≠ WIFI_STATUS_CONN_SUCCESS →
  attempting n v k p wc e → fw_iface (fake_data e) = Some i →
  ∃ wc' e', fake_round wc e = (wc', e') ∧
    if k + 1 <? n then
      attempting n v (k + 1) p wc' e' ∧ wc_inflight_ssid wc' = wc_inflight_ssid wc ∧
      fw_iface (fake_data e') = Some i ∧ net_log e' = net_log e ++ [A_wifi_connect i p 0]
    else gave_up v (wc_inflight_ssid wc) (net_log e) wc' e'.
Proof.
  intros Hk Hn Hkn Hv [Hp Hm Hne Hmax Hdone Hq Hqd Hnext Hver Herr _] Hi.
  unfold fake_round. destruct (connect_work_fn _) as [status d1] eqn:Hw.
  apply fake_work_data in Hw as (-> & Hc1 & _ & _ & Hi1 & He1 & Hq1 & Hv1).
  rewrite Hnext in *. apply Z.eqb_neq in Hv. rewrite Hv in Hc1. unfold WIFI_STATUS_CONN_SUCCESS in Hv.
  rewrite <- (Hv1 p) in Hver. pose proof (fb_set_log d1 e) as Hl1. rewrite <- Hl1.
  pose proof (fb_get_set d1 e) as Hd1. set (e1 := set_fake d1 e) in *. clearbody e1. subst d1. clear Hl1.
  change (∃ wc' e', after_result (on_connect_result v v wc e1) = (wc', e') ∧
    if k + 1 <? n then
      attempting n v (k + 1) p wc' e' ∧ wc_inflight_ssid wc' = wc_inflight_ssid wc ∧
      fw_iface (fake_data e') = Some i ∧ net_log e' = net_log e1 ++ [A_wifi_connect i p 0]
    else gave_up v (wc_inflight_ssid wc) (net_log e1) wc' e').
  unfold on_connect_result. destruct (blen (wc_inflight_ssid wc) =? 0) eqn:Hl; breflect.
  { by apply blen_0 in Hl. }
  apply Z.eqb_neq in Hv. rewrite Hv. cbv zeta. set (w1 := wc <| wc_last_conn_status := v |>).
  change (wc_attempts_max w1) with (wc_attempts_max wc).
  change (wc_attempts_completed w1) with (wc_attempts_completed wc). rewrite Hmax, Hdone.
  destruct (0 <? n) eqn:Hpos; breflect.
  2:{ destruct (k + 1 <? n) eqn:Hlt; breflect; [lia|]. by apply (final_failure_gives_up w1). }
  rewrite (u32_small (k + 1)) by (unfold UINT32_MAX in *; lia). set (w2 := w1 <| wc_attempts_completed := k + 1 |>).
  change (wc_attempts_completed w2) with (k + 1). change (wc_attempts_max w2) with (wc_attempts_max wc).
  rewrite Hmax. destruct (k + 1 <? n) eqn:Hlt; breflect; [|by apply (final_failure_gives_up w2)].
  set (w3 := w2 <| wc_attempt_failed := true |> <| wc_sta_state := _ |> <| wc_retry_work := _ |>).
  assert (Hpend : is_Some (k_work_pending (wc_retry_work w3))).
  { subst w3. cbn. rewrite k_work_pending_schedule, Hq. eauto. }
  destruct (retry_requests n v (k + 1) p w3 e1 i) as (w' & e' & -> & Ha & Hs & _ & Hi' & Hlog); try done; try congruence.
  exists w', e'. done.
Qed.

(** Refused to the end: the rest of the budget is requested, then the attempt is
    closed. *)
Lemma refused_settles n v p fuel : ∀ k wc (e : E) i,
  0 <= k → n <= UINT32_MAX → (0 < n → k < n) → v ≠ WIFI_STATUS_CONN_SUCCESS →
  attempting n v k p wc e → fw_iface (fake_data e) = Some i →
  (Z.to_nat (Z.max 1 n - 1 - k) < fuel)%nat →
  ∃ wc' e', settle fuel wc e = Some (wc', e') ∧
    gave_up v (wc_inflight_ssid wc)
      (net_log e ++ replicate (Z.to_nat (Z.max 1 n - 1 - k)) (A_wifi_connect i p 0)) wc' e'.
Proof.
  induction fuel as [|fuel IH]; intros k wc e i Hk Hn Hkn Hv Ha Hi Hf; [lia|].
  cbn [settle]. rewrite (at_queued _ _ _ _ _ _ Ha).
  destruct (refused_round n v k p wc e i Hk Hn Hkn Hv Ha Hi) as (w1 & e1 & -> & Hr).
  destruct (k + 1 <? n) eqn:Hlt; breflect.
  - destruct Hr as (Ha1 & Hs & Hi1 & Hl).
    destruct (IH (k + 1) w1 e1 i) as (w2 & e2 & -> & Hg); try done; try lia.
    exists w2, e2. split; [done|]. rewrite Hs, Hl, <- app_assoc in Hg.
    by replace (Z.to_nat (Z.max 1 n - 1 - k)) with (S (Z.to_nat (Z.max 1 n - 1 - (k + 1)))) by lia.
  - exists w1, e1. replace (Z.to_nat (Z.max 1 n - 1 - k)) with O by lia. rewrite app_nil_r.
    split; [|done]. destruct fuel; cbn; by rewrite (gu_idle _ _ _ _ _ Hr).
Qed.
(** An accepted round closes the attempt at once. *)
Lemma accepted_settles n k p wc (e : E) fuel :
  attempting n WIFI_STATUS_CONN_SUCCESS k p wc e →
  ∃ wc' e', settle (S fuel) wc e = Some (wc', e') ∧ wc_inflight_ssid wc' = [] ∧
    wc_sta_state wc' = WifiStationState_Connected ∧ k_work_pending (wc_retry_work wc') = None ∧
    net_log e' = net_log e ++ [A_emit NETWORK_PROV_CRED_SUCCESS] ∧
    fw_connected (fake_data e') = true ∧ fw_conn_ssid (fake_data e') = fw_conn_ssid (fake_data e) ∧
    fw_conn_channel (fake_data e') = fw_conn_channel (fake_data e) ∧
    fw_iface (fake_data e') = fw_iface (fake_data e).
Proof.
  intros [Hp _ Hne Hmax Hdone Hq Hqd Hnext Hver Herr _]. cbn [settle]. rewrite Hqd.
  unfold fake_round. destruct (connect_work_fn _) as [status d1] eqn:Hw.
  apply fake_work_data in Hw as (-> & Hc1 & Hs1 & Hch1 & Hi1 & _ & Hq1 & _).
  rewrite Hnext in *. unfold round, on_connect_result, WIFI_STATUS_CONN_SUCCESS.
  destruct (blen (wc_inflight_ssid wc) =? 0) eqn:Hl; breflect; [by apply blen_0 in Hl|].
  cbn -[settle]. rewrite Hq.
  set (w' := clear_inflight _). set (e' := network_prov_emit_event _ _). exists w', e'.
  assert (Hd : fake_data e' = d1) by (subst e'; by rewrite fb_emit, fb_get_set).
  rewrite Hd. split; [destruct fuel; cbn [settle]; by rewrite Hd, Hq1|].
  split_and!; try done. subst e'. by rewrite emit_event_log, fb_set_log.
Qed.

(** An apply up to its connect request. *)
Lemma apply_opening (wc : wc_t) (e : E) i :
  fw_iface (fake_data e) = Some i →
  (wifi_credentials_set_personal (staged_cred wc) (wifi_credentials_delete_by_ssid (wc_ssid wc) e)).1 = 0 →
  ∃ ec, fake_data ec = fake_data e ∧
    net_log ec = net_log e ++ [A_cred_delete (wc_ssid wc); A_cred_set (staged_cred wc) 0; A_emit NETWORK_PROV_CRED_RECV] ∧
    do_apply_config wc e =
      (let '(ret, e4) := connect_from_inflight (snapshot wc) ec in
       if negb (ret =? 0) then
         (Status_Success, clear_inflight ((snapshot wc) <| wc_sta_state := WifiStationState_ConnectionFailed |>
             <| wc_fail_reason := WifiConnectFailedReason_AuthError |>),
          network_prov_emit_event (NETWORK_PROV_CRED_FAIL NETWORK_PROV_WIFI_AUTH_ERROR)
            (wifi_credentials_delete_by_ssid (wc_ssid wc) e4))
       else (Status_Success, snapshot wc, e4)).
Proof.
  intros Hi Hset. unfold do_apply_config. unfold wifi_iface at 1. rewrite fb_iface, Hi.
  set (ea := wifi_credentials_delete_by_ssid (wc_ssid wc) e) in *.
  destruct (wifi_credentials_set_personal _ ea) as [ret eb] eqn:Hs. cbn in Hset. subst ret. cbn [negb Z.eqb].
  pose proof (fb_cred_set _ _ _ _ Hs) as Hdb. apply cred_set_log in Hs. subst ea.
  rewrite fb_cred_delete in Hdb. rewrite cred_delete_log in Hs.
  exists (network_prov_emit_event NETWORK_PROV_CRED_RECV eb). split; [by rewrite fb_emit|]. split; [|done].
  rewrite emit_event_log, Hs, <- !app_assoc. done.
Qed.

(** A request refused on the spot: no result will come. *)
Lemma apply_refused (wc : wc_t) (e : E) i :
  fw_iface (fake_data e) = Some i →
  (wifi_credentials_set_personal (staged_cred wc) (wifi_credentials_delete_by_ssid (wc_ssid wc) e)).1 = 0 →
  let p := params_of_cred (staged_cred wc) in
  mgmt_passes p = false ∨ fw_next_sync_err (fake_data e) ≠ 0 →
  ∃ wc1 e1 rc, do_apply_config wc e = (Status_Success, wc1, e1) ∧ rc ≠ 0 ∧
    wc_inflight_ssid wc1 = [] ∧ k_work_pending (wc_retry_work wc1) = None ∧
    wc_sta_state wc1 = WifiStationState_ConnectionFailed ∧ wc_fail_reason wc1 = WifiConnectFailedReason_AuthError ∧
    fw_connect_work (fake_data e1) = fw_connect_work (fake_data e) ∧
    net_log e1 = net_log e ++ [A_cred_delete (wc_ssid wc); A_cred_set (staged_cred wc) 0; A_emit NETWORK_PROV_CRED_RECV;
      A_wifi_connect i p rc; A_cred_delete (wc_ssid wc); A_emit (NETWORK_PROV_CRED_FAIL NETWORK_PROV_WIFI_AUTH_ERROR)].
Proof.
  intros Hi Hset p Href. destruct (apply_opening wc e i Hi Hset) as (ec & Hdc & Hlc & ->).
  unfold connect_from_inflight, wifi_iface. rewrite fb_iface, Hdc, Hi.
  destruct (wifi_connect i (inflight_params (snapshot wc)) ec) as [rc e4] eqn:Hc.
  rewrite <- snapshot_params in Hc. fold p in Hc. pose proof (wifi_connect_log _ _ _ _ _ Hc) as Hl.
  assert (Hrc : rc ≠ 0 ∧ fw_connect_work (fake_data e4) = fw_connect_work (fake_data e)).
  { destruct (mgmt_passes p) eqn:Hm; [|by destruct (fb_refuse _ _ _ _ _ Hc Hm) as [-> ->]; rewrite Hdc].
    destruct Href as [?|Herr]; [done|]. pose proof (fb_connect _ _ _ _ _ Hc Hm) as Hf. unfold fake_connect in Hf.
    rewrite Hdc, (proj2 (Z.eqb_neq _ _) Herr) in Hf. cbn [negb] in Hf. injection Hf as <- <-. split; [lia|done]. }
  destruct Hrc as [Hrc Hw]. rewrite (proj2 (Z.eqb_neq _ _) Hrc). cbn [negb].
  do 2 eexists. exists rc. split; [reflexivity|]. split; [done|]. split; [done|]. split; [apply k_work_pending_cancel|].
  split; [done|]. split; [done|]. rewrite fb_emit, fb_cred_delete, emit_event_log, cred_delete_log, Hl, Hlc, <- !app_assoc.
  done.
Qed.

(** An apply the driver accepts is under way. *)
Lemma apply_attempting n (wc : wc_t) (e : E) i :
  wc_attempts_max wc = n → wc_ssid wc ≠ [] →
  fw_iface (fake_data e) = Some i → fw_next_sync_err (fake_data e) = 0 →
  (wifi_credentials_set_personal (staged_cred wc) (wifi_credentials_delete_by_ssid (wc_ssid wc) e)).1 = 0 →
  let p := params_of_cred (staged_cred wc) in
  mgmt_passes p = true →
  ∃ e1, do_apply_config wc e = (Status_Success, snapshot wc, e1) ∧
    attempting n (verdict (fake_data e) p) 0 p (snapshot wc) e1 ∧
    fake_connect p (fake_data e) = (0, fake_data e1) ∧
    net_log e1 = net_log e ++ [A_cred_delete (wc_ssid wc); A_cred_set (staged_cred wc) 0;
      A_emit NETWORK_PROV_CRED_RECV; A_wifi_connect i p 0].
Proof.
  intros Hmax Hne Hi Herr Hset p Hm. destruct (apply_opening wc e i Hi Hset) as (ec & Hdc & Hlc & ->).
  destruct (fake_connect_from_inflight (snapshot wc) ec i) as (e1 & -> & Hf & Hl);
    [by rewrite Hdc|by rewrite <- snapshot_params|by rewrite Hdc|].
  rewrite <- snapshot_params in Hf, Hl. fold p in Hf, Hl. rewrite Hdc in Hf. cbn [negb Z.eqb].
  destruct (fake_connect_accepted (fake_data e) p Herr) as (d' & Hd & Hq & Hn & Hv' & He' & _ & _ & Hi' & _).
  rewrite Hd in Hf. injection Hf as Hf. rewrite Hf in *. exists e1. split; [done|].
  split; [|split; [congruence|by rewrite Hl, Hlc, <- app_assoc]].
  split; try done; [symmetry; apply snapshot_params|apply k_work_pending_cancel|rewrite Hi', Hi; eauto].
Qed.

(** What the verdict means for an attempt under way. *)
Definition ends_as (v : Z) (n i : Z) (p : wifi_connect_req_params) (wc : wc_t) (opening : list net_action)
    (wc2 : wc_t) (e2 : E) : Prop :=
  if v =? WIFI_STATUS_CONN_SUCCESS then
    wc_sta_state wc2 = WifiStationState_Connected ∧
    net_log e2 = opening ++ [A_wifi_connect i p 0; A_emit NETWORK_PROV_CRED_SUCCESS] ∧
    fill_connected_state wc2 e2 =
      mk_connected (default [] (net_if_ipv4_text i e2)) WifiAuthMode_WPA2_PSK (wc_ssid wc)
        (replicate 6 171) (if cp_channel p =? WIFI_CHANNEL_ANY then 1 else cp_channel p)
  else
    wc_sta_state wc2 = WifiStationState_ConnectionFailed ∧ wc_fail_reason wc2 = wire_reason_of v ∧
    net_log e2 = opening ++ replicate (Z.to_nat (Z.max 1 n)) (A_wifi_connect i p 0) ++
      [A_cred_delete (wc_ssid wc); A_emit (NETWORK_PROV_CRED_FAIL (reason_of v))] ∧
    fw_connected (fake_data e2) = false.

Lemma accepted_verdict n (wc : wc_t) (e : E) i :
  0 <= n <= UINT32_MAX → wc_attempts_max wc = n → 1 <= blen (wc_ssid wc) <= SSID_MAX →
  fw_iface (fake_data e) = Some i → fw_next_sync_err (fake_data e) = 0 →
  (wifi_credentials_set_personal (staged_cred wc) (wifi_credentials_delete_by_ssid (wc_ssid wc) e)).1 = 0 →
  let p := params_of_cred (staged_cred wc) in
  let v := verdict (fake_data e) p in
  let opening := net_log e ++ [A_cred_delete (wc_ssid wc); A_cred_set (staged_cred wc) 0;
                               A_emit NETWORK_PROV_CRED_RECV] in
  mgmt_passes p = true →
  ∃ wc1 e1 wc2 e2,
    do_apply_config wc e = (Status_Success, wc1, e1) ∧
    settle (Z.to_nat (Z.max 1 n)) wc1 e1 = Some (wc2, e2) ∧
    wc_inflight_ssid wc2 = [] ∧ k_work_pending (wc_retry_work wc2) = None ∧
    ends_as v n i p wc opening wc2 e2.
Proof.
  intros Hn Hmax Hlen Hi Herr Hset p v opening Hm. unfold ends_as.
  assert (Hne : wc_ssid wc ≠ []) by (intros Hnil; rewrite Hnil in Hlen; unfold blen in Hlen; cbn [length] in Hlen; lia).
  destruct (apply_attempting n wc e i Hmax Hne Hi Herr Hset Hm) as (e1 & Hap & Hat & Hf & Hlog).
  fold p in Hat, Hf, Hlog. fold v in Hat. exists (snapshot wc), e1.
  destruct (fake_connect_accepted (fake_data e) p Herr) as (d' & Hd & _ & _ & _ & _ & Hcs & Hcc & Hi1 & _).
  rewrite Hd in Hf. injection Hf as ->.
  assert (Hcs' : fw_conn_ssid (fake_data e1) = wc_ssid wc).
  { rewrite Hcs. change (cp_ssid p) with (wc_ssid wc). apply take_ge.
    unfold blen, SSID_MAX, WIFI_SSID_MAX_LEN in *. lia. }
  destruct (v =? WIFI_STATUS_CONN_SUCCESS) eqn:Hv; breflect.
  - rewrite Hv in Hat. replace (Z.to_nat (Z.max 1 n)) with (S (pred (Z.to_nat (Z.max 1 n)))) by lia.
    destruct (accepted_settles n 0 p _ e1 (pred (Z.to_nat (Z.max 1 n))) Hat)
      as (w2 & e2 & Hs & Hcl & Hst & Hq & Hl2 & Hc2 & Hs2 & Hch2 & Hi2).
    exists w2, e2. do 4 (split; [done|]). split; [done|].
    split; [rewrite Hl2, Hlog; subst opening; by rewrite <- !app_assoc|].
    unfold fill_connected_state. rewrite fb_iface, Hi2, Hi1, Hi. cbn [mbind option_bind]. rewrite fb_status.
    destruct (fake_status_connected (fake_data e2) status_zero Hc2) as (_ & _ & Hst1 & Hst2 & Hst3 & Hst4).
    { rewrite Hs2, Hcs'. cbn. unfold blen, SSID_MAX in Hlen. lia. }
    rewrite Hst2, Hst3, Hst4, Hch2, Hcc. rewrite Hst2 in Hst1. rewrite Hs2, Hcs' in *.
    rewrite Z.min_l by (unfold CONNECTED_SSID_SIZE, SSID_MAX in *; lia). by rewrite Hst1.
  - destruct (refused_settles n v p (Z.to_nat (Z.max 1 n)) 0 (snapshot wc) e1 i) as (w2 & e2 & Hs & Hg);
      try done; try lia; [by rewrite Hi1|].
    exists w2, e2. destruct Hg. do 4 (split; [done|]). split; [done|]. split; [done|]. split; [|done].
    rewrite gu_log0, Hlog. subst opening. rewrite <- !app_assoc. cbn [app]. do 4 f_equal.
    replace (Z.to_nat (Z.max 1 n)) with (S (Z.to_nat (Z.max 1 n - 1 - 0))) by lia. done.
Qed.
(** C10: The whole stack agrees with the network. Credentials are staged, within their
    bounds, the interface is there and the store takes them; they are applied on the
    simulated driver, and its work items and the handler's retries run until nothing is
    left to do. A request that is refused on the spot - by net_mgmt, as one with a
    passphrase of 1 to 7 characters always is, or by the driver - is the only one made:
    the apply is answered with success, the attempt is closed as an authentication
    failure, the credentials are gone from the store and CRED_FAIL says so, and there is
    nothing to wait for. Otherwise the attempt ends within the budget and ends as the
    driver's verdict on exactly those credentials says. If they are right, one connect
    request was made, CRED_SUCCESS follows, and the status report names the network asked
    for. If not, exactly as many connect requests as the budget allows were made, the
    credentials are gone from the store, CRED_FAIL carries the reason of the verdict and
    the status report says the same; the driver is down. *)
Theorem fake_apply_verdict n (wc : wc_t) (e : E) i :
  0 <= n <= UINT32_MAX → wc_attempts_max wc = n → 1 <= blen (wc_ssid wc) <= SSID_MAX →
  fw_iface (fake_data e) = Some i →
  (wifi_credentials_set_personal (staged_cred wc) (wifi_credentials_delete_by_ssid (wc_ssid wc) e)).1 = 0 →
  let p := params_of_cred (staged_cred wc) in
  let opening := net_log e ++ [A_cred_delete (wc_ssid wc); A_cred_set (staged_cred wc) 0;
                               A_emit NETWORK_PROV_CRED_RECV] in
  (1 <= blen (wc_pass wc) < 8 → mgmt_passes p = false) ∧
  ∃ wc1 e1, do_apply_config wc e = (Status_Success, wc1, e1) ∧
    if mgmt_passes p && (fw_next_sync_err (fake_data e) =? 0) then
      ∃ wc2 e2, settle (Z.to_nat (Z.max 1 n)) wc1 e1 = Some (wc2, e2) ∧
        wc_inflight_ssid wc2 = [] ∧ k_work_pending (wc_retry_work wc2) = None ∧
        ends_as (verdict (fake_data e) p) n i p wc opening wc2 e2
    else
      wc_inflight_ssid wc1 = [] ∧ k_work_pending (wc_retry_work wc1) = None ∧
      wc_sta_state wc1 = WifiStationState_ConnectionFailed ∧ wc_fail_reason wc1 = WifiConnectFailedReason_AuthError ∧
      fw_connect_work (fake_data e1) = fw_connect_work (fake_data e) ∧
      ∃ rc, rc ≠ 0 ∧ net_log e1 = opening ++ [A_wifi_connect i p rc; A_cred_delete (wc_ssid wc);
        A_emit (NETWORK_PROV_CRED_FAIL NETWORK_PROV_WIFI_AUTH_ERROR)].
Proof.
  intros Hn Hmax Hlen Hi Hset p opening. split.
  { intros Hpass. apply (fb_short_psk p (wc_pass wc)); [|lia]. unfold p, params_of_cred. cbn [cp_psk].
    change (cr_pass (staged_cred wc)) with (wc_pass wc). by rewrite (proj2 (Z.ltb_lt 0 _)) by lia. }
  destruct (mgmt_passes p && _) eqn:Hok.
  - apply andb_prop in Hok as [Hm Herr]. breflect.
    destruct (accepted_verdict n wc e i Hn Hmax Hlen Hi Herr Hset Hm) as (wc1 & e1 & wc2 & e2 & Ha & Hrest).
    exists wc1, e1. split; [exact Ha|]. by exists wc2, e2.
  - apply andb_false_iff in Hok. destruct (apply_refused wc e i Hi Hset) as (wc1 & e1 & rc & Ha & Hrc & H1 & H2 & H3 & H4 & H5 & Hl).
    { destruct Hok as [?|Herr]; [by left|right]. by breflect. }
    exists wc1, e1. split; [exact Ha|]. do 5 (split; [done|]). exists rc. split; [done|].
    unfold opening. by rewrite <- app_assoc.
Qed.

(** ** The scan endpoint *)

(** What the driver's scan work puts on the event queue. *)
Definition scan_events (e : E) : option (list wifi_scan_event) :=
  match scan_work_fn (fake_data e) with
  | Some calls => Some ((fun c : scan_call (Cb := Cb) => scan_cb_event c.2) <$> calls)
  | None => None
  end.

Lemma scan_events_eq (e : E) cb :
  fw_scan_cb (fake_data e) = Some cb →
  scan_events e = Some ((NET_EVENT_WIFI_SCAN_RESULT ∘ scan_entry_of <$> fw_aps (fake_data e))
                        ++ [NET_EVENT_WIFI_SCAN_DONE]).
Proof.
  intros Hc. unfold scan_events, scan_work_fn. rewrite Hc. cbn [mbind option_bind].
  rewrite fmap_app. change (map ?f ?l) with (f <$> l). rewrite <- list_fmap_compose. do 2 f_equal.
  - apply list_fmap_ext. intros _ ap _. cbn. apply fb_scan_result.
  - cbn. by rewrite fb_scan_done.
Qed.

Lemma reported_all (aps : list fake_wifi_ap) :
  reported_results ((NET_EVENT_WIFI_SCAN_RESULT ∘ scan_entry_of <$> aps)
    ++ [NET_EVENT_WIFI_SCAN_DONE]) = scan_entry_of <$> aps.
Proof. induction aps as [|ap aps IH]; [done|]. cbn. by f_equal. Qed.

(** The wait ends with the last event. *)
Lemma wait_all max (aps : list fake_wifi_ap) : ∀ sc : wifi_scan_st k_sem,
  k_sem_count (sc_done_sem sc) = 0 → k_sem_limit (sc_done_sem sc) = 1 →
  (wait_scan_done max ((NET_EVENT_WIFI_SCAN_RESULT ∘ scan_entry_of <$> aps)
    ++ [NET_EVENT_WIFI_SCAN_DONE]) sc).1.2 = [].
Proof.
  induction aps as [|ap aps IH]; intros sc Hc Hl; cbn -[on_scan_result];
    assert (Hn : k_sem_try_take (sc_done_sem sc) = None) by (apply k_sem_take_none; lia);
    rewrite Hn.
  - cbn. case_match; [done|]. done.
  - apply IH; unfold on_scan_result; by destruct (_ <=? _)%nat.
Qed.

Lemma entry_of_ap ap :
  result_of_entry (entry_of_result (scan_entry_of ap)) =
    mk_wifi_result (take (Z.to_nat (Z.min (ap_ssid_len ap) 32)) (ap_ssid ap)) (ap_channel ap)
      (ap_rssi ap) (take 6 (ap_bssid ap)) (auth_from_zephyr (ap_security ap)).
Proof.
  unfold result_of_entry, entry_of_result, scan_entry_of.
  cbn -[take Z.min auth_from_zephyr]. rewrite !take_take. f_equal.
  unfold WIFI_SSID_MAX_LEN. f_equal. lia.
Qed.

(** C22: A blocking scan on the simulated driver answers Success with the scan
    finished, and what a client then pages through is every programmed access point,
    once and in order, up to the capacity of the handler's table: names cut to 32
    bytes, the authentication mode translated, and no event left over. *)
Theorem fake_scan_complete max pl (sc : wifi_scan_st k_sem) (e : E) i want events :
  fw_iface (fake_data e) = Some i → k_sem_limit (sc_done_sem sc) = 1 →
  is_blocking pl = true → 1 <= want →
  scan_events (wifi_scan i e).2 = Some events →
  ∃ sc' e', scan_start max pl events sc e = (Status_Success, [], sc', e') ∧
    sc_finished sc' = true ∧
    ScanPage.fetch_all result_of_entry (S (length (sc_entries sc')))
        (sc_entries sc') 0 want =
      (fun ap => mk_wifi_result (take (Z.to_nat (Z.min (ap_ssid_len ap) 32)) (ap_ssid ap)) (ap_channel ap)
         (ap_rssi ap) (take 6 (ap_bssid ap)) (auth_from_zephyr (ap_security ap)))
      <$> take max (fw_aps (fake_data e)).
Proof.
  intros Hi Hlim Hb Hw Hev.
  destruct (wifi_scan i e) as [rc e1] eqn:Hs. pose proof (fb_scan _ _ _ _ Hs) as Hf.
  injection Hf as <- Hd. cbn [snd] in Hev.
  rewrite (scan_events_eq e1 wifi_mgmt_scan_cb) in Hev by (by rewrite <- Hd). injection Hev as <-.
  assert (Haps : fw_aps (fake_data e1) = fw_aps (fake_data e)) by (by rewrite <- Hd). rewrite Haps.
  unfold scan_start, do_scan_start. rewrite fb_iface, Hi, Hs. cbn [negb Z.eqb andb].
  rewrite Hb. set (sc1 := _ <| sc_finished := false |>).
  assert (Hc1 : k_sem_count (sc_done_sem sc1) = 0) by apply k_sem_count_reset.
  assert (Hl1 : k_sem_limit (sc_done_sem sc1) = 1) by (subst sc1; cbn; by rewrite k_sem_limit_reset).
  set (evs := _ ++ _).
  destruct (wait_collects max evs sc1) as (rest & sc' & Hwait & He & Hfin & _ & _);
    [cbn; lia|done|done|].
  pose proof (wait_all max (fw_aps (fake_data e)) sc1 Hc1 Hl1) as Hrest. fold evs in Hrest.
  assert (Hdone : bool_decide (NET_EVENT_WIFI_SCAN_DONE ∈ evs) = true).
  { apply bool_decide_eq_true. subst evs. set_solver. }
  rewrite Hwait in *. rewrite Hdone in *. cbn in Hrest. subst rest. cbn [andb Z.eqb Status_Success].
  exists sc', e1. split; [done|]. split; [done|].
  rewrite ScanPage.fetch_all_spec; [|lia|done|cbn; lia].
  subst evs. rewrite He, reported_all. change (sc_entries sc1) with (@nil scan_entry).
  cbn [app]. rewrite <- !fmap_take. change (drop (Z.to_nat 0) ?l) with l. rewrite <- !list_fmap_compose.
  apply list_fmap_ext. intros _ ap _. apply entry_of_ap.
Qed.
End fake_stack.
