(* ===== verification/ThreadConfig.v ===== *)
(** * ThreadConfig: the prov-config endpoint for Thread (src/thread_config_handler.c)

    The staged dataset, the attach outcome and its race between the OpenThread
    callback and the timeout. [tc_dataset] is the first [mLength] bytes of
    [dataset.mTlvs]. *)
From S2P Require Import Prelude Platform PbUtil Messages NetEnv.

Definition ATTACH_TIMEOUT : Z := 30000.

(** [static struct { ... } tc]. *)
Record thread_cfg (Work : Type) := mk_tc {
  tc_dataset : bytes;
  tc_dataset_staged : bool;
  tc_state : Z;
  tc_fail_reason : Z;
  tc_pending : Z;
  tc_cb_registered : bool;
  tc_attach_timeout : Work;
}.
Arguments mk_tc {_}.
Arguments tc_dataset {_} _.
Arguments tc_dataset_staged {_} _.
Arguments tc_state {_} _.
Arguments tc_fail_reason {_} _.
Arguments tc_pending {_} _.
Arguments tc_cb_registered {_} _.
Arguments tc_attach_timeout {_} _.
#[export] Instance thread_cfg_eta {W} : FieldEta (thread_cfg W) := fun r =>
  mk_tc (tc_dataset r) (tc_dataset_staged r) (tc_state r) (tc_fail_reason r) (tc_pending r)
    (tc_cb_registered r) (tc_attach_timeout r).

Definition role_is_attached (role : otDeviceRole) : bool :=
  match role with
  | OT_DEVICE_ROLE_CHILD | OT_DEVICE_ROLE_ROUTER | OT_DEVICE_ROLE_LEADER => true
  | _ => false
  end.

Section thread_config.
Context {E : Type} `{KHeap E} `{NetLog E} `{EmitEvent E} `{OpenThread E} `{K : Kernel}.
Context `{PbMsg NetworkConfigPayload} `{UnionViews}.

Local Abbreviation tc_t := (thread_cfg k_work_delayable).

(** [memset(&tc, 0, sizeof(tc))]. *)
Definition tc_zero : tc_t := mk_tc [] false ThreadNetworkState_Attached 0 0 false k_work_init.

(** [atomic_cas(&tc.pending, 1, 0)]. *)
Definition claim (tc : tc_t) : bool * tc_t :=
  if tc_pending tc =? 1 then (true, tc <| tc_pending := 0 |>) else (false, tc).

Definition on_attached (tc : tc_t) (e : E) : tc_t * E :=
  let '(won, tc1) := claim tc in
  if negb won then (tc1, e)
  else
    (tc1 <| tc_state := ThreadNetworkState_Attached |>
         <| tc_attach_timeout := k_work_cancel (tc_attach_timeout tc1) |>,
     network_prov_emit_event NETWORK_PROV_CRED_SUCCESS e).

(** The work handler; the queue has already taken the item off. *)
Definition attach_timeout_fn (tc : tc_t) (e : E) : tc_t * E :=
  let '(won, tc1) := claim tc in
  if negb won then (tc1, e)
  else
    (tc1 <| tc_state := ThreadNetworkState_AttachingFailed |>
         <| tc_fail_reason := ThreadAttachFailedReason_ThreadNetworkNotFound |>,
     network_prov_emit_event (NETWORK_PROV_CRED_FAIL NETWORK_PROV_WIFI_NETWORK_NOT_FOUND) e).

(** [role_changed] is [flags & OT_CHANGED_THREAD_ROLE]. *)
Definition ot_state_changed (role_changed : bool) (tc : tc_t) (e : E) : tc_t * E :=
  if negb role_changed then (tc, e)
  else if role_is_attached (otThreadGetDeviceRole e) then on_attached tc e else (tc, e).

Definition network_prov_thread_config_init (e : E) : Z * tc_t * E :=
  let tc := tc_zero <| tc_state := ThreadNetworkState_Dettached |>
                    <| tc_attach_timeout := k_work_init |> in
  let '(ret, e1) := openthread_cb_register e in
  if negb (ret =? 0) then (ret, tc, e1) else (0, tc <| tc_cb_registered := true |>, e1).

Definition network_prov_thread_config_deinit (tc : tc_t) (e : E) : tc_t * E :=
  let tc1 := tc <| tc_attach_timeout := k_work_cancel (tc_attach_timeout tc) |> in
  if tc_cb_registered tc1
  then (tc1 <| tc_cb_registered := false |>, openthread_cb_unregister e) else (tc1, e).

Definition network_prov_thread_config_reset (tc : tc_t) (e : E) : tc_t * E :=
  let tc1 := tc <| tc_attach_timeout := k_work_cancel (tc_attach_timeout tc) |>
                <| tc_dataset_staged := false |> <| tc_pending := 0 |>
                <| tc_state := ThreadNetworkState_Dettached |> <| tc_dataset := [] |> in
  (tc1, (otThreadSetEnabled false e).2).

Definition network_prov_thread_config_erase (tc : tc_t) (e : E) : Z * tc_t * E :=
  let tc1 := tc <| tc_attach_timeout := k_work_cancel (tc_attach_timeout tc) |>
                <| tc_dataset_staged := false |> <| tc_pending := 0 |>
                <| tc_state := ThreadNetworkState_Dettached |> in
  let '(err, e1) := otInstanceErasePersistentInfo (otThreadSetEnabled false e).2 in
  if negb (err =? OT_ERROR_NONE) then (- EIO, tc1, e1) else (0, tc1, e1).

Definition network_prov_thread_is_commissioned (e : E) : bool := otDatasetIsCommissioned e.

(** The OpenThread calls of an apply. *)
Definition ot_apply (dataset : bytes) (e : E) : Z * E :=
  let '(err, e1) := otDatasetSetActiveTlvs dataset e in
  if err =? OT_ERROR_NONE then otThreadSetEnabled true (otIp6SetEnabled e1) else (err, e1).

Definition do_apply_config (tc : tc_t) (e : E) : Z * tc_t * E :=
  if negb (tc_dataset_staged tc) then (Status_InvalidArgument, tc, e)
  else
    let '(err, e1) := ot_apply (tc_dataset tc) e in
    if negb (err =? OT_ERROR_NONE) then
      (Status_Success,
       tc <| tc_state := ThreadNetworkState_AttachingFailed |>
          <| tc_fail_reason := ThreadAttachFailedReason_DatasetInvalid |>,
       network_prov_emit_event (NETWORK_PROV_CRED_FAIL NETWORK_PROV_WIFI_AUTH_ERROR)
         (network_prov_emit_event NETWORK_PROV_CRED_RECV e1))
    else
      let e2 := network_prov_emit_event NETWORK_PROV_CRED_RECV e1 in
      let tc1 := tc <| tc_state := ThreadNetworkState_Attaching |> <| tc_pending := 1 |> in
      if role_is_attached (otThreadGetDeviceRole e2) then
        let '(tc2, e3) := on_attached tc1 e2 in (Status_Success, tc2, e3)
      else
        (Status_Success,
         tc1 <| tc_attach_timeout := k_work_reschedule ATTACH_TIMEOUT (tc_attach_timeout tc1) |>, e2).

Definition do_set_config (dataset : bytes) (tc : tc_t) : Z * tc_t :=
  if (blen dataset =? 0) || (Z.of_nat OT_OPERATIONAL_DATASET_MAX_LENGTH <? blen dataset)
  then (Status_InvalidArgument, tc)
  else (Status_Success, tc <| tc_dataset := dataset |> <| tc_dataset_staged := true |>).

Definition network_prov_thread_config_set_and_apply (dataset : option (list Z)) (len : Z) (tc : tc_t) (e : E)
    : Z * tc_t * E :=
  match dataset with
  | None => (- EINVAL, tc, e)
  | Some d =>
      if (len =? 0) || (Z.of_nat OT_OPERATIONAL_DATASET_MAX_LENGTH <? len) then (- EINVAL, tc, e)
      else
        let '(st, tc1, e1) := do_apply_config
          (tc <| tc_dataset := take (Z.to_nat len) d |> <| tc_dataset_staged := true |>) e in
        (if st =? Status_Success then 0 else - EIO, tc1, e1)
  end.

(** The name field has room for 16 characters and the terminator. *)
Definition fill_attached_state (e : E) : ThreadAttachState :=
  mk_attached (otLinkGetPanId e) (take OT_EXT_PAN_ID_SIZE (otThreadGetExtendedPanId e))
    (otLinkGetChannel e) (str_bytes (strncpy 16 (otThreadGetNetworkName e))).

Definition get_status_resp (tc : tc_t) (e : E) : NetworkConfigPayload :=
  mk_config TypeRespGetThreadStatus (cfg_resp_get_thread_status Status_Success (tc_state tc)
    (if tc_state tc =? ThreadNetworkState_Attached then tstate_attached (fill_attached_state e)
     else if tc_state tc =? ThreadNetworkState_AttachingFailed then tstate_fail_reason (tc_fail_reason tc)
     else tstate_none)).

Definition encode_get_status (tc : tc_t) (e : E) : Z * obuf * E :=
  network_prov_pb_encode (get_status_resp tc e) e.

Definition simple_resp (type status : Z) : NetworkConfigPayload :=
  mk_config type (if type =? TypeRespSetThreadConfig then cfg_resp_set_thread_config status
                  else cfg_resp_apply_thread_config status).

Definition encode_simple (type status : Z) (e : E) : Z * obuf * E :=
  network_prov_pb_encode (simple_resp type status) e.

Definition network_prov_thread_config_handler (inbuf : bytes) (tc : tc_t) (e : E)
    : Z * obuf * tc_t * E :=
  match pb_decode inbuf with
  | None => (- EINVAL, no_buf, tc, e)
  | Some req =>
      if cfg_msg req =? TypeCmdSetThreadConfig then
        let '(s, tc1) := do_set_config (view_set_thread (cfg_payload req)) tc in
        let '(rc, out, e1) := encode_simple TypeRespSetThreadConfig s e in (rc, out, tc1, e1)
      else if cfg_msg req =? TypeCmdApplyThreadConfig then
        let '(s, tc1, e1) := do_apply_config tc e in
        let '(rc, out, e2) := encode_simple TypeRespApplyThreadConfig s e1 in (rc, out, tc1, e2)
      else if cfg_msg req =? TypeCmdGetThreadStatus then
        let '(rc, out, e1) := encode_get_status tc e in (rc, out, tc, e1)
      else (- ENOTSUP, no_buf, tc, e)
  end.

End thread_config.

(** ** What the history says *)
Definition is_recv (a : net_action) : bool :=
  match a with A_emit NETWORK_PROV_CRED_RECV => true | _ => false end.
Definition is_terminal (a : net_action) : bool :=
  match a with
  | A_emit NETWORK_PROV_CRED_SUCCESS | A_emit (NETWORK_PROV_CRED_FAIL _) => true
  | _ => false
  end.
Definition recvs (log : list net_action) : Z := blen (filter is_recv log).
Definition terminals (log : list net_action) : Z := blen (filter is_terminal log).

(** The last terminal event: [Some true] for a success. *)
Definition outcome_step (o : option bool) (a : net_action) : option bool :=
  match a with
  | A_emit NETWORK_PROV_CRED_SUCCESS => Some true
  | A_emit (NETWORK_PROV_CRED_FAIL _) => Some false
  | _ => o
  end.
Definition last_outcome (log : list net_action) : option bool := foldl outcome_step None log.

(** Datasets handed to OpenThread have a legal size. *)
Definition dataset_legal (a : net_action) : Prop :=
  match a with
  | A_ot_dataset_set d _ => 1 <= blen d <= Z.of_nat OT_OPERATIONAL_DATASET_MAX_LENGTH
  | _ => True
  end.

Lemma recvs_snoc l a : recvs (l ++ [a]) = recvs l + (if is_recv a then 1 else 0).
Proof.
  unfold recvs, blen. rewrite filter_app, length_app, filter_cons, filter_nil.
  case_decide as Hd; destruct (is_recv a); cbn; try lia; by exfalso; auto.
Qed.
Lemma terminals_snoc l a : terminals (l ++ [a]) = terminals l + (if is_terminal a then 1 else 0).
Proof.
  unfold terminals, blen. rewrite filter_app, length_app, filter_cons, filter_nil.
  case_decide as Hd; destruct (is_terminal a); cbn; try lia; by exfalso; auto.
Qed.
Lemma last_outcome_snoc l a : last_outcome (l ++ [a]) = outcome_step (last_outcome l) a.
Proof. unfold last_outcome. by rewrite foldl_app. Qed.

Section thread_facts.
Context {E : Type} `{HH : KHeap E} `{NL : NetLog E} `{!NetHeapLaws E}.
Context `{EE : EmitEvent E} `{!EmitEventLaws E} `{OT : OpenThread E} `{!OpenThreadLaws E}.
Context `{K : Kernel} `{!KernelLaws} `{PB : PbMsg NetworkConfigPayload} `{UV : UnionViews}.

Local Abbreviation tc_t := (thread_cfg k_work_delayable).

(** Entry points: requests, the API, the OpenThread callback, the timer. *)
Inductive thread_step : tc_t * E → tc_t * E → Prop :=
| ts_init tc e rc tc' e' : tc_cb_registered tc = false →
    network_prov_thread_config_init e = (rc, tc', e') → thread_step (tc, e) (tc', e')
| ts_deinit tc e tc' e' :
    network_prov_thread_config_deinit tc e = (tc', e') → thread_step (tc, e) (tc', e')
| ts_request inbuf tc e rc out tc' e' : tc_cb_registered tc = true →
    network_prov_thread_config_handler inbuf tc e = (rc, out, tc', e') →
    thread_step (tc, e) (tc', e')
| ts_apply d len tc e rc tc' e' : tc_cb_registered tc = true →
    0 <= len → (∀ bs, d = Some bs → len <= blen bs) →
    network_prov_thread_config_set_and_apply d len tc e = (rc, tc', e') →
    thread_step (tc, e) (tc', e')
| ts_callback changed tc e tc' e' : tc_cb_registered tc = true →
    ot_state_changed changed tc e = (tc', e') → thread_step (tc, e) (tc', e')
| ts_timeout tc e tc' e' : is_Some (k_work_pending (tc_attach_timeout tc)) →
    attach_timeout_fn (tc <| tc_attach_timeout := k_work_fire (tc_attach_timeout tc) |>) e = (tc', e') →
    thread_step (tc, e) (tc', e')
| ts_reset tc e tc' e' : tc_cb_registered tc = true →
    network_prov_thread_config_reset tc e = (tc', e') → thread_step (tc, e) (tc', e')
| ts_erase tc e rc tc' e' :
    network_prov_thread_config_erase tc e = (rc, tc', e') → thread_step (tc, e) (tc', e')
| ts_env tc e e' : net_log e' = net_log e → thread_step (tc, e) (tc, e').

Record thread_inv (s : tc_t * E) : Prop := {
  ti_pending : tc_pending s.1 = 0 ∨ tc_pending s.1 = 1;
  ti_count : terminals (net_log s.2) + tc_pending s.1 <= recvs (net_log s.2);
  ti_staged : blen (tc_dataset s.1) <= Z.of_nat OT_OPERATIONAL_DATASET_MAX_LENGTH ∧
    (tc_dataset_staged s.1 = true → 1 <= blen (tc_dataset s.1));
  ti_attaching : tc_cb_registered s.1 = true → tc_state s.1 = ThreadNetworkState_Attaching →
    tc_pending s.1 = 1 ∧ is_Some (k_work_pending (tc_attach_timeout s.1));
  ti_report : tc_cb_registered s.1 = true →
    (tc_state s.1 = ThreadNetworkState_Attached → last_outcome (net_log s.2) = Some true) ∧
    (tc_state s.1 = ThreadNetworkState_AttachingFailed → last_outcome (net_log s.2) = Some false);
  ti_log : Forall dataset_legal (net_log s.2);
}.

Ltac log_simpl := rewrite ?emit_event_log, ?recvs_snoc, ?terminals_snoc, ?last_outcome_snoc;
  cbn [is_recv is_terminal outcome_step].

Lemma forall_snoc (P : net_action → Prop) l a : Forall P l → P a → Forall P (l ++ [a]).
Proof. intros. apply Forall_app. by split; [|constructor]. Qed.

(** The invariant without the promise that a timer runs. *)
Record claim_inv (tc : tc_t) (e : E) : Prop := {
  ci_pending : tc_pending tc = 0 ∨ tc_pending tc = 1;
  ci_count : terminals (net_log e) + tc_pending tc <= recvs (net_log e);
  ci_staged : blen (tc_dataset tc) <= Z.of_nat OT_OPERATIONAL_DATASET_MAX_LENGTH ∧
    (tc_dataset_staged tc = true → 1 <= blen (tc_dataset tc));
  ci_log : Forall dataset_legal (net_log e);
}.

Lemma inv_claim tc (e : E) : thread_inv (tc, e) → claim_inv tc e.
Proof. intros []. by split. Qed.

Lemma on_attached_wins tc (e : E) tc' e' :
  claim_inv tc e → tc_pending tc = 1 → on_attached tc e = (tc', e') → thread_inv (tc', e').
Proof.
  intros [H1 H2 H3 H4] Hp. unfold on_attached, claim. rewrite Hp. cbn. intros ?; simplify_eq.
  split; cbn; log_simpl; try done; try lia. by apply forall_snoc.
Qed.

Lemma on_attached_loses tc (e : E) : tc_pending tc = 0 → on_attached tc e = (tc, e).
Proof. intros Hp. unfold on_attached, claim. by rewrite Hp. Qed.

Lemma on_attached_inv tc (e : E) tc' e' :
  thread_inv (tc, e) → on_attached tc e = (tc', e') → thread_inv (tc', e').
Proof.
  intros Hi Hr. destruct (ti_pending _ Hi) as [Hp|Hp]; cbn in Hp.
  - rewrite on_attached_loses in Hr by done. by simplify_eq.
  - eapply on_attached_wins; [by apply inv_claim|done..].
Qed.

Lemma timeout_inv tc (e : E) tc' e' :
  thread_inv (tc, e) →
  attach_timeout_fn (tc <| tc_attach_timeout := k_work_fire (tc_attach_timeout tc) |>) e = (tc', e') →
  thread_inv (tc', e').
Proof.
  intros [H1 H2 H3 H4 H5 H6]. cbn in *. unfold attach_timeout_fn, claim. cbn.
  destruct H1 as [Hp|Hp]; rewrite Hp; cbn; intros ?; simplify_eq; split; cbn; log_simpl;
    try done; try lia; try by left.
  - intros Hc Hs. destruct (H4 Hc Hs) as [? _]. congruence.
  - by apply forall_snoc.
Qed.

Lemma ot_apply_log d (e : E) err e' :
  ot_apply d e = (err, e') → 1 <= blen d <= Z.of_nat OT_OPERATIONAL_DATASET_MAX_LENGTH →
  recvs (net_log e') = recvs (net_log e) ∧ terminals (net_log e') = terminals (net_log e) ∧
  last_outcome (net_log e') = last_outcome (net_log e) ∧
  (Forall dataset_legal (net_log e) → Forall dataset_legal (net_log e')).
Proof.
  unfold ot_apply. intros Hr Hd. destruct (otDatasetSetActiveTlvs d e) as [er e1] eqn:H1.
  apply ot_dataset_log in H1. destruct (er =? OT_ERROR_NONE).
  - apply ot_enable_log in Hr. rewrite Hr, ot_ip6_log, H1.
    rewrite !recvs_snoc, !terminals_snoc, !last_outcome_snoc. cbn. split_and!; try lia; try done.
    intros. by repeat apply forall_snoc.
  - simplify_eq. rewrite H1, recvs_snoc, terminals_snoc, last_outcome_snoc. cbn.
    split_and!; try lia; try done. intros. by apply forall_snoc.
Qed.

Lemma thread_apply_inv tc (e : E) st tc' e' :
  thread_inv (tc, e) → do_apply_config tc e = (st, tc', e') → thread_inv (tc', e').
Proof.
  intros Hi. unfold do_apply_config. destruct (tc_dataset_staged tc) eqn:Hs; cbn [negb];
    [|intros ?; by simplify_eq].
  destruct Hi as [H1 H2 [H3a H3b] H4 H5 H6]. cbn in *.
  destruct (ot_apply (tc_dataset tc) e) as [err e1] eqn:Ha.
  apply ot_apply_log in Ha as (Hr & Ht & Ho & Hl); [|auto]. specialize (Hl H6).
  destruct (err =? OT_ERROR_NONE); cbn [negb].
  2:{ intros ?; simplify_eq. split; cbn; log_simpl; rewrite ?Hr, ?Ht; try done; try lia.
      by repeat apply forall_snoc. }
  cbv zeta. set (e2 := network_prov_emit_event NETWORK_PROV_CRED_RECV e1).
  assert (Hc : claim_inv (tc <| tc_state := ThreadNetworkState_Attaching |> <| tc_pending := 1 |>) e2).
  { split; cbn; unfold e2; log_simpl; rewrite ?Hr, ?Ht; try done; [by right|lia|].
    by apply forall_snoc. }
  destruct (role_is_attached _).
  - intros ?; simplify_eq. exact (on_attached_wins _ _ _ _ Hc eq_refl eq_refl).
  - intros ?; simplify_eq. destruct Hc as [C1 C2 C3 C4]. split; cbn; try done.
    + intros _ _. rewrite k_work_pending_reschedule. eauto.
Qed.

Lemma thread_set_config_inv d tc (e : E) st tc' :
  thread_inv (tc, e) → do_set_config d tc = (st, tc') → thread_inv (tc', e).
Proof.
  intros Hi. unfold do_set_config.
  destruct ((blen d =? 0) || (_ <? blen d)) eqn:Hc; intros ?; simplify_eq; [done|]. breflect.
  destruct Hi as [A1 A2 A3 A4 A5 A6]. split; cbn in *; try done.
  split; [done|]. unfold blen in *. lia.
Qed.

Lemma thread_inv_log tc (e e' : E) :
  net_log e' = net_log e → thread_inv (tc, e) → thread_inv (tc, e').
Proof. intros Hl []. split; cbn in *; rewrite ?Hl; auto. Qed.

Lemma thread_handler_state inbuf tc (e : E) rc out tc' e' :
  network_prov_thread_config_handler inbuf tc e = (rc, out, tc', e') →
  ∃ e1, net_log e' = net_log e1 ∧
    ((tc' = tc ∧ e1 = e) ∨ (∃ d st, do_set_config d tc = (st, tc') ∧ e1 = e) ∨
     ∃ st, do_apply_config tc e = (st, tc', e1)).
Proof.
  unfold network_prov_thread_config_handler.
  destruct (pb_decode inbuf) as [req|]; [|intros ?; simplify_eq; eauto 6].
  destruct (_ =? TypeCmdSetThreadConfig); [|destruct (_ =? TypeCmdApplyThreadConfig);
    [|destruct (_ =? TypeCmdGetThreadStatus); [|intros ?; simplify_eq; eauto 6]]].
  - destruct (do_set_config _ tc) as [s w1] eqn:Hs. unfold encode_simple.
    pose proof (pb_encode_log (simple_resp TypeRespSetThreadConfig s) e) as Hlog.
    destruct (network_prov_pb_encode _ _) as [[r o] e2]. intros ?; simplify_eq. eauto 10.
  - destruct (do_apply_config tc e) as [[s w1] e1] eqn:Hs. unfold encode_simple.
    pose proof (pb_encode_log (simple_resp TypeRespApplyThreadConfig s) e1) as Hlog.
    destruct (network_prov_pb_encode _ _) as [[r o] e2]. intros ?; simplify_eq. eauto 10.
  - unfold encode_get_status. pose proof (pb_encode_log (get_status_resp tc e) e) as Hlog.
    destruct (network_prov_pb_encode _ _) as [[r o] e2]. intros ?; simplify_eq. eauto 10.
Qed.

(** Steps that only touch OpenThread and drop the outcome. *)
Lemma quiet_inv tc (e e' : E) tc' acts :
  thread_inv (tc, e) → net_log e' = net_log e ++ acts →
  (∀ a, a ∈ acts → is_recv a = false ∧ is_terminal a = false ∧ dataset_legal a ∧
    ∀ o, outcome_step o a = o) →
  (tc_pending tc' = 0 ∨ tc_pending tc' = tc_pending tc) →
  tc_dataset tc' = tc_dataset tc ∨ tc_dataset tc' = [] ∧ tc_dataset_staged tc' = false →
  (tc_dataset_staged tc' = true → tc_dataset_staged tc = true) →
  (tc_cb_registered tc' = false ∨ tc_state tc' = ThreadNetworkState_Dettached) →
  thread_inv (tc', e').
Proof.
  intros [H1 H2 [H3a H3b] H4 H5 H6] Hlog Hacts Hp Hd Hst Hs. cbn in *.
  assert (Hq : recvs (net_log e') = recvs (net_log e) ∧ terminals (net_log e') = terminals (net_log e) ∧
    Forall dataset_legal (net_log e')).
  { rewrite Hlog. clear Hlog. induction acts as [|a acts IH] using rev_ind; [by rewrite app_nil_r|].
    destruct IH as (A1 & A2 & A3); [intros b Hb; apply Hacts; set_solver|].
    destruct (Hacts a) as (B1 & B2 & B3 & _); [set_solver|].
    rewrite app_assoc, recvs_snoc, terminals_snoc, B1, B2, !Z.add_0_r.
    split_and!; [done|done|by apply forall_snoc]. }
  destruct Hq as (Q1 & Q2 & Q3). split; cbn; rewrite ?Q1, ?Q2; try done.
  - destruct Hp as [->| ->]; [by left|done].
  - destruct Hp as [->| ->], H1; lia.
  - destruct Hd as [->|[-> ->]]; [auto|]. split; [done|by intros].
  - intros Hcb Ha. destruct Hs as [Hs|Hs]; [congruence|]. by rewrite Hs in Ha.
  - intros Hcb. destruct Hs as [Hs|Hs]; [congruence|]. by rewrite Hs.
Qed.

Lemma thread_step_inv s s' : thread_step s s' → thread_inv s → thread_inv s'.
Proof.
  intros Hstep Hi. destruct Hstep as [tc e rc tc' e' Hoff Hr|tc e tc' e' Hr|inbuf tc e rc out tc' e' Hcb Hr|
    d len tc e rc tc' e' Hcb Hlen Hfit Hr|changed tc e tc' e' Hcb Hr|tc e tc' e' Hp Hr|tc e tc' e' Hcb Hr|
    tc e rc tc' e' Hr|tc e e' Hl].
  - unfold network_prov_thread_config_init in Hr. destruct (openthread_cb_register e) as [ret e1] eqn:Ho.
    apply ot_register_log in Ho. destruct Hi as [H1 H2 H3 H4 H5 H6]. cbn in *.
    destruct (ret =? 0); cbn in Hr; simplify_eq; split; cbn;
      rewrite ?Ho, ?recvs_snoc, ?terminals_snoc, ?last_outcome_snoc; cbn; try done; try lia;
      by apply forall_snoc.
  - unfold network_prov_thread_config_deinit in Hr. cbn in Hr. destruct (tc_cb_registered tc) eqn:Hc;
      simplify_eq.
    + eapply (quiet_inv _ _ _ _ [A_ot_cb_unregister] Hi); [apply ot_unregister_log| |by right|by left|done|by left].
      by intros a ->%list_elem_of_singleton.
    + eapply (quiet_inv _ _ _ _ [] Hi); [by rewrite app_nil_r| |by right|by left|done|by left].
      intros a Ha. set_solver.
  - apply thread_handler_state in Hr as (e1 & Hl & [[-> ->]|[(d & st & Hr & ->)|[st Hr]]]);
      apply (thread_inv_log _ _ _ Hl); [done|by eapply thread_set_config_inv|by eapply thread_apply_inv].
  - unfold network_prov_thread_config_set_and_apply in Hr. destruct d as [bs|]; [|by simplify_eq].
    destruct ((len =? 0) || _) eqn:Hc; [by simplify_eq|]. breflect.
    destruct (do_apply_config _ e) as [[st tc1] e1] eqn:Ha. simplify_eq.
    eapply thread_apply_inv; [|exact Ha]. specialize (Hfit _ eq_refl).
    destruct Hi as [A1 A2 A3 A4 A5 A6]. split; cbn in *; try done.
    unfold blen in *. rewrite length_take. lia.
  - unfold ot_state_changed in Hr. destruct changed; cbn in Hr; [|by simplify_eq].
    destruct (role_is_attached _); [by eapply on_attached_inv|by simplify_eq].
  - by eapply timeout_inv.
  - unfold network_prov_thread_config_reset in Hr. destruct (otThreadSetEnabled false e) as [err e1] eqn:Ho.
    apply ot_enable_log in Ho. cbn in Hr. simplify_eq.
    eapply (quiet_inv _ _ _ _ _ Hi); [exact Ho| |by left|by right|done|by right].
    by intros a ->%list_elem_of_singleton.
  - unfold network_prov_thread_config_erase in Hr. destruct (otThreadSetEnabled false e) as [err e1] eqn:Ho.
    apply ot_enable_log in Ho. cbn in Hr.
    destruct (otInstanceErasePersistentInfo e1) as [err2 e2] eqn:Ho2. apply ot_erase_log in Ho2.
    assert (Hlog : net_log e2 = net_log e ++ [A_ot_thread_enable false err; A_ot_erase err2])
      by (rewrite Ho2, Ho, <- app_assoc; done).
    assert (Hq : ∀ tc2, tc_pending tc2 = 0 → tc_dataset tc2 = tc_dataset tc →
      tc_dataset_staged tc2 = false → tc_state tc2 = ThreadNetworkState_Dettached → thread_inv (tc2, e2)).
    { intros tc2 Q1 Q2 Q3 Q4. eapply (quiet_inv _ _ _ _ _ Hi); [exact Hlog| |by left|by left| |by right].
      - intros a [->|[->|?]%elem_of_cons]%elem_of_cons; [done|done|set_solver].
      - congruence. }
    destruct (err2 =? OT_ERROR_NONE); cbn in Hr; simplify_eq; by apply Hq.
  - by eapply thread_inv_log.
Qed.

(** Only [init] and [deinit] change the registration of the callback. *)
Lemma attached_registered tc (e : E) : tc_cb_registered (on_attached tc e).1 = tc_cb_registered tc.
Proof. unfold on_attached, claim. by destruct (tc_pending tc =? 1). Qed.
Lemma timeout_registered tc (e : E) : tc_cb_registered (attach_timeout_fn tc e).1 = tc_cb_registered tc.
Proof. unfold attach_timeout_fn, claim. by destruct (tc_pending tc =? 1). Qed.
Lemma changed_registered c tc (e : E) : tc_cb_registered (ot_state_changed c tc e).1 = tc_cb_registered tc.
Proof.
  unfold ot_state_changed. destruct (negb c); [done|]. destruct (role_is_attached _); [|done]. apply attached_registered.
Qed.
Lemma thread_apply_registered tc (e : E) : tc_cb_registered (do_apply_config tc e).1.2 = tc_cb_registered tc.
Proof.
  unfold do_apply_config. destruct (negb _); [done|]. destruct (ot_apply _ _) as [err e1].
  destruct (negb _); [done|]. cbv zeta. destruct (role_is_attached _); [|done].
  match goal with |- context [on_attached ?t ?x] => pose proof (attached_registered t x) as Ha end.
  by destruct (on_attached _ _) as [tc2 e3].
Qed.
Lemma thread_handler_registered inbuf tc (e : E) :
  tc_cb_registered (network_prov_thread_config_handler inbuf tc e).1.2 = tc_cb_registered tc.
Proof.
  destruct (network_prov_thread_config_handler inbuf tc e) as [[[rc out] tc'] e'] eqn:Hr.
  apply thread_handler_state in Hr as (e1 & _ & [[-> _]|[(d & st & Hs & _)|[st Ha]]]); [done| |].
  - unfold do_set_config in Hs. by case_match; simplify_eq.
  - pose proof (thread_apply_registered tc e) as Hreg. by rewrite Ha in Hreg.
Qed.

Lemma thread_zero_inv (e : E) : net_log e = [] → thread_inv (tc_zero, e).
Proof. intros Hl. split; cbn; rewrite ?Hl; try done. by left. Qed.

(** In every reachable state of the Thread provisioning component - requests,
    API calls, OpenThread callbacks, timer expiries, resets, erasures and
    restarts in any order - terminal events never outnumber the CRED_RECVs; the
    reported Attached and AttachingFailed agree with the last terminal event;
    while Attaching is reported the outcome is unclaimed and the 30 s timer is
    running, so that the attempt cannot hang; and only datasets of 1 to 254 bytes
    ever reach OpenThread, whichever union member a peer sent. *)
Theorem thread_outcomes_consistent (e0 : E) tc0 tc (e : E) :
  net_log e0 = [] → tc0 = tc_zero → rtc thread_step (tc0, e0) (tc, e) → thread_inv (tc, e).
Proof.
  intros Hl -> Hr. assert (H0 : thread_inv (tc_zero, e0)) by by apply thread_zero_inv.
  revert H0. induction Hr as [|x y z Hs Hr IH]; [done|]. intros Hx. by eapply IH, thread_step_inv.
Qed.

(** C38: An apply that OpenThread rejects does not withdraw the attempt a previous
    apply started: after CRED_RECV and CRED_FAIL for the new dataset the old
    outcome is still unclaimed, so a later attach reports CRED_SUCCESS and flips
    the failed state to Attached, and the old timer reports a second CRED_FAIL
    with another reason. *)
Theorem rejected_apply_keeps_old_attempt tc (e e1 e' : E) err st tc' :
  tc_dataset_staged tc = true → tc_pending tc = 1 →
  ot_apply (tc_dataset tc) e = (err, e1) → err ≠ OT_ERROR_NONE →
  do_apply_config tc e = (st, tc', e') →
  st = Status_Success ∧ tc_state tc' = ThreadNetworkState_AttachingFailed ∧
  net_log e' = net_log e1 ++
    [A_emit NETWORK_PROV_CRED_RECV; A_emit (NETWORK_PROV_CRED_FAIL NETWORK_PROV_WIFI_AUTH_ERROR)] ∧
  tc_state (on_attached tc' e').1 = ThreadNetworkState_Attached ∧
  net_log (on_attached tc' e').2 = net_log e' ++ [A_emit NETWORK_PROV_CRED_SUCCESS] ∧
  tc_fail_reason (attach_timeout_fn tc' e').1 = ThreadAttachFailedReason_ThreadNetworkNotFound ∧
  net_log (attach_timeout_fn tc' e').2 =
    net_log e' ++ [A_emit (NETWORK_PROV_CRED_FAIL NETWORK_PROV_WIFI_NETWORK_NOT_FOUND)].
Proof.
  intros Hs Hp Ha Herr. unfold do_apply_config. rewrite Hs. cbn. rewrite Ha.
  destruct (err =? OT_ERROR_NONE) eqn:He; breflect; [done|]. cbn. intros ?; simplify_eq.
  unfold on_attached, attach_timeout_fn, claim. cbn. rewrite Hp. cbn.
  rewrite !emit_event_log. split_and!; try done. by rewrite <- app_assoc.
Qed.

(** ** The race for the outcome

    After an apply has set [pending] to 1, the transport thread reads the role
    and either reports the attach itself or arms the timer; the OpenThread
    callback and the timer handler run concurrently. Each access to the shared
    structure is one step. *)
Inductive racer_pc := RC_start | RC_state | RC_cancel | RC_emit | RC_won | RC_lost.
#[export] Instance racer_pc_eq_dec : EqDecision racer_pc.
Proof. solve_decision. Defined.

(** One instruction of [on_attached]. *)
Definition attach_instr (pc : racer_pc) (tc : tc_t) (e : E) : racer_pc * tc_t * E :=
  match pc with
  | RC_start => let '(won, tc1) := claim tc in (if won then RC_state else RC_lost, tc1, e)
  | RC_state => (RC_cancel, tc <| tc_state := ThreadNetworkState_Attached |>, e)
  | RC_cancel =>
      (RC_emit, tc <| tc_attach_timeout := k_work_cancel (tc_attach_timeout tc) |>, e)
  | RC_emit => (RC_won, tc, network_prov_emit_event NETWORK_PROV_CRED_SUCCESS e)
  | RC_won | RC_lost => (pc, tc, e)
  end.

(** One instruction of [attach_timeout_fn]. *)
Definition timeout_instr (pc : racer_pc) (tc : tc_t) (e : E) : racer_pc * tc_t * E :=
  match pc with
  | RC_start => let '(won, tc1) := claim tc in (if won then RC_state else RC_lost, tc1, e)
  | RC_state => (RC_cancel, tc <| tc_state := ThreadNetworkState_AttachingFailed |>, e)
  | RC_cancel => (RC_emit, tc <| tc_fail_reason := ThreadAttachFailedReason_ThreadNetworkNotFound |>, e)
  | RC_emit =>
      (RC_won, tc, network_prov_emit_event (NETWORK_PROV_CRED_FAIL NETWORK_PROV_WIFI_NETWORK_NOT_FOUND) e)
  | RC_won | RC_lost => (pc, tc, e)
  end.

(** The tail of the apply: the role not read yet, reporting the attach, about to
    arm the timer, or done. *)
Inductive apply_pc := AP_query | AP_attach (pc : racer_pc) | AP_arm | AP_done.

(** The timer handler has not started ([None]) or is at some instruction. *)
Record race := mk_race {
  ra_apply : apply_pc; ra_cb : racer_pc; ra_timer : option racer_pc; ra_tc : tc_t; ra_env : E }.

Inductive race_step : race → race → Prop :=
| race_query cb tm tc e :
    race_step (mk_race AP_query cb tm tc e)
      (mk_race (if role_is_attached (otThreadGetDeviceRole e) then AP_attach RC_start else AP_arm)
         cb tm tc e)
| race_apply_attach pc pc' cb tm tc e tc' e' :
    attach_instr pc tc e = (pc', tc', e') →
    race_step (mk_race (AP_attach pc) cb tm tc e) (mk_race (AP_attach pc') cb tm tc' e')
| race_arm cb tm tc e :
    race_step (mk_race AP_arm cb tm tc e)
      (mk_race AP_done cb tm
         (tc <| tc_attach_timeout := k_work_reschedule ATTACH_TIMEOUT (tc_attach_timeout tc) |>) e)
| race_callback ap pc pc' tm tc e tc' e' :
    attach_instr pc tc e = (pc', tc', e') →
    race_step (mk_race ap pc tm tc e) (mk_race ap pc' tm tc' e')
| race_expire ap cb tc e :
    is_Some (k_work_pending (tc_attach_timeout tc)) →
    race_step (mk_race ap cb None tc e)
      (mk_race ap cb (Some RC_start)
         (tc <| tc_attach_timeout := k_work_fire (tc_attach_timeout tc) |>) e)
| race_timeout ap cb pc pc' tc e tc' e' :
    timeout_instr pc tc e = (pc', tc', e') →
    race_step (mk_race ap cb (Some pc) tc e) (mk_race ap cb (Some pc') tc' e')
| race_env ap cb tm tc e e' :
    net_log e' = net_log e → race_step (mk_race ap cb tm tc e) (mk_race ap cb tm tc e').

(** Run to the end, the instructions are the handlers. *)
Lemma attach_instrs tc (e : E) tc' e' :
  on_attached tc e = (tc', e') →
  ∃ pc, (pc = RC_won ∨ pc = RC_lost) ∧
    (let '(p1, t1, e1) := attach_instr RC_start tc e in
     let '(p2, t2, e2) := attach_instr p1 t1 e1 in
     let '(p3, t3, e3) := attach_instr p2 t2 e2 in attach_instr p3 t3 e3) = (pc, tc', e').
Proof.
  unfold on_attached, attach_instr, claim. destruct (tc_pending tc =? 1); cbn; intros ?; simplify_eq; eauto.
Qed.

Lemma timeout_instrs tc (e : E) tc' e' :
  attach_timeout_fn tc e = (tc', e') →
  ∃ pc, (pc = RC_won ∨ pc = RC_lost) ∧
    (let '(p1, t1, e1) := timeout_instr RC_start tc e in
     let '(p2, t2, e2) := timeout_instr p1 t1 e1 in
     let '(p3, t3, e3) := timeout_instr p2 t2 e2 in timeout_instr p3 t3 e3) = (pc, tc', e').
Proof.
  unfold attach_timeout_fn, timeout_instr, claim. destruct (tc_pending tc =? 1); cbn; intros ?; simplify_eq; eauto.
Qed.

(** 1 for a racer that claimed the outcome. *)
Definition claimed (pc : racer_pc) : Z :=
  match pc with RC_start | RC_lost => 0 | _ => 1 end.
Definition past_state (pc : racer_pc) : bool :=
  match pc with RC_cancel | RC_emit | RC_won => true | _ => false end.
Definition emitted (ev : network_prov_cb_event) (pc : racer_pc) : list net_action :=
  match pc with RC_won => [A_emit ev] | _ => [] end.

Definition SUCCESS_EV := NETWORK_PROV_CRED_SUCCESS.
Definition TIMEOUT_EV := NETWORK_PROV_CRED_FAIL NETWORK_PROV_WIFI_NETWORK_NOT_FOUND.

(** One instruction of a racer: either another one has claimed the outcome and
    nothing happens, or it goes on with its own. [m] counts the others' claims. *)
Definition instr_ok (ev : network_prov_cb_event) (st : Z) pc (tc : tc_t) (e : E) pc' tc' e' m log0 : Prop :=
  tc_pending tc + claimed pc + m = 1 → 0 <= tc_pending tc → 0 <= m →
  (m = 1 ∧ tc' = tc ∧ e' = e ∧ claimed pc' = 0) ∨
  (m = 0 ∧ tc_pending tc' + claimed pc' = 1 ∧ 0 <= tc_pending tc' ∧
   (net_log e = log0 ++ emitted ev pc → net_log e' = log0 ++ emitted ev pc') ∧
   ((past_state pc = true → tc_state tc = st) → past_state pc' = true → tc_state tc' = st)).

Lemma attach_instr_ok pc tc (e : E) pc' tc' e' m log0 :
  attach_instr pc tc e = (pc', tc', e') →
  instr_ok SUCCESS_EV ThreadNetworkState_Attached pc tc e pc' tc' e' m log0.
Proof.
  intros Hi H1 H2 H3. unfold attach_instr, claim in Hi.
  destruct pc; [destruct (tc_pending tc =? 1) eqn:Hp; breflect|..]; simplify_eq; cbn in *;
    destruct (decide (m = 1)) as [->|Hm]; try lia;
    first [left; by split_and! | right; split_and!; try lia].
  all: intros; rewrite ?emit_event_log, ?app_nil_r in *; auto; by subst.
Qed.

Lemma timeout_instr_ok pc tc (e : E) pc' tc' e' m log0 :
  timeout_instr pc tc e = (pc', tc', e') →
  instr_ok TIMEOUT_EV ThreadNetworkState_AttachingFailed pc tc e pc' tc' e' m log0.
Proof.
  intros Hi H1 H2 H3. unfold timeout_instr, claim in Hi.
  destruct pc; [destruct (tc_pending tc =? 1) eqn:Hp; breflect|..]; simplify_eq; cbn in *;
    destruct (decide (m = 1)) as [->|Hm]; try lia;
    first [left; by split_and! | right; split_and!; try lia].
  all: intros; rewrite ?emit_event_log, ?app_nil_r in *; auto; by subst.
Qed.

Definition apply_racer (ap : apply_pc) : racer_pc :=
  match ap with AP_attach pc => pc | _ => RC_start end.
Definition timer_racer (tm : option racer_pc) : racer_pc :=
  match tm with Some pc => pc | None => RC_start end.
#[local] Arguments apply_racer !_ /.
#[local] Arguments timer_racer !_ /.

Record race_inv (log0 : list net_action) (r : race) : Prop := {
  ri_claims : tc_pending (ra_tc r) + claimed (apply_racer (ra_apply r)) + claimed (ra_cb r)
              + claimed (timer_racer (ra_timer r)) = 1;
  ri_pending : 0 <= tc_pending (ra_tc r);
  ri_log : net_log (ra_env r) =
    log0 ++ emitted SUCCESS_EV (apply_racer (ra_apply r)) ++ emitted SUCCESS_EV (ra_cb r)
         ++ emitted TIMEOUT_EV (timer_racer (ra_timer r));
  ri_apply : past_state (apply_racer (ra_apply r)) = true →
    tc_state (ra_tc r) = ThreadNetworkState_Attached;
  ri_cb : past_state (ra_cb r) = true → tc_state (ra_tc r) = ThreadNetworkState_Attached;
  ri_timer : past_state (timer_racer (ra_timer r)) = true →
    tc_state (ra_tc r) = ThreadNetworkState_AttachingFailed;
}.

Lemma claimed_bounds pc : 0 <= claimed pc <= 1.
Proof. destruct pc; cbn; lia. Qed.

Lemma unclaimed pc : claimed pc = 0 → (∀ ev, emitted ev pc = []) ∧ past_state pc = false.
Proof. destruct pc; cbn; intros; try lia; done. Qed.

Lemma race_step_inv log0 r r' : race_step r r' → race_inv log0 r → race_inv log0 r'.
Proof.
  intros Hs [I1 I2 I3 I4 I5 I6].
  destruct Hs as [cb tm tc e|pc pc' cb tm tc e tc' e' Hi|cb tm tc e|ap pc pc' tm tc e tc' e' Hi|
    ap cb tc e Hp|ap cb pc pc' tc e tc' e' Hi|ap cb tm tc e e' Hl]; cbn in *.
  - destruct (role_is_attached _); split; cbn; done.
  - pose proof (claimed_bounds cb). pose proof (claimed_bounds (timer_racer tm)).
    apply (attach_instr_ok _ _ _ _ _ _ (claimed cb + claimed (timer_racer tm)) log0) in Hi.
    destruct Hi as [(Hm & -> & -> & Hc)|(Hm & Hc & Hp & Hlog & Hst)]; [lia..| |].
    + assert (Hc0 : claimed pc = 0) by (pose proof (claimed_bounds pc); lia).
      destruct (unclaimed _ Hc) as [U1 U2], (unclaimed _ Hc0) as [V1 V2].
      split; cbn; rewrite ?U1, ?U2, ?V1 in *; try done. lia.
    + destruct (unclaimed cb) as [U1 U2], (unclaimed (timer_racer tm)) as [V1 V2]; [lia..|].
      split; cbn; rewrite ?U1, ?U2, ?V1, ?V2, ?app_nil_r in *; first [lia|done|by auto].
  - split; cbn; done.
  - pose proof (claimed_bounds (apply_racer ap)). pose proof (claimed_bounds (timer_racer tm)).
    apply (attach_instr_ok _ _ _ _ _ _ (claimed (apply_racer ap) + claimed (timer_racer tm)) log0) in Hi.
    destruct Hi as [(Hm & -> & -> & Hc)|(Hm & Hc & Hp & Hlog & Hst)]; [lia..| |].
    + assert (Hc0 : claimed pc = 0) by (pose proof (claimed_bounds pc); lia).
      destruct (unclaimed _ Hc) as [U1 U2], (unclaimed _ Hc0) as [V1 V2].
      split; cbn; rewrite ?U1, ?U2, ?V1 in *; try done. lia.
    + destruct (unclaimed (apply_racer ap)) as [U1 U2], (unclaimed (timer_racer tm)) as [V1 V2]; [lia..|].
      split; cbn; rewrite ?U1, ?U2, ?V1, ?V2, ?app_nil_r in *; first [lia|done|by auto].
  - split; cbn; done.
  - pose proof (claimed_bounds (apply_racer ap)). pose proof (claimed_bounds cb).
    apply (timeout_instr_ok _ _ _ _ _ _ (claimed (apply_racer ap) + claimed cb) log0) in Hi.
    destruct Hi as [(Hm & -> & -> & Hc)|(Hm & Hc & Hp & Hlog & Hst)]; [lia..| |].
    + assert (Hc0 : claimed pc = 0) by (pose proof (claimed_bounds pc); lia).
      destruct (unclaimed _ Hc) as [U1 U2], (unclaimed _ Hc0) as [V1 V2].
      split; cbn; rewrite ?U1, ?U2, ?V1 in *; try done. lia.
    + destruct (unclaimed (apply_racer ap)) as [U1 U2], (unclaimed cb) as [V1 V2]; [lia..|].
      split; cbn; rewrite ?U1, ?U2, ?V1, ?V2, ?app_nil_r in *; first [lia|done|by auto].
  - split; cbn; rewrite ?Hl; done.
Qed.

(** Losing means that the outcome was claimed. *)
Definition race_lost (r : race) : Prop :=
  (apply_racer (ra_apply r) = RC_lost ∨ ra_cb r = RC_lost ∨ timer_racer (ra_timer r) = RC_lost) →
  tc_pending (ra_tc r) = 0.

Lemma attach_instr_lost pc tc (e : E) pc' tc' e' :
  attach_instr pc tc e = (pc', tc', e') →
  (tc_pending tc = 0 → tc_pending tc' = 0) ∧ (pc' = RC_lost → pc = RC_lost ∨ tc_pending tc' ≠ 1).
Proof.
  unfold attach_instr, claim. destruct pc; [destruct (tc_pending tc =? 1) eqn:Hp; breflect|..];
    intros ?; simplify_eq; cbn; auto.
Qed.
Lemma timeout_instr_lost pc tc (e : E) pc' tc' e' :
  timeout_instr pc tc e = (pc', tc', e') →
  (tc_pending tc = 0 → tc_pending tc' = 0) ∧ (pc' = RC_lost → pc = RC_lost ∨ tc_pending tc' ≠ 1).
Proof.
  unfold timeout_instr, claim. destruct pc; [destruct (tc_pending tc =? 1) eqn:Hp; breflect|..];
    intros ?; simplify_eq; cbn; auto.
Qed.

Lemma race_pending_01 log0 r : race_inv log0 r → tc_pending (ra_tc r) ≠ 1 → tc_pending (ra_tc r) = 0.
Proof.
  intros [I1 I2 _ _ _ _] Hne. pose proof (claimed_bounds (apply_racer (ra_apply r))).
  pose proof (claimed_bounds (ra_cb r)). pose proof (claimed_bounds (timer_racer (ra_timer r))). lia.
Qed.

Lemma race_step_lost log0 r r' :
  race_step r r' → race_inv log0 r → race_lost r → race_lost r'.
Proof.
  intros Hs Hi Hl. pose proof (race_pending_01 _ _ (race_step_inv _ _ _ Hs Hi)) as Hne.
  unfold race_lost in *.
  destruct Hs as [cb tm tc e|pc pc' cb tm tc e tc' e' Hr|cb tm tc e|ap pc pc' tm tc e tc' e' Hr|
    ap cb tc e Hp|ap cb pc pc' tc e tc' e' Hr|ap cb tm tc e e' Hlg]; cbn in *; auto.
  - destruct (role_is_attached _); cbn; intros [|[|]]; try done; auto.
  - apply attach_instr_lost in Hr as [Hz Hpc]. intros [Hp|[Hp|Hp]]; [..|];
      first [by auto 8|destruct (Hpc Hp); by auto 8].
  - apply attach_instr_lost in Hr as [Hz Hpc]. intros [Hp|[Hp|Hp]]; [..|];
      first [by auto 8|destruct (Hpc Hp); by auto 8].
  - apply timeout_instr_lost in Hr as [Hz Hpc]. intros [Hp|[Hp|Hp]]; [..|];
      first [by auto 8|destruct (Hpc Hp); by auto 8].
Qed.

(** No racer is between its claim and its event. *)
Definition settled (r : race) : Prop :=
  Forall (fun pc => pc ∈ [RC_start; RC_won; RC_lost])
    [apply_racer (ra_apply r); ra_cb r; timer_racer (ra_timer r)].

(** C7: Exactly one outcome is reported, in every interleaving of the apply's
    tail, the OpenThread callback and the timer. Whenever the racers are settled
    and one of them has tried to claim, exactly one terminal event has been
    emitted and the reported state is its state; and once the callback has run, a
    timer that has not claimed first cannot turn the success into a failure. *)
Theorem attach_race_exactly_once tc (e : E) r :
  tc_pending tc = 1 →
  rtc race_step (mk_race AP_query RC_start None tc e) r → settled r →
  (ra_cb r ≠ RC_start ∨ timer_racer (ra_timer r) ≠ RC_start ∨ apply_racer (ra_apply r) ≠ RC_start) →
  (net_log (ra_env r) = net_log e ++ [A_emit SUCCESS_EV] ∧
     tc_state (ra_tc r) = ThreadNetworkState_Attached ∧ timer_racer (ra_timer r) ≠ RC_won) ∨
  (net_log (ra_env r) = net_log e ++ [A_emit TIMEOUT_EV] ∧
     tc_state (ra_tc r) = ThreadNetworkState_AttachingFailed ∧ ra_timer r = Some RC_won).
Proof.
  intros Hp Hr Hset Htry.
  assert (Hinv : race_inv (net_log e) r ∧ race_lost r).
  { assert (H0 : race_inv (net_log e) (mk_race AP_query RC_start None tc e) ∧
      race_lost (mk_race AP_query RC_start None tc e)).
    { split; [split; cbn; rewrite ?Hp, ?app_nil_r; done|]. intros [|[|]]; done. }
    clear Hset Htry. revert H0. induction Hr as [|x y z Hs Hr IH]; [done|]. intros [Hx Hl].
    apply IH. split; [by eapply race_step_inv|by eapply race_step_lost]. }
  destruct Hinv as [[I1 I2 I3 I4 I5 I6] Hlost]. unfold race_lost in Hlost.
  unfold settled in Hset. rewrite !Forall_cons in Hset. destruct Hset as (S1 & S2 & S3 & _).
  destruct r as [ap cb tm tc' e']. cbn in *.
  assert (Hcase : ∀ pc, pc ∈ [RC_start; RC_won; RC_lost] → pc = RC_start ∨ pc = RC_won ∨ pc = RC_lost)
    by (intros pc; set_solver).
  assert (Hz : tc_pending tc' = 0).
  { destruct (Hcase _ S1) as [A|[A|A]], (Hcase _ S2) as [B|[B|B]], (Hcase _ S3) as [C|[C|C]];
      rewrite A, B, C in *; cbn in I1; try lia; try (apply Hlost; auto); by destruct Htry as [|[|]]. }
  assert (Ht : timer_racer tm = RC_won → tm = Some RC_won) by (destruct tm; cbn; [by intros ->|done]).
  destruct (Hcase _ S1) as [A|[A|A]], (Hcase _ S2) as [B|[B|B]], (Hcase _ S3) as [C|[C|C]];
    rewrite A, B, C in *; cbn in *; rewrite ?app_nil_r in *; try lia;
    first [left; split_and!; [done|by auto|done] | right; split_and!; by auto].
Qed.
End thread_facts.
