(* ===== verification/ThreadScan.v ===== *)
(** * ThreadScan: the prov-scan endpoint for Thread (src/thread_scan_handler.c)

    The discovery callback runs in the OpenThread thread under the spinlock, so
    each of its invocations is one step; those during a blocking request are an
    argument of the handler. [ts.entries] is given by its first [ts.count]
    elements. *)
From S2P Require Import Prelude Platform PbUtil Messages NetEnv ScanPage.

(** [otActiveScanResult], the fields the callback reads. *)
Record ot_scan_result := mk_ot_scan_result {
  otr_pan_id : Z; otr_channel : Z; otr_rssi : Z; otr_lqi : Z;
  otr_ext_addr : bytes; otr_ext_pan_id : bytes; otr_network_name : string }.
#[export] Instance ot_scan_result_eq_dec : EqDecision ot_scan_result.
Proof. solve_decision. Defined.

Record thread_scan_entry := mk_thread_entry {
  te_pan_id : Z; te_channel : Z; te_rssi : Z; te_lqi : Z;
  te_ext_addr : bytes; te_ext_pan_id : bytes; te_network_name : string }.

(** [static struct { ... } ts] and [scan_done_sem]. *)
Record thread_scan_st (Sem : Type) := mk_ts {
  ts_entries : list thread_scan_entry;
  ts_finished : bool;
  ts_in_progress : bool;
  ts_done_sem : Sem;
}.
Arguments mk_ts {_}.
Arguments ts_entries {_} _.
Arguments ts_finished {_} _.
Arguments ts_in_progress {_} _.
Arguments ts_done_sem {_} _.
#[export] Instance thread_scan_eta {S} : FieldEta (thread_scan_st S) := fun r =>
  mk_ts (ts_entries r) (ts_finished r) (ts_in_progress r) (ts_done_sem r).

Definition entry_of_ot (r : ot_scan_result) : thread_scan_entry :=
  mk_thread_entry (otr_pan_id r) (otr_channel r) (otr_rssi r) (otr_lqi r)
    (take OT_EXT_ADDRESS_SIZE (otr_ext_addr r)) (take OT_EXT_PAN_ID_SIZE (otr_ext_pan_id r))
    (strncpy OT_NETWORK_NAME_MAX_SIZE (otr_network_name r)).

(** The copy into the response; its name field has 17 bytes as well. *)
Definition result_of_thread_entry (e : thread_scan_entry) : ThreadScanResult :=
  mk_thread_result (te_pan_id e) (te_channel e) (te_rssi e) (te_lqi e)
    (te_ext_addr e) (strncpy 16 (te_network_name e)) (te_ext_pan_id e).

Section thread_scan.
Context {E : Type} `{KHeap E} `{NetLog E} `{OpenThread E} `{K : Kernel}.
Context `{PbMsg NetworkScanPayload} `{UnionViews}.
Context (SCAN_MAX_ENTRIES : nat).

Local Abbreviation ts_t := (thread_scan_st k_sem).

(** A NULL result ends the sweep. *)
Definition discover_cb (result : option ot_scan_result) (ts : ts_t) : ts_t :=
  match result with
  | None =>
      ts <| ts_finished := true |> <| ts_in_progress := false |>
         <| ts_done_sem := k_sem_give (ts_done_sem ts) |>
  | Some r =>
      if (length (ts_entries ts) <? SCAN_MAX_ENTRIES)%nat
      then ts <| ts_entries := ts_entries ts ++ [entry_of_ot r] |> else ts
  end.

(** [memset(&ts, 0, sizeof(ts))]; the semaphore is not part of [ts]. *)
Definition network_prov_thread_scan_init (ts : ts_t) : Z * ts_t :=
  (0, mk_ts [] false false (ts_done_sem ts)).

Definition network_prov_thread_scan_deinit (ts : ts_t) : ts_t := ts <| ts_in_progress := false |>.

Definition do_scan_start (channel_mask : Z) (ts : ts_t) (e : E) : Z * ts_t * E :=
  let ts1 := ts <| ts_entries := [] |> <| ts_finished := false |> <| ts_in_progress := true |> in
  let e1 := otIp6SetEnabled e in
  let channels := if channel_mask =? 0 then otLinkGetSupportedChannelMask e1 else channel_mask in
  let '(err, e2) := otThreadDiscover channels e1 in
  if negb (err =? OT_ERROR_NONE)
  then (Status_InternalError, ts1 <| ts_in_progress := false |> <| ts_finished := true |>, e2)
  else (Status_Success, ts1, e2).

(** [k_sem_take(&scan_done_sem, SCAN_BLOCKING_TIMEOUT)] while [arrivals] come in
    before the timeout. *)
Fixpoint wait_discover (arrivals : list (option ot_scan_result)) (ts : ts_t)
    : bool * list (option ot_scan_result) * ts_t :=
  match k_sem_try_take (ts_done_sem ts) with
  | Some s => (true, arrivals, ts <| ts_done_sem := s |>)
  | None =>
      match arrivals with
      | [] => (false, [], ts)
      | r :: rs => wait_discover rs (discover_cb r ts)
      end
  end.

(** [blocking] and [channel_mask] as the handler extracts them. *)
Definition thread_start_args (pl : scan_payload) : bool * Z :=
  match pl with scan_cmd_thread_start b m => (b, m) | _ => (false, 0) end.

(** The CmdScanThreadStart branch, up to the response. *)
Definition thread_scan_start (pl : scan_payload) (arrivals : list (option ot_scan_result))
    (ts : ts_t) (e : E) : Z * list (option ot_scan_result) * ts_t * E :=
  let '(blocking, mask) := thread_start_args pl in
  let ts1 := ts <| ts_done_sem := k_sem_reset (ts_done_sem ts) |> in
  let '(s, ts2, e1) := do_scan_start mask ts1 e in
  if (s =? Status_Success) && blocking then
    match wait_discover arrivals ts2 with
    | (true, rest, ts3) => (s, rest, ts3, e1)
    | (false, rest, ts3) => (Status_InternalError, rest, ts3, e1)
    end
  else (s, arrivals, ts2, e1).

Definition encode_resp (msg : Z) (pl : scan_payload) (e : E) : Z * obuf * E :=
  network_prov_pb_encode (mk_scan msg Status_Success pl) e.

Definition network_prov_thread_scan_handler (inbuf : bytes) (arrivals : list (option ot_scan_result))
    (ts : ts_t) (e : E) : Z * obuf * list (option ot_scan_result) * ts_t * E :=
  match pb_decode inbuf with
  | None => (- EINVAL, no_buf, arrivals, ts, e)
  | Some req =>
      if scan_msg req =? TypeCmdScanThreadStart then
        let '(s, rest, ts1, e1) := thread_scan_start (scan_pl req) arrivals ts e in
        let '(rc, out, e2) :=
          network_prov_pb_encode (mk_scan TypeRespScanThreadStart s scan_resp_thread_start) e1 in
        (rc, out, rest, ts1, e2)
      else if scan_msg req =? TypeCmdScanThreadStatus then
        let '(rc, out, e1) := encode_resp TypeRespScanThreadStatus
          (scan_resp_thread_status (ts_finished ts) (blen (ts_entries ts))) e in
        (rc, out, arrivals, ts, e1)
      else if scan_msg req =? TypeCmdScanThreadResult then
        let '(start, want) := view_thread_result (scan_pl req) in
        let '(rc, out, e1) := encode_resp TypeRespScanThreadResult
          (scan_resp_thread_result (scan_page result_of_thread_entry (ts_entries ts) start want)) e in
        (rc, out, arrivals, ts, e1)
      else (- ENOTSUP, no_buf, arrivals, ts, e)
  end.

End thread_scan.

(** The networks a sweep reports before it ends. *)
Fixpoint discovered (rs : list (option ot_scan_result)) : list ot_scan_result :=
  match rs with
  | Some r :: rs => r :: discovered rs
  | _ => []
  end.

Section thread_scan_facts.
Context {E : Type} `{HH : KHeap E} `{NL : NetLog E} `{!NetHeapLaws E}.
Context `{OT : OpenThread E} `{!OpenThreadLaws E} `{K : Kernel} `{!KernelLaws}.
Context `{PB : PbMsg NetworkScanPayload} `{!PbMsgLaws NetworkScanPayload}.
Context `{UV : UnionViews} `{!UnionViewsLaws}.
Context (max : nat).

Local Abbreviation ts_t := (thread_scan_st k_sem).

Lemma discover_cb_entries r (ts : ts_t) :
  (length (ts_entries ts) ≤ max)%nat →
  ts_entries (discover_cb max (Some r) ts) = take max (ts_entries ts ++ [entry_of_ot r]).
Proof.
  intros Hl. unfold discover_cb. destruct (length (ts_entries ts) <? max)%nat eqn:Hlt.
  - apply Nat.ltb_lt in Hlt. cbn. rewrite take_ge; [done|]. rewrite length_app. cbn. lia.
  - apply Nat.ltb_ge in Hlt. by rewrite take_app_le, take_ge by lia.
Qed.

Lemma discover_cb_rest r (ts : ts_t) :
  ts_finished (discover_cb max (Some r) ts) = ts_finished ts ∧
  ts_done_sem (discover_cb max (Some r) ts) = ts_done_sem ts.
Proof. unfold discover_cb. by destruct (_ <? _)%nat. Qed.

Lemma wait_discover_spec arrivals (ts : ts_t) :
  (length (ts_entries ts) ≤ max)%nat → k_sem_count (ts_done_sem ts) = 0 →
  k_sem_limit (ts_done_sem ts) = 1 →
  ∃ rest ts',
    wait_discover max arrivals ts = (bool_decide (None ∈ arrivals), rest, ts') ∧
    ts_entries ts' = take max (ts_entries ts ++ (entry_of_ot <$> discovered arrivals)) ∧
    ts_finished ts' = bool_decide (None ∈ arrivals) || ts_finished ts ∧
    k_sem_count (ts_done_sem ts') = 0.
Proof.
  assert (Hfull : ∀ l : list thread_scan_entry, (length l ≤ max)%nat → take max (l ++ []) = l)
    by (intros; rewrite app_nil_r; by apply take_ge).
  revert ts. induction arrivals as [|[r|] rs IH]; intros ts Hl Hc Hlim; cbn [wait_discover];
    assert (Hn : k_sem_try_take (ts_done_sem ts) = None) by (apply k_sem_take_none; lia); rewrite Hn.
  - do 2 eexists. split; [reflexivity|]. cbn. rewrite Hfull by done. done.
  - destruct (discover_cb_rest r ts) as [Hf0 Hs0].
    destruct (IH (discover_cb max (Some r) ts)) as (rest & ts' & -> & He & Hf & Hs).
    { rewrite discover_cb_entries by done. rewrite length_take. lia. }
    { by rewrite Hs0. } { by rewrite Hs0. }
    exists rest, ts'.
    assert (Hd : bool_decide (None ∈ Some r :: rs) = bool_decide (None ∈ rs))
      by (apply bool_decide_ext; set_solver).
    rewrite Hd, He, Hf, Hf0, discover_cb_entries, take_take_app, <- app_assoc by done. done.
  - assert (Ht : is_Some (k_sem_try_take (k_sem_give (ts_done_sem ts)))).
    { apply not_eq_None_Some. intros Ht. apply k_sem_take_none in Ht.
      rewrite k_sem_count_give in Ht. lia. }
    destruct Ht as [s Ht].
    exists rs, (ts <| ts_finished := true |> <| ts_in_progress := false |> <| ts_done_sem := s |>).
    rewrite bool_decide_true by set_solver.
    split; [destruct rs; cbn; by rewrite Ht|]. cbn. rewrite Hfull by done.
    apply k_sem_take_some in Ht as [Hs1 _]. rewrite k_sem_count_give in Hs1. split_and!; [done|done|lia].
Qed.

(** Starting a Thread scan: a channel mask of zero (or a request of another
    shape) sweeps every supported channel and any other mask exactly its
    channels, with the IPv6 interface brought up first. When OpenThread accepts,
    a blocking start answers Success exactly when the sweep ended in time, then
    finished and with the first networks reported before the end; a non-blocking
    one answers at once with an empty list; a refusal answers InternalError and
    counts as finished. *)
Theorem thread_scan_start_spec pl arrivals (ts : ts_t) (e : E) s rest ts' e' :
  k_sem_limit (ts_done_sem ts) = 1 →
  thread_scan_start max pl arrivals ts e = (s, rest, ts', e') →
  ∃ err, net_log e' = net_log e ++
    [A_ot_ip6_enable;
     A_ot_discover (if (thread_start_args pl).2 =? 0
                    then otLinkGetSupportedChannelMask (otIp6SetEnabled e)
                    else (thread_start_args pl).2) err] ∧
  if negb (err =? OT_ERROR_NONE) then
    s = Status_InternalError ∧ ts_entries ts' = [] ∧ ts_finished ts' = true ∧ rest = arrivals
  else if (thread_start_args pl).1 then
    ts_entries ts' = take max (entry_of_ot <$> discovered arrivals) ∧
    k_sem_count (ts_done_sem ts') = 0 ∧
    if bool_decide (None ∈ arrivals) then s = Status_Success ∧ ts_finished ts' = true
    else s = Status_InternalError ∧ ts_finished ts' = false
  else s = Status_Success ∧ ts_entries ts' = [] ∧ ts_finished ts' = false ∧ rest = arrivals.
Proof.
  intros Hlim. unfold thread_scan_start. destruct (thread_start_args pl) as [blocking mask]. cbn.
  unfold do_scan_start. cbn. destruct (otThreadDiscover _ _) as [err e2] eqn:Hd.
  apply ot_discover_log in Hd. rewrite ot_ip6_log, <- app_assoc in Hd.
  destruct (err =? OT_ERROR_NONE) eqn:Herr; cbn.
  2:{ intros ?; simplify_eq. exists err. rewrite Herr. done. }
  destruct blocking; [|intros ?; simplify_eq; exists err; rewrite Herr; done].
  edestruct (wait_discover_spec arrivals) as (r & ts2 & -> & He2 & Hf2 & Hc2);
    [| | |intros Hr; exists err; rewrite Herr].
  { cbn. lia. } { cbn. by rewrite k_sem_count_reset. } { cbn. by rewrite k_sem_limit_reset. }
  cbn in He2, Hf2. rewrite orb_false_r in Hf2. case_bool_decide; simplify_eq; done.
Qed.

(** The result request answers with exactly the requested page: the reply
    decodes to the entries from [start_index] on, at most four and at most
    [count] of them, with status Success, and network names of at most 16
    characters; and a client walking the pages sees every network once. *)
Theorem thread_results_paged inbuf arrivals (ts ts' : ts_t) (e e' : E) req rc out rest start want :
  pb_decode inbuf = Some req → scan_msg req = TypeCmdScanThreadResult →
  scan_pl req = scan_cmd_thread_result start want → 0 <= start →
  network_prov_thread_scan_handler max inbuf arrivals ts e = (rc, out, rest, ts', e') →
  ts' = ts ∧ net_log e' = net_log e ∧
  (rc = 0 → pb_decode (ob_data out) = Some (mk_scan TypeRespScanThreadResult Status_Success
     (scan_resp_thread_result
        (result_of_thread_entry <$>
           take (Nat.min 4 (Z.to_nat want)) (drop (Z.to_nat start) (ts_entries ts)))))) ∧
  (1 <= want → fetch_all result_of_thread_entry (S (length (ts_entries ts))) (ts_entries ts) 0 want =
     result_of_thread_entry <$> ts_entries ts).
Proof.
  intros Hdec Hmsg Hpl Hs. unfold network_prov_thread_scan_handler, encode_resp.
  rewrite Hdec, Hmsg, Hpl. cbn -[scan_page fetch_all]. rewrite view_thread_result_same.
  match goal with |- context [network_prov_pb_encode ?m e] => set (resp := m) end.
  pose proof (pb_encode_log resp e) as Hl.
  destruct (network_prov_pb_encode resp e) as [[r o] e1] eqn:He. intros ?; simplify_eq.
  split_and!; try done.
  - intros ->. apply pb_encode_ok in He as (_ & -> & _). unfold resp. by rewrite scan_page_spec.
  - intros. rewrite fetch_all_spec; [done|lia|done|cbn; lia].
Qed.
End thread_scan_facts.
