(* ===== verification/ThreadCtrl.v ===== *)
(** * ThreadCtrl: the prov-ctrl endpoint for Thread (src/thread_ctrl_handler.c) *)
From S2P Require Import Prelude Platform PbUtil Messages NetEnv ThreadConfig.

Section thread_ctrl.
Context {E : Type} `{KHeap E} `{OpenThread E} `{K : Kernel} `{PbMsg NetworkCtrlPayload}.

Local Abbreviation tc_t := (thread_cfg k_work_delayable).

Definition network_prov_thread_ctrl_handler (inbuf : bytes) (tc : tc_t) (e : E) : Z * obuf * tc_t * E :=
  match pb_decode inbuf with
  | None => (- EINVAL, no_buf, tc, e)
  | Some req =>
      if ctrl_msg req =? TypeCmdCtrlThreadReset then
        let '(tc1, e1) := network_prov_thread_config_reset tc e in
        let '(rc, out, e2) := network_prov_pb_encode
          (mk_ctrl TypeRespCtrlThreadReset Status_Success ctrl_resp_thread_reset) e1 in
        (rc, out, tc1, e2)
      else if ctrl_msg req =? TypeCmdCtrlThreadReprov then
        let '(tc1, e1) := network_prov_thread_config_reset tc e in
        let '(rc, out, e2) := network_prov_pb_encode
          (mk_ctrl TypeRespCtrlThreadReprov Status_Success ctrl_resp_thread_reprov) e1 in
        (rc, out, tc1, e2)
      else (- ENOTSUP, no_buf, tc, e)
  end.
End thread_ctrl.

Section thread_ctrl_facts.
Context {E : Type} `{HH : KHeap E} `{NL : NetLog E} `{!NetHeapLaws E}.
Context `{EE : EmitEvent E} `{OT : OpenThread E} `{!OpenThreadLaws E} `{K : Kernel} `{!KernelLaws}.
Context `{PC : PbMsg NetworkCtrlPayload} `{!PbMsgLaws NetworkCtrlPayload}.

Local Abbreviation tc_t := (thread_cfg k_work_delayable).

(** A Thread reset or re-provision command withdraws the attempt: Thread is
    disabled and nothing else happens outside, no event is emitted, the staged
    dataset is gone so that a bare apply is refused, the timer is off, and an
    attach or an expiry still on its way claims nothing. Any other message leaves
    everything as it was. *)
Theorem thread_ctrl_reset_quiesces inbuf (tc tc' : tc_t) (e e' : E) rc out :
  network_prov_thread_ctrl_handler inbuf tc e = (rc, out, tc', e') →
  match pb_decode inbuf with
  | Some req =>
      if (ctrl_msg req =? TypeCmdCtrlThreadReset) || (ctrl_msg req =? TypeCmdCtrlThreadReprov) then
        (∃ err, net_log e' = net_log e ++ [A_ot_thread_enable false err]) ∧
        (rc = 0 → ∃ resp, pb_decode (ob_data out) = Some resp ∧ ctrl_status resp = Status_Success ∧
           ctrl_msg resp = ctrl_msg req + 1) ∧
        tc_state tc' = ThreadNetworkState_Dettached ∧
        k_work_pending (tc_attach_timeout tc') = None ∧
        (∀ e2, on_attached tc' e2 = (tc', e2)) ∧ (∀ e2, attach_timeout_fn tc' e2 = (tc', e2)) ∧
        (∀ e2, do_apply_config tc' e2 = (Status_InvalidArgument, tc', e2))
      else rc = - ENOTSUP ∧ tc' = tc ∧ e' = e
  | None => rc = - EINVAL ∧ tc' = tc ∧ e' = e
  end.
Proof.
  unfold network_prov_thread_ctrl_handler. destruct (pb_decode inbuf) as [req|]; [|by intros ?; simplify_eq].
  destruct (network_prov_thread_config_reset tc e) as [tc1 e1] eqn:Hrs.
  unfold network_prov_thread_config_reset in Hrs.
  destruct (otThreadSetEnabled false e) as [err e1'] eqn:Ho. apply ot_enable_log in Ho.
  injection Hrs as <- <-. cbn [snd] in *.
  assert (Hresp : ∀ resp tc2, (let '(rc0, out0, e2) := network_prov_pb_encode resp e1' in
      (rc0, out0, tc2, e2)) = (rc, out, tc', e') →
    tc' = tc2 ∧ net_log e' = net_log e1' ∧ (rc = 0 → pb_decode (ob_data out) = Some resp)).
  { intros resp tc2. pose proof (pb_encode_log resp e1') as Hl.
    destruct (network_prov_pb_encode resp e1') as [[r o] e2] eqn:He. intros ?; simplify_eq.
    split; [done|]. split; [done|]. intros ->. by apply pb_encode_ok in He as (_ & ? & _). }
  destruct (ctrl_msg req =? TypeCmdCtrlThreadReset) eqn:H1;
    [|destruct (ctrl_msg req =? TypeCmdCtrlThreadReprov) eqn:H2]; cbn [orb]; breflect.
  3: by intros ?; simplify_eq.
  all: intros Hr; apply Hresp in Hr as (-> & Hl & Hok); (split; [rewrite Hl; by eexists|]).
  all: split; [intros Hrc; eexists; split; [by apply Hok|]; rewrite ?H1, ?H2; done|].
  all: split_and!; try done; apply k_work_pending_cancel.
Qed.
End thread_ctrl_facts.
