(* ===== verification/Frame.v ===== *)
(** * Frame: what a request can change besides the handlers' own state

    Every handler, the two security schemes and the protocomm object reach the
    platform only through the operations of the platform classes. A preorder on
    the platform that those operations respect is therefore respected by whole
    requests; the credential events are the only ones a handler emits. *)
From S2P Require Import Prelude Platform PbUtil Messages Protocomm Security0 Psa Security1 NetEnv.
From S2P Require WifiConfig WifiScan WifiCtrl ThreadConfig ThreadScan ThreadCtrl.

Create HintDb frame discriminated.

(** The events of a provisioning attempt, as opposed to the manager's own. *)
Definition is_cred_event (ev : network_prov_cb_event) : bool :=
  match ev with
  | NETWORK_PROV_CRED_RECV | NETWORK_PROV_CRED_FAIL _ | NETWORK_PROV_CRED_SUCCESS => true
  | _ => false
  end.

(** Operations that keep within [R] from any starting point. *)
Class HeapFrame (E : Type) `{KHeap E} (R : relation E) : Prop := {
  fr_malloc n e0 e : R e0 e → R e0 (k_malloc n e).2;
  fr_free p e0 e : R e0 e → R e0 (k_free p e);
}.
Class EmitFrame (E : Type) `{EmitEvent E} (R : relation E) : Prop :=
  fr_emit ev e0 e : is_cred_event ev = true → R e0 e → R e0 (network_prov_emit_event ev e).
Class ScanFrame (E : Type) `{WifiNet E} (R : relation E) : Prop := {
  fr_scan i e0 e : R e0 e → R e0 (wifi_scan i e).2;
  fr_cb_add e0 e : R e0 e → R e0 (net_mgmt_add_event_callback e);
  fr_cb_del e0 e : R e0 e → R e0 (net_mgmt_del_event_callback e);
}.
Class WifiFrame (E : Type) `{WifiNet E} (R : relation E) : Prop := {
  wifi_scan_frame :: ScanFrame E R;
  fr_connect i p e0 e : R e0 e → R e0 (wifi_connect i p e).2;
  fr_cred_delete s e0 e : R e0 e → R e0 (wifi_credentials_delete_by_ssid s e);
  fr_cred_set c e0 e : R e0 e → R e0 (wifi_credentials_set_personal c e).2;
  fr_cred_delete_all e0 e : R e0 e → R e0 (wifi_credentials_delete_all e).2;
}.
Class DiscoverFrame (E : Type) `{OpenThread E} (R : relation E) : Prop := {
  fr_ot_ip6 e0 e : R e0 e → R e0 (otIp6SetEnabled e);
  fr_ot_discover m e0 e : R e0 e → R e0 (otThreadDiscover m e).2;
}.
Class OtFrame (E : Type) `{OpenThread E} (R : relation E) : Prop := {
  ot_discover_frame :: DiscoverFrame E R;
  fr_ot_register e0 e : R e0 e → R e0 (openthread_cb_register e).2;
  fr_ot_unregister e0 e : R e0 e → R e0 (openthread_cb_unregister e);
  fr_ot_dataset d e0 e : R e0 e → R e0 (otDatasetSetActiveTlvs d e).2;
  fr_ot_enable b e0 e : R e0 e → R e0 (otThreadSetEnabled b e).2;
  fr_ot_erase e0 e : R e0 e → R e0 (otInstanceErasePersistentInfo e).2;
}.
Class PsaFrame (E : Type) `{PSA E} (R : relation E) : Prop := {
  fr_psa_init e0 e : R e0 e → R e0 (psa_crypto_init e).2;
  fr_psa_generate e0 e : R e0 e → R e0 (psa_generate_key e).2;
  fr_psa_destroy k e0 e : R e0 e → R e0 (psa_destroy_key k e);
  fr_psa_import b e0 e : R e0 e → R e0 (psa_import_key b e).2;
  fr_psa_random n e0 e : R e0 e → R e0 (psa_generate_random n e).2;
}.
(** The state a call that was destructed ended in. *)
Lemma frame_result {A E} (R : relation E) (x : A * E) a e0 e' : x = (a, e') → R e0 x.2 → R e0 e'.
Proof. by intros ->. Qed.

#[export] Hint Extern 1 => match goal with H : _ = (_, ?e') |- _ _ ?e' =>
  apply (frame_result _ _ _ _ _ H) end : frame.
#[export] Hint Extern 1 => apply fr_emit; [reflexivity|] : frame.
#[export] Hint Extern 2 => first
  [ apply fr_malloc | apply fr_free | apply fr_connect | apply fr_scan | apply fr_cred_delete
  | apply fr_cred_set | apply fr_cred_delete_all | apply fr_cb_add | apply fr_cb_del
  | apply fr_ot_register | apply fr_ot_unregister | apply fr_ot_dataset | apply fr_ot_ip6
  | apply fr_ot_enable | apply fr_ot_erase | apply fr_ot_discover | apply fr_psa_init
  | apply fr_psa_generate | apply fr_psa_destroy | apply fr_psa_import | apply fr_psa_random ] : frame.

(** Case analysis down to the returned pairs, then the chain of operations. *)
Ltac frame_cases := repeat (cbn [fst snd]; case_match).
Ltac frame := cbn [fst snd]; auto 20 with frame.

Section scans.
Context {E : Type} `{HH : KHeap E} `{NL : NetLog E} `{WN : WifiNet E} `{K : Kernel} `{PS : PbMsg NetworkScanPayload} `{UV : UnionViews}.
Context (R : relation E) `{!HeapFrame E R}.

Lemma frame_encode {M} `{PbMsg M} (m : M) e0 e : R e0 e → R e0 (network_prov_pb_encode m e).2.
Proof. intros HR. unfold network_prov_pb_encode. frame_cases; frame. Qed.
#[local] Hint Resolve frame_encode : frame.

Context `{!ScanFrame E R}.
Lemma frame_scan_init sc e0 e : R e0 e → R e0 (WifiScan.network_prov_wifi_scan_init sc e).2.
Proof. intros HR. unfold WifiScan.network_prov_wifi_scan_init. frame_cases; frame. Qed.
Lemma frame_scan_deinit sc e0 e : R e0 e → R e0 (WifiScan.network_prov_wifi_scan_deinit sc e).2.
Proof. intros HR. unfold WifiScan.network_prov_wifi_scan_deinit. frame_cases; frame. Qed.
Lemma frame_do_scan sc e0 e : R e0 e → R e0 (WifiScan.do_scan_start sc e).2.
Proof. intros HR. unfold WifiScan.do_scan_start. cbv zeta. frame_cases; frame. Qed.
#[local] Hint Resolve frame_do_scan : frame.
Lemma frame_scan_start n pl ar sc e0 e : R e0 e → R e0 (WifiScan.scan_start n pl ar sc e).2.
Proof. intros HR. unfold WifiScan.scan_start. cbv zeta. frame_cases; frame. Qed.
#[local] Hint Resolve frame_scan_start : frame.
Lemma frame_wifi_scan n b ar sc e0 e :
  R e0 e → R e0 (WifiScan.network_prov_wifi_scan_handler n b ar sc e).2.
Proof.
  intros HR. unfold WifiScan.network_prov_wifi_scan_handler, WifiScan.encode_resp.
  frame_cases; frame.
Qed.
End scans.

Section discovery.
Context {E : Type} `{HH : KHeap E} `{OT : OpenThread E} `{K : Kernel} `{PS : PbMsg NetworkScanPayload} `{UV : UnionViews}.
Context (R : relation E) `{!HeapFrame E R, !DiscoverFrame E R}.
#[local] Hint Extern 2 => apply frame_encode : frame.

Lemma frame_thread_do_scan m ts e0 e : R e0 e → R e0 (ThreadScan.do_scan_start m ts e).2.
Proof. intros HR. unfold ThreadScan.do_scan_start. cbv zeta. frame_cases; frame. Qed.
#[local] Hint Resolve frame_thread_do_scan : frame.
Lemma frame_thread_scan_start n pl ar ts e0 e :
  R e0 e → R e0 (ThreadScan.thread_scan_start n pl ar ts e).2.
Proof. intros HR. unfold ThreadScan.thread_scan_start. cbv zeta. frame_cases; frame. Qed.
#[local] Hint Resolve frame_thread_scan_start : frame.
Lemma frame_thread_scan n b ar ts e0 e :
  R e0 e → R e0 (ThreadScan.network_prov_thread_scan_handler n b ar ts e).2.
Proof.
  intros HR. unfold ThreadScan.network_prov_thread_scan_handler, ThreadScan.encode_resp.
  frame_cases; frame.
Qed.
End discovery.

Section handlers.
Context {E : Type} `{HH : KHeap E} `{NL : NetLog E} `{EE : EmitEvent E} `{WN : WifiNet E}.
Context `{OT : OpenThread E} `{K : Kernel}.
Context `{PC : PbMsg NetworkConfigPayload} `{PS : PbMsg NetworkScanPayload} `{PT : PbMsg NetworkCtrlPayload}.
Context `{UV : UnionViews}.
Context (R : relation E) `{!HeapFrame E R, !EmitFrame E R, !WifiFrame E R, !OtFrame E R}.

#[local] Hint Extern 2 => apply frame_encode : frame.

Lemma frame_wifi_final wc e0 e : R e0 e → R e0 (WifiConfig.final_failure wc e).2.
Proof. intros HR. unfold WifiConfig.final_failure. frame_cases; frame. Qed.
Lemma frame_wifi_connect wc e0 e : R e0 e → R e0 (WifiConfig.connect_from_inflight wc e).2.
Proof. intros HR. unfold WifiConfig.connect_from_inflight. frame_cases; frame. Qed.
#[local] Hint Resolve frame_wifi_final frame_wifi_connect : frame.

Lemma frame_wifi_retry wc e0 e : R e0 e → R e0 (WifiConfig.retry_work_handler wc e).2.
Proof. intros HR. unfold WifiConfig.retry_work_handler. frame_cases; frame. Qed.
Lemma frame_wifi_result st c wc e0 e : R e0 e → R e0 (WifiConfig.on_connect_result st c wc e).2.
Proof. intros HR. unfold WifiConfig.on_connect_result. cbv zeta. frame_cases; frame. Qed.
Lemma frame_wifi_init n wc e0 e :
  R e0 e → R e0 (WifiConfig.network_prov_wifi_config_init n wc e).2.
Proof. intros HR. unfold WifiConfig.network_prov_wifi_config_init. cbv zeta. frame_cases; frame. Qed.
Lemma frame_wifi_deinit wc e0 e :
  R e0 e → R e0 (WifiConfig.network_prov_wifi_config_deinit wc e).2.
Proof. intros HR. unfold WifiConfig.network_prov_wifi_config_deinit. cbv zeta. frame_cases; frame. Qed.
Lemma frame_wifi_apply wc e0 e : R e0 e → R e0 (WifiConfig.do_apply_config wc e).2.
Proof. intros HR. unfold WifiConfig.do_apply_config. cbv zeta. frame_cases; frame. Qed.
#[local] Hint Resolve frame_wifi_apply : frame.
Lemma frame_wifi_set_apply s n p m wc e0 e :
  R e0 e → R e0 (WifiConfig.network_prov_wifi_config_set_and_apply s n p m wc e).2.
Proof. intros HR. unfold WifiConfig.network_prov_wifi_config_set_and_apply. cbv zeta. frame_cases; frame. Qed.
Lemma frame_wifi_config b wc e0 e :
  R e0 e → R e0 (WifiConfig.network_prov_wifi_config_handler b wc e).2.
Proof.
  intros HR. unfold WifiConfig.network_prov_wifi_config_handler, WifiConfig.encode_simple,
    WifiConfig.encode_get_status. frame_cases; frame.
Qed.
Lemma frame_wifi_ctrl b wc e0 e : R e0 e → R e0 (WifiCtrl.network_prov_wifi_ctrl_handler b wc e).2.
Proof. intros HR. unfold WifiCtrl.network_prov_wifi_ctrl_handler. frame_cases; frame. Qed.

Lemma frame_attached tc e0 e : R e0 e → R e0 (ThreadConfig.on_attached tc e).2.
Proof. intros HR. unfold ThreadConfig.on_attached. frame_cases; frame. Qed.
#[local] Hint Resolve frame_attached : frame.
Lemma frame_attach_timeout tc e0 e : R e0 e → R e0 (ThreadConfig.attach_timeout_fn tc e).2.
Proof. intros HR. unfold ThreadConfig.attach_timeout_fn. frame_cases; frame. Qed.
Lemma frame_ot_state b tc e0 e : R e0 e → R e0 (ThreadConfig.ot_state_changed b tc e).2.
Proof. intros HR. unfold ThreadConfig.ot_state_changed. frame_cases; frame. Qed.
Lemma frame_thread_init e0 e : R e0 e → R e0 (ThreadConfig.network_prov_thread_config_init e).2.
Proof. intros HR. unfold ThreadConfig.network_prov_thread_config_init. cbv zeta. frame_cases; frame. Qed.
Lemma frame_thread_deinit tc e0 e :
  R e0 e → R e0 (ThreadConfig.network_prov_thread_config_deinit tc e).2.
Proof. intros HR. unfold ThreadConfig.network_prov_thread_config_deinit. cbv zeta. frame_cases; frame. Qed.
Lemma frame_thread_reset tc e0 e :
  R e0 e → R e0 (ThreadConfig.network_prov_thread_config_reset tc e).2.
Proof. intros HR. unfold ThreadConfig.network_prov_thread_config_reset. cbv zeta. frame. Qed.
Lemma frame_thread_erase tc e0 e :
  R e0 e → R e0 (ThreadConfig.network_prov_thread_config_erase tc e).2.
Proof. intros HR. unfold ThreadConfig.network_prov_thread_config_erase. cbv zeta. frame_cases; frame. Qed.
Lemma frame_ot_apply d e0 e : R e0 e → R e0 (ThreadConfig.ot_apply d e).2.
Proof. intros HR. unfold ThreadConfig.ot_apply. frame_cases; frame. Qed.
#[local] Hint Resolve frame_ot_apply frame_thread_reset : frame.
Lemma frame_thread_apply tc e0 e : R e0 e → R e0 (ThreadConfig.do_apply_config tc e).2.
Proof. intros HR. unfold ThreadConfig.do_apply_config. cbv zeta. frame_cases; frame. Qed.
#[local] Hint Resolve frame_thread_apply : frame.
Lemma frame_thread_config b tc e0 e :
  R e0 e → R e0 (ThreadConfig.network_prov_thread_config_handler b tc e).2.
Proof.
  intros HR. unfold ThreadConfig.network_prov_thread_config_handler, ThreadConfig.encode_simple,
    ThreadConfig.encode_get_status. frame_cases; frame.
Qed.
Lemma frame_thread_ctrl b tc e0 e :
  R e0 e → R e0 (ThreadCtrl.network_prov_thread_ctrl_handler b tc e).2.
Proof. intros HR. unfold ThreadCtrl.network_prov_thread_ctrl_handler. frame_cases; frame. Qed.

End handlers.

#[export] Hint Extern 2 => first
  [ apply frame_encode | apply frame_wifi_retry | apply frame_wifi_result | apply frame_wifi_init
  | apply frame_wifi_deinit | apply frame_wifi_set_apply | apply frame_wifi_config
  | apply frame_wifi_ctrl | apply frame_scan_init | apply frame_scan_deinit | apply frame_wifi_scan
  | apply frame_attach_timeout | apply frame_ot_state | apply frame_thread_init
  | apply frame_thread_deinit | apply frame_thread_reset | apply frame_thread_erase
  | apply frame_thread_config | apply frame_thread_ctrl | apply frame_thread_scan ] : frame.

(** ** The protocomm object over callbacks that keep within [R] *)
Record security_frame {Ctx E : Type} (R : relation E) (s : protocomm_security Ctx E) : Prop := {
  sf_init f pop e0 e : sec_init s = Some f → R e0 e → R e0 (f pop e).2;
  sf_cleanup f ctx e0 e : sec_cleanup s = Some f → R e0 e → R e0 (f ctx e);
  sf_handshake f ctx b e0 e : sec_handshake s = Some f → R e0 e → R e0 (f ctx b e).2;
  sf_encrypt ctx b e0 e : R e0 e → R e0 (sec_encrypt s ctx b e).2;
  sf_decrypt ctx b e0 e : R e0 e → R e0 (sec_decrypt s ctx b e).2;
}.

Class HandlersFrame (E Hnd Priv Sec Ctx : Type) `{Callbacks E Hnd Priv Sec Ctx} (R : relation E) : Prop :=
  cf_handler h priv b e0 e : R e0 e → R e0 (call_handler h priv b e).2.
Class SecuritiesFrame (E Hnd Priv Sec Ctx : Type) `{Callbacks E Hnd Priv Sec Ctx} (R : relation E) : Prop :=
  cf_security s : security_frame R (security_of s).

Section schemes.
Context {E : Type} `{HH : KHeap E} `{PS : PSA E} `{PB : PbMsg SessionData} `{UV : UnionViews}.
Context (R : relation E) `{!HeapFrame E R, !PsaFrame E R}.

Lemma frame_derive ctx e0 e : R e0 e → R e0 (derive_session_key ctx e).2.
Proof. intros HR. unfold derive_session_key. cbv zeta. frame_cases; frame. Qed.
#[local] Hint Resolve frame_derive : frame.
Lemma frame_cmd0 ctx p e0 e : R e0 e → R e0 (handle_cmd0 ctx p e).2.
Proof. intros HR. unfold handle_cmd0, build_resp0. cbv zeta. frame_cases; frame. Qed.
Lemma frame_cmd1 ctx p e0 e : R e0 e → R e0 (handle_cmd1 ctx p e).2.
Proof. intros HR. unfold handle_cmd1, build_resp1. cbv zeta. frame_cases; frame. Qed.
#[local] Hint Resolve frame_cmd0 frame_cmd1 : frame.

Lemma security1_frame n : security_frame R (network_prov_security1 n).
Proof.
  split; cbn; intros; simplify_eq.
  - unfold sec1_init. frame_cases; frame.
  - unfold sec1_cleanup. cbv zeta. frame_cases; frame.
  - unfold sec1_handshake. frame_cases; frame.
  - unfold sec1_encrypt. frame_cases; frame.
  - unfold sec1_encrypt. frame_cases; frame.
Qed.

Lemma security0_frame : security_frame R (network_prov_security0 (E := E)).
Proof.
  split; cbn; intros; simplify_eq; [done|done| |done|done].
  unfold sec0_handshake. frame_cases; frame.
Qed.
End schemes.

Section protocomm.
Context {E Hnd Priv Sec Ctx : Type} `{HH : KHeap E} `{CB : Callbacks E Hnd Priv Sec Ctx}.
Context (R : relation E) `{!HeapFrame E R, !SecuritiesFrame E Hnd Priv Sec Ctx R}.

Local Abbreviation pcomm := (protocomm Hnd Priv Sec Ctx).

Lemma frame_new n e0 e : R e0 e → R e0 (protocomm_new n (Hnd := Hnd) (Priv := Priv) (Sec := Sec) (Ctx := Ctx) e).2.
Proof. intros HR. unfold protocomm_new. frame_cases; frame. Qed.

Lemma frame_close (p : option pcomm) e0 e : R e0 e → R e0 (protocomm_close_session p e).2.
Proof.
  intros HR. unfold protocomm_close_session. frame_cases; frame.
  by eapply sf_cleanup; [apply cf_security|..].
Qed.
#[local] Hint Resolve frame_close : frame.

Lemma frame_open (p : option pcomm) e0 e : R e0 e → R e0 (protocomm_open_session p e).2.
Proof.
  intros HR. unfold protocomm_open_session.
  frame_cases; frame. eapply frame_result; [eassumption|].
  eapply sf_init; [apply cf_security|eassumption|]. frame.
Qed.

Lemma frame_delete (p : option (loc * pcomm)) e0 e : R e0 e → R e0 (protocomm_delete p e).
Proof.
  intros HR. unfold protocomm_delete. frame_cases; frame.
Qed.

Lemma frame_sec_encrypt (s : Sec) (ctx : option Ctx) b e0 e :
  R e0 e → R e0 (sec_encrypt (security_of s) ctx b e).2.
Proof. apply sf_encrypt, cf_security. Qed.
Lemma frame_sec_decrypt (s : Sec) (ctx : option Ctx) b e0 e :
  R e0 e → R e0 (sec_decrypt (security_of s) ctx b e).2.
Proof. apply sf_decrypt, cf_security. Qed.
#[local] Hint Resolve frame_sec_encrypt frame_sec_decrypt : frame.

(** The handler of an endpoint keeps within [R]. *)
Definition ep_frame (ep : protocomm_ep Hnd Priv) : Prop :=
  ∀ h b e0 e, ep_handler ep = Some h → R e0 e → R e0 (call_handler h (ep_priv ep) b e).2.

Lemma frame_decrypt (s : Sec) (ctx : option Ctx) b e0 e :
  R e0 e → R e0 (decrypt_request (security_of s) ctx b e).2.
Proof. intros HR. unfold decrypt_request. frame_cases; frame. Qed.

Lemma frame_run_endpoint (ep : protocomm_ep Hnd Priv) plain e0 e rc raw e' :
  ep_frame ep → run_endpoint ep plain e = Some (rc, raw, e') → R e0 e → R e0 e'.
Proof.
  intros Hep Hrun HR. apply run_endpoint_cases in Hrun as (h & raw0 & e1 & Hh & Hcall & Hcase).
  assert (HR1 : R e0 e1) by (eapply frame_result; [exact Hcall|]; by apply Hep).
  destruct Hcase as [(_ & _ & ->)|(_ & _ & ->)]; frame.
Qed.

Lemma frame_encrypt_into (s : Sec) (ctx : option Ctx) raw enc e0 e :
  R e0 e → R e0 (encrypt_into (security_of s) ctx raw enc e).2.
Proof. intros HR. unfold encrypt_into. frame_cases; frame. Qed.

Lemma frame_handle_data (p : pcomm) ep b e0 e rc out p' e' :
  ep_frame ep → handle_data p ep b e = Some (rc, out, p', e') → R e0 e → R e0 e'.
Proof.
  intros Hep Hrun HR. unfold handle_data in Hrun.
  destruct (pc_sec p) as [s|]; cbn [mbind option_bind] in Hrun; [|done].
  destruct (decrypt_request _ _ _ _) as [[[ret plain] ctx1] e1] eqn:Hdec.
  assert (HR1 : R e0 e1) by (eapply frame_result; [exact Hdec|]; by apply frame_decrypt).
  clear Hdec. destruct (negb (ret =? 0)); [by simplify_eq|].
  destruct (run_endpoint _ _ _) as [[[ret2 raw] e2]|] eqn:Hc; cbn [mbind option_bind] in Hrun; [|done].
  assert (HR2 : R e0 e2) by (by eapply frame_run_endpoint).
  destruct (negb (ret2 =? 0)); [by simplify_eq|].
  destruct (encrypt_response _ _ _ _) as [[[ret3 enc] ctx2] e4] eqn:Henc. simplify_eq.
  replace e' with (encrypt_response (security_of s) ctx1 raw e2).2 by by rewrite Henc.
  clear Henc. unfold encrypt_response, encrypt_into. frame_cases; frame.
Qed.

Lemma frame_table (p : option pcomm) name b outs e0 e rc out p' e' :
  (∀ q ep, p = Some q → ep ∈ endpoints q → ep_frame ep) →
  protocomm_req_handle p name b outs e = Some (rc, out, p', e') → R e0 e → R e0 e'.
Proof.
  intros Heps Hrun HR. unfold protocomm_req_handle, handle_version in Hrun.
  repeat case_match; cbn [mbind option_bind] in *; simplify_eq; try done.
  - destruct (handle_data _ _ _ _) as [[[[rc1 o1] pc1] e1]|] eqn:Hd; cbn in Hrun; [|done].
    simplify_eq. eapply frame_handle_data; [|exact Hd|done]. eapply Heps; [done|].
    match goal with H : find_ep _ _ = Some _ |- _ => by apply find_ep_some in H as [? _] end.
  - eapply frame_result; [eassumption|]. by eapply sf_handshake; [apply cf_security|..].
  - destruct (pc_version _); cbn in Hrun; [|done].
    repeat case_match; cbn in Hrun; simplify_eq; frame.
Qed.

(** With every handler within [R] the table does not matter. *)
Lemma frame_req `{!HandlersFrame E Hnd Priv Sec Ctx R} (p : option pcomm) name b outs e0 e rc out p' e' :
  protocomm_req_handle p name b outs e = Some (rc, out, p', e') → R e0 e → R e0 e'.
Proof. apply frame_table. intros q ep _ _ h b' x0 x _. apply cf_handler. Qed.
End protocomm.
