(* ===== verification/Manager.v ===== *)
(** * Manager: lifecycle, endpoint wiring, version advertisement, events
    (src/network_prov_mgr.c)

    [sys] is the whole program: the manager's static structure, the network
    handlers' state of both network types (a build uses one of them), the
    protocomm objects by address, and the platform [E]. The handlers run on
    [prov_env], the platform together with the manager's structure, because the
    events they emit land there. A protocomm pointer that is followed after the
    object was deleted is a fault ([None]). *)
From S2P Require Import Prelude Platform PbUtil Messages Protocomm Security0 Psa Security1 NetEnv.
From S2P Require WifiConfig WifiScan WifiCtrl ThreadConfig ThreadScan ThreadCtrl.
From S2P Require Import Json.

Definition EP_VERSION_NAME : string := "proto-ver".
Definition EP_SESSION_NAME : string := "prov-session".
Definition EP_SCAN_NAME : string := "prov-scan".
Definition EP_CONFIG_NAME : string := "prov-config".
Definition EP_CTRL_NAME : string := "prov-ctrl".

Inductive network_prov_security := NETWORK_PROV_SECURITY_0 | NETWORK_PROV_SECURITY_1.
#[export] Instance prov_security_eq_dec : EqDecision network_prov_security.
Proof. solve_decision. Defined.

(** The protocomm handlers the manager installs. *)
Inductive prov_handler :=
| H_wifi_scan | H_wifi_config | H_wifi_ctrl
| H_thread_scan | H_thread_config | H_thread_ctrl
| H_custom_trampoline.

(** [struct custom_ep]; [AH] is an application handler, [AC] its context. *)
Record custom_ep (AH AC : Type) := mk_custom {
  ce_name : string;
  ce_handler : option AH;
  ce_ctx : option AC;
  ce_created : bool;
}.
Arguments mk_custom {_ _}.
Arguments ce_name {_ _} _.
Arguments ce_handler {_ _} _.
Arguments ce_ctx {_ _} _.
Arguments ce_created {_ _} _.

(** [static struct { ... } mgr]; [Sch] identifies a scheme object. *)
Record manager (Sch AH AC Sem Work : Type) := mk_mgr {
  mg_inited : bool;
  mg_started : bool;
  mg_scheme : option Sch;
  mg_app_cb : bool;
  mg_wifi_conn_attempts : Z;
  mg_pc : option loc;
  mg_app_info_json : string;
  mg_version_json : string;
  mg_done : Sem;
  mg_auto_stop : bool;
  mg_cleanup_delay_ms : Z;
  mg_teardown_work : Work;
  mg_custom : list (custom_ep AH AC);
}.
Arguments mk_mgr {_ _ _ _ _}.
Arguments mg_inited {_ _ _ _ _} _.
Arguments mg_started {_ _ _ _ _} _.
Arguments mg_scheme {_ _ _ _ _} _.
Arguments mg_app_cb {_ _ _ _ _} _.
Arguments mg_wifi_conn_attempts {_ _ _ _ _} _.
Arguments mg_pc {_ _ _ _ _} _.
Arguments mg_app_info_json {_ _ _ _ _} _.
Arguments mg_version_json {_ _ _ _ _} _.
Arguments mg_done {_ _ _ _ _} _.
Arguments mg_auto_stop {_ _ _ _ _} _.
Arguments mg_cleanup_delay_ms {_ _ _ _ _} _.
Arguments mg_teardown_work {_ _ _ _ _} _.
Arguments mg_custom {_ _ _ _ _} _.
#[export] Instance manager_eta {S A C M W} : FieldEta (manager S A C M W) := fun r =>
  mk_mgr (mg_inited r) (mg_started r) (mg_scheme r) (mg_app_cb r) (mg_wifi_conn_attempts r)
    (mg_pc r) (mg_app_info_json r) (mg_version_json r) (mg_done r) (mg_auto_stop r)
    (mg_cleanup_delay_ms r) (mg_teardown_work r) (mg_custom r).

(** ** Custom endpoints and the version document: pure parts *)
Definition app_info_max : Z := 256.
Definition version_max : Z := 448.

(** [snprintf] appending [s] at the end of [buf] in an array of [size] bytes:
    [None] when it does not fit (the callers then discard the buffer). *)
Definition append_fits (size : Z) (buf s : string) : option string :=
  if strlen s <? size - strlen buf then Some (buf +:+ s) else None.

(** The capability loop of [set_app_info]; [first] is [i == 0]. *)
Fixpoint render_caps (first : bool) (caps : list string) (buf : string) : option string :=
  match caps with
  | [] => Some buf
  | c :: caps =>
      buf' ← append_fits app_info_max buf ((if first then EmptyString else ",") +:+ quote c);
      render_caps false caps buf'
  end.

Definition render_app_info (label version : string) (caps : list string) : option string :=
  buf ← append_fits app_info_max EmptyString
          (quote label +:+ ":{" +:+ quote "ver" +:+ ":" +:+ quote version +:+ "," +:+
           quote "cap" +:+ ":[");
  buf ← render_caps true caps buf;
  append_fits app_info_max buf "]},".

Definition is_builtin_ep (name : string) : bool :=
  String.eqb name EP_VERSION_NAME || String.eqb name EP_SESSION_NAME ||
  String.eqb name EP_SCAN_NAME || String.eqb name EP_CONFIG_NAME || String.eqb name EP_CTRL_NAME.

Section custom.
Context {AH AC : Type}.

Definition custom_zero : custom_ep AH AC := mk_custom EmptyString None None false.

Definition find_custom_ep (custom : list (custom_ep AH AC)) (name : string) : option nat :=
  fst <$> list_find (fun e => ce_created e = true ∧ ce_name e = name) custom.

(** The first free slot. *)
Definition free_custom_ep (custom : list (custom_ep AH AC)) : option nat :=
  fst <$> list_find (fun e => ce_created e = false) custom.
End custom.

(** ** The interfaces the manager uses *)
(** A transport scheme ([struct network_prov_scheme]); [scheme_valid] says that
    both function pointers are set. [transports] is the static state of the transports,
    [scheme_holds] the protocomm object a scheme's transport was started with, and
    [transport_step] what a transport does to its own state by itself. *)
Class Schemes := {
  scheme_t : Type;
  scheme_eq_dec :: EqDecision scheme_t;
  scheme_valid : scheme_t → bool;
  transports : Type;
  scheme_holds : scheme_t → transports → option loc;
  transport_step : transports → transports → Prop;
}.

(** The two function pointers, over the whole program [S]: a transport reads the
    endpoint table when it starts and closes the session when it stops. [None] is a
    fault. *)
Class SchemeOps (S : Type) `{Schemes} := {
  scheme_start : scheme_t → loc → option string → option string → S → option (Z * S);
  scheme_stop : scheme_t → S → option S;
}.

(** The application: its event callback (called when [true]) and the handlers of
    its custom endpoints. *)
Class Application (E : Type) := {
  app_handler_t : Type;
  app_ctx_t : Type;
  app_event : bool → network_prov_cb_event → E → E;
  app_handler : app_handler_t → option app_ctx_t → bytes → E → Z * obuf * E;
}.

Class Settings (E : Type) := {
  settings_subsys_init : E → Z * E;
  settings_load : E → Z * E;
}.

(** A security context of either scheme. *)
Inductive scheme_ctx (Op : Type) := ctx_sec0 (c : sec0_ctx) | ctx_sec1 (c : sec1_ctx Op).
Arguments ctx_sec0 {_} _.
Arguments ctx_sec1 {_} _.
Definition as_sec0 {Op} (c : scheme_ctx Op) : option sec0_ctx :=
  match c with ctx_sec0 c => Some c | _ => None end.
Definition as_sec1 {Op} (c : scheme_ctx Op) : option (sec1_ctx Op) :=
  match c with ctx_sec1 c => Some c | _ => None end.

(** A scheme over its own contexts, as a scheme over all of them. One instance
    only ever sees the contexts it made. *)
Definition lift_security {C D E : Type} (inj : C → D) (prj : D → option C)
    (s : protocomm_security C E) : protocomm_security D E :=
  let out3 (x : Z * option C * E) : Z * option D * E :=
    let '(rc, c, e) := x in (rc, option_map inj c, e) in
  let down (d : option D) : option C := match d with Some d => prj d | None => None end in
  mk_security (sec_version s)
    (option_map (fun f pop e => out3 (f pop e)) (sec_init s))
    (option_map (fun f d e => match prj d with Some c => f c e | None => e end) (sec_cleanup s))
    (option_map (fun f d b e => let '(rc, out, c, e') := f (down d) b e in
                                (rc, out, option_map inj c, e')) (sec_handshake s))
    (fun d b e => let '(rc, out, c, e') := sec_encrypt s (down d) b e in (rc, out, option_map inj c, e'))
    (fun d b e => let '(rc, out, c, e') := sec_decrypt s (down d) b e in (rc, out, option_map inj c, e')).

(** The build: the network type, the Kconfig sizes, the ABI sizes. *)
Record build_config := mk_build {
  cf_thread : bool;
  cf_settings : bool;
  cf_scan_max : nat;
  cf_custom_max : nat;
  cf_autostop_ms : Z;
  cf_sizeof_protocomm : Z;
  cf_sizeof_sec1_ctx : Z;
}.

(** What reaches the handlers other than requests: the callbacks they registered
    and the expiry of their work items; the last one is what will arrive while a
    blocking scan waits. *)
Inductive net_event :=
| ev_wifi_result (status conn_status : Z)
| ev_wifi_retry
| ev_wifi_scan (ev : WifiScan.wifi_scan_event)
| ev_thread_state (role_changed : bool)
| ev_attach_timeout
| ev_discover (r : option ThreadScan.ot_scan_result)
| ev_arrivals (w : list WifiScan.wifi_scan_event) (t : list (option ThreadScan.ot_scan_result)).

Section manager.
Context {E : Type} `{HH : KHeap E} `{NL : NetLog E} `{WN : WifiNet E} `{OT : OpenThread E}.
Context `{PS : PSA E} `{K : Kernel} `{SC : Schemes} `{AP : Application E} `{ST : Settings E}.
Context `{PbMsg SessionData} `{PbMsg NetworkConfigPayload} `{PbMsg NetworkScanPayload}.
Context `{PbMsg NetworkCtrlPayload} `{UnionViews}.
Context (cf : build_config).

Local Abbreviation mgr_t := (manager scheme_t app_handler_t app_ctx_t k_sem k_work_delayable).

(** The platform with the manager in it. *)
Definition prov_env : Type := mgr_t * E.

Definition on_env {A} (f : E → A * E) (x : prov_env) : A * prov_env :=
  let '(a, e) := f x.2 in (a, (x.1, e)).
Definition env_do (f : E → E) (x : prov_env) : prov_env := (x.1, f x.2).

#[export] Instance env_heap : KHeap prov_env :=
  {| k_malloc n := on_env (k_malloc n); k_free p := env_do (k_free p); allocated x := allocated x.2 |}.
#[export] Instance env_log : NetLog prov_env := fun x => net_log x.2.
#[export] Instance env_wifi : WifiNet prov_env :=
  {| net_if_get_wifi_sta x := net_if_get_wifi_sta x.2;
     net_if_get_first_wifi x := net_if_get_first_wifi x.2;
     wifi_connect i p := on_env (wifi_connect i p);
     wifi_scan i := on_env (wifi_scan i);
     wifi_iface_status_get i x := wifi_iface_status_get i x.2;
     net_if_ipv4_text i x := net_if_ipv4_text i x.2;
     wifi_credentials_delete_by_ssid s := env_do (wifi_credentials_delete_by_ssid s);
     wifi_credentials_set_personal c := on_env (wifi_credentials_set_personal c);
     wifi_credentials_delete_all := on_env wifi_credentials_delete_all;
     wifi_credentials_is_empty x := wifi_credentials_is_empty x.2;
     net_mgmt_add_event_callback := env_do net_mgmt_add_event_callback;
     net_mgmt_del_event_callback := env_do net_mgmt_del_event_callback |}.
#[export] Instance env_openthread : OpenThread prov_env :=
  {| openthread_cb_register := on_env openthread_cb_register;
     openthread_cb_unregister := env_do openthread_cb_unregister;
     otDatasetSetActiveTlvs d := on_env (otDatasetSetActiveTlvs d);
     otIp6SetEnabled := env_do otIp6SetEnabled;
     otThreadSetEnabled b := on_env (otThreadSetEnabled b);
     otInstanceErasePersistentInfo := on_env otInstanceErasePersistentInfo;
     otDatasetIsCommissioned x := otDatasetIsCommissioned x.2;
     otThreadGetDeviceRole x := otThreadGetDeviceRole x.2;
     otLinkGetPanId x := otLinkGetPanId x.2; otLinkGetChannel x := otLinkGetChannel x.2;
     otThreadGetExtendedPanId x := otThreadGetExtendedPanId x.2;
     otThreadGetNetworkName x := otThreadGetNetworkName x.2;
     otLinkGetSupportedChannelMask x := otLinkGetSupportedChannelMask x.2;
     otThreadDiscover m := on_env (otThreadDiscover m) |}.

(** [network_prov_emit_event]: the one the handlers call. *)
#[export] Instance network_prov_emit : EmitEvent prov_env := fun ev x =>
  let e1 := app_event (mg_app_cb x.1) ev x.2 in
  match ev with
  | NETWORK_PROV_CRED_SUCCESS =>
      let m1 := x.1 <| mg_done := k_sem_give (mg_done x.1) |> in
      (if mg_started m1 && mg_auto_stop m1
       then m1 <| mg_teardown_work := k_work_schedule (cf_autostop_ms cf) (mg_teardown_work m1) |>
       else m1, e1)
  | _ => (x.1, e1)
  end.

(** The handlers' state on top of that, with the network events to come while a
    blocking scan waits. *)
Record netst := mk_net {
  n_wc : WifiConfig.wifi_cfg k_work_delayable;
  n_sc : WifiScan.wifi_scan_st k_sem;
  n_tc : ThreadConfig.thread_cfg k_work_delayable;
  n_ts : ThreadScan.thread_scan_st k_sem;
  n_wifi_arrivals : list WifiScan.wifi_scan_event;
  n_thread_arrivals : list (option ThreadScan.ot_scan_result);
  n_env : prov_env;
}.
#[export] Instance netst_eta : FieldEta netst := fun r =>
  mk_net (n_wc r) (n_sc r) (n_tc r) (n_ts r) (n_wifi_arrivals r) (n_thread_arrivals r) (n_env r).

Definition n_mgr (n : netst) : mgr_t := (n_env n).1.
Definition n_plat (n : netst) : E := (n_env n).2.
Definition set_mgr (f : mgr_t → mgr_t) (n : netst) : netst := n <| n_env := (f (n_mgr n), n_plat n) |>.
Definition set_plat (e : E) (n : netst) : netst := n <| n_env := (n_mgr n, e) |>.
Definition emit (ev : network_prov_cb_event) (n : netst) : netst :=
  n <| n_env := network_prov_emit_event ev (n_env n) |>.

#[export] Instance net_heap : KHeap netst :=
  {| k_malloc s n := let '(l, e) := k_malloc s (n_env n) in (l, n <| n_env := e |>);
     k_free p n := n <| n_env := k_free p (n_env n) |>;
     allocated n := allocated (n_env n) |}.

(** PSA calls of the security scheme, on the platform. *)
#[export] Instance net_psa : PSA netst :=
  {| psa_cipher_operation_t := psa_cipher_operation_t;
     psa_crypto_init n := let '(st, e) := psa_crypto_init (n_plat n) in (st, set_plat e n);
     psa_generate_key n := let '(st, k, e) := psa_generate_key (n_plat n) in (st, k, set_plat e n);
     psa_export_public_key k n := psa_export_public_key k (n_plat n);
     psa_destroy_key k n := set_plat (psa_destroy_key k (n_plat n)) n;
     psa_raw_key_agreement k pub n := psa_raw_key_agreement k pub (n_plat n);
     psa_hash_compute m n := psa_hash_compute m (n_plat n);
     psa_import_key b n := let '(st, k, e) := psa_import_key b (n_plat n) in (st, k, set_plat e n);
     psa_generate_random c n := let '(st, b, e) := psa_generate_random c (n_plat n) in (st, b, set_plat e n);
     psa_cipher_operation_init := psa_cipher_operation_init;
     psa_cipher_encrypt_setup op k n := psa_cipher_encrypt_setup op k (n_plat n);
     psa_cipher_set_iv := psa_cipher_set_iv; psa_cipher_update := psa_cipher_update;
     psa_cipher_abort := psa_cipher_abort;
     psa_keys n := psa_keys (n_plat n); cipher_st := cipher_st |}.

(** [custom_trampoline]; [priv] is the slot. *)
Definition custom_trampoline (priv : option nat) (inbuf : bytes) (n : netst) : Z * obuf * netst :=
  match priv ≫= fun i => mg_custom (n_mgr n) !! i with
  | None => (- ENOTSUP, no_buf, n)
  | Some ce =>
      match ce_handler ce with
      | None => (- ENOTSUP, no_buf, n)
      | Some h =>
          let '(rc, out, e) := app_handler h (ce_ctx ce) inbuf (n_plat n) in (rc, out, set_plat e n)
      end
  end.

Local Abbreviation op_t := (@psa_cipher_operation_t netst net_psa).
Local Abbreviation pcomm := (protocomm prov_handler nat network_prov_security (scheme_ctx op_t)).

(** What the installed function pointers do. *)
#[export] Instance prov_callbacks : Callbacks netst prov_handler nat network_prov_security (scheme_ctx op_t) :=
  {| call_handler h priv b n :=
       match h with
       | H_wifi_scan =>
           let '(rc, out, rest, sc, x) := WifiScan.network_prov_wifi_scan_handler (cf_scan_max cf) b
             (n_wifi_arrivals n) (n_sc n) (n_env n) in
           (rc, out, n <| n_sc := sc |> <| n_wifi_arrivals := rest |> <| n_env := x |>)
       | H_wifi_config =>
           let '(rc, out, wc, x) := WifiConfig.network_prov_wifi_config_handler b (n_wc n) (n_env n) in
           (rc, out, n <| n_wc := wc |> <| n_env := x |>)
       | H_wifi_ctrl =>
           let '(rc, out, wc, x) := WifiCtrl.network_prov_wifi_ctrl_handler b (n_wc n) (n_env n) in
           (rc, out, n <| n_wc := wc |> <| n_env := x |>)
       | H_thread_scan =>
           let '(rc, out, rest, ts, x) := ThreadScan.network_prov_thread_scan_handler (cf_scan_max cf) b
             (n_thread_arrivals n) (n_ts n) (n_env n) in
           (rc, out, n <| n_ts := ts |> <| n_thread_arrivals := rest |> <| n_env := x |>)
       | H_thread_config =>
           let '(rc, out, tc, x) := ThreadConfig.network_prov_thread_config_handler b (n_tc n) (n_env n) in
           (rc, out, n <| n_tc := tc |> <| n_env := x |>)
       | H_thread_ctrl =>
           let '(rc, out, tc, x) := ThreadCtrl.network_prov_thread_ctrl_handler b (n_tc n) (n_env n) in
           (rc, out, n <| n_tc := tc |> <| n_env := x |>)
       | H_custom_trampoline => custom_trampoline priv b n
       end;
     security_of s :=
       match s with
       | NETWORK_PROV_SECURITY_0 => lift_security ctx_sec0 as_sec0 network_prov_security0
       | NETWORK_PROV_SECURITY_1 =>
           lift_security ctx_sec1 as_sec1 (network_prov_security1 (cf_sizeof_sec1_ctx cf))
       end |}.

#[local] Existing Instances WifiConfig.wifi_cfg_eta ThreadConfig.thread_cfg_eta.

(** The callback or the work handler of a network event. *)
Definition deliver (ev : net_event) (n : netst) : netst :=
  match ev with
  | ev_wifi_result st c =>
      let '(wc, x) := WifiConfig.on_connect_result st c (n_wc n) (n_env n) in
      n <| n_wc := wc |> <| n_env := x |>
  | ev_wifi_retry =>
      let fired := (n_wc n) <| WifiConfig.wc_retry_work := k_work_fire (WifiConfig.wc_retry_work (n_wc n)) |> in
      let '(wc, x) := WifiConfig.retry_work_handler fired (n_env n) in
      n <| n_wc := wc |> <| n_env := x |>
  | ev_wifi_scan ev => n <| n_sc := WifiScan.mgmt_event (cf_scan_max cf) ev (n_sc n) |>
  | ev_thread_state rc =>
      let '(tc, x) := ThreadConfig.ot_state_changed rc (n_tc n) (n_env n) in
      n <| n_tc := tc |> <| n_env := x |>
  | ev_attach_timeout =>
      let fired := (n_tc n) <| ThreadConfig.tc_attach_timeout := k_work_fire (ThreadConfig.tc_attach_timeout (n_tc n)) |> in
      let '(tc, x) := ThreadConfig.attach_timeout_fn fired (n_env n) in
      n <| n_tc := tc |> <| n_env := x |>
  | ev_discover r => n <| n_ts := ThreadScan.discover_cb (cf_scan_max cf) r (n_ts n) |>
  | ev_arrivals w t => n <| n_wifi_arrivals := w |> <| n_thread_arrivals := t |>
  end.

(** Work runs when it is queued, and a callback is called while it is registered. *)
Definition due (ev : net_event) (n : netst) : Prop :=
  match ev with
  | ev_wifi_result _ _ => WifiConfig.wc_cb_registered (n_wc n) = true
  | ev_wifi_retry => is_Some (k_work_pending (WifiConfig.wc_retry_work (n_wc n)))
  | ev_wifi_scan _ => WifiScan.sc_cb_registered (n_sc n) = true
  | ev_thread_state _ => ThreadConfig.tc_cb_registered (n_tc n) = true
  | ev_attach_timeout => is_Some (k_work_pending (ThreadConfig.tc_attach_timeout (n_tc n)))
  | ev_discover _ | ev_arrivals _ _ => True
  end.

(** The program: the handlers' state, the live protocomm objects, the transports. *)
Record sys := mk_sys { sy_net : netst; sy_pcs : gmap loc pcomm; sy_tr : transports }.
#[export] Instance sys_eta : FieldEta sys := fun r => mk_sys (sy_net r) (sy_pcs r) (sy_tr r).
Context {SO : SchemeOps sys}.
Definition sy_mgr (s : sys) : mgr_t := n_mgr (sy_net s).
Definition sys_mgr (f : mgr_t → mgr_t) (s : sys) : sys := s <| sy_net := set_mgr f (sy_net s) |>.
Definition sys_emit (ev : network_prov_cb_event) (s : sys) : sys := s <| sy_net := emit ev (sy_net s) |>.

(** [struct network_prov_mgr_config]. *)
Record mgr_config := mk_mgr_config {
  mc_scheme : option scheme_t; mc_app_cb : bool; mc_wifi_conn_attempts : Z }.

Definition network_prov_mgr_init (config : mgr_config) (s : sys) : Z * sys :=
  if mg_inited (sy_mgr s) then (- EALREADY, s)
  else
    match mc_scheme config with
    | Some sch =>
        if negb (scheme_valid sch) then (- EINVAL, s)
        else
          let s1 := sys_mgr (fun m => m <| mg_scheme := Some sch |> <| mg_app_cb := mc_app_cb config |>
            <| mg_wifi_conn_attempts := mc_wifi_conn_attempts config |> <| mg_auto_stop := true |>
            <| mg_cleanup_delay_ms := 0 |> <| mg_app_info_json := EmptyString |>
            <| mg_custom := replicate (cf_custom_max cf) custom_zero |>
            <| mg_done := k_sem_init 0 1 |> <| mg_teardown_work := k_work_init |>) s in
          let finish s2 := (0, sys_emit NETWORK_PROV_INIT (sys_mgr (fun m => m <| mg_inited := true |>) s2)) in
          if cf_settings cf then
            let '(ret, e1) := settings_subsys_init (n_plat (sy_net s1)) in
            let s2 := s1 <| sy_net := set_plat e1 (sy_net s1) |> in
            if negb (ret =? 0) then (ret, s2)
            else finish (s2 <| sy_net := set_plat (settings_load e1).2 (sy_net s2) |>)
          else finish s1
    | None => (- EINVAL, s)
    end.

(** Register the network endpoints; the first failure stops. *)
Definition net_endpoints_init (p : pcomm) (n : netst) : Z * pcomm * netst :=
  let add p name h := let '(rc, p') := protocomm_add_endpoint (Some p) (Some name) (Some h) None in
                      (rc, default p p') in
  if cf_thread cf then
    let '(ret, ts) := ThreadScan.network_prov_thread_scan_init (n_ts n) in
    let n1 := n <| n_ts := ts |> in
    if negb (ret =? 0) then (ret, p, n1) else
    let '(ret, p1) := add p EP_SCAN_NAME H_thread_scan in
    if negb (ret =? 0) then (ret, p1, n1) else
    let '(ret, tc, x) := ThreadConfig.network_prov_thread_config_init (n_env n1) in
    let n2 := n1 <| n_tc := tc |> <| n_env := x |> in
    if negb (ret =? 0) then (ret, p1, n2) else
    let '(ret, p2) := add p1 EP_CONFIG_NAME H_thread_config in
    if negb (ret =? 0) then (ret, p2, n2) else
    let '(ret, p3) := add p2 EP_CTRL_NAME H_thread_ctrl in (ret, p3, n2)
  else
    let '(ret, sc, x) := WifiScan.network_prov_wifi_scan_init (n_sc n) (n_env n) in
    let n1 := n <| n_sc := sc |> <| n_env := x |> in
    if negb (ret =? 0) then (ret, p, n1) else
    let '(ret, p1) := add p EP_SCAN_NAME H_wifi_scan in
    if negb (ret =? 0) then (ret, p1, n1) else
    let '(ret, wc, x) := WifiConfig.network_prov_wifi_config_init
      (mg_wifi_conn_attempts (n_mgr n1)) (n_wc n1) (n_env n1) in
    let n2 := n1 <| n_wc := wc |> <| n_env := x |> in
    if negb (ret =? 0) then (ret, p1, n2) else
    let '(ret, p2) := add p1 EP_CONFIG_NAME H_wifi_config in
    if negb (ret =? 0) then (ret, p2, n2) else
    let '(ret, p3) := add p2 EP_CTRL_NAME H_wifi_ctrl in (ret, p3, n2).

Definition net_endpoints_deinit (n : netst) : netst :=
  if cf_thread cf then
    let n1 := n <| n_ts := ThreadScan.network_prov_thread_scan_deinit (n_ts n) |> in
    let '(tc, x) := ThreadConfig.network_prov_thread_config_deinit (n_tc n1) (n_env n1) in
    n1 <| n_tc := tc |> <| n_env := x |>
  else
    let '(sc, x) := WifiScan.network_prov_wifi_scan_deinit (n_sc n) (n_env n) in
    let n1 := n <| n_sc := sc |> <| n_env := x |> in
    let '(wc, x) := WifiConfig.network_prov_wifi_config_deinit (n_wc n1) (n_env n1) in
    n1 <| n_wc := wc |> <| n_env := x |>.

(** The loop over [mgr.custom], from slot [i] on. *)
Fixpoint add_custom_endpoints (i : nat) (slots : list (custom_ep app_handler_t app_ctx_t)) (p : pcomm)
    : Z * pcomm :=
  match slots with
  | [] => (0, p)
  | ce :: slots =>
      if negb (ce_created ce) then add_custom_endpoints (S i) slots p
      else
        let '(ret, p') := protocomm_add_endpoint (Some p) (Some (ce_name ce))
          (Some H_custom_trampoline) (Some i) in
        if negb (ret =? 0) then (ret, default p p') else add_custom_endpoints (S i) slots (default p p')
  end.

Definition version_json (app_info : string) (security : network_prov_security) (pop : option string)
    : string :=
  let sec_ver := match security with NETWORK_PROV_SECURITY_1 => 1%nat | _ => 0%nat end in
  let no_pop := bool_decide (security = NETWORK_PROV_SECURITY_1) && null_or_empty pop in
  "{" +:+ app_info +:+ quote "prov" +:+ ":{" +:+ quote "ver" +:+ ":" +:+ quote "v1.1" +:+ "," +:+
  quote "sec_ver" +:+ ":" +:+ digit sec_ver +:+ "," +:+ quote "cap" +:+ ":[" +:+
  (if cf_thread cf then quote "thread_prov" +:+ "," +:+ quote "thread_scan"
   else quote "wifi_prov" +:+ "," +:+ quote "wifi_scan") +:+
  (if no_pop then "," +:+ quote "no_pop" else EmptyString) +:+ "]}}".

(** [snprintf] into [mgr.version_json]. *)
Definition build_version_json (security : network_prov_security) (pop : option string) (m : mgr_t) : mgr_t :=
  m <| mg_version_json :=
         strncpy (Z.to_nat (version_max - 1)) (version_json (mg_app_info_json m) security pop) |>.

(** Everything that is registered before the transport is started: the version
    and session endpoints, the network's, the application's. *)
Definition register_endpoints (security : network_prov_security) (pop : option string) (p : pcomm)
    (n : netst) : Z * pcomm * netst :=
  let '(ret, p1) := protocomm_set_version (Some p) (Some EP_VERSION_NAME)
                      (Some (mg_version_json (n_mgr n))) in
  let p1 := default p p1 in
  if negb (ret =? 0) then (ret, p1, n) else
  let '(ret, p2) := protocomm_set_security (Some p1) (Some EP_SESSION_NAME) (Some security)
                      (match security with NETWORK_PROV_SECURITY_1 => pop | _ => None end) in
  let p2 := default p1 p2 in
  if negb (ret =? 0) then (ret, p2, n) else
  let '(ret, p3, n1) := net_endpoints_init p2 n in
  if negb (ret =? 0) then (ret, p3, n1) else
  let '(ret, p4) := add_custom_endpoints 0 (mg_custom (n_mgr n1)) p3 in (ret, p4, n1).

(** The [err] label. *)
Definition start_failed (ret : Z) (l : loc) (s : sys) : option (Z * sys) :=
  let n1 := net_endpoints_deinit (sy_net s) in
  p ← sy_pcs s !! l;
  let n2 := protocomm_delete (Some (l, p)) n1 in
  Some (ret, mk_sys (set_mgr (fun m => m <| mg_pc := None |>) n2) (delete l (sy_pcs s)) (sy_tr s)).

(** [None] is a fault: of the transport, or of the deletion. *)
Definition network_prov_mgr_start_provisioning (security : network_prov_security) (pop : option string)
    (service_name service_key : option string) (s : sys) : option (Z * sys) :=
  if negb (mg_inited (sy_mgr s)) then Some (- EPERM, s)
  else if mg_started (sy_mgr s) then Some (- EALREADY, s)
  else
    match protocomm_new (cf_sizeof_protocomm cf) (sy_net s) with
    | (None, n1) => Some (- ENOMEM, s <| sy_net := set_mgr (fun m => m <| mg_pc := None |>) n1 |>)
    | (Some (l, p), n1) =>
        let n2 := set_mgr (fun m => build_version_json security pop (m <| mg_pc := Some l |>)) n1 in
        let '(ret, p1, n3) := register_endpoints security pop p n2 in
        let s1 := mk_sys n3 (<[l := p1]> (sy_pcs s)) (sy_tr s) in
        if negb (ret =? 0) then start_failed ret l s1
        else
          match mg_scheme (n_mgr n3) with
          | None => start_failed (- EINVAL) l s1
          | Some sch =>
              '(ret, s2) ← scheme_start sch l service_name service_key s1;
              if negb (ret =? 0) then start_failed ret l s2
              else Some (0, sys_emit NETWORK_PROV_START (sys_mgr (fun m => m <| mg_started := true |>) s2))
          end
    end.

(** A NULL scheme does not occur after init. *)
Definition do_teardown (s : sys) : option sys :=
  if negb (mg_started (sy_mgr s)) then Some s
  else
    sch ← mg_scheme (sy_mgr s);
    s1 ← scheme_stop sch s;
    let n2 := net_endpoints_deinit (sy_net s1) in
    l ← mg_pc (sy_mgr s1);
    p ← sy_pcs s1 !! l;
    let n3 := protocomm_delete (Some (l, p)) n2 in
    let s2 := mk_sys (set_mgr (fun m => m <| mg_pc := None |> <| mg_started := false |>) n3)
                (delete l (sy_pcs s1)) (sy_tr s1) in
    Some (sys_emit NETWORK_PROV_END s2).

(** [teardown_work_fn], with the item taken off the queue. *)
Definition teardown_work_fn (s : sys) : option sys :=
  do_teardown (sys_mgr (fun m => m <| mg_teardown_work := k_work_fire (mg_teardown_work m) |>) s).

Definition cancel_teardown (s : sys) : sys :=
  sys_mgr (fun m => m <| mg_teardown_work := k_work_cancel (mg_teardown_work m) |>) s.

Definition network_prov_mgr_deinit (s : sys) : option sys :=
  if negb (mg_inited (sy_mgr s)) then Some s
  else
    let s1 := cancel_teardown s in
    s2 ← (if mg_started (sy_mgr s1) then do_teardown s1 else Some s1);
    Some (sys_emit NETWORK_PROV_DEINIT (sys_mgr (fun m => m <| mg_inited := false |>) s2)).

Definition network_prov_mgr_stop_provisioning (s : sys) : option sys :=
  if negb (mg_started (sy_mgr s)) then Some s
  else
    let s1 := cancel_teardown s in
    if 0 <? mg_cleanup_delay_ms (sy_mgr s1) then
      Some (sys_mgr (fun m => m <| mg_teardown_work :=
              k_work_schedule (mg_cleanup_delay_ms m) (mg_teardown_work m) |>) s1)
    else do_teardown s1.

Definition network_prov_mgr_disable_auto_stop (cleanup_delay_ms : Z) (s : sys) : Z * sys :=
  if negb (mg_inited (sy_mgr s)) then (- EPERM, s)
  else (0, cancel_teardown (sys_mgr (fun m => m <| mg_auto_stop := false |>
                                               <| mg_cleanup_delay_ms := cleanup_delay_ms |>) s)).

(** [provisioned]: the pointer is not NULL. *)
Definition network_prov_mgr_is_provisioned (provisioned : bool) (s : sys) : Z * option bool :=
  if negb provisioned then (- EINVAL, None)
  else
    (0, Some (if cf_thread cf then ThreadConfig.network_prov_thread_is_commissioned (n_env (sy_net s))
              else negb (wifi_credentials_is_empty (n_env (sy_net s))))).

Definition network_prov_mgr_reset_wifi_provisioning (s : sys) : Z * sys :=
  if negb (mg_inited (sy_mgr s)) then (- EPERM, s)
  else
    let n := sy_net s in
    if cf_thread cf then
      let '(rc, tc, x) := ThreadConfig.network_prov_thread_config_erase (n_tc n) (n_env n) in
      (rc, s <| sy_net := n <| n_tc := tc |> <| n_env := x |> |>)
    else
      let '(rc, x) := wifi_credentials_delete_all (n_env n) in
      (rc, s <| sy_net := n <| n_env := x |> |>).

(** [capabilities_count] elements at [capabilities]; [None] is NULL. *)
Definition network_prov_mgr_set_app_info (label version : option string)
    (capabilities : option (list (option string))) (capabilities_count : nat) (s : sys) : Z * sys :=
  match label, version with
  | Some label, Some version =>
      if String.eqb label EmptyString then (- EINVAL, s)
      else if (0 <? capabilities_count)%nat && bool_decide (capabilities = None) then (- EINVAL, s)
      else if negb (mg_inited (sy_mgr s)) then (- EPERM, s)
      else if mg_started (sy_mgr s) then (- EPERM, s)
      else if negb (json_token_ok label) || negb (json_token_ok version) then (- EINVAL, s)
      else
        let caps := take capabilities_count (default [] capabilities) in
        if negb (forallb (fun c => match c with Some c => json_token_ok c | None => false end) caps)
        then (- EINVAL, s)
        else
          match render_app_info label version (omap id caps) with
          | Some json => (0, sys_mgr (fun m => m <| mg_app_info_json := json |>) s)
          | None => (- ENOMEM, sys_mgr (fun m => m <| mg_app_info_json := EmptyString |>) s)
          end
  | _, _ => (- EINVAL, s)
  end.

Definition network_prov_mgr_endpoint_create (ep_name : option string) (s : sys) : Z * sys :=
  match ep_name with
  | None => (- EINVAL, s)
  | Some name =>
      if String.eqb name EmptyString || (Z.of_nat PROTOCOMM_EP_NAME_MAX <=? strlen name)
      then (- EINVAL, s)
      else if negb (mg_inited (sy_mgr s)) then (- EPERM, s)
      else if mg_started (sy_mgr s) then (- EPERM, s)
      else if is_builtin_ep name || bool_decide (is_Some (find_custom_ep (mg_custom (sy_mgr s)) name))
      then (- EALREADY, s)
      else
        match free_custom_ep (mg_custom (sy_mgr s)) with
        | None => (- ENOSPC, s)
        | Some i =>
            let ce := mk_custom (strncpy (PROTOCOMM_EP_NAME_MAX - 1) name) None None true in
            (0, sys_mgr (fun m => m <| mg_custom := <[i := ce]> (mg_custom m) |>) s)
        end
  end.

Definition set_custom (i : nat) (h : option app_handler_t) (c : option app_ctx_t) (m : mgr_t) : mgr_t :=
  m <| mg_custom := alter (fun e => mk_custom (ce_name e) h c (ce_created e)) i (mg_custom m) |>.

Definition network_prov_mgr_endpoint_register (ep_name : option string) (handler : option app_handler_t)
    (user_ctx : option app_ctx_t) (s : sys) : Z * sys :=
  match ep_name, handler with
  | Some name, Some h =>
      if negb (mg_started (sy_mgr s)) then (- EPERM, s)
      else
        match find_custom_ep (mg_custom (sy_mgr s)) name with
        | None => (- ENOENT, s)
        | Some i => (0, sys_mgr (set_custom i (Some h) user_ctx) s)
        end
  | _, _ => (- EINVAL, s)
  end.

Definition network_prov_mgr_endpoint_unregister (ep_name : option string) (s : sys) : Z * sys :=
  match ep_name with
  | None => (- EINVAL, s)
  | Some name =>
      match find_custom_ep (mg_custom (sy_mgr s)) name with
      | None => (- ENOENT, s)
      | Some i => (0, sys_mgr (set_custom i None None) s)
      end
  end.

Definition network_prov_mgr_is_sm_idle (s : sys) : bool := negb (mg_started (sy_mgr s)).

Definition net_config_reset (n : netst) : netst :=
  if cf_thread cf then
    let '(tc, x) := ThreadConfig.network_prov_thread_config_reset (n_tc n) (n_env n) in
    n <| n_tc := tc |> <| n_env := x |>
  else n <| n_wc := WifiConfig.network_prov_wifi_config_reset (n_wc n) |>.

(** Also [network_prov_mgr_reset_wifi_sm_state_for_reprovision]. *)
Definition network_prov_mgr_reset_wifi_sm_state_on_failure (s : sys) : Z * sys :=
  if negb (mg_started (sy_mgr s)) then (- EPERM, s)
  else (0, s <| sy_net := net_config_reset (sy_net s) |>).

Definition network_prov_mgr_configure_wifi_sta (ssid psk : option string) (s : sys) : Z * sys :=
  if negb (mg_started (sy_mgr s)) then (- EPERM, s)
  else if cf_thread cf then (- ENOTSUP, s)
  else if null_or_empty ssid then (- EINVAL, s)
  else
    let ss := default EmptyString ssid in
    let pw := default EmptyString psk in
    let '(rc, wc, x) := WifiConfig.network_prov_wifi_config_set_and_apply (Some (str_bytes ss)) (strlen ss)
      (Some (str_bytes pw)) (strlen pw) (n_wc (sy_net s)) (n_env (sy_net s)) in
    let n := sy_net s in
    (rc, s <| sy_net := n <| n_wc := wc |> <| n_env := x |> |>).

(** The code, and what [*attempts_remaining] is set to. *)
Definition network_prov_mgr_get_wifi_remaining_conn_attempts (ptr : bool) (s : sys) : Z * option Z :=
  if negb ptr || negb (mg_started (sy_mgr s)) then (- EINVAL, None)
  else if cf_thread cf then (- ENOTSUP, None)
  else (0, Some (WifiConfig.network_prov_wifi_config_remaining_attempts (n_wc (sy_net s)))).

(** [k_sem_take(&mgr.done, K_FOREVER)]: [None] while it blocks. *)
Definition network_prov_mgr_wait (s : sys) : option sys :=
  (fun sem => sys_mgr (fun m => m <| mg_done := sem |>) s) <$> k_sem_try_take (mg_done (sy_mgr s)).

(** What a transport does with a request for the object it was started with. *)
Definition transport_request (l : loc) (name : option string) (inbuf : bytes) (s : sys)
    : option (Z * obuf * sys) :=
  p ← sy_pcs s !! l;
  match protocomm_req_handle (Some p) name inbuf true (sy_net s) with
  | Some (rc, out, Some p1, n1) => Some (rc, out, s <| sy_net := n1 |> <| sy_pcs := <[l := p1]> (sy_pcs s) |>)
  | _ => None
  end.
Definition transport_open (l : loc) (s : sys) : option sys :=
  p ← sy_pcs s !! l;
  match protocomm_open_session (Some p) (sy_net s) with
  | (Some p1, n1) => Some (s <| sy_net := n1 |> <| sy_pcs := <[l := p1]> (sy_pcs s) |>)
  | _ => None
  end.
Definition transport_close (l : loc) (s : sys) : option sys :=
  p ← sy_pcs s !! l;
  match protocomm_close_session (Some p) (sy_net s) with
  | (Some p1, n1) => Some (s <| sy_net := n1 |> <| sy_pcs := <[l := p1]> (sy_pcs s) |>)
  | _ => None
  end.
End manager.
