(* ===== verification/VersionDoc.v ===== *)
(** * VersionDoc: what the proto-ver answer says

    The string network_prov_mgr.c assembles by concatenation is the printing of a
    JSON document, and never longer than its buffer. *)
From S2P Require Import Prelude Platform Protocomm Json Manager.

#[local] Arguments String.append !_ _ /.

(** The application's section, and the library's. *)
Definition app_info_doc (label version : string) (caps : list string) : string * json :=
  (label, JObj [("ver", JStr version); ("cap", JArr (JStr <$> caps))]).

Definition prov_doc (thread : bool) (sec_ver : nat) (no_pop : bool) : string * json :=
  ("prov", JObj [("ver", JStr "v1.1"); ("sec_ver", JNum sec_ver);
     ("cap", JArr (JStr <$> ((if thread then ["thread_prov"; "thread_scan"]
                              else ["wifi_prov"; "wifi_scan"]) ++
                             (if no_pop then ["no_pop"] else []))))]).

Lemma append_fits_some size buf s r :
  append_fits size buf s = Some r → r = buf +:+ s ∧ strlen r < size.
Proof.
  unfold append_fits. destruct (strlen s <? size - strlen buf) eqn:Hl; breflect; [|done].
  intros ?; simplify_eq. split; [done|]. unfold strlen in *. rewrite length_append. lia.
Qed.

Lemma render_caps_some first caps buf r :
  render_caps first caps buf = Some r → strlen buf < app_info_max →
  strlen r < app_info_max ∧
  r = buf +:+ (if first then EmptyString else match caps with [] => EmptyString | _ => "," end)
          +:+ sep_by_comma (quote <$> caps).
Proof.
  revert first buf. induction caps as [|c caps IH]; intros first buf Hr Hb.
  { cbn in Hr. simplify_eq. split; [done|]. destruct first; cbn; by rewrite append_nil_r. }
  cbn [render_caps] in Hr.
  destruct (append_fits _ _ _) as [buf'|] eqn:Ha; cbn [mbind option_bind] in Hr; [|done].
  apply append_fits_some in Ha as [-> Hl]. destruct (IH _ _ Hr Hl) as [Hlen ->]. split; [done|].
  rewrite !append_assoc'. do 2 f_equal. destruct caps as [|c2 caps]; [by rewrite !append_nil_r|].
  reflexivity.
Qed.

(** A rendered section: what was written, and that it fits. *)
Lemma render_app_info_some label version caps r :
  render_app_info label version caps = Some r →
  strlen r < app_info_max ∧
  r = quote label +:+ ":{" +:+ quote "ver" +:+ ":" +:+ quote version +:+ "," +:+ quote "cap" +:+
      ":[" +:+ sep_by_comma (quote <$> caps) +:+ "]},".
Proof.
  unfold render_app_info. intros Hr.
  destruct (append_fits _ _ _) as [b1|] eqn:H1; cbn [mbind option_bind] in Hr; [|done].
  apply append_fits_some in H1 as [-> Hl1].
  destruct (render_caps _ _ _) as [b2|] eqn:H2; cbn [mbind option_bind] in Hr; [|done].
  apply render_caps_some in H2 as [Hl2 ->]; [|done].
  apply append_fits_some in Hr as [-> Hl3]. split; [done|].
  change (EmptyString +:+ ?x) with x. by rewrite !append_assoc'.
Qed.

Lemma print_caps caps : map print (JStr <$> caps) = quote <$> caps.
Proof. induction caps as [|c caps IH]; [done|]. cbn [fmap list_fmap map]. by rewrite IH. Qed.

Lemma json_ok_pair a b : json_ok (JObj [a]) = true → json_ok (JObj [b]) = true → json_ok (JObj [a; b]) = true.
Proof. cbn [json_ok forallb]. rewrite !andb_true_r. by intros -> ->. Qed.

Lemma json_ok_app_info label version caps :
  json_token_ok label = true → json_token_ok version = true → forallb json_token_ok caps = true →
  json_ok (JObj [app_info_doc label version caps]) = true.
Proof.
  intros Hl Hv Hc. unfold app_info_doc. cbn [json_ok forallb fst snd]. rewrite Hl, Hv.
  assert (Hcaps : forallb json_ok (JStr <$> caps) = true).
  { clear -Hc. induction caps as [|c caps IH]; [done|]. cbn in *.
    apply andb_true_iff in Hc as [-> Hc]. by apply IH. }
  by rewrite Hcaps.
Qed.

Lemma brace_inj a b : "{" +:+ a = "{" +:+ b → a = b.
Proof. change (String "{" a = String "{" b → a = b). congruence. Qed.

Section version.
Context (cf : build_config).

Definition sec_number (sec : network_prov_security) : nat :=
  match sec with NETWORK_PROV_SECURITY_1 => 1 | _ => 0 end.
Definition says_no_pop (sec : network_prov_security) (pop : option string) : bool :=
  bool_decide (sec = NETWORK_PROV_SECURITY_1) && null_or_empty pop.

Lemma version_json_plain sec pop :
  version_json cf EmptyString sec pop =
    print (JObj [prov_doc (cf_thread cf) (sec_number sec) (says_no_pop sec pop)]).
Proof.
  unfold version_json, prov_doc, says_no_pop. destruct (cf_thread cf), sec; cbn [sec_number];
    destruct (bool_decide _ && null_or_empty pop); reflexivity.
Qed.

Lemma version_json_app label version caps app sec pop :
  render_app_info label version caps = Some app →
  version_json cf app sec pop =
    print (JObj [app_info_doc label version caps;
                 prov_doc (cf_thread cf) (sec_number sec) (says_no_pop sec pop)]).
Proof.
  intros Hr. apply render_app_info_some in Hr as [_ ->].
  pose proof (version_json_plain sec pop) as Hp.
  change (print (JObj [prov_doc ?a ?b ?c])) with
    ("{" +:+ (quote "prov" +:+ ":" +:+ print (prov_doc a b c).2) +:+ "}") in Hp.
  change (print (JObj [?app; ?p])) with
    ("{" +:+ ((quote app.1 +:+ ":" +:+ print app.2) +:+ "," +:+ (quote p.1 +:+ ":" +:+ print p.2))
      +:+ "}").
  unfold version_json in Hp |- *. rewrite !append_assoc'. rewrite !append_assoc' in Hp.
  change ("{" +:+ (EmptyString +:+ ?x)) with ("{" +:+ x) in Hp.
  apply brace_inj in Hp. rewrite Hp. cbn [app_info_doc print map fst snd sep_by_comma].
  rewrite print_caps, !append_assoc'. reflexivity.
Qed.

(** The documents are well formed, so that they are read back. *)
Lemma prov_doc_ok sec pop :
  json_ok (JObj [prov_doc (cf_thread cf) (sec_number sec) (says_no_pop sec pop)]) = true.
Proof. unfold prov_doc, sec_number. by destruct (cf_thread cf), sec, (says_no_pop _ pop). Qed.

Lemma version_json_length app sec pop :
  strlen (version_json cf app sec pop) <= strlen app + 100.
Proof.
  unfold version_json, strlen. rewrite !length_append.
  destruct (cf_thread cf), sec, (bool_decide _ && null_or_empty pop); cbn; lia.
Qed.

(** Nothing is cut off by the buffer: the application's section is shorter than its
    own buffer. *)
Lemma version_fits app sec pop : strlen app < app_info_max →
  strncpy (Z.to_nat (version_max - 1)) (version_json cf app sec pop) = version_json cf app sec pop.
Proof.
  intros Hl. pose proof (version_json_length app sec pop) as Hv. unfold app_info_max, version_max in *.
  apply strncpy_fits. unfold strlen in *. lia.
Qed.

(** The document a version string is, with or without an application section. *)
Definition version_doc (app : option (string * string * list string)) (sec : network_prov_security)
    (pop : option string) : json :=
  JObj (match app with Some (label, version, caps) => [app_info_doc label version caps] | None => [] end ++
        [prov_doc (cf_thread cf) (sec_number sec) (says_no_pop sec pop)]).

Lemma version_json_doc j app sec pop :
  match app with
  | None => j = EmptyString
  | Some (label, version, caps) =>
      json_token_ok label = true ∧ json_token_ok version = true ∧ forallb json_token_ok caps = true ∧
      render_app_info label version caps = Some j
  end →
  version_json cf j sec pop = print (version_doc app sec pop) ∧ json_ok (version_doc app sec pop) = true ∧
  strlen j < app_info_max.
Proof.
  destruct app as [[[label version] caps]|].
  - intros (Hl & Hv & Hc & Hr). split; [by apply version_json_app|]. split.
    + apply json_ok_pair; [by apply json_ok_app_info|apply prov_doc_ok].
    + by apply render_app_info_some in Hr as [? _].
  - intros ->. split; [apply version_json_plain|]. split; [apply prov_doc_ok|done].
Qed.
End version.
