(* ===== verification/ManagerFrame.v ===== *)
(** * ManagerFrame: what reaches the manager

    The phases of the service as the application sees them, and what the handlers, the
    security schemes and the platform can do to the manager's structure: nothing but
    the effect of a success event. *)
From S2P Require Import Prelude Platform PbUtil Messages Protocomm Security0 Psa Security1 NetEnv.
From S2P Require WifiConfig WifiScan WifiCtrl ThreadConfig ThreadScan ThreadCtrl.
From S2P Require Import Json Frame Manager VersionDoc.

(** ** The phases of the service, read off the events the application sees *)
Inductive phase := ph_idle | ph_ready | ph_live.

Definition phase_step (o : option phase) (a : net_action) : option phase :=
  match a with
  | A_emit NETWORK_PROV_INIT => match o with Some ph_idle => Some ph_ready | _ => None end
  | A_emit NETWORK_PROV_START => match o with Some ph_ready => Some ph_live | _ => None end
  | A_emit NETWORK_PROV_END => match o with Some ph_live => Some ph_ready | _ => None end
  | A_emit NETWORK_PROV_DEINIT => match o with Some ph_ready => Some ph_idle | _ => None end
  | _ => o
  end.

(** [None] when an event came in the wrong phase. *)
Definition phases (log : list net_action) : option phase := foldl phase_step (Some ph_idle) log.

Lemma phases_snoc log a : phases (log ++ [a]) = phase_step (phases log) a.
Proof. unfold phases. by rewrite foldl_app. Qed.

Lemma phase_step_cred ev o : is_cred_event ev = true → phase_step o (A_emit ev) = o.
Proof. by destruct ev. Qed.

(** What the manager relies on: the application is told exactly the event, and
    nothing else in the platform makes up application events. *)
Class ManagerEnvLaws (E : Type) `{NetLog E, PSA E, Application E, Settings E} : Prop := {
  app_event_log cb ev (e : E) : net_log (app_event cb ev e) = net_log e ++ [A_emit ev];
  app_handler_log h c b (e : E) : net_log (app_handler h c b e).2 = net_log e;
  settings_init_log (e : E) : net_log (settings_subsys_init e).2 = net_log e;
  settings_load_log (e : E) : net_log (settings_load e).2 = net_log e;
  psa_init_log (e : E) : net_log (psa_crypto_init e).2 = net_log e;
  psa_generate_log (e : E) : net_log (psa_generate_key e).2 = net_log e;
  psa_destroy_log k (e : E) : net_log (psa_destroy_key k e) = net_log e;
  psa_import_log b (e : E) : net_log (psa_import_key b e).2 = net_log e;
  psa_random_log n (e : E) : net_log (psa_generate_random n e).2 = net_log e;
}.

(** The configurations the application initialises the manager with. *)
Class AppConfigs `{Schemes} := configured : mgr_config → Prop.

Section manager_frame.
Context {E : Type} `{HH : KHeap E} `{NL : NetLog E} `{!NetHeapLaws E}.
Context `{WN : WifiNet E} `{!WifiNetLaws E} `{OT : OpenThread E} `{!OpenThreadLaws E}.
Context `{PS : PSA E} `{K : Kernel} {KL : KernelLaws} `{SC : Schemes} `{AP : Application E} `{ST : Settings E}.
Context `{!ManagerEnvLaws E}.
Context `{P1 : PbMsg SessionData} `{P2 : PbMsg NetworkConfigPayload} `{P3 : PbMsg NetworkScanPayload}.
Context `{P4 : PbMsg NetworkCtrlPayload} `{UV : UnionViews}.
Context (cf : build_config).

Local Abbreviation mgr_t := (manager scheme_t app_handler_t app_ctx_t k_sem k_work_delayable).
Local Abbreviation op_t := (@psa_cipher_operation_t netst net_psa).
Local Abbreviation pcomm := (protocomm prov_handler nat network_prov_security (scheme_ctx op_t)).

(** *** What the handlers can do to the manager

    A success event gives the semaphore and may schedule the teardown of a running
    service; everything else in the manager's structure stays. *)
Definition keeps_mgr (m m' : mgr_t) : Prop :=
  ∃ d w, m' = m <| mg_done := d |> <| mg_teardown_work := w |> ∧
         (mg_started m = false → w = mg_teardown_work m).
Definition keeps (x y : prov_env) : Prop :=
  keeps_mgr x.1 y.1 ∧ phases (net_log y.2) = phases (net_log x.2).

Lemma keeps_mgr_refl m : keeps_mgr m m.
Proof. exists (mg_done m), (mg_teardown_work m). by destruct m. Qed.
Lemma keeps_mgr_trans m1 m2 m3 : keeps_mgr m1 m2 → keeps_mgr m2 m3 → keeps_mgr m1 m3.
Proof.
  intros (d & w & -> & Hw) (d' & w' & -> & Hw'). exists d', w'. destruct m1; cbn in *.
  split; [done|]. intros Hs. by rewrite Hw', Hw.
Qed.
#[export] Instance keeps_preorder : PreOrder keeps.
Proof.
  split.
  - intros x. split; [apply keeps_mgr_refl|done].
  - intros x y z [Hm1 Hp1] [Hm2 Hp2]. split; [by eapply keeps_mgr_trans|congruence].
Qed.

(** Everything but events leaves the structure alone. *)
Definition still (x y : prov_env) : Prop := y.1 = x.1 ∧ phases (net_log y.2) = phases (net_log x.2).
#[export] Instance still_preorder : PreOrder still.
Proof. split; [by intros x|]. intros x y z [? ?] [? ?]. split; congruence. Qed.
Lemma still_keeps x0 x y : still x y → keeps x0 x → keeps x0 y.
Proof.
  intros [Hm Hp] Hk. etrans; [exact Hk|]. split; [|done]. rewrite Hm. apply keeps_mgr_refl.
Qed.

Lemma still_plat (x0 x : prov_env) (e : E) :
  phases (net_log e) = phases (net_log x.2) → still x0 x → still x0 (x.1, e).
Proof. intros He [Hm Hp]. split; [done|]. cbn. congruence. Qed.

Lemma phases_app log log' a : log' = log ++ [a] → (∀ o, phase_step o a = o) → phases log' = phases log.
Proof. intros -> Ha. by rewrite phases_snoc, Ha. Qed.

Lemma still_on_env {A} (f : E → A * E) (x0 x : prov_env) :
  phases (net_log (f x.2).2) = phases (net_log x.2) → still x0 x → still x0 (on_env f x).2.
Proof. intros Hf Hk. unfold on_env. destruct (f x.2) as [a e]. by apply still_plat. Qed.

#[export] Instance still_heap : HeapFrame prov_env (H := env_heap) still.
Proof.
  split; intros.
  - apply still_on_env; [|done]. by rewrite malloc_log.
  - apply still_plat; [|done]. by rewrite free_log.
Qed.

#[export] Instance still_scan : ScanFrame prov_env (H := env_wifi) still.
Proof.
  split; intros.
  - apply still_on_env; [|done]. destruct (wifi_scan _ _) eqn:He.
    by eapply phases_app; [by eapply wifi_scan_log|].
  - apply still_plat; [|done]. by eapply phases_app; [apply cb_add_log|].
  - apply still_plat; [|done]. by eapply phases_app; [apply cb_del_log|].
Qed.

#[export] Instance still_wifi : WifiFrame prov_env (H := env_wifi) still.
Proof.
  split; [apply _|intros..].
  - apply still_on_env; [|done]. destruct (wifi_connect _ _ _) eqn:He.
    by eapply phases_app; [by eapply wifi_connect_log|].
  - apply still_plat; [|done]. by eapply phases_app; [apply cred_delete_log|].
  - apply still_on_env; [|done]. destruct (wifi_credentials_set_personal _ _) eqn:He.
    by eapply phases_app; [by eapply cred_set_log|].
  - apply still_on_env; [|done]. destruct (wifi_credentials_delete_all _) eqn:He.
    by eapply phases_app; [by eapply cred_delete_all_log|].
Qed.

#[export] Instance still_discover : DiscoverFrame prov_env (H := env_openthread) still.
Proof.
  split; intros.
  - apply still_plat; [|done]. by eapply phases_app; [apply ot_ip6_log|].
  - apply still_on_env; [|done]. destruct (otThreadDiscover _ _) eqn:He.
    by eapply phases_app; [by eapply ot_discover_log|].
Qed.
#[export] Instance still_ot : OtFrame prov_env (H := env_openthread) still.
Proof.
  split; [apply _|intros..].
  - apply still_on_env; [|done]. destruct (openthread_cb_register _) eqn:He.
    by eapply phases_app; [by eapply ot_register_log|].
  - apply still_plat; [|done]. by eapply phases_app; [apply ot_unregister_log|].
  - apply still_on_env; [|done]. destruct (otDatasetSetActiveTlvs _ _) eqn:He.
    by eapply phases_app; [by eapply ot_dataset_log|].
  - apply still_on_env; [|done]. destruct (otThreadSetEnabled _ _) eqn:He.
    by eapply phases_app; [by eapply ot_enable_log|].
  - apply still_on_env; [|done]. destruct (otInstanceErasePersistentInfo _) eqn:He.
    by eapply phases_app; [by eapply ot_erase_log|].
Qed.

#[export] Instance keeps_heap : HeapFrame prov_env (H := env_heap) keeps.
Proof.
  split; intros; (eapply still_keeps; [|done]); [by apply (fr_malloc (R := still))|by apply (fr_free (R := still))].
Qed.
#[export] Instance keeps_scan : ScanFrame prov_env (H := env_wifi) keeps.
Proof.
  split; intros; (eapply still_keeps; [|done]);
    [by apply (fr_scan (R := still))|by apply (fr_cb_add (R := still))|by apply (fr_cb_del (R := still))].
Qed.
#[export] Instance keeps_wifi : WifiFrame prov_env (H := env_wifi) keeps.
Proof.
  split; [apply _|intros; (eapply still_keeps; [|done])..];
    [by apply (fr_connect (R := still))|by apply (fr_cred_delete (R := still))
    |by apply (fr_cred_set (R := still))|by apply (fr_cred_delete_all (R := still))].
Qed.
#[export] Instance keeps_discover : DiscoverFrame prov_env (H := env_openthread) keeps.
Proof.
  split; intros; (eapply still_keeps; [|done]);
    [by apply (fr_ot_ip6 (R := still))|by apply (fr_ot_discover (R := still))].
Qed.
#[export] Instance keeps_ot : OtFrame prov_env (H := env_openthread) keeps.
Proof.
  split; [apply _|intros; (eapply still_keeps; [|done])..];
    [by apply (fr_ot_register (R := still))|by apply (fr_ot_unregister (R := still))
    |by apply (fr_ot_dataset (R := still))|by apply (fr_ot_enable (R := still))
    |by apply (fr_ot_erase (R := still))].
Qed.

(** A credential event. *)
Lemma keeps_emit_cred ev (x : prov_env) :
  is_cred_event ev = true → keeps x (network_prov_emit cf ev x).
Proof.
  intros Hev. assert (Hp : phases (net_log (app_event (mg_app_cb x.1) ev x.2)) = phases (net_log x.2)).
  { rewrite app_event_log, phases_snoc. by apply phase_step_cred. }
  destruct x as [m e]; cbn [fst snd] in *. unfold network_prov_emit; cbn [fst snd].
  destruct ev; try done; (split; [|exact Hp]); try apply keeps_mgr_refl. cbn [fst].
  set (d := k_sem_give (mg_done m)). set (w := k_work_schedule (cf_autostop_ms cf) (mg_teardown_work m)).
  exists d, (if mg_started m && mg_auto_stop m then w else mg_teardown_work m).
  split; [|by intros ->]. unfold d, w. destruct m as [? st ? ? ? ? ? ? ? au]. by destruct st, au.
Qed.
#[export] Instance keeps_emit : @EmitFrame prov_env (network_prov_emit cf) keeps.
Proof. intros ev x0 x Hev Hk. etrans; [exact Hk|]. by apply keeps_emit_cred. Qed.

(** *** The same with the handlers' own state around it

    The heap, the crypto library and with them the security schemes are the
    platform's; they leave the network history alone. *)
Section over_platform.
Context (R : relation netst).
Context (R_plat : ∀ (n0 n : netst) (e : E), net_log e = net_log (n_plat n) → R n0 n → R n0 (set_plat e n)).

Lemma platform_heap : HeapFrame netst R.
Proof.
  split; [intros k e0 e Hk|intros p e0 e Hk]; cbn.
  - unfold on_env. pose proof (malloc_log k (n_plat e)) as Hl. change (n_env e).2 with (n_plat e).
    destruct (k_malloc k (n_plat e)) as [l e1]. exact (R_plat _ _ _ Hl Hk).
  - exact (R_plat _ _ _ (free_log p (n_plat e)) Hk).
Qed.

Lemma platform_psa : PsaFrame netst R.
Proof.
  split; intros; cbn -[set_plat].
  - destruct (psa_crypto_init _) eqn:Hx; cbn. apply R_plat; [|done].
    by rewrite <- (psa_init_log (n_plat e)), Hx.
  - destruct (psa_generate_key _) as [[? ?] e'] eqn:Hx; cbn. apply R_plat; [|done].
    by rewrite <- (psa_generate_log (n_plat e)), Hx.
  - apply R_plat; [|done]. by rewrite psa_destroy_log.
  - destruct (psa_import_key _ _) as [[? ?] e'] eqn:Hx; cbn. apply R_plat; [|done].
    by rewrite <- (psa_import_log b (n_plat e)), Hx.
  - destruct (psa_generate_random _ _) as [[? ?] e'] eqn:Hx; cbn. apply R_plat; [|done].
    by rewrite <- (psa_random_log n (n_plat e)), Hx.
Qed.

Lemma security_frame_lift {C D : Type} (inj : C → D) prj (s : protocomm_security C netst) :
  security_frame R s → security_frame R (lift_security inj prj s).
Proof.
  intros [Hi Hc Hh He Hd]. split; cbn.
  - intros f pop e0 e Hf Hk. destruct (sec_init s) as [g|] eqn:Hg; cbn in Hf; [|done]. simplify_eq.
    pose proof (Hi _ pop e0 e eq_refl Hk). by destruct (g pop e) as [[? ?] ?].
  - intros f d e0 e Hf Hk. destruct (sec_cleanup s) as [g|] eqn:Hg; cbn in Hf; [|done]. simplify_eq.
    destruct (prj d); [by eapply Hc|done].
  - intros f d b e0 e Hf Hk. destruct (sec_handshake s) as [g|] eqn:Hg; cbn in Hf; [|done]. simplify_eq.
    set (d' := match d with Some _ => _ | None => _ end).
    pose proof (Hh _ d' b e0 e eq_refl Hk). by destruct (g d' b e) as [[[? ?] ?] ?].
  - intros d b e0 e Hk. set (d' := match d with Some _ => _ | None => _ end).
    pose proof (He d' b e0 e Hk). by destruct (sec_encrypt s d' b e) as [[[? ?] ?] ?].
  - intros d b e0 e Hk. set (d' := match d with Some _ => _ | None => _ end).
    pose proof (Hd d' b e0 e Hk). by destruct (sec_decrypt s d' b e) as [[[? ?] ?] ?].
Qed.

Lemma platform_securities :
  @SecuritiesFrame netst prov_handler nat network_prov_security (scheme_ctx op_t) (prov_callbacks cf) R.
Proof.
  pose proof platform_heap. pose proof platform_psa. intros [].
  - exact (security_frame_lift _ _ _ (security0_frame R)).
  - exact (security_frame_lift _ _ _ (security1_frame R _)).
Qed.

(** An application handler is the platform's, too. *)
Lemma platform_trampoline priv b (n0 n : netst) : R n0 n → R n0 (custom_trampoline priv b n).2.
Proof.
  intros Hk. unfold custom_trampoline. destruct (priv ≫= _) as [ce|]; [|done].
  destruct (ce_handler ce) as [hd|]; [|done].
  pose proof (app_handler_log hd (ce_ctx ce) b (n_plat n)) as Hl.
  destruct (app_handler _ _ _ _) as [[? ?] e]; cbn [snd] in *. by apply R_plat.
Qed.
End over_platform.

Definition lifted (Q : relation prov_env) : relation netst := fun n n' => Q (n_env n) (n_env n').
#[export] Instance lifted_preorder Q `{!PreOrder Q} : PreOrder (lifted Q).
Proof. split; [intros n; by unfold lifted|]. intros n1 n2 n3. unfold lifted. by etrans. Qed.

Definition nkeeps : relation netst := lifted keeps.
Definition nstill : relation netst := lifted still.
#[export] Instance nkeeps_preorder : PreOrder nkeeps := lifted_preorder keeps.
#[export] Instance nstill_preorder : PreOrder nstill := lifted_preorder still.

Lemma keeps_plat (x0 x : prov_env) (e : E) :
  phases (net_log e) = phases (net_log x.2) → keeps x0 x → keeps x0 (x.1, e).
Proof. intros He. apply still_keeps. by apply still_plat. Qed.
Lemma nkeeps_plat (n0 n : netst) (e : E) : net_log e = net_log (n_plat n) → nkeeps n0 n → nkeeps n0 (set_plat e n).
Proof. intros He. apply keeps_plat. by rewrite He. Qed.
Lemma nstill_plat (n0 n : netst) (e : E) : net_log e = net_log (n_plat n) → nstill n0 n → nstill n0 (set_plat e n).
Proof. intros He. apply still_plat. by rewrite He. Qed.
#[export] Instance nkeeps_heap : HeapFrame netst nkeeps := platform_heap nkeeps nkeeps_plat.
#[export] Instance nstill_heap : HeapFrame netst nstill := platform_heap nstill nstill_plat.
#[export] Instance nkeeps_securities :
  @SecuritiesFrame netst prov_handler nat network_prov_security (scheme_ctx op_t) (prov_callbacks cf) nkeeps :=
  platform_securities nkeeps nkeeps_plat.
#[export] Instance nstill_securities :
  @SecuritiesFrame netst prov_handler nat network_prov_security (scheme_ctx op_t) (prov_callbacks cf) nstill :=
  platform_securities nstill nstill_plat.

Lemma nstill_nkeeps n0 n n' : nstill n n' → nkeeps n0 n → nkeeps n0 n'.
Proof. apply still_keeps. Qed.

(** Only the platform is different, with the same network history. *)
Definition plat_moved (n n' : netst) : Prop := ∃ e, n' = set_plat e n ∧ net_log e = net_log (n_plat n).
#[export] Instance moved_preorder : PreOrder plat_moved.
Proof.
  split; [intros n; exists (n_plat n); by destruct n as [? ? ? ? ? ? []]|].
  intros n1 n2 n3 (e & -> & He) (e' & -> & He'). exists e'. split; [done|]. by rewrite He', <- He.
Qed.
Lemma moved_plat (n0 n : netst) (e : E) :
  net_log e = net_log (n_plat n) → plat_moved n0 n → plat_moved n0 (set_plat e n).
Proof. intros He Hn. etrans; [exact Hn|]. by exists e. Qed.
#[export] Instance moved_heap : HeapFrame netst plat_moved := platform_heap plat_moved moved_plat.
#[export] Instance moved_securities :
  @SecuritiesFrame netst prov_handler nat network_prov_security (scheme_ctx op_t) (prov_callbacks cf) plat_moved :=
  platform_securities plat_moved moved_plat.
Lemma moved_still n n' : plat_moved n n' → nstill n n'.
Proof. intros (e & -> & He). by apply nstill_plat. Qed.
Lemma moved_keeps n n' : plat_moved n n' → nkeeps n n'.
Proof. intros Hm. by eapply nstill_nkeeps, reflexivity; apply moved_still. Qed.

Lemma nkeeps_env (n0 n n' : netst) : keeps (n_env n) (n_env n') → nkeeps n0 n → nkeeps n0 n'.
Proof. unfold nkeeps, lifted. intros. by etrans. Qed.

(** The state a handler's call ends in, from the frame of the handler. *)
Lemma nkeeps_handler h priv b (n0 n : netst) :
  nkeeps n0 n → nkeeps n0 (call_handler (Callbacks := prov_callbacks cf) h priv b n).2.
Proof.
  intros Hk. eapply nkeeps_env; [|exact Hk]. assert (Hr : keeps (n_env n) (n_env n)) by done.
  destruct h; cbn -[net_psa env_wifi env_heap].
  - pose proof (frame_wifi_scan keeps (cf_scan_max cf) b (n_wifi_arrivals n) (n_sc n) _ _ Hr) as Hf.
    by destruct (WifiScan.network_prov_wifi_scan_handler _ _ _ _ _) as [[[[? ?] ?] ?] ?].
  - pose proof (frame_wifi_config (EE := network_prov_emit cf) keeps b (n_wc n) _ _ Hr) as Hf.
    by destruct (WifiConfig.network_prov_wifi_config_handler _ _ _) as [[[? ?] ?] ?].
  - pose proof (frame_wifi_ctrl keeps b (n_wc n) _ _ Hr) as Hf.
    by destruct (WifiCtrl.network_prov_wifi_ctrl_handler _ _ _) as [[[? ?] ?] ?].
  - pose proof (frame_thread_scan keeps (cf_scan_max cf) b (n_thread_arrivals n) (n_ts n) _ _ Hr) as Hf.
    by destruct (ThreadScan.network_prov_thread_scan_handler _ _ _ _ _) as [[[[? ?] ?] ?] ?].
  - pose proof (frame_thread_config (EE := network_prov_emit cf) keeps b (n_tc n) _ _ Hr) as Hf.
    by destruct (ThreadConfig.network_prov_thread_config_handler _ _ _) as [[[? ?] ?] ?].
  - pose proof (frame_thread_ctrl keeps b (n_tc n) _ _ Hr) as Hf.
    by destruct (ThreadCtrl.network_prov_thread_ctrl_handler _ _ _) as [[[? ?] ?] ?].
  - by apply (platform_trampoline nkeeps nkeeps_plat).
Qed.

#[export] Instance nkeeps_handlers :
  @HandlersFrame netst prov_handler nat network_prov_security (scheme_ctx op_t) (prov_callbacks cf) nkeeps.
Proof. intros h priv b n0 n. apply nkeeps_handler. Qed.
End manager_frame.
