(* ===== verification/ManagerInv.v ===== *)
(** * ManagerInv: the invariant of the provisioning service

    What is served, the step relation of the whole program, its invariant, and that
    every application call, request, network event and expiry keeps it; the contract
    with the transports ([SchemeLaws]). *)
From S2P Require Import Prelude Platform PbUtil Messages Protocomm Security0 Psa Security1 NetEnv.
From S2P Require WifiConfig WifiScan WifiCtrl ThreadConfig ThreadScan ThreadCtrl.
From S2P Require Import Json Frame Manager VersionDoc.
From S2P Require Import ManagerFrame.

Section lifecycle.
Context {E : Type} `{HH : KHeap E} `{NL : NetLog E} `{!NetHeapLaws E}.
Context `{WN : WifiNet E} `{!WifiNetLaws E} `{OT : OpenThread E} `{!OpenThreadLaws E}.
Context `{PS : PSA E} `{K : Kernel} {KL : KernelLaws} `{SC : Schemes} `{AP : Application E} `{ST : Settings E}.
Context `{!ManagerEnvLaws E}.
Context `{P1 : PbMsg SessionData} `{P2 : PbMsg NetworkConfigPayload} `{P3 : PbMsg NetworkScanPayload}.
Context `{P4 : PbMsg NetworkCtrlPayload} `{UV : UnionViews}.
Context {SO : SchemeOps sys} {AC : AppConfigs}.
Context (cf : build_config).

Local Abbreviation mgr_t := (manager scheme_t app_handler_t app_ctx_t k_sem k_work_delayable).
Local Abbreviation op_t := (@psa_cipher_operation_t netst net_psa).
Local Abbreviation pcomm := (protocomm prov_handler nat network_prov_security (scheme_ctx op_t)).

Local Abbreviation nkeeps_handler := (nkeeps_handler cf).

(** *** What is served

    The five endpoints of the library and one per created custom endpoint, in the
    order of the table. *)
Definition builtin_endpoints : list (protocomm_ep prov_handler nat) :=
  [ mk_ep EP_VERSION_NAME EP_VERSION None None; mk_ep EP_SESSION_NAME EP_SECURITY None None;
    mk_ep EP_SCAN_NAME EP_DATA (Some (if cf_thread cf then H_thread_scan else H_wifi_scan)) None;
    mk_ep EP_CONFIG_NAME EP_DATA (Some (if cf_thread cf then H_thread_config else H_wifi_config)) None;
    mk_ep EP_CTRL_NAME EP_DATA (Some (if cf_thread cf then H_thread_ctrl else H_wifi_ctrl)) None ].

Fixpoint custom_endpoints (i : nat) (slots : list (custom_ep app_handler_t app_ctx_t))
    : list (protocomm_ep prov_handler nat) :=
  match slots with
  | [] => []
  | ce :: slots =>
      if ce_created ce
      then mk_ep (ce_name ce) EP_DATA (Some H_custom_trampoline) (Some i) :: custom_endpoints (S i) slots
      else custom_endpoints (S i) slots
  end.

Definition created_names (slots : list (custom_ep app_handler_t app_ctx_t)) : list string :=
  ce_name <$> filter (fun ce => ce_created ce = true) slots.

Lemma created_cons ce slots :
  created_names (ce :: slots) =
    if ce_created ce then ce_name ce :: created_names slots else created_names slots.
Proof. unfold created_names. rewrite filter_cons. by destruct (ce_created ce). Qed.

Lemma custom_endpoints_names i slots : ep_name <$> custom_endpoints i slots = created_names slots.
Proof.
  revert i. induction slots as [|ce slots IH]; intros i; [done|].
  cbn [custom_endpoints]. rewrite created_cons. destruct (ce_created ce); cbn [fmap list_fmap]; by rewrite IH.
Qed.

Record custom_ok (slots : list (custom_ep app_handler_t app_ctx_t)) : Prop := {
  co_length : (length slots ≤ cf_custom_max cf)%nat;
  co_nodup : NoDup (created_names slots);
  co_names : Forall (fun n => is_builtin_ep n = false ∧ n ≠ EmptyString ∧
                              strlen n < Z.of_nat PROTOCOMM_EP_NAME_MAX) (created_names slots);
}.

Definition served (p : pcomm) (m : mgr_t) : Prop :=
  pc_wf p ∧ is_Some (pc_sec p) ∧ endpoints p = builtin_endpoints ++ custom_endpoints 0 (mg_custom m).

(** [NETWORK_PROV_MAX_CUSTOM_ENDPOINTS] has the range 0 to 3. *)
Context (custom_range : (cf_custom_max cf ≤ 3)%nat).

Lemma add_ep_room (p : pcomm) n ty h priv :
  strlen n < Z.of_nat PROTOCOMM_EP_NAME_MAX → n ∉ ep_name <$> endpoints p →
  (length (endpoints p) < PROTOCOMM_MAX_ENDPOINTS)%nat →
  add_ep (Some p) (Some n) ty h priv = (0, Some (p <| endpoints := endpoints p ++ [mk_ep n ty h priv] |>)).
Proof.
  intros Hl Hn Hr. destruct (add_ep _ _ _ _ _) as [rc pc'] eqn:Ha.
  pose proof (add_ep_cases _ _ _ _ _ _ _ Ha) as [(-> & n' & Heq & _ & _ & _ & ->)|[Hrc _]];
    [by simplify_eq|exfalso].
  unfold add_ep in Ha. apply find_ep_none in Hn. rewrite Hn in Ha.
  destruct (Z.of_nat PROTOCOMM_EP_NAME_MAX <=? strlen n) eqn:Hle; breflect; [lia|].
  rewrite bool_decide_false in Ha by (intros [? ?]; done).
  rewrite bool_decide_false in Ha by lia. by simplify_eq.
Qed.

Lemma created_length slots : (length (created_names slots) ≤ length slots)%nat.
Proof. unfold created_names. rewrite length_fmap. apply length_filter. Qed.

Lemma add_custom_spec i slots (p : pcomm) :
  NoDup (created_names slots) →
  Forall (fun n => n ∉ ep_name <$> endpoints p ∧ strlen n < Z.of_nat PROTOCOMM_EP_NAME_MAX)
    (created_names slots) →
  (length (endpoints p) + length (created_names slots) ≤ PROTOCOMM_MAX_ENDPOINTS)%nat →
  add_custom_endpoints i slots p = (0, p <| endpoints := endpoints p ++ custom_endpoints i slots |>).
Proof.
  revert i p. induction slots as [|ce slots IH]; intros i p Hd Hn Hl; cbn [add_custom_endpoints custom_endpoints].
  { rewrite app_nil_r. by destruct p. }
  rewrite created_cons in Hd, Hn, Hl. destruct (ce_created ce); cbn [negb].
  - cbn [length] in Hl.
    apply NoDup_cons in Hd as [Hce Hd]. apply Forall_cons in Hn as [[Hnew Hlen] Hn].
    unfold protocomm_add_endpoint. rewrite add_ep_room by (try done; lia). cbn [Z.eqb negb default].
    rewrite IH.
    + cbn. rewrite <- app_assoc. by destruct p.
    + done.
    + apply Forall_forall. intros x Hx. rewrite Forall_forall in Hn. destruct (Hn x Hx) as [Hx1 Hx2].
      split; [|done]. cbn. rewrite fmap_app. intros [Hin|Hin]%elem_of_app; [done|].
      apply list_elem_of_singleton in Hin. cbn in Hin. by subst x.
    + cbn [endpoints]. change (endpoints _) with (endpoints p ++ [mk_ep (ce_name ce) EP_DATA
        (Some H_custom_trampoline) (Some i)]). rewrite length_app. cbn [length]. lia.
  - by apply IH.
Qed.

Lemma add_endpoint_room (p : pcomm) n h priv :
  strlen n < Z.of_nat PROTOCOMM_EP_NAME_MAX → n ∉ ep_name <$> endpoints p →
  (length (endpoints p) < PROTOCOMM_MAX_ENDPOINTS)%nat →
  protocomm_add_endpoint (Some p) (Some n) (Some h) priv =
    (0, Some (p <| endpoints := endpoints p ++ [mk_ep n EP_DATA (Some h) priv] |>)).
Proof. apply add_ep_room. Qed.

Lemma wifi_scan_init_ok sc (x : prov_env) :
  (WifiScan.network_prov_wifi_scan_init sc x).1.1 = 0.
Proof. unfold WifiScan.network_prov_wifi_scan_init. by destruct (negb _). Qed.
Lemma wifi_config_init_ok k wc (x : prov_env) :
  (WifiConfig.network_prov_wifi_config_init k wc x).1.1 = 0.
Proof. unfold WifiConfig.network_prov_wifi_config_init. cbv zeta. by destruct (negb _). Qed.
Lemma thread_config_init_code (x : prov_env) ret tc x' :
  ThreadConfig.network_prov_thread_config_init x = (ret, tc, x') →
  ret = (openthread_cb_register x.2).1.
Proof.
  unfold ThreadConfig.network_prov_thread_config_init. cbn. unfold on_env.
  destruct (openthread_cb_register x.2) as [r e1]. cbn. destruct (negb (r =? 0)) eqn:Hr; intros; simplify_eq; [done|].
  by breflect.
Qed.

Lemma net_endpoints_spec (p : pcomm) n ret p' n' :
  ep_name <$> endpoints p = [EP_VERSION_NAME; EP_SESSION_NAME] →
  net_endpoints_init cf p n = (ret, p', n') →
  nstill n n' ∧
  (ret = 0 ∧ p' = p <| endpoints := endpoints p ++ drop 2 builtin_endpoints |> ∨
   ret ≠ 0 ∧ cf_thread cf = true ∧ ret = (openthread_cb_register (n_plat n)).1).
Proof.
  intros Hnames. assert (Hlen : length (endpoints p) = 2%nat).
  { apply (f_equal length) in Hnames. by rewrite length_fmap in Hnames. }
  assert (Hr : still (n_env n) (n_env n)) by done.
  destruct p as [eps sec pop ctx ver]. cbn [endpoints] in Hnames, Hlen.
  unfold net_endpoints_init, builtin_endpoints. destruct (cf_thread cf); cbv zeta.
  - cbn [ThreadScan.network_prov_thread_scan_init Z.eqb negb].
    unfold ThreadScan.network_prov_thread_scan_init. cbn [Z.eqb negb].
    rewrite add_endpoint_room; cbn [endpoints Z.eqb negb default]; [|done|rewrite Hnames; set_solver|pc_lia].
    pose proof (frame_thread_init still _ _ Hr) as Hf.
    destruct (ThreadConfig.network_prov_thread_config_init _) as [[r tc] x] eqn:Hi.
    pose proof (thread_config_init_code _ _ _ _ Hi) as Hcode. cbn in Hf.
    destruct (negb (r =? 0)) eqn:Hz; breflect.
    + intros; simplify_eq. split; [exact Hf|right; done].
    + subst r. rewrite add_endpoint_room; cbn [endpoints Z.eqb negb default field_set];
        [|done|cbn; rewrite fmap_app, Hnames; set_solver|cbn; rewrite length_app; cbn; pc_lia].
      rewrite add_endpoint_room; cbn [endpoints Z.eqb negb default field_set];
        [|done|cbn; rewrite !fmap_app, Hnames; set_solver|cbn; rewrite !length_app; cbn; pc_lia].
      intros; simplify_eq. split; [exact Hf|left]. split; [done|]. cbn. by rewrite <- !app_assoc.
  - pose proof (frame_scan_init still (n_sc n) _ _ Hr) as Hf1. pose proof (wifi_scan_init_ok (n_sc n) (n_env n)) as Hz1.
    destruct (WifiScan.network_prov_wifi_scan_init _ _) as [[r1 sc] x1]. cbn in Hf1, Hz1. subst r1. cbn [Z.eqb negb].
    rewrite add_endpoint_room; cbn [endpoints Z.eqb negb default]; [|done|rewrite Hnames; set_solver|pc_lia].
    set (n1 := n <| n_sc := sc |> <| n_env := x1 |>).
    pose proof (frame_wifi_init still (mg_wifi_conn_attempts (n_mgr n1)) (n_wc n1) _ _ Hf1) as Hf2.
    pose proof (wifi_config_init_ok (mg_wifi_conn_attempts (n_mgr n1)) (n_wc n1) x1) as Hz2.
    change (n_env n1) with x1.
    destruct (WifiConfig.network_prov_wifi_config_init _ _ _) as [[r2 wc] x2]. cbn in Hf2, Hz2. subst r2. cbn [Z.eqb negb].
    rewrite add_endpoint_room; cbn [endpoints Z.eqb negb default field_set];
      [|done|cbn; rewrite fmap_app, Hnames; set_solver|cbn; rewrite length_app; cbn; pc_lia].
    rewrite add_endpoint_room; cbn [endpoints Z.eqb negb default field_set];
      [|done|cbn; rewrite !fmap_app, Hnames; set_solver|cbn; rewrite !length_app; cbn; pc_lia].
    intros; simplify_eq. split; [exact Hf2|left]. split; [done|]. cbn. by rewrite <- !app_assoc.
Qed.

(** The fields of the structure no handler writes. *)
Lemma keeps_mgr_fields (m m' : mgr_t) : keeps_mgr m m' →
  mg_inited m' = mg_inited m ∧ mg_started m' = mg_started m ∧ mg_scheme m' = mg_scheme m ∧
  mg_pc m' = mg_pc m ∧ mg_custom m' = mg_custom m ∧ mg_app_info_json m' = mg_app_info_json m ∧
  mg_version_json m' = mg_version_json m ∧ mg_auto_stop m' = mg_auto_stop m.
Proof. intros (d & w & -> & _). by destruct m. Qed.

Lemma custom_not_builtin slots : custom_ok slots →
  Forall (fun n => n ∉ ep_name <$> builtin_endpoints ∧ strlen n < Z.of_nat PROTOCOMM_EP_NAME_MAX)
    (created_names slots).
Proof.
  intros [_ _ Hn]. eapply Forall_impl; [exact Hn|]. cbn. intros n (Hb & _ & Hl). split; [|done].
  unfold is_builtin_ep in Hb. breflect. rewrite !elem_of_cons. set_solver.
Qed.

(** Registration gives the whole table or, on Thread, OpenThread's error. *)
Lemma register_spec sec pop n ret p' n' :
  custom_ok (mg_custom (n_mgr n)) →
  register_endpoints cf sec pop protocomm_zero n = (ret, p', n') →
  nstill n n' ∧
  (ret = 0 ∧ p' = mk_protocomm (builtin_endpoints ++ custom_endpoints 0 (mg_custom (n_mgr n)))
       (Some sec) (match sec with NETWORK_PROV_SECURITY_1 => pop | _ => None end) None
       (Some (mg_version_json (n_mgr n))) ∨
   ret ≠ 0 ∧ cf_thread cf = true ∧ ret = (openthread_cb_register (n_plat n)).1).
Proof.
  intros Hok. unfold register_endpoints, protocomm_set_version, protocomm_set_security.
  rewrite add_ep_room by (cbn; try done; try set_solver; pc_lia).
  cbn [Z.eqb negb default fmap option_fmap option_map].
  rewrite add_ep_room by (cbn; try done; try set_solver; pc_lia).
  cbn [Z.eqb negb default fmap option_fmap option_map].
  set (p2 := field_set pc_pop _ _).
  change p2 with (mk_protocomm (Ctx := scheme_ctx op_t) (take 2 builtin_endpoints) (Some sec)
    (match sec with NETWORK_PROV_SECURITY_1 => pop | _ => None end) None (Some (mg_version_json (n_mgr n)))).
  clear p2. set (p2 := mk_protocomm _ _ _ _ _).
  cbn [id]. destruct (net_endpoints_init cf p2 n) as [[r3 p3] n1] eqn:Hnet.
  destruct (net_endpoints_spec p2 n r3 p3 n1 eq_refl Hnet) as [Hk [[-> ->]|(Hr & Ht & Hc)]].
  - cbn [Z.eqb negb].
    assert (Hcu : mg_custom (n_mgr n1) = mg_custom (n_mgr n)) by exact (f_equal mg_custom (proj1 Hk)).
    rewrite Hcu.
    change (endpoints p2 ++ drop 2 builtin_endpoints) with builtin_endpoints.
    rewrite add_custom_spec.
    + intros; simplify_eq. split; [done|left]. done.
    + apply Hok.
    + cbn [endpoints field_set]. by apply custom_not_builtin.
    + pose proof (created_length (mg_custom (n_mgr n))). destruct Hok as [Hl _ _].
      change (length (endpoints p2)) with 2%nat in *. change (length (endpoints _)) with 5%nat. pc_lia.
  - destruct (r3 =? 0) eqn:Hz; breflect; [done|]. cbn [negb]. intros; simplify_eq. split; [done|].
    by right.
Qed.


(** ** The step relation *)
Inductive sys_step : sys → sys → Prop :=
| st_init c s rc s' : configured c → network_prov_mgr_init cf c s = (rc, s') → sys_step s s'
| st_start sec pop name key s rc s' :
    network_prov_mgr_start_provisioning cf sec pop name key s = Some (rc, s') → sys_step s s'
| st_deinit s s' : network_prov_mgr_deinit cf s = Some s' → sys_step s s'
| st_stop s s' : network_prov_mgr_stop_provisioning cf s = Some s' → sys_step s s'
| st_disable_auto_stop d s rc s' : network_prov_mgr_disable_auto_stop d s = (rc, s') → sys_step s s'
| st_reset_prov s rc s' : network_prov_mgr_reset_wifi_provisioning cf s = (rc, s') → sys_step s s'
| st_set_app_info label version caps k s rc s' :
    network_prov_mgr_set_app_info label version caps k s = (rc, s') → sys_step s s'
| st_create name s rc s' : network_prov_mgr_endpoint_create name s = (rc, s') → sys_step s s'
| st_register name h c s rc s' :
    network_prov_mgr_endpoint_register name h c s = (rc, s') → sys_step s s'
| st_unregister name s rc s' : network_prov_mgr_endpoint_unregister name s = (rc, s') → sys_step s s'
| st_reset_sm s rc s' :
    network_prov_mgr_reset_wifi_sm_state_on_failure cf s = (rc, s') → sys_step s s'
| st_configure_sta ssid psk s rc s' :
    network_prov_mgr_configure_wifi_sta cf ssid psk s = (rc, s') → sys_step s s'
| st_wait s s' : network_prov_mgr_wait s = Some s' → sys_step s s'
| st_teardown_work s s' :
    k_work_pending (mg_teardown_work (sy_mgr s)) ≠ None → teardown_work_fn cf s = Some s' → sys_step s s'
| st_request l name b s rc out s' : transport_request cf l name b s = Some (rc, out, s') → sys_step s s'
| st_open l s s' : transport_open cf l s = Some s' → sys_step s s'
| st_close l s s' : transport_close cf l s = Some s' → sys_step s s'
| st_transport tr s : transport_step (sy_tr s) tr →
    sys_step s (s <| sy_tr := tr |>)
| st_event ev s : due ev (sy_net s) → sys_step s (s <| sy_net := deliver cf ev (sy_net s) |>)
| st_env e s : net_log e = net_log (n_plat (sy_net s)) →
    sys_step s (s <| sy_net := set_plat e (sy_net s) |>).

(** ** The invariant *)
Definition phase_of (m : mgr_t) : phase :=
  if mg_started m then ph_live else if mg_inited m then ph_ready else ph_idle.

(** The application section is absent or one [set_app_info] rendered. *)
Definition app_info_ok (j : string) : Prop :=
  j = EmptyString ∨ ∃ label version caps,
    json_token_ok label = true ∧ json_token_ok version = true ∧ forallb json_token_ok caps = true ∧
    render_app_info label version caps = Some j.

Record sys_inv (s : sys) : Prop := {
  iv_started : mg_started (sy_mgr s) = true →
    mg_inited (sy_mgr s) = true ∧
    ∃ l p, mg_pc (sy_mgr s) = Some l ∧ sy_pcs s = {[l := p]} ∧ served p (sy_mgr s);
  iv_attached : mg_started (sy_mgr s) = true →
    ∃ sch, mg_scheme (sy_mgr s) = Some sch ∧ scheme_holds sch (sy_tr s) = mg_pc (sy_mgr s);
  iv_stopped : mg_started (sy_mgr s) = false →
    mg_pc (sy_mgr s) = None ∧ sy_pcs s = ∅ ∧ k_work_pending (mg_teardown_work (sy_mgr s)) = None;
  iv_scheme : mg_inited (sy_mgr s) = true → ∃ sch, mg_scheme (sy_mgr s) = Some sch ∧ scheme_valid sch = true;
  iv_custom : custom_ok (mg_custom (sy_mgr s));
  iv_app_info : app_info_ok (mg_app_info_json (sy_mgr s));
  iv_phase : phases (net_log (n_plat (sy_net s))) = Some (phase_of (sy_mgr s));
}.

(** The session of a live object may change, nothing else of it. *)
Definition pcs_follow (pcs pcs' : gmap loc pcomm) : Prop :=
  pcs' = pcs ∨ ∃ l p ctx, pcs !! l = Some p ∧ pcs' = <[l := p <| pc_sec_ctx := ctx |>]> pcs.

Lemma served_ctx (p : pcomm) m ctx : served p m → served (p <| pc_sec_ctx := ctx |>) m.
Proof. intros (Hw & Hs & He). split; [by apply pc_wf_ctx|]. by split. Qed.

(** What a transport keeps to itself: everything but the object it was started with. *)
Definition same_holds (tr tr' : transports) : Prop := ∀ sch, scheme_holds sch tr' = scheme_holds sch tr.

Lemma inv_keeps s n' pcs' tr' :
  sys_inv s → nkeeps (sy_net s) n' → pcs_follow (sy_pcs s) pcs' → same_holds (sy_tr s) tr' →
  sys_inv (mk_sys n' pcs' tr').
Proof.
  intros Hinv [Hm Hp] Hf Ht. change (n_env (sy_net s)).1 with (sy_mgr s) in Hm.
  destruct (keeps_mgr_fields _ _ Hm) as (Hi & Hs & Hsc & Hpc & Hcu & Hap & _).
  change (n_env n').1 with (n_mgr n') in *.
  split; unfold sy_mgr; cbn [sy_net sy_pcs].
  - rewrite Hs, Hi, Hpc. intros Hst. destruct (iv_started _ Hinv Hst) as (Hin & l & p & Hl & Hpcs & Hserve).
    split; [done|]. assert (Hserve' : served p (n_mgr n')) by (unfold served in *; by rewrite Hcu).
    destruct Hf as [->|(l' & p' & ctx & Hl' & ->)]; [by eauto|].
    rewrite Hpcs in Hl' |- *. apply lookup_singleton_Some in Hl' as [<- <-].
    exists l, (p <| pc_sec_ctx := ctx |>). split; [done|]. split; [apply insert_singleton_eq|]. by apply served_ctx.
  - rewrite Hs, Hsc, Hpc. cbn [sy_tr]. intros Hst. destruct (iv_attached _ Hinv Hst) as (sch & ? & ?).
    exists sch. by rewrite Ht.
  - rewrite Hs, Hpc. intros Hst. destruct (iv_stopped _ Hinv Hst) as (Hl & Hpcs & Hw).
    split; [done|]. split.
    + destruct Hf as [->|(l' & p' & ctx & Hl' & _)]; [done|]. by rewrite Hpcs in Hl'.
    + destruct Hm as (d & w & Heq & Hnw). rewrite Heq. unfold sy_mgr in *.
      rewrite <- Hw, <- (Hnw Hst). by destruct (n_mgr (sy_net s)).
  - rewrite Hi, Hsc. apply (iv_scheme _ Hinv).
  - rewrite Hcu. apply (iv_custom _ Hinv).
  - rewrite Hap. apply (iv_app_info _ Hinv).
  - etrans; [exact Hp|]. etrans; [exact (iv_phase _ Hinv)|]. unfold phase_of. by rewrite Hs, Hi.
Qed.

Lemma inv_keeps_net s n' : sys_inv s → nkeeps (sy_net s) n' → sys_inv (s <| sy_net := n' |>).
Proof. intros Hinv Hk. eapply (inv_keeps s n' (sy_pcs s) (sy_tr s)); [done|done|by left|done]. Qed.

(** Network events and transport requests keep within that frame. *)
Lemma deliver_keeps ev n : nkeeps n (deliver cf ev n).
Proof.
  assert (Hr : keeps (n_env n) (n_env n)) by done. destruct ev; cbn -[env_wifi]; try done.
  - pose proof (frame_wifi_result (EE := network_prov_emit cf) keeps status conn_status (n_wc n) _ _ Hr).
    by destruct (WifiConfig.on_connect_result _ _ _ _).
  - set (wc := field_set _ _ _). pose proof (frame_wifi_retry (EE := network_prov_emit cf) keeps wc _ _ Hr).
    by destruct (WifiConfig.retry_work_handler _ _).
  - pose proof (frame_ot_state (EE := network_prov_emit cf) keeps role_changed (n_tc n) _ _ Hr).
    by destruct (ThreadConfig.ot_state_changed _ _ _).
  - set (tc := field_set _ _ _). pose proof (frame_attach_timeout (EE := network_prov_emit cf) keeps tc _ _ Hr).
    by destruct (ThreadConfig.attach_timeout_fn _ _).
Qed.

(** What a transport's calls of protocomm leave alone. *)
Lemma transport_request_frame l name b s rc out s' :
  transport_request cf l name b s = Some (rc, out, s') →
  nkeeps (sy_net s) (sy_net s') ∧ pcs_follow (sy_pcs s) (sy_pcs s') ∧ sy_tr s' = sy_tr s.
Proof.
  unfold transport_request. destruct (sy_pcs s !! l) as [p|] eqn:Hp; cbn [mbind option_bind]; [|done].
  destruct (protocomm_req_handle _ _ _ _ _) as [[[[r o] [p1|]] n1]|] eqn:Hr; try done.
  intros ?; simplify_eq. pose proof (frame_req nkeeps _ _ _ _ (sy_net s) _ _ _ _ _ Hr (reflexivity _)) as Hk.
  apply req_handle_frame in Hr as [ctx ?]. simplify_eq. split; [exact Hk|]. split; [|done]. right. eauto.
Qed.
Lemma transport_open_frame l s s' : transport_open cf l s = Some s' →
  plat_moved (sy_net s) (sy_net s') ∧ pcs_follow (sy_pcs s) (sy_pcs s') ∧ sy_tr s' = sy_tr s.
Proof.
  unfold transport_open. destruct (sy_pcs s !! l) as [p|] eqn:Hp; cbn [mbind option_bind]; [|done].
  destruct (open_session_some (CB := prov_callbacks cf) p (sy_net s)) as (ctx & n1 & Ho).
  pose proof (frame_open (CB := prov_callbacks cf) plat_moved (Some p) (sy_net s) (sy_net s) (reflexivity _)) as Hk.
  rewrite Ho in *. intros ?; simplify_eq. split; [exact Hk|]. split; [|done]. right. eauto.
Qed.
Lemma transport_close_frame l s s' : transport_close cf l s = Some s' →
  plat_moved (sy_net s) (sy_net s') ∧ pcs_follow (sy_pcs s) (sy_pcs s') ∧ sy_tr s' = sy_tr s.
Proof.
  unfold transport_close. destruct (sy_pcs s !! l) as [p|] eqn:Hp; cbn [mbind option_bind]; [|done].
  destruct (close_session_some (CB := prov_callbacks cf) p (sy_net s)) as (ctx & n1 & Ho).
  pose proof (frame_close (CB := prov_callbacks cf) plat_moved (Some p) (sy_net s) (sy_net s) (reflexivity _)) as Hk.
  rewrite Ho in *. intros ?; simplify_eq. split; [exact Hk|]. split; [|done]. right. eauto.
Qed.

Lemma inv_follow s s' : nkeeps (sy_net s) (sy_net s') → pcs_follow (sy_pcs s) (sy_pcs s') →
  same_holds (sy_tr s) (sy_tr s') → sys_inv s → sys_inv s'.
Proof. destruct s' as [n pcs tr]. intros Hk Hf Ht Hinv. by eapply inv_keeps. Qed.

(** *** The application calls *)
Lemma emit_own ev s : is_cred_event ev = false →
  sy_mgr (sys_emit cf ev s) = sy_mgr s ∧ sy_pcs (sys_emit cf ev s) = sy_pcs s ∧
  phases (net_log (n_plat (sy_net (sys_emit cf ev s)))) =
    phase_step (phases (net_log (n_plat (sy_net s)))) (A_emit ev).
Proof.
  intros Hev. split; [by destruct ev|]. split; [done|]. rewrite <- phases_snoc.
  destruct ev; try done; exact (f_equal phases (app_event_log _ _ _)).
Qed.

(** The manager's fields the invariant looks at, together. *)
Lemma inv_intro_stopped s :
  mg_started (sy_mgr s) = false → mg_pc (sy_mgr s) = None → sy_pcs s = ∅ →
  k_work_pending (mg_teardown_work (sy_mgr s)) = None →
  (mg_inited (sy_mgr s) = true → ∃ sch, mg_scheme (sy_mgr s) = Some sch ∧ scheme_valid sch = true) →
  custom_ok (mg_custom (sy_mgr s)) → app_info_ok (mg_app_info_json (sy_mgr s)) →
  phases (net_log (n_plat (sy_net s))) = Some (if mg_inited (sy_mgr s) then ph_ready else ph_idle) →
  sys_inv s.
Proof.
  intros Hs Hpc Hpcs Hw Hsch Hcu Hap Hph. split; try done; [by rewrite Hs|by rewrite Hs|]. unfold phase_of. by rewrite Hs.
Qed.

Lemma net_deinit_still n0 n : nstill n0 n → nstill n0 (net_endpoints_deinit cf n).
Proof.
  unfold nstill, lifted, net_endpoints_deinit. intros Hk. destruct (cf_thread cf); cbv zeta.
  - set (n1 := field_set _ _ _).
    pose proof (frame_thread_deinit still (n_tc n1) (n_env n0) (n_env n1) Hk).
    by destruct (ThreadConfig.network_prov_thread_config_deinit _ _).
  - pose proof (frame_scan_deinit still (n_sc n) (n_env n0) (n_env n) Hk) as H1.
    destruct (WifiScan.network_prov_wifi_scan_deinit _ _) as [sc x]. cbn [snd] in H1.
    set (n1 := field_set n_env _ _). pose proof (frame_wifi_deinit still (n_wc n1) (n_env n0) (n_env n1) H1).
    by destruct (WifiConfig.network_prov_wifi_config_deinit _ _).
Qed.

Lemma delete_still (p : option (loc * pcomm)) n0 n :
  nstill n0 n → nstill n0 (protocomm_delete (CB := prov_callbacks cf) p n).
Proof. by apply (frame_delete (CB := prov_callbacks cf) nstill). Qed.

(** ** What the manager relies on from a transport

    A start is given a live, well-formed object. It returns, leaves the rest of the
    program but the platform as it is, and when it succeeds the transport holds the
    object. A stop of a transport that holds a live object returns, closes at most the
    session, and lets go of the object. Neither touches another transport's object. *)
Definition alive (pc : option loc) (s : sys) : Prop :=
  match pc with Some l => ∃ p, sy_pcs s !! l = Some p ∧ pc_wf p | None => True end.
Definition others_hold (sch : scheme_t) (tr tr' : transports) : Prop :=
  ∀ sch', sch' ≠ sch → scheme_holds sch' tr' = scheme_holds sch' tr.

Class SchemeLaws : Prop := {
  scheme_start_returns sch l name key s : alive (Some l) s → is_Some (scheme_start sch l name key s);
  scheme_start_moves sch l name key s rc s' : scheme_start sch l name key s = Some (rc, s') →
    plat_moved (sy_net s) (sy_net s') ∧ sy_pcs s' = sy_pcs s ∧ others_hold sch (sy_tr s) (sy_tr s') ∧
    (rc = 0 → scheme_holds sch (sy_tr s') = Some l);
  scheme_stop_returns sch s : alive (scheme_holds sch (sy_tr s)) s → is_Some (scheme_stop sch s);
  scheme_stop_moves sch s s' : scheme_stop sch s = Some s' →
    plat_moved (sy_net s) (sy_net s') ∧ pcs_follow (sy_pcs s) (sy_pcs s') ∧
    others_hold sch (sy_tr s) (sy_tr s') ∧ scheme_holds sch (sy_tr s') = None;
  (** a transport keeps its object until it is stopped *)
  transport_step_holds tr tr' : transport_step tr tr' → same_holds tr tr';
}.
Context {SL : SchemeLaws}.

(** *** Tearing down *)
Lemma pcs_follow_singleton (l : loc) (p : pcomm) pcs' :
  pcs_follow {[l := p]} pcs' → ∃ p', pcs' = {[l := p']}.
Proof.
  intros [->|(l' & p' & ctx & Hl & ->)]; [eauto|]. apply lookup_singleton_Some in Hl as [<- <-].
  eexists. apply insert_singleton_eq.
Qed.

Lemma do_teardown_spec s : sys_inv s → mg_started (sy_mgr s) = true →
  ∃ s1, do_teardown cf s = Some (sys_emit cf NETWORK_PROV_END s1) ∧
    sy_mgr s1 = (sy_mgr s) <| mg_pc := None |> <| mg_started := false |> ∧ sy_pcs s1 = ∅ ∧
    phases (net_log (n_plat (sy_net s1))) = Some ph_live ∧
    ∃ sch, mg_scheme (sy_mgr s) = Some sch ∧ scheme_holds sch (sy_tr s1) = None ∧
      others_hold sch (sy_tr s) (sy_tr s1).
Proof.
  intros Hinv Hst. destruct (iv_started _ Hinv Hst) as (Hin & l & p & Hl & Hpcs & Hw & _).
  destruct (iv_attached _ Hinv Hst) as (sch & Hsch & Hh). rewrite Hl in Hh.
  unfold do_teardown. rewrite Hst, Hsch. cbn [negb mbind option_bind].
  destruct (scheme_stop_returns sch s) as [sa Hsa].
  { rewrite Hh. exists p. by rewrite Hpcs, lookup_singleton_eq. }
  rewrite Hsa. apply scheme_stop_moves in Hsa as (Hka & Hpa & Hoa & Hna).
  cbn [mbind option_bind]. apply moved_still in Hka. pose proof (proj1 Hka : n_mgr (sy_net sa) = sy_mgr s) as Hma.
  assert (Hla : mg_pc (sy_mgr sa) = Some l) by (unfold sy_mgr; by rewrite Hma).
  rewrite Hla. cbn [mbind option_bind]. rewrite Hpcs in Hpa. destruct (pcs_follow_singleton _ _ _ Hpa) as [pa Hpa'].
  rewrite Hpa', lookup_singleton_eq. cbn [mbind option_bind].
  eexists. split; [reflexivity|]. set (n3 := protocomm_delete _ _).
  assert (Hk : nstill (sy_net s) n3) by (by apply delete_still, net_deinit_still).
  destruct Hk as [Hm Hp]. split; [|split; [|split]].
  - change (sy_mgr s) with (n_env (sy_net s)).1. rewrite <- Hm. reflexivity.
  - apply delete_singleton_eq.
  - etrans; [exact Hp|]. etrans; [exact (iv_phase _ Hinv)|]. unfold phase_of. by rewrite Hst.
  - exists sch. done.
Qed.

(** Any change of the teardown work and the other bookkeeping of a running service. *)
Lemma inv_mgr s f :
  sys_inv s →
  (∀ m, mg_inited (f m) = mg_inited m ∧ mg_started (f m) = mg_started m ∧ mg_scheme (f m) = mg_scheme m ∧
        mg_pc (f m) = mg_pc m) →
  created_names (mg_custom (f (sy_mgr s))) = created_names (mg_custom (sy_mgr s)) →
  (∀ i, custom_endpoints i (mg_custom (f (sy_mgr s))) = custom_endpoints i (mg_custom (sy_mgr s))) →
  (length (mg_custom (f (sy_mgr s))) ≤ cf_custom_max cf)%nat →
  app_info_ok (mg_app_info_json (f (sy_mgr s))) →
  (mg_started (sy_mgr s) = false → k_work_pending (mg_teardown_work (f (sy_mgr s))) = None) →
  sys_inv (sys_mgr f s).
Proof.
  intros Hinv Hf Hnames Heps Hlen Hap Hw. set (m := sy_mgr s) in *.
  destruct (Hf m) as (Hi & Hs & Hsc & Hpc). assert (Hm : sy_mgr (sys_mgr f s) = f m) by done.
  split; rewrite ?Hm, ?Hi, ?Hs, ?Hsc, ?Hpc.
  - intros Hst. destruct (iv_started _ Hinv Hst) as (Hin & l & p & Hl & Hpcs & Hsv & Hsv2 & Hsv3).
    split; [done|]. exists l, p. split; [done|]. split; [done|]. split; [done|]. split; [done|].
    by rewrite Heps.
  - intros Hst. exact (iv_attached _ Hinv Hst).
  - intros Hst. destruct (iv_stopped _ Hinv Hst) as (Hl & Hpcs & _). auto.
  - apply (iv_scheme _ Hinv).
  - destruct (iv_custom _ Hinv) as [_ Hd Hn]. fold m in Hd, Hn. split; [done| |]; by rewrite Hnames.
  - done.
  - etrans; [exact (iv_phase _ Hinv)|]. unfold phase_of. fold m. by rewrite Hi, Hs.
Qed.

(** The common case: only the teardown work, the semaphore or a flag changes. *)
Lemma inv_mgr_simple s f :
  sys_inv s →
  (∀ m, mg_inited (f m) = mg_inited m ∧ mg_started (f m) = mg_started m ∧ mg_scheme (f m) = mg_scheme m ∧
        mg_pc (f m) = mg_pc m ∧ mg_custom (f m) = mg_custom m ∧ mg_app_info_json (f m) = mg_app_info_json m) →
  (mg_started (sy_mgr s) = false → k_work_pending (mg_teardown_work (f (sy_mgr s))) = None) →
  sys_inv (sys_mgr f s).
Proof.
  intros Hinv Hf Hw. destruct (Hf (sy_mgr s)) as (_ & _ & _ & _ & Hcu & Hap).
  apply inv_mgr; rewrite ?Hcu, ?Hap; try done.
  - intros m. by destruct (Hf m) as (? & ? & ? & ? & _).
  - apply (iv_custom _ Hinv).
  - apply (iv_app_info _ Hinv).
Qed.

Lemma cancel_teardown_inv s : sys_inv s → sys_inv (cancel_teardown s).
Proof. intros Hinv. apply inv_mgr_simple; [done|done|]. intros _. apply k_work_pending_cancel. Qed.

(** Tearing down from a state in which no teardown is queued. *)
Lemma do_teardown_inv s : sys_inv s → k_work_pending (mg_teardown_work (sy_mgr s)) = None →
  ∃ s', do_teardown cf s = Some s' ∧ sys_inv s' ∧ mg_started (sy_mgr s') = false ∧
        mg_inited (sy_mgr s') = mg_inited (sy_mgr s).
Proof.
  intros Hinv Hw. destruct (mg_started (sy_mgr s)) eqn:Hst;
    [|exists s; unfold do_teardown; by rewrite Hst].
  destruct (do_teardown_spec s Hinv Hst) as (s1 & -> & Hm & Hpcs & Hp & _).
  eexists. split; [reflexivity|]. destruct (emit_own NETWORK_PROV_END s1 eq_refl) as (Hem & Hep & Heph).
  destruct (iv_started _ Hinv Hst) as (Hin & _).
  assert (Hsame : ∀ m : mgr_t, let m' := m <| mg_pc := None |> <| mg_started := false |> in
    mg_started m' = false ∧ mg_pc m' = None ∧ mg_teardown_work m' = mg_teardown_work m ∧
    mg_inited m' = mg_inited m ∧ mg_scheme m' = mg_scheme m ∧ mg_custom m' = mg_custom m ∧
    mg_app_info_json m' = mg_app_info_json m) by done.
  destruct (Hsame (sy_mgr s)) as (A1 & A2 & A3 & A4 & A5 & A6 & A7). rewrite <- Hm in *.
  split; [|by rewrite Hem]. apply inv_intro_stopped; rewrite ?Hem, ?Hep, ?Heph, ?A1, ?A3, ?A4, ?A5, ?A6, ?A7; try done.
  - apply (iv_scheme _ Hinv).
  - apply (iv_custom _ Hinv).
  - apply (iv_app_info _ Hinv).
  - rewrite Hp, Hin. done.
Qed.

Lemma stopped_of_not_inited s : sys_inv s → mg_inited (sy_mgr s) = false → mg_started (sy_mgr s) = false.
Proof.
  intros Hinv Hi. destruct (mg_started (sy_mgr s)) eqn:Hs; [|done].
  destruct (iv_started _ Hinv Hs) as [Hc _]. congruence.
Qed.

Lemma created_zero k : created_names (replicate k custom_zero) = [].
Proof. induction k as [|k IH]; [done|]. cbn [replicate]. by rewrite created_cons. Qed.

Lemma custom_ok_zero : custom_ok (replicate (cf_custom_max cf) custom_zero).
Proof. split; rewrite ?length_replicate, ?created_zero; [done|constructor|constructor]. Qed.

(** A freshly initialised structure [m], marked [fin], over any platform. *)
Lemma init_result s (m : mgr_t) sch (fin : bool) (e : E) :
  sy_pcs s = ∅ → mg_started m = false → mg_pc m = None → mg_teardown_work m = k_work_init →
  mg_scheme m = Some sch → scheme_valid sch = true → mg_custom m = replicate (cf_custom_max cf) custom_zero →
  mg_app_info_json m = EmptyString → phases (net_log e) = Some ph_idle →
  let s2 := s <| sy_net := (sy_net s) <| n_env := (m <| mg_inited := fin |>, e) |> |> in
  sys_inv (if fin then sys_emit cf NETWORK_PROV_INIT s2 else s2).
Proof.
  intros Hpcs A1 A2 A3 A5 Hv A6 A7 He s2. set (m2 := m <| mg_inited := fin |>) in *.
  assert (B : mg_started m2 = mg_started m ∧ mg_pc m2 = mg_pc m ∧ mg_teardown_work m2 = mg_teardown_work m ∧
      mg_inited m2 = fin ∧ mg_scheme m2 = mg_scheme m ∧
      mg_custom m2 = mg_custom m ∧ mg_app_info_json m2 = mg_app_info_json m) by done.
  destruct B as (B1 & B2 & B3 & B4 & B5 & B6 & B7). assert (Hm2 : sy_mgr s2 = m2) by done.
  assert (Hi2 : phases (net_log (n_plat (sy_net s2))) = Some ph_idle) by exact He.
  assert (Hpcs2 : sy_pcs s2 = ∅) by done. clearbody m2. destruct fin.
  - destruct (emit_own NETWORK_PROV_INIT s2 eq_refl) as (Hem & Hep & Heph).
    apply inv_intro_stopped; rewrite ?Hem, ?Hep, ?Heph, ?Hm2, ?B1, ?B2, ?B3, ?B4, ?B5, ?B6, ?B7, ?A3, ?A6, ?A7, ?Hi2;
      [done|done|done|apply k_work_pending_init|by eauto|apply custom_ok_zero|by left|done].
  - apply inv_intro_stopped; rewrite ?Hm2, ?B1, ?B2, ?B3, ?B4, ?B5, ?B6, ?B7, ?A3, ?A6, ?A7, ?Hi2;
      [done|done|done|apply k_work_pending_init|by eauto|apply custom_ok_zero|by left|done].
Qed.

Lemma mgr_init_inv c s rc s' : network_prov_mgr_init cf c s = (rc, s') → sys_inv s → sys_inv s'.
Proof.
  unfold network_prov_mgr_init. intros Hrun Hinv. destruct (mg_inited (sy_mgr s)) eqn:Hi; [by simplify_eq|].
  destruct (mc_scheme c) as [sch|]; [|by simplify_eq].
  destruct (scheme_valid sch) eqn:Hv; cbn [negb] in Hrun; [|by simplify_eq].
  pose proof (stopped_of_not_inited _ Hinv Hi) as Hs. destruct (iv_stopped _ Hinv Hs) as (Hpc & Hpcs & _).
  pose proof (iv_phase _ Hinv) as Hph. unfold phase_of in Hph. rewrite Hs, Hi in Hph.
  set (f := fun m : mgr_t => _) in Hrun.
  assert (Hf : ∀ m, mg_started (f m) = mg_started m ∧ mg_pc (f m) = mg_pc m ∧
    mg_teardown_work (f m) = k_work_init ∧ mg_inited (f m) = mg_inited m ∧
    mg_scheme (f m) = Some sch ∧ mg_custom (f m) = replicate (cf_custom_max cf) custom_zero ∧
    mg_app_info_json (f m) = EmptyString) by done.
  clearbody f. destruct (Hf (sy_mgr s)) as (A1 & A2 & A3 & A4 & A5 & A6 & A7). rewrite Hs in A1. rewrite Hpc in A2.
  assert (Hid : ∀ m : mgr_t, mg_inited m = false → m <| mg_inited := false |> = m) by (intros []; cbn; by intros ->).
  pose proof (fun fin e He => init_result s _ sch fin e Hpcs A1 A2 A3 A5 Hv A6 A7 He) as Hbase.
  destruct (cf_settings cf); [|simplify_eq; apply (Hbase true); exact Hph].
  change (n_plat (sy_net (sys_mgr f s))) with (n_plat (sy_net s)) in Hrun.
  pose proof (settings_init_log (n_plat (sy_net s))) as Hl1.
  destruct (settings_subsys_init (n_plat (sy_net s))) as [ret e1]. cbn [snd] in Hl1.
  destruct (negb (ret =? 0)); simplify_eq.
  - specialize (Hbase false e1). cbv zeta in Hbase. rewrite Hid in Hbase by congruence.
    apply Hbase. by rewrite Hl1.
  - apply (Hbase true (settings_load e1).2). by rewrite settings_load_log, Hl1.
Qed.

(** *** Starting

    The states between the creation of the protocomm object and the start of the
    transport: as [s], but for the object and the version string. *)
Definition starting (s : sys) (l : option loc) (v : string) (n : netst) : Prop :=
  n_mgr n = (sy_mgr s) <| mg_pc := l |> <| mg_version_json := v |> ∧
  phases (net_log (n_plat n)) = Some ph_ready.

Lemma starting_fields s l v n :
  starting s l v n → sys_inv s → mg_started (sy_mgr s) = false →
  mg_started (n_mgr n) = false ∧ mg_inited (n_mgr n) = mg_inited (sy_mgr s) ∧ mg_pc (n_mgr n) = l ∧
  mg_scheme (n_mgr n) = mg_scheme (sy_mgr s) ∧ mg_custom (n_mgr n) = mg_custom (sy_mgr s) ∧
  mg_app_info_json (n_mgr n) = mg_app_info_json (sy_mgr s) ∧ mg_version_json (n_mgr n) = v ∧
  mg_done (n_mgr n) = mg_done (sy_mgr s) ∧ mg_auto_stop (n_mgr n) = mg_auto_stop (sy_mgr s) ∧
  k_work_pending (mg_teardown_work (n_mgr n)) = None.
Proof.
  intros (-> & _) Hinv Hs. destruct (iv_stopped _ Hinv Hs) as (_ & _ & Hw).
  assert (B : ∀ m0 : mgr_t, let m1 := m0 <| mg_pc := l |> <| mg_version_json := v |> in
    mg_started m1 = mg_started m0 ∧ mg_inited m1 = mg_inited m0 ∧ mg_pc m1 = l ∧
    mg_scheme m1 = mg_scheme m0 ∧ mg_custom m1 = mg_custom m0 ∧ mg_app_info_json m1 = mg_app_info_json m0 ∧
    mg_version_json m1 = v ∧ mg_done m1 = mg_done m0 ∧ mg_auto_stop m1 = mg_auto_stop m0 ∧
    mg_teardown_work m1 = mg_teardown_work m0) by done.
  destruct (B (sy_mgr s)) as (B1 & B2 & B3 & B4 & B5 & B6 & B7 & B8 & B9 & B10).
  by rewrite B1, B2, B3, B4, B5, B6, B7, B8, B9, B10.
Qed.

(** What the application set up stays when a start fails. *)
Definition setup_kept (m m' : mgr_t) : Prop :=
  mg_wifi_conn_attempts m' = mg_wifi_conn_attempts m ∧ mg_app_info_json m' = mg_app_info_json m.

(** The object is gone again: nothing was started. *)
Lemma unwound_inv s l v n tr :
  sys_inv s → mg_started (sy_mgr s) = false → mg_inited (sy_mgr s) = true → starting s l v n →
  let s' := mk_sys (set_mgr (fun m => m <| mg_pc := None |>) n) ∅ tr in
  sys_inv s' ∧ mg_started (sy_mgr s') = false ∧ mg_inited (sy_mgr s') = true ∧
  setup_kept (sy_mgr s) (sy_mgr s').
Proof.
  intros Hinv Hs Hi Hst s'.
  assert (Hat : setup_kept (sy_mgr s) (sy_mgr s')).
  { unfold setup_kept. change (mg_wifi_conn_attempts (sy_mgr s')) with (mg_wifi_conn_attempts (n_mgr n)).
    change (mg_app_info_json (sy_mgr s')) with (mg_app_info_json (n_mgr n)). by rewrite (proj1 Hst). }
  destruct (starting_fields _ _ _ _ Hst Hinv Hs) as (F1 & F2 & F3 & F4 & F5 & F6 & _ & _ & _ & F9).
  assert (B : ∀ m0 : mgr_t, let m1 := m0 <| mg_pc := None |> in
    mg_inited m1 = mg_inited m0 ∧ mg_started m1 = mg_started m0 ∧ mg_scheme m1 = mg_scheme m0 ∧
    mg_pc m1 = None ∧ mg_custom m1 = mg_custom m0 ∧ mg_app_info_json m1 = mg_app_info_json m0 ∧
    mg_teardown_work m1 = mg_teardown_work m0) by done.
  destruct (B (n_mgr n)) as (B1 & B2 & B3 & B4 & B5 & B6 & B7).
  change ((n_mgr n) <| mg_pc := None |>) with (sy_mgr s') in *.
  rewrite F1 in B2. rewrite F2 in B1. rewrite F4 in B3. rewrite F5 in B5. rewrite F6 in B6. rewrite Hi in B1.
  split; [|done]. apply inv_intro_stopped; rewrite ?B1, ?B2, ?B3, ?B5, ?B6, ?B7; try done.
  - intros _. by apply (iv_scheme _ Hinv).
  - apply (iv_custom _ Hinv).
  - apply (iv_app_info _ Hinv).
  - by destruct Hst as (_ & ?).
Qed.

Lemma starting_still s l v n n' : starting s l v n → nstill n n' → starting s l v n'.
Proof. intros [Hm Hp] [Hm' Hp']. split; etrans; [exact Hm'|done|exact Hp'|done]. Qed.

Lemma start_failed_inv s l v ret (p : pcomm) n tr :
  sys_inv s → mg_started (sy_mgr s) = false → mg_inited (sy_mgr s) = true → starting s (Some l) v n →
  ∃ s', start_failed cf ret l (mk_sys n (<[l := p]> (sy_pcs s)) tr) = Some (ret, s') ∧
    sys_inv s' ∧ mg_started (sy_mgr s') = false ∧ mg_inited (sy_mgr s') = true ∧ sy_pcs s' = ∅ ∧ sy_tr s' = tr ∧
    setup_kept (sy_mgr s) (sy_mgr s').
Proof.
  intros Hinv Hs Hi Hst. unfold start_failed. cbn [fst snd sy_net sy_pcs sy_tr].
  destruct (iv_stopped _ Hinv Hs) as (_ & Hpcs & _).
  rewrite Hpcs, insert_empty, lookup_singleton_eq, delete_singleton_eq. cbn [mbind option_bind].
  set (n2 := protocomm_delete _ _). eexists. split; [reflexivity|].
  assert (Hst2 : starting s (Some l) v n2).
  { eapply starting_still; [exact Hst|]. by apply delete_still, net_deinit_still. }
  destruct (unwound_inv s (Some l) v n2 tr Hinv Hs Hi Hst2) as (U1 & U2 & U3 & U4). done.
Qed.

(** The object a successful start hands to the transport. *)
Definition provisioning_pc (sec : network_prov_security) (pop : option string) (m : mgr_t) : pcomm :=
  mk_protocomm (builtin_endpoints ++ custom_endpoints 0 (mg_custom m)) (Some sec)
    (match sec with NETWORK_PROV_SECURITY_1 => pop | _ => None end) None
    (Some (strncpy (Z.to_nat (version_max - 1)) (version_json cf (mg_app_info_json m) sec pop))).

Lemma custom_endpoints_data i slots (p : pcomm) :
  Forall (fun n => strlen n < Z.of_nat PROTOCOMM_EP_NAME_MAX) (created_names slots) →
  Forall (ep_kept p) (custom_endpoints i slots) ∧ Forall ep_handled (custom_endpoints i slots).
Proof.
  revert i. induction slots as [|ce slots IH]; intros i; [by split; constructor|].
  rewrite created_cons. cbn [custom_endpoints]. destruct (ce_created ce); [|apply IH].
  intros [Hc Hr]%Forall_cons. destruct (IH (S i) Hr) as [? ?]. split; (constructor; [|done]); [by split|].
  intros _. cbn. eauto.
Qed.

Lemma provisioning_served sec pop m : custom_ok (mg_custom m) → served (provisioning_pc sec pop m) m.
Proof.
  intros Hok. pose proof (custom_not_builtin _ Hok) as Hnb. destruct Hok as [Hl Hd Hn].
  destruct (custom_endpoints_data 0 (mg_custom m) (provisioning_pc sec pop m)) as [Hk Hh].
  { eapply Forall_impl; [exact Hn|]. by intros ? (_ & _ & ?). }
  split; [|split; [by eauto|done]]. split; [split|].
  - unfold provisioning_pc. cbn [endpoints]. rewrite fmap_app, custom_endpoints_names.
    apply NoDup_app. split; [by apply (bool_decide_unpack _); vm_compute|]. split; [|done].
    intros x Hx Hx'. rewrite Forall_forall in Hnb. by destruct (Hnb x Hx').
  - unfold provisioning_pc. cbn [endpoints]. rewrite length_app.
    rewrite <- (length_fmap ep_name (custom_endpoints 0 (mg_custom m))), custom_endpoints_names.
    pose proof (created_length (mg_custom m)). change (length builtin_endpoints) with 5%nat. pc_lia.
  - unfold provisioning_pc at 2. cbn [endpoints]. apply Forall_app. split; [|done].
    repeat (apply Forall_cons; split; [split; [reflexivity|cbn; by eauto]|]). constructor.
  - unfold provisioning_pc. cbn [endpoints]. apply Forall_app. split; [|done].
    repeat (apply Forall_cons; split; [intros Ht; first [discriminate Ht|by eexists]|]). constructor.
Qed.

(** Why a start that was let through can fail: memory, OpenThread's callback
    registration, the transport. *)
Definition start_failure (name key : option string) (s : sys) (rc : Z) : Prop :=
  rc = - ENOMEM ∧ (k_malloc (cf_sizeof_protocomm cf) (n_plat (sy_net s))).1 = None ∨
  cf_thread cf = true ∧ (∃ e, rc = (openthread_cb_register e).1) ∨
  ∃ sch l s1 s2, mg_scheme (sy_mgr s) = Some sch ∧ scheme_start sch l name key s1 = Some (rc, s2).

(** What a failed start can have done to the transports: nothing, or what the failed
    start of the scheme left. *)
Definition start_left (name key : option string) (s : sys) (rc : Z) (s' : sys) : Prop :=
  sy_tr s' = sy_tr s ∨
  ∃ sch l s1 s2, mg_scheme (sy_mgr s) = Some sch ∧ scheme_start sch l name key s1 = Some (rc, s2) ∧
    sy_tr s1 = sy_tr s ∧ sy_tr s' = sy_tr s2 ∧ others_hold sch (sy_tr s) (sy_tr s').

Definition start_refused (s : sys) (rc : Z) (s' : sys) : Prop :=
  rc = (if mg_inited (sy_mgr s) then - EALREADY else - EPERM) ∧ s' = s ∧
  (mg_inited (sy_mgr s) = false ∨ mg_started (sy_mgr s) = true).
Definition start_unwound (name key : option string) (s : sys) (rc : Z) (s' : sys) : Prop :=
  rc ≠ 0 ∧ start_failure name key s rc ∧ sys_inv s' ∧ mg_started (sy_mgr s') = false ∧
  mg_inited (sy_mgr s') = true ∧ sy_pcs s' = ∅ ∧ start_left name key s rc s' ∧
  setup_kept (sy_mgr s) (sy_mgr s').
Definition start_done (sec : network_prov_security) (pop : option string) (s : sys) (rc : Z) (s' : sys) : Prop :=
  rc = 0 ∧ ∃ l s1, s' = sys_emit cf NETWORK_PROV_START (sys_mgr (fun m => m <| mg_started := true |>) s1) ∧
    sy_pcs s1 = {[l := provisioning_pc sec pop (sy_mgr s)]} ∧
    starting s (Some l) (mg_version_json (build_version_json cf sec pop (sy_mgr s))) (sy_net s1) ∧
    ∃ sch, mg_scheme (sy_mgr s) = Some sch ∧ scheme_holds sch (sy_tr s1) = Some l ∧
      others_hold sch (sy_tr s) (sy_tr s1).

(** The transport is started with the registered object [l]. *)
Lemma start_transport sec pop name key s sch l v n :
  sys_inv s → mg_inited (sy_mgr s) = true → mg_started (sy_mgr s) = false →
  v = mg_version_json (build_version_json cf sec pop (sy_mgr s)) →
  mg_scheme (sy_mgr s) = Some sch → starting s (Some l) v n →
  let s1 := mk_sys n (<[l := provisioning_pc sec pop (sy_mgr s)]> (sy_pcs s)) (sy_tr s) in
  ∃ rc s', ('(ret, s2) ← scheme_start sch l name key s1;
            if negb (ret =? 0) then start_failed cf ret l s2
            else Some (0, sys_emit cf NETWORK_PROV_START (sys_mgr (fun m => m <| mg_started := true |>) s2)))
           = Some (rc, s') ∧
    (start_unwound name key s rc s' ∨ start_done sec pop s rc s').
Proof.
  intros Hinv Hi Hs -> Hsch Hst s1. destruct (iv_stopped _ Hinv Hs) as (_ & Hpcs & _).
  assert (Hpcs1 : sy_pcs s1 = {[l := provisioning_pc sec pop (sy_mgr s)]}) by (unfold s1; cbn [sy_pcs]; by rewrite Hpcs, insert_empty).
  destruct (scheme_start_returns sch l name key s1) as [[ret s2] Hss].
  { exists (provisioning_pc sec pop (sy_mgr s)). rewrite Hpcs1, lookup_singleton_eq. split; [done|].
    by apply provisioning_served, (iv_custom _ Hinv). }
  rewrite Hss. cbn [mbind option_bind]. destruct (scheme_start_moves _ _ _ _ _ _ _ Hss) as (Hk & Hp2 & Ho2 & Hh2).
  pose proof (starting_still _ _ _ _ _ Hst (moved_still _ _ Hk)) as Hst2. rewrite Hpcs1 in Hp2.
  destruct (ret =? 0) eqn:Hz; breflect; cbn [negb].
  - subst ret. do 2 eexists. split; [reflexivity|]. right. split; [done|]. exists l, s2.
    split; [done|]. split; [done|]. split; [exact Hst2|]. exists sch. auto.
  - destruct (start_failed_inv s l _ ret (provisioning_pc sec pop (sy_mgr s)) (sy_net s2) (sy_tr s2) Hinv Hs Hi Hst2)
      as (s' & Hf & A1 & A2 & A3 & A4 & A5 & A6).
    rewrite Hpcs, insert_empty, <- Hp2 in Hf.
    change (mk_sys (sy_net s2) (sy_pcs s2) (sy_tr s2)) with (sys_eta s2) in Hf. unfold sys_eta in Hf.
    exists ret, s'. split; [by destruct s2|]. left. split; [done|]. split; [right; right; by exists sch, l, s1, s2|].
    do 4 (split; [done|]). split; [|done]. right. exists sch, l, s1, s2. split; [done|]. split; [done|]. split; [done|].
    split; [done|]. by rewrite A5.
Qed.

(** A start always returns, and these are its outcomes from a state that satisfies the
    invariant. *)
Lemma start_total sec pop name key s :
  sys_inv s → ∃ rc s', network_prov_mgr_start_provisioning cf sec pop name key s = Some (rc, s') ∧
    (start_refused s rc s' ∨
     mg_inited (sy_mgr s) = true ∧ mg_started (sy_mgr s) = false ∧
     (start_unwound name key s rc s' ∨ start_done sec pop s rc s')).
Proof.
  intros Hinv. unfold network_prov_mgr_start_provisioning, start_refused.
  destruct (mg_inited (sy_mgr s)) eqn:Hi; cbn [negb]; [|do 2 eexists; split; [done|]; auto].
  destruct (mg_started (sy_mgr s)) eqn:Hs; [do 2 eexists; split; [done|]; auto|].
  destruct (iv_stopped _ Hinv Hs) as (Hpc & Hpcs & _).
  pose proof (iv_phase _ Hinv) as Hph. unfold phase_of in Hph. rewrite Hs, Hi in Hph.
  set (v := mg_version_json (build_version_json cf sec pop (sy_mgr s))).
  pose proof (frame_new (Hnd := prov_handler) (Priv := nat) (Sec := network_prov_security)
    (Ctx := scheme_ctx op_t) nstill (cf_sizeof_protocomm cf) (sy_net s) (sy_net s)) as Hnew.
  assert (Hself : ∀ (m : mgr_t), mg_pc m = None → m = m <| mg_pc := None |> <| mg_version_json := mg_version_json m |>)
    by (intros []; cbn; by intros ->).
  destruct (protocomm_new _ _) as [[[l p]|] n1] eqn:Hn; cbn [snd] in Hnew; specialize (Hnew ltac:(done));
    destruct Hnew as [Hm1 Hp1]; change (n_env n1).1 with (n_mgr n1) in Hm1;
    change (n_env (sy_net s)).1 with (sy_mgr s) in Hm1.
  2:{ do 2 eexists. split; [reflexivity|]. right. split; [done|]. split; [done|]. left. split; [done|]. split.
      { left. split; [done|]. unfold protocomm_new in Hn. cbn in Hn. unfold on_env in Hn. unfold n_plat.
        by destruct (k_malloc (cf_sizeof_protocomm cf) (n_env (sy_net s)).2) as [[?|] ?]. }
      assert (Hst : starting s None (mg_version_json (sy_mgr s)) n1).
      { split; [rewrite Hm1; by apply Hself|]. etrans; [exact Hp1|done]. }
      destruct (unwound_inv _ _ _ _ (sy_tr s) Hinv Hs Hi Hst) as (U1 & U2 & U3 & U4). rewrite <- Hpcs in *.
      do 4 (split; [done|]). split; [by left|done]. }
  assert (Hp : p = protocomm_zero).
  { unfold protocomm_new in Hn. destruct (k_malloc _ _) as [[?|] ?]; by simplify_eq. }
  subst p. cbv zeta. set (n2 := set_mgr _ n1).
  assert (Hst2 : starting s (Some l) v n2).
  { split; [|etrans; [exact Hp1|done]]. unfold n2. change (n_mgr (set_mgr ?f n1)) with (f (n_mgr n1)). by rewrite Hm1. }
  clearbody n2. destruct (starting_fields _ _ _ _ Hst2 Hinv Hs) as (F1 & F2 & F3 & F4 & F5 & F6 & F7 & _).
  destruct (register_endpoints cf sec pop protocomm_zero n2) as [[ret p1] n3] eqn:Hreg.
  destruct (register_spec sec pop n2 ret p1 n3) as [Hk Hcases]; [rewrite F5; apply (iv_custom _ Hinv)|done|].
  pose proof (starting_still _ _ _ _ _ Hst2 Hk) as Hst3.
  destruct (starting_fields _ _ _ _ Hst3 Hinv Hs) as (_ & _ & _ & G4 & _).
  destruct Hcases as [[-> Hpe]|(Hr & Hth & Hcode)].
  2:{ destruct (ret =? 0) eqn:Hz; breflect; [done|]. cbn [negb].
      destruct (start_failed_inv s l v ret p1 n3 (sy_tr s) Hinv Hs Hi Hst3) as (s' & -> & A1 & A2 & A3 & A4 & A5 & A6).
      do 2 eexists. split; [reflexivity|]. right. split; [done|]. split; [done|]. left. split; [done|].
      split; [right; left; by eauto|]. do 4 (split; [done|]). split; [by left|done]. }
  cbn [Z.eqb negb]. destruct (iv_scheme _ Hinv Hi) as (sch & Hsch & _). rewrite G4, Hsch.
  assert (Hpp : p1 = provisioning_pc sec pop (sy_mgr s)) by (unfold provisioning_pc; by rewrite Hpe, F5, F7).
  rewrite Hpp.
  destruct (start_transport sec pop name key s sch l v n3 Hinv Hi Hs eq_refl Hsch Hst3) as (rc & s' & Hrun & Hout).
  exists rc, s'. split; [exact Hrun|]. right. auto.
Qed.

Lemma start_outcome sec pop name key s rc s' :
  sys_inv s → network_prov_mgr_start_provisioning cf sec pop name key s = Some (rc, s') →
  start_refused s rc s' ∨
  mg_inited (sy_mgr s) = true ∧ mg_started (sy_mgr s) = false ∧
  (start_unwound name key s rc s' ∨ start_done sec pop s rc s').
Proof.
  intros Hinv Hrun. destruct (start_total sec pop name key s Hinv) as (rc1 & s1 & Hrun1 & Hout).
  rewrite Hrun in Hrun1. by simplify_eq.
Qed.

Lemma start_ok_fields sec pop s l s1 s' :
  s' = sys_emit cf NETWORK_PROV_START (sys_mgr (fun m => m <| mg_started := true |>) s1) → sys_inv s → mg_started (sy_mgr s) = false →
  starting s (Some l) (mg_version_json (build_version_json cf sec pop (sy_mgr s))) (sy_net s1) →
  sy_pcs s1 = {[l := provisioning_pc sec pop (sy_mgr s)]} →
  mg_started (sy_mgr s') = true ∧ mg_inited (sy_mgr s') = mg_inited (sy_mgr s) ∧ mg_pc (sy_mgr s') = Some l ∧
  mg_scheme (sy_mgr s') = mg_scheme (sy_mgr s) ∧ mg_custom (sy_mgr s') = mg_custom (sy_mgr s) ∧
  mg_app_info_json (sy_mgr s') = mg_app_info_json (sy_mgr s) ∧
  mg_done (sy_mgr s') = mg_done (sy_mgr s) ∧ mg_auto_stop (sy_mgr s') = mg_auto_stop (sy_mgr s) ∧
  k_work_pending (mg_teardown_work (sy_mgr s')) = None ∧
  sy_pcs s' = {[l := provisioning_pc sec pop (sy_mgr s)]} ∧
  phases (net_log (n_plat (sy_net s'))) = Some ph_live.
Proof.
  intros -> Hinv Hs Hst Hpcs. destruct (starting_fields _ _ _ _ Hst Hinv Hs) as (F1 & F2 & F3 & F4 & F5 & F6 & _ & F8 & F9 & F10).
  set (s2 := sys_mgr (fun m => m <| mg_started := true |>) s1) in *.
  destruct (emit_own NETWORK_PROV_START s2 eq_refl) as (Hem & Hep & Heph).
  rewrite Hem, Hep, Heph. assert (B : ∀ m0 : mgr_t, let m1 := m0 <| mg_started := true |> in
    mg_started m1 = true ∧ mg_inited m1 = mg_inited m0 ∧ mg_pc m1 = mg_pc m0 ∧
    mg_scheme m1 = mg_scheme m0 ∧ mg_custom m1 = mg_custom m0 ∧ mg_app_info_json m1 = mg_app_info_json m0 ∧
    mg_done m1 = mg_done m0 ∧ mg_auto_stop m1 = mg_auto_stop m0 ∧
    mg_teardown_work m1 = mg_teardown_work m0) by done.
  destruct (B (n_mgr (sy_net s1))) as (B1 & B2 & B3 & B4 & B5 & B6 & B7 & B8 & B9).
  change ((n_mgr (sy_net s1)) <| mg_started := true |>) with (sy_mgr s2) in *.
  rewrite B1, B2, B3, B4, B5, B6, B7, B8, B9, F2, F3, F4, F5, F6, F8, F9, F10.
  repeat (split; [done|]). destruct Hst as [_ Hp].
  change (n_plat (sy_net s2)) with (n_plat (sy_net s1)). by rewrite Hp.
Qed.

Lemma start_inv sec pop name key s rc s' :
  network_prov_mgr_start_provisioning cf sec pop name key s = Some (rc, s') → sys_inv s → sys_inv s'.
Proof.
  intros Hrun Hinv.
  destruct (start_outcome _ _ _ _ _ _ _ Hinv Hrun) as [(_ & -> & _)|(Hi & Hs & [(_ & _ & Hinv' & _)|(-> & l & s1 & Hs' & Hpcs & Hst & Hatt)])];
    [done|done|]. destruct (start_ok_fields sec pop s l s1 s' Hs' Hinv Hs Hst Hpcs)
    as (F1 & F2 & F3 & F4 & F5 & F6 & _ & _ & _ & F10 & F11).
  split; rewrite ?F1, ?F2, ?F3, ?F4, ?F5, ?F6, ?F10.
  - intros _. split; [done|]. do 2 eexists. split; [done|]. split; [done|].
    destruct (provisioning_served sec pop (sy_mgr s) (iv_custom _ Hinv)) as (P1' & P2' & P3').
    split; [done|]. split; [done|]. by rewrite F5.
  - intros _. destruct Hatt as (sch & H1 & H2 & _). exists sch. split; [done|]. by subst s'.
  - done.
  - apply (iv_scheme _ Hinv).
  - apply (iv_custom _ Hinv).
  - apply (iv_app_info _ Hinv).
  - rewrite F11. unfold phase_of. by rewrite F1.
Qed.

Lemma teardown_work_inv s : sys_inv s →
  ∃ s', teardown_work_fn cf s = Some s' ∧ sys_inv s' ∧ mg_started (sy_mgr s') = false ∧
        mg_inited (sy_mgr s') = mg_inited (sy_mgr s).
Proof.
  intros Hinv. unfold teardown_work_fn. set (f := fun m : mgr_t => _).
  destruct (do_teardown_inv (sys_mgr f s)) as (s' & Hd & Hi & Hs & Hin).
  - apply inv_mgr_simple; [done|done|]. intros _. apply k_work_pending_fire.
  - apply k_work_pending_fire.
  - exists s'. by rewrite Hd.
Qed.

Lemma stop_inv s : sys_inv s → ∃ s', network_prov_mgr_stop_provisioning cf s = Some s' ∧ sys_inv s'.
Proof.
  intros Hinv. unfold network_prov_mgr_stop_provisioning.
  destruct (mg_started (sy_mgr s)) eqn:Hs; cbn [negb]; [|eauto].
  pose proof (cancel_teardown_inv s Hinv) as Hc. cbv zeta. destruct (0 <? _).
  - eexists. split; [reflexivity|]. apply inv_mgr_simple; [done|done|]. intros Hs'.
    change (sy_mgr (cancel_teardown s)) with ((sy_mgr s) <| mg_teardown_work := k_work_cancel (mg_teardown_work (sy_mgr s)) |>) in Hs'.
    assert (Hf : ∀ (m : mgr_t) w, mg_started (m <| mg_teardown_work := w |>) = mg_started m) by done.
    rewrite Hf in Hs'. congruence.
  - destruct (do_teardown_inv _ Hc) as (s' & Hd & Hi & _); [apply k_work_pending_cancel|]. eauto.
Qed.

Lemma mgr_deinit_inv s : sys_inv s → ∃ s', network_prov_mgr_deinit cf s = Some s' ∧ sys_inv s' ∧ mg_started (sy_mgr s') = false ∧ mg_inited (sy_mgr s') = false.
Proof.
  intros Hinv. unfold network_prov_mgr_deinit. destruct (mg_inited (sy_mgr s)) eqn:Hi; cbn [negb];
    [|exists s; auto using stopped_of_not_inited].
  pose proof (cancel_teardown_inv s Hinv) as Hc. cbv zeta.
  assert (Hmid : ∃ s2, (if mg_started (sy_mgr (cancel_teardown s)) then do_teardown cf (cancel_teardown s)
                        else Some (cancel_teardown s)) = Some s2 ∧ sys_inv s2 ∧
                       mg_started (sy_mgr s2) = false ∧ mg_inited (sy_mgr s2) = true).
  { destruct (do_teardown_inv _ Hc) as (s' & Hd & Hi' & Hs' & Hin); [apply k_work_pending_cancel|].
    destruct (mg_started (sy_mgr (cancel_teardown s))) eqn:Hs.
    - exists s'. split; [done|]. split; [done|]. split; [done|]. by rewrite Hin.
    - exists (cancel_teardown s). done. }
  destruct Hmid as (s2 & -> & Hinv2 & Hs2 & Hi2). cbn [mbind option_bind]. eexists. split; [reflexivity|].
  set (s3 := sys_mgr _ s2). destruct (emit_own NETWORK_PROV_DEINIT s3 eq_refl) as (Hem & Hep & Heph).
  assert (B : ∀ m0 : mgr_t, let m1 := m0 <| mg_inited := false |> in
    mg_started m1 = mg_started m0 ∧ mg_inited m1 = false ∧ mg_pc m1 = mg_pc m0 ∧ mg_scheme m1 = mg_scheme m0 ∧
    mg_custom m1 = mg_custom m0 ∧ mg_app_info_json m1 = mg_app_info_json m0 ∧
    mg_teardown_work m1 = mg_teardown_work m0) by done.
  destruct (B (sy_mgr s2)) as (B1 & B2 & B3 & B4 & B5 & B6 & B7).
  change ((sy_mgr s2) <| mg_inited := false |>) with (sy_mgr s3) in *.
  destruct (iv_stopped _ Hinv2 Hs2) as (Hpc & Hpcs & Hw).
  pose proof (iv_phase _ Hinv2) as Hph. unfold phase_of in Hph. rewrite Hs2, Hi2 in Hph.
  split; [|rewrite Hem, B1, B2; done].
  apply inv_intro_stopped; rewrite ?Hem, ?Hep, ?Heph, ?B1, ?B2, ?B3, ?B5, ?B6, ?B7; try done.
  - apply (iv_custom _ Hinv2).
  - apply (iv_app_info _ Hinv2).
  - change (n_plat (sy_net s3)) with (n_plat (sy_net s2)). by rewrite Hph.
Qed.

(** *** The calls that configure a service *)
Lemma created_set_custom i h c slots :
  created_names (alter (fun e => mk_custom (ce_name e) h c (ce_created e)) i slots) = created_names slots.
Proof.
  revert i. induction slots as [|ce slots IH]; intros [|i]; cbn [alter list_alter]; try done;
    rewrite !created_cons; [done|]. by rewrite IH.
Qed.
Lemma endpoints_set_custom i h c slots k :
  custom_endpoints k (alter (fun e => mk_custom (ce_name e) h c (ce_created e)) i slots) =
  custom_endpoints k slots.
Proof.
  revert i k. induction slots as [|ce slots IH]; intros [|i] k; cbn [alter list_alter]; try done;
    cbn [custom_endpoints]. by rewrite IH.
Qed.

Lemma set_custom_inv i h c s : sys_inv s → sys_inv (sys_mgr (set_custom i h c) s).
Proof.
  intros Hinv. apply inv_mgr; try done.
  - apply created_set_custom.
  - intros k. apply endpoints_set_custom.
  - change (mg_custom (set_custom i h c ?m)) with
      (alter (fun e => mk_custom (ce_name e) h c (ce_created e)) i (mg_custom m)).
    rewrite length_alter. apply (iv_custom _ Hinv).
  - apply (iv_app_info _ Hinv).
  - intros Hs. by destruct (iv_stopped _ Hinv Hs) as (_ & _ & ?).
Qed.

Lemma created_insert i n slots :
  fst <$> list_find (fun e => ce_created e = false) slots = Some i →
  ∃ a b, created_names slots = a ++ b ∧
         created_names (<[i := mk_custom n None None true]> slots) = a ++ n :: b.
Proof.
  intros Hf. apply fmap_Some in Hf as ([j e] & Hf & ->). apply list_find_Some in Hf as (Hl & Hc & _).
  pose proof (take_drop_middle _ _ _ Hl) as Hs. cbn [fst].
  exists (created_names (take j slots)), (created_names (drop (S j) slots)).
  rewrite <- Hs at 1. unfold created_names. rewrite !filter_app, !fmap_app, filter_cons. cbn in Hc. rewrite Hc.
  rewrite decide_False by done. split; [done|].
  rewrite insert_take_drop by (by eapply lookup_lt_Some).
  rewrite !filter_app, !fmap_app, filter_cons. rewrite decide_True by done. done.
Qed.

Lemma find_custom_none slots n : find_custom_ep slots n = None → n ∉ created_names slots.
Proof.
  unfold find_custom_ep. rewrite fmap_None, list_find_None, Forall_forall. intros Hn Hin.
  apply list_elem_of_fmap in Hin as (ce & -> & Hce). apply list_elem_of_filter in Hce as [Hc Hce].
  by apply (Hn ce Hce).
Qed.

Lemma create_inv name s rc s' :
  network_prov_mgr_endpoint_create name s = (rc, s') → sys_inv s → sys_inv s'.
Proof.
  unfold network_prov_mgr_endpoint_create. intros Hrun Hinv. destruct name as [n|]; [|by simplify_eq].
  destruct (String.eqb n EmptyString || _) eqn:Hlen; [by simplify_eq|].
  destruct (negb (mg_inited _)); [by simplify_eq|].
  destruct (mg_started (sy_mgr s)) eqn:Hs; [by simplify_eq|].
  destruct (is_builtin_ep n || _) eqn:Hb; [by simplify_eq|]. breflect.
  destruct (free_custom_ep _) as [i|] eqn:Hfree; simplify_eq; [|done].
  rewrite strncpy_fits by pc_lia.
  destruct (created_insert i n _ Hfree) as (a & b & Ha & Hi). destruct (iv_custom _ Hinv) as [Hl Hd Hn].
  assert (Hnew : n ∉ created_names (mg_custom (sy_mgr s))).
  { apply find_custom_none. by apply eq_None_not_Some. }
  rewrite Ha in Hd, Hn, Hnew. destruct (iv_stopped _ Hinv Hs) as (Hpc & Hpcs & Hw).
  set (s' := sys_mgr _ s).
  assert (B : ∀ (m0 : mgr_t) c, let m1 := m0 <| mg_custom := c |> in
    mg_started m1 = mg_started m0 ∧ mg_inited m1 = mg_inited m0 ∧ mg_pc m1 = mg_pc m0 ∧ mg_scheme m1 = mg_scheme m0 ∧
    mg_custom m1 = c ∧ mg_app_info_json m1 = mg_app_info_json m0 ∧
    mg_teardown_work m1 = mg_teardown_work m0) by done.
  destruct (B (sy_mgr s) (<[i := mk_custom n None None true]> (mg_custom (sy_mgr s)))) as (B1 & B2 & B3 & B4 & B5 & B6 & B7).
  change ((sy_mgr s) <| mg_custom := <[i := mk_custom n None None true]> (mg_custom (sy_mgr s)) |>)
    with (sy_mgr s') in *.
  pose proof (iv_phase _ Hinv) as Hph. unfold phase_of in Hph. rewrite Hs in Hph.
  apply inv_intro_stopped; rewrite ?B1, ?B2, ?B3, ?B4, ?B5, ?B6, ?B7; try done.
  - apply (iv_scheme _ Hinv).
  - split; [by rewrite length_insert| |]; rewrite Hi.
    + rewrite <- Permutation_middle. by constructor.
    + rewrite <- Permutation_middle. constructor; [|done]. split; [done|]. split; [done|]. pc_lia.
  - apply (iv_app_info _ Hinv).
Qed.

Lemma omap_somes (l : list (option string)) :
  forallb (fun c => match c with Some c => json_token_ok c | None => false end) l = true →
  forallb json_token_ok (omap id l) = true.
Proof.
  induction l as [|[c|] l IH]; cbn; [done| |done]. intros [-> Hl]%andb_true_iff. by apply IH.
Qed.

Lemma set_app_info_inv label version caps k s rc s' :
  network_prov_mgr_set_app_info label version caps k s = (rc, s') → sys_inv s → sys_inv s'.
Proof.
  unfold network_prov_mgr_set_app_info. intros Hrun Hinv.
  destruct label as [lb|], version as [ve|]; try by simplify_eq.
  destruct (String.eqb lb EmptyString); [by simplify_eq|]. destruct (_ && _); [by simplify_eq|].
  destruct (negb (mg_inited _)); [by simplify_eq|].
  destruct (mg_started (sy_mgr s)) eqn:Hs; [by simplify_eq|].
  destruct (negb (json_token_ok lb) || _) eqn:Htok; [by simplify_eq|]. cbv zeta in Hrun.
  destruct (forallb _ _) eqn:Hcaps; cbn [negb] in Hrun; [|by simplify_eq]. breflect.
  assert (Hset : ∀ j, app_info_ok j → sys_inv (sys_mgr (fun m => m <| mg_app_info_json := j |>) s)).
  { intros j Hj. apply inv_mgr; try done; [apply (iv_custom _ Hinv)|].
    intros _. by destruct (iv_stopped _ Hinv Hs) as (_ & _ & ?). }
  destruct (render_app_info _ _ _) as [j|] eqn:Hr; simplify_eq; apply Hset; [|by left].
  right. eexists lb, ve, _. split; [done|]. split; [done|]. split; [|exact Hr]. by apply omap_somes.
Qed.

(** ** Every step keeps the invariant *)
Lemma still_net s x : sys_inv s → still (n_env (sy_net s)) x →
  ∀ f : netst → netst, n_env (f (sy_net s)) = x → sys_inv (s <| sy_net := f (sy_net s) |>).
Proof.
  intros Hinv Hk f Hf. apply inv_keeps_net; [done|]. unfold nkeeps, lifted. rewrite Hf.
  eapply still_keeps; [exact Hk|done].
Qed.

(** Calls that reach the handlers' state only. *)
Definition net_only (s s' : sys) : Prop :=
  nkeeps (sy_net s) (sy_net s') ∧ sy_pcs s' = sy_pcs s ∧ sy_tr s' = sy_tr s.
Lemma net_only_refl s : net_only s s.
Proof. split; [reflexivity|done]. Qed.
Lemma net_only_inv s s' : net_only s s' → sys_inv s → sys_inv s'.
Proof. intros (Hk & Hp & Ht). apply inv_follow; [done|by left|by intros sch; rewrite Ht]. Qed.

Lemma reset_prov_frame s rc s' : network_prov_mgr_reset_wifi_provisioning cf s = (rc, s') → net_only s s'.
Proof.
  unfold network_prov_mgr_reset_wifi_provisioning. intros Hrun. cbv zeta in Hrun.
  destruct (negb _); [simplify_eq; apply net_only_refl|].
  assert (Hr : keeps (n_env (sy_net s)) (n_env (sy_net s))) by done. destruct (cf_thread cf).
  - pose proof (frame_thread_erase keeps (n_tc (sy_net s)) _ _ Hr) as Hk.
    destruct (ThreadConfig.network_prov_thread_config_erase _ _) as [[r tc] x]. by simplify_eq.
  - pose proof (fr_cred_delete_all (R := keeps) _ _ Hr) as Hk.
    destruct (wifi_credentials_delete_all _) as [r x]. by simplify_eq.
Qed.

Lemma reset_sm_frame s rc s' : network_prov_mgr_reset_wifi_sm_state_on_failure cf s = (rc, s') → net_only s s'.
Proof.
  unfold network_prov_mgr_reset_wifi_sm_state_on_failure, net_config_reset. intros Hrun.
  destruct (negb _); [simplify_eq; apply net_only_refl|].
  assert (Hr : keeps (n_env (sy_net s)) (n_env (sy_net s))) by done. destruct (cf_thread cf); simplify_eq; [|done].
  pose proof (frame_thread_reset keeps (n_tc (sy_net s)) _ _ Hr) as Hk.
  by destruct (ThreadConfig.network_prov_thread_config_reset _ _) as [tc x].
Qed.

Lemma configure_frame ssid psk s rc s' :
  network_prov_mgr_configure_wifi_sta cf ssid psk s = (rc, s') → net_only s s'.
Proof.
  unfold network_prov_mgr_configure_wifi_sta. intros Hrun. cbv zeta in Hrun.
  destruct (negb _); [simplify_eq; apply net_only_refl|]. destruct (cf_thread cf); [simplify_eq; apply net_only_refl|].
  destruct (null_or_empty ssid); [simplify_eq; apply net_only_refl|].
  match type of Hrun with context [WifiConfig.network_prov_wifi_config_set_and_apply ?a ?b ?c ?d ?w _] =>
    pose proof (frame_wifi_set_apply (EE := network_prov_emit cf) keeps a b c d w _ _ (reflexivity (n_env (sy_net s)))) as Hk end.
  destruct (WifiConfig.network_prov_wifi_config_set_and_apply _ _ _ _ _ _) as [[r wc] x]. by simplify_eq.
Qed.

Lemma mgr_only_inv s f :
  sys_inv s →
  (∀ m, mg_inited (f m) = mg_inited m ∧ mg_started (f m) = mg_started m ∧ mg_scheme (f m) = mg_scheme m ∧
        mg_pc (f m) = mg_pc m ∧ mg_custom (f m) = mg_custom m ∧ mg_app_info_json (f m) = mg_app_info_json m ∧
        mg_teardown_work (f m) = mg_teardown_work m) →
  sys_inv (sys_mgr f s).
Proof.
  intros Hinv Hf. apply inv_mgr_simple; [done| |].
  - intros m. destruct (Hf m) as (? & ? & ? & ? & ? & ? & _). done.
  - intros Hs. destruct (Hf (sy_mgr s)) as (_ & _ & _ & _ & _ & _ & ->).
    by destruct (iv_stopped _ Hinv Hs) as (_ & _ & ?).
Qed.

Lemma sys_step_inv s s' : sys_step s s' → sys_inv s → sys_inv s'.
Proof.
  destruct 1 as [c s rc s' _ Hr|sec pop nm key s rc s' Hr|s s' Hr|s s' Hr|d s rc s' Hr|s rc s' Hr
    |lb ve caps k s rc s' Hr|nm s rc s' Hr|nm h c s rc s' Hr|nm s rc s' Hr|s rc s' Hr|ssid psk s rc s' Hr
    |s s' Hr|s s' _ Hr|l nm b s rc out s' Hr|l s s' Hr|l s s' Hr|tr s Ht|ev s _|e s He]; intros Hinv.
  - by eapply mgr_init_inv.
  - by eapply start_inv.
  - destruct (mgr_deinit_inv s Hinv) as (s1 & Hd & ? & _). by simplify_eq.
  - destruct (stop_inv s Hinv) as (s1 & Hd & ?). by simplify_eq.
  - unfold network_prov_mgr_disable_auto_stop in Hr. destruct (negb _); simplify_eq; [done|].
    by apply cancel_teardown_inv, mgr_only_inv.
  - eapply net_only_inv; [by eapply reset_prov_frame|done].
  - by eapply set_app_info_inv.
  - by eapply create_inv.
  - unfold network_prov_mgr_endpoint_register in Hr. repeat case_match; simplify_eq; try done.
    by apply set_custom_inv.
  - unfold network_prov_mgr_endpoint_unregister in Hr. repeat case_match; simplify_eq; try done.
    by apply set_custom_inv.
  - eapply net_only_inv; [by eapply reset_sm_frame|done].
  - eapply net_only_inv; [by eapply configure_frame|done].
  - unfold network_prov_mgr_wait in Hr. destruct (k_sem_try_take _); cbn in Hr; simplify_eq. by apply mgr_only_inv.
  - destruct (teardown_work_inv s Hinv) as (s1 & Hd & ? & _). by simplify_eq.
  - apply transport_request_frame in Hr as (? & ? & Htr). apply (inv_follow s); [done|done|by rewrite Htr|done].
  - apply transport_open_frame in Hr as (Hk & ? & Htr). apply (inv_follow s); [|done|by rewrite Htr|done]. by apply moved_keeps.
  - apply transport_close_frame in Hr as (Hk & ? & Htr). apply (inv_follow s); [|done|by rewrite Htr|done]. by apply moved_keeps.
  - apply (inv_follow s); [done|by left|by apply transport_step_holds|done].
  - apply inv_keeps_net; [done|]. apply deliver_keeps.
  - apply inv_keeps_net; [done|]. eapply nstill_nkeeps; [|by apply nkeeps_preorder].
    by apply nstill_plat.
Qed.

(** The program before the first call: static storage, nothing running. *)
Record boot (s : sys) : Prop := {
  bt_inited : mg_inited (sy_mgr s) = false;
  bt_started : mg_started (sy_mgr s) = false;
  bt_pc : mg_pc (sy_mgr s) = None;
  bt_pcs : sy_pcs s = ∅;
  bt_work : k_work_pending (mg_teardown_work (sy_mgr s)) = None;
  bt_custom : mg_custom (sy_mgr s) = replicate (cf_custom_max cf) custom_zero;
  bt_app_info : mg_app_info_json (sy_mgr s) = EmptyString;
  bt_log : phases (net_log (n_plat (sy_net s))) = Some ph_idle;
  bt_tr sch : scheme_holds sch (sy_tr s) = None;
}.

Lemma boot_inv s : boot s → sys_inv s.
Proof.
  intros [B1 B2 B3 B4 B5 B6 B7 B8 _]. apply inv_intro_stopped; rewrite ?B1, ?B2, ?B3, ?B4, ?B5, ?B6, ?B7, ?B8; try done.
  - apply custom_ok_zero.
  - by left.
Qed.

Lemma reachable_inv s0 s : boot s0 → rtc sys_step s0 s → sys_inv s.
Proof.
  intros Hb Hr. pose proof (boot_inv _ Hb) as Hi. clear Hb. induction Hr as [|s1 s2 s3 Hs _ IH]; [done|].
  apply IH. by eapply sys_step_inv.
Qed.
End lifecycle.
