(* ===== verification/ManagerFacts.v ===== *)
(** * ManagerFacts: the lifecycle of the provisioning service

    From the invariant of ManagerInv.v: which objects the transports may hold, what the
    application sees over any history, what each start answers and serves, and how the
    service ends. *)
From S2P Require Import Prelude Platform PbUtil Messages Protocomm Security0 Psa Security1 NetEnv.
From S2P Require WifiConfig WifiScan WifiCtrl ThreadConfig ThreadScan ThreadCtrl.
From S2P Require Import Json Frame Manager VersionDoc.
From S2P Require Import ManagerFrame ManagerInv.

Section lifecycle.
Context {E : Type} `{HH : KHeap E} `{NL : NetLog E} `{!NetHeapLaws E}.
Context `{WN : WifiNet E} `{!WifiNetLaws E} `{OT : OpenThread E} `{!OpenThreadLaws E}.
Context `{PS : PSA E} `{K : Kernel} {KL : KernelLaws} `{SC : Schemes} `{AP : Application E} `{ST : Settings E}.
Context `{!ManagerEnvLaws E}.
Context `{P1 : PbMsg SessionData} `{P2 : PbMsg NetworkConfigPayload} `{P3 : PbMsg NetworkScanPayload}.
Context `{P4 : PbMsg NetworkCtrlPayload} `{UV : UnionViews}.
Context {SO : SchemeOps sys} {AC : AppConfigs}.
Context {SL : SchemeLaws} (cf : build_config) (custom_range : (cf_custom_max cf ≤ 3)%nat).

Local Abbreviation mgr_t := (manager scheme_t app_handler_t app_ctx_t k_sem k_work_delayable).
Local Abbreviation op_t := (@psa_cipher_operation_t netst net_psa).
Local Abbreviation pcomm := (protocomm prov_handler nat network_prov_security (scheme_ctx op_t)).

(** The invariant and its lemmas, for this build. *)
Local Abbreviation sys_step := (sys_step cf).
Local Abbreviation sys_inv := (sys_inv cf).
Local Abbreviation inv_keeps_net := (inv_keeps_net cf).
Local Abbreviation deliver_keeps := (deliver_keeps cf).
Local Abbreviation transport_request_frame := (transport_request_frame cf).
Local Abbreviation transport_open_frame := (transport_open_frame cf).
Local Abbreviation transport_close_frame := (transport_close_frame cf).
Local Abbreviation do_teardown_spec := (do_teardown_spec cf).
Local Abbreviation inv_mgr_simple := (inv_mgr_simple cf).
Local Abbreviation cancel_teardown_inv := (cancel_teardown_inv cf).
Local Abbreviation stopped_of_not_inited := (stopped_of_not_inited cf).
Local Abbreviation provisioning_pc := (provisioning_pc cf).
Local Abbreviation start_failure := (start_failure cf).
Local Abbreviation start_total := (start_total cf custom_range).
Local Abbreviation start_outcome := (start_outcome cf custom_range).
Local Abbreviation start_ok_fields := (start_ok_fields cf).
Local Abbreviation teardown_work_inv := (teardown_work_inv cf).
Local Abbreviation stop_inv := (stop_inv cf).
Local Abbreviation mgr_deinit_inv := (mgr_deinit_inv cf).
Local Abbreviation reset_prov_frame := (reset_prov_frame cf).
Local Abbreviation reset_sm_frame := (reset_sm_frame cf).
Local Abbreviation configure_frame := (configure_frame cf).
Local Abbreviation sys_step_inv := (sys_step_inv cf custom_range).
Local Abbreviation boot := (boot cf).
Local Abbreviation boot_inv := (boot_inv cf).
Local Abbreviation reachable_inv := (reachable_inv cf custom_range).
Local Abbreviation iv_started := (iv_started cf).
Local Abbreviation bt_tr := (bt_tr cf).
Local Abbreviation iv_stopped := (iv_stopped cf).
Local Abbreviation iv_app_info := (iv_app_info cf).
Local Abbreviation iv_phase := (iv_phase cf).
Local Abbreviation iv_attached := (iv_attached cf).

(** ** The pointers the transports keep

    A transport that holds an object is the one of the running service, or a start of it
    failed after it had taken the object and did not let go of it again. *)
Definition in_service (sch : scheme_t) (s : sys) : Prop :=
  mg_started (sy_mgr s) = true ∧ mg_scheme (sy_mgr s) = Some sch.

(** A start of the service that failed in the transport, and changed what it holds. *)
Definition failed_start (sch : scheme_t) (s s' : sys) : Prop :=
  ∃ sec pop name key rc l sa sb,
    network_prov_mgr_start_provisioning cf sec pop name key s = Some (rc, s') ∧ rc ≠ 0 ∧
    mg_scheme (sy_mgr s) = Some sch ∧ scheme_start sch l name key sa = Some (rc, sb) ∧
    scheme_holds sch (sy_tr sa) = scheme_holds sch (sy_tr s) ∧
    scheme_holds sch (sy_tr sb) = scheme_holds sch (sy_tr s') ∧
    scheme_holds sch (sy_tr s') ≠ scheme_holds sch (sy_tr s).

(** What the transport holds is what such a start left, some time ago in the run. *)
Definition left_by_failed_start (sch : scheme_t) (s0 s : sys) : Prop :=
  ∃ s1 s2, rtc sys_step s0 s1 ∧ failed_start sch s1 s2 ∧ rtc sys_step s2 s ∧
    scheme_holds sch (sy_tr s) = scheme_holds sch (sy_tr s2).

Definition tr_inv (s0 s : sys) : Prop :=
  ∀ sch, scheme_holds sch (sy_tr s) = None ∨ in_service sch s ∨ left_by_failed_start sch s0 s.

(** A running service and its object stay as they are, but for the session; the
    transports change only by themselves. *)
Definition same_service (s s' : sys) : Prop :=
  pcs_follow (sy_pcs s) (sy_pcs s') ∧ (sy_tr s' = sy_tr s ∨ transport_step (sy_tr s) (sy_tr s')) ∧
  (mg_started (sy_mgr s) = true →
   mg_started (sy_mgr s') = true ∧ mg_scheme (sy_mgr s') = mg_scheme (sy_mgr s)).

Lemma same_service_refl s : same_service s s.
Proof. split; [by left|]. split; [by left|done]. Qed.
Lemma same_service_mgr s f :
  (∀ m, mg_started (f m) = mg_started m ∧ mg_scheme (f m) = mg_scheme m) → same_service s (sys_mgr f s).
Proof.
  intros Hf. split; [by left|]. split; [by left|]. intros Hs. change (sy_mgr (sys_mgr f s)) with (f (sy_mgr s)).
  by destruct (Hf (sy_mgr s)) as [-> ->].
Qed.
Lemma same_service_keeps s s' :
  nkeeps (sy_net s) (sy_net s') → pcs_follow (sy_pcs s) (sy_pcs s') → sy_tr s' = sy_tr s → same_service s s'.
Proof.
  intros [Hm _] Hp Ht. split; [done|]. split; [by left|]. intros Hs.
  destruct (keeps_mgr_fields _ _ Hm) as (_ & H1 & H2 & _).
  change (n_env (sy_net s')).1 with (sy_mgr s') in *. change (n_env (sy_net s)).1 with (sy_mgr s) in *.
  by rewrite H1, H2.
Qed.
Lemma same_service_net s s' : net_only s s' → same_service s s'.
Proof. intros (Hk & Hp & ?). apply same_service_keeps; [done|by left|done]. Qed.
Lemma same_service_still s s' :
  nstill (sy_net s) (sy_net s') → pcs_follow (sy_pcs s) (sy_pcs s') → sy_tr s' = sy_tr s → same_service s s'.
Proof. intros Hk. apply same_service_keeps. by apply (nstill_nkeeps _ (sy_net s)). Qed.

Lemma init_same_service c s rc s' : network_prov_mgr_init cf c s = (rc, s') → sys_inv s → same_service s s'.
Proof.
  intros Hrun Hinv. unfold network_prov_mgr_init in Hrun.
  destruct (mg_inited (sy_mgr s)) eqn:Hi; [simplify_eq; apply same_service_refl|].
  pose proof (stopped_of_not_inited _ Hinv Hi) as Hs.
  assert (Hk : sy_pcs s' = sy_pcs s ∧ sy_tr s' = sy_tr s); [|destruct Hk as [Hp Ht]; split; [by left|split; [by left|by rewrite Hs]]].
  destruct (mc_scheme c) as [sch|]; [|by simplify_eq]. destruct (negb _); [by simplify_eq|].
  destruct (cf_settings cf); [|by simplify_eq].
  destruct (settings_subsys_init _) as [ret e1]. destruct (negb (ret =? 0)); by simplify_eq.
Qed.

(** What a step is to the service: nothing, a start, or a teardown between steps that
    are nothing. *)
Inductive service_step (s s' : sys) : Prop :=
| sv_same : same_service s s' → service_step s s'
| sv_start sec pop name key rc :
    network_prov_mgr_start_provisioning cf sec pop name key s = Some (rc, s') → service_step s s'
| sv_teardown s1 s2 : same_service s s1 → sys_inv s1 → do_teardown cf s1 = Some s2 → same_service s2 s' →
    service_step s s'.

Lemma sys_step_service s s' : sys_step s s' → sys_inv s → service_step s s'.
Proof.
  intros Hstep Hinv. pose proof (cancel_teardown_inv s Hinv) as Hcinv.
  assert (Hc : same_service s (cancel_teardown s)) by (by apply same_service_mgr).
  destruct Hstep as [c s rc s' _ Hr|sec pop nm key s rc s' Hr|s s' Hr|s s' Hr|d s rc s' Hr|s rc s' Hr
    |lb ve caps k s rc s' Hr|nm s rc s' Hr|nm h c s rc s' Hr|nm s rc s' Hr|s rc s' Hr|ssid psk s rc s' Hr
    |s s' Hr|s s' _ Hr|l nm b s rc out s' Hr|l s s' Hr|l s s' Hr|tr s Hh|ev s _|e s He].
  - apply sv_same. by eapply init_same_service.
  - by eapply sv_start.
  - unfold network_prov_mgr_deinit in Hr. destruct (negb _); [simplify_eq; apply sv_same, same_service_refl|].
    cbv zeta in Hr.
    destruct (if mg_started (sy_mgr (cancel_teardown s)) then _ else _) as [s2|] eqn:Hd; cbn [mbind option_bind] in Hr; [|done].
    injection Hr as <-. apply (sv_teardown _ _ (cancel_teardown s) s2); [done|done| |by apply (same_service_mgr s2)].
    destruct (mg_started (sy_mgr (cancel_teardown s))) eqn:Hs; [done|]. simplify_eq. unfold do_teardown. by rewrite Hs.
  - unfold network_prov_mgr_stop_provisioning in Hr.
    destruct (negb _); [simplify_eq; apply sv_same, same_service_refl|]. cbv zeta in Hr.
    destruct (0 <? _); [simplify_eq; apply sv_same; split; [by left|split; [by left|done]]|].
    apply (sv_teardown _ _ (cancel_teardown s) s'); [done|done|done|apply same_service_refl].
  - apply sv_same. unfold network_prov_mgr_disable_auto_stop in Hr.
    destruct (negb _); simplify_eq; [apply same_service_refl|]. split; [by left|split; [by left|done]].
  - apply sv_same, same_service_net. by eapply reset_prov_frame.
  - apply sv_same. unfold network_prov_mgr_set_app_info in Hr.
    repeat case_match; simplify_eq; try apply same_service_refl; by apply same_service_mgr.
  - apply sv_same. unfold network_prov_mgr_endpoint_create in Hr.
    repeat case_match; simplify_eq; try apply same_service_refl; by apply same_service_mgr.
  - apply sv_same. unfold network_prov_mgr_endpoint_register in Hr.
    repeat case_match; simplify_eq; try apply same_service_refl; by apply same_service_mgr.
  - apply sv_same. unfold network_prov_mgr_endpoint_unregister in Hr.
    repeat case_match; simplify_eq; try apply same_service_refl; by apply same_service_mgr.
  - apply sv_same, same_service_net. by eapply reset_sm_frame.
  - apply sv_same, same_service_net. by eapply configure_frame.
  - apply sv_same. unfold network_prov_mgr_wait in Hr.
    destruct (k_sem_try_take _); cbn in Hr; simplify_eq. by apply same_service_mgr.
  - unfold teardown_work_fn in Hr. refine (sv_teardown _ _ _ s' _ _ Hr (same_service_refl _)); [by apply same_service_mgr|].
    apply inv_mgr_simple; [done|done|]. intros _. apply k_work_pending_fire.
  - apply sv_same. apply transport_request_frame in Hr as (Hk & ? & ?). by apply same_service_keeps.
  - apply sv_same. apply transport_open_frame in Hr as (Hk & ? & ?). apply moved_still in Hk. by apply same_service_still.
  - apply sv_same. apply transport_close_frame in Hr as (Hk & ? & ?). apply moved_still in Hk. by apply same_service_still.
  - apply sv_same. split; [by left|split; [by right|done]].
  - apply sv_same, same_service_net. split; [apply deliver_keeps|done].
  - apply sv_same. split; [by left|split; [by left|done]].
Qed.

Lemma same_service_holds s s' sch : same_service s s' →
  scheme_holds sch (sy_tr s') = scheme_holds sch (sy_tr s) ∧ (in_service sch s → in_service sch s').
Proof.
  intros (_ & Ht & Hm). split.
  - destruct Ht as [->|Ht]; [done|]. by apply transport_step_holds.
  - intros [Hs Hsch]. destruct (Hm Hs) as [? Hsch']. split; [done|]. by rewrite Hsch'.
Qed.

(** What a transport holds after a step: nothing, the running service's object, what it
    held before without being in service, or what a failed start left. *)
Definition holds_after (sch : scheme_t) (s s' : sys) : Prop :=
  scheme_holds sch (sy_tr s') = None ∨ in_service sch s' ∨
  scheme_holds sch (sy_tr s') = scheme_holds sch (sy_tr s) ∧ ¬ in_service sch s ∨ failed_start sch s s'.

Lemma in_service_dec sch s : in_service sch s ∨ ¬ in_service sch s.
Proof. unfold in_service. destruct (decide (mg_started (sy_mgr s) = true ∧ mg_scheme (sy_mgr s) = Some sch)); auto. Qed.

Lemma start_holds_after sec pop name key s rc s' sch :
  network_prov_mgr_start_provisioning cf sec pop name key s = Some (rc, s') → sys_inv s → holds_after sch s s'.
Proof.
  intros Hrun Hinv.
  destruct (start_outcome _ _ _ _ _ _ _ Hinv Hrun) as [(_ & -> & _)|(Hi & Hs & Hcase)].
  { destruct (in_service_dec sch s); [right; by left|]. right; right; by left. }
  assert (Hout : ∀ sch, ¬ in_service sch s) by (intros sch' [? _]; congruence).
  destruct Hcase as [(Hrc & _ & _ & _ & _ & _ & Hleft & _)|(-> & l & s1 & Hs' & Hpcs & Hst & sch' & Hsch & Hl & Ho)].
  - destruct Hleft as [Heq|(sch' & l & sa & sb & Hsch & Hss & Hta & Htb & Ho)]; [right; right; left; by rewrite Heq|].
    destruct (decide (sch = sch')) as [->|Hne]; [|right; right; left; by rewrite Ho].
    destruct (decide (scheme_holds sch' (sy_tr s') = scheme_holds sch' (sy_tr s))) as [Heq|Hne]; [right; right; by left|].
    right; right; right. exists sec, pop, name, key, rc, l, sa, sb. by rewrite Hta, Htb in *.
  - destruct (start_ok_fields sec pop s l s1 s' Hs' Hinv Hs Hst Hpcs) as (F1 & _ & _ & F4 & _).
    destruct (decide (sch = sch')) as [->|Hne].
    + right; left. split; [done|]. by rewrite F4.
    + right; right; left. split; [|done]. rewrite Hs'. change (sy_tr (sys_emit _ _ _)) with (sy_tr s1). by rewrite Ho.
Qed.

Lemma teardown_holds s s' sch : sys_inv s → do_teardown cf s = Some s' →
  scheme_holds sch (sy_tr s') = None ∨ scheme_holds sch (sy_tr s') = scheme_holds sch (sy_tr s) ∧ ¬ in_service sch s.
Proof.
  intros Hinv Hd. destruct (mg_started (sy_mgr s)) eqn:Hst.
  2:{ unfold do_teardown in Hd. rewrite Hst in Hd. cbn in Hd. simplify_eq. right. split; [done|]. intros [? _]. congruence. }
  destruct (do_teardown_spec s Hinv Hst) as (s1 & Hd1 & _ & _ & _ & sch' & Hsch & Hn & Ho).
  rewrite Hd in Hd1. injection Hd1 as ->. change (sy_tr (sys_emit cf _ s1)) with (sy_tr s1).
  destruct (decide (sch = sch')) as [->|Hne]; [by left|]. right. split; [by rewrite Ho|]. intros [_ ?]. congruence.
Qed.

Lemma step_holds_after s s' sch : sys_step s s' → sys_inv s → holds_after sch s s'.
Proof.
  intros Hstep Hinv. destruct (sys_step_service s s' Hstep Hinv) as [Hss|sec pop nm key rc Hr|s1 s2 H1 Hi1 Hd H2].
  - destruct (same_service_holds _ _ sch Hss) as [Hh Hk].
    destruct (in_service_dec sch s); [right; left; auto|]. right; right; by left.
  - by eapply start_holds_after.
  - destruct (same_service_holds _ _ sch H1) as [Hh1 Hk1]. destruct (same_service_holds _ _ sch H2) as [Hh2 _].
    destruct (teardown_holds _ _ sch Hi1 Hd) as [Hn|[Hh Hout]]; [left; by rewrite Hh2|].
    right; right; left. split; [by rewrite Hh2, Hh, Hh1|auto].
Qed.

Lemma step_keeps_tr s0 s s' : rtc sys_step s0 s → sys_step s s' → sys_inv s → tr_inv s0 s → tr_inv s0 s'.
Proof.
  intros Hr Hstep Hinv Ht sch.
  destruct (step_holds_after s s' sch Hstep Hinv) as [?|[?|[[Hh Hout]|Hf]]]; [by left|right; by left| |].
  - destruct (Ht sch) as [Hn|[Hin|(s1 & s2 & H1 & Hf & H2 & Hh2)]]; [left; by rewrite Hh|done|].
    right; right. exists s1, s2. split; [done|]. split; [done|]. split; [by eapply rtc_r|]. by rewrite Hh.
  - right; right. exists s, s'. split; [done|]. split; [done|]. by split.
Qed.

(** Any property of the transports' state that their own steps, starts and stops keep. *)
Section tr_property.
Context (P : transports → Prop).
Context (P_step : ∀ tr tr', transport_step tr tr' → P tr → P tr').
Context (P_start : ∀ sch l name key s rc s', scheme_start sch l name key s = Some (rc, s') → P (sy_tr s) → P (sy_tr s')).
Context (P_stop : ∀ sch s s', scheme_stop sch s = Some s' → P (sy_tr s) → P (sy_tr s')).

Lemma start_property sec pop name key s rc s' :
  network_prov_mgr_start_provisioning cf sec pop name key s = Some (rc, s') → P (sy_tr s) → P (sy_tr s').
Proof.
  unfold network_prov_mgr_start_provisioning. intros Hr HP. destruct (negb _); [by simplify_eq|].
  destruct (mg_started _); [by simplify_eq|]. destruct (protocomm_new _ _) as [[[l p]|] n1]; [|by simplify_eq].
  cbv zeta in Hr. destruct (register_endpoints _ _ _ _ _) as [[ret p1] n3].
  assert (Hfail : ∀ r sa, P (sy_tr sa) → start_failed cf r l sa = Some (rc, s') → P (sy_tr s')).
  { intros r sa HPa Hf. unfold start_failed in Hf. destruct (sy_pcs sa !! l); cbn [mbind option_bind] in Hf; by simplify_eq. }
  destruct (negb (ret =? 0)); [by eapply Hfail in Hr|]. destruct (mg_scheme (n_mgr n3)) as [sch|]; [|by eapply Hfail in Hr].
  destruct (scheme_start _ _ _ _ _) as [[ret2 s2]|] eqn:Hss; cbn [mbind option_bind] in Hr; [|done].
  pose proof (P_start _ _ _ _ _ _ _ Hss HP) as HP2. destruct (negb (ret2 =? 0)); [by eapply Hfail in Hr|]. by simplify_eq.
Qed.

Lemma teardown_property s s' : do_teardown cf s = Some s' → P (sy_tr s) → P (sy_tr s').
Proof.
  unfold do_teardown. intros Hr HP. destruct (negb _); [by simplify_eq|].
  destruct (mg_scheme _) as [sch|]; cbn [mbind option_bind] in Hr; [|done].
  destruct (scheme_stop sch s) as [s1|] eqn:Hs; cbn [mbind option_bind] in Hr; [|done].
  destruct (mg_pc _); cbn [mbind option_bind] in Hr; [|done].
  destruct (sy_pcs s1 !! _); cbn [mbind option_bind] in Hr; [|done]. injection Hr as <-.
  exact (P_stop _ _ _ Hs HP).
Qed.

Lemma step_property s s' : sys_step s s' → sys_inv s → P (sy_tr s) → P (sy_tr s').
Proof.
  intros Hstep Hinv HP.
  assert (Hsame : ∀ a b, same_service a b → P (sy_tr a) → P (sy_tr b)).
  { intros a b (_ & [->|Ht] & _) ?; [done|]. by eapply P_step. }
  destruct (sys_step_service s s' Hstep Hinv) as [Hss|sec pop nm key rc Hr|s1 s2 H1 Hi1 Hd H2].
  - by eapply Hsame.
  - by eapply start_property.
  - eapply Hsame; [done|]. eapply teardown_property; [done|]. by eapply Hsame.
Qed.

Lemma reachable_property s0 s : boot s0 → P (sy_tr s0) → rtc sys_step s0 s → P (sy_tr s).
Proof.
  intros Hb HP Hr. pose proof (boot_inv _ Hb) as Hi. clear Hb.
  induction Hr as [|s1 s2 s3 Hs _ IH]; [done|]. apply IH; [by eapply step_property|by eapply sys_step_inv].
Qed.
End tr_property.

Lemma reachable_tr s0 s : boot s0 → rtc sys_step s0 s → tr_inv s0 s.
Proof.
  intros Hb. apply (rtc_ind_r (tr_inv s0)); [intros sch; left; apply (bt_tr _ Hb)|].
  intros s1 s2 Hr Hs IH. apply (step_keeps_tr s0 s1); [done|done|by apply (reachable_inv s0)|done].
Qed.

(** ** The object of a running service

    A step keeps it, session apart, or tears the service down. *)
Lemma teardown_empties s s' : sys_inv s → do_teardown cf s = Some s' → sy_pcs s' = ∅.
Proof.
  intros Hinv Hd. destruct (mg_started (sy_mgr s)) eqn:Hst.
  - destruct (do_teardown_spec s Hinv Hst) as (s1 & Hd1 & _ & Hp & _). rewrite Hd in Hd1. by injection Hd1 as ->.
  - unfold do_teardown in Hd. rewrite Hst in Hd. cbn [negb] in Hd. injection Hd as <-. by apply (iv_stopped _ Hinv).
Qed.
Lemma follow_empty s s' : same_service s s' → sy_pcs s = ∅ → sy_pcs s' = ∅.
Proof. intros ([->|(l & p & ctx & Hl & _)] & _) He; [done|]. by rewrite He, lookup_empty in Hl. Qed.

Lemma object_follows s s' : sys_step s s' → sys_inv s → mg_started (sy_mgr s) = true →
  pcs_follow (sy_pcs s) (sy_pcs s') ∨ sy_pcs s' = ∅.
Proof.
  intros Hstep Hinv Hs. destruct (sys_step_service s s' Hstep Hinv) as [(Hp & _)|sec pop nm key rc Hr|s1 s2 _ Hi1 Hd H2].
  - by left.
  - destruct (start_outcome _ _ _ _ _ _ _ Hinv Hr) as [(_ & -> & _)|(_ & Hs' & _)]; [left; by left|congruence].
  - right. eapply follow_empty; [exact H2|]. by eapply teardown_empties.
Qed.

(** *** No fault: the object behind the manager's pointer answers *)
Lemma live_no_fault s l name b : sys_inv s → mg_pc (sy_mgr s) = Some l →
  is_Some (transport_request cf l name b s) ∧ is_Some (transport_open cf l s) ∧ is_Some (transport_close cf l s).
Proof.
  intros Hinv Hl. destruct (mg_started (sy_mgr s)) eqn:Hs.
  2:{ destruct (iv_stopped _ Hinv Hs) as (Hpc & _). congruence. }
  destruct (iv_started _ Hinv Hs) as (_ & l' & p & Hl' & Hpcs & Hw & _). rewrite Hl in Hl'. simplify_eq.
  unfold transport_request, transport_open, transport_close. rewrite Hpcs, lookup_singleton_eq.
  cbn [mbind option_bind]. split; [|split].
  - destruct (req_handle_no_fault (CB := prov_callbacks cf) p name b true (sy_net s) Hw) as [[[[r o] p1] n1] Hr].
    rewrite Hr. apply req_handle_frame in Hr as [ctx ->]. eauto.
  - destruct (open_session_some (CB := prov_callbacks cf) p (sy_net s)) as (ctx & n1 & ->). eauto.
  - destruct (close_session_some (CB := prov_callbacks cf) p (sy_net s)) as (ctx & n1 & ->). eauto.
Qed.

(** C1: The life of the service, over every interleaving of application calls,
    transport requests with arbitrary bytes, network events and expiring work: the
    application sees INIT, then START / END pairs, then DEINIT, in step with the
    manager's flags; while the service runs exactly one protocomm object is alive,
    serving the five library endpoints and the created custom ones, the scheme's
    transport holds it, and any request or session change on it completes; when it
    does not run no object is alive and no teardown is queued (a late auto-stop cannot
    hit the next session). Starting, stopping, deinitialising and an expiring teardown
    always return. *)
Theorem provisioning_lifecycle s0 s :
  boot s0 → rtc sys_step s0 s →
  phases (net_log (n_plat (sy_net s))) = Some (phase_of (sy_mgr s)) ∧
  (if mg_started (sy_mgr s)
   then mg_inited (sy_mgr s) = true ∧
        ∃ l p, mg_pc (sy_mgr s) = Some l ∧ sy_pcs s = {[l := p]} ∧
          ep_name <$> endpoints p =
            [EP_VERSION_NAME; EP_SESSION_NAME; EP_SCAN_NAME; EP_CONFIG_NAME; EP_CTRL_NAME] ++
            created_names (mg_custom (sy_mgr s)) ∧
          NoDup (ep_name <$> endpoints p) ∧ (length (endpoints p) ≤ PROTOCOMM_MAX_ENDPOINTS)%nat ∧
          (∀ name b, is_Some (transport_request cf l name b s)) ∧
          is_Some (transport_open cf l s) ∧ is_Some (transport_close cf l s) ∧
          ∃ sch, mg_scheme (sy_mgr s) = Some sch ∧ scheme_holds sch (sy_tr s) = Some l
   else mg_pc (sy_mgr s) = None ∧ sy_pcs s = ∅ ∧ k_work_pending (mg_teardown_work (sy_mgr s)) = None) ∧
  (∀ sec pop name key, is_Some (network_prov_mgr_start_provisioning cf sec pop name key s)) ∧
  is_Some (network_prov_mgr_stop_provisioning cf s) ∧ is_Some (teardown_work_fn cf s) ∧
  ∃ s', network_prov_mgr_deinit cf s = Some s' ∧ mg_inited (sy_mgr s') = false ∧ mg_started (sy_mgr s') = false.
Proof.
  intros Hb Hr. pose proof (reachable_inv _ _ Hb Hr) as Hinv. split; [apply (iv_phase _ Hinv)|]. split.
  - destruct (mg_started (sy_mgr s)) eqn:Hs; [|by apply (iv_stopped _ Hinv)].
    destruct (iv_started _ Hinv Hs) as (Hi & l & p & Hl & Hpcs & Hw & _ & He). split; [done|].
    exists l, p. split; [done|]. split; [done|]. destruct Hw as [[W1 W2 _] _].
    split; [by rewrite He, fmap_app, custom_endpoints_names|]. split; [done|]. split; [done|].
    split; [intros name b; by apply live_no_fault|]. destruct (live_no_fault s l None [] Hinv Hl) as (_ & ? & ?).
    split; [done|]. split; [done|]. destruct (iv_attached _ Hinv Hs) as (sch & ? & Hh). rewrite Hl in Hh. eauto.
  - split.
    { intros sec pop name key. destruct (start_total sec pop name key s Hinv) as (rc & s1 & -> & _). eauto. }
    destruct (stop_inv s Hinv) as (s1 & H1 & _). destruct (teardown_work_inv s Hinv) as (s2 & H2 & _).
    destruct (mgr_deinit_inv s Hinv) as (s3 & H3 & _ & ? & ?). eauto 10.
Qed.

(** C8: Starting, in full. From any reachable state the call refuses unless the
    manager is initialised and idle; otherwise it either fails, and then nothing is
    left running and it can be tried again, or it succeeds, and then the transport
    was started with an object that serves exactly the library's endpoints followed
    by the custom ones, under the requested scheme, with the proof of possession for
    scheme 1 only, no session yet, and the advertised version string. The only
    reasons to fail are memory, OpenThread on Thread builds, and the transport: the
    endpoint table never overflows and no name is ever refused. *)
Theorem start_provisioning_spec sec pop name key s0 s rc s' :
  boot s0 → rtc sys_step s0 s → network_prov_mgr_start_provisioning cf sec pop name key s = Some (rc, s') →
  if negb (mg_inited (sy_mgr s)) then rc = - EPERM ∧ s' = s
  else if mg_started (sy_mgr s) then rc = - EALREADY ∧ s' = s
  else
    if rc =? 0 then
      mg_started (sy_mgr s') = true ∧
      ∃ l, mg_pc (sy_mgr s') = Some l ∧ sy_pcs s' = {[l := provisioning_pc sec pop (sy_mgr s)]}
    else start_failure name key s rc ∧ mg_started (sy_mgr s') = false ∧ mg_inited (sy_mgr s') = true ∧
         sy_pcs s' = ∅ ∧ mg_pc (sy_mgr s') = None.
Proof.
  intros Hb Hr Hrun. pose proof (reachable_inv _ _ Hb Hr) as Hinv.
  destruct (start_outcome _ _ _ _ _ _ _ Hinv Hrun) as [(Hrc & -> & Hc)|(Hi & Hs & [(Hrc & Hwhy & Hinv' & F1 & F2 & F3 & _)|(-> & l & s1 & Hs' & Hpcs & Hst & Hatt)])].
  - destruct (mg_inited (sy_mgr s)); cbn [negb]; [|done]. destruct Hc as [?| ->]; done.
  - rewrite Hi, Hs. cbn [negb]. destruct (rc =? 0) eqn:Hz; breflect; [done|].
    split; [done|]. split; [done|]. split; [done|]. split; [done|]. by apply (iv_stopped _ Hinv').
  - rewrite Hi, Hs. destruct (start_ok_fields sec pop s l s1 s' Hs' Hinv Hs Hst Hpcs)
      as (F1 & _ & F3 & _ & _ & _ & _ & _ & _ & F10 & _). cbn [negb Z.eqb]. split; [done|]. eauto.
Qed.

(** ** What the application said about itself

    The label, the version and the capabilities of the last [set_app_info] that was
    accepted since the manager was initialised. *)
Definition app_section : Type := string * string * list string.

(** One that overflows the buffer leaves none; any other error changes nothing. *)
Definition set_section (rc : Z) (label version : option string) (caps : option (list (option string))) (k : nat)
    (app : option app_section) : option app_section :=
  if rc =? 0 then
    match label, version with
    | Some lb, Some ve => Some (lb, ve, omap id (take k (default [] caps)))
    | _, _ => app
    end
  else if rc =? - ENOMEM then None else app.

(** The calls that concern it. *)
Definition app_call (s s' : sys) : Prop :=
  (∃ c rc, network_prov_mgr_init cf c s = (rc, s')) ∨
  ∃ label version caps k rc, network_prov_mgr_set_app_info label version caps k s = (rc, s').

Inductive app_said (s0 : sys) : sys → option app_section → Prop :=
| as_boot : app_said s0 s0 None
| as_init c s rc s' app : configured c → app_said s0 s app → network_prov_mgr_init cf c s = (rc, s') →
    app_said s0 s' (if rc =? 0 then None else app)
| as_set label version caps k s rc s' app : app_said s0 s app →
    network_prov_mgr_set_app_info label version caps k s = (rc, s') →
    app_said s0 s' (set_section rc label version caps k app)
| as_other s s' app : app_said s0 s app → sys_step s s' → ¬ app_call s s' → app_said s0 s' app.

(** The manager's buffer holds the section, rendered. *)
Definition renders (m : mgr_t) (app : option app_section) : Prop :=
  match app with
  | None => mg_app_info_json m = EmptyString
  | Some (label, version, caps) =>
      json_token_ok label = true ∧ json_token_ok version = true ∧ forallb json_token_ok caps = true ∧
      render_app_info label version caps = Some (mg_app_info_json m)
  end.

(** Any other step leaves the buffer, and does not initialise the manager. *)
Definition section_kept (m m' : mgr_t) : Prop :=
  mg_app_info_json m' = mg_app_info_json m ∧ (mg_inited m' = true → mg_inited m = true).
Lemma section_kept_refl m : section_kept m m.
Proof. done. Qed.
Lemma section_kept_trans m m1 m2 : section_kept m m1 → section_kept m1 m2 → section_kept m m2.
Proof. intros [H1 H2] [H3 H4]. split; [congruence|auto]. Qed.
Lemma section_kept_net s s' : nkeeps (sy_net s) (sy_net s') → section_kept (sy_mgr s) (sy_mgr s').
Proof.
  intros [Hm _]. destruct (keeps_mgr_fields _ _ Hm) as (Hi & _ & _ & _ & _ & Ha & _).
  change (n_env (sy_net s')).1 with (sy_mgr s') in *. change (n_env (sy_net s)).1 with (sy_mgr s) in *.
  split; [done|congruence].
Qed.

Lemma section_kept_teardown s s' : sys_inv s → do_teardown cf s = Some s' → section_kept (sy_mgr s) (sy_mgr s').
Proof.
  intros Hinv Hd. destruct (mg_started (sy_mgr s)) eqn:Hst.
  2:{ unfold do_teardown in Hd. rewrite Hst in Hd. cbn in Hd. by simplify_eq. }
  destruct (do_teardown_spec s Hinv Hst) as (s1 & Hd1 & Hm & _). rewrite Hd in Hd1. injection Hd1 as ->.
  destruct (emit_own cf NETWORK_PROV_END s1 eq_refl) as (-> & _). by rewrite Hm.
Qed.

Lemma section_kept_start sec pop name key s rc s' : sys_inv s →
  network_prov_mgr_start_provisioning cf sec pop name key s = Some (rc, s') → section_kept (sy_mgr s) (sy_mgr s').
Proof.
  intros Hinv Hr. destruct (start_outcome _ _ _ _ _ _ _ Hinv Hr) as [(_ & -> & _)|(Hi & Hs & Hcase)]; [done|].
  destruct Hcase as [(_ & _ & _ & _ & _ & _ & _ & _ & Ha)|(-> & l & s1 & Hs' & Hpcs & Hst & _)]; [by split|].
  destruct (start_ok_fields sec pop s l s1 s' Hs' Hinv Hs Hst Hpcs) as (_ & _ & _ & _ & _ & Ha & _). by split.
Qed.

Lemma section_kept_deinit s s' : sys_inv s → network_prov_mgr_deinit cf s = Some s' → section_kept (sy_mgr s) (sy_mgr s').
Proof.
  intros Hinv Hr. unfold network_prov_mgr_deinit in Hr. destruct (negb _); [by simplify_eq|]. cbv zeta in Hr.
  destruct (if mg_started _ then _ else _) as [s2|] eqn:Hd; cbn [mbind option_bind] in Hr; [|done].
  assert (Hk : section_kept (sy_mgr (cancel_teardown s)) (sy_mgr s2)).
  { destruct (mg_started _); [|by simplify_eq]. by apply section_kept_teardown; [apply cancel_teardown_inv|]. }
  injection Hr as <-. destruct Hk as [Ha _].
  match goal with |- context [sys_emit _ _ ?s3] => destruct (emit_own cf NETWORK_PROV_DEINIT s3 eq_refl) as (-> & _) end.
  split; [exact Ha|]. intros Hf. discriminate Hf.
Qed.

Lemma step_keeps_section s s' : sys_step s s' → sys_inv s → app_call s s' ∨ section_kept (sy_mgr s) (sy_mgr s').
Proof.
  intros Hstep Hinv. pose proof (cancel_teardown_inv s Hinv) as Hcinv.
  destruct Hstep as [c s rc s' _ Hr|sec pop nm key s rc s' Hr|s s' Hr|s s' Hr|d s rc s' Hr|s rc s' Hr
    |lb ve caps k s rc s' Hr|nm s rc s' Hr|nm h c s rc s' Hr|nm s rc s' Hr|s rc s' Hr|ssid psk s rc s' Hr
    |s s' Hr|s s' _ Hr|l nm b s rc out s' Hr|l s s' Hr|l s s' Hr|tr s Hh|ev s _|e s He];
    try (right; apply section_kept_net; first [by apply (reset_prov_frame _ _ _ Hr)|by apply (reset_sm_frame _ _ _ Hr)|
      by apply (configure_frame _ _ _ _ _ Hr)|by apply (transport_request_frame _ _ _ _ _ _ _ Hr)|
      apply moved_keeps; by apply (transport_open_frame _ _ _ Hr)|apply moved_keeps; by apply (transport_close_frame _ _ _ Hr)|
      apply deliver_keeps]).
  - left; left. eauto.
  - right. by eapply section_kept_start.
  - right. by eapply section_kept_deinit.
  - right. unfold network_prov_mgr_stop_provisioning in Hr. destruct (negb _); [by simplify_eq|]. cbv zeta in Hr.
    destruct (0 <? _); [by simplify_eq|]. by apply (section_kept_teardown (cancel_teardown s)).
  - right. unfold network_prov_mgr_disable_auto_stop in Hr. by destruct (negb _); simplify_eq.
  - left; right. eauto 8.
  - right. unfold network_prov_mgr_endpoint_create in Hr. by repeat case_match; simplify_eq.
  - right. unfold network_prov_mgr_endpoint_register in Hr. by repeat case_match; simplify_eq.
  - right. unfold network_prov_mgr_endpoint_unregister in Hr. by repeat case_match; simplify_eq.
  - right. unfold network_prov_mgr_wait in Hr. by destruct (k_sem_try_take _); cbn in Hr; simplify_eq.
  - right. destruct (teardown_work_fn cf s) as [s1|] eqn:Hw; simplify_eq. unfold teardown_work_fn in Hw.
    apply section_kept_teardown in Hw; [exact Hw|]. apply inv_mgr_simple; [done|done|]. intros _. apply k_work_pending_fire.
  - by right.
  - by right.
Qed.

Lemma set_app_info_renders label version caps k s rc s' app :
  network_prov_mgr_set_app_info label version caps k s = (rc, s') → (mg_inited (sy_mgr s) = true → renders (sy_mgr s) app) →
  mg_inited (sy_mgr s') = true → renders (sy_mgr s') (set_section rc label version caps k app).
Proof.
  intros Hr Hs Hi. unfold network_prov_mgr_set_app_info in Hr.
  destruct label as [lb|]; [|simplify_eq; by apply Hs]. destruct version as [ve|]; [|simplify_eq; by apply Hs].
  destruct (String.eqb _ _); [simplify_eq; by apply Hs|]. destruct (_ && _); [simplify_eq; by apply Hs|].
  destruct (negb (mg_inited _)); [simplify_eq; by apply Hs|]. destruct (mg_started _); [simplify_eq; by apply Hs|].
  destruct (negb (json_token_ok lb) || _) eqn:Htok; [simplify_eq; by apply Hs|]. cbv zeta in Hr.
  destruct (forallb _ _) eqn:Hcaps; cbn [negb] in Hr; [|simplify_eq; by apply Hs]. breflect.
  destruct (render_app_info _ _ _) as [j|] eqn:Hj; simplify_eq; [|done].
  split; [done|]. split; [done|]. split; [|exact Hj]. by apply omap_somes.
Qed.

Lemma init_renders c s rc s' app :
  network_prov_mgr_init cf c s = (rc, s') → (mg_inited (sy_mgr s) = true → renders (sy_mgr s) app) →
  mg_inited (sy_mgr s') = true → renders (sy_mgr s') (if rc =? 0 then None else app).
Proof.
  intros Hr Hs Hi. unfold network_prov_mgr_init in Hr.
  destruct (mg_inited (sy_mgr s)) eqn:Hi0; [simplify_eq; by apply Hs|].
  assert (Hsame : ∀ x, s' = x → mg_inited (sy_mgr x) = mg_inited (sy_mgr s) → renders (sy_mgr s') (if rc =? 0 then None else app)).
  { intros x -> Hx. congruence. }
  destruct (mc_scheme c) as [sch|]; [|simplify_eq; by eapply Hsame].
  destruct (negb _); [simplify_eq; by eapply Hsame|]. cbv zeta in Hr.
  destruct (cf_settings cf); [|by simplify_eq].
  destruct (settings_subsys_init _) as [ret e1]. destruct (negb (ret =? 0)); simplify_eq; [by eapply Hsame|done].
Qed.

Lemma app_said_renders s0 s app : boot s0 → app_said s0 s app →
  rtc sys_step s0 s ∧ (mg_inited (sy_mgr s) = true → renders (sy_mgr s) app).
Proof.
  intros Hb. induction 1 as [|c s rc s' app Hc _ [Hr IH] Hrun|label version caps k s rc s' app _ [Hr IH] Hrun
    |s s' app _ [Hr IH] Hstep Hn].
  - split; [done|]. intros _. apply (bt_app_info cf _ Hb).
  - split; [eapply rtc_r; [done|by eapply st_init]|]. by eapply init_renders.
  - split; [eapply rtc_r; [done|by eapply st_set_app_info]|]. by eapply set_app_info_renders.
  - split; [by eapply rtc_r|]. destruct (step_keeps_section _ _ Hstep (reachable_inv _ _ Hb Hr)) as [?|[Ha Hi]]; [done|].
    intros Hi'. specialize (IH (Hi Hi')). unfold renders in *. by rewrite Ha.
Qed.

(** C11: The proto-ver answer. After any successful start, in any history, a version
    request over the transport is answered - memory permitting - with the complete text
    of a JSON document and nothing else. The document is the application's section
    followed by the library's. The application's is, under the label, the version and the
    capabilities of the last [set_app_info] accepted since the manager was initialised;
    there is none when there was no such call, or the last one overflowed its buffer. The
    library's has version "v1.1", the number of the security scheme, the capabilities of
    the network type, and "no_pop" exactly under scheme 1 without a proof of possession.
    No session is needed, the request bytes are ignored, nothing is ever truncated, and
    the text parses back to the document. *)
Theorem version_request_answer sec pop name key s0 s s' app :
  boot s0 → app_said s0 s app → network_prov_mgr_start_provisioning cf sec pop name key s = Some (0, s') →
  ∃ l, mg_pc (sy_mgr s') = Some l ∧
    let doc := version_doc cf app sec pop in
    (∀ fuel, (json_size doc ≤ fuel)%nat → parse fuel (print doc) = Some (doc, EmptyString)) ∧
    ∀ b, ∃ rc out s2, transport_request cf l (Some EP_VERSION_NAME) b s' = Some (rc, out, s2) ∧
      (rc = 0 ∧ ob_data out = str_bytes (print doc) ∨ rc = - ENOMEM ∧ out = no_buf).
Proof.
  intros Hb Hsaid Hrun. destruct (app_said_renders _ _ _ Hb Hsaid) as [Hr Hren].
  pose proof (reachable_inv _ _ Hb Hr) as Hinv.
  destruct (start_outcome _ _ _ _ _ _ _ Hinv Hrun) as [(Hrc & _)|(Hi & Hs & [(Hrc & _)|(_ & l & s1 & Hs' & Hpcs & Hst & Hatt)])];
    [by destruct (mg_inited _)|done|].
  destruct (start_ok_fields sec pop s l s1 s' Hs' Hinv Hs Hst Hpcs)
    as (F1 & _ & F3 & _ & _ & _ & _ & _ & _ & F10 & _).
  destruct (version_json_doc cf (mg_app_info_json (sy_mgr s)) app sec pop) as (Hprint & Hok & Hlen); [exact (Hren Hi)|].
  set (j := mg_app_info_json (sy_mgr s)) in *.
  exists l. split; [done|]. cbv zeta. split.
  - intros fuel Hf. rewrite <- (append_nil_r (print _)). by apply parse_print.
  - intros b. unfold transport_request. rewrite F10, lookup_singleton_eq. cbn [mbind option_bind].
    unfold protocomm_req_handle. change (find_ep _ EP_VERSION_NAME) with (Some (mk_ep EP_VERSION_NAME EP_VERSION
      (@None prov_handler) (@None nat))). cbn [ep_ty]. unfold handle_version.
    change (pc_version _) with (Some (strncpy (Z.to_nat (version_max - 1)) (version_json cf j sec pop))).
    rewrite version_fits, Hprint by done. cbn [mbind option_bind].
    destruct (k_malloc _ (sy_net s')) as [[out|] n1]; cbn [mbind option_bind]; do 3 eexists; (split; [reflexivity|]); auto.
Qed.

(** The manager after a success event. *)
Lemma emit_success_mgr (x : prov_env) :
  (network_prov_emit cf NETWORK_PROV_CRED_SUCCESS x).1 =
    (x.1) <| mg_done := k_sem_give (mg_done x.1) |>
          <| mg_teardown_work := if mg_started x.1 && mg_auto_stop x.1
               then k_work_schedule (cf_autostop_ms cf) (mg_teardown_work x.1) else mg_teardown_work x.1 |>.
Proof. destruct x as [[? st ? ? ? ? ? ? ? au] e]. by destruct st, au. Qed.

Lemma wifi_success_event c s :
  WifiConfig.wc_inflight_ssid (n_wc (sy_net s)) ≠ [] →
  sy_mgr (s <| sy_net := deliver cf (ev_wifi_result 0 c) (sy_net s) |>) =
    (network_prov_emit cf NETWORK_PROV_CRED_SUCCESS (n_env (sy_net s))).1.
Proof.
  intros Hne. unfold sy_mgr, n_mgr, deliver, WifiConfig.on_connect_result.
  destruct (blen (WifiConfig.wc_inflight_ssid _) =? 0) eqn:Hz; breflect; [by apply blen_0 in Hz|]. done.
Qed.

(** C19: Auto-stop. A successful connection result for the attempt in flight wakes
    the waiter and, unless the application opted out, queues the teardown for the
    grace period; when that expires the service is gone - END reported, no object
    alive, the manager still initialised and ready to start again. With auto-stop
    disabled nothing is queued and the service stays up. *)
Theorem auto_stop_ends_service c s0 s :
  boot s0 → rtc sys_step s0 s → mg_started (sy_mgr s) = true →
  WifiConfig.wc_inflight_ssid (n_wc (sy_net s)) ≠ [] →
  k_work_pending (mg_teardown_work (sy_mgr s)) = None →
  let s1 := s <| sy_net := deliver cf (ev_wifi_result 0 c) (sy_net s) |> in
  mg_started (sy_mgr s1) = true ∧ mg_done (sy_mgr s1) = k_sem_give (mg_done (sy_mgr s)) ∧
  if mg_auto_stop (sy_mgr s)
  then k_work_pending (mg_teardown_work (sy_mgr s1)) = Some (cf_autostop_ms cf) ∧
       ∃ s2, teardown_work_fn cf s1 = Some s2 ∧ sy_pcs s2 = ∅ ∧ mg_started (sy_mgr s2) = false ∧
         mg_inited (sy_mgr s2) = true ∧ k_work_pending (mg_teardown_work (sy_mgr s2)) = None ∧
         phases (net_log (n_plat (sy_net s2))) = Some ph_ready
  else k_work_pending (mg_teardown_work (sy_mgr s1)) = None.
Proof.
  intros Hb Hr Hs Hne Hw s1.
  assert (Hinv1 : sys_inv s1).
  { apply inv_keeps_net; [by eapply reachable_inv|apply deliver_keeps]. }
  pose proof (wifi_success_event c s Hne) as Hm. fold s1 in Hm. rewrite emit_success_mgr in Hm.
  change (n_env (sy_net s)).1 with (sy_mgr s) in Hm. set (m := sy_mgr s) in *.
  assert (B : ∀ (m0 : mgr_t) d w, let m1 := m0 <| mg_done := d |> <| mg_teardown_work := w |> in
    mg_started m1 = mg_started m0 ∧ mg_done m1 = d ∧ mg_teardown_work m1 = w ∧ mg_inited m1 = mg_inited m0) by done.
  destruct (B m (k_sem_give (mg_done m)) (if mg_started m && mg_auto_stop m
    then k_work_schedule (cf_autostop_ms cf) (mg_teardown_work m) else mg_teardown_work m)) as (B1 & B2 & B3 & B4).
  rewrite <- Hm in *. rewrite B1, B2, B3, Hs. split; [done|]. split; [done|]. cbn [andb].
  destruct (mg_auto_stop m); [|done]. split; [by rewrite k_work_pending_schedule, Hw|].
  destruct (teardown_work_inv s1 Hinv1) as (s2 & H2 & Hinv2 & S2 & I2). exists s2. split; [done|].
  destruct (iv_stopped _ Hinv2 S2) as (_ & Hp2 & Hw2). split; [done|]. split; [done|].
  assert (Hi : mg_inited (sy_mgr s2) = true).
  { rewrite I2. apply (iv_started _ Hinv1). by rewrite B1, Hs. }
  split; [done|]. split; [done|]. pose proof (iv_phase _ Hinv2) as Hph. unfold phase_of in Hph. by rewrite S2, Hi in Hph.
Qed.

(** When the transport fails to start, the protocomm object it was just given is
    deleted without the transport being told ([stop] is not called on the error
    path): a transport that kept the pointer follows a dangling one with the next
    request or connection it serves. *)
Theorem failed_transport_start_dangles sec pop name key s0 s rc s' l :
  boot s0 → rtc sys_step s0 s → network_prov_mgr_start_provisioning cf sec pop name key s = Some (rc, s') →
  mg_inited (sy_mgr s) = true → mg_started (sy_mgr s) = false → rc ≠ 0 →
  sy_pcs s' !! l = None ∧ (∀ ep b, transport_request cf l ep b s' = None) ∧
  transport_open cf l s' = None ∧ transport_close cf l s' = None.
Proof.
  intros Hb Hr Hrun Hi Hs Hrc. pose proof (reachable_inv _ _ Hb Hr) as Hinv.
  destruct (start_outcome _ _ _ _ _ _ _ Hinv Hrun) as [(_ & _ & [?|?])|(_ & _ & [(_ & _ & _ & _ & _ & Hpcs & _)|(? & _)])];
    try congruence.
  unfold transport_request, transport_open, transport_close. by rewrite Hpcs, lookup_empty.
Qed.

(** A deferred stop can be lost. With a cleanup delay configured,
    [stop_provisioning] leaves the service running and queues the teardown; a later
    [disable_auto_stop] takes it off the queue again, and the service stays up. *)
Theorem deferred_stop_lost d s0 s :
  boot s0 → rtc sys_step s0 s → mg_started (sy_mgr s) = true → 0 < mg_cleanup_delay_ms (sy_mgr s) →
  ∃ s1, network_prov_mgr_stop_provisioning cf s = Some s1 ∧ mg_started (sy_mgr s1) = true ∧
    k_work_pending (mg_teardown_work (sy_mgr s1)) = Some (mg_cleanup_delay_ms (sy_mgr s)) ∧
    ∃ s2, network_prov_mgr_disable_auto_stop d s1 = (0, s2) ∧ mg_started (sy_mgr s2) = true ∧
      k_work_pending (mg_teardown_work (sy_mgr s2)) = None ∧ sy_pcs s2 = sy_pcs s.
Proof.
  intros Hb Hr Hs Hd. pose proof (reachable_inv _ _ Hb Hr) as Hinv.
  destruct (iv_started _ Hinv Hs) as (Hi & _). unfold network_prov_mgr_stop_provisioning. rewrite Hs. cbn [negb].
  set (w := k_work_cancel (mg_teardown_work (sy_mgr s))).
  assert (Hc : sy_mgr (cancel_teardown s) = (sy_mgr s) <| mg_teardown_work := w |>) by done.
  assert (Hdelay : mg_cleanup_delay_ms (sy_mgr (cancel_teardown s)) = mg_cleanup_delay_ms (sy_mgr s)) by done.
  cbv zeta. rewrite Hdelay. apply Z.ltb_lt in Hd as ->. eexists. split; [reflexivity|].
  set (s1 := sys_mgr _ _).
  assert (B : ∀ m0 : mgr_t, let m1 := m0 <| mg_teardown_work := w |> in
    let m2 := m1 <| mg_teardown_work := k_work_schedule (mg_cleanup_delay_ms m1) (mg_teardown_work m1) |> in
    mg_started m2 = mg_started m0 ∧ mg_inited m2 = mg_inited m0 ∧
    mg_teardown_work m2 = k_work_schedule (mg_cleanup_delay_ms m0) w) by done.
  destruct (B (sy_mgr s)) as (B1 & B2 & B3). rewrite <- Hc in *.
  change (_ <| mg_teardown_work := k_work_schedule _ _ |>) with (sy_mgr s1) in B1, B2, B3.
  split; [congruence|]. split; [by unfold w in B3; rewrite B3, k_work_pending_schedule, k_work_pending_cancel|].
  unfold network_prov_mgr_disable_auto_stop. rewrite B2, Hi. cbn [negb]. eexists. split; [reflexivity|].
  split; [|split; [apply k_work_pending_cancel|done]]. transitivity (mg_started (sy_mgr s1)); [done|congruence].
Qed.

(** A success is not forgotten between sessions: a start does not reset the
    completion semaphore, so that once a success has been signalled and not waited
    for, [network_prov_mgr_wait] in the next session returns at once, before any
    credentials were received. *)
Theorem stale_success_ends_wait sec pop name key s0 s s' :
  boot s0 → rtc sys_step s0 s → 0 < k_sem_count (mg_done (sy_mgr s)) →
  network_prov_mgr_start_provisioning cf sec pop name key s = Some (0, s') →
  is_Some (network_prov_mgr_wait s').
Proof.
  intros Hb Hr Hc Hrun. pose proof (reachable_inv _ _ Hb Hr) as Hinv.
  destruct (start_outcome _ _ _ _ _ _ _ Hinv Hrun) as [(Hrc & _)|(Hi & Hs & [(Hrc & _)|(_ & l & s1 & Hs' & Hpcs & Hst & Hatt)])];
    [by destruct (mg_inited _)|done|].
  destruct (start_ok_fields sec pop s l s1 s' Hs' Hinv Hs Hst Hpcs) as (_ & _ & _ & _ & _ & _ & F7 & _).
  unfold network_prov_mgr_wait. rewrite F7. destruct (k_sem_try_take _) eqn:Ht; [by eauto|].
  apply k_sem_take_none in Ht. lia.
Qed.
End lifecycle.
