(* ===== verification/InFlight.v ===== *)
(** * InFlight: a request interrupted by the rest of the program

    [protocomm_req_handle] runs in the transport's thread: the HTTP server's, the
    shell's, the Bluetooth host's. Nothing keeps the other threads - the application, the
    system work queue, the network management thread - from running in the middle of
    it, and a handler may block there (a blocking scan). The request is cut into the
    parts between which it holds pointers into the protocomm object: the look-up and
    decryption, the handler, the encryption of the response. *)
From S2P Require Import Prelude Platform PbUtil Messages Protocomm Security0 Psa Security1 NetEnv.
From S2P Require Import Frame Manager ManagerFrame ManagerInv ManagerFacts.

(** Where the request is. [ep], a pointer into the object's table, is an index. *)
Inductive rq_pc :=
| RQ_enter
| RQ_call (i : nat) (plain : obuf)
| RQ_respond (raw : obuf)
| RQ_done (rc : Z) (out : obuf).

(** The state a part of a request ended in. *)
Ltac rq_result H := apply (inj Some) in H; apply (f_equal snd) in H; cbn [snd] in H; rewrite <- H.

Section in_flight.
Context {E : Type} `{HH : KHeap E} `{NL : NetLog E} `{!NetHeapLaws E}.
Context `{WN : WifiNet E} `{!WifiNetLaws E} `{OT : OpenThread E} `{!OpenThreadLaws E}.
Context `{PS : PSA E} `{K : Kernel} {KL : KernelLaws} `{SC : Schemes} `{AP : Application E} `{ST : Settings E}.
Context `{!ManagerEnvLaws E}.
Context `{P1 : PbMsg SessionData} `{P2 : PbMsg NetworkConfigPayload} `{P3 : PbMsg NetworkScanPayload}.
Context `{P4 : PbMsg NetworkCtrlPayload} `{UV : UnionViews}.
Context {SO : SchemeOps sys} {AC : AppConfigs} {SL : SchemeLaws} (cf : build_config).
Context (l : loc) (name : string) (b : bytes).

Local Abbreviation op_t := (@psa_cipher_operation_t netst net_psa).
Local Abbreviation pcomm := (protocomm prov_handler nat network_prov_security (scheme_ctx op_t)).

(** The object after one part of the request. *)
Definition put_object (p : pcomm) (n : netst) (s : sys) : sys :=
  s <| sy_net := n |> <| sy_pcs := <[l := p]> (sy_pcs s) |>.

Definition ep_index (p : pcomm) : option nat :=
  fst <$> list_find (fun ep => ep_name ep = name) (endpoints p).

(** All of it at once: what is not a data request in a session is not cut. *)
Definition rq_whole (s : sys) : option (rq_pc * sys) :=
  '(rc, out, s1) ← transport_request cf l (Some name) b s;
  Some (RQ_done rc out, s1).

(** One part of the request; [None] is a fault: the object is not there any more. *)
Definition rq_step (pc : rq_pc) (s : sys) : option (rq_pc * sys) :=
  match pc with
  | RQ_enter =>
      p ← sy_pcs s !! l;
      match ep_index p, pc_sec p, pc_sec_ctx p with
      | Some i, Some sec, Some ctx =>
          ep ← endpoints p !! i;
          match ep_ty ep with
          | EP_DATA =>
              let '(ret, plain, ctx1, n1) :=
                decrypt_request (security_of (Callbacks := prov_callbacks cf) sec) (Some ctx) b (sy_net s) in
              let s1 := put_object (p <| pc_sec_ctx := ctx1 |>) n1 s in
              Some (if negb (ret =? 0) then RQ_done ret no_buf else RQ_call i plain, s1)
          | _ => rq_whole s
          end
      | _, _, _ => rq_whole s
      end
  | RQ_call i plain =>
      p ← sy_pcs s !! l;
      ep ← endpoints p !! i;
      '(ret, raw, n1) ← run_endpoint (CB := prov_callbacks cf) ep plain (sy_net s);
      Some (if negb (ret =? 0) then RQ_done ret no_buf else RQ_respond raw, s <| sy_net := n1 |>)
  | RQ_respond raw =>
      if blen (ob_data raw) =? 0 then Some (RQ_done 0 no_buf, s)
      else
        match k_malloc (blen (ob_data raw)) (sy_net s) with
        | (None, n1) => Some (RQ_done (- ENOMEM) no_buf, s <| sy_net := k_free (ob_ptr raw) n1 |>)
        | (Some enc, n1) =>
            p ← sy_pcs s !! l;
            sec ← pc_sec p;
            let '(ret, out, ctx1, n2) :=
              encrypt_into (security_of (Callbacks := prov_callbacks cf) sec) (pc_sec_ctx p) raw enc n1 in
            Some (RQ_done ret out, put_object (p <| pc_sec_ctx := ctx1 |>) n2 s)
        end
  | RQ_done _ _ => Some (pc, s)
  end.

(** The request on its own: at most three parts. *)
Definition rq_alone (s : sys) : option (rq_pc * sys) :=
  '(pc1, s1) ← rq_step RQ_enter s;
  '(pc2, s2) ← rq_step pc1 s1;
  rq_step pc2 s2.

Lemma ep_index_find (p : pcomm) :
  match ep_index p with
  | Some i => ∃ ep, endpoints p !! i = Some ep ∧ find_ep p name = Some ep
  | None => find_ep p name = None
  end.
Proof.
  unfold ep_index, find_ep. destruct (list_find _ _) as [[i ep]|] eqn:Hf; cbn; [|done].
  apply list_find_Some in Hf as (Hl & _). eauto.
Qed.

(** Reading back the object a part stored. *)
Lemma put_lookup (p : pcomm) n s : sy_pcs (put_object p n s) !! l = Some p.
Proof. apply lookup_insert_eq. Qed.
Lemma put_net (p : pcomm) n s : sy_net (put_object p n s) = n.
Proof. done. Qed.
Lemma put_then_net (p : pcomm) n n' s : (put_object p n s) <| sy_net := n' |> = put_object p n' s.
Proof. done. Qed.
Lemma put_put (p p' : pcomm) n n' s : put_object p' n' (put_object p n s) = put_object p' n' s.
Proof.
  unfold put_object. change (sy_pcs (_ <| sy_pcs := ?m |>)) with m. by rewrite insert_insert_eq.
Qed.

(** The parts are those of [protocomm_req_handle], put back together: run without
    interruption they are the whole request, with the same result, program and faults. *)
Lemma staged_request_atomic s :
  rq_alone s = rq_whole s.
Proof.
  unfold rq_alone. cbn [rq_step].
  assert (Hwhole : ('(pc1, s1) ← rq_whole s; '(pc2, s2) ← rq_step pc1 s1; rq_step pc2 s2) = rq_whole s).
  { unfold rq_whole. by destruct (transport_request _ _ _ _ s) as [[[rc out] s2]|]. }
  destruct (sy_pcs s !! l) as [p|] eqn:Hp; cbn [mbind option_bind].
  2:{ unfold rq_whole, transport_request. by rewrite Hp. }
  pose proof (ep_index_find p) as Hi. destruct (ep_index p) as [i|]; [|apply Hwhole].
  destruct Hi as (ep & Hl & Hf). destruct (pc_sec p) as [sec|] eqn:Hs; [|apply Hwhole].
  destruct (pc_sec_ctx p) as [ctx|] eqn:Hc; [|apply Hwhole].
  rewrite Hl. cbn [mbind option_bind]. destruct (ep_ty ep) eqn:Ht; [|apply Hwhole..]. clear Hwhole.
  unfold rq_whole, transport_request. rewrite Hp. cbn [mbind option_bind].
  unfold protocomm_req_handle. rewrite Hf, Ht, Hs, Hc. unfold handle_data. rewrite Hs, Hc. cbn [mbind option_bind].
  destruct (decrypt_request _ _ _ _) as [[[ret plain] ctx1] n1].
  destruct (negb (ret =? 0)); [done|]. cbn [rq_step mbind option_bind]. rewrite put_lookup. cbn [mbind option_bind].
  change (endpoints (p <| pc_sec_ctx := ctx1 |>)) with (endpoints p). rewrite Hl. cbn [mbind option_bind].
  rewrite put_net. destruct (run_endpoint _ _ _) as [[[ret2 raw] n2]|]; [|done]. cbn [mbind option_bind].
  destruct (negb (ret2 =? 0)); [done|]. cbn [rq_step mbind option_bind].
  unfold encrypt_response. rewrite put_then_net, put_net. destruct (blen (ob_data raw) =? 0); [done|].
  destruct (k_malloc _ _) as [[enc|] n3]; [|done]. rewrite put_lookup. cbn [mbind option_bind].
  change (pc_sec (p <| pc_sec_ctx := ctx1 |>)) with (pc_sec p). rewrite Hs. cbn [mbind option_bind].
  change (pc_sec_ctx (p <| pc_sec_ctx := ctx1 |>)) with ctx1.
  destruct (encrypt_into _ _ _ _ _) as [[[ret3 out] ctx2] n4]. by rewrite put_put.
Qed.

(** ** Interleaved with the rest of the program *)
Inductive il_step : rq_pc * sys → rq_pc * sys → Prop :=
| il_request pc s pc' s' : rq_step pc s = Some (pc', s') → il_step (pc, s) (pc', s')
| il_other pc s s' : sys_step cf s s' → il_step (pc, s) (pc, s').

(** A step that does not tear the service of [l] down. *)
Definition il_kept (x y : rq_pc * sys) : Prop := il_step x y ∧ is_Some (sy_pcs y.2 !! l).

(** The parts left. *)
Definition rq_rank (pc : rq_pc) : nat :=
  match pc with RQ_enter => 3 | RQ_call _ _ => 2 | RQ_respond _ => 1 | RQ_done _ _ => 0 end.

Lemma put_follow (p : pcomm) ctx n s :
  sy_pcs s !! l = Some p → pcs_follow (sy_pcs s) (sy_pcs (put_object (p <| pc_sec_ctx := ctx |>) n s)).
Proof. intros Hp. right. by exists l, p, ctx. Qed.

(** A part of the request changes what a request may change. *)
Lemma rq_step_frame pc s pc' s' : rq_step pc s = Some (pc', s') →
  nkeeps (sy_net s) (sy_net s') ∧ pcs_follow (sy_pcs s) (sy_pcs s') ∧ sy_tr s' = sy_tr s.
Proof.
  intros Hrun. assert (Hwhole : rq_whole s = Some (pc', s') →
    nkeeps (sy_net s) (sy_net s') ∧ pcs_follow (sy_pcs s) (sy_pcs s') ∧ sy_tr s' = sy_tr s).
  { unfold rq_whole. destruct (transport_request _ _ _ _ s) as [[[rc out] s1]|] eqn:Ht; [|done]. cbn [mbind option_bind].
    intros ?; simplify_eq. by eapply transport_request_frame. }
  destruct pc as [|i plain|raw|rc out]; cbn [rq_step] in Hrun.
  - destruct (sy_pcs s !! l) as [p|] eqn:Hp; cbn [mbind option_bind] in Hrun; [|done].
    destruct (ep_index p) as [i|]; [|by apply Hwhole]. destruct (pc_sec p) as [sec|]; [|by apply Hwhole].
    destruct (pc_sec_ctx p) as [ctx|]; [|by apply Hwhole].
    destruct (endpoints p !! i) as [ep|]; cbn [mbind option_bind] in Hrun; [|done].
    destruct (ep_ty ep); [|by apply Hwhole..].
    pose proof (frame_decrypt (CB := prov_callbacks cf) nkeeps sec (Some ctx) b (sy_net s) (sy_net s) (reflexivity _)) as Hk.
    destruct (decrypt_request _ _ _ _) as [[[ret plain] ctx1] n1]. cbn [snd] in Hk.
    rq_result Hrun. split; [exact Hk|]. split; [by apply put_follow|done].
  - destruct (sy_pcs s !! l) as [p|]; cbn [mbind option_bind] in Hrun; [|done].
    destruct (endpoints p !! i) as [ep|]; cbn [mbind option_bind] in Hrun; [|done].
    destruct (run_endpoint _ _ _) as [[[ret raw] n1]|] eqn:Hh; cbn [mbind option_bind] in Hrun; [|done].
    assert (Hep : ep_frame (CB := prov_callbacks cf) nkeeps ep) by (intros h b' x0 x _; apply nkeeps_handler).
    pose proof (frame_run_endpoint (CB := prov_callbacks cf) nkeeps ep plain _ _ _ _ _ Hep Hh (reflexivity _)) as Hk.
    rq_result Hrun. split; [exact Hk|]. split; [by left|done].
  - destruct (blen _ =? 0).
    { rq_result Hrun. split; [reflexivity|]. split; [by left|done]. }
    pose proof (fr_malloc (R := nkeeps) (blen (ob_data raw)) (sy_net s) (sy_net s) (reflexivity _)) as Hk.
    destruct (k_malloc _ (sy_net s)) as [[enc|] n1]; cbn [snd] in Hk.
    2:{ rq_result Hrun. split; [exact (fr_free (R := nkeeps) (ob_ptr raw) _ _ Hk)|]. split; [by left|done]. }
    destruct (sy_pcs s !! l) as [p|] eqn:Hp; cbn [mbind option_bind] in Hrun; [|done].
    destruct (pc_sec p) as [sec|]; cbn [mbind option_bind] in Hrun; [|done].
    pose proof (frame_encrypt_into (CB := prov_callbacks cf) nkeeps sec (pc_sec_ctx p) raw enc _ _ Hk) as Hk2.
    destruct (encrypt_into _ _ _ _ _) as [[[ret out] ctx1] n2]. cbn [snd] in Hk2.
    rq_result Hrun. split; [exact Hk2|]. split; [by apply put_follow|done].
  - simplify_eq. split; [reflexivity|]. split; [by left|done].
Qed.

Lemma rq_step_inv pc s pc' s' : rq_step pc s = Some (pc', s') → sys_inv cf s → sys_inv cf s'.
Proof.
  intros Hrun. apply rq_step_frame in Hrun as (Hk & Hp & Ht). apply inv_follow; [done|done|]. intros sch. by rewrite Ht.
Qed.

Lemma follow_object pcs pcs' (p : pcomm) : pcs_follow pcs pcs' → pcs !! l = Some p →
  ∃ p', pcs' !! l = Some p' ∧ endpoints p' = endpoints p.
Proof.
  intros [->|(l' & q & ctx & Hq & ->)] Hp; [eauto|].
  destruct (decide (l' = l)) as [->|Hne]; [|exists p; by rewrite lookup_insert_ne].
  simplify_eq. eexists. by rewrite lookup_insert_eq.
Qed.

Lemma live_object s (p : pcomm) : sys_inv cf s → sy_pcs s !! l = Some p →
  mg_started (sy_mgr s) = true ∧ mg_pc (sy_mgr s) = Some l ∧ pc_wf p ∧ is_Some (pc_sec p).
Proof.
  intros Hinv Hp. destruct (mg_started (sy_mgr s)) eqn:Hs.
  - destruct (iv_started _ _ Hinv Hs) as (_ & l' & p' & Hl & Hpcs & Hw & Hsec & _).
    rewrite Hpcs in Hp. apply lookup_singleton_Some in Hp as [-> ->]. done.
  - destruct (iv_stopped _ _ Hinv Hs) as (_ & He & _). by rewrite He, lookup_empty in Hp.
Qed.

(** What the request holds on to: the object, and in it the endpoint. *)
Definition rq_holds (x : rq_pc * sys) : Prop :=
  sys_inv cf x.2 ∧ ∃ p, sy_pcs x.2 !! l = Some p ∧
    match x.1 with
    | RQ_call i _ => ∃ ep, endpoints p !! i = Some ep ∧ is_Some (ep_handler ep)
    | _ => True
    end.

Lemma rq_progress x : rq_holds x → ∃ pc' s', rq_step x.1 x.2 = Some (pc', s') ∧ rq_holds (pc', s') ∧
  (rq_rank pc' < rq_rank x.1 ∨ rq_rank x.1 = 0)%nat.
Proof.
  destruct x as [pc s]. cbn [fst snd]. intros (Hinv & p & Hp & Hat). cbn [fst snd] in *.
  destruct (live_object s p Hinv Hp) as (_ & Hl & Hw & Hsec).
  assert (Hgo : ∀ pc' s', rq_step pc s = Some (pc', s') → (rq_rank pc' < rq_rank pc ∨ rq_rank pc = 0)%nat →
    (∀ i plain, pc' = RQ_call i plain → ∃ ep, endpoints p !! i = Some ep ∧ is_Some (ep_handler ep)) →
    ∃ pc' s', rq_step pc s = Some (pc', s') ∧ rq_holds (pc', s') ∧ (rq_rank pc' < rq_rank pc ∨ rq_rank pc = 0)%nat).
  { intros pc' s' Hs Hr Hc. exists pc', s'. split; [done|]. split; [|done]. split; [by eapply rq_step_inv|].
    apply rq_step_frame in Hs as (_ & Hf & _). destruct (follow_object _ _ _ Hf Hp) as (p' & Hp' & He).
    exists p'. split; [done|]. cbn [fst]. rewrite He. destruct pc'; [done|by eapply Hc|done..]. }
  assert (Hall : rq_step pc s = rq_whole s → pc = RQ_enter →
    ∃ pc' s', rq_step pc s = Some (pc', s') ∧ rq_holds (pc', s') ∧ (rq_rank pc' < rq_rank pc ∨ rq_rank pc = 0)%nat).
  { intros Heq Hpc. destruct (live_no_fault cf s l (Some name) b Hinv Hl) as ([[[rc out] s1] Ht] & _).
    unfold rq_whole in Heq. rewrite Ht in Heq. apply (Hgo _ _ Heq); [left; subst pc; cbn; lia|done]. }
  destruct pc as [|i plain|raw|rc out].
  - cbn [rq_step] in *. rewrite Hp in *. cbn [mbind option_bind] in *. pose proof (ep_index_find p) as Hi.
    destruct (ep_index p) as [i|]; [|by apply Hall]. destruct Hi as (ep & Hi & Hf).
    destruct (pc_sec p) as [sec|]; [|by apply Hall]. destruct (pc_sec_ctx p) as [ctx|]; [|by apply Hall].
    rewrite Hi in *. cbn [mbind option_bind] in *. destruct (ep_ty ep) eqn:Hty; [|by apply Hall..]. clear Hall.
    pose proof (find_ep_handled _ _ _ (wf_handled _ Hw) Hf Hty) as Hh.
    destruct (decrypt_request _ _ _ _) as [[[ret plain] ctx1] n1].
    destruct (negb _); (eapply Hgo; [reflexivity|left; cbn; lia|]); [done|]. intros i' plain' [= <- _]. eauto.
  - clear Hall. destruct Hat as (ep & Hi & h & Hh). cbn [rq_step] in *. rewrite Hp in *. cbn [mbind option_bind] in *.
    rewrite Hi in *. cbn [mbind option_bind] in *. unfold run_endpoint in *. rewrite Hh in *. cbn [mbind option_bind] in *.
    destruct (call_handler _ _ _ _) as [[ret raw] n1].
    destruct (negb (ret =? 0)) eqn:Hret; cbn [mbind option_bind] in *; (eapply Hgo; [reflexivity| |]);
      rewrite ?Hret; first [done|left; cbn; lia].
  - clear Hall. destruct Hsec as [sec Hsec]. cbn [rq_step] in *.
    destruct (blen _ =? 0); [eapply Hgo; [reflexivity|left; cbn; lia|done]|].
    destruct (k_malloc _ (sy_net s)) as [[enc|] n1]; [|eapply Hgo; [reflexivity|left; cbn; lia|done]].
    rewrite Hp in *. cbn [mbind option_bind] in *. rewrite Hsec in *. cbn [mbind option_bind] in *.
    destruct (encrypt_into _ _ _ _ _) as [[[ret out] ctx1] n2]. eapply Hgo; [reflexivity|left; cbn; lia|done].
  - eapply Hgo; [reflexivity|by right|done].
Qed.

Section from_boot.
Context (custom_range : (cf_custom_max cf ≤ 3)%nat).

(** C9: A request is safe against everything but a teardown. Whatever other threads do
    between its parts - application calls, other requests, a client that disconnects and
    takes the session with it, network events, scans, retries - as long as the service
    it came in on is not torn down, the next part of the request finds its object, its
    endpoint and its handler: it never faults, keeps the object alive, and completes
    within three parts. *)
Theorem request_in_flight_safe s0 s x :
  boot cf s0 → rtc (sys_step cf) s0 s → mg_pc (sy_mgr s) = Some l → rtc il_kept (RQ_enter, s) x →
  mg_started (sy_mgr x.2) = true ∧ mg_pc (sy_mgr x.2) = Some l ∧
  ∃ pc' s', rq_step x.1 x.2 = Some (pc', s') ∧ il_kept x (pc', s') ∧
    (rq_rank pc' < rq_rank x.1 ∨ ∃ rc out, x.1 = RQ_done rc out)%nat.
Proof.
  intros Hb Hr Hl Hrun. pose proof (reachable_inv cf custom_range _ _ Hb Hr) as Hinv.
  assert (Hx : rq_holds (RQ_enter, s)).
  { split; [done|]. destruct (mg_started (sy_mgr s)) eqn:Hs.
    - destruct (iv_started _ _ Hinv Hs) as (_ & l' & p & Hl' & Hpcs & _). rewrite Hl in Hl'. injection Hl' as <-.
      exists p. cbn [snd]. by rewrite Hpcs, lookup_singleton_eq.
    - destruct (iv_stopped _ _ Hinv Hs) as (Hn & _). congruence. }
  clear Hinv Hl Hb Hr. assert (Hh : rq_holds x).
  { induction Hrun as [|x1 x2 x3 [Hs Halive] _ IH]; [done|]. apply IH. clear IH.
    destruct Hs as [pc s1 pc' s2 Hs|pc s1 s2 Hs].
    - destruct (rq_progress _ Hx) as (pc2 & s3 & Hs' & Hh & _). cbn [fst snd] in Hs'. rewrite Hs in Hs'.
      apply (inj Some) in Hs'. by rewrite Hs'.
    - destruct Hx as (Hinv & p & Hp & Hat). cbn [fst snd] in *. destruct (live_object _ _ Hinv Hp) as (Hst & _).
      split; [by eapply sys_step_inv|]. cbn [fst snd].
      destruct (object_follows cf custom_range _ _ Hs Hinv Hst) as [Hf|He]; [|by destruct Halive as [? Ha]; rewrite He, lookup_empty in Ha].
      destruct (follow_object _ _ _ Hf Hp) as (p' & Hp' & Hep). exists p'. split; [done|]. by rewrite Hep. }
  destruct (rq_progress _ Hh) as (pc' & s' & Hs & (_ & q & Hq & _) & Hrank). destruct Hh as (Hinv & p & Hp & _).
  destruct (live_object _ _ Hinv Hp) as (? & ? & _). split; [done|]. split; [done|]. exists pc', s'. split; [done|]. split.
  - destruct x. split; [by apply il_request|by eexists].
  - destruct Hrank as [?|Hz]; [by left|right]. destruct x as [[] ?]; cbn in Hz; try done. eauto.
Qed.

Lemma il_run_inv x y : rtc il_step x y → sys_inv cf x.2 → sys_inv cf y.2.
Proof.
  induction 1 as [|x1 x2 x3 Hs _ IH]; [done|]. intros Hinv. apply IH.
  destruct Hs; cbn [snd] in *; [by eapply rq_step_inv|by eapply (sys_step_inv cf custom_range)].
Qed.

(** The three ways a service is torn down. *)
Definition torn_down (s s' : sys) : Prop :=
  mg_cleanup_delay_ms (sy_mgr s) <= 0 ∧ network_prov_mgr_stop_provisioning cf s = Some s' ∨
  k_work_pending (mg_teardown_work (sy_mgr s)) ≠ None ∧ teardown_work_fn cf s = Some s' ∨
  network_prov_mgr_deinit cf s = Some s'.

Lemma torn_down_empties s s' : sys_inv cf s → mg_started (sy_mgr s) = true → torn_down s s' →
  sys_step cf s s' ∧ sy_pcs s' = ∅.
Proof.
  intros Hinv Hs [[Hd Hr]|[[Hp Hr]|Hr]].
  - split; [by apply st_stop|]. unfold network_prov_mgr_stop_provisioning in Hr. rewrite Hs in Hr. cbn [negb] in Hr. cbv zeta in Hr.
    change (mg_cleanup_delay_ms (sy_mgr (cancel_teardown s))) with (mg_cleanup_delay_ms (sy_mgr s)) in Hr.
    rewrite (proj2 (Z.ltb_ge _ _) Hd) in Hr. eapply teardown_empties; [|exact Hr]. by apply cancel_teardown_inv.
  - split; [by apply st_teardown_work|]. destruct (teardown_work_inv cf s Hinv) as (s2 & Hr2 & Hi & Hst & _).
    rewrite Hr in Hr2. injection Hr2 as <-. destruct (iv_stopped _ _ Hi) as (_ & He & _); [done|exact He].
  - split; [by apply st_deinit|]. destruct (mgr_deinit_inv cf s Hinv) as (s2 & Hr2 & Hi & Hst & _).
    rewrite Hr in Hr2. injection Hr2 as <-. destruct (iv_stopped _ _ Hi) as (_ & He & _); [done|exact He].
Qed.

(** C13: ... and a teardown pulls the object from under it. Nothing in the program makes
    a teardown wait for a request: whenever one runs between two parts of a request - because the
    application stops or deinitialises the service, or the auto-stop expires, while a
    handler blocks or its thread is preempted - the next part follows the pointer to the
    deleted object. Only a request that has no response to encrypt gets away. *)
Theorem teardown_faults_request s0 s pc s1 s2 :
  boot cf s0 → rtc (sys_step cf) s0 s → rtc il_step (RQ_enter, s) (pc, s1) →
  mg_started (sy_mgr s1) = true → torn_down s1 s2 →
  il_step (pc, s1) (pc, s2) ∧
  match pc with
  | RQ_enter | RQ_call _ _ => rq_step pc s2 = None
  | RQ_respond raw =>
      ob_data raw ≠ [] → is_Some (k_malloc (blen (ob_data raw)) (sy_net s2)).1 → rq_step pc s2 = None
  | RQ_done _ _ => True
  end.
Proof.
  intros Hb Hr Hrun Hs Ht. pose proof (reachable_inv cf custom_range _ _ Hb Hr) as Hinv.
  apply il_run_inv in Hrun; [|done]. destruct (torn_down_empties _ _ Hrun Hs Ht) as [Hstep He].
  split; [by apply il_other|]. destruct pc as [|i plain|raw|rc out]; cbn [rq_step]; [by rewrite He, lookup_empty..| |done].
  intros Hne Hm. destruct (blen (ob_data raw) =? 0) eqn:Hz.
  - breflect. destruct Hne. apply length_zero_iff_nil. unfold blen in Hz. lia.
  - destruct (k_malloc _ (sy_net s2)) as [[enc|] n1]; [|by destruct Hm]. by rewrite He, lookup_empty.
Qed.
End from_boot.
End in_flight.
