(* ===== verification/Registration.v ===== *)
(** * Registration: a custom endpoint's handler changed while a request is served

    [network_prov_mgr_endpoint_register] and [_unregister] run in an application thread
    and store two pointers into the slot; [custom_trampoline] runs in the transport's
    thread and loads them: the handler for its test, then, in an order C leaves open, the
    handler again (unless the compiler kept the tested one) and the context. Each load
    and each store of an aligned pointer is one step; the stores are made in program
    order, as the barrier of [_register] asks. *)
From S2P Require Import Prelude Platform PbUtil Messages Protocomm Security0 Psa Security1 NetEnv Manager.

Section race.
Context {AH AC : Type}.
Local Abbreviation slot := (custom_ep AH AC).

(** ** The stores *)
Inductive store := ST_handler (h : option AH) | ST_ctx (c : option AC).

Definition do_store (e : slot) (w : store) : slot :=
  match w with
  | ST_handler h => mk_custom (ce_name e) h (ce_ctx e) (ce_created e)
  | ST_ctx c => mk_custom (ce_name e) (ce_handler e) c (ce_created e)
  end.

Definition register_stores (h : AH) (c : option AC) : list store := [ST_ctx c; ST_handler (Some h)].
Definition unregister_stores : list store := [ST_handler None; ST_ctx None].

(** ** The loads *)
(** What the trampoline does in the end: the call of [None] is a jump to NULL. *)
Inductive tramp_answer := TA_notsup | TA_call (h : option AH) (c : option AC).

(** Before the test; after it, with the handler it saw and what was loaded since; the end. *)
Inductive tramp_pc :=
| TR_test
| TR_loads (seen : AH) (h : option (option AH)) (c : option (option AC))
| TR_done (a : tramp_answer).

Inductive race_act := A_store | A_test | A_keep | A_handler | A_ctx | A_call.

Definition tramp_act (a : race_act) (e : slot) (t : tramp_pc) : option tramp_pc :=
  match a, t with
  | A_test, TR_test => Some (if ce_handler e is Some h then TR_loads h None None else TR_done TA_notsup)
  | A_keep, TR_loads seen None c => Some (TR_loads seen (Some (Some seen)) c)
  | A_handler, TR_loads seen None c => Some (TR_loads seen (Some (ce_handler e)) c)
  | A_ctx, TR_loads seen h None => Some (TR_loads seen h (Some (ce_ctx e)))
  | A_call, TR_loads _ (Some h) (Some c) => Some (TR_done (TA_call h c))
  | _, _ => None
  end.

(** The slot, the stores left, the trampoline. *)
Definition race_st : Type := slot * list store * tramp_pc.

Definition race_do (x : race_st) (a : race_act) : option race_st :=
  let '(e, ws, t) := x in
  match a, ws with
  | A_store, w :: ws' => Some (do_store e w, ws', t)
  | A_store, [] => None
  | _, _ => t' ← tramp_act a e t; Some (e, ws, t')
  end.

Definition race_step (x y : race_st) : Prop := ∃ a, race_do x a = Some y.

Fixpoint race_run (x : race_st) (acts : list race_act) : option race_st :=
  match acts with
  | [] => Some x
  | a :: acts' => y ← race_do x a; race_run y acts'
  end.

(** What a request that arrives before the stores [ws] may be answered. *)
Definition race_answers (e : slot) (ws : list store) (a : tramp_answer) : Prop :=
  ∃ e' ws', rtc race_step (e, ws, TR_test) (e', ws', TR_done a).

Lemma race_run_steps x acts y : race_run x acts = Some y → rtc race_step x y.
Proof.
  revert x. induction acts as [|a acts IH]; intros x; cbn [race_run]; [by intros [= ->]|].
  destruct (race_do x a) as [z|] eqn:Hd; [|done]. intros Hr. eapply rtc_l; [by exists a|by apply IH].
Qed.

Lemma answers_by e ws acts e' ws' a : race_run (e, ws, TR_test) acts = Some (e', ws', TR_done a) → race_answers e ws a.
Proof. intros Hr. exists e', ws'. by eapply race_run_steps. Qed.

(** ** What the loads can return *)
Section reads.
Context (PH : option AH → Prop) (PC : option AC → Prop).

Definition store_in (w : store) : Prop := match w with ST_handler h => PH h | ST_ctx c => PC c end.

Definition pc_in (t : tramp_pc) : Prop :=
  match t with
  | TR_test | TR_done TA_notsup => True
  | TR_loads seen h c => PH (Some seen) ∧ default True (PH <$> h) ∧ default True (PC <$> c)
  | TR_done (TA_call h c) => PH h ∧ PC c
  end.

Definition race_in (x : race_st) : Prop :=
  let '(e, ws, t) := x in (PH (ce_handler e) ∧ PC (ce_ctx e)) ∧ Forall store_in ws ∧ pc_in t.

Lemma race_in_step x y : race_step x y → race_in x → race_in y.
Proof.
  destruct x as [[e ws] t]. intros [a Hd] ((Hh & Hc) & Hw & Ht). destruct a; cbn [race_do] in Hd.
  { destruct ws as [|w ws]; [done|]. injection Hd as <-. inversion Hw; subst. by destruct w. }
  all: destruct (tramp_act _ e t) as [t'|] eqn:Hta; cbn [mbind option_bind] in Hd; [|done]; injection Hd as <-; (split; [done|]; split; [done|]).
  all: destruct t as [|seen [h|] [c|]|]; cbn in Hta; try done; injection Hta as <-; cbn in *; try naive_solver.
  destruct (ce_handler e); naive_solver.
Qed.

(** Every load returns the value at the start or one that was stored. *)
Lemma answers_in e ws a : PH (ce_handler e) → PC (ce_ctx e) → Forall store_in ws → race_answers e ws a →
  pc_in (TR_done a).
Proof.
  intros Hh Hc Hw (e' & ws' & Hr). assert (Hx : race_in (e, ws, TR_test)) by done.
  change (match (e', ws', TR_done a) : race_st with (_, _, t) => pc_in t end).
  induction Hr as [[[? ?] ?]|x y z Hs _ IH]; [by destruct Hx as (_ & _ & Hx)|]. by eapply IH, race_in_step.
Qed.
End reads.

(** The trampoline's test misses only if the handler was NULL before or is stored. *)
Lemma notsup_null e ws : race_answers e ws TA_notsup → ce_handler e = None ∨ ST_handler None ∈ ws.
Proof.
  intros (e' & ws' & Hr). remember ((e, ws, TR_test) : race_st) as x eqn:Hx. remember ((e', ws', TR_done TA_notsup) : race_st) as y eqn:Hy.
  assert (Hi : let '(e1, ws1, t1) := x in (t1 = TR_done TA_notsup ∨ ce_handler e1 = None ∨ ST_handler None ∈ ws1) →
    ce_handler e = None ∨ ST_handler None ∈ ws) by (subst x; naive_solver).
  clear Hx. induction Hr as [x|x z y [a Hd] _ IH].
  - subst x. by apply Hi; left.
  - apply (IH Hy). clear IH Hy y. destruct x as [[e1 ws1] t1]. destruct a; cbn [race_do] in Hd.
    { destruct ws1 as [|w ws1]; [done|]. injection Hd as <-. intros Hq. apply Hi.
      destruct Hq as [?|[Hq|?]]; [by left| |by right; right; apply list_elem_of_further].
      destruct w as [h|c]; cbn in Hq; [subst h; right; right; apply list_elem_of_here|by right; left]. }
    all: destruct (tramp_act _ e1 t1) as [t'|] eqn:Hta; cbn [mbind option_bind] in Hd; [|done]; injection Hd as <-; intros Hq; apply Hi.
    all: destruct Hq as [->|?]; [|by right]; destruct t1 as [|seen [h|] [c|]|]; cbn in Hta; try done; simplify_eq.
    destruct (ce_handler e1) eqn:He; [done|by right; left].
Qed.

(** A handler that is NULL and stays so is not called. *)
Lemma null_not_called e ws a : ce_handler e = None → Forall (store_in (eq None) (λ _, True)) ws →
  race_answers e ws a → a = TA_notsup.
Proof.
  intros He Hw Ha. destruct a as [|h c]; [done|exfalso].
  destruct Ha as (e' & ws' & Hr). set (x := (e, ws, TR_test) : race_st) in Hr.
  assert (Hx : (x.2 = TR_test ∨ x.2 = TR_done TA_notsup) ∧ race_in (eq None) (λ _, True) x) by (split; [by left|done]).
  clearbody x. remember ((e', ws', TR_done (TA_call h c)) : race_st) as y eqn:Hy.
  induction Hr as [x|x1 x2 x3 [a Hd] _ IH]; [subst x; by destruct Hx as [[?|?] _]|].
  apply (IH Hy). clear IH Hy. destruct Hx as [Ht Hin]. split; [|eapply race_in_step; [by exists a|done]].
  destruct x1 as [[e1 ws1] t]. destruct Hin as ((He1 & _) & _). destruct a; cbn [race_do] in Hd.
  { destruct ws1; [done|]. by injection Hd as <-. }
  all: destruct (tramp_act _ e1 t) as [t'|] eqn:Hta; cbn [mbind option_bind] in Hd; [|done]; injection Hd as <-.
  all: destruct Ht as [Ht|Ht]; cbn in Ht; subst t; cbn in Hta; try done. rewrite <- He1 in Hta. injection Hta as <-. by right.
Qed.

(** ** Registering *)
(** The first registration: until the handler's store the test fails, after it both
    loads are new. *)
Definition first_in (h : AH) (c : option AC) (x : race_st) : Prop :=
  let '(e, ws, t) := x in
  ce_handler e = None ∧ (ws = register_stores h c ∨ ws = [ST_handler (Some h)] ∧ ce_ctx e = c) ∧
    (t = TR_test ∨ t = TR_done TA_notsup) ∨
  race_in (eq (Some h)) (eq c) x.

Lemma first_in_step h c x y : race_step x y → first_in h c x → first_in h c y.
Proof.
  destruct x as [[e ws] t]. intros Hs [(He & Hw & Ht)|Hin].
  2:{ destruct y as [[??]?]. right. by eapply race_in_step. }
  destruct Hs as [a Hd]. destruct a; cbn [race_do] in Hd.
  { destruct Hw as [->|[-> Hc]]; injection Hd as <-.
    - left. cbn. split; [done|]. split; [by right|done].
    - right. cbn. subst c. destruct Ht as [->| ->]; naive_solver. }
  all: destruct (tramp_act _ e t) as [t'|] eqn:Hta; cbn [mbind option_bind] in Hd; [|done]; injection Hd as <-.
  all: destruct Ht as [->| ->]; cbn in Hta; try done. rewrite He in Hta. injection Hta as <-. left. naive_solver.
Qed.

Ltac answers acts := eapply (answers_by _ _ acts); cbn; try (match goal with He : ce_handler _ = _ |- _ => rewrite He end; cbn); reflexivity.

(** C21: Registering while requests are served. With no handler there, a request that
    races [network_prov_mgr_endpoint_register] is answered -ENOTSUP or gets the new
    handler with the context it was registered with, never with another: the two stores
    and the barrier between them do what they are for. With a handler already there -
    the API lets one be replaced - they do not: every pairing of the old and the new
    handler with the old and the new context is possible, since the test proves nothing
    about the handler loaded after it. *)
Theorem registration_race e h c a :
  race_answers e (register_stores h c) a ↔
  match ce_handler e with
  | None => a = TA_notsup ∨ a = TA_call (Some h) c
  | Some h0 => ∃ h' c', a = TA_call (Some h') c' ∧ (h' = h0 ∨ h' = h) ∧ (c' = ce_ctx e ∨ c' = c)
  end.
Proof.
  destruct (ce_handler e) as [h0|] eqn:He; split.
  - intros Ha. pose proof (answers_in (λ h', h' = Some h0 ∨ h' = Some h) (λ c', c' = ce_ctx e ∨ c' = c) e (register_stores h c) a
      (or_introl He) (or_introl eq_refl) ltac:(repeat constructor; by right) Ha) as Hin.
    destruct a as [|h' c']; cbn in Hin.
    + apply notsup_null in Ha as [Ha|Ha]; [congruence|]. unfold register_stores in Ha. set_solver.
    + destruct Hin as [[-> | ->] Hc]; eauto 10.
  - intros (h' & c' & -> & [-> | ->] & [-> | ->]).
    + answers [A_test; A_handler; A_ctx; A_call].
    + answers [A_test; A_handler; A_store; A_ctx; A_call].
    + answers [A_test; A_ctx; A_store; A_store; A_handler; A_call].
    + answers [A_test; A_store; A_store; A_handler; A_ctx; A_call].
  - intros (e' & ws' & Hr). assert (Hx : first_in h c (e, register_stores h c, TR_test)).
    { left. split; [done|]. by split; left. }
    remember ((e', ws', TR_done a) : race_st) as y eqn:Hy.
    assert (Hi : first_in h c y).
    { clear Hy. induction Hr as [|x1 x2 x3 Hs _ IH]; [done|]. by eapply IH, first_in_step. }
    subst y. destruct Hi as [(_ & _ & [?|?])|(_ & _ & Hi)]; [done|left; congruence|].
    destruct a as [|h' c']; [by left|]. right. destruct Hi as [<- <-]. done.
  - intros [-> | ->].
    + answers [A_test].
    + answers [A_store; A_store; A_test; A_handler; A_ctx; A_call].
Qed.

(** ** Unregistering *)
(** C40: Unregistering while requests are served. A request that races
    [network_prov_mgr_endpoint_unregister] may be answered -ENOTSUP and may still reach
    the handler with its context; it may also call the handler with a NULL context, and,
    when the compiler loads the pointer again after the test, jump to NULL with either
    context. If there was no handler every request is answered -ENOTSUP. *)
Theorem unregistration_race e a :
  race_answers e unregister_stores a ↔
  a = TA_notsup ∨ ∃ h0 h' c', ce_handler e = Some h0 ∧ a = TA_call h' c' ∧
    (h' = Some h0 ∨ h' = None) ∧ (c' = ce_ctx e ∨ c' = None).
Proof.
  split.
  - intros Ha. destruct a as [|h' c']; [by left|right]. destruct (ce_handler e) as [h0|] eqn:He.
    + pose proof (answers_in (λ h', h' = Some h0 ∨ h' = None) (λ c', c' = ce_ctx e ∨ c' = None) e unregister_stores _
        (or_introl He) (or_introl eq_refl) ltac:(repeat constructor; by right) Ha) as [Hh Hc]. eauto 10.
    + apply null_not_called in Ha; [done|done|]. by repeat constructor.
  - intros [->|(h0 & h' & c' & He & -> & [-> | ->] & [-> | ->])].
    + answers [A_store; A_test].
    + answers [A_test; A_handler; A_ctx; A_call].
    + answers [A_test; A_handler; A_store; A_store; A_ctx; A_call].
    + answers [A_test; A_ctx; A_store; A_handler; A_call].
    + answers [A_test; A_store; A_store; A_handler; A_ctx; A_call].
Qed.

(** With no store in the way the trampoline's loads agree, whatever their order. *)
Lemma trampoline_alone e a :
  race_answers e [] a ↔ a = if ce_handler e is Some h then TA_call (Some h) (ce_ctx e) else TA_notsup.
Proof.
  split.
  - intros Ha. pose proof (answers_in (eq (ce_handler e)) (eq (ce_ctx e)) e [] a eq_refl eq_refl (List.Forall_nil _) Ha) as Hin.
    destruct a as [|h c]; cbn in Hin.
    + apply notsup_null in Ha as [->|Ha]; [done|by apply not_elem_of_nil in Ha].
    + destruct Hin as [<- <-]. destruct (ce_handler e) as [h|] eqn:He; [done|].
      by apply null_not_called in Ha.
  - intros ->. destruct (ce_handler e) as [h|] eqn:He; [answers [A_test; A_handler; A_ctx; A_call]|answers [A_test]].
Qed.
End race.

(** ** In the manager *)
Section in_manager.
Context {E : Type} `{HH : KHeap E} `{NL : NetLog E} `{WN : WifiNet E} `{OT : OpenThread E}.
Context `{PS : PSA E} `{K : Kernel} `{SC : Schemes} `{AP : Application E} `{ST : Settings E}.
Local Abbreviation mgr_t := (manager scheme_t app_handler_t app_ctx_t k_sem k_work_delayable).

(** The store instructions, one after the other, are [set_custom]. *)
Lemma register_alone i h c (m : mgr_t) :
  set_custom i (Some h) c m = m <| mg_custom := alter (λ e, foldl do_store e (register_stores h c)) i (mg_custom m) |>.
Proof. reflexivity. Qed.
Lemma unregister_alone i (m : mgr_t) :
  set_custom i None None m = m <| mg_custom := alter (λ e, foldl do_store e unregister_stores) i (mg_custom m) |>.
Proof. reflexivity. Qed.

(** The answer as the transport sees it; [None], the jump to NULL. *)
Definition tramp_result (a : tramp_answer) (inbuf : bytes) (n : netst) : option (Z * obuf * netst) :=
  match a with
  | TA_notsup => Some (- ENOTSUP, no_buf, n)
  | TA_call None _ => None
  | TA_call (Some h) c =>
      let '(rc, out, e) := app_handler h c inbuf (n_plat n) in Some (rc, out, set_plat e n)
  end.

(** Undisturbed, the instructions are [custom_trampoline]. *)
Lemma tramp_alone_result i e a b (n : netst) :
  mg_custom (n_mgr n) !! i = Some e → race_answers e [] a →
  tramp_result a b n = Some (custom_trampoline (Some i) b n).
Proof.
  intros He Ha. apply trampoline_alone in Ha as ->. unfold custom_trampoline. cbn [mbind option_bind]. rewrite He.
  destruct (ce_handler e) as [h|]; [|done]. cbn [tramp_result]. by destruct (app_handler _ _ _ _) as [[rc out] e'].
Qed.
End in_manager.
