(* ===== verification/Handlers.v ===== *)
(** * Handlers: what the manager owes to the network handlers, and they to it

    The manager sets the handlers of the build's network type up when a service starts,
    passes requests, callbacks and expiring work on to them while it runs, and takes
    them down when it ends or when the start fails. [HandlerProtocol idle live] is that
    contract, stated on the handlers' state: what each of those calls does to a
    condition [idle] between services and a condition [live] during one. A handler's
    invariant that meets it holds, in the one or the other form, in every state of the
    whole program ([protocol_run]). *)
From S2P Require Import Prelude Platform PbUtil Messages Protocomm Security0 Psa Security1 NetEnv.
From S2P Require Import Frame Manager ManagerFrame ManagerInv ManagerFacts.

Section handlers.
Context {E : Type} `{HH : KHeap E} `{NL : NetLog E} `{!NetHeapLaws E}.
Context `{WN : WifiNet E} `{!WifiNetLaws E} `{OT : OpenThread E} `{!OpenThreadLaws E}.
Context `{PS : PSA E} `{K : Kernel} {KL : KernelLaws} `{SC : Schemes} `{AP : Application E} `{ST : Settings E}.
Context `{!ManagerEnvLaws E}.
Context `{P1 : PbMsg SessionData} `{P2 : PbMsg NetworkConfigPayload} `{P3 : PbMsg NetworkScanPayload}.
Context `{P4 : PbMsg NetworkCtrlPayload} `{UV : UnionViews}.
Context {SO : SchemeOps sys} {AC : AppConfigs}.
Context (cf : build_config).

(** ** The platform with the manager in it, as the handlers see it *)
#[export] Instance env_heap_laws : NetHeapLaws prov_env.
Proof.
  split; intros.
  - pose proof (malloc_log n e.2) as Hl. cbn. unfold on_env. by destruct (k_malloc n e.2).
  - apply (free_log p e.2).
Qed.
#[export] Instance env_emit_laws : EmitEventLaws prov_env (H0 := network_prov_emit cf).
Proof.
  intros ev [m e]. pose proof (app_event_log (mg_app_cb m) ev e) as Hl. by destruct ev.
Qed.

Lemma on_env_log {A} (f : E → A * E) (x y : prov_env) a log :
  (∀ e', f x.2 = (a, e') → net_log e' = log) → on_env f x = (a, y) → net_log y = log.
Proof. intros Hf. unfold on_env. destruct (f x.2) as [b e'] eqn:He. intros [= -> <-]. by apply Hf. Qed.
#[export] Instance env_wifi_laws : WifiNetLaws prov_env.
Proof.
  split.
  - intros i p x rc y. apply on_env_log. intros e'. exact (wifi_connect_log i p x.2 rc e').
  - intros i x rc y. apply on_env_log. intros e'. exact (wifi_scan_log i x.2 rc e').
  - intros s x. exact (cred_delete_log s x.2).
  - intros c x rc y. apply on_env_log. intros e'. exact (cred_set_log c x.2 rc e').
  - intros x rc y. apply on_env_log. intros e'. exact (cred_delete_all_log x.2 rc e').
  - intros x. exact (cb_add_log x.2).
  - intros x. exact (cb_del_log x.2).
Qed.
#[export] Instance env_ot_laws : OpenThreadLaws prov_env.
Proof.
  split.
  - intros x rc y. apply on_env_log. intros e'. exact (ot_register_log x.2 rc e').
  - intros x. exact (ot_unregister_log x.2).
  - intros d x err y. apply on_env_log. intros e'. exact (ot_dataset_log d x.2 err e').
  - intros x. exact (ot_ip6_log x.2).
  - intros b x err y. apply on_env_log. intros e'. exact (ot_enable_log b x.2 err e').
  - intros x err y. apply on_env_log. intros e'. exact (ot_erase_log x.2 err e').
  - intros m x err y. apply on_env_log. intros e'. exact (ot_discover_log m x.2 err e').
Qed.

Lemma custom_endpoint_handler i slots (ep : protocomm_ep prov_handler nat) :
  ep ∈ custom_endpoints i slots → ep_handler ep = Some H_custom_trampoline.
Proof.
  revert i. induction slots as [|ce slots IH]; intros i Hin; [by apply elem_of_nil in Hin|].
  cbn [custom_endpoints] in Hin. destruct (ce_created ce); [|by eapply IH].
  apply elem_of_cons in Hin as [->|Hin]; [done|by eapply IH].
Qed.

Lemma both_phases (P : bool → netst → Prop) (x y : netst) :
  (∀ r, P r x → P r y) → (P false x → P false y) ∧ (P true x → P true y).
Proof. auto. Qed.

(** ** The contract *)
(** The manager initialises the handlers with the budget of a configuration the
    application gave it. *)
Definition budgeted (x : netst) : Prop :=
  ∃ c, configured c ∧ mg_wifi_conn_attempts (n_mgr x) = mc_wifi_conn_attempts c.

(** What the manager's own operations need. *)
Class ServiceProtocol (idle live : netst → Prop) : Prop := {
  (** the manager's structure is not the handlers' *)
  hp_mgr f x : (idle x → idle (set_mgr f x)) ∧ (live x → live (set_mgr f x));
  hp_plat e x : net_log e = net_log (n_plat x) →
    (idle x → idle (set_plat e x)) ∧ (live x → live (set_plat e x));
  (** the manager's own events *)
  hp_own ev x : is_cred_event ev = false → (idle x → idle (emit cf ev x)) ∧ (live x → live (emit cf ev x));
  hp_init p x ret p' x' : budgeted x → idle x → net_endpoints_init cf p x = (ret, p', x') →
    (if ret =? 0 then live x' else idle x' ∨ live x');
  hp_deinit x : idle x ∨ live x → idle (net_endpoints_deinit cf x);
}.

(** And what the calls that reach the handlers need. *)
Class HandlerProtocol (idle live : netst → Prop) : Prop := {
  handler_service :: ServiceProtocol idle live;
  hp_event ev x : due ev x → (idle x → idle (deliver cf ev x)) ∧ (live x → live (deliver cf ev x));
  hp_request p name b x rc out p' x' : served cf p (n_mgr x) → live x →
    protocomm_req_handle (CB := prov_callbacks cf) (Some p) name b true x = Some (rc, out, p', x') → live x';
  hp_reset x : live x → live (net_config_reset cf x);
  hp_erase s : (idle (sy_net s) → idle (sy_net (network_prov_mgr_reset_wifi_provisioning cf s).2)) ∧
    (live (sy_net s) → live (sy_net (network_prov_mgr_reset_wifi_provisioning cf s).2));
  hp_apply ssid psk s : live (sy_net s) →
    live (sy_net (network_prov_mgr_configure_wifi_sta cf ssid psk s).2);
}.

Context {SL : SchemeLaws} (custom_range : (cf_custom_max cf ≤ 3)%nat).

Section service.
Context (idle live : netst → Prop) {VP : ServiceProtocol idle live}.

(** [live] while the service runs, [idle] otherwise. *)
Definition by_phase (started : bool) (x : netst) : Prop := if started then live x else idle x.

Lemma phase_mgr st f x : by_phase st x → by_phase st (set_mgr f x).
Proof. destruct (hp_mgr f x). by destruct st. Qed.
Lemma phase_plat st e x : net_log e = net_log (n_plat x) → by_phase st x → by_phase st (set_plat e x).
Proof. intros He. destruct (hp_plat e x He). by destruct st. Qed.
Lemma phase_moved st x y : plat_moved x y → by_phase st x → by_phase st y.
Proof. intros (e & -> & He). by apply phase_plat. Qed.
Lemma phase_own st ev x : is_cred_event ev = false → by_phase st x → by_phase st (emit cf ev x).
Proof. intros Hev. destruct (hp_own ev x Hev). by destruct st. Qed.
Lemma phase_delete st p x : by_phase st x → by_phase st (protocomm_delete (CB := prov_callbacks cf) p x).
Proof.
  apply phase_moved. pose proof (platform_heap plat_moved moved_plat).
  pose proof (platform_securities cf plat_moved moved_plat).
  by apply (frame_delete (CB := prov_callbacks cf) plat_moved).
Qed.

(** Registration sets the handlers up, unless it fails. *)
Lemma phase_register sec pop p x ret p' x' :
  budgeted x → idle x → register_endpoints cf sec pop p x = (ret, p', x') →
  if ret =? 0 then live x' else idle x' ∨ live x'.
Proof.
  intros Hb Hi. unfold register_endpoints.
  destruct (protocomm_set_version _ _ _) as [r1 q1]. destruct (negb (r1 =? 0)) eqn:H1.
  { intros [= <- <- <-]. breflect. rewrite (proj2 (Z.eqb_neq _ _)) by done. by left. }
  cbv zeta. destruct (protocomm_set_security _ _ _ _) as [r2 q2]. destruct (negb (r2 =? 0)) eqn:H2.
  { intros [= <- <- <-]. breflect. rewrite (proj2 (Z.eqb_neq _ _)) by done. by left. }
  destruct (net_endpoints_init _ _ _) as [[r3 q3] y] eqn:Hn. pose proof (hp_init _ _ _ _ _ Hb Hi Hn) as Hy.
  destruct (negb (r3 =? 0)) eqn:H3.
  { intros [= <- <- <-]. done. }
  breflect. subst r3. cbn [Z.eqb] in Hy. destruct (add_custom_endpoints _ _ _) as [r4 q4].
  intros [= <- <- <-]. destruct (r4 =? 0); [done|by right].
Qed.

Lemma phase_failed ret l s rc s' :
  idle (sy_net s) ∨ live (sy_net s) → start_failed cf ret l s = Some (rc, s') → idle (sy_net s').
Proof.
  intros Hp. unfold start_failed. destruct (sy_pcs s !! l) as [p|]; cbn [mbind option_bind]; [|done].
  intros Heq%(inj Some). apply (f_equal (sy_net ∘ snd)) in Heq. cbn [compose snd sy_net] in Heq. rewrite <- Heq.
  by apply (phase_mgr false), (phase_delete false), hp_deinit.
Qed.

Lemma phase_start sec pop name key s rc s' :
  sys_inv cf s → (mg_inited (sy_mgr s) = true → budgeted (sy_net s)) →
  by_phase (mg_started (sy_mgr s)) (sy_net s) →
  network_prov_mgr_start_provisioning cf sec pop name key s = Some (rc, s') →
  by_phase (mg_started (sy_mgr s')) (sy_net s').
Proof.
  intros Hinv Hb Hp Hrun.
  destruct (start_outcome cf custom_range _ _ _ _ _ _ _ Hinv Hrun) as [(_ & -> & _)|(Hi & Hs & Hout)]; [done|].
  rewrite Hs in Hp. specialize (Hb Hi).
  assert (Hs' : if rc =? 0 then mg_started (sy_mgr s') = true else mg_started (sy_mgr s') = false).
  { destruct Hout as [(Hrc & _ & _ & Hst & _)|(-> & l & s1 & -> & _)]; [by rewrite (proj2 (Z.eqb_neq _ _) Hrc)|done]. }
  clear Hout. unfold network_prov_mgr_start_provisioning in Hrun. rewrite Hi, Hs in Hrun. cbn [negb] in Hrun.
  pose proof (platform_heap plat_moved moved_plat).
  pose proof (frame_new (Hnd := prov_handler) (Priv := nat) (Sec := network_prov_security)
    (Ctx := scheme_ctx (@psa_cipher_operation_t netst net_psa)) plat_moved (cf_sizeof_protocomm cf) (sy_net s) (sy_net s) (reflexivity _)) as Hnew.
  destruct (protocomm_new _ _) as [[[l p]|] n1]; cbn [snd] in Hnew.
  2:{ injection Hrun as <- <-. cbn [Z.eqb Z.opp] in Hs'. rewrite Hs'. by apply (phase_mgr false), (phase_moved false (sy_net s)). }
  cbv zeta in Hrun. set (n2 := set_mgr _ n1) in Hrun.
  assert (Hn2 : idle n2) by (by apply (phase_mgr false), (phase_moved false (sy_net s))).
  assert (Hb2 : budgeted n2) by (destruct Hnew as (e & -> & _); exact Hb).
  clearbody n2. destruct (register_endpoints _ _ _ _ _) as [[ret p1] n3] eqn:Hreg.
  pose proof (phase_register _ _ _ _ _ _ _ Hb2 Hn2 Hreg) as Hn3.
  assert (Hfail : ∀ ret' s1, idle (sy_net s1) ∨ live (sy_net s1) → ret' ≠ 0 →
    start_failed cf ret' l s1 = Some (rc, s') → by_phase (mg_started (sy_mgr s')) (sy_net s')).
  { intros ret' s1 Hn Hr Hf. pose proof (phase_failed _ _ _ _ _ Hn Hf) as Hidle. unfold start_failed in Hf.
    destruct (sy_pcs s1 !! l); cbn [mbind option_bind] in Hf; [|done]. injection Hf as <- <-.
    rewrite (proj2 (Z.eqb_neq _ _) Hr) in Hs'. by rewrite Hs'. }
  destruct (ret =? 0) eqn:Hz; breflect; cbn [negb] in Hrun; [|by eapply Hfail; [| |exact Hrun]].
  destruct (mg_scheme (n_mgr n3)) as [sch|]; [|by eapply Hfail; [right| |exact Hrun]].
  destruct (scheme_start _ _ _ _ _) as [[ret2 s2]|] eqn:Hss; cbn [mbind option_bind] in Hrun; [|done].
  apply scheme_start_moves in Hss as (Hmv & _). cbn [sy_net] in Hmv. pose proof (phase_moved true _ _ Hmv Hn3) as Hs2.
  destruct (ret2 =? 0) eqn:Hz2; breflect; cbn [negb] in Hrun; [|by eapply Hfail; [right| |exact Hrun]].
  injection Hrun as <- <-. cbn [Z.eqb] in Hs'. rewrite Hs'.
  by apply (phase_own true NETWORK_PROV_START), (phase_mgr true).
Qed.

Lemma phase_teardown s s' :
  by_phase (mg_started (sy_mgr s)) (sy_net s) → sys_inv cf s → do_teardown cf s = Some s' →
  by_phase (mg_started (sy_mgr s')) (sy_net s').
Proof.
  intros Hp Hinv Hrun. destruct (mg_started (sy_mgr s)) eqn:Hs.
  2:{ unfold do_teardown in Hrun. rewrite Hs in Hrun. cbn [negb] in Hrun. injection Hrun as <-. by rewrite Hs. }
  destruct (do_teardown_spec cf s Hinv Hs) as (s1 & Hd & Hm & _). rewrite Hd in Hrun. injection Hrun as <-.
  assert (Hst : mg_started (sy_mgr (sys_emit cf NETWORK_PROV_END s1)) = false).
  { change (mg_started (sy_mgr s1) = false). by rewrite Hm. }
  rewrite Hst. unfold do_teardown in Hd. rewrite Hs in Hd. cbn [negb] in Hd.
  destruct (mg_scheme (sy_mgr s)) as [sch|]; cbn [mbind option_bind] in Hd; [|done].
  destruct (scheme_stop sch s) as [s2|] eqn:Hss; cbn [mbind option_bind] in Hd; [|done].
  apply scheme_stop_moves in Hss as (Hmv & _). cbv zeta in Hd.
  destruct (mg_pc (sy_mgr s2)) as [l|]; cbn [mbind option_bind] in Hd; [|done].
  destruct (sy_pcs s2 !! l) as [p|]; cbn [mbind option_bind] in Hd; [|done].
  apply (inj Some), (f_equal sy_net) in Hd. rewrite <- Hd. apply (phase_own false NETWORK_PROV_END _ eq_refl), (phase_mgr false), (phase_delete false).
  apply hp_deinit. right. by apply (phase_moved true (sy_net s)).
Qed.

(** ** Every step *)
(** The manager's structure satisfies [budgeted] from [init] on. *)
Definition budget_inv (s : sys) : Prop := mg_inited (sy_mgr s) = true → budgeted (sy_net s).
Definition phase_inv (s : sys) : Prop := by_phase (mg_started (sy_mgr s)) (sy_net s).

(** A call that changes neither flag nor budget. *)
Definition flags_kept (s s' : sys) : Prop :=
  mg_started (sy_mgr s') = mg_started (sy_mgr s) ∧ mg_inited (sy_mgr s') = mg_inited (sy_mgr s) ∧
  mg_wifi_conn_attempts (sy_mgr s') = mg_wifi_conn_attempts (sy_mgr s).
Lemma flags_budget s s' : flags_kept s s' → budget_inv s → budget_inv s'.
Proof.
  intros (_ & Hi & Ha) Hb Hi'. rewrite Hi in Hi'. destruct (Hb Hi') as (c & Hc & Hn). exists c. split; [done|].
  change (mg_wifi_conn_attempts (n_mgr (sy_net s'))) with (mg_wifi_conn_attempts (sy_mgr s')). by rewrite Ha.
Qed.
Lemma flags_mgr f s : (∀ m, mg_started (f m) = mg_started m ∧ mg_inited (f m) = mg_inited m ∧
  mg_wifi_conn_attempts (f m) = mg_wifi_conn_attempts m) → flags_kept s (sys_mgr f s).
Proof. intros Hf. apply Hf. Qed.
Lemma flags_keeps s s' : nkeeps (sy_net s) (sy_net s') → flags_kept s s'.
Proof. intros [(d & w & Hm & _) _]. change (n_env (sy_net s')).1 with (sy_mgr s') in Hm. unfold flags_kept. by rewrite Hm. Qed.

Definition kept (s : sys) : Prop := budget_inv s ∧ phase_inv s.
Lemma kept_mgr f s : (∀ m, mg_started (f m) = mg_started m ∧ mg_inited (f m) = mg_inited m ∧
  mg_wifi_conn_attempts (f m) = mg_wifi_conn_attempts m) → kept s → kept (sys_mgr f s).
Proof.
  intros Hf [Hb Hp]. split; [by eapply flags_budget; [apply flags_mgr|]|]. unfold phase_inv.
  rewrite (proj1 (flags_mgr f s Hf)). by apply phase_mgr.
Qed.
Lemma kept_net s s' : nkeeps (sy_net s) (sy_net s') →
  (phase_inv s → by_phase (mg_started (sy_mgr s)) (sy_net s')) → kept s → kept s'.
Proof.
  intros Hk Hf [Hb Hp]. pose proof (flags_keeps _ _ Hk) as Hfl. split; [by eapply flags_budget|].
  unfold phase_inv. rewrite (proj1 Hfl). auto.
Qed.

Lemma start_flags sec pop name key s rc s' :
  sys_inv cf s → network_prov_mgr_start_provisioning cf sec pop name key s = Some (rc, s') →
  mg_inited (sy_mgr s') = mg_inited (sy_mgr s) ∧
  mg_wifi_conn_attempts (sy_mgr s') = mg_wifi_conn_attempts (sy_mgr s).
Proof.
  intros Hinv Hrun.
  destruct (start_outcome cf custom_range _ _ _ _ _ _ _ Hinv Hrun) as [(_ & -> & _)|(Hi & Hs & [Hu|Hd])]; [done| |].
  - destruct Hu as (_ & _ & _ & _ & -> & _ & _ & -> & _). done.
  - destruct Hd as (_ & l & s1 & -> & _ & Hst & _). change (sy_mgr (sys_emit _ _ _)) with ((sy_mgr s1) <| mg_started := true |>).
    change (sy_mgr s1) with (n_mgr (sy_net s1)). by rewrite (proj1 Hst).
Qed.

Lemma same_plat (s : sys) : s <| sy_net := set_plat (n_plat (sy_net s)) (sy_net s) |> = s.
Proof. by destruct s as [[? ? ? ? ? ? []] ? ?]. Qed.

Lemma init_finish c s1 e : configured c → mg_wifi_conn_attempts (sy_mgr s1) = mc_wifi_conn_attempts c →
  mg_started (sy_mgr s1) = false → net_log e = net_log (n_plat (sy_net s1)) → idle (sy_net s1) →
  kept (sys_emit cf NETWORK_PROV_INIT (sys_mgr (fun m => m <| mg_inited := true |>) (s1 <| sy_net := set_plat e (sy_net s1) |>))).
Proof.
  intros Hc F3 F1 He Hp1. split; [intros _; exists c; split; [exact Hc|exact F3]|]. unfold phase_inv.
  change (mg_started (sy_mgr _)) with (mg_started (sy_mgr s1)). rewrite F1.
  by apply (phase_own false NETWORK_PROV_INIT _ eq_refl), (phase_mgr false), (phase_plat false).
Qed.

Lemma kept_init c s rc s' : configured c → network_prov_mgr_init cf c s = (rc, s') → sys_inv cf s → kept s → kept s'.
Proof.
  intros Hc Hrun Hinv [Hb Hp]. unfold network_prov_mgr_init in Hrun.
  destruct (mg_inited (sy_mgr s)) eqn:Hi; [by simplify_eq|].
  pose proof (stopped_of_not_inited cf s Hinv Hi) as Hs. unfold phase_inv in Hp. rewrite Hs in Hp.
  destruct (mc_scheme c) as [sch|]; [|simplify_eq; split; [done|unfold phase_inv; by rewrite Hs]].
  destruct (negb _); [simplify_eq; split; [done|unfold phase_inv; by rewrite Hs]|]. cbv zeta in Hrun.
  set (f := fun m : manager scheme_t app_handler_t app_ctx_t k_sem k_work_delayable => _) in Hrun.
  assert (Hf : ∀ m, mg_started (f m) = mg_started m ∧ mg_inited (f m) = mg_inited m ∧
    mg_wifi_conn_attempts (f m) = mc_wifi_conn_attempts c) by done.
  clearbody f. destruct (Hf (sy_mgr s)) as (F1 & F2 & F3). rewrite Hs in F1. rewrite Hi in F2.
  set (s1 := sys_mgr f s) in Hrun. assert (Hp1 : idle (sy_net s1)) by (by apply (phase_mgr false)).
  change (f (sy_mgr s)) with (sy_mgr s1) in F1, F2, F3. clearbody s1.
  pose proof (fun e He => init_finish c s1 e Hc F3 F1 He Hp1) as Hfin. destruct (cf_settings cf).
  - pose proof (settings_init_log (n_plat (sy_net s1))) as Hl1. destruct (settings_subsys_init _) as [ret e1]. cbn [snd] in Hl1.
    pose proof (settings_load_log e1) as Hl2. destruct (negb (ret =? 0)); apply (f_equal snd) in Hrun; cbn [snd] in Hrun; rewrite <- Hrun.
    + split; [intros Hi'; change (mg_inited (sy_mgr s1) = true) in Hi'; congruence|].
      unfold phase_inv. change (mg_started (sy_mgr _)) with (mg_started (sy_mgr s1)). rewrite F1. by apply (phase_plat false).
    + apply (Hfin (settings_load e1).2). by rewrite Hl2.
  - apply (f_equal snd) in Hrun. cbn [snd] in Hrun. rewrite <- Hrun.
    specialize (Hfin _ eq_refl). rewrite same_plat in Hfin. exact Hfin.
Qed.

Lemma kept_cancel s : kept s → kept (cancel_teardown s).
Proof. by apply kept_mgr. Qed.

Lemma kept_teardown s s' : sys_inv cf s → do_teardown cf s = Some s' → kept s → kept s'.
Proof.
  intros Hinv Hrun [Hb Hp]. split; [|by eapply phase_teardown].
  destruct (mg_started (sy_mgr s)) eqn:Hs.
  - destruct (do_teardown_spec cf s Hinv Hs) as (s1 & Hd & Hm & _). rewrite Hd in Hrun. apply (inj Some) in Hrun.
    rewrite <- Hrun. intros Hi. change (sy_mgr (sys_emit _ _ s1)) with (sy_mgr s1) in Hi. rewrite Hm in Hi.
    destruct (Hb Hi) as (c & Hc & Hn). exists c. split; [exact Hc|].
    change (n_mgr (sy_net (sys_emit cf NETWORK_PROV_END s1))) with (sy_mgr s1). rewrite Hm. exact Hn.
  - unfold do_teardown in Hrun. rewrite Hs in Hrun. cbn [negb] in Hrun. by injection Hrun as <-.
Qed.

Lemma kept_deinit s s' : sys_inv cf s → network_prov_mgr_deinit cf s = Some s' → kept s → kept s'.
Proof.
  intros Hinv Hrun Hk. unfold network_prov_mgr_deinit in Hrun. destruct (negb _); [by injection Hrun as <-|].
  cbv zeta in Hrun. apply kept_cancel in Hk. pose proof (cancel_teardown_inv cf s Hinv) as Hcinv.
  destruct (if mg_started (sy_mgr (cancel_teardown s)) then _ else _) as [s2|] eqn:Hd; cbn [mbind option_bind] in Hrun; [|done].
  assert (Hk2 : kept s2).
  { destruct (mg_started _); [by eapply kept_teardown|]. by injection Hd as <-. }
  apply (inj Some) in Hrun. rewrite <- Hrun. split; [done|]. unfold phase_inv.
  change (mg_started (sy_mgr _)) with (mg_started (sy_mgr s2)).
  apply (phase_own _ NETWORK_PROV_DEINIT _ eq_refl), phase_mgr, Hk2.
Qed.

Lemma kept_stop s s' : sys_inv cf s → network_prov_mgr_stop_provisioning cf s = Some s' → kept s → kept s'.
Proof.
  intros Hinv Hrun Hk. unfold network_prov_mgr_stop_provisioning in Hrun. destruct (negb _); [by injection Hrun as <-|].
  cbv zeta in Hrun. apply kept_cancel in Hk. destruct (0 <? _).
  - apply (inj Some) in Hrun. rewrite <- Hrun. by apply kept_mgr.
  - by eapply kept_teardown; [apply cancel_teardown_inv|..].
Qed.

Lemma kept_own f s : (∀ m, mg_started (f m) = mg_started m ∧ mg_inited (f m) = mg_inited m ∧
  mg_wifi_conn_attempts (f m) = mg_wifi_conn_attempts m) → ∀ s', s' = sys_mgr f s → kept s → kept s'.
Proof. intros Hf s' ->. by apply kept_mgr. Qed.

(** A call of the application that only edits the manager's structure. *)
Ltac kept_edit H := apply (f_equal snd) in H; cbn [snd] in H;
  first [rewrite <- H; assumption | eapply kept_own; [|symmetry; exact H|assumption]; done].

Lemma kept_app_info lb ve caps k s rc s' :
  network_prov_mgr_set_app_info lb ve caps k s = (rc, s') → kept s → kept s'.
Proof. intros Hr Hk. unfold network_prov_mgr_set_app_info in Hr. repeat (case_match; try kept_edit Hr). Qed.
Lemma kept_create nm s rc s' : network_prov_mgr_endpoint_create nm s = (rc, s') → kept s → kept s'.
Proof. intros Hr Hk. unfold network_prov_mgr_endpoint_create in Hr. repeat (case_match; try kept_edit Hr). Qed.
Lemma kept_register nm h c s rc s' : network_prov_mgr_endpoint_register nm h c s = (rc, s') → kept s → kept s'.
Proof. intros Hr Hk. unfold network_prov_mgr_endpoint_register in Hr. repeat (case_match; try kept_edit Hr). Qed.
Lemma kept_unregister nm s rc s' : network_prov_mgr_endpoint_unregister nm s = (rc, s') → kept s → kept s'.
Proof. intros Hr Hk. unfold network_prov_mgr_endpoint_unregister in Hr. repeat (case_match; try kept_edit Hr). Qed.

Lemma kept_start sec pop nm key s rc s' : sys_inv cf s →
  network_prov_mgr_start_provisioning cf sec pop nm key s = Some (rc, s') → kept s → kept s'.
Proof.
  intros Hinv Hr [Hb Hp]. destruct (start_flags _ _ _ _ _ _ _ Hinv Hr) as [Hi Ha]. split; [|by eapply phase_start].
  intros Hi'. rewrite Hi in Hi'. destruct (Hb Hi') as (c & Hc & Hn). exists c. split; [done|].
  change (mg_wifi_conn_attempts (sy_mgr s') = mc_wifi_conn_attempts c). by rewrite Ha.
Qed.
End service.

(** ** Every step of the program *)
Section steps.
Context (idle live : netst → Prop) {HP : HandlerProtocol idle live}.

Lemma phase_event st ev x : due ev x → by_phase idle live st x → by_phase idle live st (deliver cf ev x).
Proof. intros Hev. destruct (hp_event ev x Hev). by destruct st. Qed.

(** A request reaches the handlers while the service runs. *)
Lemma kept_request l name b s rc out s' :
  sys_inv cf s → transport_request cf l name b s = Some (rc, out, s') → kept idle live s → kept idle live s'.
Proof.
  intros Hinv Hrun Hk. pose proof (transport_request_frame cf _ _ _ _ _ _ _ Hrun) as (Hn & _ & _).
  eapply kept_net; [exact Hn| |exact Hk]. intros Hp. unfold phase_inv in Hp. unfold transport_request in Hrun.
  destruct (sy_pcs s !! l) as [p|] eqn:Hl; cbn [mbind option_bind] in Hrun; [|done].
  destruct (mg_started (sy_mgr s)) eqn:Hs.
  2:{ destruct (iv_stopped cf s Hinv Hs) as (_ & Hpcs & _). by rewrite Hpcs in Hl. }
  destruct (iv_started cf s Hinv Hs) as (_ & l' & p' & _ & Hpcs & Hw). rewrite Hpcs in Hl.
  apply lookup_singleton_Some in Hl as [_ ->].
  destruct (protocomm_req_handle _ _ _ _ _) as [[[[r o] [q|]] y]|] eqn:Hr; try done. injection Hrun as <- <- <-.
  destruct name as [nm|]; [by eapply hp_request|]. cbn in Hr. by simplify_eq.
Qed.

Lemma kept_reset s rc s' : network_prov_mgr_reset_wifi_sm_state_on_failure cf s = (rc, s') → kept idle live s → kept idle live s'.
Proof.
  intros Hrun Hk. pose proof (proj1 (reset_sm_frame cf _ _ _ Hrun)) as Hn. eapply kept_net; [exact Hn| |exact Hk]. intros Hp. unfold phase_inv in Hp.
  unfold network_prov_mgr_reset_wifi_sm_state_on_failure in Hrun.
  destruct (mg_started (sy_mgr s)); cbn [negb] in Hrun; apply (f_equal snd) in Hrun; cbn [snd] in Hrun; rewrite <- Hrun;
    [|done]. by apply hp_reset.
Qed.

Lemma kept_erase s rc s' : network_prov_mgr_reset_wifi_provisioning cf s = (rc, s') → kept idle live s → kept idle live s'.
Proof.
  intros Hrun Hk. pose proof (proj1 (reset_prov_frame cf _ _ _ Hrun)) as Hn. eapply kept_net; [exact Hn| |exact Hk]. intros Hp. unfold phase_inv in Hp.
  destruct (hp_erase s) as [H1 H2]. rewrite Hrun in H1, H2. unfold by_phase in *.
  destruct (mg_started (sy_mgr s)); auto.
Qed.

Lemma kept_apply ssid psk s rc s' : network_prov_mgr_configure_wifi_sta cf ssid psk s = (rc, s') → kept idle live s → kept idle live s'.
Proof.
  intros Hrun Hk. pose proof (proj1 (configure_frame cf _ _ _ _ _ Hrun)) as Hn. eapply kept_net; [exact Hn| |exact Hk]. intros Hp. unfold phase_inv in Hp.
  pose proof (hp_apply ssid psk s) as Ha. rewrite Hrun in Ha.
  destruct (mg_started (sy_mgr s)) eqn:Hs; [by apply Ha|].
  unfold network_prov_mgr_configure_wifi_sta in Hrun. rewrite Hs in Hrun. cbn [negb] in Hrun. by injection Hrun as _ <-.
Qed.

Ltac of_service L := eapply L; [exact handler_service|eassumption..].

Lemma kept_step s s' : sys_step cf s s' → sys_inv cf s → kept idle live s → kept idle live s'.
Proof.
  destruct 1 as [c s rc s' Hc Hr|sec pop nm key s rc s' Hr|s s' Hr|s s' Hr|d s rc s' Hr|s rc s' Hr
    |lb ve caps k s rc s' Hr|nm s rc s' Hr|nm h c s rc s' Hr|nm s rc s' Hr|s rc s' Hr|ssid psk s rc s' Hr
    |s s' Hr|s s' _ Hr|l nm b s rc out s' Hr|l s s' Hr|l s s' Hr|tr s Ht|ev s Hev|e s He]; intros Hinv Hk.
  - of_service kept_init.
  - of_service kept_start.
  - of_service kept_deinit.
  - of_service kept_stop.
  - unfold network_prov_mgr_disable_auto_stop in Hr. destruct (negb _); [by simplify_eq|].
    apply (f_equal snd) in Hr. cbn [snd] in Hr. rewrite <- Hr. by apply (kept_cancel idle live), (kept_mgr idle live).
  - by eapply kept_erase.
  - of_service kept_app_info.
  - of_service kept_create.
  - of_service kept_register.
  - of_service kept_unregister.
  - by eapply kept_reset.
  - by eapply kept_apply.
  - unfold network_prov_mgr_wait in Hr. destruct (k_sem_try_take _) as [sem|]; cbn [fmap option_fmap option_map] in Hr; [|done].
    apply (inj Some) in Hr. rewrite <- Hr. by apply (kept_mgr idle live).
  - unfold teardown_work_fn in Hr. refine (kept_teardown idle live _ _ _ Hr (kept_mgr idle live _ _ _ Hk)); [|done].
    apply inv_mgr_simple; [done|done|]. intros _. apply k_work_pending_fire.
  - by eapply kept_request.
  - apply transport_open_frame in Hr as (Hm & _ & _). eapply kept_net; [by apply moved_keeps| |exact Hk]. by apply (phase_moved idle live).
  - apply transport_close_frame in Hr as (Hm & _ & _). eapply kept_net; [by apply moved_keeps| |exact Hk]. by apply (phase_moved idle live).
  - exact Hk.
  - eapply kept_net; [apply deliver_keeps| |exact Hk]. by apply phase_event.
  - eapply kept_net; [apply moved_keeps; by exists e| |exact Hk]. by apply (phase_plat idle live).
Qed.

(** A condition that meets the contract holds along every run from a start where it holds
    between services. *)
Lemma protocol_run s0 s : boot cf s0 → idle (sy_net s0) → rtc (sys_step cf) s0 s →
  by_phase idle live (mg_started (sy_mgr s)) (sy_net s).
Proof.
  intros Hb H0 Hr. assert (Hk0 : kept idle live s0).
  { split; [intros Hi; by rewrite (bt_inited _ _ Hb) in Hi|]. unfold phase_inv. by rewrite (bt_started _ _ Hb). }
  assert (Hinv0 : sys_inv cf s0) by (by apply boot_inv). clear Hb H0.
  enough (H : kept idle live s) by apply H. induction Hr as [|x y z Hs _ IH]; [done|].
  apply IH; [by eapply kept_step|by eapply sys_step_inv].
Qed.
End steps.
End handlers.
