(* ===== verification/WifiHistory.v ===== *)
(** * WifiHistory: the Wi-Fi handler inside the running program

    WifiConfig.v proves what the handler does on its own, for any order of requests,
    results and retries. Here the manager runs it: the handler is set up and taken down
    with the service, its requests come through protocomm and a security scheme from any
    transport, and the manager's own events, scans, heap and crypto traffic share the
    platform with it. Its invariant, and with it the monitor of its traffic, holds in
    every state of the whole program. *)
From S2P Require Import Prelude Platform PbUtil Messages Protocomm Security0 Psa Security1 NetEnv.
From S2P Require WifiScan ThreadConfig ThreadScan.
From S2P Require Import WifiConfig WifiCtrl Frame Manager ManagerFrame ManagerInv ManagerFacts Handlers.

Section wifi_history.
Context {E : Type} `{HH : KHeap E} `{NL : NetLog E} `{!NetHeapLaws E}.
Context `{WN : WifiNet E} `{!WifiNetLaws E} `{OT : OpenThread E} `{!OpenThreadLaws E}.
Context `{PS : PSA E} `{K : Kernel} {KL : KernelLaws} `{SC : Schemes} `{AP : Application E} `{ST : Settings E}.
Context `{!ManagerEnvLaws E}.
Context `{P1 : PbMsg SessionData} `{P2 : PbMsg NetworkConfigPayload} `{P3 : PbMsg NetworkScanPayload}.
Context `{P4 : PbMsg NetworkCtrlPayload} `{UV : UnionViews}.
Context {SO : SchemeOps sys} {AC : AppConfigs}.
Context (cf : build_config).

(** ** What does not concern the monitor *)
Definition quiet (a : net_action) : bool :=
  match a with
  | A_wifi_connect _ _ _ | A_cred_set _ _ | A_cred_delete _ | A_cred_delete_all _ => false
  | A_emit ev => negb (is_cred_event ev)
  | _ => true
  end.
Lemma quiet_step n m a : quiet a = true → mon_step n m a = m.
Proof. by destruct a as [[]| | | | | | | | | | | | | |]. Qed.

Definition hush (x y : prov_env) : Prop := ∀ n, monitor n (net_log y) = monitor n (net_log x).
#[export] Instance hush_preorder : PreOrder hush.
Proof. split; [by intros x n|]. intros x y z H1 H2 n. by rewrite H2, H1. Qed.
Lemma hush_log (x y : prov_env) : net_log y = net_log x → hush x y.
Proof. intros Hl n. by rewrite Hl. Qed.
Lemma hush_snoc (x y : prov_env) a : net_log y = net_log x ++ [a] → quiet a = true → hush x y.
Proof. intros Hl Ha n. by rewrite Hl, monitor_snoc, quiet_step. Qed.
Lemma hush_after (x0 x y : prov_env) : hush x y → hush x0 x → hush x0 y.
Proof. intros. by etrans. Qed.

#[export] Instance hush_heap : HeapFrame prov_env hush.
Proof.
  split; intros; (eapply hush_after; [|done]); apply hush_log; [apply malloc_log|apply free_log].
Qed.
#[export] Instance hush_scan : ScanFrame prov_env hush.
Proof.
  split; intros; (eapply hush_after; [|done]).
  - destruct (wifi_scan i e) as [rc y] eqn:Hs. by eapply hush_snoc; [apply (wifi_scan_log _ _ _ _ Hs)|].
  - by eapply hush_snoc; [apply cb_add_log|].
  - by eapply hush_snoc; [apply cb_del_log|].
Qed.

(** ** The handler's invariant in the handlers' state *)
#[local] Hint Extern 0 (EmitEvent prov_env) => exact (network_prov_emit cf) : typeclass_instances.
Context (n : Z) (n_range : 0 <= n <= UINT32_MAX) (wifi_build : cf_thread cf = false).

Definition wifi_ok (x : netst) : Prop := wifi_inv n (n_wc x, n_env x).

(** What a request keeps while the handler is registered. *)
Definition wrel (x y : netst) : Prop :=
  n_tc y = n_tc x ∧ wc_cb_registered (n_wc y) = wc_cb_registered (n_wc x) ∧
  (wc_cb_registered (n_wc x) = true → wifi_ok x → wifi_ok y).
#[export] Instance wrel_preorder : PreOrder wrel.
Proof.
  split; [by intros x|]. intros x y z (H1 & H2 & H3) (H4 & H5 & H6).
  split; [congruence|]. split; [congruence|]. intros Hc Hx. apply H6; [congruence|auto].
Qed.

(** Nothing of the handler's is touched. *)
Definition wstill (x y : netst) : Prop := n_tc y = n_tc x ∧ n_wc y = n_wc x ∧ hush (n_env x) (n_env y).
#[export] Instance wstill_preorder : PreOrder wstill.
Proof.
  split; [by intros x|]. intros x y z (H1 & H2 & H3) (H4 & H5 & H6).
  split; [congruence|]. split; [congruence|]. by etrans.
Qed.
Lemma wstill_ok x y : wstill x y → wifi_ok x → wifi_ok y.
Proof. intros (_ & Hw & Hl). unfold wifi_ok. rewrite Hw. apply wifi_inv_monitor, Hl. Qed.
Lemma wstill_wrel x y : wstill x y → wrel x y.
Proof.
  intros Hs. pose proof (wstill_ok _ _ Hs). destruct Hs as (Ht & Hw & _). split; [done|]. by rewrite Hw.
Qed.

Lemma wstill_plat (x0 x : netst) (e : E) : net_log e = net_log (n_plat x) → wstill x0 x → wstill x0 (set_plat e x).
Proof. intros He Hx. etrans; [exact Hx|]. split; [done|]. split; [done|]. by apply hush_log. Qed.
Lemma wrel_plat (x0 x : netst) (e : E) : net_log e = net_log (n_plat x) → wrel x0 x → wrel x0 (set_plat e x).
Proof. intros He Hx. etrans; [exact Hx|]. by apply wstill_wrel, wstill_plat. Qed.
#[local] Instance wrel_securities :
  @SecuritiesFrame netst prov_handler nat network_prov_security _ (prov_callbacks cf) wrel :=
  platform_securities cf wrel wrel_plat.
#[local] Instance wrel_heap : HeapFrame netst wrel := platform_heap wrel wrel_plat.
#[local] Instance wstill_heap : HeapFrame netst wstill := platform_heap wstill wstill_plat.
Lemma moved_wstill x y : plat_moved x y → wstill x y.
Proof. intros (e & -> & He). by apply wstill_plat. Qed.

(** *** The handlers of a Wi-Fi build *)
Lemma wrel_config b priv (x : netst) : wrel x (call_handler (Callbacks := prov_callbacks cf) H_wifi_config priv b x).2.
Proof.
  cbn -[env_wifi env_heap env_log]. pose proof (handler_registered b (n_wc x) (n_env x)) as Hreg.
  destruct (network_prov_wifi_config_handler b (n_wc x) (n_env x)) as [[[rc out] wc] y] eqn:Hr.
  split; [done|]. split; [exact Hreg|]. intros Hcb Hok. unfold wifi_ok. cbn [n_wc n_env].
  exact (wifi_step_inv n _ _ n_range (ws_request n b _ _ _ _ _ _ Hcb Hr) Hok).
Qed.
Lemma wrel_ctrl b priv (x : netst) : wrel x (call_handler (Callbacks := prov_callbacks cf) H_wifi_ctrl priv b x).2.
Proof.
  cbn -[env_wifi env_heap env_log]. unfold network_prov_wifi_ctrl_handler.
  assert (Hreset : ∀ y : prov_env, net_log y = net_log (n_env x) →
    wrel x (x <| n_wc := network_prov_wifi_config_reset (n_wc x) |> <| n_env := y |>)).
  { intros y Hy. split; [done|]. split; [done|]. intros Hcb Hok. unfold wifi_ok. cbn [n_wc n_env].
    refine (wifi_inv_log n _ (n_env x) y Hy _). by apply reset_inv; [lia|]. }
  destruct (pb_decode b) as [req|]; [|destruct x; reflexivity].
  destruct (ctrl_msg req =? TypeCmdCtrlWifiReset); [|destruct (ctrl_msg req =? TypeCmdCtrlWifiReprov);
    [|destruct x; reflexivity]].
  - pose proof (pb_encode_log (mk_ctrl TypeRespCtrlWifiReset Status_Success ctrl_resp_wifi_reset) (n_env x)) as Hl.
    destruct (network_prov_pb_encode _ _) as [[rc out] y]. by apply Hreset.
  - pose proof (pb_encode_log (mk_ctrl TypeRespCtrlWifiReprov Status_Success ctrl_resp_wifi_reprov) (n_env x)) as Hl.
    destruct (network_prov_pb_encode _ _) as [[rc out] y]. by apply Hreset.
Qed.
Lemma wrel_scan b priv (x : netst) : wrel x (call_handler (Callbacks := prov_callbacks cf) H_wifi_scan priv b x).2.
Proof.
  apply wstill_wrel. cbn -[env_wifi env_heap env_log].
  pose proof (frame_wifi_scan hush (cf_scan_max cf) b (n_wifi_arrivals x) (n_sc x) _ _ (reflexivity (n_env x))) as Hf.
  destruct (WifiScan.network_prov_wifi_scan_handler _ _ _ _ _) as [[[[? ?] ?] ?] y]. split; [done|]. by split.
Qed.

(** An endpoint of the served table. *)
Lemma wrel_ep ep (p : protocomm prov_handler nat network_prov_security _) (m : manager _ _ _ _ _) :
  served cf p m → ep ∈ endpoints p → ep_frame (CB := prov_callbacks cf) wrel ep.
Proof.
  intros (_ & _ & He) Hin h b x0 x Hh Hx. etrans; [exact Hx|]. clear Hx x0. rewrite He in Hin.
  apply elem_of_app in Hin as [Hin|Hin].
  - unfold builtin_endpoints in Hin. rewrite wifi_build in Hin. rewrite !elem_of_cons in Hin.
    destruct Hin as [->|[->|[->|[->|[->|Hin]]]]]; cbn [ep_handler] in Hh; try done; try (by apply elem_of_nil in Hin);
      injection Hh as <-; [apply wrel_scan|apply wrel_config|apply wrel_ctrl].
  - apply custom_endpoint_handler in Hin as Hc.
    rewrite Hc in Hh. injection Hh as <-. by apply (platform_trampoline wrel wrel_plat).
Qed.

(** *** The two phases *)
Context (one_budget : ∀ c, configured c → mc_wifi_conn_attempts c = n).

(** Between services the callback is not registered, during one it is; no Thread attach
    is ever pending in a Wi-Fi build. *)
Definition wifi_phase (registered : bool) (x : netst) : Prop :=
  wifi_ok x ∧ wc_cb_registered (n_wc x) = registered ∧ ThreadConfig.tc_pending (n_tc x) ≠ 1.

Lemma phase_wrel r x y : wrel x y → r = true → wifi_phase r x → wifi_phase r y.
Proof.
  intros (Ht & Hc & Hok) -> (H1 & H2 & H3). split; [by apply Hok|]. by rewrite Hc, Ht.
Qed.
Lemma phase_wstill r x y : wstill x y → wifi_phase r x → wifi_phase r y.
Proof.
  intros Hs (H1 & H2 & H3). split; [by eapply wstill_ok|]. destruct Hs as (-> & -> & _). done.
Qed.
Lemma phase_config r wc' (y : prov_env) (x : netst) :
  wifi_step n (n_wc x, n_env x) (wc', y) → wc_cb_registered wc' = r →
  wifi_phase (wc_cb_registered (n_wc x)) x → wifi_phase r (x <| n_wc := wc' |> <| n_env := y |>).
Proof. intros Hs Hr (H1 & _ & H3). split; [by eapply wifi_step_inv|done]. Qed.

Lemma phase_quiet_event r ev (x : netst) : is_cred_event ev = false → wifi_phase r x → wifi_phase r (emit cf ev x).
Proof.
  intros Hev. apply phase_wstill. split; [done|]. split; [done|].
  eapply hush_snoc; [apply emit_event_log|]. cbn. by rewrite Hev.
Qed.

Lemma phase_deliver r ev x : due ev x → wifi_phase r x → wifi_phase r (deliver cf ev x).
Proof.
  intros Hdue Hp. pose proof Hp as (H1 & H2 & H3).
  destruct ev as [st c| |sev|rc| |d|w t]; cbn [deliver due] in *; try done.
  - pose proof (result_registered st c (n_wc x) (n_env x)) as Hreg.
    destruct (on_connect_result st c (n_wc x) (n_env x)) as [wc' y] eqn:Hr. cbn [fst] in Hreg.
    apply phase_config; [by eapply ws_result|by rewrite Hreg|by rewrite H2].
  - cbv zeta. set (fired := _ <| wc_retry_work := _ |>).
    pose proof (retry_registered fired (n_env x)) as Hreg.
    destruct (retry_work_handler fired (n_env x)) as [wc' y] eqn:Hr. cbn [fst] in Hreg.
    apply phase_config; [by eapply ws_retry|rewrite Hreg; exact H2|by rewrite H2].
  - destruct (ThreadConfig.ot_state_changed rc (n_tc x) (n_env x)) as [tc y] eqn:Hr.
    unfold ThreadConfig.ot_state_changed, ThreadConfig.on_attached, ThreadConfig.claim in Hr.
    rewrite (proj2 (Z.eqb_neq _ _) H3) in Hr. cbn [negb] in Hr.
    assert (tc = n_tc x ∧ y = n_env x) as [-> ->] by (repeat case_match; by simplify_eq).
    by split.
  - cbv zeta. unfold ThreadConfig.attach_timeout_fn, ThreadConfig.claim. cbn [ThreadConfig.tc_pending].
    destruct (_ =? 1) eqn:Hz; [|by split]. breflect. cbn in Hz. done.
Qed.

Lemma phase_init p (x : netst) ret p' x' :
  budgeted x → wifi_phase false x → net_endpoints_init cf p x = (ret, p', x') →
  if ret =? 0 then wifi_phase true x' else wifi_phase false x' ∨ wifi_phase true x'.
Proof.
  intros (c & Hc & Hb) Hp Hrun. unfold net_endpoints_init in Hrun. rewrite wifi_build in Hrun. cbv zeta in Hrun.
  destruct (WifiScan.network_prov_wifi_scan_init (n_sc x) (n_env x)) as [[r1 sc] y1] eqn:Hscan.
  pose proof (frame_scan_init hush (n_sc x) _ _ (reflexivity (n_env x))) as Hh. rewrite Hscan in Hh.
  assert (r1 = 0 ∧ y1.1 = n_mgr x) as [-> Hm].
  { unfold WifiScan.network_prov_wifi_scan_init in Hscan. repeat case_match; by simplify_eq. }
  cbn [Z.eqb negb] in Hrun. set (x1 := x <| n_sc := sc |> <| n_env := y1 |>) in Hrun.
  assert (Hp1 : wifi_phase false x1) by (refine (phase_wstill _ x _ _ Hp); split; [done|by split]).
  assert (Hb1 : mg_wifi_conn_attempts (n_mgr x1) = n) by (change (n_mgr x1) with y1.1; by rewrite Hm, Hb, one_budget).
  clearbody x1. clear Hh Hscan Hm Hp. rewrite Hb1 in Hrun.
  destruct (protocomm_add_endpoint _ _ _ _) as [r2 q2]. destruct (negb (r2 =? 0)) eqn:Hr2.
  { injection Hrun as <- <- <-. destruct (r2 =? 0); [done|by left]. }
  destruct (network_prov_wifi_config_init n (n_wc x1) (n_env x1)) as [[r3 wc] y2] eqn:Hinit.
  pose proof Hp1 as (Hok & Hoff & Htc).
  assert (r3 = 0 ∧ wc_cb_registered wc = true) as [-> Hreg].
  { unfold network_prov_wifi_config_init in Hinit. cbv zeta in Hinit.
    change (wc_cb_registered (_ <| wc_retry_work := _ |>)) with (wc_cb_registered (n_wc x1)) in Hinit.
    rewrite Hoff in Hinit. cbn [negb] in Hinit. injection Hinit as <- <- _. done. }
  cbn [Z.eqb negb] in Hrun. set (x2 := x1 <| n_wc := wc |> <| n_env := y2 |>) in Hrun.
  assert (Hp2 : wifi_phase true x2).
  { apply phase_config; [by apply ws_init|done|by rewrite Hoff]. }
  clearbody x2. repeat case_match; simplify_eq; auto.
Qed.

Lemma phase_deinit x : wifi_phase false x ∨ wifi_phase true x → wifi_phase false (net_endpoints_deinit cf x).
Proof.
  intros Hp. unfold net_endpoints_deinit. rewrite wifi_build.
  pose proof (frame_scan_deinit hush (n_sc x) _ _ (reflexivity (n_env x))) as Hh.
  destruct (WifiScan.network_prov_wifi_scan_deinit (n_sc x) (n_env x)) as [sc y1]. cbv zeta.
  set (x1 := x <| n_sc := sc |> <| n_env := y1 |>).
  assert (Hp1 : wifi_phase false x1 ∨ wifi_phase true x1).
  { destruct Hp; [left|right]; (eapply phase_wstill; [|eassumption]; split; [done|by split]). }
  clearbody x1. destruct (network_prov_wifi_config_deinit (n_wc x1) (n_env x1)) as [wc y2] eqn:Hd.
  apply phase_config.
  - by apply ws_deinit.
  - unfold network_prov_wifi_config_deinit in Hd. cbv zeta in Hd. case_match; by simplify_eq.
  - destruct Hp1 as [Hp1|Hp1]; pose proof Hp1 as (_ & -> & _); done.
Qed.

#[local] Instance wifi_service : ServiceProtocol cf (wifi_phase false) (wifi_phase true).
Proof.
  split.
  - intros f x. apply (both_phases wifi_phase). intros r. by apply phase_wstill.
  - intros e x He. apply (both_phases wifi_phase). intros r. by apply phase_wstill, wstill_plat.
  - intros ev x Hev. apply (both_phases wifi_phase). intros r. by apply phase_quiet_event.
  - apply phase_init.
  - apply phase_deinit.
Qed.
#[export] Instance wifi_protocol : HandlerProtocol cf (wifi_phase false) (wifi_phase true).
Proof.
  split; [apply _|..].
  - intros ev x Hdue. apply (both_phases wifi_phase). intros r. by apply phase_deliver.
  - intros p name b x rc out p' x' Hw Hlive Hrun.
    apply (phase_wrel true x); [|done|exact Hlive].
    eapply (frame_table (CB := prov_callbacks cf) wrel); [|exact Hrun|reflexivity].
    intros q ep [= <-] Hin. by eapply wrel_ep.
  - intros x (H1 & H2 & H3). unfold net_config_reset. rewrite wifi_build.
    split; [by apply reset_inv; [lia|]|by split].
  - intros s. unfold network_prov_mgr_reset_wifi_provisioning. rewrite wifi_build.
    destruct (negb _); [by split|]. pose proof (cred_delete_all_log (n_env (sy_net s))) as Hl.
    destruct (wifi_credentials_delete_all _) as [rc y]. specialize (Hl _ _ eq_refl).
    apply (both_phases wifi_phase). intros r (H1 & H2 & H3). split; [by eapply erase_inv|by split].
  - intros ssid psk s Hp. unfold network_prov_mgr_configure_wifi_sta. rewrite wifi_build.
    destruct (negb _); [exact Hp|]. destruct (null_or_empty ssid); [exact Hp|]. cbv zeta.
    match goal with |- context [network_prov_wifi_config_set_and_apply ?a ?b ?c ?d ?w ?y] =>
      pose proof (set_apply_registered a b c d w y) as Hreg;
      destruct (network_prov_wifi_config_set_and_apply a b c d w y) as [[rc wc] y'] eqn:Hr end.
    cbn [fst snd] in Hreg. pose proof Hp as (_ & Hcb & _).
    apply (phase_config true wc y' (sy_net s)); [|by rewrite Hreg|by rewrite Hcb].
    eapply ws_apply; [done| | |exact Hr]; unfold strlen; lia.
Qed.
(** What a status request would be told agrees with the monitor. *)
Definition told_truth (s : sys) : Prop :=
  let wc := n_wc (sy_net s) in
  ∀ st state, cfg_payload (get_status_resp wc (n_env (sy_net s))) = cfg_resp_get_wifi_status Status_Success st state →
    report_agrees n (monitor n (net_log (n_plat (sy_net s)))) (wc_attempts_completed wc) st state.

(** C3: The Wi-Fi handler inside the running program. However application calls,
    requests from any transport, connect results, retries, scans and expiring work
    interleave, over any number of services one after another, all of the traffic of
    the program with the network, the credentials store and the application conforms to
    the handler's monitor: one terminal event per CRED_RECV, connect requests only with
    the stored credentials and within the budget, the store as announced. While a
    service runs, what a status request would be told agrees with it; between services
    nothing is in flight. *)
Theorem program_wifi_history {SL : SchemeLaws} (custom_range : (cf_custom_max cf ≤ 3)%nat) (s0 s : sys) :
  boot cf s0 → net_log (n_plat (sy_net s0)) = [] → n_wc (sy_net s0) = wc_zero →
  ThreadConfig.tc_pending (n_tc (sy_net s0)) ≠ 1 → rtc (sys_step cf) s0 s →
  mo_ok (monitor n (net_log (n_plat (sy_net s)))) = true ∧
  (if mg_started (sy_mgr s) then told_truth s
   else let wc := n_wc (sy_net s) in wc_inflight_ssid wc = [] ∧ wc_cb_registered wc = false).
Proof.
  intros Hb Hl Hw Ht Hr.
  assert (H0 : wifi_phase false (sy_net s0)).
  { split; [|rewrite Hw; by split]. unfold wifi_ok. rewrite Hw. by apply wifi_zero_inv; [lia|]. }
  pose proof (protocol_run cf custom_range (wifi_phase false) (wifi_phase true) s0 s Hb H0 Hr) as Hp.
  unfold by_phase in Hp. destruct (mg_started (sy_mgr s)); destruct Hp as (Hok & Hcb & _).
  - split; [exact (wi_ok _ _ Hok)|]. intros st state. intros Heq. exact (status_agrees n _ _ st state (proj2 n_range) Hok Hcb Heq).
  - split; [exact (wi_ok _ _ Hok)|]. split; [|done]. by apply (wi_off _ _ Hok).
Qed.
End wifi_history.
