(* ===== verification/ThreadHistory.v ===== *)
(** * ThreadHistory: the Thread handler inside the running program

    The counterpart of WifiHistory.v for a Thread build: the invariant ThreadConfig.v
    proves of the handler on its own holds in every state of the whole program, whatever
    the manager, the transports, scans, the heap and crypto do on the same platform. *)
From S2P Require Import Prelude Platform PbUtil Messages Protocomm Security0 Psa Security1 NetEnv.
From S2P Require WifiConfig ThreadScan.
From S2P Require Import ThreadConfig ThreadCtrl Frame Manager ManagerFrame ManagerInv ManagerFacts Handlers.

Section thread_history.
Context {E : Type} `{HH : KHeap E} `{NL : NetLog E} `{!NetHeapLaws E}.
Context `{WN : WifiNet E} `{!WifiNetLaws E} `{OT : OpenThread E} `{!OpenThreadLaws E}.
Context `{PS : PSA E} `{K : Kernel} {KL : KernelLaws} `{SC : Schemes} `{AP : Application E} `{ST : Settings E}.
Context `{!ManagerEnvLaws E}.
Context `{P1 : PbMsg SessionData} `{P2 : PbMsg NetworkConfigPayload} `{P3 : PbMsg NetworkScanPayload}.
Context `{P4 : PbMsg NetworkCtrlPayload} `{UV : UnionViews}.
Context {SO : SchemeOps sys} {AC : AppConfigs}.
Context (cf : build_config) (thread_build : cf_thread cf = true).

(** ** What does not concern the handler's account of its attempts *)
Definition idle_action (a : net_action) : bool :=
  match a with
  | A_ot_dataset_set _ _ => false
  | A_emit ev => negb (is_cred_event ev)
  | _ => true
  end.

Definition account (x : prov_env) : Z * Z * option bool :=
  (recvs (net_log x), terminals (net_log x), last_outcome (net_log x)).
Definition silent (x y : prov_env) : Prop :=
  account y = account x ∧ (Forall dataset_legal (net_log x) → Forall dataset_legal (net_log y)).
#[export] Instance silent_preorder : PreOrder silent.
Proof. split; [by intros x|]. intros x y z [H1 H2] [H3 H4]. split; [congruence|auto]. Qed.
Lemma silent_log (x y : prov_env) : net_log y = net_log x → silent x y.
Proof. intros Hl. unfold silent, account. by rewrite Hl. Qed.
Lemma silent_snoc (x y : prov_env) a : net_log y = net_log x ++ [a] → idle_action a = true → silent x y.
Proof.
  intros Hl Ha. unfold silent, account. rewrite Hl, recvs_snoc, terminals_snoc, last_outcome_snoc.
  assert (is_recv a = false ∧ is_terminal a = false ∧ outcome_step (last_outcome (net_log x)) a = last_outcome (net_log x)
    ∧ dataset_legal a) as (-> & -> & -> & Hd) by (destruct a as [[]| | | | | | | | | | | | | |]; by try discriminate Ha).
  split; [f_equal; f_equal; lia|]. intros. by apply forall_snoc.
Qed.
Lemma silent_after (x0 x y : prov_env) : silent x y → silent x0 x → silent x0 y.
Proof. intros. by etrans. Qed.
Lemma silent_inv tc (x y : prov_env) : silent x y → thread_inv (tc, x) → thread_inv (tc, y).
Proof.
  intros [Ha Hl] []. injection Ha as H1 H2 H3. split; cbn in *; rewrite ?H1, ?H2, ?H3; auto.
Qed.

#[export] Instance silent_heap : HeapFrame prov_env silent.
Proof.
  split; intros; (eapply silent_after; [|done]); apply silent_log; [apply malloc_log|apply free_log].
Qed.
#[export] Instance silent_discover : DiscoverFrame prov_env silent.
Proof.
  split; intros; (eapply silent_after; [|done]).
  - by eapply silent_snoc; [apply ot_ip6_log|].
  - destruct (otThreadDiscover m e) as [err y] eqn:Hs. by eapply silent_snoc; [apply (ot_discover_log _ _ _ _ Hs)|].
Qed.

(** ** The handler's invariant in the handlers' state *)
#[local] Hint Extern 0 (EmitEvent prov_env) => exact (network_prov_emit cf) : typeclass_instances.

(** The Wi-Fi handler is never set up in a Thread build. *)
Definition wifi_off (x : netst) : Prop :=
  WifiConfig.wc_cb_registered (n_wc x) = false ∧ k_work_pending (WifiConfig.wc_retry_work (n_wc x)) = None.

(** Between services the OpenThread callback is not registered, during one it is. *)
Definition thread_phase (registered : bool) (x : netst) : Prop :=
  thread_inv (n_tc x, n_env x) ∧ tc_cb_registered (n_tc x) = registered ∧ wifi_off x.

(** What a request keeps. *)
Definition trel (x y : netst) : Prop := ∀ r, thread_phase r x → r = true → thread_phase r y.
#[export] Instance trel_preorder : PreOrder trel.
Proof. split; [by intros x r|]. intros x y z H1 H2 r Hx Hr. by apply H2; [apply H1|]. Qed.

Definition tstill (x y : netst) : Prop := n_tc y = n_tc x ∧ n_wc y = n_wc x ∧ silent (n_env x) (n_env y).
#[export] Instance tstill_preorder : PreOrder tstill.
Proof.
  split; [by intros x|]. intros x y z (H1 & H2 & H3) (H4 & H5 & H6).
  split; [congruence|]. split; [congruence|]. by etrans.
Qed.
Lemma phase_tstill r x y : tstill x y → thread_phase r x → thread_phase r y.
Proof.
  intros (Ht & Hw & Hs) (H1 & H2 & H3). unfold thread_phase, wifi_off. rewrite Ht, Hw.
  split; [by eapply silent_inv|done].
Qed.
Lemma tstill_trel x y : tstill x y → trel x y.
Proof. intros Hs r Hx _. by eapply phase_tstill. Qed.

Lemma tstill_plat (x0 x : netst) (e : E) : net_log e = net_log (n_plat x) → tstill x0 x → tstill x0 (set_plat e x).
Proof. intros He Hx. etrans; [exact Hx|]. split; [done|]. split; [done|]. by apply silent_log. Qed.
Lemma trel_plat (x0 x : netst) (e : E) : net_log e = net_log (n_plat x) → trel x0 x → trel x0 (set_plat e x).
Proof. intros He Hx. etrans; [exact Hx|]. by apply tstill_trel, tstill_plat. Qed.
#[local] Instance trel_securities :
  @SecuritiesFrame netst prov_handler nat network_prov_security _ (prov_callbacks cf) trel :=
  platform_securities cf trel trel_plat.
#[local] Instance trel_heap : HeapFrame netst trel := platform_heap trel trel_plat.

(** One step of the handler. *)
Lemma phase_thread r tc' (y : prov_env) (x : netst) :
  thread_step (n_tc x, n_env x) (tc', y) → tc_cb_registered tc' = r →
  thread_phase (tc_cb_registered (n_tc x)) x → thread_phase r (x <| n_tc := tc' |> <| n_env := y |>).
Proof. intros Hs Hr (H1 & _ & H3). split; [by eapply thread_step_inv|done]. Qed.
Lemma trel_step tc' (y : prov_env) (x : netst) :
  (tc_cb_registered (n_tc x) = true → thread_step (n_tc x, n_env x) (tc', y)) →
  tc_cb_registered tc' = tc_cb_registered (n_tc x) → trel x (x <| n_tc := tc' |> <| n_env := y |>).
Proof.
  intros Hs Hr r Hp ->. pose proof Hp as (_ & Hcb & _). apply phase_thread; [auto|congruence|by rewrite Hcb].
Qed.

Lemma trel_config b priv (x : netst) : trel x (call_handler (Callbacks := prov_callbacks cf) H_thread_config priv b x).2.
Proof.
  cbn -[env_openthread env_heap env_log]. pose proof (thread_handler_registered b (n_tc x) (n_env x)) as Hreg.
  destruct (network_prov_thread_config_handler b (n_tc x) (n_env x)) as [[[rc out] tc] y] eqn:Hr.
  apply trel_step; [|exact Hreg]. intros Hcb. exact (ts_request b _ _ _ _ _ _ Hcb Hr).
Qed.
Lemma trel_ctrl b priv (x : netst) : trel x (call_handler (Callbacks := prov_callbacks cf) H_thread_ctrl priv b x).2.
Proof.
  cbn -[env_openthread env_heap env_log]. unfold network_prov_thread_ctrl_handler.
  assert (Hreset : ∀ tc1 e1 y, network_prov_thread_config_reset (n_tc x) (n_env x) = (tc1, e1) → net_log y = net_log e1 →
    trel x (x <| n_tc := tc1 |> <| n_env := y |>)).
  { intros tc1 e1 y Hr Hy. etrans; [apply (trel_step tc1 e1)|].
    - intros Hcb. by eapply ts_reset.
    - by apply (f_equal fst) in Hr; cbn [fst network_prov_thread_config_reset] in Hr; rewrite <- Hr.
    - apply tstill_trel. split; [done|]. split; [done|]. by apply silent_log. }
  destruct (pb_decode b) as [req|]; [|destruct x; reflexivity].
  destruct (ctrl_msg req =? TypeCmdCtrlThreadReset); [|destruct (ctrl_msg req =? TypeCmdCtrlThreadReprov);
    [|destruct x; reflexivity]];
    destruct (network_prov_thread_config_reset (n_tc x) (n_env x)) as [tc1 e1];
    match goal with |- context [network_prov_pb_encode ?m e1] => pose proof (pb_encode_log m e1) as Hl end;
    destruct (network_prov_pb_encode _ _) as [[rc out] y]; by eapply Hreset.
Qed.
Lemma trel_scan b priv (x : netst) : trel x (call_handler (Callbacks := prov_callbacks cf) H_thread_scan priv b x).2.
Proof.
  apply tstill_trel. cbn -[env_openthread env_heap env_log].
  pose proof (frame_thread_scan silent (cf_scan_max cf) b (n_thread_arrivals x) (n_ts x) _ _ (reflexivity (n_env x))) as Hf.
  destruct (ThreadScan.network_prov_thread_scan_handler _ _ _ _ _) as [[[[? ?] ?] ?] y]. split; [done|]. by split.
Qed.

(** An endpoint of the served table. *)
Lemma trel_ep ep (p : protocomm prov_handler nat network_prov_security _) (m : manager _ _ _ _ _) :
  served cf p m → ep ∈ endpoints p → ep_frame (CB := prov_callbacks cf) trel ep.
Proof.
  intros (_ & _ & He) Hin h b x0 x Hh Hx. etrans; [exact Hx|]. clear Hx x0. rewrite He in Hin.
  apply elem_of_app in Hin as [Hin|Hin].
  - unfold builtin_endpoints in Hin. rewrite thread_build in Hin. rewrite !elem_of_cons in Hin.
    destruct Hin as [->|[->|[->|[->|[->|Hin]]]]]; cbn [ep_handler] in Hh; try done; try (by apply elem_of_nil in Hin);
      injection Hh as <-; [apply trel_scan|apply trel_config|apply trel_ctrl].
  - apply custom_endpoint_handler in Hin as Hc.
    rewrite Hc in Hh. injection Hh as <-. by apply (platform_trampoline trel trel_plat).
Qed.

(** *** The two phases *)
Lemma thread_quiet_event r ev (x : netst) : is_cred_event ev = false → thread_phase r x → thread_phase r (emit cf ev x).
Proof.
  intros Hev. apply phase_tstill. split; [done|]. split; [done|].
  eapply silent_snoc; [apply emit_event_log|]. cbn. by rewrite Hev.
Qed.

Lemma thread_deliver r ev x : due ev x → thread_phase r x → thread_phase r (deliver cf ev x).
Proof.
  intros Hdue Hp. pose proof Hp as (H1 & H2 & H3 & H4).
  destruct ev as [st c| |sev|rc| |d|w t]; cbn [deliver due] in *; try done.
  - congruence.
  - rewrite H4 in Hdue. by destruct Hdue.
  - pose proof (changed_registered rc (n_tc x) (n_env x)) as Hreg.
    destruct (ot_state_changed rc (n_tc x) (n_env x)) as [tc y] eqn:Hr. cbn [fst] in Hreg.
    apply phase_thread; [by eapply ts_callback|by rewrite Hreg|by rewrite H2].
  - cbv zeta. set (fired := _ <| tc_attach_timeout := _ |>).
    pose proof (timeout_registered fired (n_env x)) as Hreg.
    destruct (attach_timeout_fn fired (n_env x)) as [tc y] eqn:Hr. cbn [fst] in Hreg.
    apply phase_thread; [by eapply ts_timeout|rewrite Hreg; exact H2|by rewrite H2].
Qed.

Lemma thread_set_up p (x : netst) ret p' x' :
  thread_phase false x → net_endpoints_init cf p x = (ret, p', x') →
  if ret =? 0 then thread_phase true x' else thread_phase false x' ∨ thread_phase true x'.
Proof.
  intros Hp Hrun. unfold net_endpoints_init in Hrun. rewrite thread_build in Hrun. cbv zeta in Hrun.
  destruct (ThreadScan.network_prov_thread_scan_init (n_ts x)) as [r1 ts].
  set (x1 := x <| n_ts := ts |>) in Hrun. assert (Hp1 : thread_phase false x1) by exact Hp. clearbody x1. clear Hp.
  destruct (negb (r1 =? 0)) eqn:Hr1; breflect.
  { injection Hrun as <- <- <-. rewrite (proj2 (Z.eqb_neq _ _)) by done. by left. }
  destruct (protocomm_add_endpoint _ _ _ _) as [r2 q2]. destruct (negb (r2 =? 0)) eqn:Hr2; breflect.
  { injection Hrun as <- <- <-. rewrite (proj2 (Z.eqb_neq _ _)) by done. by left. }
  destruct (network_prov_thread_config_init (n_env x1)) as [[r3 tc] y2] eqn:Hinit.
  pose proof Hp1 as (Hinv & Hoff & Hw).
  assert (Hreg : tc_cb_registered tc = (r3 =? 0)).
  { unfold network_prov_thread_config_init in Hinit. cbv zeta in Hinit.
    destruct (openthread_cb_register _) as [rr yy]. destruct (rr =? 0) eqn:Hz; cbn [negb] in Hinit; breflect;
      injection Hinit as <- <- _; [done|]. by rewrite (proj2 (Z.eqb_neq _ _)). }
  set (x2 := x1 <| n_tc := tc |> <| n_env := y2 |>) in Hrun.
  assert (Hp2 : thread_phase (r3 =? 0) x2).
  { apply phase_thread; [by eapply ts_init|done|by rewrite Hoff]. }
  clearbody x2. destruct (r3 =? 0) eqn:Hz; cbn [negb] in Hrun; [|injection Hrun as <- <- <-; rewrite Hz; by left].
  repeat case_match; simplify_eq; auto.
Qed.

Lemma thread_take_down x : thread_phase false x ∨ thread_phase true x → thread_phase false (net_endpoints_deinit cf x).
Proof.
  intros Hp. unfold net_endpoints_deinit. rewrite thread_build. cbv zeta.
  set (x1 := x <| n_ts := _ |>). assert (Hp1 : thread_phase false x1 ∨ thread_phase true x1) by exact Hp.
  clearbody x1. destruct (network_prov_thread_config_deinit (n_tc x1) (n_env x1)) as [tc y2] eqn:Hd.
  apply phase_thread.
  - by apply ts_deinit.
  - unfold network_prov_thread_config_deinit in Hd. cbv zeta in Hd.
    destruct (tc_cb_registered _) eqn:Hc; injection Hd as <- _; [done|exact Hc].
  - destruct Hp1 as [Hp1|Hp1]; pose proof Hp1 as (_ & -> & _); done.
Qed.

#[local] Instance thread_service : ServiceProtocol cf (thread_phase false) (thread_phase true).
Proof.
  split.
  - intros f x. apply (both_phases thread_phase). intros r. by apply phase_tstill.
  - intros e x He. apply (both_phases thread_phase). intros r. by apply phase_tstill, tstill_plat.
  - intros ev x Hev. apply (both_phases thread_phase). intros r. by apply thread_quiet_event.
  - intros p x ret p' x' _. apply thread_set_up.
  - apply thread_take_down.
Qed.
#[export] Instance thread_protocol : HandlerProtocol cf (thread_phase false) (thread_phase true).
Proof.
  split; [apply _|..].
  - intros ev x Hdue. apply (both_phases thread_phase). intros r. by apply thread_deliver.
  - intros p name b x rc out p' x' Hw Hlive Hrun.
    assert (Ht : trel x x'); [|exact (Ht true Hlive eq_refl)].
    eapply (frame_table (CB := prov_callbacks cf) trel); [|exact Hrun|reflexivity].
    intros q ep [= <-] Hin. by eapply trel_ep.
  - intros x Hp. pose proof Hp as (_ & Hcb & _). unfold net_config_reset. rewrite thread_build.
    destruct (network_prov_thread_config_reset (n_tc x) (n_env x)) as [tc y] eqn:Hr.
    apply phase_thread; [by apply ts_reset| |by rewrite Hcb].
    apply (f_equal fst) in Hr. cbn [fst network_prov_thread_config_reset] in Hr. by rewrite <- Hr.
  - intros s. unfold network_prov_mgr_reset_wifi_provisioning. rewrite thread_build.
    destruct (negb _); [by split|]. cbv zeta.
    destruct (network_prov_thread_config_erase _ _) as [[rc tc] y] eqn:Hr.
    apply (both_phases thread_phase). intros r Hp. pose proof Hp as (_ & Hcb & _).
    apply (phase_thread r tc y (sy_net s)); [by eapply ts_erase| |by rewrite Hcb].
    unfold network_prov_thread_config_erase in Hr. cbv zeta in Hr. repeat case_match; simplify_eq; done.
  - intros ssid psk s Hp. unfold network_prov_mgr_configure_wifi_sta. rewrite thread_build.
    by destruct (negb _).
Qed.

(** C23: The Thread handler inside the running program. However application calls,
    requests from any transport, OpenThread callbacks, timer expiries, scans and
    expiring work interleave, over any number of services one after another: terminal
    events never outnumber the CRED_RECVs, only datasets of a legal size reach
    OpenThread, a reported Attached or AttachingFailed is the last outcome announced,
    and while Attaching is reported the outcome is open and the 30 s timer runs, so that
    no attempt hangs. *)
Theorem program_thread_history {SL : SchemeLaws} (custom_range : (cf_custom_max cf ≤ 3)%nat) (s0 s : sys) :
  boot cf s0 → net_log (n_plat (sy_net s0)) = [] → n_tc (sy_net s0) = tc_zero → wifi_off (sy_net s0) →
  rtc (sys_step cf) s0 s →
  let tc := n_tc (sy_net s) in let log := net_log (n_plat (sy_net s)) in
  terminals log + tc_pending tc <= recvs log ∧ Forall dataset_legal log ∧
  tc_cb_registered tc = mg_started (sy_mgr s) ∧
  (mg_started (sy_mgr s) = true →
    (tc_state tc = ThreadNetworkState_Attached → last_outcome log = Some true) ∧
    (tc_state tc = ThreadNetworkState_AttachingFailed → last_outcome log = Some false) ∧
    (tc_state tc = ThreadNetworkState_Attaching →
       tc_pending tc = 1 ∧ is_Some (k_work_pending (tc_attach_timeout tc)))).
Proof.
  intros Hb Hl Ht Hw Hr tc log.
  assert (H0 : thread_phase false (sy_net s0)).
  { split; [|rewrite Ht; by split]. rewrite Ht. by apply thread_zero_inv. }
  pose proof (protocol_run cf custom_range (thread_phase false) (thread_phase true) s0 s Hb H0 Hr) as Hp.
  assert (Hp' : thread_phase (mg_started (sy_mgr s)) (sy_net s)) by (unfold by_phase in Hp; by destruct (mg_started _)).
  destruct Hp' as (Hi & Hcb & _). split; [exact (ti_count _ Hi)|]. split; [exact (ti_log _ Hi)|]. split; [exact Hcb|].
  intros Hst. rewrite Hst in Hcb. destruct (ti_report _ Hi Hcb) as [Ha Hf]. split; [exact Ha|]. split; [exact Hf|].
  exact (ti_attaching _ Hi Hcb).
Qed.
End thread_history.
