(* ===== verification/Transport.v ===== *)
(** * Transport: what a transport uses of protocomm

    A transport keeps the pointer it was started with ([g_pc]) and passes it to
    protocomm's functions (src/protocomm.h). The class is that interface over the
    state [S] the transport does not own; [None] as a result is a fault. The laws
    are what protocomm promises for a NULL pointer; System.v has the instance over the
    whole program. *)
From S2P Require Import Prelude Platform.

Class ProtocommApi (S : Type) := {
  api_open_session : option loc → S → option S;
  api_close_session : option loc → S → option S;
  (** with non-NULL [outbuf], [outlen] *)
  api_req_handle : option loc → string → bytes → S → option (Z * obuf * S);
  api_endpoint_names : option loc → S → option (list string);
}.

Class ProtocommApiLaws (S : Type) `{ProtocommApi S} : Prop := {
  (** a NULL object: nothing happens, requests are refused *)
  api_open_null (s : S) : api_open_session None s = Some s;
  api_close_null (s : S) : api_close_session None s = Some s;
  api_req_null n b (s : S) : api_req_handle None n b s = Some (- EINVAL, no_buf, s);
  api_names_null (s : S) : api_endpoint_names None s = Some [];
}.

(** A result in [P], or a fault where one may happen. *)
Definition delivers {A} (may_fault : Prop) (P : A → Prop) (o : option A) : Prop :=
  match o with Some a => P a | None => may_fault end.

Section delivers.
Context {A : Type} (F : Prop).

Lemma delivers_bind {B} (P : A → Prop) (Q : B → Prop) o (k : A → option B) :
  delivers F P o → (∀ a, P a → delivers F Q (k a)) → delivers F Q (o ≫= k).
Proof. intros Ho Hk. destruct o as [a|]; [by apply Hk|exact Ho]. Qed.
Lemma delivers_total (P : A → Prop) o : delivers False P o → ∃ a, o = Some a ∧ P a.
Proof. destruct o as [a|]; [by exists a|done]. Qed.
Lemma delivers_result (P : A → Prop) o a : delivers F P o → o = Some a → P a.
Proof. by intros Ho ->. Qed.
End delivers.

(** [serving pc s]: the pointer may be used, where a fault may not happen. It stays so
    whatever a transport does. *)
Class ServingLaws (may_fault : Prop) (S : Type) `{KHeap S, ProtocommApi S} (serving : option loc → S → Prop) : Prop := {
  sv_malloc n pc s : serving pc s → serving pc (k_malloc n s).2;
  sv_free p pc s : serving pc s → serving pc (k_free p s);
  sv_open pc s : serving pc s → delivers may_fault (serving pc) (api_open_session pc s);
  sv_close pc s : serving pc s → delivers may_fault (serving pc) (api_close_session pc s);
  sv_req pc n b s : serving pc s → delivers may_fault (λ r, serving pc r.2) (api_req_handle pc n b s);
  sv_names pc s : serving pc s → delivers may_fault (λ _, True) (api_endpoint_names pc s);
}.
