(* ===== verification/Softap.v ===== *)
(** * Softap: the HTTP transport (src/protocomm_softap.c)

    One callback, [prov_http_handler], is invoked several times per request: the
    body is accumulated in a static buffer and dispatched by the last invocation,
    in the protocomm session named by the request's cookie. The HTTP server, the
    access point and the random number generator are parameters. *)
From S2P Require Import Prelude Platform CNum Transport.

Definition REQ_BUF_LEN : Z := 4096.
Definition RESP_BUF_LEN : Z := 4096.
Definition SOFTAP_KEY_MIN_LEN : Z := 8.
Definition SOFTAP_KEY_MAX_LEN : Z := 64.
Definition EP_NAME_CAP : nat := 16.
Definition SESSION_EQ : string := "session=".

(** [enum http_header_status], [struct http_request_ctx] and the transaction
    status, as far as the callback looks at them. *)
Inductive http_header_status := HTTP_HEADER_STATUS_OK | HTTP_HEADER_STATUS_OTHER.
#[export] Instance header_status_eq_dec : EqDecision http_header_status.
Proof. solve_decision. Defined.

Record http_request_ctx := mk_request {
  rq_headers_status : http_header_status;
  rq_headers : list (option string * option string);
  rq_data : bytes;
}.

Inductive http_transaction_status :=
| HTTP_SERVER_TRANSACTION_ABORTED | HTTP_SERVER_TRANSACTION_COMPLETE
| HTTP_SERVER_REQUEST_DATA_MORE | HTTP_SERVER_REQUEST_DATA_FINAL.
#[export] Instance transaction_status_eq_dec : EqDecision http_transaction_status.
Proof. solve_decision. Defined.

(** What is filled into [struct http_response_ctx]; [None] where it is left as the
    server initialised it. *)
Record http_response := mk_response {
  rs_status : option Z;
  rs_headers : list (string * string);
  rs_body : option bytes;
  rs_final : bool;
}.
Definition response_untouched : http_response := mk_response None [] None false.
Definition response_500 : http_response := mk_response (Some 500) [] None true.

(** The file's static variables; [Client] is the identity of a client slot. *)
Record softap (Client : Type) := mk_softap {
  sa_pc : option loc;
  sa_req : bytes;
  sa_cookie_present : bool;
  sa_cookie_id : Z;
  sa_client : option Client;
  sa_session_valid : bool;
  sa_session_id : Z;
}.
Arguments mk_softap {_}.
Arguments sa_pc {_} _.
Arguments sa_req {_} _.
Arguments sa_cookie_present {_} _.
Arguments sa_cookie_id {_} _.
Arguments sa_client {_} _.
Arguments sa_session_valid {_} _.
Arguments sa_session_id {_} _.
#[export] Instance softap_eta {C} : FieldEta (softap C) := fun r =>
  mk_softap (sa_pc r) (sa_req r) (sa_cookie_present r) (sa_cookie_id r) (sa_client r)
    (sa_session_valid r) (sa_session_id r).

(** [sys_rand32_get] *)
Class Random32 (S : Type) := sys_rand32_get : S → Z * S.
Class Random32Laws (S : Type) `{Random32 S} : Prop :=
  rand32_range (s : S) : 0 <= (sys_rand32_get s).1 <= UINT32_MAX.

(** [http_server_start] / [http_server_stop], and the access point's network calls
    ([net_if_ipv4_*], the DHCP server, [NET_REQUEST_WIFI_AP_*]). *)
Class HttpServer (S : Type) := {
  http_server_start : S → Z * S;
  http_server_stop : S → S;
}.
Class AccessPoint (S : Type) := {
  net_if_get_wifi_sap : S → option Z;
  (** gateway, address and netmask of the interface *)
  ap_set_addresses : Z → S → S;
  net_dhcpv4_server_start : Z → S → Z * S;
  net_dhcpv4_server_stop : Z → S → S;
  (** SSID, key *)
  ap_enable : Z → string → option string → S → Z * S;
  ap_disable : Z → S → S;
}.

(** ** Pure parts *)
(** ** The HTTP service

    One resource per built-in endpoint, with an exact path and the endpoint's name (the
    path without its slash) as user data; the fallback has neither, its requests go by
    their path. *)
Inductive http_method := HTTP_GET | HTTP_POST | HTTP_PUT | HTTP_DELETE.
Record http_resource := mk_resource {
  res_uri : option string;
  res_methods : list http_method;
  res_user_data : option string;
}.
Definition prov_fallback_detail : http_resource := mk_resource None [HTTP_POST] None.
Definition prov_http_resource (uri : string) : http_resource :=
  mk_resource (Some uri) [HTTP_POST] (Some (string_drop 1 uri)).
Definition prov_http_resources : list http_resource :=
  [ prov_http_resource "/proto-ver"; prov_http_resource "/prov-session"; prov_http_resource "/prov-scan";
    prov_http_resource "/prov-config"; prov_http_resource "/prov-ctrl" ].
Definition prov_http_port : Z := 80.

Section pure.
Context (ULONG_MAX : Z).

(** The header loop of [get_cookie_session]. *)
Fixpoint cookie_of_headers (headers : list (option string * option string)) : option Z :=
  match headers with
  | [] => None
  | (Some name, Some value) :: rest =>
      if negb (str_ieq name "Cookie") then cookie_of_headers rest
      else
        match strstr value SESSION_EQ with
        | None => None
        | Some p =>
            let digits := string_drop (String.length SESSION_EQ) p in
            let '(id, tail, _) := strtoul ULONG_MAX digits in
            if String.eqb tail digits || (UINT32_MAX <? id) then None else Some (u32 id)
        end
  | _ :: rest => cookie_of_headers rest
  end.

Definition get_cookie_session (rq : http_request_ctx) : option Z :=
  if bool_decide (rq_headers_status rq = HTTP_HEADER_STATUS_OK)
  then cookie_of_headers (rq_headers rq) else None.
End pure.

(** The characters up to the query string, at most [cap - 1] of them. *)
Fixpoint url_name (cap : nat) (p : string) {struct p} : option string :=
  match p with
  | EmptyString => Some EmptyString
  | String c r =>
      if Ascii.eqb c "?" then Some EmptyString
      else match cap with O | 1%nat => None | S cap => String c <$> url_name cap r end
  end.
Definition ep_name_from_url (url : string) (cap : nat) : string :=
  let p := match url with String c r => if Ascii.eqb c "/" then r else url | _ => url end in
  default EmptyString (url_name cap p).

Section softap.
Context {S : Type} `{KHeap S} `{PA : ProtocommApi S} `{Random32 S} `{HttpServer S} `{AccessPoint S}.
Context {Client : Type} `{EqDecision Client}.
Context (ULONG_MAX : Z) (wifi dhcp : bool).

Local Abbreviation sa_t := (softap Client).

Definition start_new_session (sa : sa_t) (s : S) : option (sa_t * S) :=
  s1 ← api_open_session (sa_pc sa) s;
  let '(id, s2) := sys_rand32_get s1 in
  Some (sa <| sa_session_id := id |> <| sa_session_valid := true |>, s2).

Definition ensure_session (sa : sa_t) (s : S) : option (sa_t * S) :=
  if sa_cookie_present sa && sa_session_valid sa && (sa_cookie_id sa =? sa_session_id sa)
  then Some (sa, s) else start_new_session sa s.

(** Copying the response out and answering. *)
Definition http_answer (sa : sa_t) (ret : Z) (out : obuf) (s : S) : http_response * S :=
  if negb (ret =? 0) then (response_500, k_free (ob_ptr out) s)
  else if RESP_BUF_LEN <? blen (ob_data out) then (response_500, k_free (ob_ptr out) s)
  else (mk_response None [("Set-Cookie", (SESSION_EQ ++ print_u32 (sa_session_id sa))%string)]
          (Some (ob_data out)) true, k_free (ob_ptr out) s).

(** The part after the body is complete: in the session that is now current, ... *)
Definition http_process (ep_name : string) (sa : sa_t) (s : S)
    : option (Z * http_response * sa_t * S) :=
  let sa2 := sa <| sa_cookie_present := false |> <| sa_client := None |> in
  '(ret, out, s2) ← api_req_handle (sa_pc sa2) ep_name (sa_req sa2) s;
  let sa3 := sa2 <| sa_req := [] |> in
  let '(resp, s3) := http_answer sa3 ret out s2 in
  Some (0, resp, sa3, s3).

(** ... which is made current first. *)
Definition http_dispatch (ep_name : string) (sa : sa_t) (s : S)
    : option (Z * http_response * sa_t * S) :=
  '(sa1, s1) ← ensure_session sa s;
  http_process ep_name sa1 s1.

(** Drop the request in flight. *)
Definition http_abandon (sa : sa_t) : sa_t :=
  sa <| sa_req := [] |> <| sa_cookie_present := false |> <| sa_client := None |>.

(** [user_data] is the endpoint name of a built-in resource, [url] the request
    path; the response is what the call leaves in [response_ctx]. *)
Definition prov_http_handler (client : Client) (url : string) (status : http_transaction_status)
    (rq : http_request_ctx) (user_data : option string) (sa : sa_t) (s : S)
    : option (Z * http_response * sa_t * S) :=
  let ep_name := match user_data with Some n => n | None => ep_name_from_url url EP_NAME_CAP end in
  match status with
  | HTTP_SERVER_TRANSACTION_ABORTED | HTTP_SERVER_TRANSACTION_COMPLETE =>
      Some (0, response_untouched,
            if bool_decide (sa_client sa = Some client) then http_abandon sa else sa, s)
  | _ =>
      if negb (bool_decide (sa_client sa = None)) && negb (bool_decide (sa_client sa = Some client))
      then Some (- EBUSY, response_untouched, sa, s)
      else
        let sa1 := sa <| sa_client := Some client |> in
        let sa2 :=
          if bool_decide (rq_headers_status rq = HTTP_HEADER_STATUS_OK) then
            match get_cookie_session ULONG_MAX rq with
            | Some id => sa1 <| sa_cookie_present := true |> <| sa_cookie_id := id |>
            | None => sa1 <| sa_cookie_present := false |>
            end
          else sa1 in
        if REQ_BUF_LEN <? blen (rq_data rq) + blen (sa_req sa2)
        then Some (- ENOMEM, response_untouched, http_abandon sa2, s)
        else
          let sa3 := sa2 <| sa_req := sa_req sa2 ++ rq_data rq |> in
          if negb (bool_decide (status = HTTP_SERVER_REQUEST_DATA_FINAL))
          then Some (0, response_untouched, sa3, s)
          else http_dispatch ep_name sa3 s
  end.

Definition network_prov_softap_http_start (pc : option loc) (sa : sa_t) (s : S) : Z * sa_t * S :=
  let sa1 := sa <| sa_pc := pc |> <| sa_req := [] |> <| sa_cookie_present := false |>
                <| sa_client := None |> <| sa_session_valid := false |> in
  let '(ret, s1) := http_server_start s in
  if (ret <? 0) && negb (ret =? - EALREADY) then (ret, sa1, s1) else (0, sa1, s1).

Definition network_prov_softap_http_stop (sa : sa_t) (s : S) : sa_t * S :=
  (sa <| sa_session_valid := false |> <| sa_pc := None |>, http_server_stop s).

Definition softap_ap_start (service_name : string) (service_key : option string) (s : S) : Z * S :=
  match net_if_get_wifi_sap s with
  | None => (- ENODEV, s)
  | Some iface =>
      let key_len := match service_key with Some k => strlen k | None => 0 end in
      if (0 <? key_len) && ((key_len <? SOFTAP_KEY_MIN_LEN) || (SOFTAP_KEY_MAX_LEN <? key_len))
      then (- EINVAL, s)
      else
        let s1 := ap_set_addresses iface s in
        let '(dret, s2) := if dhcp then net_dhcpv4_server_start iface s1 else (0, s1) in
        if negb (dret =? 0) && negb (dret =? - EALREADY) then (dret, s2)
        else ap_enable iface service_name (if 0 <? key_len then service_key else None) s2
  end.

Definition softap_ap_stop (s : S) : S :=
  match net_if_get_wifi_sap s with
  | None => s
  | Some iface => ap_disable iface (if dhcp then net_dhcpv4_server_stop iface s else s)
  end.

Definition network_prov_softap_start (pc : option loc) (service_name service_key : option string)
    (sa : sa_t) (s : S) : Z * sa_t * S :=
  if null_or_empty service_name then (- EINVAL, sa, s)
  else
    let '(ret, s1) :=
      if wifi then softap_ap_start (default EmptyString service_name) service_key s else (0, s) in
    if negb (ret =? 0) then (ret, sa, s1) else network_prov_softap_http_start pc sa s1.

Definition network_prov_softap_stop (sa : sa_t) (s : S) : sa_t * S :=
  let '(sa1, s1) := network_prov_softap_http_stop sa s in
  (sa1, if wifi then softap_ap_stop s1 else s1).
End softap.

(** ** Cookies *)
Section cookies.
Context (ULONG_MAX : Z) (long_enough : UINT32_MAX <= ULONG_MAX).

Lemma u32_id n : 0 <= n <= UINT32_MAX → u32 n = n.
Proof. intros Hn. apply u32_small. unfold UINT32_MAX in Hn. lia. Qed.

(** C34: A session id survives the round trip through the client. The Cookie header
    a client sends back - its name in any case, after any other headers, with other
    cookies around the one it was given, as long as none of the text before it
    contains "session=" and a separator follows - is read as exactly the id of the
    Set-Cookie header it answers. The header fits its 24-byte buffer. *)
Theorem cookie_round_trip id name pre rest before after :
  0 <= id <= UINT32_MAX → str_ieq name "Cookie" = true →
  Forall (fun h => ∃ n, h.1 = Some n ∧ str_ieq n "Cookie" = false) before →
  (∀ a b, pre = (a ++ b)%string → b ≠ EmptyString →
     String.prefix SESSION_EQ (b ++ SESSION_EQ ++ print_u32 id ++ rest)%string = false) →
  starts_with_digit rest = false →
  cookie_of_headers ULONG_MAX
    (before ++ (Some name, Some (pre ++ SESSION_EQ ++ print_u32 id ++ rest)%string) :: after) = Some id ∧
  strlen (SESSION_EQ ++ print_u32 id)%string < 24.
Proof.
  intros Hid Hname Hbefore Hpre Hrest. split.
  - induction before as [|[n v] before IH]; cbn [app cookie_of_headers].
    + rewrite Hname. cbn [negb]. rewrite (strstr_skip pre SESSION_EQ) by exact Hpre.
      rewrite string_drop_append, strtoul_print_u32 by done.
      assert (Hneq : String.eqb rest (print_u32 id +:+ rest) = false).
      { apply String.eqb_neq. intros Heq. apply (f_equal String.length) in Heq. rewrite length_append in Heq.
        pose proof (dec_digits_head 9 id EmptyString ltac:(lia)) as Hh. unfold print_u32 in Heq.
        destruct (dec_digits 10 id EmptyString); [done|]. cbn in Heq. lia. }
      rewrite Hneq. assert (Hle : UINT32_MAX <? id = false) by (apply Z.ltb_ge; lia). rewrite Hle.
      cbn [orb]. by rewrite u32_id.
    + apply Forall_cons in Hbefore as [(n' & Hn' & Hne) Hbefore]. cbn [fst] in Hn'. subst n.
      destruct v as [v|]; [rewrite Hne; cbn [negb]|]; by apply IH.
  - unfold strlen, print_u32. rewrite length_append. pose proof (dec_digits_length 10 id EmptyString) as Hl.
    change (String.length SESSION_EQ) with 8%nat. change (String.length EmptyString) with 0%nat in Hl. lia.
Qed.

(** What else is accepted as a session cookie: digits followed by anything, a
    match inside another cookie's name, a sign or blanks before the digits, and - on
    targets whose long has 32 bits - a value out of range, which saturates to the
    largest id instead of being rejected. *)
Theorem cookie_parsing_lenient :
  cookie_of_headers ULONG_MAX [(Some "Cookie", Some "session=12abc")] = Some 12 ∧
  cookie_of_headers ULONG_MAX [(Some "cookie", Some "mysession=12")] = Some 12 ∧
  cookie_of_headers ULONG_MAX [(Some "cookie", Some "session= +12")] = Some 12 ∧
  (ULONG_MAX = UINT32_MAX →
   cookie_of_headers ULONG_MAX [(Some "Cookie", Some "session=99999999999")] = Some UINT32_MAX).
Proof.
  assert (Hd : ∀ digits rest, strtoul ULONG_MAX digits = (12, rest, false) → String.eqb rest digits = false →
    (let '(id, tail, _) := strtoul ULONG_MAX digits in
     if String.eqb tail digits || (UINT32_MAX <? id) then None else Some (u32 id)) = Some 12).
  { intros digits rest -> ->. done. }
  assert (Hle : ULONG_MAX <? 12 = false) by (apply Z.ltb_ge; unfold UINT32_MAX in *; lia).
  split; [|split; [|split]].
  - apply (Hd "12abc" "abc"); [|done]. cbv -[Z.ltb Z.modulo]. by rewrite Hle.
  - apply (Hd "12" EmptyString); [|done]. cbv -[Z.ltb Z.modulo]. by rewrite Hle.
  - apply (Hd " +12" EmptyString); [|done]. cbv -[Z.ltb Z.modulo]. by rewrite Hle.
  - intros ->. reflexivity.
Qed.
End cookies.

(** ** Paths *)
Fixpoint no_query (s : string) : bool :=
  match s with EmptyString => true | String c r => if Ascii.eqb c "?" then false else no_query r end.

Lemma url_name_spec cap name rest :
  (0 < cap)%nat → no_query name = true → (rest = EmptyString ∨ ∃ q, rest = String "?" q) →
  url_name cap (name ++ rest)%string = if (String.length name <? cap)%nat then Some name else None.
Proof.
  intros Hc Hq Hr. revert cap Hc. induction name as [|c name IH]; intros cap Hc.
  - assert (Hlt : (0 <? cap)%nat = true) by (by apply Nat.ltb_lt). cbn [String.length]. rewrite Hlt.
    destruct Hr as [->|[q ->]]; (destruct cap; [lia|reflexivity]).
  - cbn [no_query] in Hq. change (String c name +:+ rest) with (String c (name +:+ rest)).
    destruct (Ascii.eqb c "?") eqn:Hc2; [done|].
    destruct cap as [|[|cap]]; [lia| |]; cbn [url_name]; rewrite Hc2; [done|].
    rewrite IH by (try done; lia).
    change (String.length (String c name) <? S (S cap))%nat with (String.length name <? S cap)%nat.
    by destruct (_ <? _)%nat.
Qed.

(** The endpoint the request handler takes a request for [url] to be for, when the server
    hands it the resource [r]. *)
Definition routed (r : http_resource) (url : string) : string :=
  match res_user_data r with Some n => n | None => ep_name_from_url url EP_NAME_CAP end.

(** A built-in endpoint is reached the same way through its own resource and, should the
    server not match it, through the fallback. *)
Lemma resource_routes r uri rest :
  r ∈ prov_http_resources → res_uri r = Some uri → (rest = EmptyString ∨ ∃ q, rest = String "?" q) →
  routed r (uri +:+ rest) = routed prov_fallback_detail (uri +:+ rest).
Proof.
  intros Hr Hu Hq. assert (Hn : ∀ name, no_query name = true → (String.length name < EP_NAME_CAP)%nat →
    name = ep_name_from_url (String "/" (name ++ rest)) EP_NAME_CAP).
  { intros name Hnq Hlen. unfold ep_name_from_url. cbn [Ascii.eqb Bool.eqb].
    rewrite url_name_spec by (try done; unfold EP_NAME_CAP; lia). by rewrite (proj2 (Nat.ltb_lt _ _) Hlen). }
  unfold prov_http_resources in Hr. rewrite !elem_of_cons, elem_of_nil in Hr.
  destruct Hr as [->|[->|[->|[->|[->|[]]]]]]; injection Hu as <-; apply Hn; first [reflexivity|cbn; unfold EP_NAME_CAP; lia].
Qed.

(** Routing by path: the fallback resource resolves "/name" and "/name?query" to
    the endpoint [name] whenever the name fits, and a longer one to the empty name,
    which no endpoint has - never to a truncated one. *)
Theorem url_routing name rest :
  no_query name = true → (rest = EmptyString ∨ ∃ q, rest = String "?" q) →
  ep_name_from_url (String "/" (name ++ rest)) EP_NAME_CAP =
    if (String.length name <? EP_NAME_CAP)%nat then name else EmptyString.
Proof.
  intros Hq Hr. unfold ep_name_from_url. cbn [Ascii.eqb Bool.eqb].
  rewrite url_name_spec by (try done; unfold EP_NAME_CAP; lia).
  by destruct (_ <? _)%nat.
Qed.

(** ** Requests *)
Section requests.
Context {S : Type} `{HH : KHeap S} `{PA : ProtocommApi S} `{R32 : Random32 S}.
Context {Client : Type} {EqC : EqDecision Client}.
Context (ULONG_MAX : Z).

Local Abbreviation sa_t := (softap Client).

(** One invocation of the callback. *)
Record callback := mk_cb {
  cb_client : Client;
  cb_url : string;
  cb_status : http_transaction_status;
  cb_rq : http_request_ctx;
  cb_user : option string;
}.
Definition run_cb (cb : callback) (sa : sa_t) (s : S) :=
  prov_http_handler ULONG_MAX (cb_client cb) (cb_url cb) (cb_status cb) (cb_rq cb) (cb_user cb) sa s.
Definition cb_ep (cb : callback) : string :=
  match cb_user cb with Some n => n | None => ep_name_from_url (cb_url cb) EP_NAME_CAP end.

Fixpoint run_cbs (cbs : list callback) (sa : sa_t) (s : S)
    : option (list (Z * http_response) * sa_t * S) :=
  match cbs with
  | [] => Some ([], sa, s)
  | cb :: cbs =>
      '(rc, resp, sa1, s1) ← run_cb cb sa s;
      '(rest, sa2, s2) ← run_cbs cbs sa1 s1;
      Some ((rc, resp) :: rest, sa2, s2)
  end.

(** The transport between requests. *)
Definition idle (sa : sa_t) : Prop :=
  sa_client sa = None ∧ sa_req sa = [] ∧ sa_cookie_present sa = false.

(** The specification of one request, as a single step: the session continues only
    for the cookie it was given, otherwise protocomm's session is reopened and a
    fresh id drawn; then the request is dispatched and answered. *)
Definition serve_in (pc : option loc) (ep : string) (body : bytes) (sid : Z) (s : S)
    : option (http_response * Z * S) :=
  '(ret, out, s2) ← api_req_handle pc ep body s;
  Some (if negb (ret =? 0) || (RESP_BUF_LEN <? blen (ob_data out)) then response_500
        else mk_response None [("Set-Cookie", (SESSION_EQ ++ print_u32 sid)%string)] (Some (ob_data out)) true,
        sid, k_free (ob_ptr out) s2).

Definition serve (ep : string) (cookie : option Z) (body : bytes) (sa : sa_t) (s : S)
    : option (http_response * Z * S) :=
  if sa_session_valid sa && bool_decide (cookie = Some (sa_session_id sa))
  then serve_in (sa_pc sa) ep body (sa_session_id sa) s
  else
    s1 ← api_open_session (sa_pc sa) s;
    let '(id, s2) := sys_rand32_get s1 in
    serve_in (sa_pc sa) ep body id s2.

(** The state a request of [c] has built up: its cookie, the body so far. *)
Definition in_request (c : Client) (cookie : option Z) (body : bytes) (sa0 sa : sa_t) : Prop :=
  sa_client sa = Some c ∧ sa_req sa = body ∧ sa_cookie_present sa = bool_decide (is_Some cookie) ∧
  (∀ id, cookie = Some id → sa_cookie_id sa = id) ∧
  sa_pc sa = sa_pc sa0 ∧ sa_session_valid sa = sa_session_valid sa0 ∧ sa_session_id sa = sa_session_id sa0.

(** After the request: the slot is free, the session is the request's. *)
Definition served_state (sid : Z) (sa0 sa : sa_t) : Prop :=
  idle sa ∧ sa_pc sa = sa_pc sa0 ∧ sa_session_valid sa = true ∧ sa_session_id sa = sid.

Definition outcome_ok (r : option (http_response * Z * S)) (sa0 : sa_t)
    (run : option (Z * http_response * sa_t * S)) : Prop :=
  match r with
  | None => run = None
  | Some (resp, sid, s') => ∃ sa', run = Some (0, resp, sa', s') ∧ served_state sid sa0 sa'
  end.

Lemma process_serves ep body (sa0 sa : sa_t) s :
  sa_pc sa = sa_pc sa0 → sa_req sa = body → sa_session_valid sa = true →
  outcome_ok (serve_in (sa_pc sa0) ep body (sa_session_id sa) s) sa0 (http_process ep sa s).
Proof.
  destruct sa as [pc rq cp ci cl v id]. cbn [sa_pc sa_req sa_session_valid sa_session_id]. intros Hpc -> ->.
  unfold serve_in, http_process, http_answer. cbn. rewrite Hpc.
  destruct (api_req_handle _ _ _ _) as [[[ret out] s2]|]; cbn; [|done].
  destruct (negb (ret =? 0)); cbn; [|destruct (RESP_BUF_LEN <? _); cbn];
    (eexists; split; [reflexivity|]; by split).
Qed.

Lemma dispatch_serves ep c cookie body (sa0 sa : sa_t) s :
  in_request c cookie body sa0 sa →
  outcome_ok (serve ep cookie body sa0 s) sa0 (http_dispatch ep sa s).
Proof.
  intros (Hc & Hb & Hp & Hid & Hpc & Hv & Hsid). unfold serve, http_dispatch, ensure_session, start_new_session.
  rewrite Hp, Hv.
  assert (Hcond : bool_decide (is_Some cookie) && sa_session_valid sa0 && (sa_cookie_id sa =? sa_session_id sa) =
    sa_session_valid sa0 && bool_decide (cookie = Some (sa_session_id sa0))).
  { rewrite (andb_comm (bool_decide _)), <- andb_assoc. f_equal. destruct cookie as [id|].
    - rewrite (Hid id eq_refl), Hsid. rewrite bool_decide_true by eauto. cbn [andb].
      destruct (id =? sa_session_id sa0) eqn:He; breflect; symmetry; [apply bool_decide_true; congruence|].
      apply bool_decide_false. congruence.
    - rewrite !bool_decide_false; [done|done|]. by intros [? ?]. }
  rewrite Hcond, Hpc. destruct (sa_session_valid sa0 && _) eqn:Hcont; cbn [mbind option_bind].
  - rewrite <- Hsid. apply process_serves; [done|done|]. apply andb_true_iff in Hcont as [? _]. congruence.
  - destruct (api_open_session _ s) as [s1|]; cbn [mbind option_bind]; [|done].
    destruct (sys_rand32_get s1) as [id s2]. cbn [mbind option_bind].
    set (sa1 := sa <| sa_session_id := id |> <| sa_session_valid := true |>).
    exact (process_serves ep body sa0 sa1 s2 Hpc Hb eq_refl).
Qed.

(** A callback that brings another part of [c]'s body, or the first one with the
    headers. *)
Definition first_part (c : Client) (cookie : option Z) (cb : callback) : Prop :=
  cb_client cb = c ∧ rq_headers_status (cb_rq cb) = HTTP_HEADER_STATUS_OK ∧
  get_cookie_session ULONG_MAX (cb_rq cb) = cookie.
Definition next_part (c : Client) (cb : callback) : Prop :=
  cb_client cb = c ∧ rq_headers_status (cb_rq cb) = HTTP_HEADER_STATUS_OTHER.
Definition is_end (st : http_transaction_status) : bool :=
  match st with HTTP_SERVER_TRANSACTION_ABORTED | HTTP_SERVER_TRANSACTION_COMPLETE => true | _ => false end.

(** The callbacks between the first and the last of a request: more of the body, or
    anything at all from other clients. *)
Definition between (c : Client) (cb : callback) : Prop :=
  next_part c cb ∧ cb_status cb = HTTP_SERVER_REQUEST_DATA_MORE ∨ cb_client cb ≠ c.
Definition part_of (c : Client) (cb : callback) : bytes :=
  if bool_decide (cb_client cb = c) then rq_data (cb_rq cb) else [].
Definition answer_between (c : Client) (cb : callback) : Z * http_response :=
  (if bool_decide (cb_client cb = c) || is_end (cb_status cb) then 0 else - EBUSY, response_untouched).

Lemma first_more c cookie cb (sa : sa_t) s :
  idle sa → first_part c cookie cb → cb_status cb = HTTP_SERVER_REQUEST_DATA_MORE →
  blen (rq_data (cb_rq cb)) <= REQ_BUF_LEN →
  ∃ sa', run_cb cb sa s = Some (0, response_untouched, sa', s) ∧
         in_request c cookie (rq_data (cb_rq cb)) sa sa'.
Proof.
  intros (Hcl & Hrq & Hcp) (Hc & Hh & Hk) Hst Hl. destruct cb as [cl url st rq user]. cbn in *. subst st cl.
  unfold run_cb, prov_http_handler. cbn [cb_client cb_url cb_status cb_rq cb_user].
  rewrite Hcl, Hh, Hk, (bool_decide_true (HTTP_HEADER_STATUS_OK = _)) by done. destruct sa as [pc rb cp ci cl v id]. cbn in Hrq, Hcp, Hcl. subst rb cp cl.
  destruct cookie as [k|]; cbn;
    rewrite Z.add_0_r; (assert (Hlt : REQ_BUF_LEN <? blen (rq_data rq) = false) by (apply Z.ltb_ge; lia));
    rewrite Hlt; (eexists; split; [reflexivity|]; repeat split; cbn; intros; congruence).
Qed.

Lemma between_step c cookie body cb (sa0 sa : sa_t) s :
  in_request c cookie body sa0 sa → between c cb → blen (body ++ part_of c cb) <= REQ_BUF_LEN →
  ∃ sa', run_cb cb sa s = Some (answer_between c cb, sa', s) ∧ in_request c cookie (body ++ part_of c cb) sa0 sa'.
Proof.
  intros (Hcl & Hrq & Hcp & Hid & Hrest) Hbt Hl. destruct cb as [cl url st rq user]. unfold part_of, answer_between in *.
  cbn [cb_client cb_rq cb_status] in *. unfold run_cb, prov_http_handler. cbn [cb_client cb_url cb_status cb_rq cb_user].
  rewrite Hcl. destruct Hbt as [[[Hc Hh] Hst]|Hne]; cbn [cb_client cb_rq cb_status] in *.
  - subst cl st. rewrite (bool_decide_true (c = c)) in Hl |- * by done. cbn [negb andb orb]. rewrite Hh.
    rewrite !(bool_decide_true (Some c = Some c)) by done. rewrite (bool_decide_false (Some c = None)) by done.
    cbn [negb andb]. rewrite (bool_decide_false (HTTP_HEADER_STATUS_OTHER = _)) by done.
    rewrite (bool_decide_false (HTTP_SERVER_REQUEST_DATA_MORE = _)) by done.
    destruct sa as [pc rb cp ci cl v id]. cbn in *. subst rb.
    assert (Hlt : REQ_BUF_LEN <? blen (rq_data rq) + blen body = false).
    { apply Z.ltb_ge. unfold blen in *. rewrite length_app in Hl. lia. }
    rewrite Hlt. eexists. split; [reflexivity|]. repeat split; cbn; try done; by apply Hrest.
  - rewrite (bool_decide_false (cl = c)) in Hl |- * by done. cbn [orb]. rewrite app_nil_r.
    rewrite (bool_decide_false (Some c = Some cl)) by congruence. rewrite (bool_decide_false (Some c = None)) by done.
    exists sa. split; [destruct st; reflexivity|]. exact (conj Hcl (conj Hrq (conj Hcp (conj Hid Hrest)))).
Qed.

(** Any number of them. *)
Lemma between_run c cookie body cbs (sa0 sa : sa_t) s :
  in_request c cookie body sa0 sa → Forall (between c) cbs →
  blen (body ++ concat (part_of c <$> cbs)) <= REQ_BUF_LEN →
  ∃ sa', run_cbs cbs sa s = Some (answer_between c <$> cbs, sa', s) ∧
         in_request c cookie (body ++ concat (part_of c <$> cbs)) sa0 sa'.
Proof.
  revert body sa. induction cbs as [|cb cbs IH]; intros body sa Hin Hall Hl; cbn [fmap list_fmap concat run_cbs].
  - rewrite app_nil_r. eauto.
  - apply Forall_cons in Hall as [Hcb Hall]. cbn [fmap list_fmap concat] in Hl. rewrite app_assoc in Hl |- *.
    destruct (between_step c cookie body cb sa0 sa s Hin Hcb) as (sa1 & Hrun & Hin1).
    { unfold blen in *. rewrite length_app in Hl. lia. }
    rewrite Hrun. unfold answer_between at 1. cbn [mbind option_bind].
    destruct (IH _ sa1 Hin1 Hall Hl) as (sa2 & Hrun2 & Hin2). rewrite Hrun2. cbn [mbind option_bind].
    eexists. split; [reflexivity|done].
Qed.

Lemma run_cbs_app cbs cbs' (sa : sa_t) s :
  run_cbs (cbs ++ cbs') sa s =
    '(r1, sa1, s1) ← run_cbs cbs sa s; '(r2, sa2, s2) ← run_cbs cbs' sa1 s1; Some (r1 ++ r2, sa2, s2).
Proof.
  revert sa s. induction cbs as [|cb cbs IH]; intros sa s; cbn [app run_cbs mbind option_bind].
  - by destruct (run_cbs cbs' sa s) as [[[? ?] ?]|].
  - destruct (run_cb cb sa s) as [[[[rc resp] sa1] s1]|]; cbn [mbind option_bind]; [|done]. rewrite IH.
    destruct (run_cbs cbs sa1 s1) as [[[? ?] ?]|]; cbn [mbind option_bind]; [|done].
    by destruct (run_cbs cbs' _ _) as [[[? ?] ?]|].
Qed.

Lemma last_part c cookie body cb (sa0 sa : sa_t) s :
  in_request c cookie body sa0 sa → next_part c cb → cb_status cb = HTTP_SERVER_REQUEST_DATA_FINAL →
  blen (body ++ rq_data (cb_rq cb)) <= REQ_BUF_LEN →
  outcome_ok (serve (cb_ep cb) cookie (body ++ rq_data (cb_rq cb)) sa0 s) sa0 (run_cb cb sa s).
Proof.
  intros Hin [Hc Hh] Hst Hl. destruct cb as [cl url st rq user]. cbn [cb_client cb_rq cb_status] in *. subst cl st.
  unfold run_cb, prov_http_handler, cb_ep. cbn [cb_client cb_url cb_status cb_rq cb_user].
  pose proof Hin as (Hcl & Hrq & Hcp & Hid & Hrest). rewrite Hcl, Hh.
  rewrite (bool_decide_true (Some c = Some c)) by done. rewrite (bool_decide_false (Some c = None)) by done.
  cbn [negb andb]. rewrite (bool_decide_false (HTTP_HEADER_STATUS_OTHER = _)) by done.
  rewrite (bool_decide_true (HTTP_SERVER_REQUEST_DATA_FINAL = _)) by done. cbn [negb].
  assert (Hsame : sa <| sa_client := Some c |> = sa) by (destruct sa; cbn in Hcl |- *; by rewrite Hcl).
  rewrite Hsame, Hrq. assert (Hlt : REQ_BUF_LEN <? blen (rq_data rq) + blen body = false).
  { apply Z.ltb_ge. unfold blen in *. rewrite length_app in Hl. lia. }
  rewrite Hlt. apply (dispatch_serves _ c). destruct sa as [pc rb cp ci cl v id].
  unfold in_request in *. cbn in Hin |- *. destruct Hin as (A1 & A2 & A3 & A4 & A5 & A6 & A7). by rewrite <- A2.
Qed.

(** C4: A request is atomic. Between requests, let a client's request come in as a
    first callback with the headers, any number of further ones and a last one, and
    let any other callbacks of other clients - data for any endpoint, aborts,
    completions - be interleaved. As long as the body fits the buffer, the outcome
    is that of [serve] on the whole body at once: everyone else is turned away with
    -EBUSY (or ignored), the session the request runs in is the one its cookie names
    or a fresh one, and the transport is idle again. *)
Theorem http_request_atomic c cookie first mid last (sa : sa_t) s :
  idle sa →
  first_part c cookie first → cb_status first = HTTP_SERVER_REQUEST_DATA_MORE →
  Forall (between c) mid →
  next_part c last → cb_status last = HTTP_SERVER_REQUEST_DATA_FINAL →
  let body := rq_data (cb_rq first) ++ concat (part_of c <$> mid) ++ rq_data (cb_rq last) in
  blen body <= REQ_BUF_LEN →
  match serve (cb_ep last) cookie body sa s with
  | None => run_cbs (first :: mid ++ [last]) sa s = None
  | Some (resp, sid, s') =>
      ∃ sa', run_cbs (first :: mid ++ [last]) sa s =
               Some ((0, response_untouched) :: (answer_between c <$> mid) ++ [(0, resp)], sa', s') ∧
             served_state sid sa sa'
  end.
Proof.
  intros Hidle Hf Hfs Hmid Hlast Hls body Hl. unfold body in *. rewrite app_assoc in Hl |- *.
  set (b1 := rq_data (cb_rq first) ++ concat (part_of c <$> mid)) in *.
  assert (Hl1 : blen b1 <= REQ_BUF_LEN) by (unfold blen in *; rewrite length_app in Hl; lia).
  assert (Hl0 : blen (rq_data (cb_rq first)) <= REQ_BUF_LEN)
    by (unfold b1, blen in *; rewrite length_app in Hl1; lia).
  destruct (first_more c cookie first sa s Hidle Hf Hfs Hl0) as (sa1 & Hr1 & Hin1).
  destruct (between_run c cookie _ mid sa sa1 s Hin1 Hmid Hl1) as (sa2 & Hr2 & Hin2).
  pose proof (last_part c cookie b1 last sa sa2 s Hin2 Hlast Hls Hl) as Hout. unfold outcome_ok in Hout.
  cbn [app run_cbs]. rewrite Hr1. cbn [mbind option_bind]. rewrite run_cbs_app, Hr2. cbn [mbind option_bind run_cbs].
  destruct (serve _ _ _ _ _) as [[[resp sid] s']|].
  - destruct Hout as (sa' & -> & Hsv). cbn [mbind option_bind]. eauto.
  - rewrite Hout. done.
Qed.

(** A request that arrives whole in one callback behaves the same, and one whose
    body outgrows the buffer is answered -ENOMEM, forgotten entirely (nothing was
    dispatched, the session is untouched) and the transport is idle again. *)
Theorem http_single_and_oversize c cookie body cb (sa : sa_t) s :
  (idle sa → first_part c cookie cb → cb_status cb = HTTP_SERVER_REQUEST_DATA_FINAL →
   blen (rq_data (cb_rq cb)) <= REQ_BUF_LEN →
   outcome_ok (serve (cb_ep cb) cookie (rq_data (cb_rq cb)) sa s) sa (run_cb cb sa s)) ∧
  (∀ sa1, in_request c cookie body sa sa1 → next_part c cb → is_end (cb_status cb) = false →
   REQ_BUF_LEN < blen (body ++ rq_data (cb_rq cb)) →
   ∃ sa2, run_cb cb sa1 s = Some (- ENOMEM, response_untouched, sa2, s) ∧ idle sa2 ∧
     sa_session_valid sa2 = sa_session_valid sa ∧ sa_session_id sa2 = sa_session_id sa ∧ sa_pc sa2 = sa_pc sa).
Proof.
  destruct cb as [cl url st rq user]. unfold run_cb, prov_http_handler, cb_ep.
  cbn [cb_client cb_url cb_status cb_rq cb_user]. split.
  - intros (Hcl & Hrq & Hcp) (Hc & Hh & Hk) Hst Hl. cbn [cb_client cb_rq cb_status] in *. subst cl st.
    rewrite Hcl, Hh, Hk. rewrite (bool_decide_true (None = None)) by done. cbn [negb andb].
    rewrite (bool_decide_true (HTTP_HEADER_STATUS_OK = _)) by done.
    rewrite (bool_decide_true (HTTP_SERVER_REQUEST_DATA_FINAL = _)) by done. cbn [negb].
    destruct sa as [pc rb cp ci cl v id]. cbn in Hrq, Hcp, Hcl. subst rb cp cl.
    assert (Hlt : REQ_BUF_LEN <? blen (rq_data rq) = false) by (apply Z.ltb_ge; lia).
    destruct cookie as [k|]; cbn -[http_dispatch Z.ltb serve]; rewrite Z.add_0_r, Hlt;
      (apply (dispatch_serves _ c); repeat split; cbn; intros; congruence).
  - intros sa1 (A1 & A2 & A3 & A4 & A5 & A6 & A7) [Hc Hh] Hst Hl. cbn [cb_client cb_rq cb_status] in *. subst cl.
    rewrite A1, Hh, (bool_decide_false (HTTP_HEADER_STATUS_OTHER = _)) by done.
    rewrite (bool_decide_true (Some c = Some c)) by done. rewrite (bool_decide_false (Some c = None)) by done.
    assert (Hlt : REQ_BUF_LEN <? blen (rq_data rq) + blen (sa_req (sa1 <| sa_client := Some c |>)) = true).
    { apply Z.ltb_lt. change (sa_req (sa1 <| sa_client := Some c |>)) with (sa_req sa1). rewrite A2.
      unfold blen in *. rewrite length_app in Hl. lia. }
    rewrite Hlt. exists (http_abandon (sa1 <| sa_client := Some c |>)).
    split; [by destruct st|]. split; [done|]. split; [exact A6|]. split; [exact A7|exact A5].
Qed.
End requests.

(** With a pointer that may be used every callback completes, and it may still be used
    afterwards. *)
Section delivers.
Context {S : Type} `{HH : KHeap S} `{PA : ProtocommApi S} `{R32 : Random32 S} {Client : Type} {EqC : EqDecision Client}.
Context (F : Prop) (serving : option loc → S → Prop) `{!ServingLaws F S serving}.
Context (rand_serving : ∀ pc s, serving pc s → serving pc (sys_rand32_get s).2).

Definition answered (pc : option loc) (r : Z * http_response * softap Client * S) : Prop :=
  sa_pc r.1.2 = pc ∧ serving pc r.2.

Lemma http_dispatch_delivers ep (sa : softap Client) (s : S) :
  serving (sa_pc sa) s → delivers F (answered (sa_pc sa)) (http_dispatch ep sa s).
Proof.
  intros Hs. unfold http_dispatch.
  apply (delivers_bind F (λ '(sa2, s2), sa_pc sa2 = sa_pc sa ∧ serving (sa_pc sa) s2)).
  { unfold ensure_session, start_new_session. destruct (_ && _); [done|].
    apply (delivers_bind F (serving (sa_pc sa))); [by apply sv_open|]. intros s1 Hs1.
    pose proof (rand_serving _ _ Hs1) as Hs2. by destruct (sys_rand32_get s1) as [id s2]. }
  intros [sa2 s2] [Hpc Hs2]. unfold http_process.
  set (sa3 := sa2 <| sa_cookie_present := false |> <| sa_client := None |>). change (sa_pc sa3) with (sa_pc sa2).
  rewrite Hpc. apply (delivers_bind F (λ r, serving (sa_pc sa) r.2)); [by apply sv_req|].
  intros [[rc out] s3] Hs3. cbn [snd] in Hs3. set (sa4 := sa3 <| sa_req := [] |>).
  assert (Ha : serving (sa_pc sa) (http_answer sa4 rc out s3).2).
  { unfold http_answer. destruct (negb _); [|destruct (_ <? _)]; by apply sv_free. }
  destruct (http_answer _ _ _ _) as [resp s4]. by split.
Qed.

Lemma http_delivers ULONG_MAX (client : Client) url status rq user (sa : softap Client) (s : S) :
  serving (sa_pc sa) s → delivers F (answered (sa_pc sa)) (prov_http_handler ULONG_MAX client url status rq user sa s).
Proof.
  intros Hs. assert (Hdisp : ∀ ep (sa1 : softap Client), sa_pc sa1 = sa_pc sa →
    delivers F (answered (sa_pc sa)) (http_dispatch ep sa1 s)).
  { intros ep sa1 Hpc. rewrite <- Hpc. apply http_dispatch_delivers. by rewrite Hpc. }
  unfold prov_http_handler. set (sa2 := if bool_decide (rq_headers_status rq = _) then _ else _).
  assert (Hpc2 : sa_pc sa2 = sa_pc sa).
  { unfold sa2. destruct (bool_decide _); [|done]. by destruct (get_cookie_session _ _). }
  clearbody sa2. cbv zeta.
  destruct status; [by destruct (bool_decide _)|by destruct (bool_decide _)| |];
    (destruct (negb _ && negb _); [done|]); (destruct (REQ_BUF_LEN <? _); [done|]);
    (destruct (negb _); [done|]); by apply Hdisp.
Qed.
End delivers.
