(* ===== verification/Console.v ===== *)
(** * Console: the shell transport (src/protocomm_console.c)

    One shell command carries one request; the session token on the command line
    decides whether protocomm's session is reopened. Zephyr's [hex2bin] and
    [bin2hex] are parameters. *)
From S2P Require Import Prelude Platform CNum Transport.

Record console := mk_console {
  co_pc : option loc;
  co_session : Z;
  co_have : bool;
}.
#[export] Instance console_eta : FieldEta console := fun r => mk_console (co_pc r) (co_session r) (co_have r).

(** [hex2bin] returns the number of bytes it wrote, 0 for a bad digit; here the
    bytes, [None] for a bad digit. *)
Class HexCodec := {
  hex2bin : string → option bytes;
  bin2hex : bytes → string;
}.
Class HexCodecLaws `{HexCodec} : Prop := {
  bin2hex_length b : strlen (bin2hex b) = 2 * blen b;
  hex2bin_bin2hex b : Forall (fun x => 0 <= x < 256) b → b ≠ [] → hex2bin (bin2hex b) = Some b;
}.

Section console.
Context {S : Type} `{KHeap S} `{PA : ProtocommApi S} `{HexCodec}.
Context (ULONG_MAX : Z).

Definition network_prov_console_start (pc : option loc) (co : console) : Z * console :=
  (0, co <| co_pc := pc |> <| co_have := false |> <| co_session := 0 |>).

Definition network_prov_console_stop (co : console) (s : S) : option (console * S) :=
  s1 ← (match co_pc co with Some _ => api_close_session (co_pc co) s | None => Some s end);
  Some (co <| co_pc := None |> <| co_have := false |>, s1).

Definition console_scheme_start (pc : option loc) (service_name service_key : option string) (co : console)
    : Z * console := network_prov_console_start pc co.

(** The session number of the token, [None] when it is refused. *)
Definition parse_session (tok : string) : option Z :=
  let '(parsed, endp, erange) := strtoul ULONG_MAX tok in
  if String.eqb tok EmptyString || negb (String.eqb endp EmptyString) || erange || (UINT32_MAX <? parsed)
  then None else Some (u32 parsed).

(** Reopen protocomm's session when the token changed. *)
Definition console_session (session : Z) (co : console) (s : S) : option (console * S) :=
  if negb (co_have co) || negb (session =? co_session co) then
    s1 ← api_open_session (co_pc co) s;
    Some (co <| co_session := session |> <| co_have := true |>, s1)
  else Some (co, s).

(** Printing the response. *)
Definition console_reply (ret : Z) (out : obuf) (s : S) : Z * option string * S :=
  if negb (ret =? 0) then (- ENOEXEC, None, s)
  else
    match k_malloc (blen (ob_data out) * 2 + 1) s with
    | (None, s1) => (- ENOMEM, None, k_free (ob_ptr out) s1)
    | (Some hexout, s1) => (0, Some (bin2hex (ob_data out)), k_free (ob_ptr out) (k_free (Some hexout) s1))
    end.

(** Return code and the line printed; [argv] is [ep], [tok], [hex]. *)
Definition cmd_net_prov (ep tok hex : string) (co : console) (s : S)
    : option (Z * option string * console * S) :=
  match co_pc co with
  | None => Some (- ENOEXEC, None, co, s)
  | Some _ =>
      match parse_session tok with
      | None => Some (- EINVAL, None, co, s)
      | Some session =>
          if Z.odd (strlen hex) then Some (- EINVAL, None, co, s)
          else
            let inlen := strlen hex / 2 in
            match k_malloc (if 0 <? inlen then inlen else 1) s with
            | (None, s1) => Some (- ENOMEM, None, co, s1)
            | (Some inbuf, s1) =>
                match (if 0 <? inlen then hex2bin hex else Some []) with
                | None => Some (- EINVAL, None, co, k_free (Some inbuf) s1)
                | Some bytes =>
                    if negb (blen bytes =? inlen)
                    then Some (- EINVAL, None, co, k_free (Some inbuf) s1)
                    else
                      '(co1, s2) ← console_session session co s1;
                      '(ret, out, s3) ← api_req_handle (co_pc co1) ep bytes s2;
                      let '(rc, line, s4) := console_reply ret out (k_free (Some inbuf) s3) in
                      Some (rc, line, co1, s4)
                end
            end
      end
  end.
End console.

Section console_facts.
Context {S : Type} `{HH : KHeap S} `{!KHeapLaws S} `{PA : ProtocommApi S} `{HX : HexCodec} `{!HexCodecLaws}.
Context (ULONG_MAX : Z) (long_enough : UINT32_MAX <= ULONG_MAX).

Lemma parse_session_print n : 0 <= n <= UINT32_MAX → parse_session ULONG_MAX (print_u32 n) = Some n.
Proof.
  intros Hn. unfold parse_session. rewrite <- (append_nil_r (print_u32 n)) at 1.
  rewrite strtoul_print_u32 by done.
  assert (Hne : String.eqb (print_u32 n) EmptyString = false).
  { pose proof (dec_digits_head 9 n EmptyString ltac:(lia)) as Hh. unfold print_u32.
    by destruct (dec_digits 10 n EmptyString). }
  rewrite Hne. assert (Hle : UINT32_MAX <? n = false) by (apply Z.ltb_ge; lia). rewrite Hle. cbn.
  f_equal. apply u32_small. unfold UINT32_MAX in Hn. lia.
Qed.

(** C30: One command is one request. On a started console, a command line with a
    decimal session number and the hexadecimal form of a request reopens protocomm's
    session exactly when the number differs from the previous command's (or there
    was none), hands protocomm exactly the request's bytes, and prints the
    hexadecimal form of exactly the response's bytes. The only other outcomes are
    lack of memory and a refused request, which print nothing. *)
Theorem console_command_roundtrip l ep n req co (s : S) :
  co_pc co = Some l → 0 <= n <= UINT32_MAX → Forall (fun x => 0 <= x < 256) req →
  let reopen := negb (co_have co) || negb (n =? co_session co) in
  let co1 := mk_console (Some l) n true in
  match k_malloc (if 0 <? blen req then blen req else 1) s with
  | (None, s1) => cmd_net_prov ULONG_MAX ep (print_u32 n) (bin2hex req) co s = Some (- ENOMEM, None, co, s1)
  | (Some inbuf, s1) =>
      cmd_net_prov ULONG_MAX ep (print_u32 n) (bin2hex req) co s =
        (s2 ← (if reopen then api_open_session (Some l) s1 else Some s1);
         '(ret, out, s3) ← api_req_handle (Some l) ep req s2;
         Some (if negb (ret =? 0) then (- ENOEXEC, None, co1, k_free (Some inbuf) s3)
               else
                 match k_malloc (blen (ob_data out) * 2 + 1) (k_free (Some inbuf) s3) with
                 | (None, s4) => (- ENOMEM, None, co1, k_free (ob_ptr out) s4)
                 | (Some hx, s4) =>
                     (0, Some (bin2hex (ob_data out)), co1, k_free (ob_ptr out) (k_free (Some hx) s4))
                 end))
  end.
Proof.
  intros Hl Hn Hreq. cbv zeta. unfold cmd_net_prov. rewrite Hl, parse_session_print, bin2hex_length by done.
  replace (Z.odd (2 * blen req)) with false by (by rewrite Z.odd_mul).
  replace (2 * blen req / 2) with (blen req) by (rewrite Z.mul_comm, Z.div_mul; lia).
  destruct (k_malloc _ s) as [[inbuf|] s1]; [|done].
  assert (Hdec : (if 0 <? blen req then hex2bin (bin2hex req) else Some []) = Some req).
  { destruct req as [|x req]; [done|]. rewrite hex2bin_bin2hex by done. 
    replace (0 <? blen (x :: req)) with true by (symmetry; apply Z.ltb_lt; unfold blen; cbn [length]; lia). done. }
  rewrite Hdec, Z.eqb_refl. cbn [negb]. unfold console_session. rewrite Hl.
  assert (Hco : co_have co = true → n = co_session co → co = mk_console (Some l) n true).
  { destruct co; cbn in *; intros; by subst. }
  destruct (negb (co_have co) || negb (n =? co_session co)) eqn:Hre; cbn [mbind option_bind].
  - destruct (api_open_session (Some l) s1) as [s2|]; cbn [mbind option_bind]; [|done].
    assert (Hco1 : co <| co_session := n |> <| co_have := true |> = mk_console (Some l) n true)
      by (destruct co; cbn in Hl |- *; by rewrite Hl).
    rewrite Hco1. cbn [co_pc]. destruct (api_req_handle _ _ _ _) as [[[ret out] s3]|]; cbn [mbind option_bind]; [|done].
    unfold console_reply. destruct (negb (ret =? 0)); [done|]. by destruct (k_malloc _ _) as [[hx|] s4].
  - breflect. rewrite Hl. rewrite <- (Hco ltac:(done) ltac:(done)).
    destruct (api_req_handle _ _ _ _) as [[[ret out] s3]|]; cbn [mbind option_bind]; [|done].
    unfold console_reply. destruct (negb (ret =? 0)); [done|]. by destruct (k_malloc _ _) as [[hx|] s4].
Qed.

(** The command gives back everything it allocated, on every path: if opening a
    session and serving a request change the heap only by the session's own blocks
    [ses] and the response, then after the command only the session's remain. *)
Theorem console_heap_balance (ses : S → gset loc) ep tok hex co (s : S) rc line co' s' :
  (∀ pc n b (s0 : S) ret out s1, api_req_handle pc n b s0 = Some (ret, out, s1) →
     allocated s1 = buf_locs out ∪ allocated s0 ∧ buf_locs out ## allocated s0 ∧ ses s1 = ses s0 ∧
     (ret ≠ 0 → ob_ptr out = None)) →
  (∀ pc (s0 s1 : S), api_open_session pc s0 = Some s1 →
     allocated s1 ∖ ses s1 = allocated s0 ∖ ses s0 ∧ ses s1 ## allocated s0 ∖ ses s0) →
  (∀ n (s0 : S), ses (k_malloc n s0).2 = ses s0) → (∀ p (s0 : S), ses (k_free p s0) = ses s0) →
  ses s ⊆ allocated s →
  cmd_net_prov ULONG_MAX ep tok hex co s = Some (rc, line, co', s') →
  allocated s' ∖ ses s' = allocated s ∖ ses s.
Proof.
  intros Hreq Hopen Hsm Hsf Hsub Hrun. unfold cmd_net_prov in Hrun.
  destruct (co_pc co) as [l|]; [|by simplify_eq]. destruct (parse_session _ _) as [n|]; [|by simplify_eq].
  destruct (Z.odd _); [by simplify_eq|]. cbv zeta in Hrun.
  pose proof (Hsm (if 0 <? strlen hex / 2 then strlen hex / 2 else 1) s) as Hs1.
  destruct (k_malloc _ s) as [[inbuf|] s1] eqn:Hm; cbn [snd] in Hs1.
  2:{ simplify_eq. by rewrite Hs1, (k_malloc_none _ _ _ Hm). }
  pose proof (k_malloc_some _ _ _ _ Hm) as [Hfresh Hall].
  assert (Hback : allocated (k_free (Some inbuf) s1) ∖ ses (k_free (Some inbuf) s1) = allocated s ∖ ses s).
  { by rewrite Hsf, Hs1, (free_malloc _ _ _ _ Hm). }
  destruct (if 0 <? strlen hex / 2 then hex2bin hex else Some []) as [bs|]; [|by simplify_eq].
  destruct (negb (blen bs =? _)); [by simplify_eq|].
  destruct (console_session n co s1) as [[co1 s2]|] eqn:Hcs; cbn [mbind option_bind] in Hrun; [|done].
  (* the session's blocks and the request buffer stay apart *)
  assert (H2 : allocated s2 ∖ ses s2 = {[inbuf]} ∪ (allocated s ∖ ses s) ∧ inbuf ∉ ses s2 ∧ inbuf ∉ allocated s ∖ ses s).
  { unfold console_session in Hcs. destruct (negb (co_have co) || _).
    - destruct (api_open_session _ s1) as [s2'|] eqn:Ho; cbn [mbind option_bind] in Hcs; simplify_eq.
      destruct (Hopen _ _ _ Ho) as [E1 E2]. rewrite E1, Hall, Hs1. rewrite Hall, Hs1 in E2. set_solver.
    - simplify_eq. rewrite Hall, Hs1. set_solver. }
  destruct H2 as (E1 & E2 & E3).
  destruct (api_req_handle _ _ _ s2) as [[[ret out] s3]|] eqn:Hr; cbn [mbind option_bind] in Hrun; [|done].
  destruct (Hreq _ _ _ _ _ _ _ Hr) as (F1 & F2 & F3 & F4).
  destruct (console_reply _ _ _) as [[rc' line'] s4] eqn:Hrep. simplify_eq.
  assert (Hfin : allocated s' = (allocated s3 ∖ {[inbuf]}) ∖ buf_locs out ∧ ses s' = ses s2).
  { unfold console_reply in Hrep. destruct (negb (ret =? 0)) eqn:Hz; breflect.
    - simplify_eq. rewrite Hsf, k_free_some, F3. unfold buf_locs. rewrite F4 by done. split; [set_solver|done].
    - pose proof (Hsm (blen (ob_data out) * 2 + 1) (k_free (Some inbuf) s3)) as Hs4.
      destruct (k_malloc _ (k_free _ s3)) as [[hx|] s4] eqn:Hm2; cbn [snd] in Hs4; simplify_eq;
        rewrite !Hsf, Hs4, Hsf, F3, k_free_allocated; fold (buf_locs out); (split; [|done]).
      + by rewrite (free_malloc _ _ _ _ Hm2), k_free_some.
      + by rewrite (k_malloc_none _ _ _ Hm2), k_free_some. }
  destruct Hfin as [-> ->]. rewrite F1. clear - E1 E2 E3 F2. set_solver.
Qed.

(** Different tokens can name one session, despite the intent stated next to the
    check: leading zeros, a plus sign and leading blanks are accepted, so that these
    commands continue session 1 and do not reset it. *)
Theorem console_tokens_alias ep hex co (s : S) tok :
  tok ∈ ["01"; "+1"; " 1"; "0000000001"] →
  cmd_net_prov ULONG_MAX ep tok hex co s = cmd_net_prov ULONG_MAX ep "1" hex co s.
Proof.
  intros Htok. assert (Hp : parse_session ULONG_MAX tok = parse_session ULONG_MAX "1").
  { assert (Hle : ULONG_MAX <? 1 = false) by (apply Z.ltb_ge; unfold UINT32_MAX in *; lia).
    repeat (apply elem_of_cons in Htok as [->|Htok]; [cbv -[Z.ltb Z.modulo]; by rewrite Hle|]).
    by apply elem_of_nil in Htok. }
  unfold cmd_net_prov. by rewrite Hp.
Qed.
End console_facts.

(** With a pointer that may be used the command always completes, and it may still be
    used afterwards. *)
Lemma console_delivers {S : Type} `{HH : KHeap S} `{PA : ProtocommApi S} `{HX : HexCodec} F serving
    `{!ServingLaws F S serving} ULONG_MAX ep tok hex co (s : S) :
  serving (co_pc co) s →
  delivers F (λ '(_, _, co', s'), co_pc co' = co_pc co ∧ serving (co_pc co) s') (cmd_net_prov ULONG_MAX ep tok hex co s).
Proof.
  intros Hs. unfold cmd_net_prov. destruct (co_pc co) as [l|] eqn:Hl; [|done].
  destruct (parse_session _ _) as [n|]; [|done]. destruct (Z.odd _); [done|]. cbv zeta.
  pose proof (sv_malloc (if 0 <? strlen hex / 2 then strlen hex / 2 else 1) _ _ Hs) as Hs1.
  destruct (k_malloc _ s) as [[inbuf|] s1]; cbn [snd] in Hs1; [|done].
  destruct (if 0 <? strlen hex / 2 then _ else _) as [bs|]; [|split; [done|]; by apply sv_free].
  destruct (negb (blen bs =? _)); [split; [done|]; by apply sv_free|].
  apply (delivers_bind F (λ '(co1, s2), co_pc co1 = Some l ∧ serving (Some l) s2)).
  { unfold console_session. rewrite Hl. destruct (negb (co_have co) || _); [|done].
    apply (delivers_bind F (serving (Some l))); [by apply sv_open|]. by intros s2 Hs2. }
  intros [co1 s2] [Hl1 Hs2]. rewrite Hl1.
  apply (delivers_bind F (λ r, serving (Some l) r.2)); [by apply sv_req|]. intros [[rc out] s3] Hs3. cbn [snd] in Hs3.
  assert (Hrep : serving (Some l) (console_reply rc out (k_free (Some inbuf) s3)).2).
  { unfold console_reply. pose proof (sv_free (Some inbuf) _ _ Hs3) as Hs4. destruct (negb (rc =? 0)); [done|].
    pose proof (sv_malloc (blen (ob_data out) * 2 + 1) _ _ Hs4) as Hs5.
    destruct (k_malloc _ _) as [[hx|] s5]; cbn [snd] in *; repeat apply sv_free; exact Hs5. }
  by destruct (console_reply _ _ _) as [[r line] s4].
Qed.
