(* ===== verification/Ble.v ===== *)
(** * Ble: the GATT transport (src/protocomm_ble.c)

    The service is built at start from the endpoint table: one characteristic per
    endpoint, with its response cached between the write and the read. The GATT
    database, advertising and [bt_gatt_attr_read] are Zephyr's, parameters here. *)
From S2P Require Import Prelude Platform Transport.

Definition MAX_EP : nat := 8.
Definition EP_NAME_MAX : nat := 16.
Definition MFG_DATA_MAX : Z := 11.
Definition UUID_LEN : nat := 16.
(** The index of the UUID byte that tells the endpoints apart. *)
Definition UUID_EP_BYTE : nat := 12.
(** Longest name that fits [adv_name]. *)
Definition ADV_NAME_MAX : nat := 31.

(** [struct ep_io]; [io_resp] is the first [resp_len] bytes of [resp]. *)
Record ep_io := mk_io { io_name : string; io_resp : bytes }.

(** [struct bt_gatt_attr]: pointers to the file's tables are indices into them. *)
Inductive attr_uuid := UUID_GATT_PRIMARY | UUID_GATT_CHRC | UUID_GATT_CUD | UUID_EP (i : nat).
Inductive attr_fn := bt_gatt_attr_read_service | bt_gatt_attr_read_chrc | bt_gatt_attr_read_cud | FN_read_ep | FN_write_ep.
Inductive attr_user := USER_service_uuid | USER_chrc (i : nat) | USER_io (i : nat) | USER_name (i : nat).
Record gatt_attr := mk_attr {
  at_uuid : attr_uuid; at_perm_read : bool; at_perm_write : bool;
  at_read : attr_fn; at_write : option attr_fn; at_user : attr_user }.
(** [struct bt_gatt_chrc] *)
Record gatt_chrc := mk_chrc { ch_uuid : nat; ch_read : bool; ch_write : bool }.

Inductive bt_data_type := BT_DATA_FLAGS | BT_DATA_NAME_COMPLETE | BT_DATA_UUID128_ALL | BT_DATA_MANUFACTURER_DATA.
Definition bt_data : Type := bt_data_type * bytes.

(** The file's static variables. *)
Record ble := mk_ble {
  bl_pc : option loc;
  bl_service_uuid : bytes;
  bl_mfg : bytes;
  bl_registered : bool;
  bl_ep_uuid : list bytes;
  bl_chrc : list gatt_chrc;
  bl_io : list ep_io;
  bl_attrs : list gatt_attr;
  bl_adv_name : string;
  bl_ad : list bt_data;
  bl_sd : list bt_data;
}.
#[export] Instance ble_eta : FieldEta ble := fun r =>
  mk_ble (bl_pc r) (bl_service_uuid r) (bl_mfg r) (bl_registered r) (bl_ep_uuid r) (bl_chrc r)
    (bl_io r) (bl_attrs r) (bl_adv_name r) (bl_ad r) (bl_sd r).

(** The outcome of an attribute callback: a length or an ATT error. *)
Inductive att_error := BT_ATT_ERR_NOT_SUPPORTED | BT_ATT_ERR_UNLIKELY | BT_ATT_ERR_INSUFFICIENT_RESOURCES
  | BT_ATT_ERR_OTHER (n : Z).
Inductive att_result := att_len (n : Z) | att_err (e : att_error).

Class Bluetooth (S : Type) := {
  bt_set_name : string → S → Z * S;
  bt_get_name : S → string;
  bt_enable : S → Z * S;
  bt_gatt_service_register : list gatt_attr → S → Z * S;
  bt_gatt_service_unregister : S → S;
  bt_le_adv_start : list bt_data → list bt_data → S → Z * S;
  bt_le_adv_stop : S → S;
  (** [bt_gatt_attr_read(.., len, offset, value, value_len)]: the outcome and what
      was copied *)
  bt_gatt_attr_read : Z → Z → bytes → att_result * bytes;
}.
Class BluetoothLaws (S : Type) `{Bluetooth S} : Prop :=
  gatt_attr_read_spec len offset value :
    0 <= len → 0 <= offset <= blen value →
    let part := take (Z.to_nat len) (drop (Z.to_nat offset) value) in
    bt_gatt_attr_read len offset value = (att_len (blen part), part).

Section ble.
Context {S : Type} `{KHeap S} `{PA : ProtocommApi S} `{BT : Bluetooth S}.
(** CONFIG_NETWORK_PROV_BLE_MAX_RESP_LEN, [ad_flags] and [PROV_SERVICE_UUID_VAL]. *)
Context (MAX_RESP_LEN : Z) (ad_flags : Z) (PROV_SERVICE_UUID_VAL : bytes).

Definition ble_zero : ble :=
  mk_ble None PROV_SERVICE_UUID_VAL [] false (replicate MAX_EP []) (replicate MAX_EP (mk_chrc 0 false false))
    (replicate MAX_EP (mk_io EmptyString [])) [] EmptyString [] [].

(** [uuid128] points to 16 bytes. *)
Definition network_prov_scheme_ble_set_service_uuid (uuid128 : option bytes) (bl : ble) : Z * ble :=
  match uuid128 with
  | None => (- EINVAL, bl)
  | Some u => if bl_registered bl then (- EPERM, bl) else (0, bl <| bl_service_uuid := take UUID_LEN u |>)
  end.

Definition network_prov_scheme_ble_set_mfg_data (data : option bytes) (len : Z) (bl : ble) : Z * ble :=
  if MFG_DATA_MAX <? len then (- ENOMEM, bl)
  else if (0 <? len) && bool_decide (data = None) then (- EINVAL, bl)
  else if bl_registered bl then (- EPERM, bl)
  else (0, bl <| bl_mfg := take (Z.to_nat len) (default [] data) |>).

Definition build_adv (name : option string) (bl : ble) (s : S) : ble :=
  let name := if null_or_empty name then bt_get_name s else default EmptyString name in
  let bl1 := bl <| bl_adv_name := strncpy ADV_NAME_MAX name |> in
  bl1 <| bl_ad := [(BT_DATA_FLAGS, [ad_flags]); (BT_DATA_NAME_COMPLETE, str_bytes (bl_adv_name bl1))] |>
      <| bl_sd := (BT_DATA_UUID128_ALL, bl_service_uuid bl1) ::
                  (if 0 <? blen (bl_mfg bl1) then [(BT_DATA_MANUFACTURER_DATA, bl_mfg bl1)] else []) |>.

(** [attr->user_data] is [&ep_io[i]]. *)
Definition read_ep (i : nat) (len offset : Z) (bl : ble) : option (att_result * bytes) :=
  (fun io => bt_gatt_attr_read len offset (io_resp io)) <$> bl_io bl !! i.

Definition set_resp (i : nat) (resp : bytes) (bl : ble) : ble :=
  bl <| bl_io := alter (fun io => mk_io (io_name io) resp) i (bl_io bl) |>.

(** [prepare] is [flags & BT_GATT_WRITE_FLAG_PREPARE]. *)
Definition write_ep (i : nat) (buf : bytes) (offset : Z) (prepare : bool) (bl : ble) (s : S)
    : option (att_result * ble * S) :=
  if prepare then Some (att_len (blen buf), bl, s)
  else if negb (offset =? 0) then Some (att_err BT_ATT_ERR_NOT_SUPPORTED, bl, s)
  else
    io ← bl_io bl !! i;
    '(ret, out, s1) ← api_req_handle (bl_pc bl) (io_name io) buf s;
    if negb (ret =? 0) then Some (att_err BT_ATT_ERR_UNLIKELY, set_resp i [] bl, s1)
    else if MAX_RESP_LEN <? blen (ob_data out)
    then Some (att_err BT_ATT_ERR_INSUFFICIENT_RESOURCES, set_resp i [] bl, k_free (ob_ptr out) s1)
    else Some (att_len (blen buf), set_resp i (ob_data out) bl, k_free (ob_ptr out) s1).

(** [ep_uuid[i].val[12] = 0xF0 + (uint8_t)i] on a copy of the service UUID. *)
Definition endpoint_uuid (base : bytes) (i : nat) : bytes :=
  <[UUID_EP_BYTE := u8 (240 + Z.of_nat i)]> base.

(** One turn of the loop of [build_service]. *)
Definition build_endpoint (i : nat) (name : string) (bl : ble) : ble :=
  bl <| bl_io := <[i := mk_io (strncpy (EP_NAME_MAX - 1) name) []]> (bl_io bl) |>
     <| bl_ep_uuid := <[i := endpoint_uuid (bl_service_uuid bl) i]> (bl_ep_uuid bl) |>
     <| bl_chrc := <[i := mk_chrc i true true]> (bl_chrc bl) |>
     <| bl_attrs := bl_attrs bl ++
          [ mk_attr UUID_GATT_CHRC true false bt_gatt_attr_read_chrc None (USER_chrc i);
            mk_attr (UUID_EP i) true true FN_read_ep (Some FN_write_ep) (USER_io i);
            mk_attr UUID_GATT_CUD true false bt_gatt_attr_read_cud None (USER_name i) ] |>.

Fixpoint build_endpoints (i : nat) (names : list string) (bl : ble) : ble :=
  match names with
  | [] => bl
  | name :: names => build_endpoints (i + 1) names (build_endpoint i name bl)
  end.

Definition build_service (bl : ble) (s : S) : option ble :=
  names ← api_endpoint_names (bl_pc bl) s;
  let bl1 := bl <| bl_attrs := [mk_attr UUID_GATT_PRIMARY true false bt_gatt_attr_read_service None
                                  USER_service_uuid] |> in
  Some (build_endpoints 0 (take MAX_EP names) bl1).

Definition connected (err : Z) (bl : ble) (s : S) : option S :=
  if negb (err =? 0) then Some s else api_open_session (bl_pc bl) s.

Definition disconnected (bl : ble) (s : S) : option (ble * S) :=
  s1 ← api_close_session (bl_pc bl) s;
  Some (bl <| bl_io := (fun io => mk_io (io_name io) []) <$> bl_io bl |>, s1).

Definition recycled (bl : ble) (s : S) : S :=
  if negb (bl_registered bl) then s else (bt_le_adv_start (bl_ad bl) (bl_sd bl) s).2.

Definition network_prov_ble_start (pc : option loc) (device_name : option string) (bl : ble) (s : S)
    : option (Z * ble * S) :=
  let bl1 := bl <| bl_pc := pc |> in
  let s1 := if null_or_empty device_name then s else (bt_set_name (default EmptyString device_name) s).2 in
  let '(ret, s2) := bt_enable s1 in
  if negb (ret =? 0) && negb (ret =? - EALREADY) then Some (ret, bl1, s2)
  else
    bl2 ← build_service bl1 s2;
    let '(ret, s3) := bt_gatt_service_register (bl_attrs bl2) s2 in
    if negb (ret =? 0) then Some (ret, bl2, s3)
    else
      let bl3 := build_adv device_name (bl2 <| bl_registered := true |>) s3 in
      let '(ret, s4) := bt_le_adv_start (bl_ad bl3) (bl_sd bl3) s3 in
      if negb (ret =? 0) then Some (ret, bl3, s4) else Some (0, bl3, s4).

Definition network_prov_ble_stop (bl : ble) (s : S) : ble * S :=
  let s1 := bt_le_adv_stop s in
  if bl_registered bl
  then (bl <| bl_registered := false |> <| bl_pc := None |>, bt_gatt_service_unregister s1)
  else (bl <| bl_pc := None |>, s1).

Definition ble_scheme_start (pc : option loc) (service_name service_key : option string) (bl : ble) (s : S)
    : option (Z * ble * S) := network_prov_ble_start pc service_name bl s.
End ble.

(** ** What a successful start offers to the clients *)
Section ble_facts.
Context {S : Type} `{HH : KHeap S} `{PA : ProtocommApi S} `{BT : Bluetooth S} `{!BluetoothLaws S}.
Context (MAX_RESP_LEN : Z) (ad_flags : Z).

(** The tables have room for every endpoint, the UUID its 16 bytes. *)
Record ble_wf (bl : ble) : Prop := {
  bw_io : length (bl_io bl) = MAX_EP;
  bw_uuid : length (bl_ep_uuid bl) = MAX_EP;
  bw_chrc : length (bl_chrc bl) = MAX_EP;
  bw_service : length (bl_service_uuid bl) = UUID_LEN;
  bw_mfg : blen (bl_mfg bl) <= MFG_DATA_MAX;
}.

(** The three attributes of characteristic [i]. *)
Definition endpoint_attrs (i : nat) : list gatt_attr :=
  [ mk_attr UUID_GATT_CHRC true false bt_gatt_attr_read_chrc None (USER_chrc i);
    mk_attr (UUID_EP i) true true FN_read_ep (Some FN_write_ep) (USER_io i);
    mk_attr UUID_GATT_CUD true false bt_gatt_attr_read_cud None (USER_name i) ].

Lemma build_endpoint_wf i name bl : ble_wf bl → ble_wf (build_endpoint i name bl).
Proof. intros [A1 A2 A3 A4 A5]. destruct bl. cbn in *. split; cbn; rewrite ?length_insert; done. Qed.

(** What the loop has written from entry [i] on, by induction on the names. *)
Lemma build_endpoints_spec i names bl :
  ble_wf bl → (i + length names ≤ MAX_EP)%nat →
  let bl' := build_endpoints i names bl in
  ble_wf bl' ∧ bl_service_uuid bl' = bl_service_uuid bl ∧ bl_mfg bl' = bl_mfg bl ∧ bl_pc bl' = bl_pc bl ∧
  bl_registered bl' = bl_registered bl ∧
  bl_attrs bl' = bl_attrs bl ++ concat (endpoint_attrs <$> seq i (length names)) ∧
  (∀ j, (j < i)%nat → bl_io bl' !! j = bl_io bl !! j ∧ bl_ep_uuid bl' !! j = bl_ep_uuid bl !! j ∧
                      bl_chrc bl' !! j = bl_chrc bl !! j) ∧
  ∀ j name, names !! j = Some name →
    bl_io bl' !! (i + j)%nat = Some (mk_io (strncpy (EP_NAME_MAX - 1) name) []) ∧
    bl_ep_uuid bl' !! (i + j)%nat = Some (endpoint_uuid (bl_service_uuid bl) (i + j)) ∧
    bl_chrc bl' !! (i + j)%nat = Some (mk_chrc (i + j) true true).
Proof.
  revert i bl. induction names as [|n names IH]; intros i bl Hwf Hlen; cbn [build_endpoints].
  { split; [done|]. cbn. rewrite app_nil_r. done. }
  cbn [length] in Hlen.
  destruct (IH (i + 1)%nat (build_endpoint i n bl)) as (I1 & I2 & I3 & I4 & I5 & I6 & I7 & I8);
    [by apply build_endpoint_wf|lia|].
  set (bl' := build_endpoints (i + 1) names (build_endpoint i n bl)) in *.
  split; [done|]. split; [exact I2|]. split; [exact I3|]. split; [exact I4|]. split; [exact I5|].
  assert (Hhere : bl_io (build_endpoint i n bl) !! i = Some (mk_io (strncpy (EP_NAME_MAX - 1) n) []) ∧
    bl_ep_uuid (build_endpoint i n bl) !! i = Some (endpoint_uuid (bl_service_uuid bl) i) ∧
    bl_chrc (build_endpoint i n bl) !! i = Some (mk_chrc i true true)).
  { destruct Hwf as [W1 W2 W3 _ _]. destruct bl; cbn -[strncpy] in *.
    rewrite !list_lookup_insert_eq by lia. done. }
  assert (Hlow : ∀ j, (j < i)%nat → bl_io (build_endpoint i n bl) !! j = bl_io bl !! j ∧
    bl_ep_uuid (build_endpoint i n bl) !! j = bl_ep_uuid bl !! j ∧ bl_chrc (build_endpoint i n bl) !! j = bl_chrc bl !! j).
  { intros j Hj. destruct bl; cbn. rewrite !list_lookup_insert_ne by lia. done. }
  split.
  - rewrite I6. replace (i + 1)%nat with (Datatypes.S i) by lia. cbn [length seq fmap list_fmap concat].
    change (bl_attrs (build_endpoint i n bl)) with (bl_attrs bl ++ endpoint_attrs i). by rewrite <- app_assoc.
  - split.
    + intros j Hj. destruct (I7 j ltac:(lia)) as (-> & -> & ->). by apply Hlow.
    + intros [|j] name Hj; cbn in Hj.
      * simplify_eq. rewrite Nat.add_0_r. destruct (I7 i ltac:(lia)) as (-> & -> & ->). exact Hhere.
      * replace (i + Datatypes.S j)%nat with (i + 1 + j)%nat by lia. exact (I8 j name Hj).
Qed.

Lemma endpoint_uuid_distinct base i j :
  length base = UUID_LEN → (i < MAX_EP)%nat → (j < MAX_EP)%nat → i ≠ j →
  endpoint_uuid base i ≠ endpoint_uuid base j.
Proof.
  intros Hb Hi Hj Hne Heq. unfold endpoint_uuid in Heq. apply (f_equal (lookup UUID_EP_BYTE)) in Heq.
  unfold UUID_LEN, UUID_EP_BYTE, MAX_EP in *. rewrite !list_lookup_insert_eq in Heq by lia. injection Heq as Heq.
  unfold u8 in Heq. rewrite !Z.mod_small in Heq by lia. lia.
Qed.

(** C33: The GATT service mirrors the endpoint table. After a successful start the
    registered attributes are the primary service followed by, per endpoint and in
    the table's order, a characteristic declaration, a readable and writable value
    and a user description; entry [i] of the tables they point to carries endpoint
    [i]'s name, a UUID no other endpoint has, and an empty response. The 25-entry
    attribute array is never overrun. *)
Theorem ble_service_mirrors_endpoints pc name bl (s : S) bl' s' :
  ble_wf bl → network_prov_ble_start ad_flags pc name bl s = Some (0, bl', s') →
  ∃ names, api_endpoint_names pc (bt_enable (if null_or_empty name then s
             else (bt_set_name (default EmptyString name) s).2)).2 = Some names ∧
    bl_pc bl' = pc ∧ bl_registered bl' = true ∧
    bl_attrs bl' = mk_attr UUID_GATT_PRIMARY true false bt_gatt_attr_read_service None USER_service_uuid ::
                   concat (endpoint_attrs <$> seq 0 (Nat.min MAX_EP (length names))) ∧
    (length (bl_attrs bl') ≤ 1 + 3 * MAX_EP)%nat ∧
    (∀ i n, (i < MAX_EP)%nat → names !! i = Some n →
       bl_io bl' !! i = Some (mk_io (strncpy (EP_NAME_MAX - 1) n) []) ∧
       ((String.length n < EP_NAME_MAX)%nat → strncpy (EP_NAME_MAX - 1) n = n) ∧ bl_chrc bl' !! i = Some (mk_chrc i true true) ∧
       ∃ u, bl_ep_uuid bl' !! i = Some u ∧
         ∀ j u', j ≠ i → (j < Nat.min MAX_EP (length names))%nat → bl_ep_uuid bl' !! j = Some u' → u ≠ u').
Proof.
  intros Hwf Hrun. unfold network_prov_ble_start in Hrun.
  set (s1 := if null_or_empty name then s else _) in *. destruct (bt_enable s1) as [ret s2] eqn:He. cbn [snd].
  destruct (negb (ret =? 0) && negb (ret =? - EALREADY)) eqn:Hret.
  { by simplify_eq. }
  unfold build_service in Hrun. change (bl_pc (bl <| bl_pc := pc |>)) with pc in Hrun.
  destruct (api_endpoint_names pc s2) as [names|] eqn:Hnames; cbn [mbind option_bind] in Hrun; [|done].
  set (bl1 := bl <| bl_pc := pc |> <| bl_attrs := _ |>) in Hrun.
  assert (Hwf1 : ble_wf bl1) by (destruct Hwf; by split).
  destruct (build_endpoints_spec 0 (take MAX_EP names) bl1 Hwf1) as (I1 & I2 & I3 & I4 & I5 & I6 & _ & I8);
    [rewrite length_take; lia|]. rewrite length_take in I6.
  set (bl2 := build_endpoints 0 _ bl1) in *. clearbody bl2.
  destruct (bt_gatt_service_register _ s2) as [ret2 s3]. destruct (negb (ret2 =? 0)) eqn:Hr2.
  { by simplify_eq. }
  set (bl3 := build_adv _ _ _ _) in Hrun.
  destruct (bt_le_adv_start _ _ s3) as [ret3 s4]. destruct (negb (ret3 =? 0)) eqn:Hr3.
  { by simplify_eq. }
  injection Hrun as <- <-. exists names. split; [done|].
  assert (B : ∀ b : ble, let b' := build_adv ad_flags name (b <| bl_registered := true |>) s3 in
    bl_pc b' = bl_pc b ∧ bl_registered b' = true ∧ bl_attrs b' = bl_attrs b ∧ bl_io b' = bl_io b ∧
    bl_chrc b' = bl_chrc b ∧ bl_ep_uuid b' = bl_ep_uuid b) by done.
  destruct (B bl2) as (B1 & B2 & B3 & B4 & B5 & B6). fold bl3 in B1, B2, B3, B4, B5, B6. clearbody bl3.
  rewrite B1, B2, B3, B4, B5, B6, I4, I6. split; [done|]. split; [done|]. split; [done|]. split.
  { cbn [app length bl_attrs]. change (bl_attrs bl1) with
      [mk_attr UUID_GATT_PRIMARY true false bt_gatt_attr_read_service None USER_service_uuid]. cbn [app length].
    assert (Hl : ∀ i k, length (concat (endpoint_attrs <$> seq i k)) = (3 * k)%nat).
    { intros i k. revert i. induction k as [|k IH]; intros i; [done|]. cbn [seq fmap list_fmap concat].
      rewrite length_app, IH. cbn. lia. }
    rewrite Hl. unfold MAX_EP. lia. }
  intros i n Hlt Hi. destruct (I8 i n) as (J1 & J2 & J3); [by rewrite lookup_take_lt|].
  split; [done|]. split; [intros; apply strncpy_fits; unfold EP_NAME_MAX in *; lia|]. split; [done|].
  eexists. split; [exact J2|]. intros j u' Hne Hj Hu. assert (Hj' : (j < length names)%nat) by lia.
  apply lookup_lt_is_Some_2 in Hj' as [n' Hn'].
  destruct (I8 j n') as (_ & K2 & _); [rewrite lookup_take_lt; [done|lia]|]. cbn [Nat.add] in *.
  rewrite K2 in Hu. simplify_eq. destruct Hwf1 as [_ _ _ W4 _].
  apply endpoint_uuid_distinct; [done|done|lia|done].
Qed.

(** A central reading a characteristic to the end, [mtu] bytes at a time. *)
Fixpoint read_all (fuel : nat) (i : nat) (mtu offset : Z) (bl : ble) : option bytes :=
  match fuel with
  | O => None
  | Datatypes.S f =>
      match read_ep i mtu offset bl with
      | Some (att_len n, part) =>
          if n <? mtu then Some part else (fun rest => part ++ rest) <$> read_all f i mtu (offset + n) bl
      | _ => None
      end
  end.

Lemma read_all_spec fuel i mtu offset bl io :
  bl_io bl !! i = Some io → 1 <= mtu → 0 <= offset <= blen (io_resp io) →
  blen (io_resp io) - offset < Z.of_nat fuel →
  read_all fuel i mtu offset bl = Some (drop (Z.to_nat offset) (io_resp io)).
Proof.
  intros Hio Hm. revert offset. induction fuel as [|fuel IH]; intros offset Ho Hf; [lia|].
  cbn [read_all]. unfold read_ep. rewrite Hio. cbn [fmap option_fmap option_map].
  rewrite gatt_attr_read_spec by lia. set (part := take _ _).
  assert (Hlen : blen part = Z.min mtu (blen (io_resp io) - offset)).
  { unfold part, blen. rewrite length_take, length_drop. unfold blen in Ho. lia. }
  destruct (blen part <? mtu) eqn:Hlt; breflect.
  - f_equal. unfold part. apply take_ge. rewrite length_drop. unfold blen in *. lia.
  - assert (Hpm : blen part = mtu) by lia. rewrite IH by lia. cbn [fmap option_fmap option_map]. f_equal.
    rewrite Hpm. replace (Z.to_nat (offset + mtu)) with (Z.to_nat offset + Z.to_nat mtu)%nat by lia.
    rewrite <- drop_drop. apply take_drop.
Qed.

(** C32: A request written to a characteristic is answered there. An unfragmented
    write of [req] to characteristic [i] is exactly one request of endpoint [i] with
    those bytes; when it is accepted, the whole write is acknowledged, the response
    buffer is released, and any client that reads the characteristic to its end, in
    pieces of any size, gets exactly the response. When protocomm refuses it or the
    response is too long, the write fails and the characteristic reads empty. The
    fragments of a long write do nothing by themselves. *)
Theorem ble_request_response i req bl (s : S) io :
  bl_io bl !! i = Some io →
  (∀ offset, write_ep MAX_RESP_LEN i req offset true bl s = Some (att_len (blen req), bl, s)) ∧
  match api_req_handle (bl_pc bl) (io_name io) req s with
  | None => write_ep MAX_RESP_LEN i req 0 false bl s = None
  | Some (ret, out, s1) =>
      let ok := (ret =? 0) && (blen (ob_data out) <=? MAX_RESP_LEN) in
      ∃ res bl' s2, write_ep MAX_RESP_LEN i req 0 false bl s = Some (res, bl', s2) ∧
        s2 = (if ret =? 0 then k_free (ob_ptr out) s1 else s1) ∧
        res = (if ok then att_len (blen req)
               else if ret =? 0 then att_err BT_ATT_ERR_INSUFFICIENT_RESOURCES
               else att_err BT_ATT_ERR_UNLIKELY) ∧
        (∀ j, j ≠ i → bl_io bl' !! j = bl_io bl !! j) ∧
        ∀ mtu fuel, 1 <= mtu → blen (ob_data out) < Z.of_nat fuel →
          read_all fuel i mtu 0 bl' = Some (if ok then ob_data out else [])
  end.
Proof.
  intros Hio. split; [done|]. unfold write_ep. cbn [negb Z.eqb]. rewrite Hio. cbn [mbind option_bind].
  destruct (api_req_handle _ _ _ _) as [[[ret out] s1]|]; cbn [mbind option_bind]; [|done].
  assert (Hset : ∀ r, bl_io (set_resp i r bl) !! i = Some (mk_io (io_name io) r)).
  { intros r. unfold set_resp. cbn. by rewrite list_lookup_alter_eq, Hio. }
  assert (Hother : ∀ r j, j ≠ i → bl_io (set_resp i r bl) !! j = bl_io bl !! j).
  { intros r j Hj. unfold set_resp. cbn. by apply list_lookup_alter_ne. }
  assert (Hread : ∀ r mtu fuel, 1 <= mtu → blen r < Z.of_nat fuel →
    read_all fuel i mtu 0 (set_resp i r bl) = Some r).
  { intros r mtu fuel Hm Hf. assert (Hr0 : 0 <= blen r) by (unfold blen; lia).
    rewrite (read_all_spec _ _ _ _ _ _ (Hset r)) by (cbn; lia). done. }
  assert (Hnil : ∀ fuel, blen (ob_data out) < Z.of_nat fuel → blen (@nil Z) < Z.of_nat fuel).
  { intros fuel. unfold blen. cbn. lia. }
  destruct (ret =? 0) eqn:Hr; cbn [negb andb].
  - rewrite Z.leb_antisym. destruct (MAX_RESP_LEN <? blen (ob_data out)) eqn:Hl; cbn [negb];
      do 3 eexists; (split; [reflexivity|]; split; [done|]; split; [done|]; split; [auto|]; intros; auto).
  - do 3 eexists. split; [reflexivity|]. split; [done|]. split; [done|]. split; [auto|]. intros; auto.
Qed.

(** Nothing of one central's session is left for the next: a disconnect closes
    protocomm's session and empties every cached response, so that whatever a later
    central reads before writing is empty; a successful connection opens a session,
    a failed one changes nothing. *)
Theorem ble_session_follows_connection bl (s : S) :
  (∀ bl' s', disconnected bl s = Some (bl', s') →
     api_close_session (bl_pc bl) s = Some s' ∧ bl_pc bl' = bl_pc bl ∧
     (io_name <$> bl_io bl') = (io_name <$> bl_io bl) ∧
     ∀ i mtu, (i < length (bl_io bl))%nat → 1 <= mtu → read_all 1 i mtu 0 bl' = Some []) ∧
  connected 0 bl s = api_open_session (bl_pc bl) s ∧
  (∀ err, err ≠ 0 → connected err bl s = Some s).
Proof.
  split; [|split].
  - intros bl' s' Hd. unfold disconnected in Hd.
    destruct (api_close_session _ s) as [s1|]; cbn [mbind option_bind] in Hd; [|done]. injection Hd as <- <-.
    split; [done|]. split; [done|]. split; [cbn; by rewrite <- list_fmap_compose|].
    intros i mtu Hi Hm. apply lookup_lt_is_Some_2 in Hi as [io Hio].
    rewrite (read_all_spec _ _ _ _ _ (mk_io (io_name io) [])); [done| |done|unfold blen; cbn; lia|unfold blen; cbn; lia].
    cbn. by rewrite list_lookup_fmap, Hio.
  - done.
  - intros err He. unfold connected. destruct (err =? 0) eqn:Hz; breflect; [done|]. done.
Qed.

(** An advertising structure takes its data plus two bytes. *)
Definition adv_size (l : list bt_data) : Z :=
  Z.of_nat (sum_list_with (fun d : bt_data => 2 + length d.2)%nat l).

(** Advertising. The setters accept at most 11 bytes of manufacturer data and
    16 of UUID, and nothing once the service is registered, so that the scan response
    always fits a 31-byte packet. The advertisement itself does not: the name is cut
    at 31 bytes, but with the flags only names of up to 26 fit, and longer ones make
    the packet too long. *)
Theorem ble_advertising_sizes bl name (s : S) :
  ble_wf bl →
  let bl' := build_adv ad_flags name bl s in
  let n := if null_or_empty name then bt_get_name s else default EmptyString name in
  adv_size (bl_sd bl') <= 31 ∧
  adv_size (bl_ad bl') = 5 + Z.min 31 (strlen n) ∧
  (adv_size (bl_ad bl') <= 31 ↔ strlen n <= 26) ∧
  (∀ u rc bl1, network_prov_scheme_ble_set_service_uuid u bl = (rc, bl1) →
     (∀ b, u = Some b → length b = UUID_LEN) → ble_wf bl1) ∧
  (∀ d l rc bl1, network_prov_scheme_ble_set_mfg_data d l bl = (rc, bl1) → ble_wf bl1) ∧
  (bl_registered bl = true → ∀ u b d l,
     network_prov_scheme_ble_set_service_uuid (Some u) bl = (- EPERM, bl) ∧
     (l <= MFG_DATA_MAX → network_prov_scheme_ble_set_mfg_data (Some b) l bl = (- EPERM, bl)) ∧
     (network_prov_scheme_ble_set_mfg_data d l bl).2 = bl).
Proof.
  intros [W1 W2 W3 W4 W5] bl' n.
  assert (Had : adv_size (bl_ad bl') = 5 + Z.min 31 (strlen n)).
  { unfold bl', build_adv, adv_size. destruct bl; cbn -[strncpy ADV_NAME_MAX].
    rewrite length_str_bytes, length_strncpy. unfold ADV_NAME_MAX, strlen, n. lia. }
  split; [|split; [done|split; [rewrite Had; lia|split; [|split]]]].
  - unfold bl', build_adv, adv_size. destruct bl; cbn in W4, W5 |- *. unfold UUID_LEN, MFG_DATA_MAX in *.
    destruct (0 <? blen bl_mfg0) eqn:Hm; cbn; unfold blen in *; lia.
  - intros u rc bl1 Hs Hu. unfold network_prov_scheme_ble_set_service_uuid in Hs.
    destruct u as [u|]; [|by simplify_eq]. destruct (bl_registered bl); simplify_eq; [done|].
    split; cbn; try done. rewrite length_take, (Hu u eq_refl). done.
  - intros d l rc bl1 Hs. unfold network_prov_scheme_ble_set_mfg_data in Hs.
    destruct (MFG_DATA_MAX <? l) eqn:Hl; [by simplify_eq|]. destruct (_ && _); [by simplify_eq|].
    destruct (bl_registered bl); simplify_eq; [done|]. split; cbn; try done. breflect.
    unfold blen. rewrite length_take. unfold MFG_DATA_MAX in *. lia.
  - intros Hreg u b d l. unfold network_prov_scheme_ble_set_service_uuid, network_prov_scheme_ble_set_mfg_data.
    rewrite Hreg. split; [done|]. split.
    + intros Hl. assert (Hlt : MFG_DATA_MAX <? l = false) by (by apply Z.ltb_ge). rewrite Hlt.
      rewrite bool_decide_false by done. by rewrite andb_false_r.
    + destruct (_ <? _); [done|]. by destruct (_ && _).
Qed.

(** A start that fails at advertising leaves the service registered and the
    pointer in place: the characteristics keep answering from it (while the manager
    deletes the object), connections open sessions on it, and the setters stay
    locked until a stop. *)
Theorem ble_failed_start_keeps_service pc name bl (s : S) rc bl' s' :
  network_prov_ble_start ad_flags pc name bl s = Some (rc, bl', s') → rc ≠ 0 →
  bl_pc bl' = pc ∧
  (bl_registered bl = false → bl_registered bl' = true →
   (∃ s3, rc = (bt_le_adv_start (bl_ad bl') (bl_sd bl') s3).1) ∧
   connected 0 bl' s' = api_open_session pc s' ∧
   (∀ u, network_prov_scheme_ble_set_service_uuid (Some u) bl' = (- EPERM, bl')) ∧
   bl_registered (network_prov_ble_stop bl' s').1 = false).
Proof.
  intros Hrun Hrc. unfold network_prov_ble_start in Hrun.
  set (s1 := if null_or_empty name then s else _) in *. destruct (bt_enable s1) as [ret s2].
  destruct (negb (ret =? 0) && negb (ret =? - EALREADY)).
  { injection Hrun as <- <- <-. split; [done|]. intros Hf Ht. cbn in Ht. congruence. }
  unfold build_service in Hrun.
  destruct (api_endpoint_names _ s2) as [names|]; cbn [mbind option_bind] in Hrun; [|done].
  assert (Hbuild : ∀ ns i b, bl_pc (build_endpoints i ns b) = bl_pc b ∧
    bl_registered (build_endpoints i ns b) = bl_registered b).
  { induction ns as [|n ns IH]; intros i b; [done|]. cbn [build_endpoints].
    destruct (IH (i + 1)%nat (build_endpoint i n b)) as [-> ->]. done. }
  set (bl1 := bl <| bl_pc := pc |> <| bl_attrs := _ |>) in Hrun.
  destruct (Hbuild (take MAX_EP names) 0%nat bl1) as [P1 P2].
  set (bl2 := build_endpoints 0 _ bl1) in *. clearbody bl2.
  destruct (bt_gatt_service_register _ s2) as [ret2 s3]. destruct (negb (ret2 =? 0)).
  { injection Hrun as <- <- <-. split; [done|]. intros Hf Ht. rewrite P2 in Ht. cbn in Ht. congruence. }
  assert (B : ∀ b : ble, let b' := build_adv ad_flags name (b <| bl_registered := true |>) s3 in
    bl_pc b' = bl_pc b ∧ bl_registered b' = true) by done.
  destruct (B bl2) as [B1 B2]. set (bl3 := build_adv _ _ _ _) in *. clearbody bl3.
  destruct (bt_le_adv_start (bl_ad bl3) (bl_sd bl3) s3) as [ret3 s4] eqn:Hadv.
  destruct (negb (ret3 =? 0)); injection Hrun as <- <- <-; [|done].
  assert (Hpc : bl_pc bl3 = pc) by (rewrite B1; exact P1). split; [done|]. intros _ _.
  split; [exists s3; by rewrite Hadv|]. split; [unfold connected; by rewrite Hpc|]. split.
  - intros u. unfold network_prov_scheme_ble_set_service_uuid. by rewrite B2.
  - unfold network_prov_ble_stop. by rewrite B2.
Qed.
End ble_facts.

(** With a pointer that may be used every callback of the stack completes, and it may
    still be used afterwards. *)
Section delivers.
Context {S : Type} `{HH : KHeap S} `{PA : ProtocommApi S} (F : Prop) (serving : option loc → S → Prop) `{!ServingLaws F S serving}.

Definition ble_answered (bl bl' : ble) (s' : S) : Prop :=
  bl_pc bl' = bl_pc bl ∧ length (bl_io bl') = length (bl_io bl) ∧ serving (bl_pc bl) s'.

Lemma write_delivers MAX_RESP_LEN i buf offset prepare bl (s : S) :
  serving (bl_pc bl) s → (i < length (bl_io bl))%nat →
  delivers F (λ '(_, bl', s'), ble_answered bl bl' s') (write_ep MAX_RESP_LEN i buf offset prepare bl s).
Proof.
  intros Hs Hi. assert (Hset : ∀ r, length (bl_io (set_resp i r bl)) = length (bl_io bl)).
  { intros r. unfold set_resp. cbn. apply length_alter. }
  unfold write_ep. destruct prepare; [done|]. destruct (negb _); [done|].
  apply lookup_lt_is_Some_2 in Hi as [io ->]. cbn [mbind option_bind].
  apply (delivers_bind F (λ r, serving (bl_pc bl) r.2)); [by apply sv_req|]. intros [[rc out] s'] Hs'. cbn [snd] in Hs'.
  destruct (negb _); [done|]. destruct (_ <? _); (split; [done|split; [done|by apply sv_free]]).
Qed.

Lemma connected_delivers err bl (s : S) :
  serving (bl_pc bl) s → delivers F (serving (bl_pc bl)) (connected err bl s).
Proof. intros Hs. unfold connected. destruct (negb _); [done|]. by apply sv_open. Qed.

Lemma disconnected_delivers bl (s : S) :
  serving (bl_pc bl) s → delivers F (λ '(bl', s'), ble_answered bl bl' s') (disconnected bl s).
Proof.
  intros Hs. unfold disconnected. apply (delivers_bind F (serving (bl_pc bl))); [by apply sv_close|]. intros s' Hs'.
  split; [done|]. split; [|done]. cbn. apply length_fmap.
Qed.
End delivers.
