(* ===== verification/System.v ===== *)
(** * System: protocomm, as the manager runs it, for the transports

    The whole program's state ([Manager.sys]) as what the transports call protocomm
    on, and the promise of Transport.v kept along every run: a transport may use
    NULL and the running service's object. *)
From S2P Require Import Prelude Platform PbUtil Messages Protocomm Security0 Psa Security1 NetEnv.
From S2P Require Import Manager ManagerFrame ManagerInv ManagerFacts Transport.

Section system.
Context {E : Type} `{HH : KHeap E} `{NL : NetLog E} `{!NetHeapLaws E}.
Context `{WN : WifiNet E} `{!WifiNetLaws E} `{OT : OpenThread E} `{!OpenThreadLaws E}.
Context `{PS : PSA E} `{K : Kernel} {KL : KernelLaws} `{SC : Schemes} `{AP : Application E} `{ST : Settings E}.
Context `{!ManagerEnvLaws E}.
Context `{P1 : PbMsg SessionData} `{P2 : PbMsg NetworkConfigPayload} `{P3 : PbMsg NetworkScanPayload}.
Context `{P4 : PbMsg NetworkCtrlPayload} `{UV : UnionViews}.
Context (cf : build_config).

(** A platform call made by a transport. *)
Definition on_plat {A} (f : E → A * E) (s : sys) : A * sys :=
  let '(a, e) := f (n_plat (sy_net s)) in (a, s <| sy_net := set_plat e (sy_net s) |>).
Definition plat_do (f : E → E) (s : sys) : sys :=
  s <| sy_net := set_plat (f (n_plat (sy_net s))) (sy_net s) |>.

#[export] Instance sys_heap : KHeap sys :=
  {| k_malloc n := on_plat (k_malloc n); k_free p := plat_do (k_free p);
     allocated s := allocated (n_plat (sy_net s)) |}.

(** A NULL object is passed on to protocomm, which refuses it. *)
#[export] Instance sys_api : ProtocommApi sys :=
  {| api_open_session pc s := match pc with Some l => transport_open cf l s | None => Some s end;
     api_close_session pc s := match pc with Some l => transport_close cf l s | None => Some s end;
     api_req_handle pc n b s :=
       match pc with Some l => transport_request cf l (Some n) b s | None => Some (- EINVAL, no_buf, s) end;
     api_endpoint_names pc s :=
       match pc with Some l => (fun p => ep_name <$> endpoints p) <$> sy_pcs s !! l | None => Some [] end |}.

(** The NULL cases are protocomm's own. *)
Lemma sys_api_null : ProtocommApiLaws sys.
Proof. by split. Qed.
Lemma protocomm_null (n : option string) b (x : netst) :
  protocomm_open_session (CB := prov_callbacks cf) None x = (None, x) ∧
  protocomm_close_session (CB := prov_callbacks cf) None x = (None, x) ∧
  protocomm_req_handle (CB := prov_callbacks cf) None n b true x = Some (- EINVAL, no_buf, None, x).
Proof. done. Qed.

(** ** Along a run *)
Context {SO : SchemeOps sys} {AC : AppConfigs} {SL : SchemeLaws} (custom_range : (cf_custom_max cf ≤ 3)%nat).
Context (s0 : sys) (booted : boot cf s0).

(** The pointer may be used in [s] - or faults may happen -, and the transports' state is
    [tr]. *)
Record on_run (F : Prop) (tr : transports) (pc : option loc) (s : sys) : Prop := {
  or_run : rtc (sys_step cf) s0 s;
  or_pc : F ∨ pc = None ∨ pc = mg_pc (sy_mgr s);
  or_tr : sy_tr s = tr;
}.

Lemma on_run_inv F tr pc s : on_run F tr pc s → sys_inv cf s.
Proof. intros []. by apply (reachable_inv cf custom_range s0). Qed.

Lemma on_run_object F tr l s : on_run F tr (Some l) s → F ∨ mg_pc (sy_mgr s) = Some l.
Proof. intros [_ [?|[?|?]] _]; [by left|done|by right]. Qed.

(** One more step that leaves the manager's structure alone. *)
Lemma on_run_step F tr tr' pc s s' :
  sys_step cf s s' → nkeeps (sy_net s) (sy_net s') → sy_tr s' = tr' → on_run F tr pc s → on_run F tr' pc s'.
Proof.
  intros Hs [Hm _] Ht [Hr Hpc _]. split; [by eapply rtc_r| |done].
  destruct (keeps_mgr_fields _ _ Hm) as (_ & _ & _ & Hp & _).
  change (n_env (sy_net s')).1 with (sy_mgr s') in Hp. change (n_env (sy_net s)).1 with (sy_mgr s) in Hp.
  by rewrite Hp.
Qed.

Lemma on_run_plat F tr pc s (e : E) :
  net_log e = net_log (n_plat (sy_net s)) → on_run F tr pc s →
  on_run F tr pc (s <| sy_net := set_plat e (sy_net s) |>).
Proof.
  intros He Hr. pose proof (st_env cf e s He) as Hs.
  refine (on_run_step F tr tr pc s _ Hs _ (or_tr _ _ _ _ Hr) Hr). split; [apply keeps_mgr_refl|].
  change (phases (net_log e) = phases (net_log (n_plat (sy_net s)))). by rewrite He.
Qed.

Lemma on_run_on_plat {A} (f : E → A * E) F tr pc s :
  (∀ e, net_log (f e).2 = net_log e) → on_run F tr pc s → on_run F tr pc (on_plat f s).2.
Proof.
  intros Hf Hr. unfold on_plat. specialize (Hf (n_plat (sy_net s))). destruct (f _) as [a e]. cbn [snd] in *.
  by apply on_run_plat.
Qed.

Lemma on_run_do (f : E → E) F tr pc s : (∀ e, net_log (f e) = net_log e) → on_run F tr pc s → on_run F tr pc (plat_do f s).
Proof. intros Hf. apply on_run_plat, Hf. Qed.

(** A transport's own state. *)
Lemma on_run_transport F tr tr' pc s :
  transport_step tr tr' → on_run F tr pc s → on_run F tr' pc (s <| sy_tr := tr' |>).
Proof.
  intros Ht Hr. refine (on_run_step F tr _ _ s _ _ _ _ Hr); [|split; [apply keeps_mgr_refl|done]|done].
  apply st_transport. by rewrite (or_tr _ _ _ _ Hr).
Qed.

(** A call that comes back is one more step; one at the running service's object does. *)
Lemma on_run_call {A} F tr l s (o : option A) (st : A → sys) :
  on_run F tr (Some l) s → (mg_pc (sy_mgr s) = Some l → is_Some o) →
  (∀ a, o = Some a → sys_step cf s (st a) ∧ nkeeps (sy_net s) (sy_net (st a)) ∧ sy_tr (st a) = sy_tr s) →
  delivers F (λ a, on_run F tr (Some l) (st a)) o.
Proof.
  intros Hs Hlive Hstep. destruct o as [a|]; cbn.
  - destruct (Hstep a eq_refl) as (H1 & H2 & H3). refine (on_run_step _ _ _ _ _ _ H1 H2 _ Hs). by rewrite H3, (or_tr _ _ _ _ Hs).
  - destruct (on_run_object _ _ _ _ Hs) as [?|Hl]; [done|]. by destruct (Hlive Hl).
Qed.

(** Protocomm as the manager runs it keeps its promise to the transports. *)
Lemma sys_serving_laws F tr : ServingLaws F sys (on_run F tr).
Proof.
  assert (Hlive : ∀ l s name b, on_run F tr (Some l) s → mg_pc (sy_mgr s) = Some l →
    is_Some (transport_request cf l name b s) ∧ is_Some (transport_open cf l s) ∧ is_Some (transport_close cf l s)).
  { intros l s name b Hs. apply live_no_fault. by eapply on_run_inv. }
  split.
  - intros n pc s. apply on_run_on_plat. intros e. apply malloc_log.
  - intros p pc s. apply on_run_do. intros e. apply free_log.
  - intros [l|] s Hs; [|done]. apply (on_run_call F tr l s (transport_open cf l s) id Hs).
    + intros Hl. by apply (Hlive l s None []).
    + intros s' Ho. pose proof (transport_open_frame _ _ _ _ Ho) as (Hk & _ & Ht).
      split; [by eapply st_open|]. split; [by apply moved_keeps|done].
  - intros [l|] s Hs; [|done]. apply (on_run_call F tr l s (transport_close cf l s) id Hs).
    + intros Hl. by apply (Hlive l s None []).
    + intros s' Ho. pose proof (transport_close_frame _ _ _ _ Ho) as (Hk & _ & Ht).
      split; [by eapply st_close|]. split; [by apply moved_keeps|done].
  - intros [l|] n b s Hs; [|done]. apply (on_run_call F tr l s (transport_request cf l (Some n) b s) snd Hs).
    + intros Hl. by apply (Hlive l s (Some n) b).
    + intros [[rc out] s'] Ho. pose proof (transport_request_frame _ _ _ _ _ _ _ _ Ho) as (Hk & _ & Ht).
      split; [by eapply st_request|by split].
  - intros [l|] s Hs; [|done]. unfold api_endpoint_names, sys_api.
    destruct (on_run_object _ _ _ _ Hs) as [?|Hl]; [by destruct (_ !! _)|].
    pose proof (on_run_inv _ _ _ _ Hs) as Hinv. destruct (mg_started (sy_mgr s)) eqn:Hst.
    + destruct (iv_started _ _ Hinv Hst) as (_ & l' & p & Hl' & Hpcs & _). rewrite Hl in Hl'. injection Hl' as <-.
      by rewrite Hpcs, lookup_singleton_eq.
    + destruct (iv_stopped _ _ Hinv Hst) as (Hn & _). congruence.
Qed.
End system.
