(* ===== verification/SecureChannel.v ===== *)
(** * SecureChannel: a security-1 client and the running program, end to end

    The reference client of Sec1Client.v against the whole program: its handshake
    goes through the transport's requests for prov-session, its data requests through
    the endpoint table to the handlers. What it is told is what the handlers answered
    to what it meant to ask. *)
From S2P Require Import Prelude Platform PbUtil Messages Protocomm Security0 Psa Security1 Sec1Client NetEnv.
From S2P Require Import Frame Manager ManagerFrame ManagerInv ManagerFacts System.

(** ** The interfaces of the platform, with the handlers' state around it *)
Section around_platform.
Context {E : Type} `{HH : KHeap E} `{PS : PSA E} `{K : Kernel} `{SC : Schemes} `{AP : Application E}.

#[export] Instance net_heap_laws `{!KHeapLaws E} : KHeapLaws netst.
Proof.
  split; cbn -[k_malloc k_free allocated].
  - intros n x l x' Hm. apply (k_malloc_some n (n_plat x)). revert Hm. cbn. unfold on_env. change (n_plat x) with (n_env x).2.
    destruct (k_malloc n (n_env x).2) as [[l'|] e]; [|done]. by intros [= <- <-].
  - intros n x x' Hm. apply (k_malloc_none n (n_plat x)). revert Hm. cbn. unfold on_env. change (n_plat x) with (n_env x).2.
    destruct (k_malloc n (n_env x).2) as [[l'|] e]; [done|]. by intros [= <-].
  - intros x. apply (k_free_null (n_plat x)).
  - intros l x. apply (k_free_some l (n_plat x)).
Qed.
#[export] Instance net_heap_available `{!HeapAvailable E} : HeapAvailable netst.
Proof.
  intros n x. cbn. unfold on_env. pose proof (malloc_avail n (n_env x).2) as Hm. by destruct (k_malloc n _) as [[l|] e].
Qed.

Context `{CR : Crypto}.

#[export] Instance net_psa_laws `{!PsaLaws E} : PsaLaws netst.
Proof.
  split; cbn -[set_plat].
  - intros x. pose proof (psa_init_keys (n_plat x)). by destruct (psa_crypto_init _).
  - intros x id x'. destruct (psa_generate_key _) as [[st k] e] eqn:Hg. intros [= -> <- <-]. by apply psa_generate_ok in Hg.
  - intros x st id x'. destruct (psa_generate_key _) as [[st' k] e] eqn:Hg. intros [= -> <- <-]. by eapply psa_generate_fail.
  - intros x. apply psa_export_ok.
  - intros x id. apply (psa_destroy_keys (n_plat x)).
  - intros x. apply psa_agree_ok.
  - intros x. apply psa_hash_ok.
  - intros x key id x'. destruct (psa_import_key _ _) as [[st k] e] eqn:Hg. intros [= -> <- <-]. by apply psa_import_ok in Hg.
  - intros x key st id x'. destruct (psa_import_key _ _) as [[st' k] e] eqn:Hg. intros [= -> <- <-]. by eapply psa_import_fail.
  - intros x n st out x'. destruct (psa_generate_random _ _) as [[st' b] e] eqn:Hg. intros [= -> -> <-]. by eapply psa_random_ok.
  - apply cipher_init_st.
  - intros x. apply cipher_setup_ok.
  - intros x. apply cipher_setup_fail.
  - apply cipher_iv_ok.
  - apply cipher_iv_fail.
  - apply cipher_update_ok.
  - apply cipher_update_fail.
Qed.
#[export] Instance net_psa_heap_laws `{!PsaHeapLaws E} : PsaHeapLaws netst.
Proof.
  split; cbn -[set_plat].
  - intros x n. unfold on_env. pose proof (malloc_keys (n_plat x) n) as Hk. change (n_plat x) with (n_env x).2 in Hk.
    by destruct (k_malloc n (n_env x).2).
  - intros x l. apply (free_keys (n_plat x)).
  - intros x. pose proof (crypto_init_heap (n_plat x)). by destruct (psa_crypto_init _).
  - intros x. pose proof (generate_key_heap (n_plat x)). by destruct (psa_generate_key _) as [[? ?] ?].
  - intros x id. apply (destroy_key_heap (n_plat x)).
  - intros x k. pose proof (import_key_heap (n_plat x) k). by destruct (psa_import_key _ _) as [[? ?] ?].
  - intros x n. pose proof (generate_random_heap (n_plat x) n). by destruct (psa_generate_random _ _) as [[? ?] ?].
Qed.
#[export] Instance net_psa_available `{!PsaAvailable E} : PsaAvailable netst.
Proof.
  split; cbn -[set_plat].
  - intros x. pose proof (init_avail (n_plat x)). by destruct (psa_crypto_init _).
  - intros x. pose proof (generate_avail (n_plat x)). by destruct (psa_generate_key _) as [[? ?] ?].
  - intros x. apply export_avail.
  - intros x. apply agree_avail.
  - intros x. apply hash_avail.
  - intros x k. pose proof (import_avail (n_plat x) k). by destruct (psa_import_key _ _) as [[? ?] ?].
  - intros x n. pose proof (random_avail (n_plat x) n). by destruct (psa_generate_random _ _) as [[? ?] ?].
  - intros x. apply setup_avail.
  - apply iv_avail.
  - apply update_avail.
Qed.
End around_platform.

(** ** A handshake over another transport
    Two transports that answer alike make the same handshake. *)
Section over_transports.
Context {G : Type} `{PG : PSA G} `{PB : PbMsg SessionData} `{CV : ClientViews}.
Context {D1 D2 : Type} (x1 : bytes → D1 → Z * obuf * D1) (f1 : option loc → D1 → D1).
Context (x2 : bytes → D2 → Z * obuf * D2) (f2 : option loc → D2 → D2) (R : D1 → D2 → Prop).
Context (x_sim : ∀ bs d1 d2, R d1 d2 → (x1 bs d1).1 = (x2 bs d2).1 ∧ R (x1 bs d1).2 (x2 bs d2).2).
Context (f_sim : ∀ l d1 d2, R d1 d2 → R (f1 l d1) (f2 l d2)).

Lemma exchange_sim m d1 d2 : R d1 d2 →
  (session_exchange x1 f1 m d1).1 = (session_exchange x2 f2 m d2).1 ∧
  R (session_exchange x1 f1 m d1).2 (session_exchange x2 f2 m d2).2.
Proof.
  intros HR. unfold session_exchange. destruct (pb_encode 128 m) as [bs|]; [|done].
  destruct (x_sim bs d1 d2 HR) as [Hx HR']. destruct (x1 bs d1) as [[rc out] d1'], (x2 bs d2) as [[rc2 out2] d2'].
  cbn [fst snd] in *. injection Hx as <- <-. destruct (negb _); [done|].
  pose proof (f_sim (ob_ptr out) _ _ HR'). by destruct (pb_decode _).
Qed.

Lemma verify_sim (c : prov_client psa_cipher_operation_t) (e : G) d1 d2 : R d1 d2 →
  (client_verify x1 f1 c e d1).1 = (client_verify x2 f2 c e d2).1 ∧
  R (client_verify x1 f1 c e d1).2 (client_verify x2 f2 c e d2).2.
Proof.
  intros HR. unfold client_verify. destruct (prov_client_xform c _) as [[ret v] c1]. destruct (negb _); [done|].
  destruct (exchange_sim (cmd1 v) d1 d2 HR) as [Hx HR'].
  destruct (session_exchange x1 f1 _ d1) as [[rc r] d1'], (session_exchange x2 f2 _ d2) as [[rc2 r2] d2'].
  cbn [fst snd] in *. injection Hx as <- <-. destruct (rc =? 0); [|done]. destruct r as [r|]; [|done]. cbv zeta.
  destruct (view_sr1 _) as [st data]. repeat case_match; done.
Qed.

Lemma handshake_sim (c : prov_client psa_cipher_operation_t) pop (e : G) d1 d2 : R d1 d2 →
  (prov_client_handshake x1 f1 c pop e d1).1 = (prov_client_handshake x2 f2 c pop e d2).1 ∧
  R (prov_client_handshake x1 f1 c pop e d1).2 (prov_client_handshake x2 f2 c pop e d2).2.
Proof.
  intros HR. unfold prov_client_handshake. destruct (prov_client_keygen c e) as [[ret c1] e1]. destruct (negb _); [done|].
  destruct (exchange_sim (cmd0 (pc_pubkey c1)) d1 d2 HR) as [Hx HR'].
  destruct (session_exchange x1 f1 _ d1) as [[rc r] d1'], (session_exchange x2 f2 _ d2) as [[rc2 r2] d2'].
  cbn [fst snd] in *. injection Hx as <- <-. destruct (rc =? 0); [|done]. destruct r as [r|]; [|done]. cbv zeta.
  destruct (view_sr0 _) as [[st pub] rnd]. destruct (_ || _); [done|].
  destruct (prov_client_derive _ _ _ _) as [[ret2 c2] e2]. destruct (negb _); [done|]. by apply verify_sim.
Qed.
End over_transports.

(** ** The program as the client sees it *)
Section channel.
Context {E : Type} `{HH : KHeap E} `{!KHeapLaws E} `{NL : NetLog E} `{!NetHeapLaws E}.
Context `{WN : WifiNet E} `{!WifiNetLaws E} `{OT : OpenThread E} `{!OpenThreadLaws E}.
Context `{CR : Crypto} `{!CryptoLaws} `{PS : PSA E} `{!PsaLaws E} `{!PsaHeapLaws E} `{!PsaAvailable E}.
Context `{K : Kernel} {KL : KernelLaws} `{SC : Schemes} `{AP : Application E} `{ST : Settings E}.
Context `{!ManagerEnvLaws E}.
Context `{P1 : PbMsg SessionData} `{P2 : PbMsg NetworkConfigPayload} `{P3 : PbMsg NetworkScanPayload}.
Context `{P4 : PbMsg NetworkCtrlPayload} `{UV : UnionViews}.
Context `{!PbMsgLaws SessionData} `{!SessionFits} `{!UnionViewsLaws} `{CV : ClientViews} `{!ClientViewsLaws}.
Context {SO : SchemeOps sys} {AC : AppConfigs} {SL : SchemeLaws}.
Context {G : Type} `{PG : PSA G} `{!PsaLaws G} `{!PsaAvailable G}.
Context (cf : build_config).

Local Abbreviation op_t := (@psa_cipher_operation_t netst net_psa).
Local Abbreviation ctx_t := (sec1_ctx op_t).
Local Abbreviation client_t := (prov_client (@psa_cipher_operation_t G PG)).
Local Abbreviation pcomm := (protocomm prov_handler nat network_prov_security (scheme_ctx op_t)).

(** Session messages of the client reach the object [l] as requests for prov-session;
    [None] is a fault of the program. *)
Definition session_xport (l : loc) (bs : bytes) (d : option sys) : Z * obuf * option sys :=
  match d ≫= transport_request cf l (Some EP_SESSION_NAME) bs with
  | Some (rc, out, s) => (rc, out, Some s)
  | None => (0, no_buf, None)
  end.
Definition session_free (p : option loc) (d : option sys) : option sys := plat_do (k_free p) <$> d.

(** The live object runs security 1 with the session [ctx]. *)
Definition sec1_session (l : loc) (ctx : ctx_t) (s : sys) : Prop :=
  ∃ p, sy_pcs s !! l = Some p ∧ pc_sec p = Some NETWORK_PROV_SECURITY_1 ∧ pc_sec_ctx p = Some (ctx_sec1 ctx).

(** Both ends are authenticated and at the same offset of the same keystream. *)
Definition in_step (c : client_t) (l : loc) (s : sys) : Prop :=
  ∃ ctx key iv pos, sec1_session l ctx s ∧ s1c_state ctx = SEC1_DONE ∧ keystream_at ctx key iv pos ∧
    cipher_st (pc_cipher c) = cipher_active key iv pos.
(** The session has not been authenticated. *)
Definition locked (l : loc) (s : sys) : Prop := ∃ ctx, sec1_session l ctx s ∧ s1c_state ctx ≠ SEC1_DONE.

(** The object [p0] of [s0], with another session and handlers' state. *)
Definition with_ctx (l : loc) (p0 : pcomm) (s0 : sys) (ctx : option (scheme_ctx op_t)) (n : netst) : sys :=
  s0 <| sy_net := n |> <| sy_pcs := <[l := p0 <| pc_sec_ctx := ctx |>]> (sy_pcs s0) |>.
Local Abbreviation with_session l p0 s0 ctx n := (with_ctx l p0 s0 (option_map ctx_sec1 ctx) n).

(** ** The handshake through the program is the handshake with the scheme *)
Section session_requests.
Context (l : loc) (p0 : pcomm) (s0 : sys).
Context (p0_sec : pc_sec p0 = Some NETWORK_PROV_SECURITY_1).
Context (p0_ep : find_ep p0 EP_SESSION_NAME = Some (mk_ep EP_SESSION_NAME EP_SECURITY None None)).

Lemma with_session_again ctx n ctx' n' :
  (with_session l p0 s0 ctx n) <| sy_net := n' |>
    <| sy_pcs := <[l := (p0 <| pc_sec_ctx := option_map ctx_sec1 ctx |>) <| pc_sec_ctx := option_map ctx_sec1 ctx' |>]>
                   (sy_pcs (with_session l p0 s0 ctx n)) |> = with_session l p0 s0 ctx' n'.
Proof.
  unfold with_ctx. change (sy_pcs (_ <| sy_pcs := ?m |>)) with m. by rewrite insert_insert_eq.
Qed.

Lemma session_request_is_handshake bs ctx n :
  session_xport l bs (Some (with_session l p0 s0 ctx n)) =
    (let '(rc, out, ctx', n') := sec1_handshake ctx bs n in (rc, out, Some (with_session l p0 s0 ctx' n'))).
Proof.
  unfold session_xport, transport_request. cbn [mbind option_bind].
  set (p := p0 <| pc_sec_ctx := option_map ctx_sec1 ctx |>).
  change (sy_pcs (with_session l p0 s0 ctx n) !! l) with (<[l := p]> (sy_pcs s0) !! l).
  rewrite lookup_insert_eq. cbn [mbind option_bind]. change (sy_net (with_session l p0 s0 ctx n)) with n.
  unfold protocomm_req_handle. change (find_ep p EP_SESSION_NAME) with (find_ep p0 EP_SESSION_NAME). rewrite p0_ep.
  cbn [ep_ty]. change (pc_sec p) with (pc_sec p0). rewrite p0_sec.
  change (pc_sec_ctx p) with (option_map (ctx_sec1 (Op := op_t)) ctx).
  cbn [security_of prov_callbacks sec_handshake lift_security option_map].
  assert (Hdown : match option_map (ctx_sec1 (Op := op_t)) ctx with Some d => as_sec1 d | None => None end = ctx) by by destruct ctx.
  change (sec_handshake (network_prov_security1 _)) with (Some (sec1_handshake (E := netst))). cbn [option_map].
  rewrite Hdown. destruct (sec1_handshake ctx bs n) as [[[rc out] ctx'] n']. by rewrite <- (with_session_again ctx n ctx' n').
Qed.

Lemma session_handshake (c : client_t) pop (e : G) ctx n :
  prov_client_handshake (session_xport l) session_free c pop e (Some (with_session l p0 s0 ctx n)) =
    (let '(rc, c', e', (ctx', n')) := prov_client_handshake (device_xport (F := netst)) device_free c pop e (ctx, n) in
     (rc, c', e', Some (with_session l p0 s0 ctx' n'))).
Proof.
  destruct (handshake_sim (device_xport (F := netst)) device_free (session_xport l) session_free
    (fun d1 d2 => d2 = Some (with_session l p0 s0 d1.1 d1.2))) with c pop e (ctx, n) (Some (with_session l p0 s0 ctx n))
    as [Hfst Hsnd]; [| |done|].
  - intros bs [ctx1 n1] d2 ->. rewrite session_request_is_handshake. unfold device_xport. cbn [fst snd].
    by destruct (sec1_handshake ctx1 bs n1) as [[[rc out] ctx'] n'].
  - intros p [ctx1 n1] d2 ->. done.
  - destruct (prov_client_handshake device_xport _ _ _ _ _) as [[[rc c'] e'] [ctx' n']].
    destruct (prov_client_handshake (session_xport l) _ _ _ _ _) as [[[rc2 c2] e2] d2]. cbn [fst snd] in *. by simplify_eq.
Qed.
End session_requests.

(** ** From a start under security 1 *)
Section started.
Context (custom_range : (cf_custom_max cf ≤ 3)%nat).

(** The object a successful start leaves. *)
Lemma started_object sec pop name key s0 s s' :
  boot cf s0 → rtc (sys_step cf) s0 s → network_prov_mgr_start_provisioning cf sec pop name key s = Some (0, s') →
  ∃ l, mg_pc (sy_mgr s') = Some l ∧ sy_pcs s' !! l = Some (provisioning_pc cf sec pop (sy_mgr s)).
Proof.
  intros Hb Hr Hrun. pose proof (reachable_inv cf custom_range _ _ Hb Hr) as Hinv.
  destruct (start_outcome cf custom_range _ _ _ _ _ _ _ Hinv Hrun) as [(Hrc & _)|(_ & Hs & [(Hrc & _)|(_ & l & s1 & Hs' & Hpcs & Hst & _)])];
    [by destruct (mg_inited _)|done|].
  destruct (start_ok_fields cf sec pop s l s1 s' Hs' Hinv Hs Hst Hpcs) as (_ & _ & F3 & _ & _ & _ & _ & _ & _ & F10 & _).
  exists l. by rewrite F10, lookup_singleton_eq.
Qed.

(** A transport that opens a session on it. *)
Lemma session_opens `{!HeapAvailable E} pop l m s :
  sy_pcs s !! l = Some (provisioning_pc cf NETWORK_PROV_SECURITY_1 pop m) →
  ∃ ctx n, sec1_init (cf_sizeof_sec1_ctx cf) pop (sy_net s) = (0, Some ctx, n) ∧
    transport_open cf l s =
      Some (with_session l (provisioning_pc cf NETWORK_PROV_SECURITY_1 pop m) s (Some ctx) n).
Proof.
  intros Hp. destruct (init_available (cf_sizeof_sec1_ctx cf) pop (sy_net s)) as (ctx & n & Hi).
  exists ctx, n. split; [done|]. unfold transport_open. rewrite Hp. cbn [mbind option_bind].
  unfold protocomm_open_session. set (p := provisioning_pc _ _ _ _).
  change (pc_sec p) with (Some NETWORK_PROV_SECURITY_1). cbn [protocomm_close_session].
  change (pc_sec p) with (Some NETWORK_PROV_SECURITY_1). change (pc_sec_ctx p) with (@None (scheme_ctx op_t)).
  cbn [security_of prov_callbacks lift_security sec_init option_map].
  change (sec_init (network_prov_security1 _)) with (Some (sec1_init (E := netst) (cf_sizeof_sec1_ctx cf))).
  cbn [option_map]. change (pc_pop p) with pop. by rewrite Hi.
Qed.

(** C6: The handshake through the running program. After any successful start under
    security 1, a transport that opens a session on the served object and passes the
    client's messages on as prov-session requests completes the handshake of a client
    with the same proof of possession (at most 63 characters): the client gets success,
    the session is authenticated and both ends are at the same offset of the same
    keystream. Memory can be allocated and PSA's operations succeed on both ends. *)
Theorem secure_session_established `{!HeapAvailable E} pop name key (e : G) s0 s s' :
  boot cf s0 → rtc (sys_step cf) s0 s →
  network_prov_mgr_start_provisioning cf NETWORK_PROV_SECURITY_1 pop name key s = Some (0, s') →
  strlen (default EmptyString pop) < Z.of_nat POP_MAX →
  ∃ l s1 c e' s2, mg_pc (sy_mgr s') = Some l ∧ transport_open cf l s' = Some s1 ∧
    prov_client_handshake (session_xport l) session_free prov_client_init pop e (Some s1) = (0, c, e', Some s2) ∧
    in_step c l s2.
Proof.
  intros Hb Hr Hrun Hpop%client_pop_short. destruct (started_object _ _ _ _ _ _ _ Hb Hr Hrun) as (l & Hl & Hp).
  destruct (session_opens _ _ _ _ Hp) as (ctx & n & Hi & Ho).
  set (p := provisioning_pc _ _ _ _) in *. exists l, (with_session l p s' (Some ctx) n).
  destruct (handshake_completes (cf_sizeof_sec1_ctx cf) pop e _ _ _ Hpop Hi)
    as (c & e' & ctx' & n' & k & iv & Hh & Hst & Hc & Hk).
  exists c, e', (with_session l p s' (Some ctx') n'). split; [done|]. split; [done|].
  rewrite session_handshake, Hh by done. split; [done|]. exists ctx', k, iv, 64%nat. split; [|done].
  eexists. split; [apply lookup_insert_eq|done].
Qed.

(** C20: Who gets into the running program under security 1, while memory can be
    allocated and PSA's operations succeed. A client with the proof of possession [cpop]
    and the device with [pop] agree on a shared secret and a nonce, and each mixes its own
    proof in, of the device's at most the first 63 characters. Whenever the keystreams the
    two mixed keys produce differ in their first 32 bytes, the client sees -EACCES and the
    session of the served object stays unauthenticated. A client whose proof is mixed to
    the same bytes gets in: with the device's own proof, if it has at most 63 characters,
    or with the first 63 characters of a longer one. *)
Theorem wrong_pop_locked_out `{!HeapAvailable E} pop cpop name key (e : G) s0 s s' :
  boot cf s0 → rtc (sys_step cf) s0 s →
  network_prov_mgr_start_provisioning cf NETWORK_PROV_SECURITY_1 pop name key s = Some (0, s') →
  ∃ l s1 secret iv rc c e' s2, mg_pc (sy_mgr s') = Some l ∧ transport_open cf l s' = Some s1 ∧
    length secret = SESSION_KEY_LEN ∧
    prov_client_handshake (session_xport l) session_free prov_client_init cpop e (Some s1) = (rc, c, e', Some s2) ∧
    (aes_ctr (mix_pop secret (client_pop cpop)) iv 0 32 ≠ aes_ctr (mix_pop secret (pop_bytes pop)) iv 0 32 →
     rc = - EACCES ∧ locked l s2) ∧
    (client_pop cpop = pop_bytes pop → rc = 0 ∧ in_step c l s2).
Proof.
  intros Hb Hr Hrun. destruct (started_object _ _ _ _ _ _ _ Hb Hr Hrun) as (l & Hl & Hp).
  destruct (session_opens _ _ _ _ Hp) as (ctx & n & Hi & Ho).
  set (p := provisioning_pc _ _ _ _) in *.
  destruct (handshake_wrong_pop (cf_sizeof_sec1_ctx cf) pop cpop e _ _ _ Hi)
    as (secret & iv & rc & c & e' & ctx' & n' & Hlen & Hh & Hbad & Hgood).
  exists l, (with_session l p s' (Some ctx) n), secret, iv, rc, c, e', (with_session l p s' (Some ctx') n').
  do 3 (split; [done|]). rewrite session_handshake, Hh by done. split; [done|].
  assert (Hses : sec1_session l ctx' (with_session l p s' (Some ctx') n')) by (eexists; split; [apply lookup_insert_eq|done]).
  split.
  - intros Hne. destruct (Hbad Hne) as (-> & Hst & _). split; [done|]. exists ctx'. split; [exact Hses|by rewrite Hst].
  - intros Hsame. destruct (Hgood Hsame) as (-> & Hst & Hc & Hk). split; [done|].
    exists ctx', (mix_pop secret (pop_bytes pop)), iv, 64%nat. done.
Qed.

End started.

(** ** Data requests *)
Local Abbreviation sec1_ops := (security_of (Callbacks := prov_callbacks cf) NETWORK_PROV_SECURITY_1).

Lemma device_locked ctx b (n : netst) : s1c_state ctx ≠ SEC1_DONE →
  sec_decrypt sec1_ops (Some (ctx_sec1 ctx)) b n = (- EACCES, [], Some (ctx_sec1 ctx), n).
Proof.
  intros Hst. cbn [security_of prov_callbacks lift_security sec_decrypt as_sec1].
  change (sec_decrypt (network_prov_security1 _)) with (sec1_encrypt (E := netst)).
  unfold sec1_encrypt. by rewrite bool_decide_false.
Qed.



(** A data request, stage by stage. *)
Lemma data_request_stages l name b s p ep h ctx :
  sy_pcs s !! l = Some p → pc_sec p = Some NETWORK_PROV_SECURITY_1 → pc_sec_ctx p = Some ctx →
  find_ep p name = Some ep → ep_ty ep = EP_DATA → ep_handler ep = Some h →
  transport_request cf l (Some name) b s =
    (let '(ret, plain, c1, n1) := decrypt_request sec1_ops (Some ctx) b (sy_net s) in
     if negb (ret =? 0) then Some (ret, no_buf, with_ctx l p s c1 n1)
     else
       let '(ret2, raw, n2) := call_handler (Callbacks := prov_callbacks cf) h (ep_priv ep) (ob_data plain) n1 in
       let n3 := k_free (ob_ptr plain) n2 in
       if negb (ret2 =? 0) then Some (ret2, no_buf, with_ctx l p s c1 (k_free (ob_ptr raw) n3))
       else
         let '(ret3, enc, c2, n4) := encrypt_response sec1_ops c1 raw n3 in
         Some (ret3, enc, with_ctx l p s c2 n4)).
Proof.
  intros Hp Hs Hc Hf Ht Hh. unfold transport_request. rewrite Hp. cbn [mbind option_bind].
  unfold protocomm_req_handle. rewrite Hf, Ht, Hs, Hc. unfold handle_data, run_endpoint. rewrite Hs, Hc, Hh. cbn [mbind option_bind].
  destruct (decrypt_request _ _ _ _) as [[[ret plain] c1] n1]. destruct (negb _); [done|]. cbn [mbind option_bind].
  destruct (call_handler _ _ _ _) as [[ret2 raw] n2]. destruct (negb (ret2 =? 0)) eqn:Hr; cbn [mbind option_bind].
  { by rewrite Hr. }
  by destruct (encrypt_response _ _ _ _) as [[[ret3 enc] c2] n4].
Qed.

Lemma put_session l p s ctx n :
  pc_sec p = Some NETWORK_PROV_SECURITY_1 → sec1_session l ctx (with_ctx l p s (Some (ctx_sec1 ctx)) n).
Proof. intros Hs. eexists. split; [apply lookup_insert_eq|]. by split. Qed.

(** The handler ran once, on [req], in the state the request found and left. *)
Definition handler_ran (ep : protocomm_ep prov_handler nat) (req : bytes) (s : sys) (rc : Z) (raw : obuf) (s' : sys) : Prop :=
  ∃ h n1 n2, ep_handler ep = Some h ∧ plat_moved (sy_net s) n1 ∧
    call_handler (Callbacks := prov_callbacks cf) h (ep_priv ep) req n1 = (rc, raw, n2) ∧ plat_moved n2 (sy_net s').


(** C14: What an unauthenticated session lets through. Before the handshake is complete a
    data request is never answered with a byte of data and leaves the session as it is; a
    non-empty one is refused with -EACCES (or -ENOMEM) before any handler. An empty one is
    not decrypted and so not refused: the endpoint's handler runs, on the empty request. *)
Theorem locked_session_request l name ep b s :
  locked l s → sy_pcs s !! l ≫= (fun p => find_ep p name) = Some ep →
  ep_ty ep = EP_DATA → is_Some (ep_handler ep) →
  ∃ rc s', transport_request cf l (Some name) b s = Some (rc, no_buf, s') ∧ locked l s' ∧
    if bool_decide (b = []) then ∃ ret raw, handler_ran ep [] s ret raw s'
    else (rc = - EACCES ∨ rc = - ENOMEM) ∧ plat_moved (sy_net s) (sy_net s').
Proof.
  intros (ctx & (p & Hp & Hs & Hc) & Hst) Hep Ht [h Hh]. rewrite Hp in Hep. cbn [mbind option_bind] in Hep.
  rewrite (data_request_stages _ _ _ _ _ _ _ _ Hp Hs Hc Hep Ht Hh).
  assert (Hl : ∀ n, locked l (with_ctx l p s (Some (ctx_sec1 ctx)) n))
    by (intros n; exists ctx; split; [by apply put_session|done]).
  assert (Hdown : ∀ n k, plat_moved n (k_malloc k n).2) by (intros n k; by apply (fr_malloc (R := plat_moved))).
  assert (Hup : ∀ n n' a, plat_moved n n' → plat_moved n (k_free a n')) by (intros; by apply (fr_free (R := plat_moved))).
  unfold decrypt_request. case_bool_decide as Hb.
  - subst b. change (0 <? blen []) with false. cbn [Z.eqb negb ob_data no_buf ob_ptr].
    destruct (call_handler (Callbacks := prov_callbacks cf) h (ep_priv ep) [] (sy_net s)) as [[ret raw] n2] eqn:Hcall. cbv zeta.
    assert (Hran : ∀ s', plat_moved n2 (sy_net s') → ∃ ret raw, handler_ran ep [] s ret raw s')
      by (intros s' ?; by exists ret, raw, h, (sy_net s), n2).
    destruct (negb (ret =? 0)); [do 2 eexists; split; [reflexivity|]; split; [apply Hl|apply Hran; by apply Hup, Hup]|].
    unfold encrypt_response, encrypt_into. destruct (_ =? 0); [do 2 eexists; split; [reflexivity|]; split; [apply Hl|apply Hran; by apply Hup]|].
    set (n3 := k_free None n2). assert (H3 : plat_moved n2 n3) by by apply Hup.
    pose proof (Hdown n3 (blen (ob_data raw))) as Hm.
    destruct (k_malloc _ n3) as [[a|] n4]; cbn [fst snd] in Hm; [|do 2 eexists; split; [reflexivity|]; split; [apply Hl|apply Hran; apply Hup; by etrans]].
    change (sec_encrypt sec1_ops) with (sec_decrypt sec1_ops). rewrite device_locked by done.
    do 2 eexists; split; [reflexivity|]; split; [apply Hl|apply Hran; apply Hup, Hup; by etrans].
  - assert (Hpos : (0 <? blen b) = true) by (destruct b; [done|apply Z.ltb_lt; unfold blen; cbn [length]; lia]).
    rewrite Hpos. pose proof (Hdown (sy_net s) (blen b)) as Hm. destruct (k_malloc _ (sy_net s)) as [[a|] n1]; cbn [fst snd] in Hm.
    + rewrite device_locked by done. do 2 eexists; split; [reflexivity|]. split; [apply Hl|]. split; [by left|by apply Hup].
    + do 2 eexists; split; [reflexivity|]. split; [apply Hl|]. split; [by right|done].
Qed.
End channel.
