(* ===== verification/Program.v ===== *)
(** * Program: the manager with its three transports

    The schemes the application can choose from are the program's own transports:
    their static state is part of the whole program's, their start and stop are the
    functions of Softap.v, Console.v and Ble.v over it, and their callbacks - shell
    commands, HTTP requests, GATT accesses, connections - are steps of the program in
    whatever state it is. *)
From S2P Require Import Prelude Platform PbUtil Messages Protocomm Security0 Psa Security1 NetEnv.
From S2P Require Import Manager ManagerFrame ManagerInv ManagerFacts CNum Transport Softap Console Ble System.

(** [network_prov_scheme_console], [network_prov_scheme_softap] and
    [network_prov_scheme_ble]; each sets both function pointers. *)
Inductive prov_scheme := network_prov_scheme_console | network_prov_scheme_softap | network_prov_scheme_ble.
#[export] Instance prov_scheme_eq_dec : EqDecision prov_scheme.
Proof. solve_decision. Defined.

(** The static variables of the three files. *)
Record prov_transports (Client : Type) := mk_transports {
  t_console : console; t_softap : softap Client; t_ble : ble }.
Arguments mk_transports {_}.
Arguments t_console {_} _.
Arguments t_softap {_} _.
Arguments t_ble {_} _.
#[export] Instance prov_transports_eta {C} : FieldEta (prov_transports C) := fun r =>
  mk_transports (t_console r) (t_softap r) (t_ble r).

(** The [g_pc] of the scheme's file. *)
Definition scheme_pc {C} (sch : prov_scheme) (tr : prov_transports C) : option loc :=
  match sch with
  | network_prov_scheme_console => co_pc (t_console tr)
  | network_prov_scheme_softap => sa_pc (t_softap tr)
  | network_prov_scheme_ble => bl_pc (t_ble tr)
  end.

(** By itself a transport keeps its object and the size of its tables. *)
Definition prov_transport_step {C} (tr tr' : prov_transports C) : Prop :=
  (∀ sch, scheme_pc sch tr' = scheme_pc sch tr) ∧ length (bl_io (t_ble tr')) = length (bl_io (t_ble tr)).

Definition prov_schemes (Client : Type) : Schemes :=
  {| scheme_t := prov_scheme; scheme_valid _ := true; transports := prov_transports Client;
     scheme_holds := scheme_pc; transport_step := prov_transport_step |}.

(** The HTTP resources are for exactly the library's endpoints. *)
Lemma resources_for_builtins name :
  is_builtin_ep name = true ↔ name ∈ omap res_user_data prov_http_resources.
Proof.
  unfold is_builtin_ep. rewrite !orb_true_iff, !String.eqb_eq.
  change (omap _ _) with [EP_VERSION_NAME; EP_SESSION_NAME; EP_SCAN_NAME; EP_CONFIG_NAME; EP_CTRL_NAME].
  rewrite !elem_of_cons, elem_of_nil. tauto.
Qed.

(** The platform calls of the transports are not the network history's. *)
Class TransportEnvLaws (E : Type) `{NL : NetLog E} `{RD : Random32 E} `{BT : Bluetooth E} `{HS : HttpServer E} `{APt : AccessPoint E} : Prop := {
  rand32_log (e : E) : net_log (sys_rand32_get e).2 = net_log e;
  bt_set_name_log n (e : E) : net_log (bt_set_name n e).2 = net_log e;
  bt_enable_log (e : E) : net_log (bt_enable e).2 = net_log e;
  gatt_register_log l (e : E) : net_log (bt_gatt_service_register l e).2 = net_log e;
  gatt_unregister_log (e : E) : net_log (bt_gatt_service_unregister e) = net_log e;
  adv_start_log ad sd (e : E) : net_log (bt_le_adv_start ad sd e).2 = net_log e;
  adv_stop_log (e : E) : net_log (bt_le_adv_stop e) = net_log e;
  http_start_log (e : E) : net_log (http_server_start e).2 = net_log e;
  http_stop_log (e : E) : net_log (http_server_stop e) = net_log e;
  ap_addresses_log i (e : E) : net_log (ap_set_addresses i e) = net_log e;
  dhcp_start_log i (e : E) : net_log (net_dhcpv4_server_start i e).2 = net_log e;
  dhcp_stop_log i (e : E) : net_log (net_dhcpv4_server_stop i e) = net_log e;
  ap_enable_log i n k (e : E) : net_log (ap_enable i n k e).2 = net_log e;
  ap_disable_log i (e : E) : net_log (ap_disable i e) = net_log e;
}.

(** The build's constants the transports use. *)
Record transport_config := mk_tconfig {
  tc_ulong_max : Z;
  tc_wifi : bool;
  tc_dhcp : bool;
  tc_max_resp : Z;
  tc_ad_flags : Z;
}.

Section program.
Context {E : Type} `{HH : KHeap E} `{NL : NetLog E} `{!NetHeapLaws E}.
Context `{WN : WifiNet E} `{!WifiNetLaws E} `{OT : OpenThread E} `{!OpenThreadLaws E}.
Context `{PS : PSA E} `{K : Kernel} {KL : KernelLaws} `{AP : Application E} `{ST : Settings E}.
Context `{!ManagerEnvLaws E}.
Context `{P1 : PbMsg SessionData} `{P2 : PbMsg NetworkConfigPayload} `{P3 : PbMsg NetworkScanPayload}.
Context `{P4 : PbMsg NetworkCtrlPayload} `{UV : UnionViews}.
Context `{RD : Random32 E} `{BT : Bluetooth E} `{HS : HttpServer E} `{APt : AccessPoint E} `{!TransportEnvLaws E}.
Context `{HX : HexCodec} {Client : Type} {EqC : EqDecision Client}.
Context (cf : build_config) (tcf : transport_config).

Local Abbreviation psys := (sys (SC := prov_schemes Client)).
Context {AC : AppConfigs (H := prov_schemes Client)}.
#[local] Hint Extern 0 Schemes => exact (prov_schemes Client) : typeclass_instances.

#[export] Instance sys_rand : Random32 psys := on_plat sys_rand32_get.
#[export] Instance sys_bluetooth : Bluetooth psys :=
  {| bt_set_name n := on_plat (bt_set_name n);
     bt_get_name s := bt_get_name (n_plat (sy_net s));
     bt_enable := on_plat bt_enable;
     bt_gatt_service_register l := on_plat (bt_gatt_service_register l);
     bt_gatt_service_unregister := plat_do bt_gatt_service_unregister;
     bt_le_adv_start ad sd := on_plat (bt_le_adv_start ad sd);
     bt_le_adv_stop := plat_do bt_le_adv_stop;
     bt_gatt_attr_read := bt_gatt_attr_read (S := E) |}.
#[export] Instance sys_http : HttpServer psys :=
  {| http_server_start := on_plat http_server_start; http_server_stop := plat_do http_server_stop |}.
#[export] Instance sys_ap : AccessPoint psys :=
  {| net_if_get_wifi_sap s := net_if_get_wifi_sap (n_plat (sy_net s));
     ap_set_addresses i := plat_do (ap_set_addresses i);
     net_dhcpv4_server_start i := on_plat (net_dhcpv4_server_start i);
     net_dhcpv4_server_stop i := plat_do (net_dhcpv4_server_stop i);
     ap_enable i n k := on_plat (ap_enable i n k);
     ap_disable i := plat_do (ap_disable i) |}.

Definition put_console (co : console) (s : psys) : psys := s <| sy_tr := (sy_tr s) <| t_console := co |> |>.
Definition put_softap (sa : softap Client) (s : psys) : psys := s <| sy_tr := (sy_tr s) <| t_softap := sa |> |>.
Definition put_ble (bl : ble) (s : psys) : psys := s <| sy_tr := (sy_tr s) <| t_ble := bl |> |>.

(** The schemes' function pointers. *)
#[export] Instance prov_scheme_ops : SchemeOps psys :=
  {| scheme_start sch l service_name service_key s :=
       match sch with
       | network_prov_scheme_console =>
           let '(ret, co) := console_scheme_start (Some l) service_name service_key (t_console (sy_tr s)) in
           Some (ret, put_console co s)
       | network_prov_scheme_softap =>
           let '(ret, sa, s1) := network_prov_softap_start (tc_wifi tcf) (tc_dhcp tcf) (Some l) service_name service_key
             (t_softap (sy_tr s)) s in
           Some (ret, put_softap sa s1)
       | network_prov_scheme_ble =>
           '(ret, bl, s1) ← ble_scheme_start (PA := sys_api cf) (tc_ad_flags tcf) (Some l) service_name service_key
             (t_ble (sy_tr s)) s;
           Some (ret, put_ble bl s1)
       end;
     scheme_stop sch s :=
       match sch with
       | network_prov_scheme_console =>
           '(co, s1) ← network_prov_console_stop (PA := sys_api cf) (t_console (sy_tr s)) s;
           Some (put_console co s1)
       | network_prov_scheme_softap =>
           let '(sa, s1) := network_prov_softap_stop (tc_wifi tcf) (tc_dhcp tcf) (t_softap (sy_tr s)) s in
           Some (put_softap sa s1)
       | network_prov_scheme_ble =>
           let '(bl, s1) := network_prov_ble_stop (t_ble (sy_tr s)) s in Some (put_ble bl s1)
       end |}.

(** ** The callbacks of the transports *)
Inductive transport_event :=
| te_command (ep tok hex : string)
| te_http (client : Client) (url : string) (status : http_transaction_status) (rq : http_request_ctx)
    (user_data : option string)
| te_gatt_write (i : nat) (buf : bytes) (offset : Z) (prepare : bool)
| te_gatt_read (i : nat) (len offset : Z)
| te_connected (err : Z)
| te_disconnected
| te_recycled
| te_set_service_uuid (uuid : option bytes)
| te_set_mfg_data (data : option bytes) (len : Z).

Definition handle_event (ev : transport_event) (s : psys) : option psys :=
  let co := t_console (sy_tr s) in
  let sa := t_softap (sy_tr s) in
  let bl := t_ble (sy_tr s) in
  match ev with
  | te_command ep tok hex =>
      '(_, _, co1, s1) ← cmd_net_prov (PA := sys_api cf) (tc_ulong_max tcf) ep tok hex co s; Some (put_console co1 s1)
  | te_http client url status rq user =>
      '(_, _, sa1, s1) ← prov_http_handler (PA := sys_api cf) (tc_ulong_max tcf) client url status rq user sa s;
      Some (put_softap sa1 s1)
  | te_gatt_write i buf offset prepare =>
      '(_, bl1, s1) ← write_ep (PA := sys_api cf) (tc_max_resp tcf) i buf offset prepare bl s; Some (put_ble bl1 s1)
  | te_gatt_read i len offset => _ ← read_ep (S := psys) i len offset bl; Some s
  | te_connected err => connected (PA := sys_api cf) err bl s
  | te_disconnected => '(bl1, s1) ← disconnected (PA := sys_api cf) bl s; Some (put_ble bl1 s1)
  | te_recycled => Some (recycled bl s)
  | te_set_service_uuid u => Some (put_ble (network_prov_scheme_ble_set_service_uuid u bl).2 s)
  | te_set_mfg_data d l => Some (put_ble (network_prov_scheme_ble_set_mfg_data d l bl).2 s)
  end.

(** The GATT database passes accesses on for the characteristics there is room for. *)
Definition event_ok (ev : transport_event) : Prop :=
  match ev with te_gatt_write i _ _ _ | te_gatt_read i _ _ => (i < MAX_EP)%nat | _ => True end.

(** ** The transports keep their side *)

(** Only the platform is touched, and not its network history. *)
Definition plat_only (s s' : psys) : Prop :=
  plat_moved (sy_net s) (sy_net s') ∧ sy_pcs s' = sy_pcs s ∧ sy_tr s' = sy_tr s.
#[local] Instance plat_only_preorder : PreOrder plat_only.
Proof.
  split; [by intros s; split; [reflexivity|]|]. intros a b c (H1 & H2 & H3) (H4 & H5 & H6).
  split; [by etrans|]. split; congruence.
Qed.
Lemma plat_only_on_plat {A} (f : E → A * E) (s0 s : psys) :
  (∀ e, net_log (f e).2 = net_log e) → plat_only s0 s → plat_only s0 (on_plat f s).2.
Proof.
  intros Hf Hk. etrans; [exact Hk|]. unfold on_plat. specialize (Hf (n_plat (sy_net s))).
  destruct (f _) as [a e]. cbn [snd] in *. split; [|done]. by exists e.
Qed.
Lemma plat_only_do (f : E → E) (s0 s : psys) :
  (∀ e, net_log (f e) = net_log e) → plat_only s0 s → plat_only s0 (plat_do f s).
Proof.
  intros Hf Hk. etrans; [exact Hk|]. split; [|done]. eexists. split; [reflexivity|]. apply Hf.
Qed.

Lemma ap_start_plat wifi name key (s0 s : psys) :
  plat_only s0 s → plat_only s0 (softap_ap_start wifi name key s).2.
Proof.
  intros Hk. unfold softap_ap_start. destruct (net_if_get_wifi_sap s) as [i|]; [|done].
  destruct (_ && _); [done|]. pose proof (plat_only_do (ap_set_addresses i) s0 s (ap_addresses_log i) Hk) as H1.
  change (ap_set_addresses i s) with (plat_do (ap_set_addresses i) s).
  assert (H2 : plat_only s0 (if wifi then net_dhcpv4_server_start i (plat_do (ap_set_addresses i) s)
                             else (0, plat_do (ap_set_addresses i) s)).2).
  { destruct wifi; [|done]. by apply plat_only_on_plat; [apply dhcp_start_log|]. }
  destruct (if wifi then _ else _) as [r s2]. cbn [snd] in H2. destruct (_ && _); [done|].
  by apply plat_only_on_plat; [apply ap_enable_log|].
Qed.

(** An access point that does not come up leaves the transport's state alone; the HTTP
    part takes the object first. *)
Lemma softap_start_spec l name key (sa : softap Client) (s : psys) :
  let '(ret, sa', s') := network_prov_softap_start (tc_wifi tcf) (tc_dhcp tcf) (Some l) name key sa s in
  plat_only s s' ∧ (sa_pc sa' = Some l ∨ ret ≠ 0 ∧ sa' = sa).
Proof.
  unfold network_prov_softap_start. destruct (null_or_empty name).
  { split; [reflexivity|]. right. done. }
  assert (H1 : plat_only s (if tc_wifi tcf then softap_ap_start (tc_dhcp tcf) (default EmptyString name) key s else (0, s)).2).
  { destruct (tc_wifi tcf); [|reflexivity]. by apply ap_start_plat. }
  destruct (if tc_wifi tcf then _ else _) as [r s1]. cbn [snd] in H1. destruct (negb (r =? 0)) eqn:Hr.
  { breflect. split; [done|]. by right. }
  unfold network_prov_softap_http_start.
  pose proof (plat_only_on_plat http_server_start _ _ http_start_log H1) as H2.
  change (http_server_start s1) with (on_plat http_server_start s1).
  destruct (on_plat http_server_start s1) as [r2 s2]. cbn [snd] in H2.
  destruct (_ && _); (split; [done|by left]).
Qed.

Lemma softap_stop_spec (sa : softap Client) (s : psys) :
  let '(sa', s') := network_prov_softap_stop (tc_wifi tcf) (tc_dhcp tcf) sa s in
  plat_only s s' ∧ sa_pc sa' = None.
Proof.
  unfold network_prov_softap_stop, network_prov_softap_http_stop. split; [|done].
  assert (H1 : plat_only s (http_server_stop s)) by (by apply plat_only_do; [apply http_stop_log|]).
  destruct (tc_wifi tcf); [|done]. unfold softap_ap_stop.
  destruct (net_if_get_wifi_sap _) as [i|]; [|done]. apply plat_only_do; [apply ap_disable_log|].
  destruct (tc_dhcp tcf); [|done]. by apply plat_only_do; [apply dhcp_stop_log|].
Qed.

Lemma build_endpoints_keeps names i bl :
  bl_pc (build_endpoints i names bl) = bl_pc bl ∧
  length (bl_io (build_endpoints i names bl)) = length (bl_io bl).
Proof.
  revert i bl. induction names as [|n names IH]; intros i bl; [done|]. cbn [build_endpoints].
  destruct (IH (i + 1)%nat (build_endpoint i n bl)) as [-> ->]. split; [done|]. cbn. apply length_insert.
Qed.

Lemma build_service_keeps (bl : ble) (s : psys) bl' :
  build_service (PA := sys_api cf) bl s = Some bl' → bl_pc bl' = bl_pc bl ∧ length (bl_io bl') = length (bl_io bl).
Proof.
  unfold build_service. destruct (api_endpoint_names _ s) as [names|]; cbn [mbind option_bind]; [|done].
  intros [= <-]. match goal with |- context [build_endpoints 0 ?ns ?b] =>
    destruct (build_endpoints_keeps ns 0 b) as [-> ->] end. done.
Qed.

(** The object is taken first; a start that fails does not let go of it. *)
Lemma ble_start_moves l name (bl : ble) (s : psys) ret bl' s' :
  network_prov_ble_start (PA := sys_api cf) (tc_ad_flags tcf) (Some l) name bl s = Some (ret, bl', s') →
  plat_only s s' ∧ bl_pc bl' = Some l ∧ length (bl_io bl') = length (bl_io bl).
Proof.
  unfold network_prov_ble_start. set (s1 := if null_or_empty name then s else _).
  assert (H1 : plat_only s s1).
  { unfold s1. destruct (null_or_empty name); [done|]. by apply plat_only_on_plat; [apply bt_set_name_log|]. }
  clearbody s1. pose proof (plat_only_on_plat bt_enable _ _ bt_enable_log H1) as H2.
  change (bt_enable s1) with (on_plat bt_enable s1).
  destruct (on_plat bt_enable s1) as [r s2]. cbn [snd] in H2.
  destruct (_ && _); [by intros [= <- <- <-]|].
  destruct (build_service _ s2) as [bl2|] eqn:Hb; cbn [mbind option_bind]; [|done].
  apply build_service_keeps in Hb as [Hp Hl].
  change (bl_pc (bl <| bl_pc := Some l |>)) with (Some l) in Hp. change (bl_io (bl <| bl_pc := Some l |>)) with (bl_io bl) in Hl.
  pose proof (plat_only_on_plat (bt_gatt_service_register (bl_attrs bl2)) _ _ (gatt_register_log _) H2) as H3.
  change (bt_gatt_service_register (bl_attrs bl2) s2) with (on_plat (bt_gatt_service_register (bl_attrs bl2)) s2).
  destruct (on_plat _ s2) as [r3 s3]. cbn [snd] in H3. destruct (negb (r3 =? 0)); [by intros [= <- <- <-]|].
  assert (B : ∀ b : ble, let b' := build_adv (tc_ad_flags tcf) name (b <| bl_registered := true |>) s3 in
    bl_pc b' = bl_pc b ∧ length (bl_io b') = length (bl_io b)) by done.
  destruct (B bl2) as [B1 B2]. set (bl3 := build_adv _ _ _ _) in *. clearbody bl3. rewrite Hp in B1. rewrite Hl in B2.
  pose proof (plat_only_on_plat (bt_le_adv_start (bl_ad bl3) (bl_sd bl3)) _ _ (adv_start_log _ _) H3) as H4.
  change (bt_le_adv_start (bl_ad bl3) (bl_sd bl3) s3) with (on_plat (bt_le_adv_start (bl_ad bl3) (bl_sd bl3)) s3).
  destruct (on_plat _ s3) as [r4 s4]. cbn [snd] in H4.
  destruct (negb (r4 =? 0)); by intros [= <- <- <-].
Qed.

Lemma ble_start_returns l name (bl : ble) (s : psys) :
  is_Some (api_endpoint_names (ProtocommApi := sys_api cf) (Some l) s) →
  is_Some (network_prov_ble_start (PA := sys_api cf) (tc_ad_flags tcf) (Some l) name bl s).
Proof.
  intros [names Hnames]. unfold network_prov_ble_start. set (s1 := if null_or_empty name then s else _).
  assert (H1 : sy_pcs s1 = sy_pcs s).
  { unfold s1. destruct (null_or_empty name); [done|].
    exact (proj1 (proj2 (plat_only_on_plat (bt_set_name (default EmptyString name)) s s (bt_set_name_log _) (reflexivity s)))). }
  clearbody s1. pose proof (plat_only_on_plat bt_enable s1 s1 bt_enable_log (reflexivity s1)) as (_ & H2 & _).
  change (bt_enable s1) with (on_plat bt_enable s1). destruct (on_plat bt_enable s1) as [r s2]. cbn [snd] in H2.
  destruct (_ && _); [done|]. unfold build_service. change (bl_pc (bl <| bl_pc := Some l |>)) with (Some l).
  assert (Hn2 : api_endpoint_names (ProtocommApi := sys_api cf) (Some l) s2 = Some names).
  { unfold api_endpoint_names, sys_api in *. by rewrite H2, H1. }
  rewrite Hn2. cbn [mbind option_bind]. destruct (bt_gatt_service_register _ s2) as [r3 s3].
  destruct (negb (r3 =? 0)); [done|]. destruct (bt_le_adv_start _ _ s3) as [r4 s4]. by destruct (negb (r4 =? 0)).
Qed.

Lemma ble_stop_spec bl (s : psys) :
  let '(bl', s') := network_prov_ble_stop bl s in
  plat_only s s' ∧ bl_pc bl' = None ∧ length (bl_io bl') = length (bl_io bl).
Proof.
  unfold network_prov_ble_stop. assert (H1 : plat_only s (bt_le_adv_stop s)) by (by apply plat_only_do; [apply adv_stop_log|]).
  destruct (bl_registered bl); (split; [|done]); [|done]. by apply plat_only_do; [apply gatt_unregister_log|].
Qed.

(** The manager's contract with the transports holds of the three. *)
#[export] Instance prov_scheme_laws : SchemeLaws.
Proof.
  split.
  - intros sch l name key s (p & Hp & Hw). destruct sch; cbn -[network_prov_softap_start ble_scheme_start sys_api].
    + by eexists.
    + by destruct (network_prov_softap_start _ _ _ _ _ _ _) as [[ret sa] s1].
    + destruct (ble_start_returns l name (t_ble (sy_tr s)) s) as [[[ret bl] s1] Hrun].
      { unfold api_endpoint_names, sys_api. rewrite Hp. by eexists. }
      unfold ble_scheme_start. rewrite Hrun. by eexists.
  - intros sch l name key s rc s' Hrun. destruct sch; cbn -[network_prov_softap_start ble_scheme_start sys_api] in Hrun.
    + injection Hrun as <- <-. split; [reflexivity|]. split; [done|]. split; [|done]. by intros [] Hne.
    + pose proof (softap_start_spec l name key (t_softap (sy_tr s)) s) as Hspec.
      destruct (network_prov_softap_start _ _ _ _ _ _ _) as [[ret sa] s1]. destruct Hspec as [(H1 & H2 & H3) Hpc].
      injection Hrun as <- <-. split; [done|]. split; [done|]. cbn. split; [by intros [] Hne; cbn; rewrite ?H3|].
      intros ->. by destruct Hpc as [?|[? _]].
    + unfold ble_scheme_start in Hrun. destruct (network_prov_ble_start _ _ _ _ _) as [[[ret bl] s1]|] eqn:Hb;
        cbn [mbind option_bind] in Hrun; [|done]. injection Hrun as <- <-.
      apply ble_start_moves in Hb as ((H1 & H2 & H3) & Hpc & _).
      split; [done|]. split; [done|]. cbn. split; [by intros [] Hne; cbn; rewrite ?H3|done].
  - intros sch s Ha. destruct sch; cbn -[network_prov_softap_stop network_prov_ble_stop sys_api].
    + cbn -[sys_api] in Ha. unfold network_prov_console_stop. destruct (co_pc (t_console (sy_tr s))) as [l|]; [|by eexists].
      destruct Ha as (p & Hp & _). change (api_close_session (ProtocommApi := sys_api cf) (Some l) s) with (transport_close cf l s).
      unfold transport_close. rewrite Hp. cbn [mbind option_bind].
      destruct (close_session_some (CB := prov_callbacks cf) p (sy_net s)) as (ctx & n1 & ->). by eexists.
    + by destruct (network_prov_softap_stop _ _ _ _).
    + by destruct (network_prov_ble_stop _ _).
  - intros sch s s' Hrun. destruct sch; cbn -[network_prov_softap_stop network_prov_ble_stop sys_api] in Hrun.
    + unfold network_prov_console_stop in Hrun. destruct (co_pc (t_console (sy_tr s))) as [l|].
      * change (api_close_session (ProtocommApi := sys_api cf) (Some l) s) with (transport_close cf l s) in Hrun.
        destruct (transport_close cf l s) as [s1|] eqn:Hc; cbn [mbind option_bind] in Hrun; [|done].
        injection Hrun as <-. apply transport_close_frame in Hc as (H1 & H2 & H3).
        split; [done|]. split; [done|]. cbn. split; [|done]. by intros [] Hne; cbn; rewrite ?H3.
      * cbn [mbind option_bind] in Hrun. injection Hrun as <-. split; [reflexivity|]. split; [by left|]. split; [|done].
        by intros [] Hne.
    + pose proof (softap_stop_spec (t_softap (sy_tr s)) s) as Hspec.
      destruct (network_prov_softap_stop _ _ _ _) as [sa s1]. destruct Hspec as [(H1 & H2 & H3) Hpc].
      injection Hrun as <-. split; [done|]. split; [by left|]. cbn. split; [|done]. by intros [] Hne; cbn; rewrite ?H3.
    + pose proof (ble_stop_spec (t_ble (sy_tr s)) s) as Hspec.
      destruct (network_prov_ble_stop _ _) as [bl s1]. destruct Hspec as [(H1 & H2 & H3) [Hpc _]].
      injection Hrun as <-. split; [done|]. split; [by left|]. cbn. split; [|done]. by intros [] Hne; cbn; rewrite ?H3.
  - intros tr tr' [Ht _] sch. exact (Ht sch).
Qed.

(** The GATT tables keep their size through every step of the program. *)
Definition io_sized (tr : prov_transports Client) : Prop := length (bl_io (t_ble tr)) = MAX_EP.

Lemma io_sized_start sch l name key s rc s' :
  scheme_start sch l name key s = Some (rc, s') → io_sized (sy_tr s) → io_sized (sy_tr s').
Proof.
  intros Hrun Hl. unfold io_sized in *. destruct sch; cbn -[network_prov_softap_start ble_scheme_start sys_api] in Hrun.
  - by simplify_eq.
  - pose proof (softap_start_spec l name key (t_softap (sy_tr s)) s) as Hspec.
    destruct (network_prov_softap_start _ _ _ _ _ _ _) as [[ret sa] s1]. destruct Hspec as [(_ & _ & H3) _].
    simplify_eq. cbn. by rewrite H3.
  - unfold ble_scheme_start in Hrun. destruct (network_prov_ble_start _ _ _ _ _) as [[[ret bl] s1]|] eqn:Hb;
      cbn [mbind option_bind] in Hrun; [|done]. injection Hrun as <- <-. cbn.
    apply ble_start_moves in Hb as (_ & _ & Hio). by rewrite Hio.
Qed.

Lemma io_sized_stop sch s s' : scheme_stop sch s = Some s' → io_sized (sy_tr s) → io_sized (sy_tr s').
Proof.
  intros Hrun Hl. unfold io_sized in *. destruct sch; cbn -[network_prov_softap_stop network_prov_ble_stop sys_api] in Hrun.
  - unfold network_prov_console_stop in Hrun. destruct (co_pc _) as [l|].
    + destruct (api_close_session _ s) as [s1|] eqn:Hc; cbn [mbind option_bind] in Hrun; [|done]. simplify_eq.
      apply transport_close_frame in Hc as (_ & _ & H3). cbn. by rewrite H3.
    + cbn [mbind option_bind] in Hrun. by simplify_eq.
  - pose proof (softap_stop_spec (t_softap (sy_tr s)) s) as Hspec.
    destruct (network_prov_softap_stop _ _ _ _) as [sa s1]. destruct Hspec as [(_ & _ & H3) _]. simplify_eq. cbn. by rewrite H3.
  - pose proof (ble_stop_spec (t_ble (sy_tr s)) s) as Hspec.
    destruct (network_prov_ble_stop _ _) as [bl s1]. destruct Hspec as [_ [_ Hio]]. simplify_eq. cbn. by rewrite Hio.
Qed.

Context (custom_range : (cf_custom_max cf ≤ 3)%nat).

(** *** Callbacks as steps of the system *)
Section events.
Context (s0 : psys) (booted : boot cf s0) (sized : io_sized (sy_tr s0)).

Local Abbreviation run_from := (on_run cf s0).
#[local] Instance run_serving F tr : ServingLaws (H0 := sys_api cf) F psys (run_from F tr) :=
  sys_serving_laws cf custom_range s0 booted F tr.

Lemma run_sized s : rtc (sys_step cf) s0 s → io_sized (sy_tr s).
Proof.
  apply (reachable_property (SC := prov_schemes Client) cf custom_range io_sized).
  - intros tr tr' [_ Hl]. unfold io_sized. by rewrite Hl.
  - apply io_sized_start.
  - apply io_sized_stop.
  - done.
  - done.
Qed.

(** Storing a transport's state back. *)
Lemma run_put_console F tr pc s co :
  co_pc co = co_pc (t_console tr) → run_from F tr pc s → rtc (sys_step cf) s0 (put_console co s).
Proof.
  intros Hc Hr. unfold put_console. rewrite (or_tr _ _ _ _ _ _ Hr).
  refine (or_run _ _ _ _ _ _ (on_run_transport _ _ _ _ _ pc _ _ Hr)). split; [|done]. by intros [].
Qed.
Lemma run_put_softap F tr pc s sa :
  sa_pc sa = sa_pc (t_softap tr) → run_from F tr pc s → rtc (sys_step cf) s0 (put_softap sa s).
Proof.
  intros Hc Hr. unfold put_softap. rewrite (or_tr _ _ _ _ _ _ Hr).
  refine (or_run _ _ _ _ _ _ (on_run_transport _ _ _ _ _ pc _ _ Hr)). split; [|done]. by intros [].
Qed.
Lemma run_put_ble F tr pc s bl :
  bl_pc bl = bl_pc (t_ble tr) → length (bl_io bl) = length (bl_io (t_ble tr)) → run_from F tr pc s →
  rtc (sys_step cf) s0 (put_ble bl s).
Proof.
  intros Hc Hl Hr. unfold put_ble. rewrite (or_tr _ _ _ _ _ _ Hr).
  refine (or_run _ _ _ _ _ _ (on_run_transport _ _ _ _ _ pc _ _ Hr)). split; [|done]. by intros [].
Qed.

(** The transport an event arrives at. *)
Definition event_scheme (ev : transport_event) : prov_scheme :=
  match ev with
  | te_command _ _ _ => network_prov_scheme_console
  | te_http _ _ _ _ _ => network_prov_scheme_softap
  | _ => network_prov_scheme_ble
  end.

(** What an event leads to is a run of the system, and at a transport that holds nothing
    or the running object it leads somewhere. *)
Lemma event_delivers F ev s :
  event_ok ev → rtc (sys_step cf) s0 s →
  F ∨ scheme_pc (event_scheme ev) (sy_tr s) = None ∨ scheme_pc (event_scheme ev) (sy_tr s) = mg_pc (sy_mgr s) →
  delivers F (rtc (sys_step cf) s0) (handle_event ev s).
Proof.
  intros Hev Hr Hpc. pose proof (run_sized _ Hr) as Hsz. unfold io_sized in Hsz.
  assert (Hrun : run_from F (sy_tr s) (scheme_pc (event_scheme ev) (sy_tr s)) s) by (by split).
  destruct ev as [ep tok hex|client url st rq user|i buf offset prepare|i len offset|err| | |u|d l];
    cbn [event_scheme scheme_pc event_ok] in *; cbn [handle_event].
  - eapply delivers_bind; [apply (console_delivers (PA := sys_api cf) F (run_from F (sy_tr s))), Hrun|].
    intros [[[rc line] co1] s1] [Hc Hs1]. by eapply run_put_console.
  - eapply delivers_bind; [apply (http_delivers (PA := sys_api cf) (R32 := sys_rand) F (run_from F (sy_tr s))
      (λ pc s1, on_run_on_plat cf s0 sys_rand32_get F _ pc s1 rand32_log)), Hrun|].
    intros [[[rc resp] sa1] s1] [Hc Hs1]. by eapply run_put_softap.
  - eapply delivers_bind; [apply (write_delivers (PA := sys_api cf) F (run_from F (sy_tr s))); [exact Hrun|by rewrite Hsz]|].
    intros [[res bl1] s1] (Hc & Hl & Hs1). by eapply run_put_ble.
  - unfold read_ep. assert (Hi : is_Some (bl_io (t_ble (sy_tr s)) !! i)) by (apply lookup_lt_is_Some_2; by rewrite Hsz).
    destruct Hi as [io ->]. exact Hr.
  - pose proof (connected_delivers (PA := sys_api cf) F (run_from F (sy_tr s)) err _ s Hrun) as Hd.
    destruct (connected _ _ _) as [s1|]; [exact (or_run _ _ _ _ _ _ Hd)|exact Hd].
  - eapply delivers_bind; [apply (disconnected_delivers (PA := sys_api cf) F (run_from F (sy_tr s))), Hrun|].
    intros [bl1 s1] (Hc & Hl & Hs1). by eapply run_put_ble.
  - unfold recycled. destruct (negb _); [exact Hr|].
    exact (or_run _ _ _ _ _ _ (on_run_on_plat _ _ (bt_le_adv_start _ _) _ _ _ s (adv_start_log _ _) Hrun)).
  - refine (run_put_ble _ _ _ _ _ _ _ Hrun); unfold network_prov_scheme_ble_set_service_uuid;
      (destruct u; [|done]); by destruct (bl_registered _).
  - refine (run_put_ble _ _ _ _ _ _ _ Hrun); unfold network_prov_scheme_ble_set_mfg_data;
      (destruct (_ <? _); [done|]); (destruct (_ && _); [done|]); by destruct (bl_registered _).
Qed.
End events.

(** A step of the program: the manager's world, or a callback of a transport. *)
Inductive prog_step : psys → psys → Prop :=
| pg_sys s s' : sys_step cf s s' → prog_step s s'
| pg_event ev s s' : event_ok ev → handle_event ev s = Some s' → prog_step s s'.

(** The errors of a start that has taken the object: the console has none, the HTTP server
    refuses to start, the Bluetooth host refuses to come up, to register the service or to
    advertise. *)
Definition start_error (sch : prov_scheme) (rc : Z) : Prop :=
  match sch with
  | network_prov_scheme_console => False
  | network_prov_scheme_softap => rc < 0 ∧ ∃ e : E, rc = (http_server_start e).1
  | network_prov_scheme_ble =>
      rc ≠ 0 ∧ ∃ e : E, rc = (bt_enable e).1 ∨ (∃ l, rc = (bt_gatt_service_register l e).1) ∨
                        ∃ ad sd, rc = (bt_le_adv_start ad sd e).1
  end.

Lemma on_plat_ret {A} (f : E → A * E) (s : psys) : (on_plat f s).1 = (f (n_plat (sy_net s))).1.
Proof. unfold on_plat. by destruct (f _). Qed.

Lemma ble_start_error l name bl (s : psys) ret bl' s' :
  network_prov_ble_start (PA := sys_api cf) (tc_ad_flags tcf) (Some l) name bl s = Some (ret, bl', s') →
  ret ≠ 0 → start_error network_prov_scheme_ble ret.
Proof.
  unfold network_prov_ble_start. set (s1 := if null_or_empty name then s else _). clearbody s1.
  intros Hrun Hne. split; [exact Hne|]. pose proof (on_plat_ret bt_enable s1) as H1.
  change (bt_enable s1) with (on_plat bt_enable s1) in Hrun. destruct (on_plat bt_enable s1) as [r s2]. cbn [fst] in H1.
  destruct (negb (r =? 0) && _); [exists (n_plat (sy_net s1)); left; congruence|].
  destruct (build_service _ s2) as [bl1|]; cbn [mbind option_bind] in Hrun; [|done].
  pose proof (on_plat_ret (bt_gatt_service_register (bl_attrs bl1)) s2) as H2.
  change (bt_gatt_service_register (bl_attrs bl1) s2) with (on_plat (bt_gatt_service_register (bl_attrs bl1)) s2) in Hrun.
  destruct (on_plat (bt_gatt_service_register _) s2) as [r2 s3]. cbn [fst] in H2.
  destruct (negb (r2 =? 0)); [exists (n_plat (sy_net s2)); right; left; exists (bl_attrs bl1); congruence|].
  cbv zeta in Hrun. set (bl3 := build_adv _ _ _ _) in Hrun. clearbody bl3.
  pose proof (on_plat_ret (bt_le_adv_start (bl_ad bl3) (bl_sd bl3)) s3) as H3.
  change (bt_le_adv_start (bl_ad bl3) (bl_sd bl3) s3) with (on_plat (bt_le_adv_start (bl_ad bl3) (bl_sd bl3)) s3) in Hrun.
  destruct (on_plat (bt_le_adv_start _ _) s3) as [r3 s4]. cbn [fst] in H3.
  destruct (negb (r3 =? 0)); [|congruence].
  exists (n_plat (sy_net s3)); right; right; exists (bl_ad bl3), (bl_sd bl3); congruence.
Qed.

(** Before the HTTP part the object has not been handed over. *)
Lemma softap_start_error l name key (sa : softap Client) (s : psys) :
  let '(ret, sa', _) := network_prov_softap_start (tc_wifi tcf) (tc_dhcp tcf) (Some l) name key sa s in
  ret ≠ 0 → sa' = sa ∨ start_error network_prov_scheme_softap ret.
Proof.
  unfold network_prov_softap_start. destruct (null_or_empty name); [by left|].
  destruct (if tc_wifi tcf then _ else _) as [r s1]. destruct (negb (r =? 0)); [by left|].
  unfold network_prov_softap_http_start. pose proof (on_plat_ret http_server_start s1) as H1.
  change (http_server_start s1) with (on_plat http_server_start s1).
  destruct (on_plat http_server_start s1) as [r1 s2]. cbn [fst] in H1.
  destruct ((r1 <? 0) && _) eqn:Hr; [|done]. apply andb_prop in Hr as [Hr _]. breflect.
  intros _. right. split; [done|]. by exists (n_plat (sy_net s1)).
Qed.

Lemma scheme_start_error sch l name key (s s' : psys) rc :
  scheme_start sch l name key s = Some (rc, s') → rc ≠ 0 →
  scheme_pc sch (sy_tr s') ≠ scheme_pc sch (sy_tr s) → start_error sch rc.
Proof.
  intros Hrun Hrc Hne. destruct sch; cbn -[network_prov_softap_start ble_scheme_start sys_api start_error] in *.
  - injection Hrun as <- <-. done.
  - pose proof (softap_start_error l name key (t_softap (sy_tr s)) s) as Hc.
    destruct (network_prov_softap_start _ _ _ _ _ _ _) as [[ret sa] s1]. injection Hrun as <- <-.
    destruct (Hc Hrc) as [->|?]; [|done]. by destruct Hne.
  - unfold ble_scheme_start in Hrun. destruct (network_prov_ble_start _ _ _ _ _) as [[[ret bl] s1]|] eqn:Hb;
      cbn [mbind option_bind] in Hrun; [|done]. injection Hrun as <- <-. by eapply ble_start_error.
Qed.

(** The transport's pointer is what a failed start of the service over it left: the
    manager deleted the object, the transport was not told. *)
Definition dangling (sch : prov_scheme) (s0 s : psys) : Prop :=
  ∃ s1 s2 sec pop name key rc,
    rtc (sys_step cf) s0 s1 ∧ mg_scheme (sy_mgr s1) = Some sch ∧
    network_prov_mgr_start_provisioning cf sec pop name key s1 = Some (rc, s2) ∧ start_error sch rc ∧
    sy_pcs s2 = ∅ ∧ rtc (sys_step cf) s2 s ∧ scheme_pc sch (sy_tr s) = scheme_pc sch (sy_tr s2).

(** The transport's pointer is the live object of the running service, started over it. *)
Definition serves (sch : prov_scheme) (s : psys) : Prop :=
  mg_started (sy_mgr s) = true ∧ mg_scheme (sy_mgr s) = Some sch ∧ scheme_pc sch (sy_tr s) = mg_pc (sy_mgr s) ∧
  ∃ l p, mg_pc (sy_mgr s) = Some l ∧ sy_pcs s !! l = Some p.

Lemma left_dangles sch (s0 s : psys) :
  boot cf s0 → left_by_failed_start cf sch s0 s → dangling sch s0 s.
Proof.
  intros Hb (s1 & s2 & H1 & (sec & pop & name & key & rc & l & sa & sb & Hrun & Hrc & Hsch & Hss & Ha & Hsb & Hne) & H2 & Hh).
  exists s1, s2, sec, pop, name, key, rc. pose proof (reachable_inv cf custom_range s0 s1 Hb H1) as Hinv.
  do 3 (split; [done|]). split.
  { eapply scheme_start_error; [exact Hss|done|]. intros Heq. apply Hne. by rewrite <- Hsb, <- Ha. }
  split; [|done].
  destruct (start_outcome cf custom_range _ _ _ _ _ _ _ Hinv Hrun) as [(_ & -> & _)|(_ & _ & [Hu|(? & _)])]; [done| |congruence].
  by destruct Hu as (_ & _ & _ & _ & _ & Hp & _).
Qed.

Lemma scheme_in_use (s0 s : psys) sch :
  boot cf s0 → rtc (sys_step cf) s0 s →
  scheme_pc sch (sy_tr s) = None ∨ serves sch s ∨ dangling sch s0 s.
Proof.
  intros Hb Hr. destruct (reachable_tr cf custom_range s0 s Hb Hr sch) as [?|[[Hs Hsch]|Hl]]; [by left| |].
  2:{ right; right. by apply left_dangles. }
  right; left. pose proof (reachable_inv cf custom_range s0 s Hb Hr) as Hinv.
  destruct (iv_attached _ _ Hinv Hs) as (sch' & Hsch' & Hh). assert (sch' = sch) as -> by congruence.
  destruct (iv_started _ _ Hinv Hs) as (_ & l & p & Hl & Hp & _).
  split; [done|]. split; [done|]. split; [done|]. exists l, p. by rewrite Hp, lookup_singleton_eq.
Qed.

Lemma prog_run_is_run (s0 s : psys) :
  boot cf s0 → io_sized (sy_tr s0) → rtc prog_step s0 s → rtc (sys_step cf) s0 s.
Proof.
  intros Hb Hsz. revert s. apply (rtc_ind_r (rtc (sys_step cf) s0)); [done|]. intros s s1 _ Hs IH.
  destruct Hs as [s s1 Hs|ev s s1 Hev Hh]; [by eapply rtc_r|].
  exact (delivers_result True _ _ _ (event_delivers s0 Hb Hsz True ev s Hev IH (or_introl I)) Hh).
Qed.

(** C5: The whole program, transports included, over every interleaving: application
    calls, console commands, HTTP callbacks, GATT accesses (to the characteristics there is
    room for), connections, network events and expiring work, in any order, on any platform. A transport's static pointer is
    NULL, or the live object of the running service that was started over it, or what a
    start of the service left behind that failed in this transport after it had taken
    the object: because the HTTP server did not start, or the Bluetooth host did not come
    up, register the service or advertise. Except for the callbacks of a transport in
    that last case, every callback of every transport completes in every state - running
    or not, started over this transport or another, after any failed starts of the others -
    so console commands always do; and the manager's own operations always do. *)
Theorem transports_never_fault (s0 s : psys) :
  boot cf s0 → io_sized (sy_tr s0) → rtc prog_step s0 s →
  rtc (sys_step cf) s0 s ∧
  (∀ sch, scheme_pc sch (sy_tr s) = None ∨ serves sch s ∨ dangling sch s0 s) ∧
  (∀ ev, event_ok ev → is_Some (handle_event ev s) ∨ dangling (event_scheme ev) s0 s) ∧
  (∀ ep tok hex, is_Some (handle_event (te_command ep tok hex) s)) ∧
  (∀ sec pop name key, is_Some (network_prov_mgr_start_provisioning cf sec pop name key s)) ∧
  is_Some (network_prov_mgr_stop_provisioning cf s) ∧ is_Some (teardown_work_fn cf s) ∧
  is_Some (network_prov_mgr_deinit cf s).
Proof.
  intros Hb Hsz Hp. pose proof (prog_run_is_run s0 s Hb Hsz Hp) as Hr.
  pose proof (reachable_inv cf custom_range s0 s Hb Hr) as Hinv.
  assert (Hev : ∀ ev, event_ok ev → is_Some (handle_event ev s) ∨ dangling (event_scheme ev) s0 s).
  { intros ev Hev. destruct (scheme_in_use s0 s (event_scheme ev) Hb Hr) as [Hpc|[(_ & _ & Hpc & _)|?]]; [left..|by right];
      (destruct (delivers_total _ _ (event_delivers s0 Hb Hsz False ev s Hev Hr ltac:(auto))) as (s2 & H2 & _); by exists s2). }
  split; [done|]. split; [intros sch; by apply (scheme_in_use s0)|]. split; [exact Hev|].
  split. { intros ep tok hex. destruct (Hev (te_command ep tok hex) I) as [?|(? & ? & ? & ? & ? & ? & ? & _ & _ & _ & [] & _)]; done. }
  split. { intros sec pop name key. destruct (start_total cf custom_range sec pop name key s Hinv) as (rc & s1 & -> & _). eauto. }
  destruct (stop_inv cf s Hinv) as (s1 & H1 & _). destruct (teardown_work_inv cf s Hinv) as (s2 & H2 & _).
  destruct (mgr_deinit_inv cf s Hinv) as (s3 & H3 & _). eauto.
Qed.

(** C39: What the error path of starting leaves behind. When the Bluetooth transport has
    taken the object and then fails (the service does not register, or advertising does
    not start), the manager deletes the object without telling the transport: its
    static pointer stays, dangling, and the next central that connects or disconnects -
    the callbacks are registered for every connection - makes the program follow it. *)
Theorem failed_ble_start_dangles sec pop name key (s0 s : psys) rc s' l :
  boot cf s0 → rtc (sys_step cf) s0 s →
  bl_pc (t_ble (sy_tr s)) = None → network_prov_mgr_start_provisioning cf sec pop name key s = Some (rc, s') →
  rc ≠ 0 → bl_pc (t_ble (sy_tr s')) = Some l →
  mg_pc (sy_mgr s') = None ∧ sy_pcs s' = ∅ ∧
  handle_event (te_connected 0) s' = None ∧ handle_event te_disconnected s' = None.
Proof.
  intros Hb Hr Hn Hrun Hrc Hl. pose proof (reachable_inv cf custom_range s0 s Hb Hr) as Hinv.
  destruct (start_outcome cf custom_range _ _ _ _ _ _ _ Hinv Hrun) as [(_ & -> & _)|(_ & _ & [Hu|(? & _)])]; [congruence| |congruence].
  destruct Hu as (_ & _ & Hinv' & Hst & _ & Hp & _). destruct (iv_stopped _ _ Hinv' Hst) as (Hpc & _).
  split; [exact Hpc|]. split; [exact Hp|]. cbn [handle_event]. unfold connected, disconnected. rewrite Hl.
  unfold api_open_session, api_close_session, sys_api, transport_open, transport_close. by rewrite Hp, lookup_empty.
Qed.
End program.
