(* ===== verification/SavedConnect.v ===== *)
(** * SavedConnect: connecting with the stored credentials after a reboot

    The part the Wi-Fi samples share (connect_saved and what it calls in
    samples/wifi_prov_console/src/main.c; the other two samples have the same text): one
    connection attempt with the first stored network, and up to five of them with a
    back-off that doubles. *)
From S2P Require Import Prelude Platform PbUtil Messages NetEnv WifiConfig.

Definition SAVED_CONN_ATTEMPTS : nat := 5.
Definition SAVED_CONN_TIMEOUT : Z := 45.
Definition SAVED_CONN_BACKOFF_MAX : Z := 16.

(** What the network tells the callback: a connect result with its status, or anything
    else. *)
Inductive wifi_event := NET_EVENT_WIFI_CONNECT_RESULT (status : Z) | NET_EVENT_OTHER.

(** ** Reading the credentials store *)
Class SavedStore (E : Type) := {
  (** the SSIDs [wifi_credentials_for_each_ssid] calls back with, in order *)
  wifi_credentials_ssids : E → list bytes;
  (** the code and, when it is 0, what was stored *)
  wifi_credentials_get_by_ssid_personal : bytes → E → Z * wifi_cred;
  (** [net_mgmt(NET_REQUEST_WIFI_CONNECT, NULL, ...)] *)
  wifi_connect_no_iface : wifi_connect_req_params → E → Z * E;
}.

(** ** Waiting: what is asked for, and the events that come meanwhile *)
Inductive wait := W_sleep (s : Z) | W_result (s : Z).
Class Waiting (E : Type) := {
  (** [k_sleep] *)
  k_sleep : Z → E → list wifi_event * E;
  (** until the semaphore can be taken, at most so many seconds *)
  await_result : Z → E → list wifi_event * E;
  (** the history of both *)
  waits : E → list wait;
}.

Record conn_st (Sem : Type) := mk_conn { conn_result_sem : Sem; conn_result_status : Z }.
Arguments mk_conn {_}.
Arguments conn_result_sem {_} _.
Arguments conn_result_status {_} _.
#[export] Instance conn_st_eta {S} : FieldEta (conn_st S) := fun r => mk_conn (conn_result_sem r) (conn_result_status r).

(** [struct saved_ssid]; [len] is the length of [ssid]. *)
Record saved_ssid := mk_saved { ss_ssid : bytes; ss_found : bool }.

Definition pick_ssid (s : saved_ssid) (ssid : bytes) : saved_ssid :=
  if ss_found s then s else mk_saved (take (Z.to_nat SSID_MAX) ssid) true.

(** The request made of what the store returned. *)
Definition saved_params (ssid : bytes) (c : wifi_cred) : wifi_connect_req_params :=
  mk_connect_params ssid (if 0 <? blen (cr_pass c) then Some (cr_pass c) else None) (cr_security c)
    (if 0 <? cr_channel c then cr_channel c else WIFI_CHANNEL_ANY) (cr_bssid c).

Section saved_connect.
Context {E : Type} `{WifiNet E} `{SavedStore E} `{Waiting E} `{K : Kernel}.

Local Abbreviation conn_t := (conn_st k_sem).

Definition conn_mgmt_event (st : conn_t) (ev : wifi_event) : conn_t :=
  match ev with
  | NET_EVENT_WIFI_CONNECT_RESULT status =>
      st <| conn_result_status := status |> <| conn_result_sem := k_sem_give (conn_result_sem st) |>
  | NET_EVENT_OTHER => st
  end.

Definition connect_request (params : wifi_connect_req_params) (e : E) : Z * E :=
  match wifi_iface e with
  | Some iface => wifi_connect iface params e
  | None => wifi_connect_no_iface params e
  end.

Definition connect_saved_once (st : conn_t) (e : E) : Z * conn_t * E :=
  let s := foldl pick_ssid (mk_saved [] false) (wifi_credentials_ssids e) in
  if negb (ss_found s) then (- ENOENT, st, e)
  else
    let '(ret, c) := wifi_credentials_get_by_ssid_personal (ss_ssid s) e in
    if negb (ret =? 0) then (ret, st, e)
    else
      let st1 := st <| conn_result_sem := k_sem_reset (conn_result_sem st) |> in
      let '(ret, e1) := connect_request (saved_params (ss_ssid s) c) e in
      if negb (ret =? 0) then (ret, st1, e1)
      else
        let '(evs, e2) := await_result SAVED_CONN_TIMEOUT e1 in
        let st2 := foldl conn_mgmt_event st1 evs in
        match k_sem_try_take (conn_result_sem st2) with
        | None => (- ETIMEDOUT, st2, e2)
        | Some sem =>
            let st3 := st2 <| conn_result_sem := sem |> in
            (if negb (conn_result_status st3 =? 0) then - EIO else 0, st3, e2)
        end.

(** The loop with [togo] attempts to go, this one included. *)
Fixpoint connect_attempts (togo : nat) (backoff : Z) (st : conn_t) (e : E) : bool * conn_t * E :=
  match togo with
  | O => (false, st, e)
  | S togo =>
      let '(ret, st1, e1) := connect_saved_once st e in
      if ret =? 0 then (true, st1, e1)
      else if ret =? - ENOENT then (false, st1, e1)
      else if (0 <? togo)%nat then
        let '(evs, e2) := k_sleep backoff e1 in
        connect_attempts togo (Z.min (backoff * 2) SAVED_CONN_BACKOFF_MAX) (foldl conn_mgmt_event st1 evs) e2
      else connect_attempts togo backoff st1 e1
  end.

Definition connect_saved (st : conn_t) (e : E) : bool * conn_t * E :=
  let '(connected, st1, e1) := connect_attempts SAVED_CONN_ATTEMPTS 2 st (net_mgmt_add_event_callback e) in
  (connected, st1, net_mgmt_del_event_callback e1).
End saved_connect.

(** ** What the attempts amount to *)
Definition event_result (ev : wifi_event) : option Z :=
  match ev with NET_EVENT_WIFI_CONNECT_RESULT s => Some s | NET_EVENT_OTHER => None end.
Definition last_result (evs : list wifi_event) : option Z := last (omap event_result evs).

(** Seconds asked for. *)
Definition wait_time (w : wait) : Z := match w with W_sleep s | W_result s => s end.
Definition waited (ws : list wait) : Z := foldr Z.add 0 (wait_time <$> ws).
Definition sleep_of (w : wait) : option Z := match w with W_sleep s => Some s | W_result _ => None end.

(** The pauses between [n + 1] attempts. *)
Fixpoint backoffs (n : nat) (b : Z) : list Z :=
  match n with O => [] | S n => b :: backoffs n (Z.min (b * 2) SAVED_CONN_BACKOFF_MAX) end.

Definition is_connect (a : net_action) : Prop := ∃ i p rc, a = A_wifi_connect i p rc.

(** What the calls do to the two histories. *)
Class SavedLaws (E : Type) `{NetLog E, WifiNet E, SavedStore E, Waiting E} : Prop := {
  sleep_log t (e : E) : net_log (k_sleep t e).2 = net_log e;
  await_log t (e : E) : net_log (await_result t e).2 = net_log e;
  no_iface_log p (e : E) : net_log (wifi_connect_no_iface p e).2 = net_log e;
  sleep_waits t (e : E) : waits (k_sleep t e).2 = waits e ++ [W_sleep t];
  await_waits t (e : E) : waits (await_result t e).2 = waits e ++ [W_result t];
  no_iface_waits p (e : E) : waits (wifi_connect_no_iface p e).2 = waits e;
  connect_waits i p (e : E) : waits (wifi_connect i p e).2 = waits e;
  add_waits (e : E) : waits (net_mgmt_add_event_callback e) = waits e;
  del_waits (e : E) : waits (net_mgmt_del_event_callback e) = waits e;
}.

(** The credentials store as the history of its calls says, when every write succeeded;
    reading gives what is in it. *)
Definition store_of (log : list net_action) : gmap (list Z) wifi_cred := mo_store (monitor 1 log).
Definition write_ok (a : net_action) : Prop :=
  match a with A_cred_set _ rc | A_cred_delete_all rc => rc = 0 | _ => True end.
Class StoreReads (E : Type) `{NetLog E, SavedStore E} : Prop := {
  ssids_stored (e : E) s : Forall write_ok (net_log e) →
    s ∈ wifi_credentials_ssids e ↔ is_Some (store_of (net_log e) !! s);
  get_stored (e : E) s c : Forall write_ok (net_log e) →
    store_of (net_log e) !! s = Some c → wifi_credentials_get_by_ssid_personal s e = (0, c);
}.

Section facts.
Context {E : Type} `{NL : NetLog E} `{WN : WifiNet E} `{!WifiNetLaws E} `{SS : SavedStore E} `{WT : Waiting E} `{!SavedLaws E}.
Context `{K : Kernel}.

Local Abbreviation conn_t := (conn_st k_sem).

(** The request an attempt would make. *)
Definition saved_now (e : E) : option wifi_connect_req_params :=
  let s := foldl pick_ssid (mk_saved [] false) (wifi_credentials_ssids e) in
  if negb (ss_found s) then None
  else
    let '(ret, c) := wifi_credentials_get_by_ssid_personal (ss_ssid s) e in
    if negb (ret =? 0) then None else Some (saved_params (ss_ssid s) c).

(** One attempt: nothing is stored or readable; or one request, refused; or one request
    and one wait. *)
Inductive attempt (st : conn_t) (e : E) : Z → conn_t → E → Prop :=
| at_none ret : saved_now e = None → ret ≠ 0 → attempt st e ret st e
| at_refused p ret e1 : saved_now e = Some p → connect_request p e = (ret, e1) → ret ≠ 0 →
    attempt st e ret (st <| conn_result_sem := k_sem_reset (conn_result_sem st) |>) e1
| at_waited p ret st' e1 evs e2 : saved_now e = Some p → connect_request p e = (0, e1) →
    await_result SAVED_CONN_TIMEOUT e1 = (evs, e2) →
    (let st2 := foldl conn_mgmt_event (st <| conn_result_sem := k_sem_reset (conn_result_sem st) |>) evs in
     match k_sem_try_take (conn_result_sem st2) with
     | None => (- ETIMEDOUT, st2)
     | Some sem => (if negb (conn_result_status st2 =? 0) then - EIO else 0, st2 <| conn_result_sem := sem |>)
     end) = (ret, st') →
    attempt st e ret st' e2.

Lemma once_attempt st (e : E) ret st' e' : connect_saved_once st e = (ret, st', e') → attempt st e ret st' e'.
Proof.
  intros Hrun. unfold connect_saved_once in Hrun. set (s := foldl _ _ _) in Hrun.
  destruct (negb (ss_found s)) eqn:Hf.
  { simplify_eq. apply at_none; [|done]. unfold saved_now. fold s. by rewrite Hf. }
  destruct (wifi_credentials_get_by_ssid_personal (ss_ssid s) e) as [r c] eqn:Hg.
  destruct (negb (r =? 0)) eqn:Hr.
  { simplify_eq. breflect. apply at_none; [|done]. unfold saved_now. fold s. rewrite Hf, Hg.
    by rewrite (proj2 (Z.eqb_neq _ _)). }
  assert (Hs : saved_now e = Some (saved_params (ss_ssid s) c)).
  { unfold saved_now. fold s. by rewrite Hf, Hg, Hr. }
  destruct (connect_request _ e) as [rc e1] eqn:Hc. destruct (negb (rc =? 0)) eqn:Hrc; breflect.
  { simplify_eq. by eapply at_refused. }
  subst rc. destruct (await_result SAVED_CONN_TIMEOUT e1) as [evs e2] eqn:Ha.
  cbv zeta in Hrun. destruct (k_sem_try_take _) as [sem|] eqn:Ht; injection Hrun as <- <- <-;
    (eapply at_waited; [exact Hs|exact Hc|exact Ha|]; cbv zeta; by rewrite Ht).
Qed.

Lemma request_log p (e : E) rc e1 : connect_request p e = (rc, e1) →
  waits e1 = waits e ∧ (net_log e1 = net_log e ∨ ∃ i, net_log e1 = net_log e ++ [A_wifi_connect i p rc]).
Proof.
  unfold connect_request. destruct (wifi_iface e) as [i|]; intros Hr.
  - pose proof (connect_waits i p e) as Hw. rewrite Hr in Hw. split; [done|]. right. exists i. by eapply wifi_connect_log.
  - pose proof (no_iface_waits p e) as Hw. pose proof (no_iface_log p e) as Hl. rewrite Hr in Hw, Hl. auto.
Qed.

(** A request is the first stored network's, read at that moment, with nothing but
    requests since [e]. *)
Definition stored_request (e : E) (a : net_action) : Prop :=
  ∃ i p rc e0 more, a = A_wifi_connect i p rc ∧ saved_now e0 = Some p ∧
    net_log e0 = net_log e ++ more ∧ Forall is_connect more.

(** What a number of attempts has done between [e] and [e']. *)
Definition result_of (w : wait) : option Z := match w with W_result s => Some s | W_sleep _ => None end.
Definition attempts_made (togo : nat) (b : Z) (e e' : E) : Prop :=
  ∃ reqs ws, net_log e' = net_log e ++ reqs ∧ waits e' = waits e ++ ws ∧
    (length reqs ≤ togo)%nat ∧ Forall is_connect reqs ∧ Forall (stored_request e) reqs ∧
    omap sleep_of ws `prefix_of` backoffs (pred togo) b ∧
    (length (omap result_of ws) ≤ togo)%nat ∧ Forall (eq SAVED_CONN_TIMEOUT) (omap result_of ws).

Lemma stored_request_later (e e1 : E) reqs a :
  net_log e1 = net_log e ++ reqs → Forall is_connect reqs → stored_request e1 a → stored_request e a.
Proof.
  intros Hl Hr (i & p & rc & e0 & more & -> & Hs & H0 & Hm). exists i, p, rc, e0, (reqs ++ more).
  split; [done|]. split; [done|]. split; [by rewrite H0, Hl, app_assoc|]. by apply Forall_app.
Qed.

Lemma made_none b (e : E) : attempts_made 0 b e e.
Proof.
  exists [], []. rewrite !app_nil_r. by split_and!; try constructor.
Qed.

(** One attempt, without the pause after it. *)
Lemma attempt_made st (e : E) ret st' e' : attempt st e ret st' e' →
  ∃ reqs ws, net_log e' = net_log e ++ reqs ∧ waits e' = waits e ++ ws ∧ (length reqs ≤ 1)%nat ∧
    Forall is_connect reqs ∧ Forall (stored_request e) reqs ∧ (ws = [] ∨ ws = [W_result SAVED_CONN_TIMEOUT]).
Proof.
  assert (Hreq : ∀ p rc e1, saved_now e = Some p → connect_request p e = (rc, e1) →
    waits e1 = waits e ∧ ∃ reqs, net_log e1 = net_log e ++ reqs ∧ (length reqs ≤ 1)%nat ∧
      Forall is_connect reqs ∧ Forall (stored_request e) reqs).
  { intros p rc e1 Hs Hc. apply request_log in Hc as [Hw Hl]. split; [done|].
    destruct Hl as [Hl|[i Hl]]; [exists []; rewrite app_nil_r; split_and!; auto using Forall_nil_2|].
    exists [A_wifi_connect i p rc]. split; [done|]. split; [done|]. rewrite !Forall_singleton.
    split; [by eexists _, _, _|]. exists i, p, rc, e, []. rewrite app_nil_r. split_and!; auto using Forall_nil_2. }
  destruct 1 as [ret Hn Hr|p ret e1 Hs Hc Hr|p ret st' e1 evs e2 Hs Hc Ha Hres].
  - exists [], []. rewrite !app_nil_r. split_and!; try constructor; done.
  - destruct (Hreq _ _ _ Hs Hc) as (Hw & reqs & H1 & H2 & H3 & H4). exists reqs, []. rewrite app_nil_r. split_and!; auto.
  - destruct (Hreq _ _ _ Hs Hc) as (Hw & reqs & H1 & H2 & H3 & H4).
    pose proof (await_log SAVED_CONN_TIMEOUT e1) as Hl. pose proof (await_waits SAVED_CONN_TIMEOUT e1) as Hw2.
    rewrite Ha in Hl, Hw2. cbn [snd] in Hl, Hw2. exists reqs, [W_result SAVED_CONN_TIMEOUT].
    rewrite Hl, Hw2, Hw. split_and!; auto.
Qed.

(** The last attempt, or one that ends the loop. *)
Lemma made_one togo b st (e : E) ret st' e' : attempt st e ret st' e' → attempts_made (S togo) b e e'.
Proof.
  intros (reqs & ws & H1 & H2 & H3 & H4 & H5 & H6)%attempt_made. exists reqs, ws.
  assert (omap sleep_of ws = [] ∧ (length (omap result_of ws) ≤ 1)%nat ∧ Forall (eq SAVED_CONN_TIMEOUT) (omap result_of ws))
    as (-> & Hn & Hf) by (destruct H6 as [-> | ->]; cbn; split_and!; auto; repeat constructor).
  split_and!; try done; try lia. apply prefix_nil.
Qed.

(** An attempt, a pause, and the rest. *)
Lemma made_more togo b st (e : E) ret st1 e1 e2 evs e' :
  attempt st e ret st1 e1 → k_sleep b e1 = (evs, e2) →
  attempts_made (S togo) (Z.min (b * 2) SAVED_CONN_BACKOFF_MAX) e2 e' → attempts_made (S (S togo)) b e e'.
Proof.
  intros (reqs & ws & H1 & H2 & H3 & H4 & H5 & H6)%attempt_made Hsl (reqs2 & ws2 & G1 & G2 & G3 & G4 & G5 & G6 & G7 & G8).
  pose proof (sleep_log b e1) as Hl. pose proof (sleep_waits b e1) as Hw. rewrite Hsl in Hl, Hw. cbn [snd] in Hl, Hw.
  assert (Hlog : net_log e2 = net_log e ++ reqs) by (by rewrite Hl).
  exists (reqs ++ reqs2), (ws ++ W_sleep b :: ws2).
  assert (omap sleep_of ws = [] ∧ (length (omap result_of ws) ≤ 1)%nat ∧ Forall (eq SAVED_CONN_TIMEOUT) (omap result_of ws))
    as (Hsw & Hn & Hf) by (destruct H6 as [-> | ->]; cbn; split_and!; auto; repeat constructor).
  rewrite !omap_app, !length_app, !Forall_app, Hsw. cbn [omap list_omap sleep_of result_of app length pred backoffs].
  split_and!; try done; try lia.
  - by rewrite G1, Hlog, app_assoc.
  - by rewrite G2, Hw, H2, <- !app_assoc.
  - eapply Forall_impl; [exact G5|]. intros a. by apply stored_request_later with reqs.
  - by apply prefix_cons.
Qed.

Lemma attempts_spec togo b st (e : E) ok st' e' :
  connect_attempts togo b st e = (ok, st', e') → attempts_made togo b e e'.
Proof.
  revert b st e. induction togo as [|togo IH]; intros b st e Hrun; [simplify_eq/=; apply made_none|].
  cbn [connect_attempts] in Hrun. destruct (connect_saved_once st e) as [[ret st1] e1] eqn:Ho.
  apply once_attempt in Ho. destruct (ret =? 0); [simplify_eq; by eapply made_one|].
  destruct (ret =? - ENOENT); [simplify_eq; by eapply made_one|].
  destruct togo as [|togo]; cbn [Nat.ltb Nat.leb] in Hrun; [simplify_eq/=; by eapply made_one|].
  destruct (k_sleep b e1) as [evs e2] eqn:Hs. eapply made_more; [done|done|]. by eapply IH.
Qed.

(** ** Time *)
Definition total (l : list Z) : Z := foldr Z.add 0 l.
Lemma waited_parts ws : waited ws = total (omap sleep_of ws) + total (omap result_of ws).
Proof. induction ws as [|[s|s] ws IH]; [done|..]; cbn in *; unfold waited, total in *; cbn in *; lia. Qed.
Lemma total_prefix l k : l `prefix_of` k → Forall (fun z => 0 <= z) k → total l <= total k.
Proof.
  intros [m ->] Hk. apply Forall_app in Hk as [_ Hm]. unfold total. rewrite foldr_app.
  induction l as [|z l IH]; cbn; [|lia]. induction Hm; cbn; lia.
Qed.
Lemma total_const c l n : 0 <= c → Forall (eq c) l → (length l ≤ n)%nat → total l <= Z.of_nat n * c.
Proof.
  intros Hc Hl. revert n. induction Hl as [|z l <- _ IH]; intros n Hn; [cbn; lia|].
  destruct n as [|n]; cbn [length] in Hn; [lia|]. specialize (IH n ltac:(lia)). cbn. unfold total in *. lia.
Qed.

Lemma connect_saved_bounded_reqs st (e : E) ok st' e' :
  connect_saved st e = (ok, st', e') →
  ∃ reqs, net_log e' = net_log e ++ [A_cb_add] ++ reqs ++ [A_cb_del] ∧
    Forall (stored_request (net_mgmt_add_event_callback e)) reqs.
Proof.
  unfold connect_saved. destruct (connect_attempts _ _ _ _) as [[c s1] e1] eqn:Hr. intros [= <- <- <-].
  apply attempts_spec in Hr as (reqs & ws & H1 & _ & _ & _ & H5 & _). exists reqs.
  by rewrite cb_del_log, H1, cb_add_log, <- !app_assoc.
Qed.

(** C31: Connecting with stored credentials always comes to an end: at most five connect
    requests, each the request the store gave for its first network at that moment; the
    callback is registered before and removed after them and nothing else is done
    outside, so the credentials stay; the pauses between attempts are a prefix of 2, 4,
    8 and 16 seconds, each wait for a result is 45 seconds, and all waiting together is
    at most 255 seconds. *)
Theorem connect_saved_bounded st (e : E) ok st' e' :
  connect_saved st e = (ok, st', e') →
  ∃ reqs ws, net_log e' = net_log e ++ [A_cb_add] ++ reqs ++ [A_cb_del] ∧
    waits e' = waits e ++ ws ∧ (length reqs ≤ 5)%nat ∧
    Forall (stored_request (net_mgmt_add_event_callback e)) reqs ∧
    omap sleep_of ws `prefix_of` [2; 4; 8; 16] ∧ waited ws <= 255.
Proof.
  unfold connect_saved. destruct (connect_attempts _ _ _ _) as [[c s1] e1] eqn:Hr. intros [= <- <- <-].
  apply attempts_spec in Hr as (reqs & ws & H1 & H2 & H3 & H4 & H5 & H6 & H7 & H8).
  exists reqs, ws. rewrite cb_del_log, del_waits, H1, H2, add_waits, cb_add_log, <- !app_assoc.
  split_and!; try done. rewrite waited_parts.
  change (backoffs _ 2) with [2; 4; 8; 16] in H6.
  pose proof (total_prefix _ _ H6 ltac:(rewrite !Forall_cons; split_and!; [lia..|constructor])) as Hs.
  pose proof (total_const SAVED_CONN_TIMEOUT _ _ ltac:(done) H8 H7) as Ht. etrans; [apply Z.add_le_mono; [exact Hs|exact Ht]|done].
Qed.

(** ** The same, without the semaphore *)
Context {KL : KernelLaws}.

(** What one attempt comes to: the last result reported during its own wait decides. *)
Definition verdict (e : E) : Z * E :=
  let s := foldl pick_ssid (mk_saved [] false) (wifi_credentials_ssids e) in
  if negb (ss_found s) then (- ENOENT, e)
  else
    let '(ret, c) := wifi_credentials_get_by_ssid_personal (ss_ssid s) e in
    if negb (ret =? 0) then (ret, e)
    else
      let '(ret, e1) := connect_request (saved_params (ss_ssid s) c) e in
      if negb (ret =? 0) then (ret, e1)
      else
        let '(evs, e2) := await_result SAVED_CONN_TIMEOUT e1 in
        (match last_result evs with
         | None => - ETIMEDOUT
         | Some status => if negb (status =? 0) then - EIO else 0
         end, e2).

(** The first success among so many attempts, unless the store has nothing more. *)
Fixpoint first_success (togo : nat) (backoff : Z) (e : E) : bool * E :=
  match togo with
  | O => (false, e)
  | S togo =>
      let '(ret, e1) := verdict e in
      if ret =? 0 then (true, e1)
      else if ret =? - ENOENT then (false, e1)
      else if (0 <? togo)%nat
      then first_success togo (Z.min (backoff * 2) SAVED_CONN_BACKOFF_MAX) (k_sleep backoff e1).2
      else first_success togo backoff e1
  end.

(** What a list of events leaves behind. *)
Lemma events_limit evs (st : conn_t) :
  k_sem_limit (conn_result_sem (foldl conn_mgmt_event st evs)) = k_sem_limit (conn_result_sem st).
Proof. revert st. induction evs as [|[s|] evs IH]; intros st; cbn; [done| |done]. rewrite IH. apply k_sem_limit_give. Qed.

Lemma events_fold evs (st : conn_t) : k_sem_limit (conn_result_sem st) = 1 →
  0 <= k_sem_count (conn_result_sem st) <= 1 →
  let st' := foldl conn_mgmt_event st evs in
  k_sem_count (conn_result_sem st') = (match last_result evs with Some _ => 1 | None => k_sem_count (conn_result_sem st) end) ∧
  conn_result_status st' = default (conn_result_status st) (last_result evs).
Proof.
  intros Hl Hc. cbv zeta. induction evs as [|ev evs IH] using rev_ind; [done|]. rewrite foldl_app. cbn [foldl].
  pose proof (events_limit evs st) as Hlim. destruct IH as [IH1 IH2].
  unfold last_result in *. rewrite omap_app. destruct ev as [s|]; cbn [omap list_omap event_result].
  - rewrite last_snoc. cbn. rewrite k_sem_count_give, Hlim, IH1. split; [|done].
    destruct (last (omap event_result evs)); lia.
  - rewrite app_nil_r. done.
Qed.

Lemma once_verdict st (e : E) ret st' e' :
  k_sem_limit (conn_result_sem st) = 1 → connect_saved_once st e = (ret, st', e') →
  verdict e = (ret, e') ∧ k_sem_limit (conn_result_sem st') = 1.
Proof.
  intros Hl Hrun. unfold connect_saved_once in Hrun. unfold verdict. set (s := foldl _ _ _) in *.
  destruct (negb (ss_found s)); [by simplify_eq|].
  destruct (wifi_credentials_get_by_ssid_personal (ss_ssid s) e) as [r c].
  destruct (negb (r =? 0)); [by simplify_eq|]. cbv zeta in Hrun.
  set (st1 := st <| conn_result_sem := _ |>) in Hrun.
  assert (H1 : k_sem_limit (conn_result_sem st1) = 1) by (cbn; by rewrite k_sem_limit_reset).
  assert (H2 : k_sem_count (conn_result_sem st1) = 0) by (cbn; by rewrite k_sem_count_reset).
  clearbody st1. destruct (connect_request _ e) as [rc e1]. destruct (negb (rc =? 0)); [by simplify_eq|].
  destruct (await_result SAVED_CONN_TIMEOUT e1) as [evs e2].
  pose proof (events_limit evs st1) as Hlim. destruct (events_fold evs st1 H1 ltac:(lia)) as [Hc Hst].
  set (st2 := foldl conn_mgmt_event st1 evs) in *. clearbody st2. rewrite H2 in Hc.
  destruct (k_sem_try_take (conn_result_sem st2)) as [sem|] eqn:Ht.
  - injection Hrun as <- <- <-. destruct (last_result evs) as [z|].
    + cbn in Hst |- *. rewrite Hst. split; [done|]. apply k_sem_take_some in Ht as [_ ->]. by rewrite Hlim.
    + assert (Hn : k_sem_try_take (conn_result_sem st2) = None) by (apply k_sem_take_none; lia). congruence.
  - injection Hrun as <- <- <-. apply k_sem_take_none in Ht. destruct (last_result evs); [lia|].
    split; [done|]. by rewrite Hlim.
Qed.

Lemma attempts_first togo b st (e : E) ok st' e' :
  k_sem_limit (conn_result_sem st) = 1 → connect_attempts togo b st e = (ok, st', e') →
  first_success togo b e = (ok, e').
Proof.
  revert b st e. induction togo as [|togo IH]; intros b st e Hl Hrun; [by simplify_eq/=|].
  cbn [connect_attempts first_success] in *. destruct (connect_saved_once st e) as [[ret st1] e1] eqn:Ho.
  apply once_verdict in Ho as [-> Hl1]; [|done]. destruct (ret =? 0); [by simplify_eq|].
  destruct (ret =? - ENOENT); [by simplify_eq|]. destruct (0 <? togo)%nat; [|by eapply IH].
  destruct (k_sleep b e1) as [evs e2]. cbn [snd]. eapply IH; [|exact Hrun]. by rewrite events_limit.
Qed.

(** C28: The result of connecting with stored credentials is the first success among the
    attempts, where an attempt succeeds exactly when the request is accepted and the last
    result the network reports while it is waited for is a success: the semaphore and
    the static status carry nothing over from an earlier attempt, or from results that
    arrive during a pause. *)
Theorem connect_saved_first_success st (e : E) ok st' e' :
  k_sem_limit (conn_result_sem st) = 1 → connect_saved st e = (ok, st', e') →
  ∃ e1, first_success SAVED_CONN_ATTEMPTS 2 (net_mgmt_add_event_callback e) = (ok, e1) ∧
    e' = net_mgmt_del_event_callback e1.
Proof.
  intros Hl. unfold connect_saved. destruct (connect_attempts _ _ _ _) as [[c s1] e1] eqn:Hr. intros [= <- <- <-].
  exists e1. split; [|done]. by eapply attempts_first.
Qed.

(** ** After provisioning *)
Lemma mo_store_any n m log : mo_store (monitor n log) = mo_store (monitor m log).
Proof.
  induction log as [|a log IH] using rev_ind; [done|]. rewrite !monitor_snoc.
  destruct a as [[]| | | | | | | | | | | | | |]; cbn; unfold mon_close; repeat case_match; cbn; congruence.
Qed.
Lemma store_connects log more : Forall is_connect more → store_of (log ++ more) = store_of log.
Proof.
  intros Hm. unfold store_of. induction more as [|a more IH] using rev_ind; [by rewrite app_nil_r|].
  apply Forall_app in Hm as [Hm (i & p & rc & ->)%Forall_singleton].
  rewrite app_assoc, monitor_snoc. cbn. destruct (mo_live _) as [[c k]|]; cbn; by apply IH.
Qed.

Context {SR : StoreReads E}.

(** With one network stored, its credentials are what is read. *)
Lemma one_network (e : E) c : Forall write_ok (net_log e) → blen (cr_ssid c) <= SSID_MAX →
  store_of (net_log e) = {[cr_ssid c := c]} → saved_now e = Some (saved_params (cr_ssid c) c).
Proof.
  intros Hw Hlen Hs. unfold saved_now.
  assert (Hin : ∀ s, s ∈ wifi_credentials_ssids e ↔ s = cr_ssid c).
  { intros s. rewrite (ssids_stored e s Hw), Hs. rewrite lookup_singleton_is_Some. split; auto. }
  assert (Hget : wifi_credentials_get_by_ssid_personal (cr_ssid c) e = (0, c)).
  { apply get_stored; [done|]. by rewrite Hs, lookup_singleton_eq. }
  destruct (wifi_credentials_ssids e) as [|s l].
  { exfalso. apply (elem_of_nil (cr_ssid c)), Hin. done. }
  assert (s = cr_ssid c) as -> by (apply Hin; left).
  assert (Hf : ∀ l' s0, ss_found s0 = true → foldl pick_ssid s0 l' = s0).
  { intros l' s0 H0. induction l' as [|x l' IH]; [done|]. cbn. unfold pick_ssid at 2. rewrite H0. exact IH. }
  cbn [foldl]. rewrite Hf by done. cbn [pick_ssid ss_found ss_ssid negb].
  rewrite take_ge by (unfold blen in Hlen; lia). by rewrite Hget.
Qed.
End facts.

Section reboot.
Context {E : Type} `{HH : KHeap E} `{NL : NetLog E} `{!NetHeapLaws E} `{EE : EmitEvent E} `{!EmitEventLaws E}.
Context `{WN : WifiNet E} `{!WifiNetLaws E} `{SS : SavedStore E} `{WT : Waiting E} `{!SavedLaws E} {SR : StoreReads E}.
Context `{K : Kernel} {KL : KernelLaws} `{PB : PbMsg NetworkConfigPayload} `{UV : UnionViews}.

(** A successful result changes nothing in the store and keeps the credentials. *)
Lemma success_store conn (wc wc' : wifi_cfg k_work_delayable) (e e' : E) :
  wc_inflight_ssid wc ≠ [] → on_connect_result 0 conn wc e = (wc', e') →
  store_of (net_log e') = store_of (net_log e) ∧ (Forall write_ok (net_log e') → Forall write_ok (net_log e)).
Proof.
  intros Hne Hr. unfold on_connect_result in Hr.
  rewrite (proj2 (Z.eqb_neq _ _)) in Hr by (intros H0; by apply Hne, blen_0). cbn in Hr. injection Hr as <- <-.
  rewrite emit_event_log. split; [|by intros [? _]%Forall_app]. unfold store_of. rewrite monitor_snoc. cbn.
  unfold mon_close. by destruct (mo_live _) as [[]|].
Qed.

(** C16: Provisioning and reboot fit together: once an attempt of the provisioning handler has
    succeeded - whatever preceded it - and its network is the only one stored, the
    device that boots on that store asks to connect with exactly the parameters of the
    request that succeeded, in its first and in every later attempt. *)
Theorem reboot_requests_provisioned n (e0 e e1 er e' : E) (wc wc' : wifi_cfg k_work_delayable) conn
    (st st' : conn_st k_sem) ok :
  0 <= n <= UINT32_MAX → net_log e0 = [] → rtc (wifi_step n) (wc_zero, e0) (wc, e) →
  wc_inflight_ssid wc ≠ [] → mo_lost (monitor n (net_log e)) = false →
  on_connect_result 0 conn wc e = (wc', e1) →
  net_log er = net_log e1 → Forall write_ok (net_log er) →
  dom (store_of (net_log er)) ⊆ {[wc_inflight_ssid wc]} →
  connect_saved st er = (ok, st', e') →
  saved_now (net_mgmt_add_event_callback er) = Some (inflight_params wc) ∧
  ∃ reqs, net_log e' = net_log er ++ [A_cb_add] ++ reqs ++ [A_cb_del] ∧
    Forall (fun a => ∃ i rc, a = A_wifi_connect i (inflight_params wc) rc) reqs.
Proof.
  intros Hn H0 Hr Hne Hlost Hres Hlog Hok Hdom Hrun.
  pose proof (wifi_reachable_inv _ _ _ Hn H0 Hr) as Hinv.
  destruct (wi_live _ _ Hinv Hne) as ((c & k & _ & Hpar & Hkept & _) & _). cbn [fst snd] in *. specialize (Hkept Hlost).
  assert (Hssid : cr_ssid c = wc_inflight_ssid wc) by exact (f_equal cp_ssid Hpar).
  destruct (success_store conn wc wc' e e1 Hne Hres) as [Hst _].
  assert (Hsto : store_of (net_log er) = {[cr_ssid c := c]}).
  { rewrite Hlog, Hst in Hdom |- *. rewrite (mo_store_any n 1) in Hkept. apply map_eq. intros s.
    destruct (decide (s = cr_ssid c)) as [->|Hs]; [by rewrite lookup_singleton_eq|].
    rewrite lookup_singleton_ne by done. apply not_elem_of_dom. intros Hin%Hdom%elem_of_singleton. congruence. }
  assert (Hlen : blen (cr_ssid c) <= SSID_MAX) by (rewrite Hssid; apply (wi_bounds _ _ Hinv)).
  assert (Hnow : ∀ (x : E) more, net_log x = net_log er ++ [A_cb_add] ++ more → Forall is_connect more →
    saved_now x = Some (inflight_params wc)).
  { intros x more Hx Hm. rewrite <- Hpar. apply one_network.
    - rewrite Hx. apply Forall_app. split; [done|]. constructor; [done|]. eapply Forall_impl; [exact Hm|].
      by intros a (i & p & rc & ->).
    - done.
    - rewrite Hx, app_assoc, store_connects by done. unfold store_of. rewrite monitor_snoc. exact Hsto. }
  split; [apply (Hnow _ []); [by rewrite cb_add_log|constructor]|].
  destruct (connect_saved_bounded_reqs _ _ _ _ _ Hrun) as (reqs & Hl & Hreqs). exists reqs. split; [exact Hl|].
  eapply Forall_impl; [exact Hreqs|]. intros a (i & p & rc & x & more & -> & Hs & Hx & Hm).
  exists i, rc. rewrite cb_add_log, <- app_assoc in Hx. rewrite (Hnow _ _ Hx Hm) in Hs. by injection Hs as ->.
Qed.
End reboot.
