(* ===== verification/Samples.v ===== *)
(** * Samples: the applications that come with the library

    main() of the four samples (samples/*/src/main.c), as far as it runs before it blocks
    in network_prov_mgr_wait(), over the state of the whole program. The reconnection of
    the Wi-Fi samples is in SavedConnect.v. Their event handlers log; two of them also
    register a custom endpoint's handler on NETWORK_PROV_START, the last thing the manager
    does in a start, so that [prov_event] runs on the state a successful start leaves. *)
From S2P Require Import Prelude Platform PbUtil Messages Protocomm Security0 Psa Security1 NetEnv.
From S2P Require WifiConfig WifiScan ThreadConfig ThreadScan.
From S2P Require Import Frame Manager ManagerFrame ManagerInv ManagerFacts Handlers SavedConnect.

(** In the BLE samples the device name is CONFIG_BT_DEVICE_NAME, which their prj.conf sets
    to the same. *)
Definition PROV_POP : string := "abcd1234".
Definition PROV_DEVICE_NAME : string := "PROV_ZEPHYR".

(** [openthread_run()] *)
Class OpenThreadRun (E : Type) := openthread_run : E → Z * E.

(** The echo of the custom endpoint. *)
Definition app_custom_handler {S} `{KHeap S} (inbuf : bytes) (s : S) : Z * obuf * S :=
  if blen inbuf =? 0 then (0, no_buf, s)
  else
    match k_malloc (blen inbuf) s with
    | (None, s1) => (- ENOMEM, no_buf, s1)
    | (Some out, s1) => (0, mk_obuf (Some out) inbuf, s1)
    end.

(** How [run_provisioning] ends, and [main]: with a return, or waiting for success. *)
Inductive run_end := run_failed (ret : Z) | run_waits.
Inductive main_end := main_returns | main_waits.

Section samples.
Context {E : Type} `{HH : KHeap E} `{NL : NetLog E} `{WN : WifiNet E} `{OT : OpenThread E} `{PS : PSA E}.
Context `{K : Kernel} `{SC : Schemes} `{AP : Application E} `{ST : Settings E}.
Context `{P1 : PbMsg SessionData} `{P2 : PbMsg NetworkConfigPayload} `{P3 : PbMsg NetworkScanPayload}.
Context `{P4 : PbMsg NetworkCtrlPayload} `{UV : UnionViews} {SO : SchemeOps sys}.
Context `{SS : SavedStore E} `{WT : Waiting E} `{OR : OpenThreadRun E}.
Context (cf : build_config) (custom_data : app_handler_t).

Local Abbreviation conn_t := (conn_st k_sem).

(** The event handler of the console and BLE samples; the others only log. *)
Definition prov_event (ev : network_prov_cb_event) (s : sys) : sys :=
  match ev with
  | NETWORK_PROV_START => (network_prov_mgr_endpoint_register (Some "custom-data") (Some custom_data) None s).2
  | _ => s
  end.
Definition log_event (ev : network_prov_cb_event) (s : sys) : sys := s.

Definition run_provisioning (service_name : string) (service_key : option string)
    (on_event : network_prov_cb_event → sys → sys) (s : sys) : option (run_end * sys) :=
  '(ret, s1) ← network_prov_mgr_start_provisioning cf NETWORK_PROV_SECURITY_1 (Some PROV_POP)
    (Some service_name) service_key s;
  if negb (ret =? 0) then Some (run_failed ret, s1)
  else Some (run_waits, on_event NETWORK_PROV_START s1).

(** [main] drops the code of [run_provisioning] and returns after it. *)
Definition then_return (r : run_end * sys) : main_end * sys :=
  (match r.1 with run_failed _ => main_returns | run_waits => main_waits end, r.2).

(** [bool provisioned = false], and the call; its code is dropped. *)
Definition is_provisioned (s : sys) : bool := default false (network_prov_mgr_is_provisioned cf true s).2.

(** The second half of a Wi-Fi sample's [main]: the stored credentials first. *)
Definition connect_or_provision (service_name : string) (service_key : option string)
    (on_event : network_prov_cb_event → sys → sys) (st : conn_t) (s : sys) : option (main_end * conn_t * sys) :=
  let run st s := (fun '(m, s') => (m, st, s')) ∘ then_return <$> run_provisioning service_name service_key on_event s in
  if is_provisioned s then
    let '(connected, st1, e) := connect_saved st (n_plat (sy_net s)) in
    let s1 := s <| sy_net := set_plat e (sy_net s) |> in
    if connected then Some (main_returns, st1, s1) else run st1 s1
  else run st s.

(** The two calls between, where a sample has them. *)
Definition announce (endpoint : option string) (label : string) (s : sys) : sys :=
  let s1 := match endpoint with
            | Some ep => (network_prov_mgr_endpoint_create (Some ep) s).2
            | None => s
            end in
  (network_prov_mgr_set_app_info (Some label) (Some "1.0") (Some [Some "sample"]) 1 s1).2.

Definition wifi_config (scheme : scheme_t) : mgr_config := mk_mgr_config (Some scheme) true 5.

(** What follows a successful initialisation; after a failed one [main] returns. *)
Definition after_init (config : mgr_config) (st : conn_t) (go : sys → option (main_end * conn_t * sys)) (s : sys)
    : option (main_end * conn_t * sys) :=
  let '(ret, s1) := network_prov_mgr_init cf config s in
  if negb (ret =? 0) then Some (main_returns, st, s1) else go s1.

Definition wifi_prov_console_main (network_prov_scheme_console : scheme_t) (st : conn_t) : sys → option (main_end * conn_t * sys) :=
  after_init (wifi_config network_prov_scheme_console) st (fun s =>
    connect_or_provision PROV_DEVICE_NAME None prov_event st (announce (Some "custom-data") "wifi_prov_console" s)).

Definition wifi_prov_ble_main (network_prov_scheme_ble : scheme_t) (st : conn_t) : sys → option (main_end * conn_t * sys) :=
  after_init (wifi_config network_prov_scheme_ble) st (fun s =>
    connect_or_provision PROV_DEVICE_NAME None prov_event st (announce (Some "custom-data") "wifi_prov_ble" s)).

(** PROV_SERVICE_KEY is NULL: an open access point. *)
Definition wifi_prov_softap_main (network_prov_scheme_softap : scheme_t) (st : conn_t) : sys → option (main_end * conn_t * sys) :=
  after_init (wifi_config network_prov_scheme_softap) st (connect_or_provision PROV_DEVICE_NAME None log_event st).

Definition thread_prov_ble_main (network_prov_scheme_ble : scheme_t) (s : sys) : option (main_end * sys) :=
  let '(ret, s1) := network_prov_mgr_init cf (mk_mgr_config (Some network_prov_scheme_ble) true 0) s in
  if negb (ret =? 0) then Some (main_returns, s1)
  else
    let s2 := announce None "thread_prov_ble" s1 in
    if is_provisioned s2 then
      Some (main_returns, s2 <| sy_net := set_plat (openthread_run (n_plat (sy_net s2))).2 (sy_net s2) |>)
    else then_return <$> run_provisioning PROV_DEVICE_NAME None log_event s2.
End samples.

(** ** The credentials stay *)
Definition touches_creds (a : net_action) : bool :=
  match a with A_cred_set _ _ | A_cred_delete _ | A_cred_delete_all _ => true | _ => false end.

Section creds.
Context {E : Type} `{HH : KHeap E} `{NL : NetLog E} `{!NetHeapLaws E}.
Context `{WN : WifiNet E} `{!WifiNetLaws E} `{OT : OpenThread E} `{!OpenThreadLaws E}.
Context `{PS : PSA E} `{K : Kernel} {KL : KernelLaws} `{SC : Schemes} `{AP : Application E} `{ST : Settings E}.
Context `{!ManagerEnvLaws E}.
Context `{P1 : PbMsg SessionData} `{P2 : PbMsg NetworkConfigPayload} `{P3 : PbMsg NetworkScanPayload}.
Context `{P4 : PbMsg NetworkCtrlPayload} `{UV : UnionViews}.
Context {SO : SchemeOps sys} {AC : AppConfigs} (cf : build_config).

Definition spares (log : list net_action) (x : prov_env) : Prop :=
  ∃ acts, net_log x = log ++ acts ∧ Forall (fun a => touches_creds a = false) acts.
Definition sparing (x y : prov_env) : Prop := ∀ log, spares log x → spares log y.
#[export] Instance sparing_preorder : PreOrder sparing.
Proof. split; [by intros x log|]. intros x y z H1 H2 log H. by apply H2, H1. Qed.

Lemma sparing_log (x y : prov_env) : net_log y = net_log x → sparing x y.
Proof. intros Hl log (acts & Ha & Hf). exists acts. by rewrite Hl. Qed.
Lemma sparing_app (x y : prov_env) acts : net_log y = net_log x ++ acts →
  Forall (fun a => touches_creds a = false) acts → sparing x y.
Proof.
  intros Hl Hb log (bcts & Ha & Hf). exists (bcts ++ acts). rewrite Hl, Ha, app_assoc. split; [done|]. by apply Forall_app.
Qed.
Lemma sparing_snoc (x y : prov_env) a : net_log y = net_log x ++ [a] → touches_creds a = false → sparing x y.
Proof. intros Hl Ha. eapply sparing_app; [exact Hl|]. by constructor. Qed.
Lemma sparing_after (x0 x y : prov_env) : sparing x y → sparing x0 x → sparing x0 y.
Proof. intros. by etrans. Qed.

#[local] Instance sparing_heap : HeapFrame prov_env sparing.
Proof.
  split; intros; (eapply sparing_after; [|done]); apply sparing_log; [apply malloc_log|apply free_log].
Qed.
#[local] Instance sparing_scan : ScanFrame prov_env sparing.
Proof.
  split; intros; (eapply sparing_after; [|done]).
  - destruct (wifi_scan i e) as [rc y] eqn:Hs. by eapply sparing_snoc; [apply (wifi_scan_log _ _ _ _ Hs)|].
  - by eapply sparing_snoc; [apply cb_add_log|].
  - by eapply sparing_snoc; [apply cb_del_log|].
Qed.

(** Setting the handlers up and taking them down does not touch the store. *)
Lemma wifi_init_spares n wc (x : prov_env) : sparing x (WifiConfig.network_prov_wifi_config_init n wc x).2.
Proof.
  unfold WifiConfig.network_prov_wifi_config_init. cbv zeta. destruct (negb _); [|reflexivity].
  by eapply sparing_snoc; [apply cb_add_log|].
Qed.
Lemma wifi_deinit_spares wc (x : prov_env) : sparing x (WifiConfig.network_prov_wifi_config_deinit wc x).2.
Proof.
  unfold WifiConfig.network_prov_wifi_config_deinit. cbv zeta. case_match; [|reflexivity].
  by eapply sparing_snoc; [apply cb_del_log|].
Qed.
Lemma thread_init_spares (x : prov_env) : sparing x (ThreadConfig.network_prov_thread_config_init x).2.
Proof.
  unfold ThreadConfig.network_prov_thread_config_init. cbv zeta.
  destruct (openthread_cb_register x) as [rc y] eqn:Hr. apply ot_register_log in Hr.
  destruct (negb _); by eapply sparing_snoc; [exact Hr|].
Qed.
Lemma thread_deinit_spares tc (x : prov_env) : sparing x (ThreadConfig.network_prov_thread_config_deinit tc x).2.
Proof.
  unfold ThreadConfig.network_prov_thread_config_deinit. cbv zeta. case_match; [|reflexivity].
  by eapply sparing_snoc; [apply ot_unregister_log|].
Qed.

Lemma net_init_spares p (n : netst) : sparing (n_env n) (n_env (net_endpoints_init cf p n).2).
Proof.
  unfold net_endpoints_init. cbv zeta. destruct (cf_thread cf).
  - destruct (ThreadScan.network_prov_thread_scan_init (n_ts n)) as [r ts].
    pose proof (thread_init_spares (n_env n)) as Hi. repeat (case_match; simplify_eq/=); done.
  - pose proof (frame_scan_init sparing (n_sc n) _ _ (reflexivity (n_env n))) as Hs.
    destruct (WifiScan.network_prov_wifi_scan_init (n_sc n) (n_env n)) as [[r sc] x]. cbn [snd] in Hs.
    pose proof (fun k wc => wifi_init_spares k wc x) as Hi. cbn [n_env n_wc n_mgr].
    destruct (negb (r =? 0)); [done|]. destruct (protocomm_add_endpoint _ _ _ _) as [r2 p2].
    destruct (negb (r2 =? 0)); [done|].
    match goal with |- context [WifiConfig.network_prov_wifi_config_init ?k ?wc ?y] => specialize (Hi k wc);
      change y with x in *; destruct (WifiConfig.network_prov_wifi_config_init k wc x) as [[r3 w3] y3] end.
    cbn [snd] in Hi. assert (sparing (n_env n) y3) by (by etrans). repeat (case_match; simplify_eq/=); done.
Qed.
Lemma net_deinit_spares (n : netst) : sparing (n_env n) (n_env (net_endpoints_deinit cf n)).
Proof.
  unfold net_endpoints_deinit. cbv zeta. destruct (cf_thread cf).
  - pose proof (thread_deinit_spares (n_tc n) (n_env n)) as Hd. cbn [n_tc n_env].
    by destruct (ThreadConfig.network_prov_thread_config_deinit _ _) as [tc x].
  - pose proof (frame_scan_deinit sparing (n_sc n) _ _ (reflexivity (n_env n))) as Hs.
    destruct (WifiScan.network_prov_wifi_scan_deinit (n_sc n) (n_env n)) as [sc x]. cbn [snd] in Hs.
    pose proof (wifi_deinit_spares (n_wc n) x) as Hd. cbn [n_wc n_env].
    destruct (WifiConfig.network_prov_wifi_config_deinit _ _) as [wc y]. by etrans.
Qed.

Definition spared (log : list net_action) (n : netst) : Prop := spares log (n_env n).
#[export] Instance spared_service log : ServiceProtocol cf (spared log) (spared log).
Proof.
  split.
  - done.
  - intros e x He. split; apply sparing_log; exact He.
  - intros ev x _. split; (eapply sparing_snoc; [apply (emit_event_log (EmitEventLaws := env_emit_laws cf))|done]).
  - intros p x ret p' x' _ Hx Hr. pose proof (net_init_spares p x log Hx) as Hy. rewrite Hr in Hy.
    by destruct (ret =? 0); [|left].
  - intros x [Hx|Hx]; by apply net_deinit_spares.
Qed.
End creds.

(** ** What the mains come to *)
Section facts.
Context {E : Type} `{HH : KHeap E} `{NL : NetLog E} `{!NetHeapLaws E}.
Context `{WN : WifiNet E} `{!WifiNetLaws E} `{OT : OpenThread E} `{!OpenThreadLaws E}.
Context `{PS : PSA E} `{K : Kernel} {KL : KernelLaws} `{SC : Schemes} `{AP : Application E} `{ST : Settings E}.
Context `{!ManagerEnvLaws E}.
Context `{P1 : PbMsg SessionData} `{P2 : PbMsg NetworkConfigPayload} `{P3 : PbMsg NetworkScanPayload}.
Context `{P4 : PbMsg NetworkCtrlPayload} `{UV : UnionViews} {SO : SchemeOps sys} {SL : SchemeLaws}.
Context `{SS : SavedStore E} `{WT : Waiting E} `{!SavedLaws E} `{OR : OpenThreadRun E}.
Context (openthread_run_log : ∀ e, net_log (openthread_run e).2 = net_log e).
Context (cf : build_config) (custom_range : (cf_custom_max cf ≤ 3)%nat) (custom_data : app_handler_t).

#[local] Instance any_config : AppConfigs := fun _ => True.
Local Abbreviation slots := (list (custom_ep app_handler_t app_ctx_t)).

(** What holds between any two calls of [main]: the invariant, and the credentials store
    as it was. *)
Definition sound (log : list net_action) (s : sys) : Prop :=
  sys_inv cf s ∧ kept (spared log) (spared log) s.
Lemma sound_spares log s : sound log s → spares log (n_env (sy_net s)).
Proof. intros (_ & _ & Hp). unfold phase_inv, by_phase in Hp. by destruct (mg_started _). Qed.

Record ready (log : list net_action) (sch : scheme_t) (custom : slots) (s : sys) : Prop := {
  rd_sound : sound log s;
  rd_inited : mg_inited (sy_mgr s) = true;
  rd_stopped : mg_started (sy_mgr s) = false;
  rd_scheme : mg_scheme (sy_mgr s) = Some sch;
  rd_custom : mg_custom (sy_mgr s) = custom;
}.

Lemma sound_step log s s' : sys_step cf s s' → kept (spared log) (spared log) s' → sound log s → sound log s'.
Proof. intros Hs Hk [Hi _]. split; [by eapply sys_step_inv|done]. Qed.

Lemma sound_boot s0 : boot cf s0 → sound (net_log (n_plat (sy_net s0))) s0.
Proof.
  intros Hb. split; [by apply boot_inv|]. split; [intros Hi; by rewrite (bt_inited _ _ Hb) in Hi|].
  unfold phase_inv. rewrite (bt_started _ _ Hb). exists []. by rewrite app_nil_r.
Qed.

(** [network_prov_mgr_init] on a manager that is not initialised. *)
Lemma finish_fields sch custom s : mg_started (sy_mgr s) = false → mg_scheme (sy_mgr s) = Some sch →
  mg_custom (sy_mgr s) = custom →
  let s' := sys_emit cf NETWORK_PROV_INIT (sys_mgr (fun m => m <| mg_inited := true |>) s) in
  mg_started (sy_mgr s') = false ∧ mg_inited (sy_mgr s') = true ∧ mg_scheme (sy_mgr s') = Some sch ∧
  mg_custom (sy_mgr s') = custom.
Proof.
  intros F1 F2 F3 s'. assert (B : ∀ m0 : manager scheme_t app_handler_t app_ctx_t k_sem k_work_delayable,
    let m1 := m0 <| mg_inited := true |> in mg_started m1 = mg_started m0 ∧ mg_inited m1 = true ∧
    mg_scheme m1 = mg_scheme m0 ∧ mg_custom m1 = mg_custom m0) by done.
  destruct (emit_own cf NETWORK_PROV_INIT (sys_mgr (fun m => m <| mg_inited := true |>) s) eq_refl) as (Hm & _).
  destruct (B (sy_mgr s)) as (B1 & B2 & B3 & B4).
  assert (Hm' : sy_mgr s' = (sy_mgr s) <| mg_inited := true |>) by exact Hm.
  rewrite Hm'. by rewrite B1, B2, B3, B4.
Qed.

Lemma init_fields c sch s rc s' : mc_scheme c = Some sch → mg_inited (sy_mgr s) = false → mg_started (sy_mgr s) = false →
  network_prov_mgr_init cf c s = (rc, s') →
  mg_started (sy_mgr s') = false ∧
  (rc = 0 → mg_inited (sy_mgr s') = true ∧ mg_scheme (sy_mgr s') = Some sch ∧
    mg_custom (sy_mgr s') = replicate (cf_custom_max cf) custom_zero).
Proof.
  intros Hc Hi Hs Hrun. unfold network_prov_mgr_init in Hrun. rewrite Hi, Hc in Hrun.
  destruct (negb (scheme_valid sch)).
  { apply (f_equal fst) in Hrun as Hrc. apply (f_equal snd) in Hrun. cbn [fst snd] in Hrun, Hrc. rewrite <- Hrun, <- Hrc.
    split; [exact Hs|discriminate]. }
  cbv zeta in Hrun.
  set (f := fun m : manager scheme_t app_handler_t app_ctx_t k_sem k_work_delayable => _) in Hrun.
  assert (Hf : ∀ m, mg_started (f m) = mg_started m ∧ mg_scheme (f m) = Some sch ∧
    mg_custom (f m) = replicate (cf_custom_max cf) custom_zero) by done.
  clearbody f. destruct (Hf (sy_mgr s)) as (F1 & F2 & F3). rewrite Hs in F1. set (s1 := sys_mgr f s) in Hrun.
  change (f (sy_mgr s)) with (sy_mgr s1) in F1, F2, F3. clearbody s1.
  assert (Hfin : ∀ s2, sy_mgr s2 = sy_mgr s1 →
    (0, sys_emit cf NETWORK_PROV_INIT (sys_mgr (fun m => m <| mg_inited := true |>) s2)) = (rc, s') →
    mg_started (sy_mgr s') = false ∧ (rc = 0 → mg_inited (sy_mgr s') = true ∧ mg_scheme (sy_mgr s') = Some sch ∧
      mg_custom (sy_mgr s') = replicate (cf_custom_max cf) custom_zero)).
  { intros s2 H2 Hr. apply (f_equal snd) in Hr. cbn [snd] in Hr. rewrite <- Hr. rewrite <- H2 in F1, F2, F3.
    destruct (finish_fields _ _ s2 F1 F2 F3) as (H1 & H3). split; [exact H1|]. intros _. exact H3. }
  destruct (cf_settings cf); [|exact (Hfin s1 eq_refl Hrun)].
  destruct (settings_subsys_init _) as [r e1]. set (s2 := s1 <| sy_net := _ |>) in Hrun.
  assert (H2 : sy_mgr s2 = sy_mgr s1) by reflexivity. clearbody s2.
  destruct (negb (r =? 0)) eqn:Hr.
  - apply (f_equal fst) in Hrun as Hrc. apply (f_equal snd) in Hrun. cbn [fst snd] in Hrun, Hrc. rewrite <- Hrun, <- Hrc.
    breflect. rewrite H2. split; [exact F1|done].
  - refine (Hfin _ _ Hrun). exact H2.
Qed.

Lemma ready_init c sch s0 rc s1 : boot cf s0 → mc_scheme c = Some sch → network_prov_mgr_init cf c s0 = (rc, s1) →
  let log := net_log (n_plat (sy_net s0)) in
  sound log s1 ∧ mg_started (sy_mgr s1) = false ∧
  (rc = 0 → ready log sch (replicate (cf_custom_max cf) custom_zero) s1).
Proof.
  intros Hb Hc Hrun log. pose proof (sound_boot s0 Hb) as [Hi Hk].
  assert (Hs1 : sound log s1).
  { apply (sound_step log s0); [exact (st_init cf c s0 rc s1 I Hrun)| |by split].
    by eapply kept_init; [apply _|exact I|exact Hrun|..]. }
  destruct (init_fields c sch s0 rc s1 Hc (bt_inited _ _ Hb) (bt_started _ _ Hb) Hrun) as [H1 H2].
  split; [done|]. split; [done|]. intros H0. destruct (H2 H0) as (H3 & H4 & H5). by split.
Qed.

(** A call that does not start the service. *)
Lemma ready_edit log sch custom custom' f s : ready log sch custom s → sound log (sys_mgr f s) →
  (∀ m, mg_started (f m) = mg_started m ∧ mg_inited (f m) = mg_inited m ∧ mg_scheme (f m) = mg_scheme m) →
  mg_custom (f (sy_mgr s)) = custom' → ready log sch custom' (sys_mgr f s).
Proof.
  intros [R1 R2 R3 R4 R5] Hs Hf Hcu. destruct (Hf (sy_mgr s)) as (F1 & F2 & F3).
  change (f (sy_mgr s)) with (sy_mgr (sys_mgr f s)) in *. split; [done|congruence..].
Qed.

Lemma ready_app_info log sch custom lb ve caps k s : ready log sch custom s →
  ready log sch custom (network_prov_mgr_set_app_info lb ve caps k s).2.
Proof.
  intros Hr. destruct (network_prov_mgr_set_app_info lb ve caps k s) as [rc s'] eqn:Hrun. cbn [snd].
  assert (Hs : sound log s').
  { apply (sound_step log s); [exact (st_set_app_info cf _ _ _ _ _ _ _ Hrun)| |apply Hr].
    exact (kept_app_info (VP := spared_service cf log) _ _ _ _ _ _ _ _ _ _ Hrun (proj2 (rd_sound _ _ _ _ Hr))). }
  unfold network_prov_mgr_set_app_info in Hrun.
  repeat (case_match; try (apply (f_equal snd) in Hrun; cbn [snd] in Hrun; rewrite <- Hrun in Hs |- *;
    first [exact Hr | apply (ready_edit log sch custom custom _ s Hr Hs); [done|exact (rd_custom _ _ _ _ Hr)]])).
Qed.

(** The slots with the samples' endpoint created, and with its handler. *)
Definition custom_slots (h : option app_handler_t) : slots :=
  match cf_custom_max cf with
  | O => []
  | S k => mk_custom "custom-data" h None true :: replicate k custom_zero
  end.

Lemma find_zero k n : find_custom_ep (replicate k custom_zero : slots) n = None.
Proof.
  unfold find_custom_ep. apply fmap_None, list_find_None, Forall_forall. intros x Hx.
  apply elem_of_replicate in Hx as [-> _]. by intros [? _].
Qed.

Lemma ready_create log sch s : ready log sch (replicate (cf_custom_max cf) custom_zero) s →
  ready log sch (custom_slots None) (network_prov_mgr_endpoint_create (Some "custom-data") s).2.
Proof.
  intros Hr. destruct (network_prov_mgr_endpoint_create (Some "custom-data") s) as [rc s'] eqn:Hrun. cbn [snd].
  assert (Hs : sound log s').
  { apply (sound_step log s); [exact (st_create cf _ _ _ _ Hrun)| |apply Hr].
    exact (kept_create (VP := spared_service cf log) _ _ _ _ _ _ _ Hrun (proj2 (rd_sound _ _ _ _ Hr))). }
  unfold network_prov_mgr_endpoint_create in Hrun. cbn [String.eqb Ascii.eqb Bool.eqb] in Hrun.
  rewrite (rd_inited _ _ _ _ Hr), (rd_stopped _ _ _ _ Hr), (rd_custom _ _ _ _ Hr), find_zero in Hrun.
  change (is_builtin_ep "custom-data") with false in Hrun.
  change (Z.of_nat PROTOCOMM_EP_NAME_MAX <=? strlen "custom-data") with false in Hrun. cbn [orb negb] in Hrun.
  rewrite bool_decide_false in Hrun by (by intros [? ?]). unfold custom_slots.
  pose proof (rd_custom _ _ _ _ Hr) as Hc. destruct (cf_custom_max cf) as [|k].
  - cbn in Hrun. apply (f_equal snd) in Hrun. cbn [snd] in Hrun. by rewrite <- Hrun.
  - change (free_custom_ep (replicate (S k) custom_zero : slots)) with (Some O) in Hrun.
    apply (f_equal snd) in Hrun. cbn [snd] in Hrun. rewrite <- Hrun in Hs |- *.
    apply (ready_edit _ _ _ _ _ _ Hr Hs); [done|].
    cbn [mg_custom field_set]. rewrite Hc. reflexivity.
Qed.

(** The platform does something that is no event of the manager's and spares the store. *)
Lemma ready_plat log sch custom s e : ready log sch custom s →
  phases (net_log e) = phases (net_log (n_plat (sy_net s))) → sparing (n_env (sy_net s)) (n_mgr (sy_net s), e) →
  ready log sch custom (s <| sy_net := set_plat e (sy_net s) |>).
Proof.
  intros [[R1 R2] R3 R4 R5 R6] He Hsp. split; [|exact R3|exact R4|exact R5|exact R6]. split.
  - apply (net_only_inv cf s); [|exact R1]. split; [|done]. split; [apply keeps_mgr_refl|exact He].
  - destruct R2 as [Hb Hp]. split; [exact Hb|]. revert Hp. unfold phase_inv, by_phase.
    change (mg_started (sy_mgr (s <| sy_net := set_plat e (sy_net s) |>))) with (mg_started (sy_mgr s)).
    destruct (mg_started (sy_mgr s)); apply Hsp.
Qed.

Lemma ready_connect log sch custom s st : ready log sch custom s →
  let '(_, _, e) := connect_saved st (n_plat (sy_net s)) in
  ready log sch custom (s <| sy_net := set_plat e (sy_net s) |>).
Proof.
  intros Hr. destruct (connect_saved st (n_plat (sy_net s))) as [[ok st1] e] eqn:Hc.
  destruct (connect_saved_bounded _ _ _ _ _ Hc) as (reqs & _ & Hl & _ & _ & Hreq & _).
  assert (Hconn : Forall is_connect reqs).
  { eapply Forall_impl; [exact Hreq|]. intros a (i & p & r & e0 & more & -> & _). by eexists _, _, _. }
  assert (Hph : ∀ o, foldl phase_step o ([A_cb_add] ++ reqs ++ [A_cb_del]) = o).
  { intros o. cbn. rewrite foldl_app. clear Hl Hreq Hc. induction Hconn as [|a l (i & p & r & ->) _ IH]; [done|]. exact IH. }
  assert (Hsp : Forall (fun a => touches_creds a = false) ([A_cb_add] ++ reqs ++ [A_cb_del])).
  { constructor; [done|]. apply Forall_app. split; [|by constructor]. eapply Forall_impl; [exact Hconn|].
    by intros a (i & p & r & ->). }
  apply ready_plat; [exact Hr| |].
  - rewrite Hl. unfold phases. by rewrite foldl_app, Hph.
  - eapply sparing_app; [exact Hl|exact Hsp].
Qed.

Lemma sound_register log s : sound log s →
  sound log (network_prov_mgr_endpoint_register (Some "custom-data") (Some custom_data) None s).2.
Proof.
  intros Hs. destruct (network_prov_mgr_endpoint_register _ _ _ s) as [rc s'] eqn:Hrun. cbn [snd].
  apply (sound_step log s); [exact (st_register cf _ _ _ _ _ _ Hrun)| |exact Hs].
  exact (kept_register (VP := spared_service cf log) _ _ _ _ _ _ _ _ _ Hrun (proj2 Hs)).
Qed.

(** What a provisioning cycle comes to: the service of a sample, on the table of endpoints
    the slots give, or none. *)
Definition running (sch : scheme_t) (custom : slots) (s' : sys) : Prop :=
  mg_started (sy_mgr s') = true ∧ mg_scheme (sy_mgr s') = Some sch ∧
  ∃ m0 l, mg_custom m0 = custom ∧ mg_pc (sy_mgr s') = Some l ∧
    sy_pcs s' = {[l := provisioning_pc cf NETWORK_PROV_SECURITY_1 (Some PROV_POP) m0]}.
Definition provisioning (log : list net_action) (sch : scheme_t) (custom : slots) (m : main_end) (s' : sys) : Prop :=
  sound log s' ∧
  match m with main_returns => mg_started (sy_mgr s') = false | main_waits => running sch custom s' end.

Lemma ready_run log sch custom name key s : ready log sch custom s →
  ∃ r s', run_provisioning cf name key log_event s = Some (r, s') ∧
    provisioning log sch custom (then_return (r, s')).1 s' ∧
    (r = run_waits → mg_custom (sy_mgr s') = custom).
Proof.
  intros [[Hinv Hk] Hi Hs Hsch Hcu]. unfold run_provisioning.
  destruct (start_total cf custom_range NETWORK_PROV_SECURITY_1 (Some PROV_POP) (Some name) key s Hinv)
    as (rc & s1 & Hrun & Hout). rewrite Hrun. cbn [mbind option_bind].
  assert (Hs1 : sound log s1).
  { apply (sound_step log s); [exact (st_start cf _ _ _ _ _ _ _ Hrun)| |by split].
    exact (kept_start cf custom_range _ _ _ _ _ _ _ _ _ Hinv Hrun Hk). }
  destruct Hout as [(_ & _ & Hbad)|(_ & _ & [Hu|Hd])].
  - destruct Hbad; congruence.
  - destruct Hu as (Hrc & _ & _ & H1 & H2 & _). rewrite (proj2 (Z.eqb_neq _ _) Hrc). cbn [negb].
    exists (run_failed rc), s1. split; [done|]. split; [|done]. by split.
  - destruct Hd as (-> & l & s2 & Heq & Hpcs & Hst & _). cbn [Z.eqb negb].
    destruct (start_ok_fields cf _ _ s l s2 s1 Heq Hinv Hs Hst Hpcs) as (F1 & F2 & F3 & F4 & F5 & _ & _ & _ & _ & F10 & _).
    exists run_waits, s1. split; [done|]. split; [|intros _; congruence]. split; [exact Hs1|].
    split; [exact F1|]. split; [congruence|]. exists (sy_mgr s), l. by split.
Qed.

(** The handler is attached on NETWORK_PROV_START. *)
Lemma register_fields s : mg_started (sy_mgr s) = true →
  let s' := (network_prov_mgr_endpoint_register (Some "custom-data") (Some custom_data) None s).2 in
  mg_started (sy_mgr s') = true ∧ mg_inited (sy_mgr s') = mg_inited (sy_mgr s) ∧
  mg_scheme (sy_mgr s') = mg_scheme (sy_mgr s) ∧ mg_pc (sy_mgr s') = mg_pc (sy_mgr s) ∧ sy_pcs s' = sy_pcs s ∧
  (mg_custom (sy_mgr s) = custom_slots None → mg_custom (sy_mgr s') = custom_slots (Some custom_data)).
Proof.
  intros Hs s'. unfold s', network_prov_mgr_endpoint_register. rewrite Hs. cbn [negb].
  destruct (find_custom_ep (mg_custom (sy_mgr s)) "custom-data") as [i|] eqn:Hf; cbn [snd].
  - assert (B : ∀ m0, let m1 := set_custom i (Some custom_data) None m0 in
      mg_started m1 = mg_started m0 ∧ mg_inited m1 = mg_inited m0 ∧ mg_scheme m1 = mg_scheme m0 ∧ mg_pc m1 = mg_pc m0 ∧
      mg_custom m1 = alter (fun e => mk_custom (ce_name e) (Some custom_data) None (ce_created e)) i (mg_custom m0)) by done.
    destruct (B (sy_mgr s)) as (B1 & B2 & B3 & B4 & B5).
    change (sy_mgr (sys_mgr (set_custom i (Some custom_data) None) s)) with (set_custom i (Some custom_data) None (sy_mgr s)).
    rewrite B1, B2, B3, B4, B5. split_and!; [done..|]. intros Hc. rewrite Hc in Hf |- *. unfold custom_slots in *.
    destruct (cf_custom_max cf) as [|k]; [done|]. change (Some O = Some i) in Hf. by injection Hf as <-.
  - split_and!; [done..|]. intros Hc. rewrite Hc in Hf |- *. unfold custom_slots in *.
    destruct (cf_custom_max cf); [done|discriminate Hf].
Qed.

Lemma ready_run_prov log sch custom name key s : ready log sch custom s →
  ∃ r s', run_provisioning cf name key (prov_event custom_data) s = Some (r, s') ∧
    provisioning log sch custom (then_return (r, s')).1 s' ∧
    (r = run_waits → custom = custom_slots None → mg_custom (sy_mgr s') = custom_slots (Some custom_data)).
Proof.
  intros Hr. destruct (ready_run log sch custom name key s Hr) as (r & s1 & Hrun & Hp & Hcu).
  unfold run_provisioning in *. destruct (network_prov_mgr_start_provisioning _ _ _ _ _ _) as [[rc s2]|]; cbn [mbind option_bind] in *; [|done].
  destruct (negb (rc =? 0)); injection Hrun as <- <-.
  - exists (run_failed rc), s2. split; [done|]. by split.
  - destruct Hp as (Hs & Hst & Hsch & m0 & l & Hm & Hpc & Hpcs). change (log_event NETWORK_PROV_START s2) with s2 in *.
    destruct (register_fields s2 Hst) as (F1 & F2 & F3 & F4 & F5 & F6).
    exists run_waits, (prov_event custom_data NETWORK_PROV_START s2). split; [done|]. cbn [prov_event].
    set (s3 := (network_prov_mgr_endpoint_register _ _ _ s2).2) in *. split.
    + split; [by apply sound_register|]. split; [exact F1|]. split; [congruence|].
      exists m0, l. split; [done|]. split; congruence.
    + intros _ Hc. apply F6. rewrite Hcu by done. exact Hc.
Qed.

(** From the stored credentials to the end of [main], with the endpoint's handler or
    without. *)
Definition event_handler (endpoint : bool) : network_prov_cb_event → sys → sys :=
  if endpoint then prov_event custom_data else log_event.
Definition endpoint_attached (endpoint : bool) (custom : slots) (m : main_end) (s' : sys) : Prop :=
  m = main_waits → endpoint = true → custom = custom_slots None →
  mg_custom (sy_mgr s') = custom_slots (Some custom_data).

Lemma ready_provision log sch custom name key b (st : conn_st k_sem) s : ready log sch custom s →
  ∃ m s', (fun '(m, s') => (m, st, s')) ∘ then_return <$> run_provisioning cf name key (event_handler b) s = Some (m, st, s') ∧
    provisioning log sch custom m s' ∧ endpoint_attached b custom m s'.
Proof.
  intros Hr. destruct b.
  - destruct (ready_run_prov _ _ _ name key _ Hr) as (r & s' & Hr1 & Hp & Hcu). cbn [event_handler]. rewrite Hr1.
    exists (then_return (r, s')).1, s'. split; [done|]. split; [exact Hp|]. intros Hm _. destruct r; [done|auto].
  - destruct (ready_run _ _ _ name key _ Hr) as (r & s' & Hr1 & Hp & Hcu). cbn [event_handler]. rewrite Hr1.
    exists (then_return (r, s')).1, s'. split; [done|]. split; [exact Hp|]. by intros _.
Qed.

Lemma ready_connect_or_provision log sch custom name key b st s : ready log sch custom s →
  ∃ m st' s', connect_or_provision cf name key (event_handler b) st s = Some (m, st', s') ∧
    provisioning log sch custom m s' ∧ endpoint_attached b custom m s'.
Proof.
  intros Hr. unfold connect_or_provision. destruct (is_provisioned cf s).
  2:{ destruct (ready_provision _ _ _ name key b st _ Hr) as (m & s' & H). by exists m, st, s'. }
  pose proof (ready_connect log sch custom s st Hr) as Hc.
  destruct (connect_saved st (n_plat (sy_net s))) as [[ok st1] e]. cbv zeta in *. destruct ok.
  - do 3 eexists. split; [done|]. split; [|done]. destruct Hc as [R1 R2 R3 R4 R5]. by split.
  - destruct (ready_provision _ _ _ name key b st1 _ Hc) as (m & s' & H). by exists m, st1, s'.
Qed.

(** A [main] from the boot on. *)
Lemma main_from_boot sch st (go : sys → option (main_end * conn_st k_sem * sys)) s0 (P : main_end → sys → Prop) :
  boot cf s0 → let log := net_log (n_plat (sy_net s0)) in
  (∀ s, sound log s → mg_started (sy_mgr s) = false → P main_returns s) →
  (∀ s, ready log sch (replicate (cf_custom_max cf) custom_zero) s → ∃ m st' s', go s = Some (m, st', s') ∧ P m s') →
  ∃ m st' s', after_init cf (wifi_config sch) st go s0 = Some (m, st', s') ∧ P m s'.
Proof.
  intros Hb log Hfail Hgo. unfold after_init. destruct (network_prov_mgr_init cf (wifi_config sch) s0) as [rc s1] eqn:Hi.
  destruct (ready_init (wifi_config sch) sch s0 rc s1 Hb eq_refl Hi) as (Hs1 & Hst1 & Hr1).
  destruct (negb (rc =? 0)) eqn:Hz; breflect; [|by apply Hgo, Hr1].
  exists main_returns, st, s1. split; [done|]. by apply Hfail.
Qed.

(** The two samples with an endpoint of their own. *)
Definition endpoint_mains : list (scheme_t → conn_st k_sem → sys → option (main_end * conn_st k_sem * sys)) :=
  [wifi_prov_console_main cf custom_data; wifi_prov_ble_main cf custom_data].

Lemma endpoint_main main sch st s0 : main ∈ endpoint_mains → boot cf s0 →
  ∃ m st' s', main sch st s0 = Some (m, st', s') ∧
    provisioning (net_log (n_plat (sy_net s0))) sch (custom_slots None) m s' ∧
    (m = main_waits → mg_custom (sy_mgr s') = custom_slots (Some custom_data)).
Proof.
  intros Hin Hb.
  assert (H : ∀ label, ∃ m st' s', after_init cf (wifi_config sch) st (fun s =>
      connect_or_provision cf PROV_DEVICE_NAME None (prov_event custom_data) st (announce (Some "custom-data") label s)) s0 =
    Some (m, st', s') ∧ provisioning (net_log (n_plat (sy_net s0))) sch (custom_slots None) m s' ∧
    (m = main_waits → mg_custom (sy_mgr s') = custom_slots (Some custom_data))).
  { intros label. refine (main_from_boot sch st _ s0 (fun m s' => _ ∧ _) Hb _ _); [by split; [split|]|]. intros s Hr.
    destruct (ready_connect_or_provision _ _ _ PROV_DEVICE_NAME None true st _
      (ready_app_info _ _ _ (Some label) (Some "1.0") (Some [Some "sample"]) 1 _ (ready_create _ _ _ Hr)))
      as (m & st' & s' & Hrun & Hp & He). exists m, st', s'. split; [exact Hrun|]. split; [exact Hp|]. intros Hm. by apply He. }
  unfold endpoint_mains in Hin. rewrite !elem_of_cons in Hin.
  destruct Hin as [->|[->|Hin]]; [apply H|apply H|by apply elem_of_nil in Hin].
Qed.

Lemma softap_main sch st s0 : boot cf s0 →
  ∃ m st' s', wifi_prov_softap_main cf sch st s0 = Some (m, st', s') ∧
    provisioning (net_log (n_plat (sy_net s0))) sch (replicate (cf_custom_max cf) custom_zero) m s'.
Proof.
  intros Hb. refine (main_from_boot sch st _ s0 _ Hb _ _); [by split|]. intros s Hr.
  destruct (ready_connect_or_provision _ _ _ PROV_DEVICE_NAME None false st _ Hr) as (m & st' & s' & Hrun & Hp & _).
  by exists m, st', s'.
Qed.

(** C24: Whatever the store holds and however the network answers, main() of each Wi-Fi
    sample returns or comes to wait without a fault. When it waits the service runs on
    the sample's transport under security 1 with the sample's proof of possession; when
    it returns no service runs; and on no path - connected, unreachable, fallen back to
    provisioning, failed to start - has it changed the credentials store. *)
Theorem wifi_main_outcome main sch st s0 : main ∈ wifi_prov_softap_main cf :: endpoint_mains → boot cf s0 →
  ∃ m st' s', main sch st s0 = Some (m, st', s') ∧ sys_inv cf s' ∧
    spares (net_log (n_plat (sy_net s0))) (n_env (sy_net s')) ∧
    match m with
    | main_returns => mg_started (sy_mgr s') = false
    | main_waits => ∃ custom, running sch custom s'
    end.
Proof.
  intros Hin Hb. assert (∃ m st' s' custom, main sch st s0 = Some (m, st', s') ∧
    provisioning (net_log (n_plat (sy_net s0))) sch custom m s') as (m & st' & s' & custom & Hrun & Hs & Hm).
  { apply elem_of_cons in Hin as [->|Hin].
    - destruct (softap_main sch st s0 Hb) as (m & st' & s' & H). eauto.
    - destruct (endpoint_main main sch st s0 Hin Hb) as (m & st' & s' & H1 & H2 & _). eauto 6. }
  exists m, st', s'. split; [exact Hrun|]. split; [apply Hs|]. split; [by apply sound_spares|]. destruct m; eauto.
Qed.

(** The custom endpoint works end to end: when main() of the console or BLE sample has
    come to wait, the running object has the endpoint custom-data, and what its handler
    makes of a request - through the manager's trampoline, in any later state with that
    table - is the sample's echo of the request. *)
Theorem custom_endpoint_echoes main sch st s0 st' s' :
  (∀ c b e, app_handler custom_data c b e = app_custom_handler b e) → (1 ≤ cf_custom_max cf)%nat →
  main ∈ endpoint_mains → boot cf s0 → main sch st s0 = Some (main_waits, st', s') →
  ∃ l p ep, mg_pc (sy_mgr s') = Some l ∧ sy_pcs s' !! l = Some p ∧ find_ep p "custom-data" = Some ep ∧
    ep_handler ep = Some H_custom_trampoline ∧
    ∀ b n, mg_custom (n_mgr n) = mg_custom (sy_mgr s') →
      custom_trampoline (ep_priv ep) b n =
        let '(rc, out, e) := app_custom_handler b (n_plat n) in (rc, out, set_plat e n).
Proof.
  intros Hecho Hmax Hin Hb Hrun. destruct (endpoint_main main sch st s0 Hin Hb) as (m & st1 & s1 & Hrun1 & [_ Hp] & Hcu).
  rewrite Hrun in Hrun1. apply (inj Some) in Hrun1. injection Hrun1 as <- <- <-. specialize (Hcu eq_refl).
  destruct Hp as (_ & _ & m0 & l & Hm0 & Hpc & Hpcs).
  exists l, (provisioning_pc cf NETWORK_PROV_SECURITY_1 (Some PROV_POP) m0),
    (mk_ep "custom-data" EP_DATA (Some H_custom_trampoline) (Some 0%nat)).
  split; [exact Hpc|]. split; [by rewrite Hpcs, lookup_singleton_eq|]. split.
  - unfold find_ep, provisioning_pc. cbn [endpoints]. rewrite Hm0. unfold custom_slots.
    destruct (cf_custom_max cf) as [|k]; [lia|]. reflexivity.
  - split; [done|]. intros b n Hn. cbn [ep_priv]. unfold custom_trampoline. rewrite Hn, Hcu. unfold custom_slots.
    destruct (cf_custom_max cf) as [|k]; [lia|]. cbn. by rewrite Hecho.
Qed.

(** The Thread sample: a device that holds a dataset starts OpenThread and returns without
    a service; any other provisions, and returns only when the start fails. *)
Theorem thread_main_outcome sch s0 : boot cf s0 →
  ∃ m s', thread_prov_ble_main cf sch s0 = Some (m, s') ∧ sys_inv cf s' ∧
    spares (net_log (n_plat (sy_net s0))) (n_env (sy_net s')) ∧
    match m with
    | main_returns => mg_started (sy_mgr s') = false
    | main_waits => running sch (replicate (cf_custom_max cf) custom_zero) s'
    end.
Proof.
  intros Hb. unfold thread_prov_ble_main, announce. set (c := mk_mgr_config (Some sch) true 0).
  destruct (network_prov_mgr_init cf c s0) as [rc s1] eqn:Hi.
  destruct (ready_init c sch s0 rc s1 Hb eq_refl Hi) as (Hs1 & Hst1 & Hr1).
  destruct (negb (rc =? 0)) eqn:Hz; breflect.
  { exists main_returns, s1. split; [done|]. split; [apply Hs1|]. by split; [apply sound_spares|]. }
  pose proof (ready_app_info _ _ _ (Some "thread_prov_ble") (Some "1.0") (Some [Some "sample"]) 1 _ (Hr1 Hz)) as Hr2.
  cbv zeta. set (s2 := (network_prov_mgr_set_app_info _ _ _ _ s1).2) in *. clearbody s2.
  destruct (is_provisioned cf s2).
  - pose proof (openthread_run_log (n_plat (sy_net s2))) as Hl.
    pose proof (ready_plat _ _ _ _ (openthread_run (n_plat (sy_net s2))).2 Hr2 ltac:(by rewrite Hl)
      (sparing_log (n_env (sy_net s2)) (n_mgr (sy_net s2), _) Hl)) as Hr3.
    exists main_returns. eexists. split; [done|]. split; [apply Hr3|]. split; [apply sound_spares, Hr3|apply Hr3].
  - destruct (ready_run _ _ _ PROV_DEVICE_NAME None _ Hr2) as (r & s3 & Hrun & [Hs3 Hp] & _). rewrite Hrun.
    exists (then_return (r, s3)).1, s3. split; [done|]. split; [apply Hs3|]. split; [by apply sound_spares|]. by destruct r.
Qed.
End facts.
