(* ===== verification/RefPlatform.v ===== *)
(** * RefPlatform: a concrete machine

    One instance of every interface of Platform.v, Psa.v, Messages.v and
    NetEnv.v, with proofs of its laws: the hypotheses of the development can be
    met together. The properties are applied to it in Witnesses.v. The
    cryptography is a toy that has the algebra the proofs rely on. *)
From S2P Require Import Prelude Platform PbUtil Messages Psa Sec1Client NetEnv.
From S2P Require SavedConnect.

(** ** Serialization: a value, and what is left of the input *)
Class Ser (A : Type) := { ser : A → bytes; deser : bytes → option (A * list Z) }.
Class SerLaws (A : Type) `{Ser A} : Prop := deser_ser (a : A) (k : bytes) : deser (ser a ++ k) = Some (a, k).

#[export] Instance Z_ser : Ser Z :=
  {| ser z := [z]; deser (l : list Z) := match l with z :: k => Some (z, k) | [] => None end |}.
#[export] Instance Z_ser_laws : SerLaws Z.
Proof. done. Qed.

#[export] Instance bool_ser : Ser bool :=
  {| ser (b : bool) := [if b then 1 else 0];
     deser (l : list Z) := match l with z :: k => Some (z =? 1, k) | [] => None end |}.
#[export] Instance bool_ser_laws : SerLaws bool.
Proof. by intros [] k. Qed.

(** Length first. *)
#[export] Instance bytes_ser : Ser (list Z) :=
  {| ser (b : list Z) := blen b :: b;
     deser (l : list Z) := match l with
                | n :: k => Some (take (Z.to_nat n) k, drop (Z.to_nat n) k)
                | [] => None end |}.
#[export] Instance bytes_ser_laws : SerLaws (list Z).
Proof.
  intros b k. cbn. unfold blen. rewrite Nat2Z.id, take_app_length, drop_app_length. done.
Qed.

#[export] Instance pair_ser `{Ser A, Ser B} : Ser (A * B) :=
  {| ser p := ser p.1 ++ ser p.2;
     deser (l : list Z) := '(a, k) ← deser l; '(b, k2) ← deser k; Some ((a, b), k2) |}.
#[export] Instance pair_ser_laws `{SerLaws A, SerLaws B} : SerLaws (A * B).
Proof.
  intros [a b] k. cbn. rewrite <- app_assoc, deser_ser. cbn. by rewrite deser_ser.
Qed.

(** As many elements as the count says. *)
Fixpoint deser_n `{Ser A} (n : nat) (l : bytes) : option (list A * list Z) :=
  match n with
  | O => Some ([], l)
  | S n => '(a, k) ← deser l; '(r, k2) ← deser_n n k; Some (a :: r, k2)
  end.
Definition ser_list `{Ser A} (l : list A) : bytes := Z.of_nat (length l) :: concat (map ser l).
Definition deser_list `{Ser A} (l : bytes) : option (list A * list Z) :=
  match l with n :: k => deser_n (Z.to_nat n) k | [] => None end.
Lemma deser_ser_list `{SerLaws A} (l : list A) k : deser_list (ser_list l ++ k) = Some (l, k).
Proof.
  unfold ser_list, deser_list. cbn. rewrite Nat2Z.id.
  induction l as [|a l IH]; [done|]. cbn. rewrite <- app_assoc, deser_ser. cbn. by rewrite IH.
Qed.

(** Records through tuples. *)
Definition ser_iso {A B} `{Ser B} (f : A → B) (g : B → A) : Ser A :=
  {| ser a := ser (f a); deser (l : list Z) := '(b, k) ← deser l; Some (g b, k) |}.
Lemma ser_iso_laws {A B} `{SerLaws B} (f : A → B) (g : B → A) :
  (∀ a, g (f a) = a) → @SerLaws A (ser_iso f g).
Proof. intros Hg a k. cbn. rewrite deser_ser. cbn. by rewrite Hg. Qed.

#[export] Instance string_ser : Ser string :=
  ser_iso (fun s => map (fun c => Z.of_N (N_of_ascii c)) (list_ascii_of_string s))
    (fun b => string_of_list_ascii (map (fun z => ascii_of_N (Z.to_N z)) b)).
#[export] Instance string_ser_laws : SerLaws string.
Proof.
  apply ser_iso_laws. intros s. rewrite <- (string_of_list_ascii_of_string s) at 2. f_equal.
  rewrite map_map. rewrite <- (map_id (list_ascii_of_string s)) at 2. apply map_ext.
  intros c. by rewrite N2Z.id, ascii_N_embedding.
Qed.

(** ** The messages *)
#[export] Instance sec1_ser : Ser sec1_payload :=
  {| ser p := match p with
       | sec1_none => [0]
       | sec1_sc0 b => 1 :: ser b
       | sec1_sr0 s a b => 2 :: ser (s, (a, b))
       | sec1_sc1 b => 3 :: ser b
       | sec1_sr1 s b => 4 :: ser (s, b) end;
     deser (l : list Z) := match l with
       | 0 :: k => Some (sec1_none, k)
       | 1 :: k => '(b, k) ← deser k; Some (sec1_sc0 b, k)
       | 2 :: k => '((s, (a, b)), k) ← deser (A := Z * (list Z * list Z)) k; Some (sec1_sr0 s a b, k)
       | 3 :: k => '(b, k) ← deser k; Some (sec1_sc1 b, k)
       | 4 :: k => '((s, b), k) ← deser (A := Z * list Z) k; Some (sec1_sr1 s b, k)
       | _ => None end |}.
#[export] Instance sec1_ser_laws : SerLaws sec1_payload.
Proof. intros [] k; cbn [ser sec1_ser deser app]; rewrite ?deser_ser; done. Qed.

#[export] Instance proto_ser : Ser session_proto :=
  {| ser p := match p with
       | proto_none => [0]
       | proto_sec0 (mk_sec0 m sec0_none) => [1; m; 0]
       | proto_sec0 (mk_sec0 m sec0_sc) => [1; m; 1]
       | proto_sec0 (mk_sec0 m (sec0_sr s)) => [1; m; 2; s]
       | proto_sec1 (mk_sec1 m p) => 2 :: m :: ser p end;
     deser (l : list Z) := match l with
       | 0 :: k => Some (proto_none, k)
       | 1 :: m :: 0 :: k => Some (proto_sec0 (mk_sec0 m sec0_none), k)
       | 1 :: m :: 1 :: k => Some (proto_sec0 (mk_sec0 m sec0_sc), k)
       | 1 :: m :: 2 :: s :: k => Some (proto_sec0 (mk_sec0 m (sec0_sr s)), k)
       | 2 :: m :: k => '(p, k) ← deser k; Some (proto_sec1 (mk_sec1 m p), k)
       | _ => None end |}.
#[export] Instance proto_ser_laws : SerLaws session_proto.
Proof.
  intros [|[m []]|[m p]] k; cbn [ser proto_ser deser app]; try done.
  by rewrite (deser_ser (A := sec1_payload)).
Qed.

#[export] Instance session_ser : Ser SessionData :=
  ser_iso (fun m => (sec_ver m, sd_proto m)) (fun p => mk_session p.1 p.2).
#[export] Instance session_ser_laws : SerLaws SessionData.
Proof. apply ser_iso_laws. by intros []. Qed.

#[export] Instance set_wifi_ser : Ser CmdSetWifiConfig :=
  ser_iso (fun m => (sw_ssid m, (sw_passphrase m, (sw_bssid m, sw_channel m))))
    (fun p => mk_set_wifi p.1 p.2.1 p.2.2.1 p.2.2.2).
#[export] Instance set_wifi_ser_laws : SerLaws CmdSetWifiConfig.
Proof. apply ser_iso_laws. by intros []. Qed.

#[export] Instance connected_ser : Ser WifiConnectedState :=
  ser_iso (fun m => (wcs_ip4_addr m, (wcs_auth_mode m, (wcs_ssid m, (wcs_bssid m, wcs_channel m)))))
    (fun p => mk_connected p.1 p.2.1 p.2.2.1 p.2.2.2.1 p.2.2.2.2).
#[export] Instance connected_ser_laws : SerLaws WifiConnectedState.
Proof. apply ser_iso_laws. by intros []. Qed.

#[export] Instance attached_ser : Ser ThreadAttachState :=
  ser_iso (fun m => (tas_pan_id m, (tas_ext_pan_id m, (tas_channel m, tas_name m))))
    (fun p => mk_attached p.1 p.2.1 p.2.2.1 p.2.2.2).
#[export] Instance attached_ser_laws : SerLaws ThreadAttachState.
Proof. apply ser_iso_laws. by intros []. Qed.

#[export] Instance config_pl_ser : Ser config_payload :=
  {| ser p := match p with
       | cfg_none => [0]
       | cfg_cmd_get_wifi_status => [1]
       | cfg_resp_get_wifi_status s st wstate_none => [2; 0; s; st]
       | cfg_resp_get_wifi_status s st (wstate_fail_reason r) => [2; 1; s; st; r]
       | cfg_resp_get_wifi_status s st (wstate_connected c) => 2 :: 2 :: s :: st :: ser c
       | cfg_resp_get_wifi_status s st (wstate_attempt_failed r) => [2; 3; s; st; r]
       | cfg_cmd_set_wifi_config c => 3 :: ser c
       | cfg_resp_set_wifi_config s => [4; s]
       | cfg_cmd_apply_wifi_config => [5]
       | cfg_resp_apply_wifi_config s => [6; s]
       | cfg_cmd_get_thread_status => [7]
       | cfg_resp_get_thread_status s st tstate_none => [8; 0; s; st]
       | cfg_resp_get_thread_status s st (tstate_fail_reason r) => [8; 1; s; st; r]
       | cfg_resp_get_thread_status s st (tstate_attached a) => 8 :: 2 :: s :: st :: ser a
       | cfg_cmd_set_thread_config d => 9 :: ser d
       | cfg_resp_set_thread_config s => [10; s]
       | cfg_cmd_apply_thread_config => [11]
       | cfg_resp_apply_thread_config s => [12; s] end;
     deser (l : list Z) := match l with
       | 0 :: k => Some (cfg_none, k)
       | 1 :: k => Some (cfg_cmd_get_wifi_status, k)
       | 2 :: 0 :: s :: st :: k => Some (cfg_resp_get_wifi_status s st wstate_none, k)
       | 2 :: 1 :: s :: st :: r :: k => Some (cfg_resp_get_wifi_status s st (wstate_fail_reason r), k)
       | 2 :: 2 :: s :: st :: k =>
           '(c, k) ← deser k; Some (cfg_resp_get_wifi_status s st (wstate_connected c), k)
       | 2 :: 3 :: s :: st :: r :: k => Some (cfg_resp_get_wifi_status s st (wstate_attempt_failed r), k)
       | 3 :: k => '(c, k) ← deser k; Some (cfg_cmd_set_wifi_config c, k)
       | 4 :: s :: k => Some (cfg_resp_set_wifi_config s, k)
       | 5 :: k => Some (cfg_cmd_apply_wifi_config, k)
       | 6 :: s :: k => Some (cfg_resp_apply_wifi_config s, k)
       | 7 :: k => Some (cfg_cmd_get_thread_status, k)
       | 8 :: 0 :: s :: st :: k => Some (cfg_resp_get_thread_status s st tstate_none, k)
       | 8 :: 1 :: s :: st :: r :: k => Some (cfg_resp_get_thread_status s st (tstate_fail_reason r), k)
       | 8 :: 2 :: s :: st :: k =>
           '(a, k) ← deser k; Some (cfg_resp_get_thread_status s st (tstate_attached a), k)
       | 9 :: k => '(d, k) ← deser k; Some (cfg_cmd_set_thread_config d, k)
       | 10 :: s :: k => Some (cfg_resp_set_thread_config s, k)
       | 11 :: k => Some (cfg_cmd_apply_thread_config, k)
       | 12 :: s :: k => Some (cfg_resp_apply_thread_config s, k)
       | _ => None end |}.
#[export] Instance config_pl_ser_laws : SerLaws config_payload.
Proof.
  intros p k; destruct p as [| | ? ? []| | | | | | ? ? []| | | |];
    cbn [ser config_pl_ser deser app]; rewrite ?deser_ser; done.
Qed.

#[export] Instance config_ser : Ser NetworkConfigPayload :=
  ser_iso (fun m => (cfg_msg m, cfg_payload m)) (fun p => mk_config p.1 p.2).
#[export] Instance config_ser_laws : SerLaws NetworkConfigPayload.
Proof. apply ser_iso_laws. by intros []. Qed.

#[export] Instance wifi_result_ser : Ser WiFiScanResult :=
  ser_iso (fun m => (wr_ssid m, (wr_channel m, (wr_rssi m, (wr_bssid m, wr_auth m)))))
    (fun p => mk_wifi_result p.1 p.2.1 p.2.2.1 p.2.2.2.1 p.2.2.2.2).
#[export] Instance wifi_result_ser_laws : SerLaws WiFiScanResult.
Proof. apply ser_iso_laws. by intros []. Qed.

#[export] Instance thread_result_ser : Ser ThreadScanResult :=
  ser_iso (fun m => (tr_pan_id m, (tr_channel m, (tr_rssi m, (tr_lqi m,
            (tr_ext_addr m, (tr_network_name m, tr_ext_pan_id m)))))))
    (fun p => mk_thread_result p.1 p.2.1 p.2.2.1 p.2.2.2.1 p.2.2.2.2.1 p.2.2.2.2.2.1 p.2.2.2.2.2.2).
#[export] Instance thread_result_ser_laws : SerLaws ThreadScanResult.
Proof. apply ser_iso_laws. by intros []. Qed.

#[export] Instance scan_pl_ser : Ser scan_payload :=
  {| ser p := match p with
       | scan_none => [0]
       | scan_cmd_wifi_start b pa g pe => 1 :: ser (b, (pa, (g, pe)))
       | scan_resp_wifi_start => [2]
       | scan_cmd_wifi_status => [3]
       | scan_resp_wifi_status f n => 4 :: ser (f, n)
       | scan_cmd_wifi_result s c => [5; s; c]
       | scan_resp_wifi_result l => 6 :: ser_list l
       | scan_cmd_thread_start b m => 7 :: ser (b, m)
       | scan_resp_thread_start => [8]
       | scan_cmd_thread_status => [9]
       | scan_resp_thread_status f n => 10 :: ser (f, n)
       | scan_cmd_thread_result s c => [11; s; c]
       | scan_resp_thread_result l => 12 :: ser_list l end;
     deser (l : list Z) := match l with
       | 0 :: k => Some (scan_none, k)
       | 1 :: k => '((b, (pa, (g, pe))), k) ← deser (A := bool * (bool * (Z * Z))) k;
                   Some (scan_cmd_wifi_start b pa g pe, k)
       | 2 :: k => Some (scan_resp_wifi_start, k)
       | 3 :: k => Some (scan_cmd_wifi_status, k)
       | 4 :: k => '((f, n), k) ← deser (A := bool * Z) k; Some (scan_resp_wifi_status f n, k)
       | 5 :: s :: c :: k => Some (scan_cmd_wifi_result s c, k)
       | 6 :: k => '(r, k) ← deser_list k; Some (scan_resp_wifi_result r, k)
       | 7 :: k => '((b, m), k) ← deser (A := bool * Z) k; Some (scan_cmd_thread_start b m, k)
       | 8 :: k => Some (scan_resp_thread_start, k)
       | 9 :: k => Some (scan_cmd_thread_status, k)
       | 10 :: k => '((f, n), k) ← deser (A := bool * Z) k; Some (scan_resp_thread_status f n, k)
       | 11 :: s :: c :: k => Some (scan_cmd_thread_result s c, k)
       | 12 :: k => '(r, k) ← deser_list k; Some (scan_resp_thread_result r, k)
       | _ => None end |}.
#[export] Instance scan_pl_ser_laws : SerLaws scan_payload.
Proof.
  intros [] k; cbn [ser scan_pl_ser deser app]; rewrite ?deser_ser_list, ?deser_ser; done.
Qed.

#[export] Instance scan_ser : Ser NetworkScanPayload :=
  ser_iso (fun m => (scan_msg m, (scan_status m, scan_pl m))) (fun p => mk_scan p.1 p.2.1 p.2.2).
#[export] Instance scan_ser_laws : SerLaws NetworkScanPayload.
Proof. apply ser_iso_laws. by intros []. Qed.

#[export] Instance ctrl_pl_ser : Ser ctrl_payload :=
  {| ser p := match p with
       | ctrl_none => [0] | ctrl_cmd_wifi_reset => [1] | ctrl_resp_wifi_reset => [2]
       | ctrl_cmd_wifi_reprov => [3] | ctrl_resp_wifi_reprov => [4] | ctrl_cmd_thread_reset => [5]
       | ctrl_resp_thread_reset => [6] | ctrl_cmd_thread_reprov => [7]
       | ctrl_resp_thread_reprov => [8] end;
     deser (l : list Z) := match l with
       | 0 :: k => Some (ctrl_none, k) | 1 :: k => Some (ctrl_cmd_wifi_reset, k)
       | 2 :: k => Some (ctrl_resp_wifi_reset, k) | 3 :: k => Some (ctrl_cmd_wifi_reprov, k)
       | 4 :: k => Some (ctrl_resp_wifi_reprov, k) | 5 :: k => Some (ctrl_cmd_thread_reset, k)
       | 6 :: k => Some (ctrl_resp_thread_reset, k) | 7 :: k => Some (ctrl_cmd_thread_reprov, k)
       | 8 :: k => Some (ctrl_resp_thread_reprov, k) | _ => None end |}.
#[export] Instance ctrl_pl_ser_laws : SerLaws ctrl_payload.
Proof. by intros [] k. Qed.

#[export] Instance ctrl_ser : Ser NetworkCtrlPayload :=
  ser_iso (fun m => (ctrl_msg m, (ctrl_status m, ctrl_pl m))) (fun p => mk_ctrl p.1 p.2.1 p.2.2).
#[export] Instance ctrl_ser_laws : SerLaws NetworkCtrlPayload.
Proof. apply ser_iso_laws. by intros []. Qed.

(** A codec from a serialization. *)
#[export] Instance pb_of_ser `{Ser M} : PbMsg M :=
  {| pb_decode bs := match deser bs with Some (m, []) => Some m | _ => None end;
     pb_get_encoded_size m := Some (blen (ser m));
     pb_encode cap m := if blen (ser m) <=? cap then Some (ser m) else None |}.
#[export] Instance pb_of_ser_laws `{SerLaws M} : PbMsgLaws M.
Proof.
  split; cbn.
  - intros n m bs. destruct (_ <=? _) eqn:Hl; breflect; intros ?; by simplify_eq.
  - intros n m cap ? Hcap. simplify_eq. apply Z.leb_le in Hcap. rewrite Hcap. eauto.
  - intros n m bs. destruct (_ <=? _); intros ?; simplify_eq.
    rewrite <- (app_nil_r (ser m)). by rewrite deser_ser.
Qed.
#[export] Instance session_fits_ref : SessionFits.
Proof.
  intros [v [|[m []]|[m []]]] Hb; eexists; (split; [reflexivity|]); unfold session_bounded in Hb;
    cbn in *; unfold blen in *; cbn [length]; rewrite ?length_app; cbn [length]; lia.
Qed.

(** ** Unions, read through the wrong member as zero *)
#[export] Instance ref_views : UnionViews :=
  {| view_sc0 p := match p with sec1_sc0 b => b | _ => [] end;
     view_sc1 p := match p with sec1_sc1 b => b | _ => [] end;
     view_set_wifi p := match p with cfg_cmd_set_wifi_config c => c | _ => mk_set_wifi [] [] [] 0 end;
     view_set_thread p := match p with cfg_cmd_set_thread_config d => d | _ => [] end;
     view_wifi_result p := match p with scan_cmd_wifi_result s c => (s, c) | _ => (0, 0) end;
     view_thread_result p := match p with scan_cmd_thread_result s c => (s, c) | _ => (0, 0) end |}.
#[export] Instance ref_views_laws : UnionViewsLaws.
Proof. by split. Qed.
#[export] Instance ref_client_views : ClientViews :=
  {| view_sec1 p := match p with proto_sec1 p => p | _ => mk_sec1 0 sec1_none end;
     view_sr0 p := match p with sec1_sr0 s a b => (s, a, b) | _ => (0, [], []) end;
     view_sr1 p := match p with sec1_sr1 s a => (s, a) | _ => (0, []) end |}.
#[export] Instance ref_client_views_laws : ClientViewsLaws.
Proof. by split. Qed.

(** ** Kernel objects *)
#[export] Instance ref_kernel : Kernel :=
  {| k_work_delayable := option Z; k_work_init := None;
     k_work_schedule ms w := match w with Some d => Some d | None => Some ms end;
     k_work_reschedule ms _ := Some ms; k_work_cancel _ := None; k_work_fire _ := None;
     k_work_pending w := w;
     k_sem := Z * Z; k_sem_init c n := (c, n);
     k_sem_give s := (Z.min (s.1 + 1) s.2, s.2); k_sem_reset s := (0, s.2);
     k_sem_try_take s := if 0 <? s.1 then Some (s.1 - 1, s.2) else None;
     k_sem_count s := s.1; k_sem_limit s := s.2 |}.
#[export] Instance ref_kernel_laws : KernelLaws.
Proof.
  split; try done.
  - intros [c n]. cbn. destruct (0 <? c) eqn:Hc; breflect; split; intros; try done; lia.
  - intros [c n] s'. cbn. destruct (0 <? c); intros ?; by simplify_eq.
Qed.

(** ** Toy cryptography *)
Definition pad32 (b : bytes) : bytes := take 32 (b ++ replicate 32 0).
Lemma length_pad32 b : length (pad32 b) = 32%nat.
Proof. unfold pad32. rewrite length_take, length_app, length_replicate. lia. Qed.
Lemma pad32_idem b : pad32 (pad32 b) = pad32 b.
Proof.
  unfold pad32 at 1. rewrite take_app_le by (rewrite length_pad32; lia).
  apply take_ge. by rewrite length_pad32.
Qed.

Definition toy_stream (key iv : bytes) (pos n : nat) : bytes :=
  map (fun j => nth (j mod 32) key 0 + Z.of_nat j) (seq pos n).

#[export] Instance ref_crypto : Crypto :=
  {| x25519_pub a := pad32 a; x25519 a p := xor_bytes (pad32 a) (pad32 p);
     sha256 m := pad32 m; aes_ctr := toy_stream |}.
#[export] Instance ref_crypto_laws : CryptoLaws.
Proof.
  split; cbn -[pad32].
  - intros a b. by rewrite !pad32_idem, xor_bytes_comm.
  - intros a p. rewrite length_xor_bytes, !length_pad32. done.
  - intros a. apply length_pad32.
  - intros m. apply length_pad32.
  - intros k iv pos n. unfold toy_stream. by rewrite length_map, length_seq.
Qed.

(** ** The machine: heap, key store, history, answers of the outside *)
Record machine := mk_machine {
  m_heap : gset loc;
  m_keys : gmap Z psa_key;
  m_log : list net_action;
  m_answers : list Z;
  m_role : otDeviceRole;
  m_waits : list SavedConnect.wait;
}.
#[export] Instance machine_eta : FieldEta machine := fun r =>
  mk_machine (m_heap r) (m_keys r) (m_log r) (m_answers r) (m_role r) (m_waits r).
Definition machine0 : machine := mk_machine ∅ ∅ [] [] OT_DEVICE_ROLE_DETACHED [].

#[export] Instance ref_heap : KHeap machine :=
  {| k_malloc _ e := let l := fresh (m_heap e) in (Some l, e <| m_heap := {[l]} ∪ m_heap e |>);
     k_free p e := match p with Some l => e <| m_heap := m_heap e ∖ {[l]} |> | None => e end;
     allocated := m_heap |}.
#[export] Instance ref_heap_laws : KHeapLaws machine.
Proof.
  split; cbn; try done.
  intros n e l e' Hm. simplify_eq. split; [apply is_fresh|done].
Qed.
#[export] Instance ref_heap_available : HeapAvailable machine.
Proof. by eexists. Qed.

(** The next result the outside gives; 0 when nothing else was planned. *)
Definition answer (act : Z → net_action) (e : machine) : Z * machine :=
  let rc := hd 0 (m_answers e) in
  (rc, e <| m_answers := tl (m_answers e) |> <| m_log := m_log e ++ [act rc] |>).
Definition act (a : net_action) (e : machine) : machine := e <| m_log := m_log e ++ [a] |>.

#[export] Instance ref_log : NetLog machine := m_log.
#[export] Instance ref_net_heap : NetHeapLaws machine.
Proof. split; [done|]. by intros [l|] e. Qed.
#[export] Instance ref_emit : EmitEvent machine := fun ev => act (A_emit ev).
#[export] Instance ref_emit_laws : EmitEventLaws machine.
Proof. done. Qed.
#[export] Instance ref_wifi : WifiNet machine :=
  {| net_if_get_wifi_sta _ := Some 1; net_if_get_first_wifi _ := Some 1;
     wifi_connect i p := answer (A_wifi_connect i p); wifi_scan i := answer (A_wifi_scan i);
     wifi_iface_status_get _ _ := None; net_if_ipv4_text _ _ := None;
     wifi_credentials_delete_by_ssid s := act (A_cred_delete s);
     wifi_credentials_set_personal c := answer (A_cred_set c);
     wifi_credentials_delete_all := answer A_cred_delete_all;
     wifi_credentials_is_empty e := bool_decide (SavedConnect.store_of (m_log e) = ∅);
     net_mgmt_add_event_callback := act A_cb_add; net_mgmt_del_event_callback := act A_cb_del |}.
#[export] Instance ref_wifi_laws : WifiNetLaws machine.
Proof. split; cbn; try done; unfold answer; intros; by simplify_eq. Qed.

(** The store holds what the history says; a wait for a result is answered once. *)
#[export] Instance ref_saved : SavedConnect.SavedStore machine :=
  {| SavedConnect.wifi_credentials_ssids e := fst <$> map_to_list (SavedConnect.store_of (m_log e));
     SavedConnect.wifi_credentials_get_by_ssid_personal s e :=
       match SavedConnect.store_of (m_log e) !! s with
       | Some c => (0, c)
       | None => (- ENOENT, mk_cred [] WIFI_SECURITY_TYPE_NONE None [] 0)
       end;
     SavedConnect.wifi_connect_no_iface _ e := (- ENODEV, e) |}.
#[export] Instance ref_waiting : SavedConnect.Waiting machine :=
  {| SavedConnect.k_sleep t e := ([], e <| m_waits := m_waits e ++ [SavedConnect.W_sleep t] |>);
     SavedConnect.await_result t e :=
       ([SavedConnect.NET_EVENT_WIFI_CONNECT_RESULT (hd 0 (m_answers e))],
        e <| m_answers := tl (m_answers e) |> <| m_waits := m_waits e ++ [SavedConnect.W_result t] |>);
     SavedConnect.waits := m_waits |}.
#[export] Instance ref_saved_laws : SavedConnect.SavedLaws machine.
Proof. by split. Qed.
#[export] Instance ref_store_reads : SavedConnect.StoreReads machine.
Proof.
  split.
  - intros e s _. cbn. rewrite list_elem_of_fmap. split.
    + intros ([k c] & -> & Hin%elem_of_map_to_list). by exists c.
    + intros [c Hc]. exists (s, c). split; [done|]. by apply elem_of_map_to_list.
  - intros e s c _ Hs. change (SavedConnect.store_of (m_log e) !! s = Some c) in Hs. cbn. by rewrite Hs.
Qed.

#[export] Instance ref_openthread : OpenThread machine :=
  {| openthread_cb_register := answer A_ot_cb_register; openthread_cb_unregister := act A_ot_cb_unregister;
     otDatasetSetActiveTlvs d := answer (A_ot_dataset_set d); otIp6SetEnabled := act A_ot_ip6_enable;
     otThreadSetEnabled b := answer (A_ot_thread_enable b);
     otInstanceErasePersistentInfo := answer A_ot_erase;
     otDatasetIsCommissioned _ := false; otThreadGetDeviceRole := m_role;
     otLinkGetPanId _ := 4660; otLinkGetChannel _ := 15; otThreadGetExtendedPanId _ := replicate 8 1;
     otThreadGetNetworkName _ := "ref"; otLinkGetSupportedChannelMask _ := 134215680;
     otThreadDiscover m := answer (A_ot_discover m) |}.
#[export] Instance ref_openthread_laws : OpenThreadLaws machine.
Proof. split; cbn; try done; unfold answer; intros; by simplify_eq. Qed.

(** ** PSA: keys get fresh positive identifiers *)
Definition fresh_key (e : machine) : Z :=
  Z.pos (fresh (set_map Z.to_pos (dom (m_keys e)) : gset positive)).
Lemma fresh_key_fresh e : m_keys e !! fresh_key e = None.
Proof.
  apply not_elem_of_dom. intros Hin.
  pose proof (is_fresh (set_map Z.to_pos (dom (m_keys e)) : gset positive)) as Hf. apply Hf.
  apply elem_of_map. exists (fresh_key e). split; [done|done].
Qed.

(** Deterministic private keys and nonces. *)
Definition toy_secret (e : machine) : bytes := [fresh_key e; 7; 11].

#[export] Instance ref_psa : PSA machine :=
  {| psa_cipher_operation_t := cipher_state;
     psa_crypto_init e := (0, e);
     psa_generate_key e :=
       (0, fresh_key e, e <| m_keys := <[fresh_key e := X25519_key (toy_secret e)]> (m_keys e) |>);
     psa_export_public_key id e :=
       match m_keys e !! id with Some (X25519_key sk) => (0, pad32 sk) | _ => (-135, []) end;
     psa_destroy_key id e := e <| m_keys := delete id (m_keys e) |>;
     psa_raw_key_agreement id pub e :=
       match m_keys e !! id with Some (X25519_key sk) => (0, x25519 sk pub) | _ => (-135, []) end;
     psa_hash_compute m e := (0, pad32 m);
     psa_import_key k e := (0, fresh_key e, e <| m_keys := <[fresh_key e := AES_key k]> (m_keys e) |>);
     psa_generate_random n e := (0, replicate (Z.to_nat n) 42, e);
     psa_cipher_operation_init := cipher_idle;
     psa_cipher_encrypt_setup op id e :=
       match op, m_keys e !! id with
       | cipher_idle, Some (AES_key k) => (0, cipher_keyed k)
       | _, _ => (-137, cipher_error) end;
     psa_cipher_set_iv op iv :=
       match op with cipher_keyed k => (0, cipher_active k iv 0) | _ => (-137, cipher_error) end;
     psa_cipher_update op data :=
       match op with
       | cipher_active k iv pos =>
           (0, xor_bytes data (aes_ctr k iv pos (length data)), cipher_active k iv (pos + length data))
       | _ => (-137, [], cipher_error) end;
     psa_cipher_abort _ := cipher_idle;
     psa_keys := m_keys; cipher_st op := op |}.

#[export] Instance ref_psa_laws : PsaLaws machine.
Proof.
  split; cbn -[pad32 fresh_key xor_bytes].
  - done.
  - intros e id e' Hg. simplify_eq. split; [done|]. split; [apply fresh_key_fresh|]. by eexists.
  - intros e st id e' Hg. by simplify_eq.
  - intros e id out sk Hx Hk. rewrite Hk in Hx. by simplify_eq.
  - done.
  - intros e id pub out sk Ha Hk. rewrite Hk in Ha. by simplify_eq.
  - intros e msg out Hh. by simplify_eq.
  - intros e key id e' Hi. simplify_eq. split; [done|]. split; [apply fresh_key_fresh|done].
  - intros e key st id e' Hi. by simplify_eq.
  - intros e n st out e' Hr Hn. simplify_eq. split; [done|]. unfold blen. rewrite length_replicate. lia.
  - done.
  - intros e op id op' key Hs Hk. rewrite Hk in Hs. destruct op; by simplify_eq.
  - intros e op id st op' Hs. destruct op; [|by simplify_eq..].
    destruct (m_keys e !! id) as [[]|]; by simplify_eq.
  - intros op iv op' key Hs ->. by simplify_eq.
  - intros op iv st op' Hs. destruct op; by simplify_eq.
  - intros op data out op' Hu. destruct op as [| |key iv pos|]; simplify_eq. eauto 6.
  - intros op data st out op' Hu. destruct op; by simplify_eq.
Qed.
#[export] Instance ref_psa_heap : PsaHeapLaws machine.
Proof. split; try done. by intros e [l|]. Qed.
#[export] Instance ref_psa_available : PsaAvailable machine.
Proof.
  split; cbn; try done.
  - intros e id sk Hk. by rewrite Hk.
  - intros e id sk sk' Hk. by rewrite Hk.
  - intros e op id k -> Hk. by rewrite Hk.
  - intros op iv k ->. done.
  - intros op data k iv pos ->. done.
Qed.
