(* ===== verification/RefSystem.v ===== *)
(** * RefSystem: the concrete machine for the manager and the transports

    Instances of the remaining interfaces - transport schemes, application,
    settings, Bluetooth, hexadecimal, random numbers - and a boot state. *)
From S2P Require Import Prelude Platform PbUtil Messages Protocomm Security0 Psa Security1 NetEnv.
From S2P Require WifiConfig WifiScan ThreadConfig ThreadScan Samples.
From S2P Require Import Manager ManagerFrame ManagerInv ManagerFacts CNum Transport Softap Console Ble System Program RefPlatform.

(** The application records its events and its endpoints echo. *)
#[export] Instance ref_application : Application machine :=
  {| app_handler_t := unit; app_ctx_t := unit; app_event _ ev := act (A_emit ev);
     app_handler _ _ b e := Samples.app_custom_handler b e |}.
#[export] Instance ref_settings : Settings machine :=
  {| settings_subsys_init e := (0, e); settings_load e := (0, e) |}.
#[export] Instance ref_manager_env : ManagerEnvLaws machine.
Proof. split; try done. intros h c b e. cbn. unfold Samples.app_custom_handler. by destruct (_ =? 0). Qed.
#[export] Instance ref_openthread_run : Samples.OpenThreadRun machine := fun e => (0, e).
#[export] Instance ref_random : Random32 machine := fun e => (7, e).

(** Bluetooth: advertising may be told to fail; reads follow the specification. *)
#[export] Instance ref_bluetooth : Bluetooth machine :=
  {| bt_set_name _ e := (0, e); bt_get_name _ := "ref"; bt_enable e := (0, e);
     bt_gatt_service_register _ e := (0, e); bt_gatt_service_unregister e := e;
     bt_le_adv_start _ _ e := (hd 0 (m_answers e), e <| m_answers := tl (m_answers e) |>);
     bt_le_adv_stop e := e;
     bt_gatt_attr_read len offset value :=
       let part := take (Z.to_nat len) (drop (Z.to_nat offset) value) in (att_len (blen part), part) |}.
#[export] Instance ref_bluetooth_laws : BluetoothLaws machine.
Proof. done. Qed.

(** The same host, with advertising that always starts. *)
Definition ref_bluetooth_up : Bluetooth machine :=
  {| bt_set_name _ e := (0, e); bt_get_name _ := "ref"; bt_enable e := (- EALREADY, e);
     bt_gatt_service_register _ e := (0, e); bt_gatt_service_unregister e := e;
     bt_le_adv_start _ _ e := (0, e); bt_le_adv_stop e := e;
     bt_gatt_attr_read := bt_gatt_attr_read (Bluetooth := ref_bluetooth) |}.

(** The HTTP server and the access point come up. *)
#[export] Instance ref_http : HttpServer machine := {| http_server_start e := (0, e); http_server_stop e := e |}.
#[export] Instance ref_ap : AccessPoint machine :=
  {| net_if_get_wifi_sap _ := Some 1; ap_set_addresses _ e := e; net_dhcpv4_server_start _ e := (0, e);
     net_dhcpv4_server_stop _ e := e; ap_enable _ _ _ e := (0, e); ap_disable _ e := e |}.
#[export] Instance ref_transport_env : TransportEnvLaws machine.
Proof. by split. Qed.
Lemma ref_transport_env_up : TransportEnvLaws (BT := ref_bluetooth_up) machine.
Proof. by split. Qed.

(** Protocomm as a transport sees it: two endpoints, one of which echoes. *)
#[export] Instance ref_api : ProtocommApi machine :=
  {| api_open_session _ e := Some e; api_close_session _ e := Some e;
     api_req_handle pc n b e :=
       match pc with
       | None => Some (- EINVAL, no_buf, e)
       | Some _ => if String.eqb n "echo" then let '(l, e1) := k_malloc (blen b) e in Some (0, mk_obuf l b, e1)
                   else Some (- ENOENT, no_buf, e)
       end;
     api_endpoint_names pc _ := Some (match pc with Some _ => ["proto-ver"; "echo"] | None => [] end) |}.

(** ** Lower-case hexadecimal *)
Definition hex_char (d : Z) : ascii := ascii_of_nat (Z.to_nat (if d <? 10 then 48 + d else 87 + d)).
Definition hex_val (c : ascii) : option Z :=
  let n := Z.of_nat (nat_of_ascii c) in
  if (48 <=? n) && (n <=? 57) then Some (n - 48)
  else if (97 <=? n) && (n <=? 102) then Some (n - 87) else None.
Fixpoint ref_bin2hex (b : bytes) : string :=
  match b with
  | [] => EmptyString
  | x :: b => String (hex_char (x / 16 mod 16)) (String (hex_char (x mod 16)) (ref_bin2hex b))
  end.
Fixpoint ref_hex2bin (s : string) : option bytes :=
  match s with
  | EmptyString => Some []
  | String a (String b r) => x ← hex_val a; y ← hex_val b; l ← ref_hex2bin r; Some (16 * x + y :: l)
  | _ => None
  end.
#[export] Instance ref_hex : HexCodec := {| hex2bin := ref_hex2bin; bin2hex := ref_bin2hex |}.

Lemma hex_val_char d : 0 <= d < 16 → hex_val (hex_char d) = Some d.
Proof.
  intros Hd. assert (Hn : ∃ k, d = Z.of_nat k ∧ (k < 16)%nat) by (exists (Z.to_nat d); lia).
  destruct Hn as (k & -> & Hk). do 16 (destruct k as [|k]; [reflexivity|]). lia.
Qed.
#[export] Instance ref_hex_laws : HexCodecLaws.
Proof.
  split.
  - intros b. cbn. unfold strlen, blen. induction b as [|x b IH]; [done|]. cbn [ref_bin2hex String.length length]. lia.
  - intros b Hb _. cbn. induction b as [|x b IH]; [done|]. apply Forall_cons in Hb as [Hx Hb].
    cbn [ref_bin2hex ref_hex2bin]. rewrite !hex_val_char by (apply Z.mod_pos_bound; lia).
    cbn [mbind option_bind]. rewrite IH by done. cbn [mbind option_bind]. do 2 f_equal.
    rewrite (Z.mod_small (x / 16)) by (split; [apply Z.div_pos; lia|apply Z.div_lt_upper_bound; lia]).
    pose proof (Z.div_mod x 16). lia.
Qed.

(** ** The program before its first call, for a Wi-Fi build *)
Definition ref_build : build_config := mk_build false true 16 3 30000 256 256.
Definition ref_tconfig : transport_config := mk_tconfig UINT32_MAX true true 256 6.

(** The schemes are the program's transports, all idle. *)
#[export] Hint Extern 0 Schemes => exact (prov_schemes Z) : typeclass_instances.
#[export] Instance ref_configs : AppConfigs := fun c => mc_wifi_conn_attempts c = 3.
#[export] Instance ref_scheme_ops : SchemeOps sys := prov_scheme_ops ref_build ref_tconfig.
Definition ref_transports : prov_transports Z :=
  mk_transports (mk_console None 0 false) (mk_softap None [] false 0 None false 0) (ble_zero (replicate 16 17)).
Definition ref_manager : manager scheme_t app_handler_t app_ctx_t k_sem k_work_delayable :=
  mk_mgr false false None false 0 None EmptyString EmptyString (0, 1) false 0 None
    (replicate (cf_custom_max ref_build) custom_zero).
Definition boot_sys (e : machine) : sys :=
  mk_sys (mk_net WifiConfig.wc_zero (WifiScan.mk_sc [] false false (0, 1)) ThreadConfig.tc_zero
            (ThreadScan.mk_ts [] false false (0, 1)) [] [] (ref_manager, e)) ∅ ref_transports.
Lemma boot_sys_ok e : m_log e = [] → boot ref_build (boot_sys e).
Proof.
  intros He. split; try reflexivity; [change (phases (m_log e) = Some ph_idle); by rewrite He|by intros []].
Qed.
Lemma boot_sys_sized e : io_sized (sy_tr (boot_sys e)).
Proof. reflexivity. Qed.
