(* ===== verification/Simulated.v ===== *)
(** * Simulated: the handlers on the simulated driver, run

    The machine of RefPlatform.v with the driver of FakeWifi.v behind its Wi-Fi
    calls, and the properties of FakeWifi.v and FakeStack.v applied to it: right
    credentials, a wrong passphrase and an unknown network, as the tests of the
    repository program them. *)
From S2P Require Import Prelude Platform PbUtil Messages NetEnv WifiConfig WifiScan FakeWifi FakeStack RefPlatform.

#[export] Instance ref_work : KWork :=
  {| k_work := bool; k_work_idle := false; k_work_submit _ := true; k_work_dequeue _ := false;
     k_work_queued w := w |}.
#[export] Instance ref_work_laws : KWorkLaws.
Proof. by split. Qed.

Local Abbreviation driver := (fake_wifi_data unit bool).
Record sim := mk_sim { sim_driver : driver; sim_machine : machine }.
#[export] Instance sim_eta : FieldEta sim := fun r => mk_sim (sim_driver r) (sim_machine r).

(** A call of the machine, with the driver as it is. *)
Definition on_machine (f : machine → machine) (s : sim) : sim := s <| sim_machine := f (sim_machine s) |>.
Definition on_machine_rc (f : machine → Z * machine) (s : sim) : Z * sim :=
  let '(rc, m) := f (sim_machine s) in (rc, s <| sim_machine := m |>).
(** A request the driver answers, recorded. *)
Definition on_driver (f : driver → Z * driver) (a : Z → net_action) (s : sim) : Z * sim :=
  let '(rc, d) := f (sim_driver s) in (rc, mk_sim d (act (a rc) (sim_machine s))).

(** A connect request as net_mgmt passes it on: with a passphrase of 8 to 64 characters
    or none. *)
Definition sim_passes (p : wifi_connect_req_params) : bool :=
  match cp_psk p with Some psk => (8 <=? blen psk) && (blen psk <=? 64) | None => true end.
Definition sim_connect (p : wifi_connect_req_params) (d : driver) : Z * driver :=
  if sim_passes p then fake_connect p d else (- EINVAL, d).

#[export] Instance sim_heap : KHeap sim :=
  {| k_malloc n s := let '(l, m) := k_malloc n (sim_machine s) in (l, s <| sim_machine := m |>);
     k_free p := on_machine (k_free p); allocated s := allocated (sim_machine s) |}.
#[export] Instance sim_log : NetLog sim := fun s => m_log (sim_machine s).
#[export] Instance sim_emit : EmitEvent sim := fun ev => on_machine (network_prov_emit_event ev).
#[export] Instance sim_emit_laws : EmitEventLaws sim.
Proof. done. Qed.
#[export] Instance sim_wifi : WifiNet sim :=
  {| net_if_get_wifi_sta s := fw_iface (sim_driver s); net_if_get_first_wifi s := fw_iface (sim_driver s);
     wifi_connect i p := on_driver (sim_connect p) (A_wifi_connect i p);
     wifi_scan i := on_driver (fake_scan tt) (A_wifi_scan i);
     wifi_iface_status_get _ s := Some (ds_report (fake_iface_status (sim_driver s) status_zero).2);
     net_if_ipv4_text _ _ := Some [49; 48];
     wifi_credentials_delete_by_ssid s := on_machine (wifi_credentials_delete_by_ssid s);
     wifi_credentials_set_personal c := on_machine_rc (wifi_credentials_set_personal c);
     wifi_credentials_delete_all := on_machine_rc wifi_credentials_delete_all;
     wifi_credentials_is_empty _ := true;
     net_mgmt_add_event_callback := on_machine (act A_cb_add);
     net_mgmt_del_event_callback := on_machine (act A_cb_del) |}.

Lemma on_driver_eq f a (s s' : sim) rc :
  on_driver f a s = (rc, s') → f (sim_driver s) = (rc, sim_driver s') ∧ net_log s' = net_log s ++ [a rc].
Proof. unfold on_driver. destruct (f _). intros ?. by simplify_eq. Qed.

#[export] Instance sim_wifi_laws : WifiNetLaws sim.
Proof.
  split; try done.
  - intros i p e rc e' H. exact (proj2 (on_driver_eq _ _ _ _ _ H)).
  - intros i e rc e' H. exact (proj2 (on_driver_eq _ _ _ _ _ H)).
  - intros c e rc e' H. by injection H as <- <-.
  - intros e rc e' H. by injection H as <- <-.
Qed.
#[export] Instance sim_backed : FakeBacked unit sim :=
  {| fake_data := sim_driver; set_fake d s := mk_sim d (sim_machine s); mgmt_passes := sim_passes; wifi_mgmt_scan_cb := tt;
     scan_cb_event r := match r with Some r => NET_EVENT_WIFI_SCAN_RESULT r | None => NET_EVENT_WIFI_SCAN_DONE end |}.
#[export] Instance sim_backed_laws : FakeBackedLaws unit sim.
Proof.
  split; try done.
  - intros i p e e' rc H Hm. pose proof (proj1 (on_driver_eq _ _ _ _ _ H)) as Hd. unfold sim_connect in Hd.
    change (sim_passes p = true) in Hm. by rewrite Hm in Hd.
  - intros i p e e' rc H Hm. pose proof (proj1 (on_driver_eq _ _ _ _ _ H)) as Hd. unfold sim_connect in Hd.
    change (sim_passes p = false) in Hm. rewrite Hm in Hd. injection Hd as <- Hd. by split.
  - intros p psk Hp Hl. change (sim_passes p = false). unfold sim_passes. rewrite Hp.
    by rewrite (proj2 (Z.leb_gt 8 (blen psk)) Hl).
  - intros i e e' rc H. exact (proj1 (on_driver_eq _ _ _ _ _ H)).
  - intros c e e' rc H. by injection H as <- <-.
Qed.

(** ** Two access points, one of them the network with credentials *)
Definition home_ap : fake_wifi_ap := mk_ap [104; 111; 109; 101; 0; 0] 4 [2; 0; 0; 0; 0; 1] 6 (-40) WIFI_SECURITY_TYPE_PSK.
Definition cafe_ap : fake_wifi_ap := mk_ap [99; 97; 102; 101; 0; 0] 4 [2; 0; 0; 0; 0; 2] 11 (-70) WIFI_SECURITY_TYPE_NONE.
Definition home_pass : bytes := [115; 101; 99; 114; 101; 116; 33; 33].
Definition wrong_pass : bytes := [1; 2; 3; 4; 5; 6; 7; 8].
Definition sim_fw : driver :=
  fake_wifi_set_expected_credentials (Some (take 4 (ap_ssid home_ap))) (Some home_pass)
    (fake_wifi_set_scan_aps 8 [home_ap; cafe_ap] 2 (fake_iface_init 1 (fake_wifi_init fw_zero).2)).
Definition sim0 : sim := mk_sim sim_fw machine0.

(** The handler after [init] with three attempts and staged credentials. *)
Definition staged (ssid pass : bytes) : wifi_cfg (option Z) :=
  (do_set_config (K := ref_kernel) (mk_set_wifi ssid pass [] 0)
     (network_prov_wifi_config_init (K := ref_kernel) 3 wc_zero sim0).1.2).2.

Lemma fake_scan_delivers_witness :
  ∃ cb calls, scan_work_fn (Cb := unit) (fake_scan tt (fake_wifi_set_scan_aps 1 [home_ap; cafe_ap] 2 fw_zero)).2
    = Some (calls ++ [(cb, None, 0, None)]) ∧ (length calls ≤ 1)%nat.
Proof.
  destruct (fake_scan_delivers (Cb := unit) 1 (fake_scan tt (fake_wifi_set_scan_aps 1 [home_ap; cafe_ap] 2 fw_zero)).2)
    as (cb & calls & H1 & _ & _ & H2 & _).
  - eapply rtc_l; [apply (fs_set_aps 1 [home_ap; cafe_ap] 2)|]. apply rtc_once, fs_scan.
  - reflexivity.
  - exists cb, calls. exact (conj H1 H2).
Defined.

Lemma fake_credentials_decide_witness :
  creds_outcome (KQ := ref_work) sim_fw (mk_connect_params [99] None WIFI_SECURITY_TYPE_NONE 255 None) = WIFI_STATUS_CONN_AP_NOT_FOUND.
Proof.
  apply (proj1 (fake_credentials_decide (KQ := ref_work) sim_fw (mk_connect_params [99] None WIFI_SECURITY_TYPE_NONE 255 None)
    ltac:(repeat constructor; vm_compute; discriminate))).
  vm_compute. intros Hin. apply elem_of_cons in Hin as [Hin|Hin]; [discriminate Hin|].
  apply elem_of_cons in Hin as [Hin|Hin]; [discriminate Hin|]. by apply elem_of_nil in Hin.
Defined.

(** A passphrase of the right length and the wrong content, and one that is too short. *)
Lemma fake_apply_verdict_witness :
  (∃ wc1 e1 wc2 e2,
    do_apply_config (K := ref_kernel) (staged (take 4 (ap_ssid home_ap)) wrong_pass) sim0 = (Status_Success, wc1, e1) ∧
    settle (K := ref_kernel) (Cb := unit) 3 wc1 e1 = Some (wc2, e2) ∧
    wc_sta_state wc2 = WifiStationState_ConnectionFailed ∧ wc_fail_reason wc2 = WifiConnectFailedReason_AuthError) ∧
  ∃ wc1 e1, do_apply_config (K := ref_kernel) (staged (take 4 (ap_ssid home_ap)) [1; 2]) sim0 = (Status_Success, wc1, e1) ∧
    wc_sta_state wc1 = WifiStationState_ConnectionFailed.
Proof.
  split.
  - destruct (fake_apply_verdict (Cb := unit) (K := ref_kernel) 3 (staged (take 4 (ap_ssid home_ap)) wrong_pass) sim0 1)
      as (_ & wc1 & e1 & H1 & wc2 & e2 & H2 & _ & _ & H3 & H4 & _);
      [split; discriminate|reflexivity|split; discriminate|reflexivity..|].
    exists wc1, e1, wc2, e2. exact (conj H1 (conj H2 (conj H3 H4))).
  - destruct (fake_apply_verdict (Cb := unit) (K := ref_kernel) 3 (staged (take 4 (ap_ssid home_ap)) [1; 2]) sim0 1)
      as (_ & wc1 & e1 & H1 & _ & _ & H2 & _);
      [split; discriminate|reflexivity|split; discriminate|reflexivity..|].
    exists wc1, e1. exact (conj H1 H2).
Defined.

(** Right credentials: one request, and the status names the network. *)
Example sim_connects :
  let r := do_apply_config (K := ref_kernel) (staged (take 4 (ap_ssid home_ap)) home_pass) sim0 in
  (fun q => (wc_sta_state q.1, wcs_ssid (fill_connected_state q.1 q.2))) <$>
    settle (K := ref_kernel) (Cb := unit) 3 r.1.2 r.2 =
  Some (WifiStationState_Connected, take 4 (ap_ssid home_ap)).
Proof. vm_compute. reflexivity. Qed.

Definition sim_scan_events : list wifi_scan_event :=
  [NET_EVENT_WIFI_SCAN_RESULT (scan_entry_of home_ap); NET_EVENT_WIFI_SCAN_RESULT (scan_entry_of cafe_ap);
   NET_EVENT_WIFI_SCAN_DONE].
Lemma fake_scan_complete_witness :
  ∃ sc' e', scan_start (K := ref_kernel) 16 (scan_cmd_wifi_start true false 0 100) sim_scan_events sc_zero sim0
    = (Status_Success, [], sc', e') ∧ sc_finished sc' = true.
Proof.
  destruct (fake_scan_complete (Cb := unit) (K := ref_kernel) 16 (scan_cmd_wifi_start true false 0 100) sc_zero sim0 1 2
    sim_scan_events) as (sc' & e' & H1 & H2 & _); [reflexivity..|discriminate|vm_compute; reflexivity|].
  exists sc', e'. exact (conj H1 H2).
Defined.
