(* ===== verification/Witnesses.v ===== *)
(** * Witnesses: the properties applied to the concrete machine

    For each property with hypotheses, an input at which they all hold. The
    runs below are computed on the machine of RefPlatform.v and RefSystem.v. *)
From S2P Require Import Prelude Platform PbUtil Messages Protocomm Security0 Psa Security1 Schemes Sec1Client NetEnv ScanPage.
From S2P Require WifiHistory ThreadHistory SavedConnect Samples.
From S2P Require WifiConfig WifiScan WifiCtrl ThreadConfig ThreadScan ThreadCtrl.
From S2P Require Import Json Manager VersionDoc ManagerFrame ManagerInv ManagerFacts CNum Transport Softap Console Ble System Program RefPlatform RefSystem.

(** ** Protocomm with a scheme 0 session and one endpoint that echoes *)
Definition echo (_ : unit) (_ : option unit) (b : bytes) (e : machine) : Z * obuf * machine :=
  if blen b =? 0 then (0, no_buf, e) else let '(l, e1) := k_malloc (blen b) e in (0, mk_obuf l b, e1).
Definition shout (_ : unit) (_ : option unit) (_ : bytes) (e : machine) : Z * obuf * machine :=
  let l := fresh (m_heap e) in (0, mk_obuf (Some l) [], e <| m_heap := {[l]} ∪ m_heap e |>).
#[local] Instance echo_callbacks : Callbacks machine unit unit unit sec0_ctx := sec0_callbacks echo.
Definition shout_callbacks : Callbacks machine unit unit unit sec0_ctx := sec0_callbacks shout.
#[local] Instance echo_heap : HandlersHeap echo.
Proof.
  intros [] pr b e rc raw e' He. unfold echo in He. destruct (blen b =? 0).
  - simplify_eq. apply heap_extends_refl.
  - injection He as <- <- <-. pose proof (is_fresh (m_heap e)). split; cbn; set_solver.
Qed.
#[local] Instance shout_heap : HandlersHeap shout.
Proof.
  intros [] pr b e rc raw e' He. injection He as <- <- <-. pose proof (is_fresh (m_heap e)).
  split; cbn; set_solver.
Qed.
Definition w_pc : protocomm unit unit unit sec0_ctx :=
  mk_protocomm [mk_ep "sess" EP_SECURITY None None; mk_ep "echo" EP_DATA (Some tt) None]
    (Some tt) None (Some sentinel) None.

(** Security, an endpoint without a handler, a session. *)
Local Abbreviation w_reg := (protocomm unit unit unit sec0_ctx).
Definition w_null1 : w_reg := mk_protocomm [mk_ep "sess" EP_SECURITY None None] (Some tt) None None None.
Definition w_null2 : w_reg := w_null1 <| endpoints := endpoints w_null1 ++ [mk_ep "null" EP_DATA None None] |>.
Definition w_null3 : w_reg := w_null2 <| pc_sec_ctx := Some sentinel |>.
Lemma w_null_run : rtc pc_step (protocomm_zero : w_reg, machine0) (w_null3, machine0).
Proof.
  eapply rtc_l; [apply (step_security _ machine0 (Some "sess") (Some tt) None 0 w_null1); reflexivity|].
  eapply rtc_l; [apply (step_add w_null1 machine0 (Some "null") None None 0 w_null2); reflexivity|].
  apply rtc_once. apply (step_open w_null2 machine0 w_null3 machine0). reflexivity.
Qed.
Lemma reachable_never_faults_witness :
  protocomm_req_handle (Some w_null3) (Some "null") [1; 2] true machine0 = None ∧
  protocomm_req_handle (Some w_null3) (Some "null") [] true machine0 = None.
Proof.
  pose proof (proj1 (proj2 (reachable_never_faults w_null3 machine0 machine0 w_null_run))) as Hiff.
  split; apply (proj2 (Hiff _ _ _)); (split; [reflexivity|]);
    exists "null", (mk_ep "null" EP_DATA None None), tt, sentinel; repeat (split; [reflexivity|]); vm_compute; reflexivity.
Defined.

Lemma add_endpoint_spec_witness :
  find_ep (mk_protocomm [mk_ep "echo" EP_DATA (Some tt) None] None None None None
    : protocomm unit unit unit sec0_ctx) "echo" = Some (mk_ep "echo" EP_DATA (Some tt) (None : option unit)).
Proof.
  refine (let H := add_endpoint_spec (Sec := unit) (Ctx := sec0_ctx) protocomm_zero "echo" (Some tt) None
    (wf_kept _ pc_wf_zero) in _).
  exact (proj1 (proj2 (proj2 (proj2 H)))).
Defined.

Lemma data_request_chain_witness :
  ∃ h plain, ep_handler (mk_ep "echo" EP_DATA (Some tt) (None : option unit)) = Some h ∧
    ∃ l, ob_ptr plain = Some l.
Proof.
  destruct (data_request_chain w_pc w_pc "echo" (mk_ep "echo" EP_DATA (Some tt) None) tt [1; 2] machine0
    (mk_obuf (Some 3%positive) [1; 2]) (machine0 <| m_heap := {[3%positive]} |>))
    as (h & plain & _ & _ & _ & _ & Hh & [[Hb _]|(l & _ & _ & Hl & _)] & _); [reflexivity..| |].
  - discriminate.
  - exists h, plain. split; [exact Hh|]. exists l. exact Hl.
Defined.

Lemma request_heap_balance_witness :
  heap_extends machine0 {[3%positive]} (machine0 <| m_heap := {[3%positive]} |>).
Proof.
  destruct (request_heap_balance (CB := echo_callbacks) (CallbacksHeap0 := sec0_callbacks_heap echo)
    w_pc w_pc (Some "echo") [1; 2] true machine0 0 (mk_obuf (Some 3%positive) [1; 2])
    (machine0 <| m_heap := {[3%positive]} |>)) as [_ [Hext|(_ & Hno & _)]].
  - vm_compute. reflexivity.
  - exact Hext.
  - discriminate Hno.
Defined.

Lemma empty_response_leaks_witness :
  ∃ l, l ∉ allocated machine0 ∧ l ∈ allocated (machine0 <| m_heap := {[2%positive]} |>).
Proof.
  refine (proj2 (empty_response_leaks (CB := shout_callbacks) (CallbacksHeap0 := sec0_callbacks_heap shout)
    w_pc w_pc "echo" (mk_ep "echo" EP_DATA (Some tt) None) tt [1; 2] machine0 no_buf _ _ _ _ _ _)); try reflexivity.
  - intros b e1. eexists _, _. reflexivity.
Defined.

Lemma sec0_handshake_spec_witness :
  sec0_handshake (Some sentinel) [] machine0 = (- EINVAL, no_buf, Some sentinel, machine0) ∧
  (- EINVAL = - EINVAL ∧ no_buf = no_buf ∧ machine0 = machine0).
Proof.
  split; [reflexivity|].
  exact (proj2 (sec0_handshake_spec (Some sentinel) [] machine0 (- EINVAL) no_buf (Some sentinel) machine0 eq_refl)).
Defined.

(** ** A scheme 1 session, from set-up to data *)
Definition w_pop : option string := Some "abcd".
Definition w_init : Z * option (sec1_ctx cipher_state) * machine := Eval vm_compute in sec1_init 1 w_pop machine0.
Definition w_sec1_zero : sec1_ctx cipher_state := mk_ctx 1%positive SEC1_INIT [] 0 [] [] [] 0 cipher_idle.
Definition w_ctx0 : sec1_ctx cipher_state := Eval vm_compute in default w_sec1_zero w_init.1.2.
Definition w_e1 : machine := Eval vm_compute in w_init.2.
Definition w_hs : Z * prov_client cipher_state * machine * (option (sec1_ctx cipher_state) * machine) :=
  Eval vm_compute in
    prov_client_handshake device_xport device_free prov_client_init w_pop machine0 (Some w_ctx0, w_e1).
Definition w_client : prov_client cipher_state := Eval vm_compute in w_hs.1.1.2.
Definition w_ctx : sec1_ctx cipher_state := Eval vm_compute in default w_sec1_zero w_hs.2.1.
Definition w_e : machine := Eval vm_compute in w_hs.2.2.

(** The two messages the client sends. *)
Definition w_client1 : prov_client cipher_state := Eval vm_compute in (prov_client_keygen prov_client_init machine0).1.2.
Definition w_p0 : Sec1Payload := Eval vm_compute in
  mk_sec1 Sec1MsgType_Session_Command0 (sec1_sc0 (pc_pubkey w_client1)).
Definition w_m0 : bytes := Eval vm_compute in
  ser (mk_session SecSchemeVersion_SecScheme1 (proto_sec1 w_p0)).
Definition w_h0 : Z * obuf * option (sec1_ctx cipher_state) * machine :=
  Eval vm_compute in sec1_handshake (Some w_ctx0) w_m0 w_e1.
Definition w_ctx1 : sec1_ctx cipher_state := Eval vm_compute in default w_sec1_zero w_h0.1.2.
Definition w_verify : bytes := Eval vm_compute in (ctr_xform w_ctx1 (s1c_device_pubkey w_ctx1)).1.2.
Definition w_p1 : Sec1Payload := Eval vm_compute in
  mk_sec1 Sec1MsgType_Session_Command1 (sec1_sc1 w_verify).
Definition w_m1 : bytes := Eval vm_compute in
  ser (mk_session SecSchemeVersion_SecScheme1 (proto_sec1 w_p1)).
Definition w_h1 : Z * obuf * option (sec1_ctx cipher_state) * machine :=
  Eval vm_compute in sec1_handshake (Some w_ctx1) w_m1 w_h0.2.
Definition w_ctx2 : sec1_ctx cipher_state := Eval vm_compute in default w_sec1_zero w_h1.1.2.
Definition w_data : Z * bytes * option (sec1_ctx cipher_state) * machine :=
  Eval vm_compute in sec1_encrypt (Some w_ctx2) [1; 2; 3] w_h1.2.

Lemma sec1_data_authenticated_witness :
  ∃ sk cpub key iv pos,
    s1c_device_pubkey w_ctx2 = x25519_pub sk ∧ length cpub = PUBKEY_LEN ∧
    key = mix_pop (x25519 sk cpub) (pop_bytes w_pop) ∧
    authenticated w_ctx2 [w_m0; w_m1] key iv pos ∧
    w_data.1.1.2 = xor_bytes [1; 2; 3] (aes_ctr key iv pos (length [1; 2; 3])).
Proof.
  apply (sec1_data_authenticated (PS := ref_psa) 1 w_pop machine0 w_e1 w_h1.2 w_ctx0 w_ctx2 [w_m0; w_m1] [1; 2; 3]
    w_data.1.1.2 w_data.1.2 w_data.2).
  - vm_compute. reflexivity.
  - apply (rtc_l _ _ (w_ctx1, w_h0.2, [w_m0])).
    { apply (step_handshake (PS := ref_psa) w_ctx0 w_e1 [] w_m0 0 w_h0.1.1.2). vm_compute. reflexivity. }
    apply rtc_once. apply (step_handshake (PS := ref_psa) w_ctx1 w_h0.2 [w_m0] w_m1 0 w_h1.1.1.2). vm_compute. reflexivity.
  - vm_compute. reflexivity.
Defined.

Lemma session_releases_keys_witness : psa_keys (sec1_cleanup (E := machine) w_ctx2 w_h1.2) = ∅.
Proof.
  refine (proj2 (session_releases_keys (PS := ref_psa) 1 w_pop machine0 w_e1 w_h0.2 w_h1.2 w_ctx0 w_ctx1 w_ctx2
    w_p0 w_p1 w_h0.1.1.2 w_h1.1.1.2 0 _ _ _)); vm_compute; reflexivity.
Defined.

Definition w_again : Z * obuf * sec1_ctx cipher_state * machine := Eval vm_compute in handle_cmd0 w_ctx1 w_p0 w_h0.2.
Definition w_aes : bytes := Eval vm_compute in
  match m_keys w_h0.2 !! s1c_session_key w_ctx1 with Some (AES_key k) => k | _ => [] end.
Lemma rekey_leaks_session_key_witness :
  psa_keys (sec1_cleanup (E := machine) w_again.1.2 w_again.2) !! s1c_session_key w_ctx1 = Some (AES_key w_aes).
Proof.
  refine (proj1 (rekey_leaks_session_key (PS := ref_psa) w_ctx1 w_again.1.2 w_p0 w_h0.2 w_again.2 w_again.1.1.2 (toy_secret machine0) w_aes _ _ _));
    vm_compute; reflexivity.
Defined.

Lemma handshake_completes_witness :
  ∃ c' e' ctx' f' key iv,
    prov_client_handshake device_xport device_free prov_client_init w_pop machine0 (Some w_ctx0, w_e1) =
      (0, c', e', (Some ctx', f')) ∧
    s1c_state ctx' = SEC1_DONE ∧ cipher_st (pc_cipher c') = cipher_active key iv 64 ∧ keystream_at ctx' key iv 64.
Proof.
  apply (handshake_completes (PE := ref_psa) (PF := ref_psa) 1 w_pop machine0 machine0 w_e1 w_ctx0); vm_compute; reflexivity.
Defined.

Lemma handshake_wrong_pop_witness :
  ∃ s iv rc c' e' ctx' f',
    length s = SESSION_KEY_LEN ∧
    prov_client_handshake device_xport device_free prov_client_init (Some "wxyz") machine0 (Some w_ctx0, w_e1) =
      (rc, c', e', (Some ctx', f')) ∧
    (aes_ctr (mix_pop s (client_pop (Some "wxyz"))) iv 0 32 ≠ aes_ctr (mix_pop s (pop_bytes w_pop)) iv 0 32 →
     rc = - EACCES ∧ s1c_state ctx' = SEC1_CMD0_DONE ∧
     ∀ data, sec1_encrypt (Some ctx') data f' = (- EACCES, [], Some ctx', f')).
Proof.
  destruct (handshake_wrong_pop (PE := ref_psa) (PF := ref_psa) 1 w_pop (Some "wxyz") machine0 machine0 w_e1 w_ctx0)
    as (s & iv & rc & c' & e' & ctx' & f' & H1 & H2 & H3 & _); [vm_compute; reflexivity|].
  exists s, iv, rc, c', e', ctx', f'. exact (conj H1 (conj H2 H3)).
Defined.

Definition w_key : bytes := Eval vm_compute in
  match s1c_cipher w_ctx with cipher_active k _ _ => k | _ => [] end.
Definition w_iv : bytes := Eval vm_compute in
  match s1c_cipher w_ctx with cipher_active _ iv _ => iv | _ => [] end.
Lemma lockstep_roundtrip_witness :
  ∃ c' ctx' pos', converse w_client w_ctx w_e [(true, [1; 2]); (false, [3; 4; 5]); (false, [])] =
      ([Some [1; 2]; Some [3; 4; 5]; Some []], c', ctx', w_e) ∧
    s1c_state ctx' = SEC1_DONE ∧ keystream_at ctx' w_key w_iv pos' ∧
    cipher_st (pc_cipher c') = cipher_active w_key w_iv pos' ∧ pos' = 69%nat.
Proof.
  apply (lockstep_roundtrip (PE := ref_psa) (PF := ref_psa) w_client w_ctx w_e [(true, [1; 2]); (false, [3; 4; 5]); (false, [])] w_key w_iv 64);
    vm_compute; reflexivity.
Defined.

(** ** Wi-Fi credentials: an attempt on its second try *)
Import WifiConfig.
Local Abbreviation wifi_t := (wifi_cfg (option Z)).
Definition w_home : bytes := [104; 111; 109; 101].
Definition w_wifi0 : Z * wifi_t * machine := Eval vm_compute in
  WifiConfig.network_prov_wifi_config_init (K := ref_kernel) 3 WifiConfig.wc_zero machine0.
Definition w_wifi1 : Z * wifi_t * machine := Eval vm_compute in
  WifiConfig.network_prov_wifi_config_set_and_apply (K := ref_kernel) (Some w_home) 4 (Some [112; 119]) 2
    w_wifi0.1.2 w_wifi0.2.
Definition w_wifi2 : wifi_t * machine := Eval vm_compute in
  WifiConfig.on_connect_result (K := ref_kernel) 1 2 w_wifi1.1.2 w_wifi1.2.

Lemma w_wifi_run :
  rtc (WifiConfig.wifi_step (K := ref_kernel) 3) (WifiConfig.wc_zero, machine0) w_wifi2.
Proof.
  eapply rtc_l; [apply (WifiConfig.ws_init (K := ref_kernel) _ _ _ w_wifi0.1.2 w_wifi0.2); vm_compute; reflexivity|].
  eapply rtc_l.
  { apply (WifiConfig.ws_apply (K := ref_kernel) _ (Some w_home) 4 (Some [112; 119]) 2 _ _ 0 w_wifi1.1.2 w_wifi1.2);
      vm_compute; try reflexivity; discriminate. }
  apply rtc_once. change w_wifi2 with (w_wifi2.1, w_wifi2.2).
  apply (WifiConfig.ws_result (K := ref_kernel) _ 1 2); vm_compute; reflexivity.
Qed.
Lemma w_three : 0 <= 3 <= UINT32_MAX.
Proof. split; discriminate. Qed.

Lemma wifi_history_conforms_witness : mo_ok (monitor 3 (net_log w_wifi2.2)) = true.
Proof.
  exact (WifiConfig.wifi_history_conforms (K := ref_kernel) 3 machine0 w_wifi2.2 w_wifi2.1 w_three eq_refl w_wifi_run).
Defined.

Lemma wifi_status_truthful_witness :
  1 = WifiStationState_Connecting ∧ 1 <= 2 <= 3 - 1 ∧ 2 = 3 - wc_attempts_completed w_wifi2.1.
Proof.
  exact (WifiConfig.wifi_status_truthful (K := ref_kernel) 3 machine0 w_wifi2.2 w_wifi2.1 1 (wstate_attempt_failed 2) w_three
    eq_refl w_wifi_run eq_refl eq_refl).
Defined.

Lemma attempts_terminate_witness :
  ∃ wc' e', WifiConfig.drive (K := ref_kernel) [(1, 4); (0, 0)] w_wifi2.1 w_wifi2.2 = (wc', e') ∧
    wc_inflight_ssid wc' = [] ∧
    (wc_sta_state wc' = WifiStationState_Connected ∧ 0 ∈ map fst [(1, 4); (0, 0)] ∨
     wc_sta_state wc' = WifiStationState_ConnectionFailed).
Proof.
  apply (WifiConfig.attempts_terminate (K := ref_kernel) 3 machine0 w_wifi2.2 w_wifi2.1 [(1, 4); (0, 0)] w_three eq_refl w_wifi_run);
    vm_compute; discriminate.
Defined.


(** ** Wi-Fi scan: three networks for two entries, then the end *)
Definition w_ap (n : Z) : WifiScan.wifi_scan_result := WifiScan.mk_wifi_scan_result [97; n] 40 (replicate 6 n) 6 (-50) WIFI_SECURITY_TYPE_SAE.
Definition w_arrivals : list WifiScan.wifi_scan_event :=
  [WifiScan.NET_EVENT_WIFI_SCAN_RESULT (w_ap 1); WifiScan.NET_EVENT_WIFI_SCAN_RESULT (w_ap 2);
   WifiScan.NET_EVENT_WIFI_SCAN_RESULT (w_ap 3); WifiScan.NET_EVENT_WIFI_SCAN_DONE].
Definition w_start : scan_payload := scan_cmd_wifi_start true false 0 100.
Definition w_scan : Z * list WifiScan.wifi_scan_event * WifiScan.wifi_scan_st (Z * Z) * machine :=
  Eval vm_compute in WifiScan.scan_start (K := ref_kernel) 2 w_start w_arrivals WifiScan.sc_zero machine0.

Lemma scan_storage_bounded_witness :
  (length (WifiScan.sc_entries (WifiScan.mgmt_event (K := ref_kernel) 2 (WifiScan.NET_EVENT_WIFI_SCAN_RESULT (w_ap 1))
     WifiScan.sc_zero)) ≤ 2)%nat.
Proof.
  refine (WifiScan.si_count _ _ (WifiScan.scan_storage_bounded 2 machine0 _ machine0 _)).
  apply rtc_once. apply (WifiScan.wss_event (K := ref_kernel)).
Defined.

Lemma blocking_scan_semantics_witness :
  length (WifiScan.sc_entries w_scan.1.2) = 2%nat ∧ k_sem_count (WifiScan.sc_done_sem w_scan.1.2 : k_sem) = 0.
Proof.
  destruct (WifiScan.blocking_scan_semantics (K := ref_kernel) 2 w_start w_arrivals WifiScan.sc_zero machine0
    Status_Success w_scan.1.1.2 w_scan.1.2 w_scan.2) as (He & Hs & _); [vm_compute; reflexivity..|].
  split; [exact (f_equal length He)|exact Hs].
Defined.

Lemma wifi_paging_complete_witness :
  fetch_all WifiScan.result_of_entry 3 (WifiScan.sc_entries w_scan.1.2) 0 1 =
    WifiScan.result_of_entry <$> WifiScan.sc_entries w_scan.1.2.
Proof.
  exact (proj1 (WifiScan.wifi_paging_complete (K := ref_kernel) (w_scan.1.2) 1 ltac:(vm_compute; discriminate))).
Defined.

(** ** Wi-Fi reset in the middle of an attempt *)
Definition w_reset : bytes := ser (mk_ctrl TypeCmdCtrlWifiReset 0 ctrl_cmd_wifi_reset).
Definition w_reset_run : Z * obuf * wifi_t * machine := Eval vm_compute in
  WifiCtrl.network_prov_wifi_ctrl_handler (K := ref_kernel) w_reset w_wifi2.1 w_wifi2.2.
Lemma wifi_ctrl_reset_quiesces_witness :
  net_log w_reset_run.2 = net_log w_wifi2.2 ∧ k_work_pending (Kernel := ref_kernel) (wc_retry_work w_reset_run.1.2) = None.
Proof.
  destruct (WifiCtrl.wifi_ctrl_reset_quiesces (K := ref_kernel) w_reset w_wifi2.1 w_reset_run.1.2 w_wifi2.2
    w_reset_run.2 0 w_reset_run.1.1.2) as (Hl & _ & _ & _ & _ & _ & Hp & _); [vm_compute; reflexivity|].
  split; [exact Hl|exact Hp].
Defined.

(** ** Thread: an attempt waiting for its attach *)
Local Abbreviation thread_t := (ThreadConfig.thread_cfg (option Z)).
Definition w_thread0 : Z * thread_t * machine := Eval vm_compute in
  ThreadConfig.network_prov_thread_config_init (K := ref_kernel) machine0.
Definition w_thread1 : Z * thread_t * machine := Eval vm_compute in
  ThreadConfig.network_prov_thread_config_set_and_apply (K := ref_kernel) (Some [14; 8; 0; 0]) 4 w_thread0.1.2 w_thread0.2.
Lemma w_thread_run :
  rtc (ThreadConfig.thread_step (K := ref_kernel)) (ThreadConfig.tc_zero, machine0) (w_thread1.1.2, w_thread1.2).
Proof.
  eapply rtc_l; [apply (ThreadConfig.ts_init (K := ref_kernel) _ _ 0 w_thread0.1.2 w_thread0.2); vm_compute; reflexivity|].
  apply rtc_once.
  apply (ThreadConfig.ts_apply (K := ref_kernel) (Some [14; 8; 0; 0]) 4 _ _ 0); [reflexivity|discriminate| |vm_compute; reflexivity].
  intros bs ?. simplify_eq. discriminate.
Qed.

Lemma thread_outcomes_consistent_witness :
  ThreadConfig.tc_pending w_thread1.1.2 = 1 ∧ is_Some (ThreadConfig.tc_attach_timeout w_thread1.1.2).
Proof.
  refine (ThreadConfig.ti_attaching _ (ThreadConfig.thread_outcomes_consistent (K := ref_kernel) machine0 _ _ _ _ _
    w_thread_run) _ _); vm_compute; reflexivity.
Defined.

(** The next dataset is refused by OpenThread. *)
Definition w_refusing : machine := Eval vm_compute in w_thread1.2 <| m_answers := [7] |>.
Definition w_refused : Z * machine := Eval vm_compute in
  ThreadConfig.ot_apply (ThreadConfig.tc_dataset w_thread1.1.2) w_refusing.
Definition w_rejected : Z * thread_t * machine := Eval vm_compute in
  ThreadConfig.do_apply_config (K := ref_kernel) w_thread1.1.2 w_refusing.
Lemma rejected_apply_keeps_old_attempt_witness :
  ThreadConfig.tc_state w_rejected.1.2 = ThreadNetworkState_AttachingFailed ∧
  ThreadConfig.tc_state (ThreadConfig.on_attached (K := ref_kernel) w_rejected.1.2 w_rejected.2).1 = ThreadNetworkState_Attached.
Proof.
  destruct (ThreadConfig.rejected_apply_keeps_old_attempt (K := ref_kernel) w_thread1.1.2 w_refusing w_refused.2
    w_rejected.2 w_refused.1 w_rejected.1.1 w_rejected.1.2) as (_ & H1 & _ & H2 & _);
    [vm_compute; first [reflexivity|discriminate]..|].
  split; [exact H1|exact H2].
Defined.

(** The callback runs before the apply's tail; the timer is never armed. *)
Definition w_attached : thread_t * machine := Eval vm_compute in
  ThreadConfig.on_attached (K := ref_kernel) w_thread1.1.2 w_thread1.2.
Lemma attach_race_exactly_once_witness :
  net_log w_attached.2 = net_log w_thread1.2 ++ [A_emit ThreadConfig.SUCCESS_EV] ∨
  net_log w_attached.2 = net_log w_thread1.2 ++ [A_emit ThreadConfig.TIMEOUT_EV].
Proof.
  destruct (ThreadConfig.attach_race_exactly_once (K := ref_kernel) w_thread1.1.2 w_thread1.2
    (ThreadConfig.mk_race (K := ref_kernel) ThreadConfig.AP_query ThreadConfig.RC_won None w_attached.1 w_attached.2))
    as [[Hl _]|[Hl _]]; [reflexivity| | | |left; exact Hl|right; exact Hl].
  - do 3 (eapply rtc_l; [apply (ThreadConfig.race_callback (K := ref_kernel)); vm_compute; reflexivity|]).
    apply rtc_once. apply (ThreadConfig.race_callback (K := ref_kernel)). vm_compute. reflexivity.
  - unfold ThreadConfig.settled. cbn. rewrite !Forall_cons. set_solver.
  - left. discriminate.
Defined.

(** ** Thread scan *)
Definition w_net (n : Z) : option ThreadScan.ot_scan_result := Some (ThreadScan.mk_ot_scan_result n 15 (-60) 200 (replicate 8 n) (replicate 8 1) "net").
Definition w_tstart : scan_payload := scan_cmd_thread_start true 0.
Definition w_tscan : Z * list (option ThreadScan.ot_scan_result) * ThreadScan.thread_scan_st (Z * Z) * machine := Eval vm_compute in
  ThreadScan.thread_scan_start (K := ref_kernel) 2 w_tstart [w_net 1; w_net 2; w_net 3; None] (ThreadScan.mk_ts [] false false (0, 1)) machine0.
Lemma thread_scan_start_spec_witness :
  ∃ err, net_log w_tscan.2 = [A_ot_ip6_enable; A_ot_discover (if 0 =? 0 then 134215680 else 0) err].
Proof.
  destruct (ThreadScan.thread_scan_start_spec (K := ref_kernel) 2 w_tstart [w_net 1; w_net 2; w_net 3; None]
    (ThreadScan.mk_ts [] false false (0, 1)) machine0 w_tscan.1.1.1 w_tscan.1.1.2 w_tscan.1.2 w_tscan.2)
    as (err & Hl & _); [vm_compute; reflexivity..|].
  exists err. exact Hl.
Defined.

(** ** The manager: initialised, started, given credentials *)
(** Only the return code is computed, the state stays as it is written. *)
Lemma pair_code {A B : Type} (p : A * B) a : p.1 = a → p = (a, p.2).
Proof. destruct p as [x y]. intros <-. reflexivity. Qed.
Lemma some_code {A : Type} (o : option A) d : (if o then true else false) = true → o = Some (default d o).
Proof. destruct o; [reflexivity|discriminate]. Qed.
Lemma some_pair_code {A B : Type} (o : option (A * B)) a d : fst <$> o = Some a → o = Some (a, (default (a, d) o).2).
Proof. destruct o as [[x y]|]; [intros [= <-]; reflexivity|discriminate]. Qed.

Definition w_s0 := boot_sys machine0.
Definition w_cfg : mgr_config := mk_mgr_config (Some network_prov_scheme_softap) true 3.
Definition w_s1 := (network_prov_mgr_init ref_build w_cfg w_s0).2.
Local Abbreviation w_start_call s :=
  (network_prov_mgr_start_provisioning ref_build NETWORK_PROV_SECURITY_1 w_pop (Some "PROV_1") None s).
Definition w_s2 := (default (0, w_s1) (w_start_call w_s1)).2.
Local Abbreviation w_conf_call s :=
  (network_prov_mgr_configure_wifi_sta ref_build (Some "home") (Some "password") s).
Definition w_s3 := (w_conf_call w_s2).2.

Lemma w_boot : boot ref_build w_s0.
Proof. by apply boot_sys_ok. Qed.
Lemma w_code1 : network_prov_mgr_init ref_build w_cfg w_s0 = (0, w_s1).
Proof. refine (pair_code _ 0 _). vm_compute. reflexivity. Qed.
Lemma w_code2 : w_start_call w_s1 = Some (0, w_s2).
Proof. refine (some_pair_code (w_start_call w_s1) 0 _ _). vm_compute. reflexivity. Qed.
Lemma w_code3 : w_conf_call w_s2 = (0, w_s3).
Proof. refine (pair_code (w_conf_call w_s2) 0 _). vm_compute. reflexivity. Qed.
Lemma w_init_step : sys_step ref_build w_s0 w_s1.
Proof. exact (st_init ref_build w_cfg _ 0 _ eq_refl w_code1). Qed.
Lemma w_start_step : sys_step ref_build w_s1 w_s2.
Proof.
  exact (st_start ref_build NETWORK_PROV_SECURITY_1 w_pop (Some "PROV_1") None _ 0 _ w_code2).
Qed.
Lemma w_conf_step : sys_step ref_build w_s2 w_s3.
Proof. exact (st_configure_sta ref_build (Some "home") (Some "password") _ 0 _ w_code3). Qed.
Lemma w_run1 : rtc (sys_step ref_build) w_s0 w_s1.
Proof. apply rtc_once, w_init_step. Qed.
Lemma w_run2 : rtc (sys_step ref_build) w_s0 w_s2.
Proof. eapply rtc_r; [apply w_run1|apply w_start_step]. Qed.
Lemma w_run3 : rtc (sys_step ref_build) w_s0 w_s3.
Proof. eapply rtc_r; [apply w_run2|apply w_conf_step]. Qed.
Lemma w_range : (cf_custom_max ref_build ≤ 3)%nat.
Proof. vm_compute. auto. Qed.

Lemma provisioning_lifecycle_witness :
  phases (net_log (n_plat (sy_net w_s3))) = Some ph_live ∧
  ∃ s', network_prov_mgr_deinit ref_build w_s3 = Some s' ∧ mg_started (sy_mgr s') = false.
Proof.
  destruct (provisioning_lifecycle ref_build w_range w_s0 w_s3 w_boot w_run3) as (H1 & _ & _ & _ & _ & s' & H2 & _ & H3).
  split; [exact H1|]. exists s'. split; [exact H2|exact H3].
Defined.

Lemma start_provisioning_spec_witness :
  mg_started (sy_mgr w_s2) = true ∧ ∃ l, mg_pc (sy_mgr w_s2) = Some l ∧
    sy_pcs w_s2 = {[l := provisioning_pc ref_build NETWORK_PROV_SECURITY_1 w_pop (sy_mgr w_s1)]}.
Proof.
  exact (start_provisioning_spec ref_build w_range NETWORK_PROV_SECURITY_1 w_pop (Some "PROV_1") None
    w_s0 w_s1 0 w_s2 w_boot w_run1 w_code2).
Defined.

(** The application names itself before the service is started. *)
Local Abbreviation w_said_call :=
  (network_prov_mgr_set_app_info (Some "app") (Some "1.0") (Some [Some "a"; Some "b"]) 2 w_s1).
Definition w_said := w_said_call.2.
Definition w_said2 := (default (0, w_said) (w_start_call w_said)).2.
Lemma w_said_code : w_said_call = (0, w_said).
Proof. refine (pair_code w_said_call 0 _). vm_compute. reflexivity. Qed.
Lemma w_said_code2 : w_start_call w_said = Some (0, w_said2).
Proof. refine (some_pair_code (w_start_call w_said) 0 _ _). vm_compute. reflexivity. Qed.
Lemma w_app_said : app_said ref_build w_s0 w_said (Some ("app", "1.0", ["a"; "b"])).
Proof.
  exact (as_set ref_build w_s0 (Some "app") (Some "1.0") (Some [Some "a"; Some "b"]) 2 w_s1 0 w_said None
    (as_init ref_build w_s0 w_cfg w_s0 0 w_s1 None eq_refl (as_boot ref_build w_s0) w_code1) w_said_code).
Qed.
Lemma version_request_answer_witness :
  ∃ l, mg_pc (sy_mgr w_said2) = Some l ∧
    ∃ rc out s2, transport_request ref_build l (Some EP_VERSION_NAME) [] w_said2 = Some (rc, out, s2) ∧
      (rc = 0 ∧ ob_data out = str_bytes (print (version_doc ref_build (Some ("app", "1.0", ["a"; "b"]))
         NETWORK_PROV_SECURITY_1 w_pop)) ∨ rc = - ENOMEM ∧ out = no_buf).
Proof.
  destruct (version_request_answer ref_build w_range NETWORK_PROV_SECURITY_1 w_pop (Some "PROV_1") None
    w_s0 w_said w_said2 _ w_boot w_app_said w_said_code2) as (l & Hpc & _ & Hreq).
  exists l. split; [exact Hpc|]. exact (Hreq []).
Defined.

Lemma auto_stop_ends_service_witness :
  k_work_pending (mg_teardown_work (sy_mgr
    (w_s3 <| sy_net := deliver ref_build (ev_wifi_result 0 0) (sy_net w_s3) |>))) = Some (cf_autostop_ms ref_build).
Proof.
  refine (proj1 (proj2 (proj2 (auto_stop_ends_service ref_build w_range 0 w_s0 w_s3 w_boot w_run3 _ _ _))));
    vm_compute; first [reflexivity|discriminate].
Defined.

(** The application does not wait for the success, the service ends, and is started again. *)
Definition w_s4 := w_s3 <| sy_net := deliver ref_build (ev_wifi_result 0 0) (sy_net w_s3) |>.
Definition w_s5 := default w_s4 (network_prov_mgr_stop_provisioning ref_build w_s4).
Definition w_s6 := (default (0, w_s5) (w_start_call w_s5)).2.
Lemma w_code5 : network_prov_mgr_stop_provisioning ref_build w_s4 = Some w_s5.
Proof. refine (some_code _ w_s4 _). vm_compute. reflexivity. Qed.
Lemma w_code6 : w_start_call w_s5 = Some (0, w_s6).
Proof. refine (some_pair_code (w_start_call w_s5) 0 _ _). vm_compute. reflexivity. Qed.
Lemma w_run5 : rtc (sys_step ref_build) w_s0 w_s5.
Proof.
  eapply rtc_r; [eapply rtc_r; [apply w_run3|apply (st_event ref_build (ev_wifi_result 0 0)); vm_compute; reflexivity]|].
  exact (st_stop ref_build _ _ w_code5).
Qed.
Lemma stale_success_ends_wait_witness : is_Some (network_prov_mgr_wait w_s6).
Proof.
  refine (stale_success_ends_wait ref_build w_range NETWORK_PROV_SECURITY_1 w_pop (Some "PROV_1") None
    w_s0 w_s5 w_s6 w_boot w_run5 _ w_code6). vm_compute. reflexivity.
Defined.

(** ** The transports, over the object that echoes *)
Lemma cookie_round_trip_witness :
  cookie_of_headers UINT32_MAX [(Some "Accept", Some "*"); (Some "cookie", Some "lang=en; session=42; b=1")] = Some 42.
Proof.
  refine (proj1 (cookie_round_trip UINT32_MAX _ 42 "cookie" "lang=en; " "; b=1" [(Some "Accept", Some "*")] [] _ _ _ _ _));
    [vm_compute; discriminate|vm_compute; split; discriminate|reflexivity| | |reflexivity].
  - apply Forall_singleton. by exists "Accept".
  - intros a b Hab Hb.
    do 9 (destruct a as [|c a];
      [change (EmptyString +:+ b) with b in Hab; subst b; reflexivity
      |change (String c a +:+ b) with (String c (a +:+ b)) in Hab; injection Hab as <- Hab]).
    destruct a; [change (EmptyString +:+ b) with b in Hab; by subst b|discriminate Hab].
Defined.

Lemma cookie_parsing_lenient_witness :
  cookie_of_headers UINT32_MAX [(Some "Cookie", Some "session=12abc")] = Some 12.
Proof. refine (proj1 (cookie_parsing_lenient UINT32_MAX _)). vm_compute. discriminate. Defined.

Lemma url_routing_witness : ep_name_from_url "/prov-config?x=1" EP_NAME_CAP = "prov-config".
Proof. exact (url_routing "prov-config" "?x=1" eq_refl (or_intror (ex_intro _ "x=1" eq_refl))). Defined.

Definition w_sa : softap Z := mk_softap (Some 1%positive) [] false 0 None false 0.
Definition w_rq (st : http_header_status) (b : bytes) : http_request_ctx := mk_request st [] b.
Definition w_cb1 : callback := mk_cb 5 "/echo" HTTP_SERVER_REQUEST_DATA_MORE (w_rq HTTP_HEADER_STATUS_OK [1; 2]) None.
Definition w_cb2 : callback := mk_cb 6 "/echo" HTTP_SERVER_REQUEST_DATA_FINAL (w_rq HTTP_HEADER_STATUS_OK [9]) None.
Definition w_cb3 : callback := mk_cb 5 "/echo" HTTP_SERVER_REQUEST_DATA_FINAL (w_rq HTTP_HEADER_STATUS_OTHER [3]) None.
Lemma http_request_atomic_witness :
  ∃ sa', run_cbs UINT32_MAX [w_cb1; w_cb2; w_cb3] w_sa machine0 =
    Some ([(0, response_untouched); (- EBUSY, response_untouched);
           (0, mk_response None [("Set-Cookie", "session=7")] (Some [1; 2; 3]) true)], sa', machine0) ∧
    served_state 7 w_sa sa'.
Proof.
  assert (Hs : serve "echo" None [1; 2; 3] w_sa machine0 =
    Some (mk_response None [("Set-Cookie", "session=7")] (Some [1; 2; 3]) true, 7, machine0)) by (vm_compute; reflexivity).
  assert (Hlast : next_part 5 w_cb3) by (by split).
  assert (Hfirst : first_part UINT32_MAX 5 None w_cb1) by (by repeat split).
  assert (Hmid : Forall (between 5) [w_cb2]) by (apply Forall_singleton; right; discriminate).
  assert (Hlen : blen (rq_data (cb_rq w_cb1) ++ concat (part_of 5 <$> [w_cb2]) ++ rq_data (cb_rq w_cb3)) <= REQ_BUF_LEN)
    by (vm_compute; discriminate).
  pose proof (http_request_atomic UINT32_MAX 5 None w_cb1 [w_cb2] w_cb3 w_sa machine0 (conj eq_refl (conj eq_refl eq_refl))
    Hfirst eq_refl Hmid Hlast eq_refl Hlen) as H.
  change (cb_ep w_cb3) with "echo" in H.
  change (rq_data (cb_rq w_cb1) ++ concat (part_of 5 <$> [w_cb2]) ++ rq_data (cb_rq w_cb3)) with [1; 2; 3] in H.
  cbv zeta in H. rewrite Hs in H. exact H.
Defined.

Lemma http_single_and_oversize_witness :
  ∃ sa', run_cb UINT32_MAX w_cb2 w_sa machine0 =
    Some (0, mk_response None [("Set-Cookie", "session=7")] (Some [9]) true, sa', machine0) ∧ served_state 7 w_sa sa'.
Proof.
  assert (Hs : serve "echo" None [9] w_sa machine0 =
    Some (mk_response None [("Set-Cookie", "session=7")] (Some [9]) true, 7, machine0)) by (vm_compute; reflexivity).
  assert (Hfirst : first_part UINT32_MAX 6 None w_cb2) by (by repeat split).
  assert (Hlen : blen (rq_data (cb_rq w_cb2)) <= REQ_BUF_LEN) by (vm_compute; discriminate).
  pose proof (proj1 (http_single_and_oversize UINT32_MAX 6 None [] w_cb2 w_sa machine0)
    (conj eq_refl (conj eq_refl eq_refl)) Hfirst eq_refl Hlen) as H.
  change (cb_ep w_cb2) with "echo" in H. change (rq_data (cb_rq w_cb2)) with [9] in H.
  rewrite Hs in H. exact H.
Defined.

Definition w_co : console := mk_console (Some 1%positive) 0 false.
Lemma console_command_roundtrip_witness :
  cmd_net_prov UINT32_MAX "echo" "7" "01ff" w_co machine0 =
    Some (0, Some "01ff", mk_console (Some 1%positive) 7 true, machine0).
Proof.
  refine (console_command_roundtrip UINT32_MAX _ 1%positive "echo" 7 [1; 255] w_co machine0 eq_refl _ _);
    [vm_compute; discriminate|split; discriminate|]. repeat constructor; discriminate.
Defined.

Lemma console_heap_balance_witness : allocated machine0 ∖ ∅ = allocated machine0 ∖ ∅.
Proof.
  apply (console_heap_balance UINT32_MAX ltac:(vm_compute; discriminate) (fun _ => ∅) "echo" "7" "01ff" w_co machine0 0
    (Some "01ff") (mk_console (Some 1%positive) 7 true) machine0); try reflexivity.
  - intros [l|] n b s0 ret out s1 Hr; cbn in Hr.
    + destruct (String.eqb n "echo"); injection Hr as <- <- <-; cbn; pose proof (is_fresh (m_heap s0)); set_solver.
    + injection Hr as <- <- <-. cbn. set_solver.
  - intros pc s0 s1 Hs. injection Hs as <-. set_solver.
Defined.

Definition w_ble0 : ble := ble_zero (replicate 16 17).
Definition w_ble := Eval vm_compute in network_prov_ble_start 6 (Some 1%positive) (Some "PROV_1") w_ble0 machine0.
Definition w_bl : ble := Eval vm_compute in default w_ble0 ((fun x => x.1.2) <$> w_ble).
Lemma ble_service_mirrors_endpoints_witness :
  ∃ names, names = ["proto-ver"; "echo"] ∧ bl_registered w_bl = true ∧ (length (bl_attrs w_bl) ≤ 25)%nat.
Proof.
  destruct (ble_service_mirrors_endpoints 6 (Some 1%positive) (Some "PROV_1") w_ble0 machine0 w_bl machine0)
    as (names & Hn & _ & Hr & _ & Hl & _).
  - by repeat split.
  - vm_compute. reflexivity.
  - injection Hn as Hn. exists names. split; [by symmetry|]. split; [exact Hr|exact Hl].
Defined.

Lemma ble_request_response_witness :
  write_ep 256 1 [5; 6] 0 true w_bl machine0 = Some (att_len 2, w_bl, machine0).
Proof.
  exact (proj1 (ble_request_response 256 1 [5; 6] w_bl machine0 (mk_io "echo" []) eq_refl) 0).
Defined.

Lemma ble_session_follows_connection_witness : connected 0 w_bl machine0 = Some machine0.
Proof. exact (proj1 (proj2 (ble_session_follows_connection w_bl machine0))). Defined.

Lemma ble_advertising_sizes_witness : adv_size (bl_sd (build_adv 6 (Some "PROV_1") w_ble0 machine0)) <= 31.
Proof. refine (proj1 (ble_advertising_sizes 6 w_ble0 (Some "PROV_1") machine0 _)). by repeat split. Defined.

Definition w_noadv : machine := machine0 <| m_answers := [-5] |>.
Lemma ble_failed_start_keeps_service_witness :
  bl_pc w_bl = Some 1%positive.
Proof.
  refine (proj1 (ble_failed_start_keeps_service 6 (Some 1%positive) (Some "PROV_1") w_ble0 w_noadv (-5) w_bl
    machine0 _ _)); [vm_compute; reflexivity|discriminate].
Defined.

(** The program serving over Bluetooth, with advertising that starts: a central connects. *)
Local Abbreviation w_up_ops := (prov_scheme_ops (BT := ref_bluetooth_up) ref_build ref_tconfig).
Local Abbreviation w_up_step := (prog_step (BT := ref_bluetooth_up) ref_build ref_tconfig).
Definition w_ble_cfg : mgr_config := mk_mgr_config (Some network_prov_scheme_ble) true 3.
Definition w_b1 := (network_prov_mgr_init ref_build w_ble_cfg w_s0).2.
Local Abbreviation w_up_start := (network_prov_mgr_start_provisioning (SO := w_up_ops) ref_build NETWORK_PROV_SECURITY_1 w_pop
  (Some "PROV_1") None w_b1).
Definition w_b2 := (default (0, w_b1) w_up_start).2.
Local Abbreviation w_up_connect := (handle_event (BT := ref_bluetooth_up) ref_build ref_tconfig (te_connected 0) w_b2).
Definition w_b3 := default w_b2 w_up_connect.
Lemma w_up_code1 : network_prov_mgr_init ref_build w_ble_cfg w_s0 = (0, w_b1).
Proof. refine (pair_code _ 0 _). vm_compute. reflexivity. Qed.
Lemma w_up_code2 : w_up_start = Some (0, w_b2).
Proof. refine (some_pair_code w_up_start 0 w_b1 _). vm_compute. reflexivity. Qed.
Lemma w_up_code3 : w_up_connect = Some w_b3.
Proof. refine (some_code w_up_connect w_b2 _). vm_compute. reflexivity. Qed.
Lemma w_up_step1 : w_up_step w_s0 w_b1.
Proof. apply pg_sys. exact (st_init ref_build w_ble_cfg _ 0 _ eq_refl w_up_code1). Qed.
Lemma w_up_step2 : w_up_step w_b1 w_b2.
Proof.
  apply pg_sys. refine (st_start (SO := w_up_ops) ref_build NETWORK_PROV_SECURITY_1 w_pop (Some "PROV_1") None w_b1 0 w_b2 _).
  exact w_up_code2.
Qed.
Lemma w_up_step3 : w_up_step w_b2 w_b3.
Proof. refine (pg_event _ _ (te_connected 0) w_b2 w_b3 I _). exact w_up_code3. Qed.
Lemma w_up_run : rtc w_up_step w_s0 w_b3.
Proof. eapply rtc_l; [apply w_up_step1|]. eapply rtc_l; [apply w_up_step2|]. apply rtc_once, w_up_step3. Qed.
Lemma transports_never_fault_witness :
  (scheme_pc network_prov_scheme_ble (sy_tr w_b3) = None ∨ serves network_prov_scheme_ble w_b3 ∨
   dangling (BT := ref_bluetooth_up) ref_build ref_tconfig network_prov_scheme_ble w_s0 w_b3) ∧
  is_Some (handle_event (BT := ref_bluetooth_up) ref_build ref_tconfig (te_command "prov-scan" "1" "0a") w_b3).
Proof.
  destruct (transports_never_fault (BT := ref_bluetooth_up) (TransportEnvLaws0 := ref_transport_env_up)
    ref_build ref_tconfig w_range w_s0 w_b3 w_boot (boot_sys_sized _) w_up_run) as (_ & Hptr & _ & Hcmd & _).
  split; [exact (Hptr network_prov_scheme_ble)|apply Hcmd].
Defined.

(** The same service where advertising does not start. *)
Definition w_d0 := boot_sys w_noadv.
Definition w_d1 := (network_prov_mgr_init ref_build w_ble_cfg w_d0).2.
Local Abbreviation w_d_start :=
  (network_prov_mgr_start_provisioning ref_build NETWORK_PROV_SECURITY_1 w_pop (Some "PROV_1") None w_d1).
Definition w_d2 := (default (-5, w_d1) w_d_start).2.
Definition w_d_obj : loc := Eval vm_compute in default 1%positive (bl_pc (t_ble (sy_tr w_d2))).
Lemma w_d_code1 : network_prov_mgr_init ref_build w_ble_cfg w_d0 = (0, w_d1).
Proof. refine (pair_code _ 0 _). vm_compute. reflexivity. Qed.
Lemma w_d_code2 : w_d_start = Some (-5, w_d2).
Proof. refine (some_pair_code w_d_start (-5) w_d1 _). vm_compute. reflexivity. Qed.
Lemma failed_ble_start_dangles_witness :
  handle_event ref_build ref_tconfig (te_connected 0) w_d2 = None.
Proof.
  refine (proj1 (proj2 (proj2 (failed_ble_start_dangles ref_build ref_tconfig w_range NETWORK_PROV_SECURITY_1 w_pop
    (Some "PROV_1") None w_d0 w_d1 (-5) w_d2 w_d_obj (boot_sys_ok w_noadv eq_refl)
    (rtc_once _ _ (st_init ref_build w_ble_cfg _ 0 _ eq_refl w_d_code1)) _ w_d_code2 _ _))));
    vm_compute; first [reflexivity|discriminate].
Defined.

(** ** The handlers inside the running program *)
Lemma w_due4 : due (ev_wifi_result 0 0) (sy_net w_s3).
Proof. vm_compute. reflexivity. Qed.
Lemma w_run4 : rtc (sys_step ref_build) w_s0 w_s4.
Proof. exact (rtc_r _ _ _ w_run3 (st_event ref_build (ev_wifi_result 0 0) w_s3 w_due4)). Qed.
Lemma w_started4 : mg_started (sy_mgr w_s4) = true.
Proof. vm_compute. reflexivity. Qed.
Local Abbreviation w_report4 := (WifiConfig.get_status_resp (n_wc (sy_net w_s4)) (n_env (sy_net w_s4))).
Local Abbreviation w_state4 := (wstate_connected (WifiConfig.fill_connected_state (n_wc (sy_net w_s4)) (n_env (sy_net w_s4)))).
Lemma w_reported4 : cfg_payload w_report4 =
  cfg_resp_get_wifi_status Status_Success WifiStationState_Connected w_state4.
Proof. vm_compute. reflexivity. Qed.
Lemma program_wifi_history_witness :
  WifiConfig.mo_ok (WifiConfig.monitor 3 (net_log (n_plat (sy_net w_s4)))) = true ∧
  WifiConfig.report_agrees 3 (WifiConfig.monitor 3 (net_log (n_plat (sy_net w_s4))))
    (WifiConfig.wc_attempts_completed (n_wc (sy_net w_s4))) WifiStationState_Connected w_state4.
Proof.
  destruct (WifiHistory.program_wifi_history ref_build 3 w_three eq_refl (fun _ Hc => Hc) w_range w_s0 w_s4 w_boot
    eq_refl eq_refl ltac:(discriminate) w_run4) as [Hok Hrep].
  rewrite w_started4 in Hrep. split; [exact Hok|exact (Hrep _ _ w_reported4)].
Defined.

(** A Thread build: a dataset is sent and applied, and waits for its attach. *)
Definition w_tbuild : build_config := mk_build true true 16 3 30000 256 256.
Section thread_program.
#[local] Instance w_tops : SchemeOps sys := prov_scheme_ops w_tbuild ref_tconfig.
Definition w_t1 := (network_prov_mgr_init w_tbuild w_cfg w_s0).2.
Local Abbreviation w_t_start :=
  (network_prov_mgr_start_provisioning w_tbuild NETWORK_PROV_SECURITY_0 None (Some "PROV_1") None w_t1).
Definition w_t2 := (default (0, w_t1) w_t_start).2.
Definition w_tobj : loc := Eval vm_compute in default 1%positive (mg_pc (sy_mgr w_t2)).
Local Abbreviation w_t_open := (transport_open w_tbuild w_tobj w_t2).
Definition w_t3 := default w_t2 w_t_open.
Definition w_tset : bytes :=
  ser (mk_config TypeCmdSetThreadConfig (cfg_cmd_set_thread_config [14; 8; 0; 0])).
Definition w_tapply : bytes := ser (mk_config TypeCmdApplyThreadConfig cfg_cmd_apply_thread_config).
Local Abbreviation w_t_req b s := (transport_request w_tbuild w_tobj (Some "prov-config") b s).
Definition w_tout4 : Z * obuf := Eval vm_compute in (default (1, no_buf, w_t3) (w_t_req w_tset w_t3)).1.
Definition w_t4 := (default (w_tout4, w_t3) (w_t_req w_tset w_t3)).2.
Definition w_tout5 : Z * obuf := Eval vm_compute in (default (1, no_buf, w_t4) (w_t_req w_tapply w_t4)).1.
Definition w_t5 := (default (w_tout5, w_t4) (w_t_req w_tapply w_t4)).2.

Lemma w_t_code1 : network_prov_mgr_init w_tbuild w_cfg w_s0 = (0, w_t1).
Proof. refine (pair_code _ 0 _). vm_compute. reflexivity. Qed.
Lemma w_t_code2 : w_t_start = Some (0, w_t2).
Proof. refine (some_pair_code w_t_start 0 w_t1 _). vm_compute. reflexivity. Qed.
Lemma w_t_code3 : w_t_open = Some w_t3.
Proof. refine (some_code w_t_open w_t2 _). vm_compute. reflexivity. Qed.
Lemma w_t_code4 : w_t_req w_tset w_t3 = Some (w_tout4, w_t4).
Proof. refine (some_pair_code (w_t_req w_tset w_t3) w_tout4 w_t3 _). vm_compute. reflexivity. Qed.
Lemma w_t_code5 : w_t_req w_tapply w_t4 = Some (w_tout5, w_t5).
Proof. refine (some_pair_code (w_t_req w_tapply w_t4) w_tout5 w_t4 _). vm_compute. reflexivity. Qed.
Lemma w_t_step1 : sys_step w_tbuild w_s0 w_t1.
Proof. exact (st_init w_tbuild w_cfg w_s0 0 w_t1 eq_refl w_t_code1). Qed.
Lemma w_t_step2 : sys_step w_tbuild w_t1 w_t2.
Proof. exact (st_start w_tbuild NETWORK_PROV_SECURITY_0 None (Some "PROV_1") None w_t1 0 w_t2 w_t_code2). Qed.
Lemma w_t_step3 : sys_step w_tbuild w_t2 w_t3.
Proof. exact (st_open w_tbuild w_tobj w_t2 w_t3 w_t_code3). Qed.
Lemma w_t_step4 : sys_step w_tbuild w_t3 w_t4.
Proof. exact (st_request w_tbuild w_tobj (Some "prov-config") w_tset w_t3 w_tout4.1 w_tout4.2 w_t4 w_t_code4). Qed.
Lemma w_t_step5 : sys_step w_tbuild w_t4 w_t5.
Proof. exact (st_request w_tbuild w_tobj (Some "prov-config") w_tapply w_t4 w_tout5.1 w_tout5.2 w_t5 w_t_code5). Qed.
Lemma w_t_run : rtc (sys_step w_tbuild) w_s0 w_t5.
Proof.
  exact (rtc_l _ _ _ _ w_t_step1 (rtc_l _ _ _ _ w_t_step2 (rtc_l _ _ _ _ w_t_step3 (rtc_l _ _ _ _ w_t_step4
    (rtc_once _ _ w_t_step5))))).
Qed.
Lemma w_t_boot : boot w_tbuild w_s0.
Proof. split; try reflexivity. by intros []. Qed.
Lemma w_t_started : mg_started (sy_mgr w_t5) = true ∧
  ThreadConfig.tc_state (n_tc (sy_net w_t5)) = ThreadNetworkState_Attaching.
Proof. vm_compute. split; reflexivity. Qed.
Lemma program_thread_history_witness :
  ThreadConfig.tc_pending (n_tc (sy_net w_t5)) = 1 ∧
  is_Some (k_work_pending (ThreadConfig.tc_attach_timeout (n_tc (sy_net w_t5)))).
Proof.
  destruct (ThreadHistory.program_thread_history w_tbuild eq_refl w_range w_s0 w_t5 w_t_boot
    eq_refl eq_refl (conj eq_refl eq_refl) w_t_run) as (_ & _ & _ & Hrep).
  exact (proj2 (proj2 (Hrep (proj1 w_t_started))) (proj2 w_t_started)).
Defined.
End thread_program.

(** ** The samples: a stored network that answers at the second attempt *)
Local Abbreviation conn_t := (SavedConnect.conn_st (Z * Z)).
Definition w_home_cred : wifi_cred := mk_cred [104; 111; 109; 101] WIFI_SECURITY_TYPE_PSK None (replicate 8 112) 0.
Definition w_conn0 : conn_t := SavedConnect.mk_conn (0, 1) 0.
Definition w_saved : machine := machine0 <| m_log := [A_cred_set w_home_cred 0] |> <| m_answers := [0; 1; 0; 0] |>.
Definition w_conn : bool * conn_t * machine := Eval vm_compute in SavedConnect.connect_saved (K := ref_kernel) w_conn0 w_saved.
Lemma w_conn_run : SavedConnect.connect_saved (K := ref_kernel) w_conn0 w_saved = (w_conn.1.1, w_conn.1.2, w_conn.2).
Proof. vm_compute. reflexivity. Qed.
Lemma connect_saved_bounded_witness :
  ∃ reqs ws, net_log w_conn.2 = net_log w_saved ++ [A_cb_add] ++ reqs ++ [A_cb_del] ∧
    m_waits w_conn.2 = m_waits w_saved ++ ws ∧ (length reqs ≤ 5)%nat ∧ SavedConnect.waited ws <= 255.
Proof.
  destruct (SavedConnect.connect_saved_bounded (K := ref_kernel) w_conn0 w_saved _ _ _ w_conn_run)
    as (reqs & ws & H1 & H2 & H3 & _ & _ & H4). exists reqs, ws. split; [exact H1|]. split; [exact H2|].
  split; [exact H3|exact H4].
Defined.
Lemma connect_saved_first_success_witness :
  (SavedConnect.first_success 5 2 (net_mgmt_add_event_callback w_saved)).1 = true.
Proof.
  destruct (SavedConnect.connect_saved_first_success (K := ref_kernel) w_conn0 w_saved _ _ _ eq_refl w_conn_run)
    as (e1 & H & _). change SavedConnect.SAVED_CONN_ATTEMPTS with 5%nat in H. rewrite H. reflexivity.
Defined.

(** The attempt of the Wi-Fi witness succeeds, and the device boots again. *)
Definition w_accepted : wifi_t * machine := Eval vm_compute in
  WifiConfig.on_connect_result (K := ref_kernel) 0 0 w_wifi2.1 w_wifi2.2.
Definition w_rebooted : machine := Eval vm_compute in w_accepted.2 <| m_answers := [0; 0] |>.
Definition w_reconn : bool * conn_t * machine := Eval vm_compute in
  SavedConnect.connect_saved (K := ref_kernel) w_conn0 w_rebooted.
Lemma reboot_requests_provisioned_witness :
  SavedConnect.saved_now (net_mgmt_add_event_callback w_rebooted) = Some (WifiConfig.inflight_params w_wifi2.1).
Proof.
  refine (proj1 (SavedConnect.reboot_requests_provisioned (K := ref_kernel) 3 machine0 w_wifi2.2 w_accepted.2 w_rebooted
    w_reconn.2 w_wifi2.1 w_accepted.1 0 w_conn0 w_reconn.1.2 w_reconn.1.1 w_three eq_refl w_wifi_run _ eq_refl _ eq_refl _ _ _));
    [discriminate|vm_compute; reflexivity|vm_compute; repeat constructor| |vm_compute; reflexivity].
  apply (bool_decide_unpack _). vm_compute. exact I.
Defined.

(** The console sample without a stored network: it waits, with its endpoint. *)
Definition w_echo : @app_handler_t machine ref_application := tt.
Local Abbreviation w_main s :=
  (Samples.wifi_prov_console_main ref_build w_echo network_prov_scheme_console w_conn0 s).
Definition w_mained : sys := (default ((Samples.main_waits, w_conn0), w_s0) (w_main w_s0)).2.
Lemma w_main_code : w_main w_s0 = Some ((Samples.main_waits, w_conn0), w_mained).
Proof. refine (some_pair_code (w_main w_s0) (Samples.main_waits, w_conn0) w_s0 _). vm_compute. reflexivity. Qed.
Lemma w_echo_is c b (e : machine) : app_handler w_echo c b e = Samples.app_custom_handler b e.
Proof. reflexivity. Qed.
Lemma custom_endpoint_echoes_witness :
  ∃ l p ep, mg_pc (sy_mgr w_mained) = Some l ∧ sy_pcs w_mained !! l = Some p ∧ find_ep p "custom-data" = Some ep.
Proof.
  destruct (Samples.custom_endpoint_echoes (E := machine) (K := ref_kernel) (SC := prov_schemes Z) ref_build w_range w_echo (Samples.wifi_prov_console_main ref_build w_echo)
    network_prov_scheme_console w_conn0 w_s0 w_conn0 w_mained w_echo_is
    ltac:(vm_compute; repeat constructor) ltac:(left) w_boot w_main_code) as (l & p & ep & H1 & H2 & H3 & _).
  exists l, p, ep. split; [exact H1|]. split; [exact H2|exact H3].
Defined.

(** The same sample on a device that has a network stored. *)
Definition w_stored0 : sys := boot_sys w_saved.
Lemma w_stored_boot : boot ref_build w_stored0.
Proof. split; try reflexivity. by intros []. Qed.
Lemma wifi_main_outcome_witness :
  ∃ m st' s', w_main w_stored0 = Some (m, st', s') ∧ sys_inv ref_build s' ∧ Samples.spares (net_log w_saved) (n_env (sy_net s')).
Proof.
  destruct (Samples.wifi_main_outcome (E := machine) (K := ref_kernel) (SC := prov_schemes Z) ref_build w_range w_echo (Samples.wifi_prov_console_main ref_build w_echo)
    network_prov_scheme_console w_conn0 w_stored0 ltac:(right; left) w_stored_boot) as (m & st' & s' & H1 & H2 & H3 & _).
  exists m, st', s'. split; [exact H1|]. split; [exact H2|exact H3].
Defined.
