(* ===== verification/ChannelWitnesses.v ===== *)
(** * ChannelWitnesses: the secure channel's properties on the concrete machine

    A Wi-Fi build, started on SoftAP under security 1 (the runs of Witnesses.v), whose
    transport opens a session; the client has the same proof of possession. *)
From S2P Require Import Prelude Platform Messages Protocomm Security0 Psa Security1 Sec1Client NetEnv Manager ManagerFrame ManagerInv ManagerFacts.
From S2P Require Import System SecureChannel Program RefPlatform RefSystem Witnesses.

Lemma secure_session_established_witness :
  ∃ l s1 c e' s2, mg_pc (sy_mgr w_s2) = Some l ∧ transport_open ref_build l w_s2 = Some s1 ∧
    prov_client_handshake (session_xport ref_build l) session_free prov_client_init w_pop machine0 (Some s1) =
      (0, c, e', Some s2) ∧ in_step c l s2.
Proof.
  exact (secure_session_established ref_build w_range w_pop (Some "PROV_1") None machine0 w_s0 w_s1 w_s2
    w_boot w_run1 w_code2 eq_refl).
Defined.

Lemma wrong_pop_locked_out_witness :
  ∃ l s1 secret iv rc c e' s2, mg_pc (sy_mgr w_s2) = Some l ∧ transport_open ref_build l w_s2 = Some s1 ∧
    length secret = SESSION_KEY_LEN ∧
    prov_client_handshake (session_xport ref_build l) session_free prov_client_init (Some "wxyz") machine0 (Some s1) =
      (rc, c, e', Some s2) ∧
    (aes_ctr (mix_pop secret (client_pop (Some "wxyz"))) iv 0 32 ≠ aes_ctr (mix_pop secret (pop_bytes w_pop)) iv 0 32 →
     rc = - EACCES ∧ locked l s2).
Proof.
  destruct (wrong_pop_locked_out ref_build w_range w_pop (Some "wxyz") (Some "PROV_1") None machine0 w_s0 w_s1 w_s2
    w_boot w_run1 w_code2) as (l & s1 & secret & iv & rc & c & e' & s2 & H1 & H2 & H3 & H4 & H5 & _).
  exists l, s1, secret, iv, rc, c, e', s2. exact (conj H1 (conj H2 (conj H3 (conj H4 H5)))).
Defined.

(** The session a transport opened, and what the client made of it. *)
Definition w_obj : loc := Eval vm_compute in default 1%positive (mg_pc (sy_mgr w_s2)).
Local Abbreviation w_open_call := (transport_open ref_build w_obj w_s2).
Definition w_opened := default w_s2 w_open_call.
Local Abbreviation w_hand_call := (prov_client_handshake (session_xport ref_build w_obj) session_free prov_client_init w_pop machine0 (Some w_opened)).
Definition ctx_of (s : sys) : option (sec1_ctx cipher_state) :=
  match sy_pcs s !! w_obj with
  | Some p => match pc_sec_ctx p with Some (ctx_sec1 c) => Some c | _ => None end
  | None => None
  end.
Definition w_open_ctx : sec1_ctx cipher_state := Eval vm_compute in default w_sec1_zero (ctx_of w_opened).

Definition runs_sec1 (s : sys) : bool :=
  match sy_pcs s !! w_obj with
  | Some p => match pc_sec p with Some NETWORK_PROV_SECURITY_1 => true | _ => false end
  | None => false
  end.
Lemma has_session ctx s : runs_sec1 s = true → ctx_of s = Some ctx → sec1_session w_obj ctx s.
Proof.
  unfold runs_sec1, ctx_of. destruct (sy_pcs s !! w_obj) as [p|] eqn:Hp; [|done].
  intros Hs Hc. exists p. split; [exact Hp|]. split; [by destruct (pc_sec p) as [[]|]|].
  repeat case_match; simplify_eq; assumption.
Qed.

Definition w_sc_ep : protocomm_ep prov_handler nat := mk_ep EP_SCAN_NAME EP_DATA (Some H_wifi_scan) None.

Lemma w_locked : locked w_obj w_opened.
Proof. exists w_open_ctx. split; [apply has_session; vm_compute; reflexivity|discriminate]. Qed.


(** The empty request, sent by anyone right after the session was opened. *)
Lemma locked_session_request_witness :
  ∃ rc s', transport_request ref_build w_obj (Some EP_SCAN_NAME) [] w_opened = Some (rc, no_buf, s') ∧
    ∃ ret raw, handler_ran ref_build w_sc_ep [] w_opened ret raw s'.
Proof.
  destruct (locked_session_request ref_build w_obj EP_SCAN_NAME w_sc_ep [] w_opened w_locked) as (rc & s' & Ht & _ & Hran).
  - vm_compute. reflexivity.
  - reflexivity.
  - eexists. reflexivity.
  - exists rc, s'. split; [exact Ht|exact Hran].
Defined.
