(* ===== verification/InFlightWitnesses.v ===== *)
(** * InFlightWitnesses: interrupted requests and retries on the concrete machine

    The session of ChannelWitnesses.v: a scan request arrives, and between its look-up
    and its handler the client disconnects, or the application stops the service. *)
From S2P Require Import Prelude Platform Messages Protocomm Security0 Psa Security1 NetEnv Manager ManagerFrame ManagerInv ManagerFacts InFlight.
From S2P Require Import System SecureChannel Program RefPlatform RefSystem Witnesses ChannelWitnesses.
From S2P Require WifiConfig WifiRace.

Local Abbreviation w_enter_call := (rq_step ref_build w_obj EP_SCAN_NAME [] RQ_enter w_opened).
Local Abbreviation w_close_call s := (transport_close ref_build w_obj s).
Local Abbreviation w_stop_call s := (network_prov_mgr_stop_provisioning ref_build s).
(** The third endpoint of the table, and no plaintext. *)
Definition w_in_call : rq_pc := RQ_call 2 no_buf.
Definition w_if1 := (default (w_in_call, w_opened) w_enter_call).2.
Definition w_if2 := default w_if1 (w_close_call w_if1).
Definition w_if3 := default w_if1 (w_stop_call w_if1).

Lemma w_if_open : sys_step ref_build w_s2 w_opened.
Proof.
  apply (st_open ref_build w_obj). refine (some_code (transport_open ref_build w_obj w_s2) w_s2 _).
  vm_compute. reflexivity.
Qed.
Lemma w_if_run : rtc (sys_step ref_build) w_s0 w_opened.
Proof. eapply rtc_r; [apply w_run2|apply w_if_open]. Qed.
Lemma w_if_enter : il_step ref_build w_obj EP_SCAN_NAME [] (RQ_enter, w_opened) (w_in_call, w_if1).
Proof. apply il_request. refine (some_pair_code w_enter_call w_in_call w_opened _). vm_compute. reflexivity. Qed.
Lemma w_if_close : il_step ref_build w_obj EP_SCAN_NAME [] (w_in_call, w_if1) (w_in_call, w_if2).
Proof.
  apply il_other, (st_close ref_build w_obj). refine (some_code (w_close_call w_if1) w_if1 _).
  vm_compute. reflexivity.
Qed.
Lemma w_if_stopped : torn_down ref_build w_if1 w_if3.
Proof.
  left. split; [vm_compute; discriminate|]. refine (some_code (w_stop_call w_if1) w_if1 _). vm_compute. reflexivity.
Qed.
Lemma w_if_alive s : (if sy_pcs s !! w_obj then true else false) = true → is_Some (sy_pcs s !! w_obj).
Proof. destruct (sy_pcs s !! w_obj) as [p|]; [intros _; exists p; reflexivity|discriminate]. Qed.

Lemma request_in_flight_safe_witness :
  let x := (w_in_call, w_if2) in mg_started (sy_mgr x.2) = true ∧
  ∃ pc' s', rq_step ref_build w_obj EP_SCAN_NAME [] x.1 x.2 = Some (pc', s').
Proof.
  intros x. destruct (request_in_flight_safe ref_build w_obj EP_SCAN_NAME [] w_range w_s0 w_opened x w_boot w_if_run)
    as (Hs & _ & pc' & s' & Hr & _).
  - vm_compute. reflexivity.
  - eapply rtc_l; [split; [apply w_if_enter|apply w_if_alive; vm_compute; reflexivity]|].
    apply rtc_once. split; [apply w_if_close|apply w_if_alive; vm_compute; reflexivity].
  - split; [exact Hs|]. exists pc', s'. exact Hr.
Defined.

Lemma teardown_faults_request_witness :
  il_step ref_build w_obj EP_SCAN_NAME [] (w_in_call, w_if1) (w_in_call, w_if3) ∧
  rq_step ref_build w_obj EP_SCAN_NAME [] w_in_call w_if3 = None.
Proof.
  apply (teardown_faults_request ref_build w_obj EP_SCAN_NAME [] w_range w_s0 w_opened w_in_call w_if1 w_if3 w_boot w_if_run).
  - apply rtc_once, w_if_enter.
  - vm_compute. reflexivity.
  - apply w_if_stopped.
Defined.

(** A retry of the network "hi" under way while the service is torn down. *)
Definition w_retrying : WifiConfig.wifi_cfg (option Z) := Eval vm_compute in
  WifiConfig.snapshot (K := ref_kernel)
    (WifiConfig.do_set_config (K := ref_kernel) (mk_set_wifi (str_bytes "hi") [] [] 0) (WifiConfig.wc_zero (K := ref_kernel))).2.
Definition w_torn : WifiConfig.wifi_cfg (option Z) * machine :=
  Eval vm_compute in WifiConfig.network_prov_wifi_config_deinit (K := ref_kernel) w_retrying machine0.

Lemma retry_teardown_race_witness :
  ∃ pc rc e2, WifiRace.wrace_step (K := ref_kernel) (WifiRace.mk_wrace [] WifiRace.RW_connect w_torn.1 w_torn.2)
      (WifiRace.mk_wrace [] pc w_torn.1 e2) ∧
    net_log e2 = net_log w_torn.2 ++
      [A_wifi_connect 1 (mk_connect_params [] None WIFI_SECURITY_TYPE_NONE WIFI_CHANNEL_ANY None) rc].
Proof.
  exact (proj2 (proj2 (WifiRace.retry_teardown_race (K := ref_kernel) w_retrying machine0) 1
    ltac:(discriminate) eq_refl)).
Defined.
