(* ===== verification/Suites.v ===== *)
(** * Suites: the repository's own tests, run on the model

    The suites under src/tests, call for call, against the machine of RefPlatform.v
    and RefSystem.v: protocomm, security1, manager_api, console, protocomm_http,
    thread_config and fake_wifi. A test is a
    sequence of calls and assertions; it passes if no assertion fails and no call
    faults. Assertions on addresses and NULL out-pointers the model has no value for are
    left out. The cryptography is the toy one, so security1, console and protocomm_http
    check the protocol and not the ciphers; in manager_api the simulated driver's verdict on the last connection
    request is delivered where the test waits for an event. *)
From S2P Require Import Prelude Platform PbUtil Messages Protocomm Security0 Psa Security1 Schemes Sec1Client NetEnv.
From S2P Require Import Json Manager ManagerInv FakeWifi CNum Transport Softap Console System Program RefPlatform RefSystem Simulated.
From S2P Require WifiConfig ThreadConfig ThreadScan.

(** ** Calls and assertions *)
Definition test (S A : Type) : Type := S → option (A * S).
#[local] Instance test_ret {S} : MRet (test S) := fun A a s => Some (a, s).
#[local] Instance test_bind {S} : MBind (test S) := fun A B f m s => '(a, s1) ← m s; f a s1.

Definition zassert {S} (b : bool) : test S unit := fun s => if b then Some (tt, s) else None.
Definition zassert_equal {S A} `{EqDecision A} (x y : A) : test S unit := zassert (bool_decide (x = y)).
Definition zassert_not_equal {S A} `{EqDecision A} (x y : A) : test S unit := zassert (bool_decide (x ≠ y)).
(** A call that returns a code, asserted to be [rc]. *)
Definition returns {S} (call : S → Z * S) (rc : Z) : test S unit :=
  fun s => let '(r, s1) := call s in if r =? rc then Some (tt, s1) else None.
Definition runs {S} (call : S → option S) : test S unit := fun s => s1 ← call s; Some (tt, s1).
Definition passes {S} (t : test S unit) (s : S) : bool := bool_decide (is_Some (t s)).

Fixpoint repeat_test {S} (n : nat) (f : nat → test S unit) : test S unit :=
  match n with O => mret tt | S k => repeat_test k f ;; f k end.

(** The client's keystream, one transformation. *)
Definition xform {S} (c : prov_client cipher_state) (b : bytes) : test S (bytes * prov_client cipher_state) := fun s =>
  let '(rc, out, c1) := prov_client_xform (H := ref_psa) c b in if rc =? 0 then Some ((out, c1), s) else None.

(** ** The object under test and the machine *)
Inductive test_handler := echo_handler | noop_handler.

Definition run_handler (h : test_handler) (_ : option unit) (inbuf : bytes) (e : machine) : Z * obuf * machine :=
  match h with
  | echo_handler =>
      let prefix := str_bytes "echo:" in
      match k_malloc (blen prefix + blen inbuf) e with
      | (None, e1) => (- ENOMEM, no_buf, e1)
      | (Some out, e1) => (0, mk_obuf (Some out) (prefix ++ inbuf), e1)
      end
  | noop_handler => (0, no_buf, e)
  end.

Section core.
Context {Ctx : Type} {CB : Callbacks machine test_handler unit unit Ctx}.
Local Abbreviation pcomm := (protocomm test_handler unit unit Ctx).
Local Abbreviation bench := (option (loc * pcomm) * machine)%type.

Definition the_pc (s : bench) : option pcomm := snd <$> s.1.
Definition put_pc (p : option pcomm) (s : bench) : bench :=
  (match s.1, p with Some (l, _), Some q => Some (l, q) | o, _ => o end, s.2).

Definition new : test bench unit := fun s =>
  let '(o, e) := protocomm_new 256 s.2 in if o then Some (tt, (o, e)) else None.
(** ... after which the heap is empty again, as nothing leaked. *)
Definition delete_pc : test bench unit := fun s =>
  let e := protocomm_delete s.1 s.2 in if bool_decide (allocated e = ∅) then Some (tt, (None, e)) else None.
Definition add_endpoint name h (s : bench) : Z * bench :=
  let '(rc, p) := protocomm_add_endpoint (the_pc s) (Some name) (Some h) None in (rc, put_pc p s).
Definition set_version name v (s : bench) : Z * bench :=
  let '(rc, p) := protocomm_set_version (the_pc s) (Some name) (Some v) in (rc, put_pc p s).
Definition set_security name pop (s : bench) : Z * bench :=
  let '(rc, p) := protocomm_set_security (the_pc s) (Some name) (Some tt) pop in (rc, put_pc p s).
Definition open_session (s : bench) : option bench :=
  let '(p, e) := protocomm_open_session (the_pc s) s.2 in Some (put_pc p (s.1, e)).
Definition close_session (s : bench) : option bench :=
  let '(p, e) := protocomm_close_session (the_pc s) s.2 in Some (put_pc p (s.1, e)).
Definition req_handle name (inbuf : bytes) : test bench (Z * obuf) := fun s =>
  '(rc, out, p, e) ← protocomm_req_handle (the_pc s) (Some name) inbuf true s.2; Some ((rc, out), put_pc p (s.1, e)).
Definition free_resp (out : obuf) (s : bench) : option bench := Some (s.1, k_free (ob_ptr out) s.2).
Definition observe {A} (f : option pcomm → A) : test bench A := fun s => Some (f (the_pc s), s).
End core.

Definition junk : bytes := [255; 255; 255; 255; 127; 66; 19].

(** ** tests/protocomm *)
Section protocomm_suite.
#[local] Instance plain_callbacks : Callbacks machine test_handler unit unit sec0_ctx := sec0_callbacks run_handler.
Local Abbreviation suite := (test (option (loc * protocomm test_handler unit unit sec0_ctx) * machine) unit).

Definition S0_Session_Command : Z := 0.
Definition do_sec0_handshake : suite :=
  match pb_encode 64 (mk_session 0 (proto_sec0 (mk_sec0 S0_Session_Command sec0_sc))) with
  | None => zassert false
  | Some buf =>
      '(ret, resp) ← req_handle "prov-session" buf;
      zassert_equal ret 0 ;;
      zassert (0 <? blen (ob_data resp)) ;;
      zassert (match pb_decode (ob_data resp) with
               | Some sd => match sd_proto sd with
                            | proto_sec0 (mk_sec0 m (sec0_sr st)) =>
                                (m =? Sec0MsgType_S0_Session_Response) && (st =? Status_Success)
                            | _ => false end
               | None => false end) ;;
      runs (free_resp resp)
  end.

Definition test_lifecycle_and_registry : suite :=
  new ;;
  (n ← observe protocomm_endpoint_count; zassert_equal n 0%nat) ;;
  returns (add_endpoint "ep-a" echo_handler) 0 ;;
  returns (add_endpoint "ep-b" echo_handler) 0 ;;
  (n ← observe protocomm_endpoint_count; zassert_equal n 2%nat) ;;
  (x ← observe (fun pc => protocomm_endpoint_name pc 0); zassert_equal x (Some "ep-a")) ;;
  (x ← observe (fun pc => protocomm_endpoint_name pc 1); zassert_equal x (Some "ep-b")) ;;
  (x ← observe (fun pc => protocomm_endpoint_name pc 2); zassert_equal x None) ;;
  delete_pc.

Definition ep_number (i : nat) : string := String.append "ep-" (String (ascii_of_nat (48 + i)) EmptyString).
Definition test_endpoint_capacity : suite :=
  new ;;
  repeat_test PROTOCOMM_MAX_ENDPOINTS (fun i => returns (add_endpoint (ep_number i) noop_handler) 0) ;;
  (n ← observe protocomm_endpoint_count; zassert_equal n PROTOCOMM_MAX_ENDPOINTS) ;;
  (fun s => if (add_endpoint "overflow" noop_handler s).1 =? 0 then None else Some (tt, s)) ;;
  delete_pc.

Definition VERSION_JSON : string :=
  "{" +:+ quote "prov" +:+ ":{" +:+ quote "ver" +:+ ":" +:+ quote "v1.1" +:+ "," +:+ quote "sec_ver" +:+ ":0}}".
Definition test_version_endpoint : suite :=
  new ;;
  returns (set_version "proto-ver" VERSION_JSON) 0 ;;
  '(ret, out) ← req_handle "proto-ver" [];
  zassert_equal ret 0 ;;
  zassert_equal (ob_data out) (str_bytes VERSION_JSON) ;;
  runs (free_resp out) ;;
  delete_pc.

Definition test_unknown_endpoint : suite :=
  new ;;
  '(ret, _) ← req_handle "nope" [];
  zassert_equal ret (- ENOENT) ;;
  delete_pc.

Definition test_data_requires_session : suite :=
  new ;;
  returns (add_endpoint "data" echo_handler) 0 ;;
  '(ret, _) ← req_handle "data" (str_bytes "x");
  zassert_equal ret (- EACCES) ;;
  delete_pc.

Definition test_sec0_session_and_echo : suite :=
  new ;;
  returns (add_endpoint "data" echo_handler) 0 ;;
  returns (set_security "prov-session" None) 0 ;;
  runs open_session ;;
  do_sec0_handshake ;;
  '(ret, out) ← req_handle "data" (str_bytes "hello");
  zassert_equal ret 0 ;;
  zassert_equal (ob_data out) (str_bytes "echo:hello") ;;
  runs (free_resp out) ;;
  runs close_session ;;
  delete_pc.

Definition test_malformed_session_request_rejected : suite :=
  new ;;
  returns (set_security "prov-session" None) 0 ;;
  runs open_session ;;
  '(ret, out) ← req_handle "prov-session" junk;
  zassert_not_equal ret 0 ;;
  runs (free_resp out) ;;
  runs close_session ;;
  delete_pc.

Definition protocomm_suite : list suite :=
  [test_lifecycle_and_registry; test_endpoint_capacity; test_version_endpoint; test_unknown_endpoint;
   test_data_requires_session; test_sec0_session_and_echo; test_malformed_session_request_rejected].
Example protocomm_suite_passes : forallb (fun t => passes t (None, machine0)) protocomm_suite = true.
Proof. vm_compute. reflexivity. Qed.
End protocomm_suite.

(** ** tests/security1 *)
Section security1_suite.
#[local] Instance sec1_test_callbacks : Callbacks machine test_handler unit unit (sec1_ctx cipher_state) :=
  sec1_callbacks (PS := ref_psa) run_handler 256.
Local Abbreviation bench := (option (loc * protocomm test_handler unit unit (sec1_ctx cipher_state)) * machine)%type.
Local Abbreviation suite := (test bench unit).

Definition DATA_EP : string := "data".
Definition POP : option string := Some "abcd1234".

(** The transport adapter; a call that faults is a test that fails. *)
Definition pc_xport (ep : string) (inbuf : bytes) (d : option bench) : Z * obuf * option bench :=
  match s ← d; req_handle ep inbuf s with
  | Some (rc, out, s1) => (rc, out, Some s1)
  | None => (-1, no_buf, None)
  end.
Definition free_both (p : option loc) (d : option bench) : option bench :=
  s ← d; free_resp (mk_obuf p []) s.

(** The client runs on a machine of its own. *)
Definition handshake (pop : option string) (m : machine) : test bench (Z * prov_client cipher_state * machine) := fun s =>
  let '(rc, c, m1, d) := prov_client_handshake (H := ref_psa) (pc_xport "prov-session") free_both (prov_client_init (H := ref_psa)) pop m (Some s) in
  s1 ← d; Some ((rc, c, m1), s1).
Definition encrypted_echo (c : prov_client cipher_state) (msg : string) : test bench (prov_client cipher_state) :=
  '(enc, c1) ← xform c (str_bytes msg);
  '(ret, out) ← req_handle DATA_EP enc;
  zassert_equal ret 0 ;;
  '(plain, c2) ← xform c1 (ob_data out);
  runs (free_resp out) ;;
  zassert_equal plain (str_bytes ("echo:" +:+ msg)) ;;
  mret c2.

Definition make_pc (device_pop : option string) : suite :=
  new ;;
  returns (add_endpoint DATA_EP echo_handler) 0 ;;
  returns (set_security "prov-session" device_pop) 0 ;;
  runs open_session.

Definition test_handshake_with_pop_and_echo : suite :=
  make_pc POP ;;
  '(ret, c, _) ← handshake POP machine0;
  zassert_equal ret 0 ;;
  c ← encrypted_echo c "hello";
  c ← encrypted_echo c "second message, a bit longer";
  encrypted_echo c "3" ;;
  runs close_session ;;
  delete_pc.

Definition test_handshake_without_pop : suite :=
  make_pc None ;;
  '(ret, c, _) ← handshake None machine0;
  zassert_equal ret 0 ;;
  encrypted_echo c "plain pop-less session" ;;
  runs close_session ;;
  delete_pc.

Definition test_wrong_pop_rejected : suite :=
  make_pc POP ;;
  '(ret, _, _) ← handshake (Some "not-the-pop") machine0;
  zassert_equal ret (- EACCES) ;;
  '(ret, _) ← req_handle DATA_EP (replicate 8 0);
  zassert_not_equal ret 0 ;;
  runs close_session ;;
  delete_pc.

Definition test_session_reset_allows_rehandshake : suite :=
  make_pc POP ;;
  '(ret, c1, m) ← handshake POP machine0;
  zassert_equal ret 0 ;;
  encrypted_echo c1 "first session" ;;
  runs open_session ;;
  '(ret, c2, _) ← handshake POP (prov_client_destroy (H := ref_psa) c1 m);
  zassert_equal ret 0 ;;
  encrypted_echo c2 "second session" ;;
  runs close_session ;;
  delete_pc.

Definition test_malformed_handshake_rejected : suite :=
  make_pc POP ;;
  '(ret, out) ← req_handle "prov-session" junk;
  zassert_not_equal ret 0 ;;
  runs (free_resp out) ;;
  '(ret, out) ← req_handle DATA_EP (replicate 8 0);
  zassert_not_equal ret 0 ;;
  runs (free_resp out) ;;
  runs close_session ;;
  delete_pc.

Definition security1_suite : list suite :=
  [test_handshake_with_pop_and_echo; test_handshake_without_pop; test_wrong_pop_rejected;
   test_session_reset_allows_rehandshake; test_malformed_handshake_rejected].
Example security1_suite_passes : forallb (fun t => passes t (None, machine0)) security1_suite = true.
Proof. vm_compute. reflexivity. Qed.
End security1_suite.

(** ** tests/manager_api *)
Section manager_api_suite.
Local Abbreviation suite := (test sys unit).

(** The test's build: the auto-stop after 200 ms. *)
Definition test_build : build_config := mk_build false true 16 3 200 256 256.
Definition GOOD_SSID : string := "HomeNet".
Definition GOOD_PASS : string := "goodpassword".
Definition WRONG_PASS : string := "wrongpassword".

Definition program_network (d : fake_wifi_data unit bool) : fake_wifi_data unit bool :=
  fake_wifi_set_expected_credentials (Some (str_bytes GOOD_SSID)) (Some (str_bytes GOOD_PASS))
    (fake_wifi_set_scan_aps 8
       [mk_ap (str_bytes GOOD_SSID) (strlen GOOD_SSID) [0; 17; 34; 51; 68; 85] 6 (-40) WIFI_SECURITY_TYPE_PSK] 1 d).

Definition events (s : sys) : list network_prov_cb_event :=
  omap (fun a => match a with A_emit ev => Some ev | _ => None end) (m_log (n_plat (sy_net s))).
Definition is_success ev := match ev with NETWORK_PROV_CRED_SUCCESS => true | _ => false end.
Definition is_fail ev := match ev with NETWORK_PROV_CRED_FAIL _ => true | _ => false end.
Definition saw (p : network_prov_cb_event → bool) (s : sys) : bool := existsb p (events s).
Definition state_is (f : sys → bool) : suite := fun s => zassert (f s) s.

(** The driver answers the connection request that was made last. *)
Definition last_request (s : sys) : option wifi_connect_req_params :=
  last (omap (fun a => match a with A_wifi_connect _ p _ => Some p | _ => None end) (m_log (n_plat (sy_net s)))).
Definition driver_answers (s : sys) : option sys :=
  p ← last_request s;
  let v := creds_outcome (program_network fw_zero) p in
  Some (s <| sy_net := deliver test_build (ev_wifi_result v v) (sy_net s) |>).
Definition retry_due (s : sys) : option sys :=
  k_work_pending (WifiConfig.wc_retry_work (n_wc (sy_net s))) ;;
  Some (s <| sy_net := deliver test_build ev_wifi_retry (sy_net s) |>).
Definition auto_stop_due (s : sys) : option sys :=
  k_work_pending (mg_teardown_work (sy_mgr s)) ;; teardown_work_fn test_build s.

Definition init_on (sch : prov_scheme) (cb : bool) (attempts : Z) : suite :=
  returns (network_prov_mgr_init test_build (mk_mgr_config (Some (sch : scheme_t)) cb attempts)) 0.
Definition start_as (name : string) : suite := fun s =>
  '(rc, s1) ← network_prov_mgr_start_provisioning test_build NETWORK_PROV_SECURITY_1 (Some "abcd1234") (Some name) None s;
  if rc =? 0 then Some (tt, s1) else None.
Definition init (attempts : Z) : suite := init_on network_prov_scheme_softap true attempts.
Definition start : suite := start_as "PROV_T".
Definition disable_auto_stop : suite := returns (network_prov_mgr_disable_auto_stop 0) 0.
Definition start_mgr : suite := init 0 ;; start.
Definition configure (ssid pass : option string) (rc : Z) : suite :=
  returns (network_prov_mgr_configure_wifi_sta test_build ssid pass) rc.
Definition stop : suite := runs (network_prov_mgr_stop_provisioning test_build).
Definition deinit : suite := runs (network_prov_mgr_deinit test_build).
(** Both reset calls: they do the same. *)
Definition reset_sm (rc : Z) : suite := returns (network_prov_mgr_reset_wifi_sm_state_on_failure test_build) rc.
Definition create (name : string) (rc : Z) : suite := returns (network_prov_mgr_endpoint_create (Some name)) rc.
Definition register (name : string) (rc : Z) : suite :=
  returns (network_prov_mgr_endpoint_register (Some name) (Some (tt : @app_handler_t machine ref_application)) None) rc.
Definition unregister (name : string) (rc : Z) : suite :=
  returns (network_prov_mgr_endpoint_unregister (Some name)) rc.
Definition erase (rc : Z) : suite := returns (network_prov_mgr_reset_wifi_provisioning test_build) rc.
Definition remaining (ptr : bool) : test sys (Z * option Z) := fun s =>
  Some (network_prov_mgr_get_wifi_remaining_conn_attempts test_build ptr s, s).
Definition provisioned (ptr : bool) : test sys (Z * option bool) := fun s =>
  Some (network_prov_mgr_is_provisioned test_build ptr s, s).

Definition test_configure_wifi_sta_success_then_auto_stop : suite :=
  start_mgr ;;
  state_is (fun s => negb (network_prov_mgr_is_sm_idle s)) ;;
  configure (Some GOOD_SSID) (Some GOOD_PASS) 0 ;;
  runs driver_answers ;;
  state_is (fun s => bool_decide (events s =
    [NETWORK_PROV_INIT; NETWORK_PROV_START; NETWORK_PROV_CRED_RECV; NETWORK_PROV_CRED_SUCCESS])) ;;
  runs auto_stop_due ;;
  state_is (saw (fun ev => bool_decide (ev = NETWORK_PROV_END))) ;;
  state_is network_prov_mgr_is_sm_idle ;;
  deinit.

Definition test_configure_wifi_sta_wrong_password : suite :=
  start_mgr ;;
  configure (Some GOOD_SSID) (Some WRONG_PASS) 0 ;;
  runs driver_answers ;;
  state_is (saw is_fail) ;;
  state_is (fun s => negb (saw is_success s)) ;;
  stop ;;
  deinit.

Definition test_disable_auto_stop_keeps_service_up : suite :=
  init 0 ;;
  disable_auto_stop ;;
  start ;;
  configure (Some GOOD_SSID) (Some GOOD_PASS) 0 ;;
  runs driver_answers ;;
  state_is (saw is_success) ;;
  state_is (fun s => bool_decide (k_work_pending (mg_teardown_work (sy_mgr s)) = None)) ;;
  state_is (fun s => negb (network_prov_mgr_is_sm_idle s)) ;;
  stop ;;
  state_is network_prov_mgr_is_sm_idle ;;
  deinit.

Definition test_reset_wrappers_require_active : suite :=
  reset_sm (- EPERM) ;;
  reset_sm (- EPERM) ;;
  configure (Some GOOD_SSID) (Some GOOD_PASS) (- EPERM) ;;
  start_mgr ;;
  reset_sm 0 ;;
  reset_sm 0 ;;
  configure None None (- EINVAL) ;;
  stop ;;
  deinit.

Definition test_custom_endpoint_api : suite :=
  init 0 ;;
  create "my-ep" 0 ;;
  create "my-ep" (- EALREADY) ;;
  create "prov-scan" (- EALREADY) ;;
  create "0123456789abcdef" (- EINVAL) ;;
  register "my-ep" (- EPERM) ;;
  start ;;
  create "late" (- EPERM) ;;
  register "my-ep" 0 ;;
  register "nope" (- ENOENT) ;;
  unregister "my-ep" 0 ;;
  unregister "nope" (- ENOENT) ;;
  stop ;;
  deinit.

Definition test_is_provisioned_and_reset : suite :=
  (r ← provisioned false; zassert_equal r (- EINVAL, None)) ;;
  erase (- EPERM) ;;
  start_mgr ;;
  erase 0 ;;
  (r ← provisioned true; zassert_equal r (0, Some false)) ;;
  configure (Some GOOD_SSID) (Some GOOD_PASS) 0 ;;
  runs driver_answers ;;
  state_is (saw is_success) ;;
  (r ← provisioned true; zassert_equal r (0, Some true)) ;;
  erase 0 ;;
  (r ← provisioned true; zassert_equal r (0, Some false)) ;;
  stop ;;
  deinit.

Definition test_remaining_conn_attempts : suite :=
  (r ← remaining true; zassert_equal r (- EINVAL, None)) ;;
  init 2 ;;
  start ;;
  (r ← remaining false; zassert_equal r (- EINVAL, None)) ;;
  (r ← remaining true; zassert_equal r (0, Some 2)) ;;
  configure (Some GOOD_SSID) (Some WRONG_PASS) 0 ;;
  runs driver_answers ;;
  state_is (fun s => negb (saw is_fail s)) ;;
  runs retry_due ;;
  runs driver_answers ;;
  state_is (saw is_fail) ;;
  (r ← remaining true; zassert_equal r (0, Some 0)) ;;
  stop ;;
  deinit.

(** [network_prov_mgr_wait] blocks until the result is in. *)
Definition test_wait_unblocks_on_success : suite :=
  start_mgr ;;
  configure (Some GOOD_SSID) (Some GOOD_PASS) 0 ;;
  state_is (fun s => if network_prov_mgr_wait s then false else true) ;;
  runs driver_answers ;;
  runs network_prov_mgr_wait ;;
  state_is (saw is_success) ;;
  stop ;;
  deinit.

Definition manager_api_suite : list suite :=
  [test_configure_wifi_sta_success_then_auto_stop; test_configure_wifi_sta_wrong_password;
   test_disable_auto_stop_keeps_service_up; test_reset_wrappers_require_active; test_custom_endpoint_api;
   test_is_provisioned_and_reset; test_remaining_conn_attempts; test_wait_unblocks_on_success].
Example manager_api_suite_passes : forallb (fun t => passes t (boot_sys machine0)) manager_api_suite = true.
Proof. vm_compute. reflexivity. Qed.
End manager_api_suite.

(** ** tests/console *)
Section console_suite.
Local Abbreviation suite := (test sys unit).

(** The shell runs the command; the line it prints is the response in hexadecimal. *)
Definition console_xport (sid : Z) (ep : string) (inbuf : bytes) (s : sys) : option (Z * bytes * sys) :=
  '(rc, line, co, s1) ← cmd_net_prov (PA := sys_api test_build) UINT32_MAX ep (print_u32 sid) (bin2hex inbuf)
    (t_console (sy_tr s)) s;
  let s2 := put_console co s1 in
  if negb (rc =? 0) then Some (- EIO, [], s2)
  else match hex2bin (default EmptyString line) with
       | Some b => Some (0, b, s2)
       | None => Some (- EILSEQ, [], s2)
       end.
Definition shell_xport (sid : Z) (b : bytes) (d : option sys) : Z * obuf * option sys :=
  match s ← d; console_xport sid EP_SESSION_NAME b s with
  | Some (rc, out, s1) => (rc, mk_obuf None out, Some s1)
  | None => (-1, no_buf, None)
  end.
Definition send (sid : Z) (ep : string) (b : bytes) : test sys (Z * bytes) := fun s =>
  '(rc, out, s1) ← console_xport sid ep b s; Some ((rc, out), s1).
Definition shell_handshake (sid : Z) : test sys (Z * prov_client cipher_state) := fun s =>
  let '(rc, c, _, d) := prov_client_handshake (H := ref_psa) (shell_xport sid) (fun _ d => d)
    (prov_client_init (H := ref_psa)) (Some "abcd1234") machine0 (Some s) in
  s1 ← d; Some ((rc, c), s1).

Definition console_suite_setup : suite :=
  init_on network_prov_scheme_console false 0 ;; disable_auto_stop ;; start_as "PROV_CON".
Definition console_suite_teardown : suite := stop ;; deinit.

Fixpoint contains (needle hay : bytes) : bool :=
  match hay with
  | [] => false
  | _ :: tl => bool_decide (take (length needle) hay = needle) || contains needle tl
  end.

Definition test_proto_ver : suite :=
  '(ret, json) ← send 0 "proto-ver" [0];
  zassert_equal ret 0 ;;
  zassert (contains (str_bytes (quote "sec_ver" +:+ ":1")) json) ;;
  zassert (contains (str_bytes "wifi_prov") json).

Definition test_handshake_then_get_wifi_status : suite :=
  '(ret, c) ← shell_handshake 0;
  zassert_equal ret 0 ;;
  match pb_encode 64 (mk_config TypeCmdGetWifiStatus cfg_cmd_get_wifi_status) with
  | None => zassert false
  | Some plain =>
      '(enc, c1) ← xform c plain;
      '(ret, resp) ← send 0 "prov-config" enc;
      zassert_equal ret 0 ;;
      '(dec, _) ← xform c1 resp;
      zassert (match pb_decode dec with
               | Some r => match cfg_payload r with
                           | cfg_resp_get_wifi_status status _ _ => (cfg_msg r =? TypeRespGetWifiStatus) && (status =? Status_Success)
                           | _ => false end
               | None => false end)
  end.

Definition test_session_reset_on_new_session_id : suite :=
  '(ret, c) ← shell_handshake 1;
  zassert_equal ret 0 ;;
  '(enc, _) ← xform c [222; 173; 190; 239; 1; 2; 3; 4];
  '(ret, _) ← send 2 "prov-config" enc;
  zassert (ret <? 0).

(** One service for the whole suite, as its set-up starts it. *)
Definition console_suite : suite :=
  console_suite_setup ;; test_proto_ver ;; test_handshake_then_get_wifi_status ;;
  test_session_reset_on_new_session_id ;; console_suite_teardown.
Example console_suite_passes : passes console_suite (boot_sys machine0) = true.
Proof. vm_compute. reflexivity. Qed.
End console_suite.

(** ** tests/protocomm_http *)
Section protocomm_http_suite.
#[local] Instance http_test_callbacks : Callbacks machine test_handler unit unit (sec1_ctx cipher_state) :=
  sec1_callbacks (PS := ref_psa) run_handler 256.
Local Abbreviation core := (option (loc * protocomm test_handler unit unit (sec1_ctx cipher_state)) * machine)%type.

(** The device: the object, and the random numbers drawn so far. *)
Record device := mk_device { dev_core : core; dev_rand : Z }.
Definition on_core {A} (f : core → A * core) (d : device) : A * device :=
  let '(a, c) := f (dev_core d) in (a, mk_device c (dev_rand d)).
#[local] Instance device_heap : KHeap device :=
  {| k_malloc n := on_core (fun c => let '(l, e) := k_malloc n c.2 in (l, (c.1, e)));
     k_free p d := mk_device ((dev_core d).1, k_free p (dev_core d).2) (dev_rand d);
     allocated d := allocated (dev_core d).2 |}.
#[local] Instance device_random : Random32 device := fun d => (dev_rand d, mk_device (dev_core d) (dev_rand d + 1)).
#[local] Instance device_http : HttpServer device := {| http_server_start d := (0, d); http_server_stop d := d |}.
#[local] Instance device_api : ProtocommApi device :=
  {| api_open_session _ d := c ← open_session (dev_core d); Some (mk_device c (dev_rand d));
     api_close_session _ d := c ← close_session (dev_core d); Some (mk_device c (dev_rand d));
     api_req_handle _ ep b d := '((rc, out), c) ← req_handle ep b (dev_core d); Some (rc, out, mk_device c (dev_rand d));
     api_endpoint_names _ _ := None |}.

(** With the transport's variables and the cookie the client keeps. *)
Record world := mk_world { w_device : device; w_softap : softap Z; w_cookie : option string }.
Local Abbreviation suite := (test world unit).

Definition on_device (t : test core unit) : suite := fun w =>
  '(_, c) ← t (dev_core (w_device w)); Some (tt, mk_world (mk_device c (dev_rand (w_device w))) (w_softap w) (w_cookie w)).

(** What the server passes to the callback for a path. *)
Definition user_data_of (uri : string) : option string :=
  r ← head (filter (fun r => res_uri r = Some uri) prov_http_resources); res_user_data r.

(** One request of the client on connection [conn]; its response and its end. *)
Definition do_post (conn : Z) (send_cookie : bool) (uri : string) (body : bytes) : test world (Z * bytes) := fun w =>
  let headers := (Some "Host", Some "127.0.0.1") ::
    match w_cookie w with Some c => if send_cookie then [(Some "Cookie", Some c)] else [] | None => [] end in
  '(rc, resp, sa, d) ← prov_http_handler UINT32_MAX conn uri HTTP_SERVER_REQUEST_DATA_FINAL
    (mk_request HTTP_HEADER_STATUS_OK headers body) (user_data_of uri) (w_softap w) (w_device w);
  '(_, _, sa2, d2) ← prov_http_handler UINT32_MAX conn uri HTTP_SERVER_TRANSACTION_COMPLETE
    (mk_request HTTP_HEADER_STATUS_OK [] []) (user_data_of uri) sa d;
  let cookie := match rs_headers resp with (_, c) :: _ => Some c | [] => w_cookie w end in
  match rs_status resp, rs_body resp with
  | None, Some b => if rc =? 0 then Some ((0, b), mk_world d2 sa2 cookie) else Some ((- EIO, []), mk_world d2 sa2 cookie)
  | _, _ => Some ((- EIO, []), mk_world d2 sa2 cookie)
  end.

Definition http_xport (conn : Z) (b : bytes) (d : option world) : Z * obuf * option world :=
  match w ← d; do_post conn true "/prov-session" b w with
  | Some ((rc, out), w1) => (rc, mk_obuf None out, Some w1)
  | None => (-1, no_buf, None)
  end.
Definition http_handshake (conn : Z) : test world (Z * prov_client cipher_state) := fun w =>
  let '(rc, c, _, d) := prov_client_handshake (H := ref_psa) (http_xport conn) (fun _ d => d)
    (prov_client_init (H := ref_psa)) POP machine0 (Some w) in
  w1 ← d; Some ((rc, c), w1).
(** [None]: the request was refused. *)
Definition http_echo (conn : Z) (c : prov_client cipher_state) (msg : string)
    : test world (Z * prov_client cipher_state) :=
  '(enc, c1) ← xform c (str_bytes msg);
  '(rc, out) ← do_post conn true "/prov-config" enc;
  if rc <? 0 then mret (rc, c1)
  else '(plain, c2) ← xform c1 out; zassert_equal plain (str_bytes ("echo:" +:+ msg)) ;; mret (0, c2).
Definition echoes (conn : Z) (c : prov_client cipher_state) (msg : string) : test world (prov_client cipher_state) :=
  '(rc, c1) ← http_echo conn c msg; zassert_equal rc 0 ;; mret c1.
Definition cookie_now : test world (option string) := fun w => Some (w_cookie w, w).
Definition has_cookie : suite :=
  c ← cookie_now; zassert (String.prefix SESSION_EQ (default EmptyString c)).
Definition get_version (conn : Z) (body : bytes) : suite :=
  '(rc, out) ← do_post conn false "/proto-ver" body;
  zassert_equal rc 0 ;; zassert_equal out (str_bytes VERSION_JSON).

Definition http_start : suite := fun w =>
  let '(rc, sa, d) := network_prov_softap_http_start (fst <$> (dev_core (w_device w)).1) (w_softap w) (w_device w) in
  if rc =? 0 then Some (tt, mk_world d sa (w_cookie w)) else None.
Definition http_stop : suite := fun w =>
  let '(sa, d) := network_prov_softap_http_stop (w_softap w) (w_device w) in Some (tt, mk_world d sa (w_cookie w)).
Definition http_suite_setup : suite :=
  on_device (new ;;
    returns (set_version "proto-ver" VERSION_JSON) 0 ;;
    returns (set_security "prov-session" POP) 0 ;;
    returns (add_endpoint "prov-config" echo_handler) 0) ;;
  http_start.
Definition http_suite_teardown : suite := http_stop ;; on_device delete_pc.

Definition http_test_proto_ver : suite := get_version 1 (str_bytes "---") ;; has_cookie.
Definition test_sec1_session_per_request_connections : suite :=
  '(rc, c) ← http_handshake 1;
  zassert_equal rc 0 ;;
  c ← echoes 2 c "hello-over-http";
  echoes 3 c "second message" ;; mret tt.
Definition test_cookie_reset_semantics : suite :=
  '(rc, c) ← http_handshake 1;
  zassert_equal rc 0 ;;
  c ← echoes 2 c "before reset";
  saved ← cookie_now;
  get_version 3 (str_bytes "---") ;;
  (now ← cookie_now; zassert_not_equal now saved) ;;
  (r ← http_echo 4 c "stale keystream"; zassert (r.1 <? 0)) ;;
  '(rc, c2) ← http_handshake 5;
  zassert_equal rc 0 ;;
  echoes 6 c2 "second session" ;; mret tt.
Definition test_keepalive_like_esp_prov : suite :=
  get_version 1 (str_bytes "---") ;;
  has_cookie ;;
  '(rc, c) ← http_handshake 1;
  zassert_equal rc 0 ;;
  c ← echoes 1 c "hello-keepalive";
  echoes 1 c "still in lock-step" ;; mret tt.
Definition test_concurrent_connections : suite :=
  get_version 1 (str_bytes "-") ;;
  get_version 2 (str_bytes "-") ;;
  get_version 3 (str_bytes "-") ;;
  get_version 1 (str_bytes "-") ;;
  get_version 2 (str_bytes "-").

Definition protocomm_http_suite : suite :=
  http_suite_setup ;; http_test_proto_ver ;; test_sec1_session_per_request_connections ;;
  test_cookie_reset_semantics ;; test_keepalive_like_esp_prov ;; test_concurrent_connections ;;
  http_suite_teardown.
Example protocomm_http_suite_passes :
  passes protocomm_http_suite (mk_world (mk_device (None, machine0) 1000) (t_softap ref_transports) None) = true.
Proof. vm_compute. reflexivity. Qed.
End protocomm_http_suite.

(** ** tests/thread_config *)
Section thread_config_suite.
Import ThreadConfig ThreadScan.

(** OpenThread's dataset store, as the history has it; the node has not joined. *)
#[local] Instance thread_node : OpenThread machine :=
  {| openthread_cb_register := openthread_cb_register (OpenThread := ref_openthread);
     openthread_cb_unregister := openthread_cb_unregister (OpenThread := ref_openthread);
     otDatasetSetActiveTlvs := otDatasetSetActiveTlvs (OpenThread := ref_openthread);
     otIp6SetEnabled := otIp6SetEnabled (OpenThread := ref_openthread);
     otThreadSetEnabled := otThreadSetEnabled (OpenThread := ref_openthread);
     otInstanceErasePersistentInfo := otInstanceErasePersistentInfo (OpenThread := ref_openthread);
     otDatasetIsCommissioned e := existsb (fun a => match a with A_ot_dataset_set _ 0 => true | _ => false end) (m_log e);
     otThreadGetDeviceRole := m_role;
     otLinkGetPanId _ := 4660; otLinkGetChannel _ := 15; otThreadGetExtendedPanId _ := replicate 8 1;
     otThreadGetNetworkName _ := "ref"; otLinkGetSupportedChannelMask _ := 134215680;
     otThreadDiscover := otThreadDiscover (OpenThread := ref_openthread) |}.

Local Abbreviation tc_st := (thread_cfg (option Z) * machine)%type.
Local Abbreviation ts_st := (thread_scan_st (Z * Z) * machine)%type.

Definition run_config_handler (req : NetworkConfigPayload) : test tc_st NetworkConfigPayload := fun s =>
  buf ← pb_encode 300 req;
  let '(ret, out, tc, e) := network_prov_thread_config_handler (K := ref_kernel) buf s.1 s.2 in
  if negb (ret =? 0) then None
  else resp ← pb_decode (ob_data out); Some (resp, (tc, k_free (ob_ptr out) e)).
Definition tc_call (f : machine → Z * thread_cfg (option Z) * machine) : test tc_st unit := fun s =>
  let '(rc, tc, e) := f s.2 in if rc =? 0 then Some (tt, (tc, e)) else None.
Definition tc_do (f : thread_cfg (option Z) → machine → thread_cfg (option Z) * machine) : test tc_st unit := fun s =>
  Some (tt, f s.1 s.2).
Definition tc_is (f : machine → bool) : test tc_st unit := fun s => zassert (f s.2) s.
Definition emitted_event (p : network_prov_cb_event → bool) (e : machine) : bool :=
  existsb (fun a => match a with A_emit ev => p ev | _ => false end) (m_log e).

(** Any TLVs do: the dataset is opaque to the handler. The manager, which the test
    initialises for its event callback, is the machine's log of events here. *)
Definition test_dataset : bytes := [14; 8; 0; 0; 0; 0; 0; 1; 0; 0].

Definition test_set_apply_status : test tc_st unit :=
  tc_call (network_prov_thread_config_init (K := ref_kernel)) ;;
  resp ← run_config_handler (mk_config TypeCmdSetThreadConfig (cfg_cmd_set_thread_config test_dataset));
  zassert (match resp with
           | mk_config m (cfg_resp_set_thread_config st) => (m =? TypeRespSetThreadConfig) && (st =? Status_Success)
           | _ => false end) ;;
  resp ← run_config_handler (mk_config TypeCmdApplyThreadConfig cfg_cmd_apply_thread_config);
  zassert (match resp with
           | mk_config m (cfg_resp_apply_thread_config st) => (m =? TypeRespApplyThreadConfig) && (st =? Status_Success)
           | _ => false end) ;;
  tc_is (emitted_event (fun ev => bool_decide (ev = NETWORK_PROV_CRED_RECV))) ;;
  tc_is (fun e => negb (emitted_event is_fail e)) ;;
  tc_is network_prov_thread_is_commissioned ;;
  resp ← run_config_handler (mk_config TypeCmdGetThreadStatus cfg_cmd_get_thread_status);
  zassert (match resp with
           | mk_config m (cfg_resp_get_thread_status st state _) =>
               (m =? TypeRespGetThreadStatus) && (st =? Status_Success) &&
               ((state =? ThreadNetworkState_Attaching) || (state =? ThreadNetworkState_Attached))
           | _ => false end) ;;
  tc_do (network_prov_thread_config_reset (K := ref_kernel)) ;;
  tc_do (network_prov_thread_config_deinit (K := ref_kernel)).

Definition run_scan_handler (req : NetworkScanPayload) : test ts_st NetworkScanPayload := fun s =>
  buf ← pb_encode 64 req;
  let '(ret, out, _, ts, e) := network_prov_thread_scan_handler (K := ref_kernel) 16 buf [] s.1 s.2 in
  if negb (ret =? 0) then None
  else resp ← pb_decode (ob_data out); Some (resp, (ts, k_free (ob_ptr out) e)).
Definition answers_with (req : NetworkScanPayload) (msg : Z) : test ts_st unit :=
  resp ← run_scan_handler req; zassert_equal (scan_msg resp) msg.

Definition test_scan_start_status_result : test ts_st unit :=
  (returns (fun s => let '(rc, ts) := network_prov_thread_scan_init (K := ref_kernel) s.1 in (rc, (ts, s.2))) 0 : test ts_st unit) ;;
  answers_with (mk_scan TypeCmdScanThreadStart Status_Success (scan_cmd_thread_start false 0)) TypeRespScanThreadStart ;;
  answers_with (mk_scan TypeCmdScanThreadStatus Status_Success scan_cmd_thread_status) TypeRespScanThreadStatus ;;
  answers_with (mk_scan TypeCmdScanThreadResult Status_Success (scan_cmd_thread_result 0 4)) TypeRespScanThreadResult.

Example thread_config_suite_passes :
  passes test_set_apply_status (tc_zero (K := ref_kernel), machine0) &&
  passes test_scan_start_status_result (mk_ts [] false false (0, 1), machine0) = true.
Proof. vm_compute. reflexivity. Qed.
End thread_config_suite.

(** ** tests/fake_wifi *)
Section fake_wifi_suite.
Local Abbreviation driver := (fake_wifi_data unit bool).
Local Abbreviation suite := (test driver unit).

Definition home_net : fake_wifi_ap :=
  mk_ap (str_bytes "HomeNet") 7 [0; 17; 34; 51; 68; 85] 6 (-40) WIFI_SECURITY_TYPE_PSK.
Definition cafe_net : fake_wifi_ap :=
  mk_ap (str_bytes "Cafe") 4 [170; 187; 204; 221; 238; 255] 11 (-70) WIFI_SECURITY_TYPE_NONE.
Definition set_up (f : driver → driver) : suite := fun d => Some (tt, f d).
Definition do_connect (ssid psk : string) : driver → Z * driver :=
  fake_connect (mk_connect_params (str_bytes ssid) (Some (str_bytes psk)) WIFI_SECURITY_TYPE_PSK WIFI_CHANNEL_ANY None).

(** [k_sem_take(&ev.connect_sem)]: the queue runs the work, if there is any. *)
Definition connect_result : test driver (option Z) := fun d =>
  if k_work_queued (fw_connect_work d) then
    let '(st, d1) := connect_work_fn (d <| fw_connect_work := k_work_dequeue (fw_connect_work d) |>) in
    Some (Some st, d1)
  else Some (None, d).
Definition connects (ssid psk : string) (status : Z) : suite :=
  returns (do_connect ssid psk) 0 ;; r ← connect_result; zassert_equal r (Some status).

(** The number of results, and whether the last call is the end of the scan. *)
Definition scan_outcome : test driver (nat * bool) := fun d =>
  calls ← scan_work_fn d;
  let ends c := match c : scan_call with (_, _, st, None) => st =? 0 | _ => false end in
  Some ((length (filter (fun c => ends c = false) calls), match last calls with Some c => ends c | None => false end), d).
Definition scans (n : nat) : suite := returns (fake_scan tt) 0 ;; r ← scan_outcome; zassert_equal r (n, true).

Definition test_scan_reports_canned_aps : suite :=
  set_up (fake_wifi_set_scan_aps 8 [home_net; cafe_net] 2) ;; scans 2.
Definition test_empty_scan : suite := scans 0.
Definition status : test driver (Z * driver_status) := fun d => Some (fake_iface_status d status_zero, d).
Definition test_connect_success : suite :=
  set_up (fake_wifi_set_next_connect_result WIFI_STATUS_CONN_SUCCESS) ;;
  connects "HomeNet" "password123" 0 ;;
  '(rc, st) ← status;
  zassert_equal rc 0 ;;
  zassert (match ds_state st with WIFI_STATE_COMPLETED => true | _ => false end) ;;
  zassert_equal (ifs_ssid_len (ds_report st)) 7 ;;
  zassert_equal (take 7 (ifs_ssid (ds_report st))) (str_bytes "HomeNet").
Definition test_connect_wrong_password : suite :=
  set_up (fake_wifi_set_next_connect_result WIFI_STATUS_CONN_WRONG_PASSWORD) ;;
  connects "HomeNet" "password123" WIFI_STATUS_CONN_WRONG_PASSWORD.
Definition test_connect_ap_not_found : suite :=
  set_up (fake_wifi_set_next_connect_result WIFI_STATUS_CONN_AP_NOT_FOUND) ;;
  connects "Ghost" "password123" WIFI_STATUS_CONN_AP_NOT_FOUND.
Definition test_connect_sync_error : suite :=
  set_up (fake_wifi_set_next_connect_sync_error EINVAL) ;;
  returns (do_connect "HomeNet" "password123") (- EINVAL) ;;
  (r ← connect_result; zassert_equal r None) ;;
  set_up (fake_wifi_set_next_connect_result WIFI_STATUS_CONN_SUCCESS) ;;
  connects "HomeNet" "password123" 0.

Definition program_one_network : suite :=
  set_up (fake_wifi_set_scan_aps 8 [home_net] 1) ;;
  set_up (fake_wifi_set_expected_credentials (Some (str_bytes "HomeNet")) (Some (str_bytes "correct-horse"))).
Definition test_creds_correct_password : suite := program_one_network ;; connects "HomeNet" "correct-horse" 0.
Definition test_creds_wrong_password : suite :=
  program_one_network ;; connects "HomeNet" "wrongpass123" WIFI_STATUS_CONN_WRONG_PASSWORD.
Definition test_creds_unknown_ssid : suite :=
  program_one_network ;; connects "Ghost" "correct-horse" WIFI_STATUS_CONN_AP_NOT_FOUND.

Definition fake_wifi_suite : list suite :=
  [test_scan_reports_canned_aps; test_empty_scan; test_connect_success; test_connect_wrong_password;
   test_connect_ap_not_found; test_connect_sync_error; test_creds_correct_password; test_creds_wrong_password;
   test_creds_unknown_ssid].
(** The suite's tests follow each other on the same driver, [before] resets it. *)
Example fake_wifi_suite_passes :
  passes (foldr (fun t k => set_up fake_wifi_reset ;; t ;; k) (mret tt) fake_wifi_suite)
    (fake_iface_init 1 (fake_wifi_init fw_zero).2) = true.
Proof. vm_compute. reflexivity. Qed.
End fake_wifi_suite.
